(* ===== verification/_CoqProject ===== *)
-Q . S2P
Prelude.v
Skb.v
CmdMgr.v
Chip.v
Host.v
Sdhci.v
SdHost.v
SdCmd.v
SdTrace.v
SdioOps.v
SdCard.v
Cis.v
FwLoad.v
Mmc.v
Rx.v
Flow.v
FwInit.v
Images.v
Power.v
Ieee80211.v
Cfg80211.v
LmacCmd.v
E2a.v
Wiphy.v
BringUp.v
SdioBus.v
CfgFile.v
Netdev.v
Handoff.v
CardIrq.v
CmdPath.v
Exchange.v
Sync.v
