(* ===== verification/Prelude.v ===== *)
(** * The AIC8800 wireless driver

    A model in Rocq of the Wi-Fi driver in this repository: a [no_std] Rust port of
    the AIC8800 SDIO driver for StarryOS on the SG2002.  The definitions are
    translated from the Rust code function by function; each carries a comment with
    the file (under src/) and the lines it translates.

    ** The program

    A request of the network stack passes through these parts:

    - the control plane (driver/fdrv/src/wiphy_impl.rs, platform.rs) builds an LMAC
      message (lmac_cmd.rs), takes one of the eight slots of the command manager
      (driver/bsp/src/cmd.rs), hands the bytes to the bustx thread and waits for the
      confirmation of its slot (driver/bsp/src/sdio/flow.rs);
    - bustx pads the command and sends it with [Aic8800Sdio::send_msg]
      (sdio/ops.rs), which waits for the flow-control register of the chip and
      writes the FIFO by CMD53;
    - CMD52 and CMD53 are split (kernel/sdhci) and run on the SDHCI controller by
      sdio/backend.rs, polled or by DMA with the interrupt handler;
    - the busrx thread reads the FIFO, walks the frames of the buffer, completes the
      slot of each confirmation, and hands indications to the handler of
      driver/fdrv/src/e2a_dispatch.rs and data frames to the data callback;
    - before any of that the BSP powers the chip (gpio.rs), enumerates the card,
      reads its CIS (sdio/cis.rs), loads the firmware (fw_load.rs, firmware.rs) and
      configures it ([aicbsp_driver_fw_init]).

    ** The files

    - Prelude: outcomes, the state monad, machine words, slices; their lemmas.
    - Skb: kernel/skb.  [SkBuff], [SkbQueue], [FrameQueue].
    - CmdMgr: bsp/cmd.rs.  [Lmac] (messages), [Mgr] (the manager as a labelled
      transition relation [Mgr.step], its invariant, the life of a command).
    - Chip: sdio/types.rs, chip_ident.rs, firmware.rs.
    - Host: the interface [SdioHost] between sdio/backend.rs and its clients, and
      [Clock], the delays.
    - Sdhci: kernel/sdhci.  CMD53 arguments, the split of transfers, the DMA buffer.
    - SdHost, SdCmd, SdTrace: sdio/backend.rs.  The controller as a machine behind
      registers ([Board]), the interrupt handler and the waits; the commands and
      transfers, which implement [SdioHost]; the commands seen on the bus.
    - SdioOps: sdio/ops.rs.  The trait [SdioOps] as a class with its two instances.
    - SdCard: a controller as the SDHCI standard describes it with an arbitrary card
      behind it ([Port], [SdioCard]), and the driver's calls as refinements of direct
      access to the card.
    - Cis: sdio/cis.rs.
    - FwLoad: fw_load.rs.  [Dbg] (messages), [Store] (images), [Load] (exchanges).
    - Mmc: kernel/mmc and sdio/mmc_impl.rs.
    - Rx: the two ends of the framing in sdio/flow.rs, [Pad] and [Rx].
    - Flow: the statics of the BSP ([Bsp]), its threads and the exchanges.
    - FwInit: [aicbsp_driver_fw_init].
    - Images: firmware_data.rs, what each build embeds, and [aicbsp_driver_fw_init]
      when an image is missing.
    - Power: gpio.rs, [aicbsp_sdio_init], [aicbsp_sdio_exit], bsp/lib.rs.
    - Ieee80211, Cfg80211: kernel/ieee80211, what the driver uses of it, and the
      interfaces with their traits.
    - LmacCmd, E2a, Wiphy: the control plane.  [WiphyOps] is the trait as a class;
      its instances are the stub and [WiphyOpsImpl].
    - BringUp: the life cycle and the control plane run on the registers of SdCard.
    - SdioBus, CfgFile, Netdev: the other modules of driver/fdrv.
    - Handoff: the submission of a command to bustx, access by access.
    - CardIrq: the card's interrupt, the handler, the three transferring threads and
      [sdio_irq_work_thread_fn], access by access.
    - CmdPath: Handoff and CardIrq together, a command from its submission to its
      result.
    - Exchange: CmdPath and CmdMgr together with what the chip sends, a request from
      [push] to its confirmation.
    - Sync: bsp/sync.rs and the functions of sdio/irq.rs over the kernel's queues.

    ** Conventions

    A call ends in [Ok], in [Err] with the code's negative number, or in [Panic]: an
    index out of range, a failed checked addition, a slice copy of unequal lengths.
    [usize] is [nat]; words and bytes are [Z], wrapped where the code wraps.  Code
    that changes state is a function of type [st S A].  What is not under src/ is
    a class the definitions are parameters of: the machine with its controller and
    card ([Board], [SdioHost], [Phys]), the delays ([Clock]), the scheduler
    ([Sched]).  The theorems hold for every instance, unless they name a simulated
    chip ([SimChip], [SimBoard]), which they do where they say that something works.

    A theorem about an instance of [SdioHost] is about any host; SdCmd proves that
    the controller driver is one ([SdCmd.sd_host]) and that its calls always end.

    ** Threads

    Flow runs the main thread's code and gives the other threads their turns where
    it sleeps, waits or takes a lock, in the order the scheduler chooses; a turn is
    one pass of the thread's loop.  Handoff splits the accesses to the statics
    [PENDING_CMD_TX] and [TX_RESULT] and the two wait queues into steps of their
    own.  CardIrq does the same for the bit CARD_INT, the flag
    [SDIO_IRQ_PENDING] and the lock of [SDIO_DEVICE].  CmdPath joins the two, and
    Exchange adds the command manager, the FIFO of the card and the caller's wait,
    with the frames of a transfer delivered under the lock it is read under.  SdHost
    runs the interrupt handler wherever the controller's code waits.

    ** What is proved

    - The command manager: eight slots, an invariant over all calls, an exact
      queue size under the callers' discipline, and that a pushed command gets its
      own confirmation ([cmd_mgr_roundtrip], [cmd_mgr_invariant],
      [cmd_mgr_queue_exact], [cmd_mgr_stale_slot]).
    - Slots as a resource: [costs] in Flow and [within] in Wiphy count what an
      operation leaves taken; the 8801 can never be initialised
      ([fw_init_8801_never_succeeds]), and a control plane survives at most eight
      timeouts ([timeouts_exhaust_slots]).
    - Life cycle: bring-up runs to its end on a simulated board
      ([set_subsys_completes], [fw_init_completes], [control_plane_completes]), and
      on the registers of the controller with that board as the card behind it
      ([bring_up_from_registers]); switching off is final
      ([power_cycle_never_works]).
    - Framing: what is received is delivered once, in order, and never panics
      ([rx_frames_in_order], [rx_never_panics], [indications_delivered]); requests
      have their layout ([requests_layout]); reports are decoded
      ([scan_result_parsed], [scan_ssid_lost]).
    - The controller: every call ends and gives the DMA buffer back
      ([controller_calls_end]), the enumeration is SDIO's ([enumeration_sequence]),
      interrupt and polling agree up to named cases ([irq_and_poll_agree]), the
      split of a transfer ([ext_helper_splits]), the DMA boundary ([dma_boundary]),
      the clock divisor ([clock_divisor_spec]).
    - The controller and a card: on a controller that follows the standard, CMD52
      and transfers of every length do to the card what direct access would
      ([controller_refines_card]), and so do messages with their flow control
      ([messages_from_registers]).
    - The hand-off between caller and bustx: at most once, in order
      ([handoff_at_most_once]), own results while nobody gives up
      ([handoff_own_result]); and the two runs that break it ([handoff_flaws]).
    - A request: whatever failed before and whatever still comes of it, who succeeds
      has the answer to its own command, and taken slots are the failures
      ([exchange_own_confirmation]); from rest an exchange can run to its end
      ([exchange_completes]); and the run in which an abandoned slot takes the answer
      of the next command ([exchange_starved]).
    - Images: which names a build can answer ([images_available]), and that a missing
      one is skipped with [Ok] ([missing_image_unnoticed]).
    - The card's interrupt: one holder of the lock, no masked bit that nobody
      accounts for, refusals bounded by the thread's runs ([card_irq_invariant]), a
      refused transfer that gets its turn ([card_irq_serviced]), the same steps on
      the registers ([card_irq_registers]); and why it never starts, and what masks
      it for good ([card_irq_flaws]).  Together with the hand-off: callers are never
      told [EAGAIN], and repetitions are bounded ([command_path]).
    - The tables of the control plane refine a map of keys ([wiphy_keys_refine])
      and keep their type ([tables_stay_typed]); the rings of host identifiers
      refine queues ([host_id_fifo]); packet buffers refine packets
      ([skb_ops_refine]).
    - Round trips of printers and parsers: messages, configuration files, private
      commands, transmit power ([lmac_serialize_roundtrip], [configfile_mac],
      [priv_args_roundtrip], [tx_power_roundtrip]).

    ** Bounds and fuel

    - Loops that walk a buffer take as fuel its length or a bound derived from it,
      and a lemma shows that it is enough ([rx_never_panics], [find_tag_lines],
      [upload_loop] in FwLoad by the number of blocks).
    - Waits with a timeout take the timeout in milliseconds as fuel: one unit a
      pass, which is exactly what the code counts ([wait_done_spec]).
    - [tx_done_loop] counts only waits that time out; its fuel [wakeups] bounds all
      wake-ups, and [submit_terminates] shows 101 more than the spurious ones to
      be enough.  The simulated runs, which have none, use 100: the waits of 50 ms
      that make up the 5000 ms.
    - The polls of the controller use the code's own iteration counts.

    ** Not modelled

    - Logging, and the formatting it needs; panics of the logger.
    - The kernel's services: wait queues, timers, spin locks, interrupt
      registration, memory mapping.  They appear as [Sched], [Clock], [Board].
    - The bytes of the firmware images: the repository does not hold the files, they
      are a parameter of Images by their path, and of the rest as [embedded].
    - Implementations of [Cfg80211Ops], mac80211's [Hw], [BusOps] and [IpcHostCb]: the
      repository has none, so that Cfg80211, SdioBus and E2a have only the interfaces.
    - The crate roots and modules that only re-export, and kernel/sdhci/src/flow.rs,
      which holds descriptions as strings: no behaviour.  The [add] of
      kernel/src/lib.rs is left over from a template.
    - tcp_ack.rs is modelled as it is, a table and two stubs.
    - What a cache instruction does to memory: Sdhci models which are issued and for
      which lines, in their order.
    - The preemption of one call by another inside the functions that Flow runs as a
      turn: Handoff, CardIrq and Exchange split those whose interleaving matters.

    What a continuation could add: a bring-up in which the card's interrupt is
    enabled by hand, since the code never enables it ([card_irq_flaws]), and
    [WirelessDriver] against laws of [WiphyOps] that both instances satisfy. *)

From Stdlib Require Export ZArith Lia.
From stdpp Require Export base numbers decidable option list sets strings relations.

#[global] Open Scope Z_scope.

(** ** Outcomes

    A call of the driver ends in a value, in one of the negative error codes of
    its [Result<_, i32>], or in a Rust panic (a slice index out of range, a
    failed [assert!], a division by zero, an overflow of checked arithmetic). *)
Inductive res (A : Type) : Type :=
  | Ok (a : A)
  | Err (e : Z)
  | Panic.
Arguments Ok {A} a.
Arguments Err {A} e.
Arguments Panic {A}.

#[export] Instance res_ret : MRet res := @Ok.
#[export] Instance res_bind : MBind res := λ A B f m,
  match m with Ok a => f a | Err e => Err e | Panic => Panic end.
#[export] Instance res_fmap : FMap res := λ A B f m,
  match m with Ok a => Ok (f a) | Err e => Err e | Panic => Panic end.
#[export] Instance res_eq_dec `{EqDecision A} : EqDecision (res A).
Proof. solve_decision. Defined.

#[global] Arguments mret {_ _ _} _ /.
#[global] Arguments res_ret _ _ /.

(** [o.ok_or(e)?] *)
Definition ok_or {A} (o : option A) (e : Z) : res A :=
  match o with Some a => Ok a | None => Err e end.

(** [r.map_err(|_| e)] *)
Definition map_err {A} (e : Z) (r : res A) : res A :=
  match r with Ok a => Ok a | Err _ => Err e | Panic => Panic end.

(** [r.unwrap_or(d)] *)
Definition unwrap_or {A} (d : A) (r : res A) : A :=
  match r with Ok a => a | _ => d end.

Definition is_Ok {A} (r : res A) : bool :=
  match r with Ok _ => true | _ => false end.

(** ** State and outcome

    A stateful call: the outcome with the state it leaves. *)
Definition st (S A : Type) : Type := S → res A * S.

#[export] Instance st_ret {S} : MRet (st S) := λ A a s, (Ok a, s).
#[export] Instance st_bind {S} : MBind (st S) := λ A B f m s,
  match m s with
  | (Ok a, s') => f a s'
  | (Err e, s') => (Err e, s')
  | (Panic, s') => (Panic, s')
  end.

Definition st_get {S} : st S S := λ s, (Ok s, s).
Definition st_put {S} (s' : S) : st S () := λ _, (Ok (), s').
Definition st_modify {S} (f : S → S) : st S () := λ s, (Ok (), f s).
Definition st_lift {S A} (r : res A) : st S A := λ s, (r, s).
Definition st_err {S A} (e : Z) : st S A := λ s, (Err e, s).
(** [r.map_err(|_| e)?] on a stateful call. *)
Definition st_map_err {S A} (e : Z) (m : st S A) : st S A := λ s,
  let '(r, s') := m s in (map_err e r, s').
(** [let r = m;] keep the outcome as a value. *)
Definition st_try {S A} (m : st S A) : st S (res A) := λ s,
  match m s with
  | (Panic, s') => (Panic, s')
  | (r, s') => (Ok r, s')
  end.

(** ** Machine integers *)
Definition wrap (w z : Z) : Z := z `mod` 2 ^ w.
Definition in_range (w z : Z) : Prop := 0 ≤ z < 2 ^ w.
(** [z as i8] for a [u8] (or wider) value. *)
Definition as_i8 (z : Z) : Z :=
  let b := z `mod` 256 in if bool_decide (b < 128) then b else b - 256.
(** [x as u8] of a signed byte. *)
Definition i8_as_u8 (z : Z) : Z := z `mod` 256.

(** Checked addition of two [w]-bit words. *)
Definition add_w (w a b : Z) : res Z :=
  if bool_decide (a + b < 2 ^ w) then Ok (a + b) else Panic.

Abbreviation byte_ok := (λ b : Z, 0 ≤ b < 256).
Abbreviation bytes_ok := (Forall (λ b : Z, 0 ≤ b < 256)).

(** ** Little-endian words: [to_le_bytes], [from_le_bytes] *)
Fixpoint to_le (n : nat) (z : Z) : list Z :=
  match n with
  | O => []
  | S n => z `mod` 256 :: to_le n (z `div` 256)
  end.

Fixpoint of_le (l : list Z) : Z :=
  match l with
  | [] => 0
  | b :: l => b + 256 * of_le l
  end.

(** ** Slices: [&l[a..b]], [l[off..off+n].copy_from_slice(src)], [fill(0)] *)
Definition slice {A} (a n : nat) (l : list A) : list A := take n (drop a l).

Definition slice_to {A} (a b : nat) (l : list A) : res (list A) :=
  if bool_decide ((a ≤ b)%nat ∧ (b ≤ length l)%nat) then Ok (slice a (b - a) l) else Panic.

Definition splice {A} (off : nat) (src dst : list A) : list A :=
  take off dst ++ src ++ drop (off + length src) dst.

Definition write_at {A} (off : nat) (src dst : list A) : res (list A) :=
  if bool_decide (off + length src ≤ length dst)%nat then Ok (splice off src dst) else Panic.

(** [l[i]] *)
Definition index {A} (l : list A) (i : nat) : res A :=
  match l !! i with Some a => Ok a | None => Panic end.

Definition zeros (n : nat) : list Z := replicate n 0.

(** ** Automation *)
Create Rewrite HintDb len.
#[export] Hint Rewrite @length_app @length_take @length_drop @length_replicate
  @length_insert @length_fmap @length_cons @length_nil @length_reverse : len.

(** Goals on lengths and indices. *)
Ltac len_simpl := autorewrite with len in *; simpl in *.
Ltac solve_len := first [lia | len_simpl; lia].

(** Split on the outcome of the binds of a hypothesis or of the goal. *)
Ltac res_case :=
  repeat match goal with
  | H : Ok _ = Ok _ |- _ => injection H as H; subst
  | H : Err _ = Err _ |- _ => injection H as H; subst
  | H : Ok _ = Err _ |- _ => discriminate H
  | H : Err _ = Ok _ |- _ => discriminate H
  | H : Panic = Ok _ |- _ => discriminate H
  | H : Panic = Err _ |- _ => discriminate H
  | H : Ok _ = Panic |- _ => discriminate H
  | H : Err _ = Panic |- _ => discriminate H
  | H : (_, _) = (_, _) |- _ => injection H as ? ?; subst
  end.

(** Decide the guards that arithmetic settles. *)
Ltac decide_true := rewrite bool_decide_true by (repeat split; solve_len).
Ltac decide_false := rewrite bool_decide_false by solve_len.

(** Linear arithmetic with division of naturals by non-zero constants. *)
Ltac nat_div_facts a b :=
  lazymatch goal with
  | H : (a = b * (a / b) + a mod b)%nat |- _ => fail
  | _ => pose proof (Nat.div_mod_eq a b); pose proof (Nat.mod_upper_bound a b ltac:(done))
  end.
Ltac nat_div :=
  repeat match goal with
  | |- context [(?a / ?b)%nat] => nat_div_facts a b
  | |- context [(?a mod ?b)%nat] => nat_div_facts a b
  | _ : context [(?a / ?b)%nat] |- _ => nat_div_facts a b
  | _ : context [(?a mod ?b)%nat] |- _ => nat_div_facts a b
  end; lia.

(** ** Lemmas on words *)
Section words.
Lemma wrap_range w z : 0 ≤ w → in_range w (wrap w z).
Proof. intros. apply Z.mod_pos_bound. lia. Qed.

Lemma wrap_id w z : in_range w z → wrap w z = z.
Proof. apply Z.mod_small. Qed.

(** Bit fields that do not overlap add up. *)
Lemma lor_shiftl_add n lo hi :
  0 ≤ n → in_range n lo → Z.lor lo (Z.shiftl hi n) = lo + hi * 2 ^ n.
Proof.
  intros Hn Hlo. rewrite <- Z.shiftl_mul_pow2 by done.
  assert (Hl : Z.land lo (Z.shiftl hi n) = 0).
  { apply Z.bits_inj'. intros i Hi. rewrite Z.land_spec, Z.bits_0.
    destruct (decide (i < n)).
    - rewrite Z.shiftl_spec_low by done. apply andb_false_r.
    - rewrite <- (Z.mod_small lo (2 ^ n)) by done. by rewrite Z.mod_pow2_bits_high by lia. }
  by rewrite Z.add_nocarry_lxor, Z.lxor_lor.
Qed.

Lemma land_low_ones n x : 0 ≤ n → in_range n x → Z.land x (Z.ones n) = x.
Proof. intros. rewrite Z.land_ones by done. by apply Z.mod_small. Qed.

Lemma add_w_ok w a b : a + b < 2 ^ w → add_w w a b = Ok (a + b).
Proof. intros. unfold add_w. by rewrite bool_decide_true. Qed.

Lemma as_i8_range z : -128 ≤ as_i8 z < 128.
Proof. unfold as_i8. pose proof (Z.mod_pos_bound z 256). case_bool_decide; lia. Qed.

(** [x as u8 as i8] gives a signed byte back. *)
Lemma as_i8_as_u8 z : -128 ≤ z < 128 → as_i8 (i8_as_u8 z) = z.
Proof.
  intros. unfold as_i8, i8_as_u8. rewrite Z.mod_mod by lia.
  case_bool_decide; pose proof (Z.div_mod z 256); pose proof (Z.mod_pos_bound z 256); lia.
Qed.

Lemma as_i8_congr z : as_i8 z `mod` 256 = z `mod` 256.
Proof.
  unfold as_i8. case_bool_decide; [by rewrite Z.mod_mod|].
  rewrite Zminus_mod, Z.mod_mod, Z_mod_same_full, Z.sub_0_r by lia. by apply Z.mod_mod.
Qed.
End words.

(** ** Lemmas on little-endian words *)
Section le.
Lemma length_to_le n z : length (to_le n z) = n.
Proof. revert z. induction n as [|n IH]; intros z; simpl; [done|]. by rewrite IH. Qed.

Lemma to_le_bytes n z : bytes_ok (to_le n z).
Proof.
  revert z. induction n as [|n IH]; intros z; simpl; constructor; [|done].
  apply Z.mod_pos_bound. lia.
Qed.

Lemma of_le_to_le n z : of_le (to_le n z) = z `mod` 256 ^ Z.of_nat n.
Proof.
  revert z. induction n as [|n IH]; intros z; cbn [to_le of_le].
  { by rewrite Z.mod_1_r. }
  rewrite IH, Nat2Z.inj_succ, Z.pow_succ_r by lia.
  rewrite Z.rem_mul_r by lia. done.
Qed.

Lemma of_le_to_le_id n z : 0 ≤ z < 256 ^ Z.of_nat n → of_le (to_le n z) = z.
Proof. intros. rewrite of_le_to_le. by apply Z.mod_small. Qed.

Lemma of_le_range l : bytes_ok l → 0 ≤ of_le l < 256 ^ Z.of_nat (length l).
Proof.
  induction 1 as [|b l Hb _ IH]; cbn [of_le length]; [lia|].
  rewrite Nat2Z.inj_succ, Z.pow_succ_r by lia. lia.
Qed.

Lemma to_le_of_le l : bytes_ok l → to_le (length l) (of_le l) = l.
Proof.
  induction 1 as [|b l Hb _ IH]; cbn [to_le of_le length]; [done|].
  rewrite (Z.mul_comm 256), Z_mod_plus_full, Z.mod_small by lia.
  rewrite Z.div_add, Z.div_small, Z.add_0_l, IH by lia. done.
Qed.

Lemma to_le_inj n y z :
  0 ≤ y < 256 ^ Z.of_nat n → 0 ≤ z < 256 ^ Z.of_nat n → to_le n y = to_le n z → y = z.
Proof. intros Hy Hz E. apply (f_equal of_le) in E. rewrite !of_le_to_le_id in E; done. Qed.
End le.
#[export] Hint Rewrite length_to_le : len.

(** ** Lemmas on slices *)
Section slices.
Context {A : Type}.
Implicit Types (l src dst : list A) (i n off : nat).

Lemma length_slice a n l : length (slice a n l) = Nat.min n (length l - a)%nat.
Proof. unfold slice. solve_len. Qed.

Lemma lookup_slice a n l i : (i < n)%nat → slice a n l !! i = l !! (a + i)%nat.
Proof. intros. unfold slice. rewrite lookup_take_lt, lookup_drop by done. done. Qed.

Lemma slice_full l : slice 0 (length l) l = l.
Proof. unfold slice. by rewrite drop_0, take_ge. Qed.

Lemma slice_app_l n l l' : (n ≤ length l)%nat → slice 0 n (l ++ l') = take n l.
Proof. intros. unfold slice. rewrite drop_0, take_app_le; done. Qed.

Lemma slice_app_r a n l l' :
  (length l ≤ a)%nat → slice a n (l ++ l') = slice (a - length l) n l'.
Proof. intros. unfold slice. by rewrite drop_app_ge. Qed.

Lemma slice_app_mid a n l m l' :
  a = length l → n = length m → slice a n (l ++ m ++ l') = m.
Proof. intros -> ->. unfold slice. by rewrite drop_app_length, take_app_length. Qed.

Lemma take_add_slice a n l : take (a + n) l = take a l ++ slice a n l.
Proof. unfold slice. by rewrite take_drop_commute, <- (take_drop a (take (a+n) l)) at 1; rewrite take_take, Nat.min_l by lia. Qed.

Lemma length_splice off src dst :
  (off + length src ≤ length dst)%nat → length (splice off src dst) = length dst.
Proof. intros. unfold splice. solve_len. Qed.

Lemma lookup_splice_in off src dst i :
  (off + length src ≤ length dst)%nat → (off ≤ i < off + length src)%nat →
  splice off src dst !! i = src !! (i - off)%nat.
Proof.
  intros. unfold splice.
  rewrite lookup_app_r by solve_len. rewrite length_take, Nat.min_l by lia.
  by rewrite lookup_app_l by lia.
Qed.

Lemma lookup_splice_out off src dst i :
  (off + length src ≤ length dst)%nat → (i < off ∨ off + length src ≤ i)%nat →
  splice off src dst !! i = dst !! i.
Proof.
  intros Hle [Hi|Hi]; unfold splice.
  - rewrite lookup_app_l by solve_len. by rewrite lookup_take_lt.
  - rewrite lookup_app_r by solve_len. rewrite length_take, Nat.min_l by lia.
    rewrite lookup_app_r by lia. rewrite lookup_drop. f_equal. lia.
Qed.

Lemma slice_splice off src dst :
  (off + length src ≤ length dst)%nat → slice off (length src) (splice off src dst) = src.
Proof. intros. unfold splice. apply slice_app_mid; solve_len. Qed.

Lemma slice_splice_before off src dst a n :
  (off + length src ≤ length dst)%nat → (a + n ≤ off)%nat →
  slice a n (splice off src dst) = slice a n dst.
Proof.
  intros. apply list_eq; intros i. destruct (decide (i < n)%nat).
  - rewrite !lookup_slice by done. apply lookup_splice_out; lia.
  - by rewrite !lookup_ge_None_2 by (rewrite ?length_slice; solve_len).
Qed.

Lemma slice_splice_after off src dst a n :
  (off + length src ≤ length dst)%nat → (off + length src ≤ a)%nat →
  slice a n (splice off src dst) = slice a n dst.
Proof.
  intros. apply list_eq; intros i. destruct (decide (i < n)%nat).
  - rewrite !lookup_slice by done. apply lookup_splice_out; lia.
  - by rewrite !lookup_ge_None_2 by (rewrite ?length_slice; solve_len).
Qed.

Lemma write_at_ok off src dst :
  (off + length src ≤ length dst)%nat → write_at off src dst = Ok (splice off src dst).
Proof. intros. unfold write_at. by decide_true. Qed.

Lemma write_at_inv off src dst r :
  write_at off src dst = Ok r →
  (off + length src ≤ length dst)%nat ∧ r = splice off src dst.
Proof. unfold write_at. case_bool_decide; intros; res_case; done. Qed.

Lemma slice_to_ok a b l :
  (a ≤ b)%nat → (b ≤ length l)%nat → slice_to a b l = Ok (slice a (b - a) l).
Proof. intros. unfold slice_to. by decide_true. Qed.

Lemma index_ok l i x : l !! i = Some x → index l i = Ok x.
Proof. unfold index. by intros ->. Qed.

Lemma Forall_slice (P : A → Prop) a n l : Forall P l → Forall P (slice a n l).
Proof. intros. by apply Forall_take, Forall_drop. Qed.
End slices.
#[export] Hint Rewrite @length_slice : len.
#[export] Hint Rewrite @length_splice using solve_len : len.

Lemma length_zeros n : length (zeros n) = n.
Proof. apply length_replicate. Qed.
#[export] Hint Rewrite length_zeros : len.

Lemma zeros_bytes n : bytes_ok (zeros n).
Proof. apply Forall_replicate. lia. Qed.

(** ** Outcomes without error codes. *)
Definition no_err {A} (r : res A) : Prop := ∀ e, r ≠ Err e.
Lemma no_err_write off src dst : no_err (write_at (A := Z) off src dst).
Proof. intros e. unfold write_at. by case_bool_decide. Qed.
Lemma no_err_slice a b (l : list Z) : no_err (slice_to a b l).
Proof. intros e. unfold slice_to. by case_bool_decide. Qed.
Lemma no_err_bind {A B} (r : res A) (g : A → res B) :
  no_err r → (∀ a, no_err (g a)) → no_err (r ≫= g).
Proof. intros Hr Hg. destruct r as [a|e|]; [apply Hg|by exfalso; apply (Hr e)|done]. Qed.
Lemma no_err_if {A} (c : bool) (r r' : res A) : no_err r → no_err r' → no_err (if c then r else r').
Proof. by destruct c. Qed.

(** ** Counting the entries of a table that satisfy a test *)
Fixpoint countb {A} (f : A → bool) (l : list A) : nat :=
  match l with
  | [] => 0
  | x :: l => (if f x then 1 else 0) + countb f l
  end%nat.

Section countb.
Context {A : Type} (f : A → bool).
Implicit Types l : list A.

Lemma countb_insert l i x y :
  l !! i = Some x →
  (countb f (<[i := y]> l) + (if f x then 1 else 0) = countb f l + (if f y then 1 else 0))%nat.
Proof.
  revert i. induction l as [|z l IH]; intros [|i]; simpl; try done.
  - intros [= ->]. lia.
  - intros Hi. specialize (IH i Hi). lia.
Qed.

Lemma countb_le_length l : (countb f l ≤ length l)%nat.
Proof. induction l as [|x l IH]; simpl; [lia|]. destruct (f x); lia. Qed.

Lemma countb_all l : (∀ x, x ∈ l → f x = true) → countb f l = length l.
Proof.
  induction l as [|x l IH]; intros H; simpl; [done|].
  rewrite H, IH by set_solver. done.
Qed.

Lemma countb_zero l : (∀ x, x ∈ l → f x = false) → countb f l = 0%nat.
Proof.
  induction l as [|x l IH]; intros H; simpl; [done|].
  rewrite H, IH by set_solver. done.
Qed.

Lemma countb_full l : countb f l = length l → ∀ x, x ∈ l → f x = true.
Proof.
  induction l as [|y l IH]; intros H x Hx; [set_solver|]; simpl in *.
  pose proof (countb_le_length l). destruct (f y) eqn:E; [|lia].
  apply elem_of_cons in Hx as [->|Hx]; [done|]. apply IH; [lia|done].
Qed.

Lemma countb_mono (g : A → bool) l :
  (∀ x, x ∈ l → f x = true → g x = true) → (countb f l ≤ countb g l)%nat.
Proof.
  induction l as [|x l IH]; intros H; simpl; [lia|].
  assert (countb f l ≤ countb g l)%nat by (apply IH; set_solver).
  pose proof (H x ltac:(set_solver)). destruct (f x), (g x); lia.
Qed.

Lemma countb_app l1 l2 : countb f (l1 ++ l2) = (countb f l1 + countb f l2)%nat.
Proof. induction l1 as [|x l1 IH]; simpl; [done|]. rewrite IH. lia. Qed.

Lemma countb_sublist l1 l2 : sublist l1 l2 → (countb f l1 ≤ countb f l2)%nat.
Proof. induction 1; simpl; lia. Qed.

Lemma countb_pos l : (0 < countb f l)%nat → ∃ i x, l !! i = Some x ∧ f x = true.
Proof.
  induction l as [|x l IH]; simpl; [lia|]. destruct (f x) eqn:E; [by exists 0%nat, x|].
  intros Hl. destruct (IH Hl) as (i & y & Hi & Hy). by exists (S i), y.
Qed.
End countb.

(** ** Filling a buffer front to back *)
Section fill.
Context {A : Type}.
Implicit Types pre src dst : list A.

Lemma write_at_app pre src dst :
  (length src ≤ length dst)%nat →
  write_at (length pre) src (pre ++ dst) = Ok (pre ++ src ++ drop (length src) dst).
Proof.
  intros. rewrite write_at_ok by solve_len. unfold splice.
  by rewrite take_app_length, drop_app_ge, Nat.add_sub' by lia.
Qed.

Lemma write_at_front src dst :
  (length src ≤ length dst)%nat → write_at 0 src dst = Ok (src ++ drop (length src) dst).
Proof. apply (write_at_app []). Qed.

Lemma write_at_short off src dst :
  (length dst < off + length src)%nat → write_at off src dst = Panic.
Proof. intros. unfold write_at. by decide_false. Qed.

(** The next field of a buffer whose first [off] bytes are [pre]. *)
Lemma write_at_next off pre src dst :
  off = length pre → (length src ≤ length dst)%nat →
  write_at off src (pre ++ dst) = Ok ((pre ++ src) ++ drop (length src) dst).
Proof. intros -> ?. rewrite write_at_app by done. by rewrite app_assoc. Qed.
End fill.

(** One field after the other: each write extends the written prefix. *)
Ltac fill_next :=
  rewrite write_at_next by (rewrite ?length_app, ?length_to_le, ?length_zeros, ?length_drop; simpl; lia);
  cbn [mbind res_bind].
