(* ===== verification/Skb.v ===== *)
(** * Packet buffers: [kernel/skb]

    [SkBuff] (kernel/skb/src/skbuff.rs) is one storage block cut into headroom,
    data and tailroom; [SkbQueue] and [FrameQueue] (kernel/skb/src/queue.rs) are
    the FIFO and the eight-level priority queue built on it.  A [&mut [u8]] the
    code hands out is a [view], an offset and a length into the storage, and a
    write through it is [write_view]. *)

From S2P Require Import Prelude.

(** ** The buffer *)
Module SkBuff.

(** kernel/skb/src/skbuff.rs:17-24 [SkBuff] *)
Record t := mk { storage : list Z; head : nat; len : nat }.

(** kernel/skb/src/skbuff.rs:34-43 [SkBuff::alloc_with_headroom] *)
Definition alloc_with_headroom (capacity headroom : nat) : t :=
  mk (zeros capacity) (Nat.min headroom capacity) 0.

(** kernel/skb/src/skbuff.rs:29-31 [SkBuff::alloc] *)
Definition alloc (capacity : nat) : t := alloc_with_headroom capacity 0.

(** kernel/skb/src/skbuff.rs:47-49 [SkBuff::data] *)
Definition data (s : t) : res (list Z) := slice_to s.(head) (s.(head) + s.(len)) s.(storage).

(** A borrowed range of the storage. *)
Record view := mkview { v_off : nat; v_len : nat }.

(** Borrow [storage[a..b]] mutably. *)
Definition borrow (s : t) (a b : nat) : res view :=
  _ ← slice_to a b s.(storage); mret (mkview a (b - a)).

(** Copy a slice to the front of a borrowed range. *)
Definition write_view (v : view) (src : list Z) (s : t) : res t :=
  if bool_decide (length src ≤ v.(v_len))%nat
  then st' ← write_at v.(v_off) src s.(storage); mret (mk st' s.(head) s.(len))
  else Panic.

(** kernel/skb/src/skbuff.rs:53-56 [SkBuff::data_mut] *)
Definition data_mut (s : t) : res view :=
  let end_ := (s.(head) + (length s.(storage) - s.(head)))%nat in
  borrow s s.(head) end_.

(** kernel/skb/src/skbuff.rs:150-155 [Deref::deref] *)
Definition deref (s : t) : res (list Z) := data s.

(** kernel/skb/src/skbuff.rs:157-162 [DerefMut::deref_mut]; what it lends is not what [deref] shows: it goes to the end of the storage *)
Definition deref_mut (s : t) : res view :=
  let end_ := (s.(head) + (length s.(storage) - s.(head)))%nat in
  borrow s s.(head) end_.

(** kernel/skb/src/skbuff.rs:60-63 [SkBuff::data_len] *)
Definition data_len (n : nat) (s : t) : res (list Z) :=
  let n := Nat.min n s.(len) in slice_to s.(head) (s.(head) + n) s.(storage).

(** kernel/skb/src/skbuff.rs:67-70 [SkBuff::set_len] *)
Definition set_len (n : nat) (s : t) : t :=
  let max := (length s.(storage) - s.(head))%nat in
  mk s.(storage) s.(head) (Nat.min n max).

(** kernel/skb/src/skbuff.rs:78-80 [SkBuff::is_empty] *)
Definition is_empty (s : t) : bool := bool_decide (s.(len) = 0)%nat.

(** kernel/skb/src/skbuff.rs:84-86 [SkBuff::headroom] *)
Definition headroom (s : t) : nat := s.(head).

(** kernel/skb/src/skbuff.rs:90-92 [SkBuff::tailroom] *)
Definition tailroom (s : t) : nat := (length s.(storage) - (s.(head) + s.(len)))%nat.

(** kernel/skb/src/skbuff.rs:96-103 [SkBuff::put] *)
Definition put (n : nat) : st t (option view) := λ s,
  if bool_decide (tailroom s < n)%nat then (Ok None, s)
  else
    let start := (s.(head) + s.(len))%nat in
    let s' := mk s.(storage) s.(head) (s.(len) + n) in
    (v ← borrow s' start (start + n); mret (Some v), s').

(** kernel/skb/src/skbuff.rs:107-111 [SkBuff::pull] *)
Definition pull (n : nat) (s : t) : t :=
  let consume := Nat.min n s.(len) in
  mk s.(storage) (s.(head) + consume) (s.(len) - consume).

(** kernel/skb/src/skbuff.rs:115-122 [SkBuff::push] *)
Definition push (n : nat) (s : t) : bool * t :=
  if bool_decide (s.(head) < n)%nat then (false, s)
  else (true, mk s.(storage) (s.(head) - n) (s.(len) + n)).

(** kernel/skb/src/skbuff.rs:126-137 [SkBuff::reserve] *)
Definition reserve (n : nat) (s : t) : t :=
  if bool_decide (n ≤ s.(head))%nat then s
  else
    let need := (n - s.(head))%nat in
    mk (zeros need ++ s.(storage)) (s.(head) + need) s.(len).

(** kernel/skb/src/skbuff.rs:141-147 [SkBuff::copy_bits] *)
Definition copy_bits (s : t) (dst : list Z) (off n : nat) : res (list Z * nat) :=
  data ← data s;
  let start := Nat.min off (length data) in
  let count := Nat.min (Nat.min (length data - start) n) (length dst) in
  src ← slice_to start (start + count) data;
  dst' ← write_at 0 src dst;
  mret (dst', count).

(** *** The invariant and what the operations keep *)

Definition wf (s : t) : Prop := (s.(head) + s.(len) ≤ length s.(storage))%nat.

(** The payload bytes of a well-formed buffer. *)
Definition payload (s : t) : list Z := slice s.(head) s.(len) s.(storage).

Create HintDb skb.

Lemma alloc_wf c h : wf (alloc_with_headroom c h).
Proof. unfold wf, alloc_with_headroom; simpl. solve_len. Qed.

Lemma set_len_wf n s : wf s → wf (set_len n s).
Proof. unfold wf, set_len; simpl. lia. Qed.

Lemma pull_wf n s : wf s → wf (pull n s).
Proof. unfold wf, pull; simpl. lia. Qed.

Lemma push_wf n s : wf s → wf (push n s).2.
Proof. unfold wf, push. case_bool_decide; simpl; lia. Qed.

Lemma reserve_wf n s : wf s → wf (reserve n s).
Proof. unfold wf, reserve. case_bool_decide; simpl; solve_len. Qed.

Lemma put_wf n s : wf s → wf (put n s).2.
Proof. unfold wf, put, tailroom. case_bool_decide; simpl; lia. Qed.

Lemma write_view_wf v src s s' : wf s → write_view v src s = Ok s' → wf s'.
Proof.
  unfold wf, write_view. case_bool_decide; [|done]. intros Hwf.
  destruct (write_at _ _ _) eqn:E; simpl; intros; res_case.
  apply write_at_inv in E as [? ->].
  simpl. by rewrite length_splice.
Qed.
#[export] Hint Resolve alloc_wf set_len_wf pull_wf push_wf reserve_wf put_wf write_view_wf : skb.

Lemma data_payload s : wf s → data s = Ok (payload s).
Proof.
  intros. unfold data, payload. rewrite slice_to_ok by (unfold wf in *; lia).
  do 2 f_equal; lia.
Qed.

Lemma length_payload s : wf s → length (payload s) = s.(len).
Proof. unfold wf, payload. intros. solve_len. Qed.

Lemma data_mut_ok s : wf s → data_mut s = Ok (mkview s.(head) (length s.(storage) - s.(head))).
Proof.
  unfold wf, data_mut, borrow. intros. rewrite slice_to_ok by lia. simpl.
  do 2 f_equal. lia.
Qed.

Lemma put_ok n s :
  wf s → (n ≤ tailroom s)%nat →
  put n s = (Ok (Some (mkview (s.(head) + s.(len)) n)), mk s.(storage) s.(head) (s.(len) + n)).
Proof.
  unfold put, wf, borrow, tailroom. intros. decide_false. simpl.
  rewrite slice_to_ok by (simpl; lia). simpl. do 4 f_equal. lia.
Qed.

(** The receive pattern of [poll_rx_one]: write a frame into [data_mut], then
    [set_len]. *)
Lemma recv_payload s src :
  wf s → (length src ≤ length s.(storage) - s.(head))%nat →
  ∃ v s', data_mut s = Ok v ∧ write_view v src s = Ok s' ∧
          wf (set_len (length src) s') ∧ payload (set_len (length src) s') = src.
Proof.
  intros Hwf Hlen. rewrite data_mut_ok by done. eexists _, _. split; [done|].
  unfold write_view; simpl. decide_true. unfold wf in Hwf.
  rewrite write_at_ok by lia. simpl. split; [done|]. split.
  - unfold wf, set_len; simpl. rewrite length_splice by lia. lia.
  - unfold payload, set_len; simpl. rewrite length_splice by lia.
    rewrite Nat.min_l by lia. apply slice_splice. lia.
Qed.

(** *** The abstract packet: headroom bytes, data bytes, tailroom bytes *)

Definition abs (s : t) : list Z * list Z * list Z :=
  (take s.(head) s.(storage), payload s, drop (s.(head) + s.(len)) s.(storage)).

Definition of_abs (v : list Z * list Z * list Z) : t :=
  let '(h, d, r) := v in mk (h ++ d ++ r) (length h) (length d).

(** What a caller does to a buffer; [OPut] and [ORecv] fill the range they
    are handed, [OPut] only when there is room. *)
Inductive op :=
  | OSetLen (n : nat)
  | OPut (src : list Z)
  | OPull (n : nat)
  | OPush (n : nat)
  | OReserve (n : nat).

Definition exec (o : op) (s : t) : res t :=
  match o with
  | OSetLen n => Ok (set_len n s)
  | OPut src =>
      match put (length src) s with
      | (Ok (Some v), s') => write_view v src s'
      | (Ok None, s') => Ok s'
      | (Err e, _) => Err e
      | (Panic, _) => Panic
      end
  | OPull n => Ok (pull n s)
  | OPush n => Ok (push n s).2
  | OReserve n => Ok (reserve n s)
  end.

Fixpoint exec_all (os : list op) (s : t) : res t :=
  match os with
  | [] => Ok s
  | o :: os => s' ← exec o s; exec_all os s'
  end.

(** The effect an operation promises on the three byte ranges. *)
Definition spec (o : op) (v : list Z * list Z * list Z) : list Z * list Z * list Z :=
  let '(h, d, r) := v in
  match o with
  | OSetLen n => (h, take n (d ++ r), drop n (d ++ r))
  | OPut src =>
      if bool_decide (length r < length src)%nat then v
      else (h, d ++ src, drop (length src) r)
  | OPull n => (h ++ take n d, drop n d, r)
  | OPush n =>
      if bool_decide (length h < n)%nat then v
      else (take (length h - n) h, drop (length h - n) h ++ d, r)
  | OReserve n => (zeros (n - length h) ++ h, d, r)
  end.

Lemma of_abs_abs s : wf s → of_abs (abs s) = s.
Proof.
  destruct s as [st h l]. unfold wf, of_abs, abs, payload; simpl. intros. f_equal.
  - rewrite app_assoc, <- take_add_slice. apply take_drop.
  - solve_len.
  - solve_len.
Qed.

Lemma abs_of_abs v : abs (of_abs v) = v.
Proof.
  destruct v as [[h d] r]. unfold abs, payload; simpl.
  rewrite take_app_length, slice_app_mid by done.
  by rewrite app_assoc, drop_app_length' by solve_len.
Qed.

Lemma wf_of_abs v : wf (of_abs v).
Proof. destruct v as [[h d] r]. unfold wf; simpl. solve_len. Qed.

Lemma of_abs_eq h d r st hd ln :
  st = h ++ d ++ r → hd = length h → ln = length d → mk st hd ln = of_abs (h, d, r).
Proof. by intros -> -> ->. Qed.

Lemma exec_set_len n h d r : set_len n (of_abs (h, d, r)) = of_abs (spec (OSetLen n) (h, d, r)).
Proof. unfold set_len; simpl. apply of_abs_eq; [by rewrite take_drop|done|solve_len]. Qed.

Lemma exec_pull n h d r : pull n (of_abs (h, d, r)) = of_abs (spec (OPull n) (h, d, r)).
Proof.
  unfold pull; simpl. apply of_abs_eq; [|solve_len|solve_len].
  by rewrite <- app_assoc, (app_assoc (take n d)), take_drop.
Qed.

Lemma exec_push n h d r : (push n (of_abs (h, d, r))).2 = of_abs (spec (OPush n) (h, d, r)).
Proof.
  unfold push; simpl. case_bool_decide; [done|]. simpl. apply of_abs_eq; [|solve_len|solve_len].
  by rewrite <- app_assoc, (app_assoc (take _ h)), take_drop.
Qed.

Lemma exec_reserve n h d r : reserve n (of_abs (h, d, r)) = of_abs (spec (OReserve n) (h, d, r)).
Proof.
  unfold reserve; simpl. case_bool_decide; simpl.
  - by replace (n - length h)%nat with 0%nat by lia.
  - apply of_abs_eq; [by rewrite <- app_assoc|solve_len|done].
Qed.

Lemma exec_put src h d r :
  exec (OPut src) (of_abs (h, d, r)) = Ok (of_abs (spec (OPut src) (h, d, r))).
Proof.
  unfold exec, spec. case_bool_decide.
  - unfold put, tailroom; simpl. rewrite bool_decide_true by solve_len. done.
  - rewrite put_ok by (try apply wf_of_abs; unfold tailroom; simpl; solve_len).
    unfold write_view; simpl. decide_true. rewrite write_at_ok by solve_len. simpl. f_equal.
    apply of_abs_eq; [|done|solve_len]. unfold splice.
    rewrite (app_assoc h d r), take_app_length', drop_app_ge by solve_len.
    rewrite <- !app_assoc. do 4 f_equal. solve_len.
Qed.

Lemma exec_refines o s : wf s → exec o s = Ok (of_abs (spec o (abs s))).
Proof.
  intros Hwf. rewrite <- (of_abs_abs s Hwf) at 1. destruct (abs s) as [[h d] r].
  destruct o; [simpl; f_equal; apply exec_set_len | apply exec_put | simpl; f_equal; apply exec_pull
    | simpl; f_equal; apply exec_push | simpl; f_equal; apply exec_reserve].
Qed.

Lemma exec_all_refines os s :
  wf s → exec_all os s = Ok (of_abs (foldl (λ v o, spec o v) (abs s) os)).
Proof.
  revert s. induction os as [|o os IH]; intros s Hwf; cbn [exec_all foldl].
  { by rewrite of_abs_abs. }
  rewrite exec_refines by done. cbn [mbind res_bind]. rewrite IH by apply wf_of_abs.
  by rewrite abs_of_abs.
Qed.


(** [push n] undoes [pull n]: after consuming [n] bytes that the
    data holds, pushing them back succeeds and restores the buffer. *)
Theorem skb_pull_push (n : nat) (s : t) (Hn : (n ≤ s.(len))%nat) :
  push n (pull n s) = (true, s).
Proof.
  destruct s as [st h l]; simpl in *. unfold push, pull; simpl.
  rewrite Nat.min_l by done. decide_false. do 2 f_equal; lia.
Qed.

Lemma skb_pull_push_witness :
  (2 ≤ 8)%nat ∧ push 2 (pull 2 (mk (zeros 64) 4 8)) = (true, mk (zeros 64) 4 8).
Proof. split; [lia|]. apply (skb_pull_push 2 (mk (zeros 64) 4 8)). simpl. lia. Defined.

End SkBuff.

(** ** The queues *)
Module SkbQueue.

(** kernel/skb/src/queue.rs:10-12 [SkbQueue] *)
Record t := mk { queue : list SkBuff.t }.

(** kernel/skb/src/queue.rs:15-19 [SkbQueue::new] *)
Definition new : t := mk [].

(** kernel/skb/src/queue.rs:22-24 [SkbQueue::push_tail] *)
Definition push_tail (skb : SkBuff.t) (q : t) : t := mk (q.(queue) ++ [skb]).

(** kernel/skb/src/queue.rs:27-29 [SkbQueue::pop_head] *)
Definition pop_head (q : t) : option SkBuff.t * t :=
  match q.(queue) with
  | [] => (None, q)
  | skb :: rest => (Some skb, mk rest)
  end.

(** kernel/skb/src/queue.rs:32-34 [SkbQueue::pop_tail] *)
Definition pop_tail (q : t) : option SkBuff.t * t :=
  match reverse q.(queue) with
  | [] => (None, q)
  | skb :: rest => (Some skb, mk (reverse rest))
  end.

(** kernel/skb/src/queue.rs:36-38 [SkbQueue::is_empty] *)
Definition is_empty (q : t) : bool := bool_decide (length q.(queue) = 0)%nat.

(** kernel/skb/src/queue.rs:40-42 [SkbQueue::len] *)
Definition len (q : t) : nat := length q.(queue).

(** kernel/skb/src/queue.rs:45-47 [SkbQueue::clear] *)
Definition clear (q : t) : t := mk [].

Lemma is_empty_true q : is_empty q = true ↔ q = mk [].
Proof.
  destruct q as [l]. unfold is_empty; simpl. rewrite bool_decide_eq_true.
  rewrite length_zero_iff_nil. split; [by intros ->|by intros [= ->]].
Qed.

End SkbQueue.

Module FrameQueue.

(** kernel/skb/src/queue.rs:58-64 [FrameQueue]; [hi_prio] is a [u16] that
    stays at most 8 *)
Record t := mk { num_prio : nat; hi_prio : nat; queues : list SkbQueue.t }.

(** kernel/skb/src/queue.rs:68-68 [FrameQueue::MAX_PRIO] *)
Definition MAX_PRIO : nat := 8.

(** kernel/skb/src/queue.rs:70-86 [FrameQueue::new] *)
Definition new (num_prio : nat) : t :=
  mk (Nat.min num_prio MAX_PRIO) 0 (replicate MAX_PRIO SkbQueue.new).

(** kernel/skb/src/queue.rs:89-95 [FrameQueue::enqueue] *)
Definition enqueue (skb : SkBuff.t) (prio : nat) (q : t) : res t :=
  let p := Nat.min prio (q.(num_prio) - 1) in
  let hi := if bool_decide (q.(hi_prio) = 0 ∨ p < q.(hi_prio))%nat then p else q.(hi_prio) in
  sq ← index q.(queues) p;
  mret (mk q.(num_prio) hi (<[p := SkbQueue.push_tail skb sq]> q.(queues))).

(** kernel/skb/src/queue.rs:98-108 [FrameQueue::dequeue], the [while] loop;
    [num_prio] iterations are enough *)
Fixpoint dequeue_loop (fuel : nat) (q : t) : res (option SkBuff.t) * t :=
  if bool_decide (q.(hi_prio) < q.(num_prio))%nat then
    match fuel with
    | O => (Panic, q)
    | S fuel =>
        match q.(queues) !! q.(hi_prio) with
        | None => (Panic, q)
        | Some sq =>
            match SkbQueue.pop_head sq with
            | (Some skb, sq') =>
                (Ok (Some skb), mk q.(num_prio) q.(hi_prio) (<[q.(hi_prio) := sq']> q.(queues)))
            | (None, _) => dequeue_loop fuel (mk q.(num_prio) (S q.(hi_prio)) q.(queues))
            end
        end
    end
  else (Ok None, mk q.(num_prio) 0 q.(queues)).

(** kernel/skb/src/queue.rs:98-108 [FrameQueue::dequeue] *)
Definition dequeue (q : t) : res (option SkBuff.t) * t := dequeue_loop q.(num_prio) q.

(** kernel/skb/src/queue.rs:110-114 [FrameQueue::is_empty] *)
Definition is_empty (q : t) : res bool :=
  qs ← slice_to 0 q.(num_prio) q.(queues);
  mret (forallb SkbQueue.is_empty qs).

Definition wf (q : t) : Prop :=
  (q.(num_prio) ≤ 8 ∧ q.(hi_prio) ≤ q.(num_prio) ∧ length q.(queues) = 8)%nat.

Lemma fq_new_wf n : wf (new n).
Proof. unfold wf, new, MAX_PRIO; simpl. lia. Qed.

Lemma enqueue_wf skb p q : wf q → ∃ q', enqueue skb p q = Ok q' ∧ wf q'.
Proof.
  intros (? & ? & Hl). unfold enqueue.
  destruct (lookup_lt_is_Some_2 q.(queues) (Nat.min p (q.(num_prio) - 1))) as [sq Hsq]; [lia|].
  rewrite (index_ok _ _ _ Hsq). simpl. eexists; split; [done|].
  unfold wf; simpl. rewrite length_insert. case_bool_decide; lia.
Qed.

(** The frame a scan from level [lo] finds, with its level. *)
Definition first_at (q : t) (lo i : nat) (skb : SkBuff.t) (rest : list SkBuff.t) : Prop :=
  (lo ≤ i < q.(num_prio))%nat ∧ q.(queues) !! i = Some (SkbQueue.mk (skb :: rest)) ∧
  ∀ j, (lo ≤ j < i)%nat → q.(queues) !! j = Some (SkbQueue.mk []).

Definition all_empty_from (q : t) (lo : nat) : Prop :=
  ∀ j, (lo ≤ j < q.(num_prio))%nat → q.(queues) !! j = Some (SkbQueue.mk []).

Lemma range_cons (P : nat → Prop) lo hi :
  P lo → (∀ j, (S lo ≤ j < hi)%nat → P j) → ∀ j, (lo ≤ j < hi)%nat → P j.
Proof. intros H0 HS j Hj. destruct (decide (j = lo)) as [->|]; [done|]. apply HS. lia. Qed.

Lemma dequeue_loop_spec fuel q :
  wf q → (q.(num_prio) - q.(hi_prio) ≤ fuel)%nat →
  (∃ i skb rest, first_at q q.(hi_prio) i skb rest ∧
     dequeue_loop fuel q =
       (Ok (Some skb), mk q.(num_prio) i (<[i := SkbQueue.mk rest]> q.(queues)))) ∨
  (all_empty_from q q.(hi_prio) ∧ dequeue_loop fuel q = (Ok None, mk q.(num_prio) 0 q.(queues))).
Proof.
  revert q. induction fuel as [|fuel IH]; intros [n h qs] (Hn & Hh & Hl) Hf; simpl in *.
  { right. split; [intros j Hj; simpl in *; lia|]. by decide_false. }
  case_bool_decide as Hlt; [|right; split; [intros j Hj; simpl in *; lia|done]].
  destruct (lookup_lt_is_Some_2 qs h) as [[sq] Hsq]; [lia|]. rewrite Hsq.
  destruct sq as [|skb rest]; simpl.
  - destruct (IH (mk n (S h) qs)) as [(i & skb & rest & (Hi & Hq & Hb) & ->)|[He ->]];
      [unfold wf; simpl; lia|simpl; lia|left|right].
    + exists i, skb, rest. split; [|done]. split; [simpl in *; lia|]. split; [done|].
      exact (range_cons (λ j, qs !! j = Some (SkbQueue.mk [])) h i Hsq Hb).
    + split; [|done]. exact (range_cons (λ j, qs !! j = Some (SkbQueue.mk [])) h n Hsq He).
  - left. exists h, skb, rest. split; [|done]. split; [simpl; lia|]. split; [done|].
    simpl; intros; lia.
Qed.

Lemma dequeue_wf q : wf q → wf (dequeue q).2.
Proof.
  intros Hwf. destruct (dequeue_loop_spec q.(num_prio) q Hwf) as
    [(i & skb & rest & (Hi & _) & E)|[_ E]]; [lia| |];
    unfold dequeue; rewrite E; destruct Hwf as (? & ? & ?);
    unfold wf; simpl; rewrite ?length_insert; lia.
Qed.

(** On a well-formed queue [dequeue] terminates without a panic: it
    takes the oldest frame of the first non-empty level from [hi_prio] up and
    leaves [hi_prio] at that level, or, when those levels are all empty,
    returns [None] and resets [hi_prio] to 0. *)
Lemma frame_queue_dequeue (q : t) (Hwf : wf q) :
  (∃ i skb rest, first_at q q.(hi_prio) i skb rest ∧
     dequeue q = (Ok (Some skb), mk q.(num_prio) i (<[i := SkbQueue.mk rest]> q.(queues)))) ∨
  (all_empty_from q q.(hi_prio) ∧ dequeue q = (Ok None, mk q.(num_prio) 0 q.(queues))).
Proof. apply dequeue_loop_spec; [done|lia]. Qed.

Lemma frame_queue_dequeue_witness :
  wf (new 8) ∧ dequeue (new 8) = (Ok None, new 8).
Proof.
  split; [apply fq_new_wf|].
  destruct (frame_queue_dequeue (new 8) (fq_new_wf 8)) as [(i & skb & rest & (Hi & Hq & _) & _)|[_ E]].
  - exfalso. revert Hq. do 8 (destruct i as [|i]; [discriminate|]). discriminate.
  - exact E.
Defined.

(** A frame waits below level [num_prio]. *)
Definition pending (q : t) : Prop :=
  ∃ i skb rest, (i < q.(num_prio))%nat ∧ q.(queues) !! i = Some (SkbQueue.mk (skb :: rest)).

Lemma dequeue_none_resets q q' :
  wf q → dequeue q = (Ok None, q') → q' = mk q.(num_prio) 0 q.(queues).
Proof.
  intros Hwf E. destruct (dequeue_loop_spec q.(num_prio) q Hwf) as
    [(i & skb & rest & _ & E')|[_ E']]; [lia| |];
    unfold dequeue in E; rewrite E' in E; congruence.
Qed.

Lemma dequeue_from_zero q :
  wf q → q.(hi_prio) = 0%nat → pending q → ∃ skb q', dequeue q = (Ok (Some skb), q').
Proof.
  intros Hwf H0 (i & skb & rest & Hi & Hq).
  destruct (dequeue_loop_spec q.(num_prio) q Hwf) as [(? & ? & ? & _ & E)|[He _]]; [lia|eauto|].
  rewrite (He i) in Hq by lia. congruence.
Qed.

(** A queue with a pending frame gives one within two calls of
    [dequeue]: the first may answer [None] because [hi_prio] has moved past the
    frame, and that answer resets the scan. *)
Lemma frame_queue_two_dequeues (q : t) (Hwf : wf q) (Hp : pending q) :
  (∃ skb q', dequeue q = (Ok (Some skb), q')) ∨
  (∃ q' skb q'', dequeue q = (Ok None, q') ∧ dequeue q' = (Ok (Some skb), q'')).
Proof.
  destruct (dequeue_loop_spec q.(num_prio) q Hwf) as [(i & skb & rest & _ & E)|[_ E]]; [lia| |].
  - left. eauto.
  - right. destruct (dequeue_from_zero (mk q.(num_prio) 0 q.(queues))) as (skb & q'' & E2).
    + destruct Hwf as (? & ? & ?). unfold wf; simpl; lia.
    + done.
    + exact Hp.
    + eauto.
Qed.

Definition frame (b : Z) : SkBuff.t := SkBuff.mk [b] 0 1.

(** Priority 0 first, then priority 3, then one [dequeue]. *)
Definition past_prio0 : t :=
  mk 8 3 (<[0%nat := SkbQueue.mk [frame 1]]> (replicate 8 SkbQueue.new)).

Lemma frame_queue_two_dequeues_witness :
  wf past_prio0 ∧ pending past_prio0 ∧
  ∃ q' skb q'', dequeue past_prio0 = (Ok None, q') ∧ dequeue q' = (Ok (Some skb), q'').
Proof.
  assert (Hwf : wf past_prio0) by (unfold wf; simpl; lia).
  assert (Hp : pending past_prio0) by (exists 0%nat, (frame 1), []; split; [simpl; lia|done]).
  split; [done|]. split; [done|].
  destruct (frame_queue_two_dequeues past_prio0 Hwf Hp) as [(skb & q' & E)|H]; [|exact H].
  vm_compute in E. congruence.
Defined.

(** [hi_prio = 0] stands both for "no
    frame" and for "a frame of level 0": from a new queue, a frame of level 0
    followed by a frame of level 3 comes out after it, and a [dequeue] in
    between answers [None] although [is_empty] says a frame is waiting. *)
Lemma frame_queue_inversion :
  (q0 ← enqueue (frame 1) 0 (new 8); enqueue (frame 2) 3 q0) ≫= (λ q,
    match dequeue q with
    | (Ok a, q1) => match dequeue q1 with
        | (Ok b, q2) => match dequeue q2 with
            | (Ok c, _) => e ← is_empty q1; mret (a, b, c, e)
            | _ => Panic end
        | _ => Panic end
    | _ => Panic end) =
  Ok (Some (frame 2), None, Some (frame 1), false).
Proof. reflexivity. Qed.

End FrameQueue.
