(* ===== verification/CmdMgr.v ===== *)
(** * The command manager: [driver/bsp/src/cmd.rs]

    LMAC messages and their wire form ([Lmac]), the message identifiers, and
    [RwnxCmdMgr] ([Mgr]): eight slots for commands that wait for their
    confirmation.  [Mgr.step] is the labelled transition relation of the manager;
    the invariant and the life of a command are proved over its runs. *)

From S2P Require Import Prelude.

(** ** Messages *)
Module Lmac.

(** driver/bsp/src/cmd.rs:4-4 [IPC_E2A_MSG_PARAM_SIZE] *)
Definition IPC_E2A_MSG_PARAM_SIZE : nat := 256.

(** driver/bsp/src/cmd.rs:7-7 [RWNX_CMD_E2AMSG_LEN_MAX] *)
Definition RWNX_CMD_E2AMSG_LEN_MAX : nat := 256.

(** driver/bsp/src/cmd.rs:35-42 [LmacMsgHeader]; four [u16] *)
Record LmacMsgHeader := mkHeader { id : Z; dest_id : Z; src_id : Z; param_len : Z }.

(** driver/bsp/src/cmd.rs:45-45 [LMAC_MSG_MAX_LEN] *)
Definition LMAC_MSG_MAX_LEN : nat := 1032.

(** driver/bsp/src/cmd.rs:48-52 [LmacMsg]; [param] is an array of
    [LMAC_MSG_MAX_LEN] bytes *)
Record LmacMsg := mkMsg { header : LmacMsgHeader; param : list Z }.

(** driver/bsp/src/cmd.rs:55-65 [LmacMsg::new] *)
Definition new (id dest_id src_id param_len : Z) : LmacMsg :=
  mkMsg (mkHeader id dest_id src_id param_len) (zeros LMAC_MSG_MAX_LEN).

(** driver/bsp/src/cmd.rs:68-79 [LmacMsg::serialize] *)
Definition serialize (m : LmacMsg) (buf : list Z) : res (list Z * nat) :=
  let h := m.(header) in
  buf ← write_at 0 (to_le 2 h.(id)) buf;
  buf ← write_at 2 (to_le 2 h.(dest_id)) buf;
  buf ← write_at 4 (to_le 2 h.(src_id)) buf;
  buf ← write_at 6 (to_le 2 h.(param_len)) buf;
  let plen := Z.to_nat h.(param_len) in
  buf ← (if bool_decide (0 < plen ∧ 8 + plen ≤ length buf)%nat
         then p ← slice_to 0 plen m.(param); write_at 8 p buf
         else mret buf);
  mret (buf, (8 + plen)%nat).

(** driver/bsp/src/cmd.rs:83-102 [LmacMsg::serialize_8801]; [8u16 + param_len]
    overflows from 65528 on *)
Definition serialize_8801 (m : LmacMsg) (buf : list Z) : res (list Z * nat) :=
  let h := m.(header) in
  let plen := Z.to_nat h.(param_len) in
  if bool_decide (65536 ≤ 8 + h.(param_len)) then Panic else
  let payload_len := 8 + h.(param_len) in
  let len_plus_4 := payload_len + 4 in
  buf ← write_at 0 [Z.land len_plus_4 0xff] buf;
  buf ← write_at 1 [Z.land (Z.shiftr len_plus_4 8) 0x0f] buf;
  buf ← write_at 2 [0x11] buf;
  buf ← write_at 3 [0x00] buf;
  buf ← write_at 4 (zeros 4) buf;
  buf ← write_at 8 (to_le 2 h.(id)) buf;
  buf ← write_at 10 (to_le 2 h.(dest_id)) buf;
  buf ← write_at 12 (to_le 2 h.(src_id)) buf;
  buf ← write_at 14 (to_le 2 h.(param_len)) buf;
  buf ← (if bool_decide (0 < plen ∧ 16 + plen ≤ length buf)%nat
         then p ← slice_to 0 plen m.(param); write_at 16 p buf
         else mret buf);
  mret (buf, (16 + plen)%nat).

(** *** Task and message identifiers *)

(** driver/bsp/src/cmd.rs:106-123 [TaskId] *)
Inductive TaskId :=
  | TaskNone | Mm | Dbg | Scan | Tdls | Scanu | Me | Sm | Apm | Bam | Mesh | Rxu
  | LastEmb | Api | Max.

(** driver/bsp/src/cmd.rs:106-123 [TaskId as u8] *)
Definition TaskId_u8 (t : TaskId) : Z :=
  match t with
  | TaskNone => 0xFF | Mm => 0 | Dbg => 1 | Scan => 2 | Tdls => 3 | Scanu => 4
  | Me => 5 | Sm => 6 | Apm => 7 | Bam => 8 | Mesh => 9 | Rxu => 10 | LastEmb => 11 | Api => 12 | Max => 13
  end.

(** driver/bsp/src/cmd.rs:126-129 [lmac_first_msg]; the shift drops what leaves 16 bits *)
Definition lmac_first_msg (task : Z) : Z := wrap 16 (Z.shiftl task 10).

(** driver/bsp/src/cmd.rs:132-132 [SCANU_START_REQ] *)
Definition SCANU_START_REQ : Z := lmac_first_msg (TaskId_u8 Scanu).

(** driver/bsp/src/cmd.rs:133-133 [SCANU_START_CFM] *)
Definition SCANU_START_CFM : Z := SCANU_START_REQ + 1.

(** driver/bsp/src/cmd.rs:134-134 [SCANU_RESULT_IND] *)
Definition SCANU_RESULT_IND : Z := SCANU_START_REQ + 3.

(** driver/bsp/src/cmd.rs:137-137 [SM_CONNECT_REQ] *)
Definition SM_CONNECT_REQ : Z := lmac_first_msg (TaskId_u8 Sm).

(** driver/bsp/src/cmd.rs:138-138 [SM_CONNECT_CFM] *)
Definition SM_CONNECT_CFM : Z := SM_CONNECT_REQ + 1.

(** driver/bsp/src/cmd.rs:139-139 [SM_CONNECT_IND] *)
Definition SM_CONNECT_IND : Z := SM_CONNECT_REQ + 2.

(** driver/bsp/src/cmd.rs:140-140 [SM_DISCONNECT_REQ] *)
Definition SM_DISCONNECT_REQ : Z := SM_CONNECT_REQ + 3.

(** driver/bsp/src/cmd.rs:141-141 [SM_DISCONNECT_CFM] *)
Definition SM_DISCONNECT_CFM : Z := SM_CONNECT_REQ + 4.

(** driver/bsp/src/cmd.rs:142-142 [SM_DISCONNECT_IND] *)
Definition SM_DISCONNECT_IND : Z := SM_CONNECT_REQ + 5.

(** driver/bsp/src/cmd.rs:145-145 [MM_ADD_IF_REQ] *)
Definition MM_ADD_IF_REQ : Z := lmac_first_msg (TaskId_u8 Mm) + 4.

(** driver/bsp/src/cmd.rs:146-146 [MM_ADD_IF_CFM] *)
Definition MM_ADD_IF_CFM : Z := MM_ADD_IF_REQ + 1.

(** driver/bsp/src/cmd.rs:147-147 [MM_REMOVE_IF_REQ] *)
Definition MM_REMOVE_IF_REQ : Z := lmac_first_msg (TaskId_u8 Mm) + 6.

(** driver/bsp/src/cmd.rs:148-148 [MM_REMOVE_IF_CFM] *)
Definition MM_REMOVE_IF_CFM : Z := MM_REMOVE_IF_REQ + 1.

(** driver/bsp/src/cmd.rs:149-149 [MM_STA_ADD_REQ] *)
Definition MM_STA_ADD_REQ : Z := lmac_first_msg (TaskId_u8 Mm) + 10.

(** driver/bsp/src/cmd.rs:150-150 [MM_STA_ADD_CFM] *)
Definition MM_STA_ADD_CFM : Z := MM_STA_ADD_REQ + 1.

(** driver/bsp/src/cmd.rs:151-151 [MM_STA_DEL_REQ] *)
Definition MM_STA_DEL_REQ : Z := lmac_first_msg (TaskId_u8 Mm) + 12.

(** driver/bsp/src/cmd.rs:152-152 [MM_STA_DEL_CFM] *)
Definition MM_STA_DEL_CFM : Z := MM_STA_DEL_REQ + 1.

(** driver/bsp/src/cmd.rs:153-153 [MM_KEY_ADD_REQ] *)
Definition MM_KEY_ADD_REQ : Z := lmac_first_msg (TaskId_u8 Mm) + 72.

(** driver/bsp/src/cmd.rs:154-154 [MM_KEY_ADD_CFM] *)
Definition MM_KEY_ADD_CFM : Z := MM_KEY_ADD_REQ + 1.

(** driver/bsp/src/cmd.rs:155-155 [MM_KEY_DEL_REQ] *)
Definition MM_KEY_DEL_REQ : Z := MM_KEY_ADD_REQ + 2.

(** driver/bsp/src/cmd.rs:156-156 [MM_KEY_DEL_CFM] *)
Definition MM_KEY_DEL_CFM : Z := MM_KEY_ADD_REQ + 3.

(** driver/bsp/src/cmd.rs:158-158 [MM_SET_POWER_REQ] *)
Definition MM_SET_POWER_REQ : Z := lmac_first_msg (TaskId_u8 Mm) + 46.

(** driver/bsp/src/cmd.rs:159-159 [MM_SET_POWER_CFM] *)
Definition MM_SET_POWER_CFM : Z := MM_SET_POWER_REQ + 1.

(** driver/bsp/src/cmd.rs:161-161 [MM_PS_CHANGE_IND] *)
Definition MM_PS_CHANGE_IND : Z := lmac_first_msg (TaskId_u8 Mm) + 75.

(** driver/bsp/src/cmd.rs:162-162 [MM_RSSI_STATUS_IND] *)
Definition MM_RSSI_STATUS_IND : Z := lmac_first_msg (TaskId_u8 Mm) + 89.

(** driver/bsp/src/cmd.rs:163-163 [MM_GET_STA_INFO_REQ] *)
Definition MM_GET_STA_INFO_REQ : Z := lmac_first_msg (TaskId_u8 Mm) + 368.

(** driver/bsp/src/cmd.rs:164-164 [MM_GET_STA_INFO_CFM] *)
Definition MM_GET_STA_INFO_CFM : Z := MM_GET_STA_INFO_REQ + 1.

(** driver/bsp/src/cmd.rs:167-167 [APM_START_REQ] *)
Definition APM_START_REQ : Z := lmac_first_msg (TaskId_u8 Apm).

(** driver/bsp/src/cmd.rs:168-168 [APM_START_CFM] *)
Definition APM_START_CFM : Z := APM_START_REQ + 1.

(** driver/bsp/src/cmd.rs:169-169 [APM_STOP_REQ] *)
Definition APM_STOP_REQ : Z := APM_START_REQ + 2.

(** driver/bsp/src/cmd.rs:170-170 [APM_STOP_CFM] *)
Definition APM_STOP_CFM : Z := APM_START_REQ + 3.

(** driver/bsp/src/cmd.rs:173-173 [DRV_TASK_ID] *)
Definition DRV_TASK_ID : Z := 100.

(** *** The wire form *)

Definition header_ok (h : LmacMsgHeader) : Prop :=
  in_range 16 h.(id) ∧ in_range 16 h.(dest_id) ∧ in_range 16 h.(src_id) ∧
  in_range 16 h.(param_len).

Definition plen (m : LmacMsg) : nat := Z.to_nat m.(header).(param_len).

(** A message the driver builds: its parameters fit the array. *)
Definition msg_ok (m : LmacMsg) : Prop :=
  header_ok m.(header) ∧ length m.(param) = LMAC_MSG_MAX_LEN ∧ (plen m ≤ LMAC_MSG_MAX_LEN)%nat.

Definition header_bytes (h : LmacMsgHeader) : list Z :=
  ((to_le 2 h.(id) ++ to_le 2 h.(dest_id)) ++ to_le 2 h.(src_id)) ++ to_le 2 h.(param_len).

Definition wire (m : LmacMsg) : list Z := header_bytes m.(header) ++ take (plen m) m.(param).

(** What the firmware reads back: the header, then [param_len] bytes. *)
Definition decode (l : list Z) : LmacMsgHeader * list Z :=
  let h := mkHeader (of_le (slice 0 2 l)) (of_le (slice 2 2 l)) (of_le (slice 4 2 l))
                    (of_le (slice 6 2 l)) in
  (h, slice 8 (Z.to_nat h.(param_len)) l).

Lemma length_header_bytes h : length (header_bytes h) = 8%nat.
Proof. done. Qed.

Lemma length_wire m : msg_ok m → length (wire m) = (8 + plen m)%nat.
Proof. intros (_ & ? & ?). unfold wire. rewrite length_app, length_take. simpl. lia. Qed.

Lemma decode_wire m rest :
  msg_ok m → decode (wire m ++ rest) = (m.(header), take (plen m) m.(param)).
Proof.
  intros ((Hi & Hd & Hs & Hp) & Hlen & Hle). unfold in_range in *.
  assert (E : ∀ z, 0 ≤ z < 2 ^ 16 → of_le (to_le 2 z) = z) by (intros; by apply of_le_to_le_id).
  assert (F : ∀ h : LmacMsgHeader, h = mkHeader h.(id) h.(dest_id) h.(src_id) h.(param_len))
    by (by intros []).
  unfold decode.
  change (slice 0 2 (wire m ++ rest)) with (to_le 2 m.(header).(id)).
  change (slice 2 2 (wire m ++ rest)) with (to_le 2 m.(header).(dest_id)).
  change (slice 4 2 (wire m ++ rest)) with (to_le 2 m.(header).(src_id)).
  change (slice 6 2 (wire m ++ rest)) with (to_le 2 m.(header).(param_len)).
  rewrite !E by done. rewrite <- F. fold (plen m).
  f_equal. change (slice 8 (plen m) (wire m ++ rest)) with
    (take (plen m) (take (plen m) m.(param) ++ rest)).
  rewrite take_app_le by (rewrite length_take; lia). by rewrite take_take, Nat.min_id.
Qed.

Lemma serialize_header m buf :
  (8 ≤ length buf)%nat →
  serialize m buf =
    (buf ← (if bool_decide (0 < plen m ∧ 8 + plen m ≤ length buf)%nat
            then p ← slice_to 0 (plen m) m.(param);
                 write_at 8 p (header_bytes m.(header) ++ drop 8 buf)
            else mret (header_bytes m.(header) ++ drop 8 buf));
     mret (buf, (8 + plen m)%nat)).
Proof.
  intros Hb. unfold serialize, header_bytes, plen.
  rewrite write_at_front by (rewrite length_to_le; lia). cbn [mbind res_bind].
  do 3 fill_next. rewrite !drop_drop, !length_to_le. simpl (2 + _)%nat.
  rewrite !length_app, !length_to_le, length_drop. simpl (2 + _)%nat.
  by replace (4 + 2 + 2 + (length buf - 8))%nat with (length buf) by lia.
Qed.

Lemma serialize_full m buf :
  msg_ok m → (8 + plen m ≤ length buf)%nat →
  serialize m buf = Ok (wire m ++ drop (8 + plen m) buf, (8 + plen m)%nat).
Proof.
  intros (_ & Hl & Hp) Hb. rewrite serialize_header by lia. case_bool_decide as Hc.
  - rewrite slice_to_ok by lia. cbn [mbind res_bind]. rewrite Nat.sub_0_r.
    unfold slice. rewrite drop_0.
    rewrite (write_at_next 8) by (rewrite ?length_drop, ?length_take; simpl; lia).
    cbn [mbind res_bind]. rewrite drop_drop, length_take. do 4 f_equal. lia.
  - assert (plen m = 0%nat) as E0 by lia. unfold wire. by rewrite E0, take_0, app_nil_r.
Qed.

(** C33 (roundtrip): [serialize] never panics on a buffer of at least 8 bytes and
    a message whose parameters fit the array.  When the buffer has room it
    writes the header and the parameters, from which [decode] gives the message
    back, leaves the bytes behind them alone and returns their number; when it
    has room for the header only, it writes the header and still returns
    [8 + param_len]. *)
Theorem lmac_serialize_roundtrip (m : LmacMsg) (buf : list Z)
    (Hm : msg_ok m) (Hbuf : (8 ≤ length buf)%nat) :
  ∃ buf', serialize m buf = Ok (buf', (8 + plen m)%nat) ∧ length buf' = length buf ∧
    if bool_decide (8 + plen m ≤ length buf)%nat
    then decode buf' = (m.(header), take (plen m) m.(param)) ∧
         drop (8 + plen m) buf' = drop (8 + plen m) buf
    else buf' = header_bytes m.(header) ++ drop 8 buf.
Proof.
  pose proof (length_wire m Hm) as Hw. case_bool_decide as Hc.
  - rewrite serialize_full by done. eexists. split; [done|]. split; [solve_len|].
    split; [by apply decode_wire|]. rewrite <- Hw. by rewrite drop_app_length.
  - rewrite serialize_header by done. rewrite bool_decide_false by lia.
    eexists. split; [done|]. split; [|done]. rewrite length_app, length_drop. simpl. lia.
Qed.

Lemma lmac_serialize_roundtrip_witness :
  let m := mkMsg (mkHeader 0x400 1 100 4) (to_le 4 0x40500000 ++ zeros 1028) in
  ∃ buf', serialize m (zeros 64) = Ok (buf', 12%nat) ∧
    decode buf' = (mkHeader 0x400 1 100 4, to_le 4 0x40500000).
Proof.
  intros m. destruct (lmac_serialize_roundtrip m (zeros 64)) as (b & H1 & _ & H2 & _).
  - split; [repeat split; simpl; lia|]. split; [done|]. apply Nat.leb_le. reflexivity.
  - simpl. lia.
  - exists b. split; [exact H1|exact H2].
Defined.

(** The eight bytes [serialize_8801] puts in front. *)
Definition host_header (len_plus_4 : Z) : list Z :=
  ((([Z.land len_plus_4 0xff] ++ [Z.land (Z.shiftr len_plus_4 8) 0x0f]) ++ [0x11]) ++ [0x00])
    ++ zeros 4.

Lemma serialize_8801_full m buf :
  msg_ok m → (16 + plen m ≤ length buf)%nat →
  serialize_8801 m buf =
    Ok ((host_header (m.(header).(param_len) + 12) ++ wire m) ++ drop (16 + plen m) buf,
        (16 + plen m)%nat).
Proof.
  intros ((_ & _ & _ & Hr) & Hl & Hp) Hb. unfold serialize_8801.
  rewrite bool_decide_false by (unfold plen, LMAC_MSG_MAX_LEN in Hp; lia).
  rewrite write_at_front by (simpl; lia). cbn [mbind res_bind].
  do 8 fill_next. fold (plen m). rewrite !drop_drop.
  rewrite !length_app, !length_to_le, length_zeros, length_drop. simpl length. simpl (_ + _)%nat.
  replace (8 + m.(header).(param_len) + 4) with (m.(header).(param_len) + 12) by lia.
  unfold wire, header_bytes, host_header. rewrite !app_assoc.
  case_bool_decide as Hc.
  - rewrite slice_to_ok by lia. cbn [mbind res_bind]. rewrite Nat.sub_0_r.
    unfold slice. rewrite drop_0.
    rewrite (write_at_next 16) by (rewrite ?length_drop, ?length_take; simpl; lia).
    cbn [mbind res_bind]. rewrite drop_drop, length_take.
    by replace (plen m `min` length (param m))%nat with (plen m) by lia.
  - assert (plen m = 0%nat) as E0 by lia. by rewrite E0, take_0, app_nil_r.
Qed.

(** On a buffer with room, [serialize_8801] is [serialize]
    behind an eight-byte host header: the same message bytes from offset 8, the
    type byte [0x11] at offset 2, and in the first two bytes a length of four
    more than the message, which the twelve bits of the field hold. *)
Lemma lmac_serialize_8801_frames (m : LmacMsg) (buf : list Z)
    (Hm : msg_ok m) (Hbuf : (16 + plen m ≤ length buf)%nat) :
  ∃ b b', serialize m buf = Ok (b, (8 + plen m)%nat) ∧
    serialize_8801 m buf = Ok (b', (16 + plen m)%nat) ∧
    slice 8 (8 + plen m) b' = take (8 + plen m) b ∧
    b' !! 2%nat = Some 0x11 ∧
    of_le (take 2 b') = Z.of_nat (8 + plen m) + 4.
Proof.
  pose proof (length_wire m Hm) as Hw.
  rewrite serialize_full, serialize_8801_full by (done || lia).
  eexists _, _. do 2 (split; [done|]). rewrite <- Hw.
  split; [|split; [done|]].
  - rewrite take_app_length, <- app_assoc. by apply slice_app_mid.
  - assert (Hn : m.(header).(param_len) = Z.of_nat (plen m)).
    { destruct Hm as ((_ & _ & _ & [? _]) & _ & _). unfold plen. lia. }
    rewrite Hw, Hn. destruct Hm as (_ & _ & Hp). unfold LMAC_MSG_MAX_LEN in Hp.
    cbn [host_header zeros replicate app take of_le]. rewrite Z.shiftr_div_pow2 by lia.
    change 0xff with (Z.ones 8). change 0x0f with (Z.ones 4).
    rewrite !Z.land_ones by lia. change (2 ^ 8) with 256. change (2 ^ 4) with 16.
    rewrite (Z.mod_small _ 16) by (Z.to_euclidean_division_equations; lia).
    pose proof (Z.div_mod (Z.of_nat (plen m) + 12) 256). lia.
Qed.

Lemma lmac_serialize_8801_frames_witness :
  let m := new 0x402 1 100 12 in
  ∃ b', serialize_8801 m (zeros 64) = Ok (b', 28%nat) ∧ of_le (take 2 b') = 24.
Proof.
  intros m. destruct (lmac_serialize_8801_frames m (zeros 64)) as (b & b' & _ & H & _ & _ & H2).
  - split; [repeat split; simpl; lia|]. split; [done|]. apply Nat.leb_le. reflexivity.
  - simpl. unfold plen; simpl. lia.
  - exists b'. split; [exact H|exact H2].
Defined.

End Lmac.

(** ** The manager *)
Module Mgr.

(** driver/bsp/src/cmd.rs:177-177 [cmd_flags::NONBLOCK] *)
Definition NONBLOCK : Z := Z.shiftl 1 0.
(** driver/bsp/src/cmd.rs:178-178 [cmd_flags::REQ_CFM] *)
Definition REQ_CFM : Z := Z.shiftl 1 1.
(** driver/bsp/src/cmd.rs:179-179 [cmd_flags::WAIT_PUSH] *)
Definition WAIT_PUSH : Z := Z.shiftl 1 2.
(** driver/bsp/src/cmd.rs:180-180 [cmd_flags::WAIT_ACK] *)
Definition WAIT_ACK : Z := Z.shiftl 1 3.
(** driver/bsp/src/cmd.rs:181-181 [cmd_flags::WAIT_CFM] *)
Definition WAIT_CFM : Z := Z.shiftl 1 4.
(** driver/bsp/src/cmd.rs:182-182 [cmd_flags::DONE] *)
Definition DONE : Z := Z.shiftl 1 5.

(** driver/bsp/src/cmd.rs:186-189 [rwnx_cmd_wait_complete] *)
Definition rwnx_cmd_wait_complete (flags : Z) : bool :=
  bool_decide (Z.land flags (Z.lor WAIT_ACK WAIT_CFM) = 0).

(** driver/bsp/src/cmd.rs:192-192 [RWNX_80211_CMD_TIMEOUT_MS] *)
Definition RWNX_80211_CMD_TIMEOUT_MS : Z := 6000.

(** driver/bsp/src/cmd.rs:195-195 [CMD_MGR_MAX_PENDING] *)
Definition CMD_MGR_MAX_PENDING : nat := 8.

(** driver/bsp/src/cmd.rs:199-203 [RwnxCmdMgrState] *)
Inductive RwnxCmdMgrState := Deinit | Inited | Crashed.
#[export] Instance RwnxCmdMgrState_eq_dec : EqDecision RwnxCmdMgrState.
Proof. solve_decision. Defined.

(** driver/bsp/src/cmd.rs:206-213 [PendingCmd]; [cfm_data] is an array of
    [RWNX_CMD_E2AMSG_LEN_MAX] bytes *)
Record PendingCmd := mkCmd {
  reqid : Z; flags : Z; result : Z; done : bool; cfm_len : nat; cfm_data : list Z }.

(** driver/bsp/src/cmd.rs:215-226 [PendingCmd::default] *)
Definition pending_cmd_default : PendingCmd := mkCmd 0 0 (-4) false 0 (zeros Lmac.RWNX_CMD_E2AMSG_LEN_MAX).

(** driver/bsp/src/cmd.rs:229-236 [RwnxCmdMgr] *)
Record t := mk {
  state : RwnxCmdMgrState; next_tkn : Z; queue_sz : Z; max_queue_sz : Z;
  slots : list (option PendingCmd) }.

(** driver/bsp/src/cmd.rs:239-247 [RwnxCmdMgr::new] *)
Definition new : t := mk Inited 0 0 (Z.of_nat CMD_MGR_MAX_PENDING) (replicate 8 None).

(** driver/bsp/src/cmd.rs:264-271 [RwnxCmdMgr::push], the entry it stores *)
Definition fresh_cmd (reqid : Z) : PendingCmd :=
  mkCmd reqid (Z.lor REQ_CFM WAIT_CFM) (-4) false 0 (zeros Lmac.RWNX_CMD_E2AMSG_LEN_MAX).

(** driver/bsp/src/cmd.rs:251-279 [RwnxCmdMgr::push] *)
Definition push (reqid : Z) (m : t) : option nat * t :=
  if bool_decide (m.(state) = Crashed) then (None, m)
  else if bool_decide (m.(max_queue_sz) ≤ m.(queue_sz)) then (None, m)
  else
    match list_find (λ s, s = None) m.(slots) with
    | Some (i, _) =>
        (Some i, mk m.(state) (wrap 32 (m.(next_tkn) + 1)) (m.(queue_sz) + 1) m.(max_queue_sz)
                    (<[i := Some (fresh_cmd reqid)]> m.(slots)))
    | None => (None, m)
    end.

(** What [cmd_complete] wakes: the two wait queues of sdio_irq.rs. *)
Inductive wake := WaitDone | CmdDone.

(** driver/bsp/src/cmd.rs:308-318 [RwnxCmdMgr::cmd_complete] *)
Definition cmd_complete (token : nat) (m : t) : t * list wake :=
  if bool_decide (CMD_MGR_MAX_PENDING ≤ token)%nat then (m, [])
  else
    match m.(slots) !! token with
    | Some (Some s) =>
        (mk m.(state) m.(next_tkn) (Z.max 0 (m.(queue_sz) - 1)) m.(max_queue_sz)
            (<[token := Some (mkCmd s.(reqid) (Z.lor s.(flags) DONE) s.(result) s.(done)
                                    s.(cfm_len) s.(cfm_data))]> m.(slots)),
         [WaitDone; CmdDone])
    | _ => (m, [])
    end.

(** driver/bsp/src/cmd.rs:285-286 [RwnxCmdMgr::on_cfm], the slot it stops at *)
Definition awaits (msg_id : Z) (s : option PendingCmd) : bool :=
  match s with
  | Some s => bool_decide (s.(reqid) = msg_id ∧ Z.land s.(flags) WAIT_CFM ≠ 0)
  | None => false
  end.

(** driver/bsp/src/cmd.rs:287-295 [RwnxCmdMgr::on_cfm], the update of the slot.
    [Z.ldiff] is the [&= !] of the code; the copied prefix is at most the
    array's 256 bytes *)
Definition confirm (param : list Z) (s : PendingCmd) : PendingCmd :=
  let param_len := Nat.min (length param) Lmac.RWNX_CMD_E2AMSG_LEN_MAX in
  mkCmd s.(reqid) (Z.ldiff s.(flags) WAIT_CFM) 0 true param_len
        (splice 0 (take param_len param) s.(cfm_data)).

(** driver/bsp/src/cmd.rs:283-304 [RwnxCmdMgr::on_cfm] *)
Definition on_cfm (msg_id : Z) (param : list Z) (m : t) : t * list wake :=
  match list_find (λ s, awaits msg_id s = true) m.(slots) with
  | Some (token, Some s) =>
      let s' := confirm param s in
      let m' := mk m.(state) m.(next_tkn) m.(queue_sz) m.(max_queue_sz)
                   (<[token := Some s']> m.(slots)) in
      if rwnx_cmd_wait_complete s'.(flags) then cmd_complete token m' else (m', [])
  | _ => (m, [])
  end.

(** driver/bsp/src/cmd.rs:321-330 [RwnxCmdMgr::complete_timeout] *)
Definition complete_timeout (token : nat) (m : t) : t :=
  if bool_decide (CMD_MGR_MAX_PENDING ≤ token)%nat then m
  else
    let q := match m.(slots) !! token with
             | Some (Some _) => Z.max 0 (m.(queue_sz) - 1)
             | _ => m.(queue_sz)
             end in
    mk Crashed m.(next_tkn) q m.(max_queue_sz) (<[token := None]> m.(slots)).

(** driver/bsp/src/cmd.rs:332-340 [RwnxCmdMgr::is_done] *)
Definition is_done (token : nat) (m : t) : bool :=
  if bool_decide (CMD_MGR_MAX_PENDING ≤ token)%nat then false
  else match m.(slots) !! token with Some (Some s) => s.(done) | _ => false end.

(** driver/bsp/src/cmd.rs:343-354 [RwnxCmdMgr::take_cfm]; [out] is the caller's
    buffer, returned with the copied prefix *)
Definition take_cfm (token : nat) (out : list Z) (m : t) : option (nat * list Z) * t :=
  if bool_decide (CMD_MGR_MAX_PENDING ≤ token)%nat then (None, m)
  else
    match m.(slots) !! token with
    | Some (Some slot) =>
        let m' := mk m.(state) m.(next_tkn) m.(queue_sz) m.(max_queue_sz)
                     (<[token := None]> m.(slots)) in
        if slot.(done) then
          let len := Nat.min slot.(cfm_len) (length out) in
          (Some (len, splice 0 (take len slot.(cfm_data)) out), m')
        else (None, m')
    | _ => (None, m)
    end.

(** *** The transition system

    Every call on the manager, with what it returned; [run P] is a sequence of
    calls that satisfy [P] in the state they are made in. *)

Inductive ev :=
  | EPush (id : Z) (r : option nat)
  | ECfm (id : Z) (param : list Z) (w : list wake)
  | ETake (token : nat) (out : list Z) (r : option (nat * list Z))
  | ETimeout (token : nat).

Inductive step : t → ev → t → Prop :=
  | step_push m id r m' : push id m = (r, m') → step m (EPush id r) m'
  | step_cfm m id param w m' : on_cfm id param m = (m', w) → step m (ECfm id param w) m'
  | step_take m token out r m' : take_cfm token out m = (r, m') → step m (ETake token out r) m'
  | step_timeout m token m' : complete_timeout token m = m' → step m (ETimeout token) m'.

Inductive run (P : t → ev → Prop) : t → list ev → t → Prop :=
  | run_nil m : run P m [] m
  | run_cons m e m1 tr m2 : P m e → step m e m1 → run P m1 tr m2 → run P m (e :: tr) m2.

(** An invariant of the steps holds along a run. *)
Lemma run_invariant (P : t → ev → Prop) (I : t → Prop) m tr m' :
  (∀ m e m', I m → P m e → step m e m' → I m') → run P m tr m' → I m → I m'.
Proof. intros Hstep. induction 1; eauto. Qed.

(** *** What one call changes *)

(** An entry is waiting for its confirmation or has it. *)
Definition slot_ok (s : PendingCmd) : Prop :=
  (length s.(cfm_data) = 256 ∧ s.(cfm_len) ≤ 256)%nat ∧
  (s.(flags) = Z.lor REQ_CFM WAIT_CFM ∧ s.(done) = false ∧ s.(cfm_len) = 0%nat ∨
   s.(flags) = Z.lor REQ_CFM DONE ∧ s.(done) = true ∧ s.(result) = 0).

Definition wf (m : t) : Prop :=
  length m.(slots) = 8%nat ∧ m.(max_queue_sz) = 8 ∧ 0 ≤ m.(queue_sz) ≤ 8 ∧
  ∀ i s, m.(slots) !! i = Some (Some s) → slot_ok s.

(** The entry [on_cfm] leaves. *)
Definition completed (param : list Z) (s : PendingCmd) : PendingCmd :=
  let c := confirm param s in
  mkCmd c.(reqid) (Z.lor c.(flags) DONE) c.(result) c.(done) c.(cfm_len) c.(cfm_data).

Lemma fresh_ok id : slot_ok (fresh_cmd id).
Proof. split; [split; simpl; [done|lia]|]. left. done. Qed.

Lemma awaits_flags id s :
  slot_ok s → awaits id (Some s) = true →
  s.(reqid) = id ∧ s.(done) = false ∧ s.(flags) = Z.lor REQ_CFM WAIT_CFM.
Proof.
  intros [_ [(Hf & Hd & _)|(Hf & _)]]; simpl; rewrite bool_decide_eq_true, Hf; [by intros []|].
  by intros [_ []].
Qed.

Lemma completed_ok id param s :
  slot_ok s → awaits id (Some s) = true → slot_ok (completed param s).
Proof.
  intros Hs Ha. destruct (awaits_flags id s Hs Ha) as (_ & _ & Hf).
  destruct Hs as [[Hl _] _]. unfold completed, confirm, slot_ok; simpl. rewrite Hf.
  unfold Lmac.RWNX_CMD_E2AMSG_LEN_MAX. split; [split|right; done].
  - rewrite length_splice; [done|]. rewrite length_take. lia.
  - lia.
Qed.

Lemma push_inv id m r m' :
  push id m = (r, m') →
  (r = None ∧ m' = m) ∨
  ∃ i, r = Some i ∧ m.(slots) !! i = Some None ∧ m.(queue_sz) < m.(max_queue_sz) ∧
       m' = mk m.(state) (wrap 32 (m.(next_tkn) + 1)) (m.(queue_sz) + 1) m.(max_queue_sz)
               (<[i := Some (fresh_cmd id)]> m.(slots)).
Proof.
  unfold push. case_bool_decide; [intros [= <- <-]; auto|].
  case_bool_decide; [intros [= <- <-]; auto|].
  destruct (list_find _ _) as [[i s]|] eqn:E; intros [= <- <-]; [|auto].
  apply list_find_Some in E as (E & -> & _). right. exists i.
  repeat split; [done|lia].
Qed.

Lemma on_cfm_inv id param m m' w :
  wf m → on_cfm id param m = (m', w) →
  (m' = m ∧ w = [] ∧ ∀ i s, m.(slots) !! i = Some s → awaits id s = false) ∨
  ∃ i s, m.(slots) !! i = Some (Some s) ∧ awaits id (Some s) = true ∧
    (∀ j s', (j < i)%nat → m.(slots) !! j = Some s' → awaits id s' = false) ∧
    w = [WaitDone; CmdDone] ∧
    m' = mk m.(state) m.(next_tkn) (Z.max 0 (m.(queue_sz) - 1)) m.(max_queue_sz)
            (<[i := Some (completed param s)]> m.(slots)).
Proof.
  intros (Hlen & _ & _ & Hok). unfold on_cfm.
  destruct (list_find _ _) as [[i [s|]]|] eqn:E.
  - apply list_find_Some in E as (Hi & Ha & Hb).
    pose proof (Hok i s Hi) as Hs. destruct (awaits_flags id s Hs Ha) as (_ & _ & Hf).
    replace (rwnx_cmd_wait_complete _) with true by (simpl; rewrite Hf; done).
    unfold cmd_complete, CMD_MGR_MAX_PENDING; simpl.
    pose proof (lookup_lt_Some _ _ _ Hi).
    decide_false. rewrite list_lookup_insert_eq by lia.
    rewrite list_insert_insert_eq. intros [= <- <-]. right. exists i, s.
    repeat split; try done. intros j s' Hj Hs'.
    specialize (Hb j s' Hs' Hj). by destruct (awaits id s').
  - apply list_find_Some in E as (_ & Ha & _). done.
  - apply list_find_None in E. intros [= <- <-]. left. repeat split.
    intros i s Hi. rewrite Forall_lookup in E. specialize (E i s Hi). by destruct (awaits id s).
Qed.

Lemma take_inv tok out m r m' :
  take_cfm tok out m = (r, m') →
  (r = None ∧ m' = m ∧ is_done tok m = false) ∨
  ∃ s, m.(slots) !! tok = Some (Some s) ∧
    r = (if s.(done)
         then let len := Nat.min s.(cfm_len) (length out) in
              Some (len, splice 0 (take len s.(cfm_data)) out)
         else None) ∧
    m' = mk m.(state) m.(next_tkn) m.(queue_sz) m.(max_queue_sz) (<[tok := None]> m.(slots)) ∧
    is_done tok m = s.(done).
Proof.
  unfold take_cfm, is_done. case_bool_decide; [intros [= <- <-]; auto|].
  destruct (m.(slots) !! tok) as [[s|]|] eqn:E; [|intros [= <- <-]; auto..].
  destruct (s.(done)) eqn:Hd; intros [= <- <-]; right; exists s; by rewrite Hd.
Qed.

Lemma timeout_inv tok m :
  complete_timeout tok m = m ∨
  (tok < 8)%nat ∧
  complete_timeout tok m =
    mk Crashed m.(next_tkn)
       (match m.(slots) !! tok with
        | Some (Some _) => Z.max 0 (m.(queue_sz) - 1) | _ => m.(queue_sz) end)
       m.(max_queue_sz) (<[tok := None]> m.(slots)).
Proof.
  unfold complete_timeout, CMD_MGR_MAX_PENDING. case_bool_decide; [by left|].
  right. split; [lia|done].
Qed.

Lemma insert_ok (sl : list (option PendingCmd)) i x :
  (∀ j s, sl !! j = Some (Some s) → slot_ok s) → (∀ s, x = Some s → slot_ok s) →
  ∀ j s, <[i := x]> sl !! j = Some (Some s) → slot_ok s.
Proof.
  intros Hsl Hx j s. rewrite list_lookup_insert_Some.
  intros [(_ & Hxs & _)|[_ Hj]]; [by apply Hx|eauto].
Qed.

Lemma step_wf m e m' : wf m → step m e m' → wf m'.
Proof.
  intros Hwf Hs. pose proof Hwf as (Hlen & Hmax & Hq & Hok).
  destruct Hs as [m id r m' E|m id param w m' E|m tok out r m' E|m tok m' E].
  - apply push_inv in E as [[_ ->]|(i & _ & Hi & Hlt & ->)]; [done|].
    split; simpl; [by rewrite length_insert|]. do 2 (split; [lia|]).
    apply insert_ok; [done|]. intros s [= <-]. apply fresh_ok.
  - apply on_cfm_inv in E as [(-> & _)|(i & s & Hi & Ha & _ & _ & ->)]; [done| |done].
    split; simpl; [by rewrite length_insert|]. do 2 (split; [lia|]).
    apply insert_ok; [done|]. intros ? [= <-]. eauto using completed_ok.
  - apply take_inv in E as [(_ & -> & _)|(s & Hi & _ & -> & _)]; [done|].
    split; simpl; [by rewrite length_insert|]. do 2 (split; [lia|]). by apply insert_ok.
  - subst m'. destruct (timeout_inv tok m) as [->|[_ ->]]; [done|].
    split; simpl; [by rewrite length_insert|]. split; [done|].
    split; [repeat case_match; lia|]. by apply insert_ok.
Qed.

Lemma new_wf : wf new.
Proof.
  unfold wf, new, CMD_MGR_MAX_PENDING; simpl. split_and!; try done. intros i s.
  by do 8 (destruct i as [|i]; [discriminate|]).
Qed.

Lemma run_wf P m tr m' : run P m tr m' → wf m → wf m'.
Proof. apply run_invariant. eauto using step_wf. Qed.

(** Whatever calls are made, in whatever order and with whatever
    arguments, the manager keeps eight slots, a queue size between 0 and 8, and in
    every occupied slot an entry that either waits ([REQ_CFM|WAIT_CFM], not done)
    or is done ([REQ_CFM|DONE], result 0) with at most 256 bytes of answer. *)
Lemma cmd_mgr_invariant (tr : list ev) (m : t)
    (Hrun : run (λ _ _, True) new tr m) : wf m.
Proof. eapply run_wf; [done|]. apply new_wf. Qed.

Lemma cmd_mgr_invariant_witness : wf (on_cfm 0x401 [1; 2] (push 0x401 new).2).1.
Proof.
  eapply (cmd_mgr_invariant [EPush 0x401 (Some 0%nat); ECfm 0x401 [1; 2] [WaitDone; CmdDone]]).
  eapply run_cons; [done|by constructor|]. eapply run_cons; [done|by constructor|].
  apply run_nil.
Defined.

(** *** The queue size under the callers' discipline *)

Definition waiting (s : option PendingCmd) : bool :=
  match s with Some s => negb s.(done) | None => false end.

(** [take_cfm] after [is_done], [complete_timeout] before it. *)
Definition disciplined (m : t) (e : ev) : Prop :=
  match e with
  | ETake tok _ _ => is_done tok m = true
  | ETimeout tok => is_done tok m = false
  | _ => True
  end.

Definition counted (m : t) : Prop :=
  wf m ∧ m.(queue_sz) = Z.of_nat (countb waiting m.(slots)).

Lemma is_done_lookup tok m s :
  wf m → m.(slots) !! tok = Some (Some s) → is_done tok m = s.(done).
Proof.
  intros (Hl & _) Hs. pose proof (lookup_lt_Some _ _ _ Hs).
  unfold is_done, CMD_MGR_MAX_PENDING. decide_false. by rewrite Hs.
Qed.

Lemma step_counted m e m' : counted m → disciplined m e → step m e m' → counted m'.
Proof.
  intros [Hwf Hq] Hd Hs. split; [by eapply step_wf|].
  destruct Hs as [m id r m' E|m id param w m' E|m tok out r m' E|m tok m' E]; simpl in Hd.
  - apply push_inv in E as [[_ ->]|(i & _ & Hi & _ & ->)]; [done|]; simpl.
    pose proof (countb_insert waiting _ _ _ (Some (fresh_cmd id)) Hi) as C. simpl in C. lia.
  - apply on_cfm_inv in E as [(-> & _)|(i & s & Hi & Ha & _ & _ & ->)]; [done| |done]; simpl.
    pose proof (countb_insert waiting _ _ _ (Some (completed param s)) Hi) as C. simpl in C.
    destruct (awaits_flags id s) as (_ & Hds & _); [by apply (proj2 (proj2 (proj2 Hwf)) i)|done|].
    rewrite Hds in C. simpl in C. lia.
  - apply take_inv in E as [(_ & -> & _)|(s & Hi & _ & -> & Hds)]; [done|]; simpl.
    pose proof (countb_insert waiting _ _ _ None Hi) as C. simpl in C.
    rewrite <- Hds, Hd in C. simpl in C. lia.
  - subst m'. destruct (timeout_inv tok m) as [->|[Ht ->]]; [done|]; simpl.
    destruct (m.(slots) !! tok) as [[s|]|] eqn:Hi.
    + pose proof (countb_insert waiting _ _ _ None Hi) as C. simpl in C.
      rewrite (is_done_lookup tok m s Hwf Hi) in Hd. rewrite Hd in C. simpl in C. lia.
    + by rewrite list_insert_id.
    + by rewrite list_insert_ge by (apply lookup_ge_None_1; done).
Qed.

Lemma new_counted : counted new.
Proof. split; [apply new_wf|done]. Qed.

Lemma run_counted tr m : run disciplined new tr m → counted m.
Proof.
  intros H. eapply (run_invariant disciplined counted); eauto using step_counted, new_counted.
Qed.

(** [push] finds a slot when one is free: the size test never refuses first. *)
Lemma push_none_iff id m :
  counted m →
  (push id m).1 = None ↔ m.(state) = Crashed ∨ ∀ s, s ∈ m.(slots) → s ≠ None.
Proof.
  intros [(Hl & Hmax & Hqr & _) Hq]. unfold push.
  case_bool_decide as Hc; [split; [by left|done]|].
  destruct (list_find _ _) as [[i s]|] eqn:E.
  - apply list_find_Some in E as (Hi & -> & _).
    pose proof (countb_insert waiting _ _ _ (Some (fresh_cmd id)) Hi) as C. simpl in C.
    pose proof (countb_le_length waiting (<[i := Some (fresh_cmd id)]> m.(slots))) as L.
    rewrite length_insert in L. rewrite bool_decide_false by lia. simpl. split; [done|].
    intros [?|Hno]; [done|]. exfalso. by apply (Hno None); [eapply list_elem_of_lookup_2|].
  - apply list_find_None in E. assert (Hf : ∀ s, s ∈ m.(slots) → s ≠ None).
    { intros s Hs. rewrite Forall_forall in E. by apply E. }
    case_bool_decide; simpl; split; auto.
Qed.

(** C30 (invariant): as long as callers take an answer only when [is_done]
    and time a command out only before, [queue_sz] is the number of commands
    that wait for their confirmation, and [push] is refused exactly when the
    manager has crashed or no slot is free. *)
Theorem cmd_mgr_queue_exact (tr : list ev) (m : t) (Hrun : run disciplined new tr m) :
  m.(queue_sz) = Z.of_nat (countb waiting m.(slots)) ∧
  ∀ id, (push id m).1 = None ↔ m.(state) = Crashed ∨ ∀ s, s ∈ m.(slots) → s ≠ None.
Proof.
  pose proof (run_counted tr m Hrun) as Hc. split; [apply Hc|]. intros id. by apply push_none_iff.
Qed.

Lemma cmd_mgr_queue_exact_witness :
  let m := (on_cfm 7 [] (push 8 (push 7 new).2).2).1 in
  m.(queue_sz) = 1 ∧ Z.of_nat (countb waiting m.(slots)) = 1.
Proof.
  intros m. destruct (cmd_mgr_queue_exact
    [EPush 7 (Some 0%nat); EPush 8 (Some 1%nat); ECfm 7 [] [WaitDone; CmdDone]] m) as [H _].
  - do 3 (eapply run_cons; [done|by constructor|]). apply run_nil.
  - split; [exact H|reflexivity].
Defined.

(** *** The life of one command *)

(** A call that concerns neither message [id] nor slot [tok]. *)
Definition apart (id : Z) (tok : nat) (e : ev) : Prop :=
  match e with
  | EPush id' _ | ECfm id' _ _ => id' ≠ id
  | ETake tok' _ _ | ETimeout tok' => tok' ≠ tok
  end.

(** A call that does not give slot [tok] up. *)
Definition keeps (tok : nat) (e : ev) : Prop :=
  match e with ETake tok' _ _ | ETimeout tok' => tok' ≠ tok | _ => True end.

Definition sole (id : Z) (tok : nat) (m : t) : Prop :=
  wf m ∧ m.(slots) !! tok = Some (Some (fresh_cmd id)) ∧
  ∀ j s, j ≠ tok → m.(slots) !! j = Some s → awaits id s = false.

Definition holds (c : PendingCmd) (tok : nat) (m : t) : Prop :=
  wf m ∧ m.(slots) !! tok = Some (Some c).

Lemma sole_insert id (tok i : nat) x (sl : list (option PendingCmd)) :
  i ≠ tok → (awaits id x = false) →
  (sl !! tok = Some (Some (fresh_cmd id)) ∧
    ∀ j s, j ≠ tok → sl !! j = Some s → awaits id s = false) →
  <[i := x]> sl !! tok = Some (Some (fresh_cmd id)) ∧
    ∀ j s, j ≠ tok → <[i := x]> sl !! j = Some s → awaits id s = false.
Proof.
  intros Hi Hx [Ht Ho]. split; [by rewrite list_lookup_insert_ne|].
  intros j s Hj. rewrite list_lookup_insert_Some. intros [(_ & <- & _)|[_ Hs]]; [done|eauto].
Qed.

Lemma awaits_other id id' s :
  awaits id' (Some s) = true → id' ≠ id → ∀ c, c.(reqid) = s.(reqid) → awaits id (Some c) = false.
Proof.
  simpl. rewrite bool_decide_eq_true. intros [<- _] Hne c Hc.
  apply bool_decide_eq_false. intros [E _]. congruence.
Qed.

Lemma step_sole id tok m e m' : sole id tok m → apart id tok e → step m e m' → sole id tok m'.
Proof.
  intros (Hwf & Hs) Ha Hst. split; [by eapply step_wf|]. pose proof Hs as [Ht Ho].
  destruct Hst as [m id' r m' E|m id' param w m' E|m tok' out r m' E|m tok' m' E]; simpl in Ha.
  - apply push_inv in E as [[_ ->]|(i & _ & Hi & _ & ->)]; [done|]. simpl.
    apply sole_insert; [congruence| |done]. simpl. apply bool_decide_eq_false. by intros [? _].
  - apply on_cfm_inv in E as [(-> & _)|(i & s & Hi & Haw & _ & _ & ->)]; [done| |done]. simpl.
    apply sole_insert; [|by eapply awaits_other|done].
    intros ->. rewrite Ht in Hi. injection Hi as <-. simpl in Haw.
    apply bool_decide_eq_true in Haw as [? _]. done.
  - apply take_inv in E as [(_ & -> & _)|(s & Hi & _ & -> & _)]; [done|]. simpl.
    by apply sole_insert.
  - subst m'. destruct (timeout_inv tok' m) as [->|[_ ->]]; [done|]. simpl. by apply sole_insert.
Qed.

Lemma step_holds c tok m e m' :
  c.(done) = true → holds c tok m → keeps tok e → step m e m' → holds c tok m'.
Proof.
  intros Hd (Hwf & Ht) Hk Hst. split; [by eapply step_wf|].
  destruct Hst as [m id' r m' E|m id' param w m' E|m tok' out r m' E|m tok' m' E]; simpl in Hk.
  - apply push_inv in E as [[_ ->]|(i & _ & Hi & _ & ->)]; [done|]. simpl.
    rewrite list_lookup_insert_ne; congruence.
  - apply on_cfm_inv in E as [(-> & _)|(i & s & Hi & Haw & _ & _ & ->)]; [done| |done]. simpl.
    rewrite list_lookup_insert_ne; [done|]. intros ->. rewrite Ht in Hi. injection Hi as <-.
    apply awaits_flags in Haw as (_ & ? & _); [congruence|]. by apply Hwf in Ht.
  - apply take_inv in E as [(_ & -> & _)|(s & Hi & _ & -> & _)]; [done|]. simpl.
    by rewrite list_lookup_insert_ne.
  - subst m'. destruct (timeout_inv tok' m) as [->|[_ ->]]; [done|]. simpl.
    by rewrite list_lookup_insert_ne.
Qed.

Lemma push_sole id m tok m' :
  wf m → (∀ s, s ∈ m.(slots) → awaits id s = false) → push id m = (Some tok, m') →
  sole id tok m'.
Proof.
  intros Hwf Hno E. split; [eapply step_wf; [done|by constructor]|].
  apply push_inv in E as [[? _]|(i & [= <-] & Hi & _ & ->)]; [done|]. simpl.
  pose proof (lookup_lt_Some _ _ _ Hi). split; [by apply list_lookup_insert_eq|].
  intros j s Hj. rewrite list_lookup_insert_ne by done. intros Hs.
  apply Hno. by eapply list_elem_of_lookup_2.
Qed.

Lemma on_cfm_sole id tok param m m' w :
  sole id tok m → on_cfm id param m = (m', w) →
  w = [WaitDone; CmdDone] ∧ holds (completed param (fresh_cmd id)) tok m'.
Proof.
  intros (Hwf & Ht & Ho) E.
  assert (Hwf' : wf m') by (eapply step_wf; [done|by constructor]).
  apply on_cfm_inv in E as [(_ & _ & Hno)|(i & s & Hi & Ha & _ & -> & ->)]; [| |done].
  - exfalso. specialize (Hno _ _ Ht). simpl in Hno. apply bool_decide_eq_false in Hno.
    apply Hno. done.
  - destruct (decide (i = tok)) as [->|Hne]; [|by rewrite (Ho i _ Hne Hi) in Ha].
    rewrite Ht in Hi. injection Hi as <-. split; [done|]. split; [done|]. simpl.
    apply list_lookup_insert_eq. by eapply lookup_lt_Some.
Qed.

Lemma take_holds c tok out m :
  holds c tok m → c.(done) = true →
  let len := Nat.min c.(cfm_len) (length out) in
  ∃ m', take_cfm tok out m = (Some (len, splice 0 (take len c.(cfm_data)) out), m') ∧
        m'.(slots) !! tok = Some None.
Proof.
  intros [(Hl & _) Ht] Hd len. pose proof (lookup_lt_Some _ _ _ Ht).
  unfold take_cfm, CMD_MGR_MAX_PENDING. decide_false. rewrite Ht, Hd. eexists. split; [done|].
  simpl. apply list_lookup_insert_eq. lia.
Qed.

(** C1 (roundtrip): a pushed command gets its own answer.  With no other command
    waiting for message [id], let any calls happen that concern neither [id] nor
    the slot, then the confirmation, then any calls that do not give the slot up:
    the confirmation wakes both wait queues, and [take_cfm] returns the first
    [min] of the answer's length, 256 and the buffer's size of its bytes, and
    frees the slot. *)
Theorem cmd_mgr_roundtrip (id : Z) (param out : list Z) (tok : nat)
    (pre mid post : list ev) (m m0 m1 m2 m3 : t) (w : list wake)
    (Hpre : run (λ _ _, True) new pre m)
    (Hsole : ∀ s, s ∈ m.(slots) → awaits id s = false)
    (Hpush : push id m = (Some tok, m0))
    (Hmid : run (λ _, apart id tok) m0 mid m1)
    (Hcfm : on_cfm id param m1 = (m2, w))
    (Hpost : run (λ _, keeps tok) m2 post m3) :
  w = [WaitDone; CmdDone] ∧ is_done tok m3 = true ∧
  let len := Nat.min (Nat.min (length param) 256) (length out) in
  ∃ m4, take_cfm tok out m3 = (Some (len, splice 0 (take len param) out), m4) ∧
        m4.(slots) !! tok = Some None.
Proof.
  assert (Hwf : wf m) by (eapply run_wf; [done|apply new_wf]).
  assert (H1 : sole id tok m1).
  { eapply (run_invariant _ (sole id tok)); [|done|by eapply push_sole]. intros ??? Hs Ha. exact (step_sole _ _ _ _ _ Hs Ha). }
  destruct (on_cfm_sole id tok param m1 m2 w H1 Hcfm) as [-> H2].
  assert (H3 : holds (completed param (fresh_cmd id)) tok m3).
  { eapply (run_invariant _ (holds _ tok)); [|done|done]. intros ??? Hs Hk. exact (step_holds (completed param (fresh_cmd id)) _ _ _ _ eq_refl Hs Hk). }
  split; [done|]. split; [rewrite (is_done_lookup _ _ _ (proj1 H3) (proj2 H3)); done|].
  destruct (take_holds _ tok out m3 H3 eq_refl) as (m4 & E & Hfree). exists m4.
  split; [|done]. rewrite E. unfold completed, confirm, Lmac.RWNX_CMD_E2AMSG_LEN_MAX; simpl.
  do 4 f_equal. unfold splice; simpl. rewrite take_app_le by (rewrite length_take; lia).
  by rewrite take_take, Nat.min_l by lia.
Qed.

Lemma cmd_mgr_roundtrip_witness :
  ∃ m4, take_cfm 0 (zeros 4) (on_cfm 8 [] (on_cfm 7 [5; 6] (push 8 (push 7 new).2).2).1).1
        = (Some (2%nat, [5; 6; 0; 0]), m4).
Proof.
  destruct (cmd_mgr_roundtrip 7 [5; 6] (zeros 4) 0 [] [EPush 8 (Some 1%nat)]
    [ECfm 8 [] [WaitDone; CmdDone]] new (push 7 new).2 (push 8 (push 7 new).2).2
    (on_cfm 7 [5; 6] (push 8 (push 7 new).2).2).1
    (on_cfm 8 [] (on_cfm 7 [5; 6] (push 8 (push 7 new).2).2).1).1 [WaitDone; CmdDone])
    as (_ & _ & m4 & H & _).
  - apply run_nil.
  - intros s Hs. simpl in Hs. set_unfold in Hs. by repeat destruct Hs as [->|Hs].
  - reflexivity.
  - eapply run_cons; [by simpl|by constructor|]. apply run_nil.
  - reflexivity.
  - eapply run_cons; [done|by constructor|]. apply run_nil.
  - exists m4. exact H.
Defined.

(** *** Occupied slots

Only [take_cfm] and [complete_timeout] free a slot. *)

Definition taken (s : option PendingCmd) : bool := match s with Some _ => true | None => false end.
Definition occupied (m : t) : nat := countb taken m.(slots).

Lemma occupied_le m : wf m → (occupied m ≤ 8)%nat.
Proof. intros (Hl & _). unfold occupied. pose proof (countb_le_length taken m.(slots)). lia. Qed.

Lemma occupied_push id m tok m' : push id m = (Some tok, m') → occupied m' = S (occupied m).
Proof.
  intros E. apply push_inv in E as [[[=] _]|(i & _ & Hi & _ & ->)]. unfold occupied; simpl.
  pose proof (countb_insert taken _ _ _ (Some (fresh_cmd id)) Hi) as C. simpl in C. lia.
Qed.

Lemma occupied_cfm id param m : wf m → occupied (on_cfm id param m).1 = occupied m.
Proof.
  intros Hwf. destruct (on_cfm id param m) as [m' w] eqn:E. simpl.
  apply on_cfm_inv in E as [(-> & _)|(i & s & Hi & _ & _ & _ & ->)]; [done| |done].
  unfold occupied; simpl.
  pose proof (countb_insert taken _ _ _ (Some (completed param s)) Hi) as C. simpl in C. lia.
Qed.

Lemma occupied_take tok out m r m' :
  take_cfm tok out m = (r, m') → (occupied m' ≤ occupied m ≤ S (occupied m'))%nat.
Proof.
  intros E. apply take_inv in E as [(_ & -> & _)|(s & Hi & _ & -> & _)]; [lia|].
  unfold occupied; simpl. pose proof (countb_insert taken _ _ _ None Hi) as C. simpl in C. lia.
Qed.

Lemma push_full id m : wf m → occupied m = 8%nat → push id m = (None, m).
Proof.
  intros (Hl & _) Ho. unfold occupied in Ho. rewrite <- Hl in Ho.
  pose proof (countb_full taken _ Ho) as Hf.
  destruct (push id m) as [[i|] m'] eqn:E.
  - apply push_inv in E as [[[=] _]|(j & _ & Hj & _)].
    apply list_elem_of_lookup_2 in Hj. by apply Hf in Hj.
  - by apply push_inv in E as [[_ ->]|(? & [=] & _)].
Qed.

(** A wait that times out leaves its entry waiting
    (no caller runs [complete_timeout]).  If the same message is pushed again, the
    answer goes to the abandoned entry, the first match, and the retry is not
    done. *)
Lemma cmd_mgr_stale_slot (id : Z) (param : list Z) :
  let '(t0, m0) := push id new in
  let '(t1, m1) := push id m0 in
  let '(m2, _) := on_cfm id param m1 in
  (t0, t1) = (Some 0%nat, Some 1%nat) ∧ is_done 0 m2 = true ∧ is_done 1 m2 = false.
Proof.
  destruct (push id new) as [t0 m0] eqn:E0. injection E0 as <- <-.
  match goal with |- let '(_, _) := push id ?m in _ =>
    destruct (push id m) as [t1 m1] eqn:E1 end. injection E1 as <- <-.
  unfold on_cfm. simpl. rewrite !bool_decide_true by done. done.
Qed.

(** *** Waiting for a command

    The wait loops count [waited_ms] from 0 in steps of 1 up to the timeout, so
    the rounds left are the recursion's argument.  [E] is everything else the
    callbacks and the other threads change; [pause] is the sleep of one
    millisecond. *)
Section wait_done.
Context {E : Type} (poll_fn : t → E → t * E) (tick : option (Z → E → E)) (pause : E → E).

(** driver/bsp/src/cmd.rs:388-399 [RwnxCmdMgr::wait_done], the end of a round *)
Definition end_round (waited : Z) (e : E) : E :=
  let e := if bool_decide (0 < waited ∧ waited `mod` 500 = 0)
           then match tick with Some f => f waited e | None => e end else e in
  pause e.

(** driver/bsp/src/cmd.rs:377-401 [RwnxCmdMgr::wait_done], the loop *)
Fixpoint wait_loop (token : nat) (rounds : nat) (waited : Z) (m : t) (e : E) :
    res () * (t * E) :=
  match rounds with
  | O => (Err (-62), (m, e))
  | S rounds =>
      if is_done token m then (Ok (), (m, e))
      else
        let '(m, e) := poll_fn m e in
        if is_done token m then (Ok (), (m, e))
        else wait_loop token rounds (waited + 1) m (end_round waited e)
  end.

(** driver/bsp/src/cmd.rs:366-402 [RwnxCmdMgr::wait_done] *)
Definition wait_done (token : nat) (timeout_ms : Z) (m : t) (e : E) : res () * (t * E) :=
  wait_loop token (Z.to_nat timeout_ms) 0 m e.

(** The state after [n] rounds that do not find the command done. *)
Fixpoint after (n : nat) (waited : Z) (m : t) (e : E) : t * E :=
  match n with
  | O => (m, e)
  | S n => let '(m, e) := poll_fn m e in after n (waited + 1) m (end_round waited e)
  end.

(** Round [k] finds the command done, before its poll or after it. *)
Definition done_from (token k : nat) (waited : Z) (m : t) (e : E) : bool :=
  let '(m, e) := after k waited m e in is_done token m || is_done token (poll_fn m e).1.

Lemma wait_loop_spec token n w m e :
  (∃ k, (k < n)%nat ∧ done_from token k w m e = true ∧
        (∀ j, (j < k)%nat → done_from token j w m e = false) ∧
        (wait_loop token n w m e).1 = Ok () ∧
        is_done token (wait_loop token n w m e).2.1 = true) ∨
  ((∀ k, (k < n)%nat → done_from token k w m e = false) ∧
   wait_loop token n w m e = (Err (-62), after n w m e)).
Proof.
  revert w m e. induction n as [|n IH]; intros w m e; cbn [wait_loop after].
  { right. split; [lia|done]. }
  destruct (is_done token m) eqn:D0.
  { left. exists 0%nat. unfold done_from; simpl. rewrite D0. by split_and!; [lia| |lia| |]. }
  destruct (poll_fn m e) as [m1 e1] eqn:P. destruct (is_done token m1) eqn:D1.
  { left. exists 0%nat. unfold done_from; simpl. rewrite P; simpl. rewrite D1, orb_true_r.
    by split_and!; [lia| |lia| |]. }
  assert (H0 : done_from token 0 w m e = false)
    by (unfold done_from; simpl; rewrite P; simpl; by rewrite D0, D1).
  assert (HS : ∀ k, done_from token (S k) w m e =
                    done_from token k (w + 1) m1 (end_round w e1))
    by (intros k; unfold done_from; cbn [after]; by rewrite P).
  destruct (IH (w + 1) m1 (end_round w e1)) as [(k & Hk & Hd & Hb & R)|[Hn R]]; [left|right].
  - exists (S k). rewrite HS. destruct R as [R1 R2]. split_and!; [lia|done| |done|done].
    intros [|j] Hj; [done|]. rewrite HS. apply Hb. lia.
  - split; [|done]. intros [|k] Hk; [done|]. rewrite HS. apply Hn. lia.
Qed.

(** C32 (termination): [wait_done] returns, after at most [timeout_ms] polls: [Ok]
    when one of the rounds finds the command done, before or after its poll, and
    then the manager it leaves has the command done; [-62] when none of them
    does, and then all [timeout_ms] rounds were run.  It never panics. *)
Theorem wait_done_spec (token : nat) (timeout_ms : Z) (m : t) (e : E) :
  let n := Z.to_nat timeout_ms in
  let r := wait_done token timeout_ms m e in
  (∃ k, (k < n)%nat ∧ done_from token k 0 m e = true ∧
        (∀ j, (j < k)%nat → done_from token j 0 m e = false) ∧
        r.1 = Ok () ∧ is_done token r.2.1 = true) ∨
  ((∀ k, (k < n)%nat → done_from token k 0 m e = false) ∧ r = (Err (-62), after n 0 m e)).
Proof. apply wait_loop_spec. Qed.
End wait_done.

Section wait_done_until.
Context {E : Type} (condition : E → bool) (tick : option (Z → E → E))
        (poll_fn : option (E → E)) (wait_cmd_done : E → E).

(** driver/bsp/src/cmd.rs:421-438 [RwnxCmdMgr::wait_done_until], the loop *)
Fixpoint wait_until_loop (log_every_ms : Z) (rounds : nat) (waited : Z) (e : E) : res () * E :=
  match rounds with
  | O => (Err (-62), e)
  | S rounds =>
      let e := match poll_fn with Some pf => pf e | None => e end in
      if condition e then (Ok (), e)
      else
        let e := if bool_decide (0 < waited ∧ 0 < log_every_ms ∧ waited `mod` log_every_ms = 0)
                 then match tick with Some f => f waited e | None => e end else e in
        wait_until_loop log_every_ms rounds (waited + 1) (wait_cmd_done e)
  end.

(** driver/bsp/src/cmd.rs:408-441 [RwnxCmdMgr::wait_done_until] *)
Definition wait_done_until (timeout_ms : Z) (log_every_ms : option Z) (e : E) : res () * E :=
  wait_until_loop (default 500 log_every_ms) (Z.to_nat timeout_ms) 0 e.

(** What the callbacks keep, the wait keeps; and [Ok] means the condition held. *)
Lemma wait_until_inv (I : E → Prop) log n w e :
  (∀ e, I e → ∀ f, poll_fn = Some f → I (f e)) →
  (∀ w e, I e → ∀ f, tick = Some f → I (f w e)) → (∀ e, I e → I (wait_cmd_done e)) →
  I e → let r := wait_until_loop log n w e in
  I r.2 ∧ (r.1 = Ok () ∧ condition r.2 = true ∨ r.1 = Err (-62)).
Proof.
  intros Hp Ht Hw. revert w e. induction n as [|n IH]; intros w e He; cbn [wait_until_loop].
  { split; [done|by right]. }
  assert (He1 : I (match poll_fn with Some pf => pf e | None => e end))
    by (destruct poll_fn; eauto).
  destruct (condition _) eqn:C; [split; [done|by left]|].
  apply IH, Hw. case_bool_decide; [|done]. destruct tick; eauto.
Qed.
End wait_done_until.

End Mgr.
