(* ===== verification/Chip.v ===== *)
(** * Chip identity: [driver/bsp/src/sdio/types.rs], [sdio/chip_ident.rs], [firmware.rs]

    The identifiers and register layouts of the chips ([Ids], [Reg], [RegV3]),
    the match from a card's vendor and device numbers to a product ([chipmatch],
    [is_known_aic_sdio]), and the firmware tables with [get_firmware_list]. *)

From S2P Require Import Prelude.

Module Ids.

(** driver/bsp/src/sdio/types.rs:7-7 [VENDOR_AIC8801] *)
Definition VENDOR_AIC8801 : Z := 0x5449.

(** driver/bsp/src/sdio/types.rs:8-8 [DEVICE_AIC8801] *)
Definition DEVICE_AIC8801 : Z := 0x0145.

(** driver/bsp/src/sdio/types.rs:9-9 [DEVICE_AIC8801_FUNC2] *)
Definition DEVICE_AIC8801_FUNC2 : Z := 0x0146.

(** driver/bsp/src/sdio/types.rs:11-11 [VENDOR_AIC8800DC] *)
Definition VENDOR_AIC8800DC : Z := 0xc8a1.

(** driver/bsp/src/sdio/types.rs:12-12 [DEVICE_AIC8800DC] *)
Definition DEVICE_AIC8800DC : Z := 0xc08d.

(** driver/bsp/src/sdio/types.rs:14-14 [VENDOR_AIC8800D80] *)
Definition VENDOR_AIC8800D80 : Z := 0xc8a1.

(** driver/bsp/src/sdio/types.rs:15-15 [DEVICE_AIC8800D80] *)
Definition DEVICE_AIC8800D80 : Z := 0x0082.

(** driver/bsp/src/sdio/types.rs:16-16 [DEVICE_AIC8800D80_FUNC2] *)
Definition DEVICE_AIC8800D80_FUNC2 : Z := 0x0182.

(** driver/bsp/src/sdio/types.rs:18-18 [VENDOR_AIC8800D80X2] *)
Definition VENDOR_AIC8800D80X2 : Z := 0xc8a1.

(** driver/bsp/src/sdio/types.rs:19-19 [DEVICE_AIC8800D80X2] *)
Definition DEVICE_AIC8800D80X2 : Z := 0x2082.

End Ids.

(** driver/bsp/src/sdio/types.rs:24-24 [SDIO_VENDOR_ID_AIC] *)
Definition SDIO_VENDOR_ID_AIC : Z := 0x8800.

(** driver/bsp/src/sdio/types.rs:26-26 [SDIO_DEVICE_ID_AIC] *)
Definition SDIO_DEVICE_ID_AIC : Z := 0x0001.

Module Reg.

(** driver/bsp/src/sdio/types.rs:30-30 [BYTEMODE_LEN] *)
Definition BYTEMODE_LEN : Z := 0x02.

(** driver/bsp/src/sdio/types.rs:31-31 [INTR_CONFIG] *)
Definition INTR_CONFIG : Z := 0x04.

(** driver/bsp/src/sdio/types.rs:32-32 [SLEEP] *)
Definition SLEEP : Z := 0x05.

(** driver/bsp/src/sdio/types.rs:33-33 [WAKEUP] *)
Definition WAKEUP : Z := 0x09.

(** driver/bsp/src/sdio/types.rs:34-34 [FLOW_CTRL] *)
Definition FLOW_CTRL : Z := 0x0A.

(** driver/bsp/src/sdio/types.rs:35-35 [REGISTER_BLOCK] *)
Definition REGISTER_BLOCK : Z := 0x0B.

(** driver/bsp/src/sdio/types.rs:36-36 [BYTEMODE_ENABLE] *)
Definition BYTEMODE_ENABLE : Z := 0x11.

(** driver/bsp/src/sdio/types.rs:37-37 [BLOCK_CNT] *)
Definition BLOCK_CNT : Z := 0x12.

(** driver/bsp/src/sdio/types.rs:38-38 [FLOWCTRL_MASK] *)
Definition FLOWCTRL_MASK : Z := 0x7F.

(** driver/bsp/src/sdio/types.rs:39-39 [WR_FIFO_ADDR] *)
Definition WR_FIFO_ADDR : Z := 0x07.

(** driver/bsp/src/sdio/types.rs:40-40 [RD_FIFO_ADDR] *)
Definition RD_FIFO_ADDR : Z := 0x08.

End Reg.

Module RegV3.

(** driver/bsp/src/sdio/types.rs:45-45 [INTR_ENABLE] *)
Definition INTR_ENABLE : Z := 0x00.

(** driver/bsp/src/sdio/types.rs:46-46 [INTR_PENDING] *)
Definition INTR_PENDING : Z := 0x01.

(** driver/bsp/src/sdio/types.rs:47-47 [INTR_TO_DEVICE] *)
Definition INTR_TO_DEVICE : Z := 0x02.

(** driver/bsp/src/sdio/types.rs:48-48 [FLOW_CTRL_Q1] *)
Definition FLOW_CTRL_Q1 : Z := 0x03.

(** driver/bsp/src/sdio/types.rs:49-49 [MISC_INT_STATUS] *)
Definition MISC_INT_STATUS : Z := 0x04.

(** driver/bsp/src/sdio/types.rs:50-50 [BYTEMODE_LEN] *)
Definition BYTEMODE_LEN : Z := 0x05.

(** driver/bsp/src/sdio/types.rs:51-51 [BYTEMODE_LEN_MSB] *)
Definition BYTEMODE_LEN_MSB : Z := 0x06.

(** driver/bsp/src/sdio/types.rs:52-52 [BYTEMODE_ENABLE] *)
Definition BYTEMODE_ENABLE : Z := 0x07.

(** driver/bsp/src/sdio/types.rs:53-53 [MISC_CTRL] *)
Definition MISC_CTRL : Z := 0x08.

(** driver/bsp/src/sdio/types.rs:54-54 [FLOW_CTRL_Q2] *)
Definition FLOW_CTRL_Q2 : Z := 0x09.

(** driver/bsp/src/sdio/types.rs:55-55 [CLK_TEST_RESULT] *)
Definition CLK_TEST_RESULT : Z := 0x0A.

(** driver/bsp/src/sdio/types.rs:56-56 [RD_FIFO_ADDR] *)
Definition RD_FIFO_ADDR : Z := 0x0F.

(** driver/bsp/src/sdio/types.rs:57-57 [WR_FIFO_ADDR] *)
Definition WR_FIFO_ADDR : Z := 0x10.

End RegV3.

(** driver/bsp/src/sdio/types.rs:80-80 [SDIO_FUNC_BLOCKSIZE] *)
Definition SDIO_FUNC_BLOCKSIZE : Z := 512.

(** driver/bsp/src/sdio/types.rs:84-84 [BUFFER_SIZE] *)
Definition BUFFER_SIZE : nat := 1536.

(** driver/bsp/src/sdio/types.rs:88-88 [TAIL_LEN] *)
Definition TAIL_LEN : nat := 4.

(** driver/bsp/src/sdio/types.rs:62-65 [SdioState] *)
Inductive SdioState := Sleep | Active.

(** driver/bsp/src/sdio/types.rs:70-76 [ProductId] *)
Inductive ProductId := Aic8801 | Aic8800Dc | Aic8800Dw | Aic8800D80 | Aic8800D80X2.
#[export] Instance ProductId_eq_dec : EqDecision ProductId.
Proof. solve_decision. Defined.

(** driver/bsp/src/sdio/types.rs:93-98 [SdioType] *)
Inductive SdioType := SData | SCfg | SCfgCmdRsp | SCfgDataCfm.

(** driver/bsp/src/sdio/types.rs:93-98 [SdioType as u8] *)
Definition SdioType_u8 (t : SdioType) : Z :=
  match t with SData => 0x00 | SCfg => 0x10 | SCfgCmdRsp => 0x11 | SCfgDataCfm => 0x12 end.

(** driver/bsp/src/sdio/types.rs:112-127 [chipmatch] *)
Definition chipmatch (vid did : Z) : option ProductId :=
  if bool_decide (vid = Ids.VENDOR_AIC8801 ∧
                  (did = Ids.DEVICE_AIC8801 ∨ did = Ids.DEVICE_AIC8801_FUNC2))
  then Some Aic8801
  else if bool_decide (vid = Ids.VENDOR_AIC8800DC ∧ did = Ids.DEVICE_AIC8800DC)
  then Some Aic8800Dc
  else if bool_decide (vid = Ids.VENDOR_AIC8800D80 ∧
                       (did = Ids.DEVICE_AIC8800D80 ∨ did = Ids.DEVICE_AIC8800D80_FUNC2))
  then Some Aic8800D80
  else if bool_decide (vid = Ids.VENDOR_AIC8800D80X2 ∧ did = Ids.DEVICE_AIC8800D80X2)
  then Some Aic8800D80X2
  else None.

(** driver/bsp/src/sdio/chip_ident.rs:18-33 [is_known_aic_sdio] *)
Definition is_known_aic_sdio (vid did : Z) : bool :=
  if bool_decide (vid = Ids.VENDOR_AIC8801 ∧
                  (did = Ids.DEVICE_AIC8801 ∨ did = Ids.DEVICE_AIC8801_FUNC2)) then true
  else if bool_decide (vid = Ids.VENDOR_AIC8800DC ∧ did = Ids.DEVICE_AIC8800DC) then true
  else if bool_decide (vid = Ids.VENDOR_AIC8800D80 ∧
                       (did = Ids.DEVICE_AIC8800D80 ∨ did = Ids.DEVICE_AIC8800D80_FUNC2)) then true
  else if bool_decide (vid = Ids.VENDOR_AIC8800D80X2 ∧ did = Ids.DEVICE_AIC8800D80X2) then true
  else false.

(** driver/bsp/src/sdio/chip_ident.rs:39-41 [aicwf_sdio_chipmatch] *)
Definition aicwf_sdio_chipmatch (vid did : Z) : option ProductId := chipmatch vid did.

(** driver/bsp/src/sdio/cis.rs:241-250 [product_id_to_vid_did] *)
Definition product_id_to_vid_did (pid : ProductId) : Z * Z :=
  match pid with
  | Aic8801 => (Ids.VENDOR_AIC8801, Ids.DEVICE_AIC8801)
  | Aic8800Dc => (Ids.VENDOR_AIC8800DC, Ids.DEVICE_AIC8800DC)
  | Aic8800Dw => (Ids.VENDOR_AIC8800DC, Ids.DEVICE_AIC8800DC)
  | Aic8800D80 => (Ids.VENDOR_AIC8800D80, Ids.DEVICE_AIC8800D80)
  | Aic8800D80X2 => (Ids.VENDOR_AIC8800D80X2, Ids.DEVICE_AIC8800D80X2)
  end.

(** The two tables agree: a card is allowed exactly when it has a product. *)
Lemma known_iff_chipmatch vid did :
  is_known_aic_sdio vid did = bool_decide (is_Some (chipmatch vid did)).
Proof. unfold is_known_aic_sdio, chipmatch. by do 4 (case_bool_decide; [done|]). Qed.

(** The identification tables are inverse to each other up to the
    Dw chip, which has no identifiers of its own: the identifiers of a product are
    allowed and match that product, Dw's match Dc; and whatever pair the allow
    list accepts, [chipmatch] resolves it to a product with the same vendor. *)
Lemma chip_ids_roundtrip :
  (∀ pid, let '(vid, did) := product_id_to_vid_did pid in
     is_known_aic_sdio vid did = true ∧
     chipmatch vid did = Some (if decide (pid = Aic8800Dw) then Aic8800Dc else pid)) ∧
  (∀ vid did, is_known_aic_sdio vid did = true →
     ∃ pid, chipmatch vid did = Some pid ∧ (product_id_to_vid_did pid).1 = vid).
Proof.
  split; [by intros []|]. intros vid did. unfold is_known_aic_sdio, chipmatch.
  do 4 (case_bool_decide; [intros _; destruct_and!; subst; eexists; by split|]).
  by intros.
Qed.

Lemma chip_ids_roundtrip_witness : chipmatch 0x5449 0x0146 = Some Aic8801.
Proof.
  destruct (proj2 chip_ids_roundtrip 0x5449 0x0146) as (pid & H & _); [reflexivity|].
  destruct pid; try discriminate H. exact H.
Defined.

(** ** Firmware tables *)

(** driver/bsp/src/firmware.rs:12-17 [ChipRev] *)
Inductive ChipRev := U01 | U02 | U03.

(** driver/bsp/src/firmware.rs:12-17 [ChipRev as u8] *)
Definition ChipRev_u8 (r : ChipRev) : Z := match r with U01 => 1 | U02 => 3 | U03 => 7 end.

(** driver/bsp/src/firmware.rs:20-27 [ChipRev::from_u8] *)
Definition ChipRev_from_u8 (v : Z) : option ChipRev :=
  match v with 1 => Some U01 | 3 => Some U02 | 7 => Some U03 | _ => None end.

(** driver/bsp/src/firmware.rs:32-39 [AicBspFirmware] *)
Record AicBspFirmware := mkFw {
  desc : string; bt_adid : string; bt_patch : string; bt_table : string; wl_fw : string;
  bt_ext_patch : option string }.

(** driver/bsp/src/firmware.rs:44-49 [AicBspCpMode] *)
Inductive AicBspCpMode := Work | Test | CpMax.

(** driver/bsp/src/firmware.rs:44-49 [AicBspCpMode as u32] *)
Definition AicBspCpMode_u32 (m : AicBspCpMode) : Z :=
  match m with Work => 0 | Test => 1 | CpMax => 2 end.

(** driver/bsp/src/firmware.rs:52-69 [FW_U02] *)
Definition FW_U02 : list AicBspFirmware :=
  [ mkFw "normal work mode(sdio u02)" "fw_adid.bin" "fw_patch.bin"
    "fw_patch_table.bin" "fmacfw.bin" None;
    mkFw "rf test mode(sdio u02)" "fw_adid.bin" "fw_patch.bin"
    "fw_patch_table.bin" "fmacfw_rf.bin" None ]%string.

(** driver/bsp/src/firmware.rs:72-89 [FW_8800DC_U02] *)
Definition FW_8800DC_U02 : list AicBspFirmware :=
  [ mkFw "normal work mode(8800dc sdio u02)" "fw_adid_8800dc_u02.bin" "fw_patch_8800dc_u02.bin"
    "fw_patch_table_8800dc_u02.bin" "fmacfw_patch_8800dc_u02.bin" (Some "fw_patch_8800dc_u02_ext");
    mkFw "rf test mode(8800dc sdio u02)" "fw_adid_8800dc_u02.bin" "fw_patch_8800dc_u02.bin"
    "fw_patch_table_8800dc_u02.bin" "lmacfw_rf_8800dc.bin" (Some "fw_patch_8800dc_u02_ext") ]%string.

(** driver/bsp/src/firmware.rs:92-109 [FW_8800D80_U02] *)
Definition FW_8800D80_U02 : list AicBspFirmware :=
  [ mkFw "normal work mode(8800d80 sdio u02)" "fw_adid_8800d80_u02.bin" "fw_patch_8800d80_u02.bin"
    "fw_patch_table_8800d80_u02.bin" "fmacfw_8800d80_u02.bin" (Some "fw_patch_8800d80_u02_ext");
    mkFw "rf test mode(8800d80 sdio u02)" "fw_adid_8800d80_u02.bin" "fw_patch_8800d80_u02.bin"
    "fw_patch_table_8800d80_u02.bin" "lmacfw_rf_8800d80_u02.bin" (Some "fw_patch_8800d80_u02_ext") ]%string.

(** driver/bsp/src/firmware.rs:112-129 [FW_U03] *)
Definition FW_U03 : list AicBspFirmware :=
  [ mkFw "normal work mode(sdio u03)" "fw_adid.bin" "fw_patch.bin"
    "fw_patch_table.bin" "fmacfw.bin" None;
    mkFw "rf test mode(sdio u03)" "fw_adid.bin" "fw_patch.bin"
    "fw_patch_table.bin" "fmacfw_rf.bin" None ]%string.

(** driver/bsp/src/firmware.rs:132-149 [FW_8800DC_U01] *)
Definition FW_8800DC_U01 : list AicBspFirmware :=
  [ mkFw "normal work mode(8800dc sdio u01)" "fw_adid_8800dc_u02.bin" "fw_patch_8800dc_u02.bin"
    "fw_patch_table_8800dc_u02.bin" "fmacfw_patch_8800dc_u02.bin" (Some "fw_patch_8800dc_u02_ext");
    mkFw "rf test mode(8800dc sdio u01)" "fw_adid_8800dc_u02.bin" "fw_patch_8800dc_u02.bin"
    "fw_patch_table_8800dc_u02.bin" "lmacfw_rf_8800dc.bin" (Some "fw_patch_8800dc_u02_ext") ]%string.

(** driver/bsp/src/firmware.rs:152-169 [FW_8800DC_H_U02] *)
Definition FW_8800DC_H_U02 : list AicBspFirmware :=
  [ mkFw "normal work mode(8800dc h sdio u02)" "fw_adid_8800dc_u02.bin" "fw_patch_8800dc_u02.bin"
    "fw_patch_table_8800dc_u02.bin" "fmacfw_patch_8800dc_u02.bin" (Some "fw_patch_8800dc_u02_ext");
    mkFw "rf test mode(8800dc h sdio u02)" "fw_adid_8800dc_u02.bin" "fw_patch_8800dc_u02.bin"
    "fw_patch_table_8800dc_u02.bin" "lmacfw_rf_8800dc.bin" (Some "fw_patch_8800dc_u02_ext") ]%string.

(** driver/bsp/src/firmware.rs:172-189 [FW_8800D80_U01] *)
Definition FW_8800D80_U01 : list AicBspFirmware :=
  [ mkFw "normal work mode(8800d80 sdio u01)" "fw_adid_8800d80_u02.bin" "fw_patch_8800d80_u02.bin"
    "fw_patch_table_8800d80_u02.bin" "fmacfw_8800d80_u02.bin" (Some "fw_patch_8800d80_u02_ext");
    mkFw "rf test mode(8800d80 sdio u01)" "fw_adid_8800d80_u02.bin" "fw_patch_8800d80_u02.bin"
    "fw_patch_table_8800d80_u02.bin" "lmacfw_rf_8800d80_u02.bin" (Some "fw_patch_8800d80_u02_ext") ]%string.

(** driver/bsp/src/firmware.rs:192-209 [FW_8800D80_H_U02] *)
Definition FW_8800D80_H_U02 : list AicBspFirmware :=
  [ mkFw "normal work mode(8800d80 h sdio u02)" "fw_adid_8800d80_u02.bin" "fw_patch_8800d80_u02.bin"
    "fw_patch_table_8800d80_u02.bin" "fmacfw_8800d80_u02.bin" (Some "fw_patch_8800d80_u02_ext");
    mkFw "rf test mode(8800d80 h sdio u02)" "fw_adid_8800d80_u02.bin" "fw_patch_8800d80_u02.bin"
    "fw_patch_table_8800d80_u02.bin" "lmacfw_rf_8800d80_u02.bin" (Some "fw_patch_8800d80_u02_ext") ]%string.

(** driver/bsp/src/firmware.rs:212-229 [FW_8800D80X2] *)
Definition FW_8800D80X2 : list AicBspFirmware :=
  [ mkFw "normal work mode(8800d80x2)" "fw_adid_8800d80_u02.bin" "fw_patch_8800d80_u02.bin"
    "fw_patch_table_8800d80_u02.bin" "fmacfw_8800d80_u02.bin" (Some "fw_patch_8800d80_u02_ext");
    mkFw "rf test mode(8800d80x2)" "fw_adid_8800d80_u02.bin" "fw_patch_8800d80_u02.bin"
    "fw_patch_table_8800d80_u02.bin" "lmacfw_rf_8800d80_u02.bin" (Some "fw_patch_8800d80_u02_ext") ]%string.

(** driver/bsp/src/firmware.rs:232-281 [get_firmware_list] *)
Definition get_firmware_list (product_id : ProductId) (chip_rev : Z) (is_chip_id_h : bool) :
    option (list AicBspFirmware) :=
  match product_id with
  | Aic8801 =>
      if bool_decide (chip_rev ≠ ChipRev_u8 U02 ∧ chip_rev ≠ ChipRev_u8 U03) then None
      else if bool_decide (chip_rev = ChipRev_u8 U02) then Some FW_U02
      else Some FW_U03
  | Aic8800Dc | Aic8800Dw =>
      let rev := Z.land chip_rev 0x3F in
      if bool_decide (rev ≠ ChipRev_u8 U01 ∧ rev ≠ ChipRev_u8 U02 ∧ rev ≠ ChipRev_u8 U03) then None
      else if is_chip_id_h then Some FW_8800DC_H_U02
      else if bool_decide (rev = ChipRev_u8 U01) then Some FW_8800DC_U01
      else Some FW_8800DC_U02
  | Aic8800D80 =>
      let rev := Z.land chip_rev 0x3F in
      if is_chip_id_h then Some FW_8800D80_H_U02
      else if bool_decide (rev = ChipRev_u8 U01) then Some FW_8800D80_U01
      else Some FW_8800D80_U02
  | Aic8800D80X2 =>
      let rev := Z.land chip_rev 0x3F in
      if bool_decide (ChipRev_u8 U03 + 8 ≤ rev) then Some FW_8800D80X2 else None
  end.

(** The firmware image a product runs in each mode: the name of its WLAN image in
    the work entry and in the test entry. *)
Definition wl_images (pid : ProductId) : list string :=
  (match pid with
   | Aic8801 => ["fmacfw.bin"; "fmacfw_rf.bin"]
   | Aic8800Dc | Aic8800Dw => ["fmacfw_patch_8800dc_u02.bin"; "lmacfw_rf_8800dc.bin"]
   | Aic8800D80 | Aic8800D80X2 => ["fmacfw_8800d80_u02.bin"; "lmacfw_rf_8800d80_u02.bin"]
   end)%string.

(** Which revisions have firmware. *)
Definition rev_supported (pid : ProductId) (rev : Z) : bool :=
  match pid with
  | Aic8801 => bool_decide (rev ∈ [3; 7])
  | Aic8800Dc | Aic8800Dw => bool_decide (Z.land rev 0x3F ∈ [1; 3; 7])
  | Aic8800D80 => true
  | Aic8800D80X2 => bool_decide (15 ≤ Z.land rev 0x3F)
  end.

(** [get_firmware_list] answers exactly for the supported
    revisions of each product; the table it answers always has one entry for work
    mode and one for test mode, and whatever the revision or package the WLAN
    images are the product's two. *)
Lemma firmware_list_spec (pid : ProductId) (rev : Z) (h : bool) :
  match get_firmware_list pid rev h with
  | Some l => rev_supported pid rev = true ∧ wl_fw <$> l = wl_images pid
  | None => rev_supported pid rev = false
  end.
Proof.
  unfold get_firmware_list, rev_supported, ChipRev_u8.
  destruct pid, h; repeat case_bool_decide; try done; exfalso; set_unfold; lia.
Qed.
