(* ===== verification/Host.v ===== *)
(** * The SDIO host interface

    What the rest of the driver uses of the host controller of
    [driver/bsp/src/sdio/backend.rs]: CMD52 on a function's register, CMD53 on a
    FIFO address, and delays.  [W] is the machine: the controller, the card and
    whatever other threads change while the caller waits. *)

From S2P Require Import Prelude.

(** Delays let time, the card and the other threads move on. *)
Class Clock (W : Type) := {
  spin_us : Z → W → W;
  sleep_us : Z → W → W;
}.

(** driver/bsp/src/sync.rs:34-39 [delay_spin_ms] *)
Definition delay_spin_ms {W} `{Clock W} (ms : Z) : W → W := spin_us (1000 * ms).

(** One CMD52 or CMD53 transfer, as the controller's driver carries it out; the
    function number and the register are what goes into the command's argument. *)
Class SdioHost (W : Type) := {
  cmd52_read_func : Z → Z → st W Z;
  cmd52_write_func : Z → Z → Z → st W ();
  (* the bytes read, as many as asked *)
  sdio_io_rw_ext_helper_read : Z → nat → st W (list Z);
  sdio_io_rw_ext_helper_write : Z → list Z → st W ();
}.

Section host.
Context {W : Type} `{SdioHost W}.

(** driver/bsp/src/sdio/backend.rs:1886-1888 [Aic8800SdioHost::read_byte], also driver/bsp/src/sdio/backend.rs:1472-1474 [cmd52_read] *)
Definition host_read_byte (addr : Z) : st W Z := cmd52_read_func 0 (Z.land addr 0x1FFFF).

(** driver/bsp/src/sdio/backend.rs:1891-1893 [Aic8800SdioHost::read_byte_f0] *)
Definition host_read_byte_f0 (addr : Z) : st W Z := cmd52_read_func 0 (Z.land addr 0x1FFFF).

(** driver/bsp/src/sdio/backend.rs:1896-1898 [Aic8800SdioHost::read_byte_at_func] *)
Definition host_read_byte_at_func (func reg : Z) : st W Z :=
  cmd52_read_func func (Z.land reg 0x1FFFF).

(** driver/bsp/src/sdio/backend.rs:1905-1907 [Aic8800SdioHost::write_byte], also driver/bsp/src/sdio/backend.rs:1477-1479 [cmd52_write] *)
Definition host_write_byte (addr val : Z) : st W () :=
  cmd52_write_func 0 (Z.land addr 0x1FFFF) val.

(** driver/bsp/src/sdio/backend.rs:1910-1912 [Aic8800SdioHost::write_byte_at_func] *)
Definition host_write_byte_at_func (func reg val : Z) : st W () :=
  cmd52_write_func func (Z.land reg 0x1FFFF) val.

(** driver/bsp/src/sdio/backend.rs:1916-1920 [Aic8800SdioHost::set_block_size] *)
Definition host_set_block_size (func size : Z) : st W () :=
  _ ← cmd52_write_func func 0x10 (Z.land size 0xFF);
  _ ← cmd52_write_func func 0x11 (Z.shiftr size 8);
  mret ().

(** driver/bsp/src/sdio/backend.rs:1981-1988 [Aic8800SdioHost::read_block]; the
    buffer's contents and the count *)
Definition host_read_block (addr : Z) (len : nat) : st W (list Z * nat) :=
  if bool_decide (len = 0)%nat then mret ([], 0%nat)
  else data ← sdio_io_rw_ext_helper_read addr len; mret (data, len).

(** driver/bsp/src/sdio/backend.rs:2011-2018 [Aic8800SdioHost::write_block] *)
Definition host_write_block (addr : Z) (buf : list Z) : st W nat :=
  if bool_decide (length buf = 0)%nat then mret 0%nat
  else _ ← sdio_io_rw_ext_helper_write addr buf; mret (length buf).

End host.

(** ** A card to evaluate on

    Registers are memory, reads of a FIFO give the bytes queued for it, writes to
    one are recorded.  Time does not change it. *)
Module RamCard.
Record t := mk {
  regs : Z → Z → Z;                    (* function, register *)
  rx : list Z;
  tx : list (Z * list Z);
}.

Definition set_reg (f r v : Z) (c : t) : t :=
  mk (λ f' r', if bool_decide (f' = f ∧ r' = r) then v else c.(regs) f' r') c.(rx) c.(tx).

#[export] Instance clock : Clock t := {| spin_us := λ _ c, c; sleep_us := λ _ c, c |}.

#[export] Instance host : SdioHost t := {|
  cmd52_read_func := λ f r c, (Ok (c.(regs) f r), c);
  cmd52_write_func := λ f r v c, (Ok (), set_reg f r v c);
  sdio_io_rw_ext_helper_read := λ a n c,
    (Ok (take n (c.(rx) ++ zeros n)), mk c.(regs) (drop n c.(rx)) c.(tx));
  sdio_io_rw_ext_helper_write := λ a buf c,
    (Ok (), mk c.(regs) c.(rx) (c.(tx) ++ [(a, buf)])) |}.
End RamCard.
