(* ===== verification/Sdhci.v ===== *)
(** * The SDHCI layer: [kernel/sdhci/src]

    The CMD53 argument, the split of a transfer into CMD53s, the DMA buffer and
    the cache lines of a DMA range. *)

From S2P Require Import Prelude.

(** ** Register fields *)
Module Fields.

(** kernel/sdhci/src/sdhci.rs:46-49 [sdhci_make_blksz] *)
Definition sdhci_make_blksz (sdma_boundary blksz : Z) : Z :=
  Z.lor (Z.shiftl (Z.land sdma_boundary 7) 12) (Z.land blksz 0xFFF).

(** kernel/sdhci/src/sdhci.rs:52-55 [sdhci_make_cmd] *)
Definition sdhci_make_cmd (opcode flags : Z) : Z :=
  Z.lor (Z.shiftl opcode 8) (Z.land flags 0xFF).

(** kernel/sdhci/src/sdhci.rs:104-109 [r5_error] *)
Definition R5_ERROR_MASK : Z := Z.lor (Z.lor (Z.shiftl 1 11) (Z.shiftl 1 9)) (Z.shiftl 1 8).

(** A high part and a low one that does not reach it. *)
Lemma lor_high_low n hi lo :
  0 ≤ n → in_range n lo → Z.lor (hi * 2 ^ n) lo = hi * 2 ^ n + lo.
Proof.
  intros Hn Hlo. pose proof (lor_shiftl_add n lo hi Hn Hlo) as E.
  rewrite Z.shiftl_mul_pow2 in E by done. rewrite Z.lor_comm, E. lia.
Qed.

Lemma land_ones_range n x : 0 ≤ n → in_range n (Z.land x (Z.ones n)).
Proof. intros. rewrite Z.land_ones by done. apply Z.mod_pos_bound. lia. Qed.

(** The block size and the SDMA boundary share the register without touching. *)
Lemma make_blksz_fields boundary blksz :
  0 ≤ boundary < 8 → 0 ≤ blksz < 4096 →
  sdhci_make_blksz boundary blksz = boundary * 4096 + blksz.
Proof.
  intros Hb Hs. unfold sdhci_make_blksz. change 7 with (Z.ones 3). change 0xFFF with (Z.ones 12).
  rewrite !land_low_ones by (unfold in_range; lia). rewrite Z.shiftl_mul_pow2 by lia.
  apply lor_high_low; [lia|unfold in_range; lia].
Qed.
End Fields.
Import Fields.

(** ** The argument of CMD53 *)
Module Arg.

(** kernel/sdhci/src/sdio_ops.rs:12-12 [SDIO_IO_RW_EXTENDED_ADDR_MASK] *)
Definition SDIO_IO_RW_EXTENDED_ADDR_MASK : Z := 0x1FFFF.
(** kernel/sdhci/src/sdio_ops.rs:15-15 [SDIO_IO_RW_EXTENDED_MAX_BLOCKS] *)
Definition SDIO_IO_RW_EXTENDED_MAX_BLOCKS : Z := 511.

(** kernel/sdhci/src/sdio_ops.rs:32-35 [mmc_io_rw_extended_arg_block], also kernel/sdhci/src/sdio_ops.rs:53-56 [mmc_io_rw_extended_arg_byte]:
    direction, function, increment and address; [fn_num << 28] is a 32-bit shift *)
Definition arg_head (write : bool) (fn_num addr : Z) (incr_addr : bool) : Z :=
  let arg := if write then 0x80000000 else 0 in
  let arg := Z.lor arg (wrap 32 (Z.shiftl fn_num 28)) in
  let arg := Z.lor arg (if incr_addr then 0x04000000 else 0) in
  Z.lor arg (Z.shiftl (Z.land addr SDIO_IO_RW_EXTENDED_ADDR_MASK) 9).

(** kernel/sdhci/src/sdio_ops.rs:25-38 [mmc_io_rw_extended_arg_block] *)
Definition mmc_io_rw_extended_arg_block (write : bool) (fn_num addr : Z) (incr_addr : bool)
    (blocks : Z) : Z :=
  Z.lor (arg_head write fn_num addr incr_addr) (Z.lor 0x08000000 (Z.land blocks 0x1FF)).

(** kernel/sdhci/src/sdio_ops.rs:45-63 [mmc_io_rw_extended_arg_byte] *)
Definition mmc_io_rw_extended_arg_byte (write : bool) (fn_num addr : Z) (incr_addr : bool)
    (blksz : Z) : Z :=
  let arg := arg_head write fn_num addr incr_addr in
  if bool_decide (blksz = 512) then Z.lor arg 0 else Z.lor arg (Z.land blksz 0x1FF).

(** kernel/sdhci/src/sdio_ops.rs:67-73 [mmc_io_rw_extended_data_blocks] *)
Definition mmc_io_rw_extended_data_blocks (blocks : Z) : Z :=
  if bool_decide (blocks = 0) then 1 else blocks.

(** What the card reads out of an argument. *)
Record fields := mkFields {
  f_write : bool; f_fn : Z; f_block : bool; f_incr : bool; f_addr : Z; f_count : Z }.

Definition decode (arg : Z) : fields :=
  mkFields (Z.testbit arg 31) ((arg `div` 2 ^ 28) `mod` 8) (Z.testbit arg 27) (Z.testbit arg 26)
           ((arg `div` 2 ^ 9) `mod` 2 ^ 17) (arg `mod` 2 ^ 9).

Definition pack (w : bool) (fn : Z) (blk incr : bool) (addr count : Z) : Z :=
  Z.b2z w * 2 ^ 31 + fn * 2 ^ 28 + Z.b2z blk * 2 ^ 27 + Z.b2z incr * 2 ^ 26 + addr * 2 ^ 9 + count.

Lemma decode_pack w fn blk incr addr count :
  in_range 3 fn → in_range 17 addr → in_range 9 count →
  decode (pack w fn blk incr addr count) = mkFields w fn blk incr addr count.
Proof.
  unfold in_range. intros Hf Ha Hc. unfold decode.
  assert (B : ∀ i k : Z, 0 ≤ i → 0 ≤ k → pack w fn blk incr addr count `div` 2 ^ i = k →
              Z.testbit (pack w fn blk incr addr count) i = Z.odd k).
  { intros i k Hi Hk <-. by rewrite Z.testbit_odd, Z.shiftr_div_pow2. }
  unfold pack in *. f_equal.
  - rewrite (B 31 (Z.b2z w)); [by destruct w|lia|destruct w; simpl; lia|].
    destruct w, blk, incr; simpl Z.b2z; Z.to_euclidean_division_equations; lia.
  - destruct w, blk, incr; simpl Z.b2z; Z.to_euclidean_division_equations; lia.
  - rewrite (B 27 (Z.b2z w * 16 + fn * 2 + Z.b2z blk));
      [|lia|destruct w, blk; simpl; lia|destruct w, blk, incr; simpl Z.b2z; Z.to_euclidean_division_equations; lia].
    rewrite Z.odd_add, Z.odd_add, !Z.odd_mul. destruct w, blk; simpl; by rewrite andb_false_r.
  - rewrite (B 26 (Z.b2z w * 32 + fn * 4 + Z.b2z blk * 2 + Z.b2z incr));
      [|lia|destruct w, blk, incr; simpl; lia|destruct w, blk, incr; simpl Z.b2z; Z.to_euclidean_division_equations; lia].
    rewrite !Z.odd_add, !Z.odd_mul. destruct w, blk, incr; simpl; by rewrite andb_false_r.
  - destruct w, blk, incr; simpl Z.b2z; Z.to_euclidean_division_equations; lia.
  - destruct w, blk, incr; simpl Z.b2z; Z.to_euclidean_division_equations; lia.
Qed.

Lemma arg_pack (w incr blk : bool) fn addr count :
  in_range 3 fn → in_range 17 addr → in_range 9 count →
  Z.lor (arg_head w fn addr incr) (Z.lor (if blk then 0x08000000 else 0) count) =
  pack w fn blk incr addr count.
Proof.
  intros Hf Ha Hc. unfold arg_head, SDIO_IO_RW_EXTENDED_ADDR_MASK.
  change 0x1FFFF with (Z.ones 17). rewrite land_low_ones by (done || lia).
  unfold in_range in *. rewrite wrap_id by (unfold in_range; rewrite Z.shiftl_mul_pow2; lia).
  rewrite !Z.shiftl_mul_pow2 by lia.
  transitivity (Z.lor (Z.b2z w * 2 ^ 31) (Z.lor (fn * 2 ^ 28) (Z.lor (Z.b2z blk * 2 ^ 27)
                 (Z.lor (Z.b2z incr * 2 ^ 26) (Z.lor (addr * 2 ^ 9) count))))).
  - replace (if w then 0x80000000 else 0) with (Z.b2z w * 2 ^ 31) by by destruct w.
    replace (if incr then 0x04000000 else 0) with (Z.b2z incr * 2 ^ 26) by by destruct incr.
    replace (if blk then 0x08000000 else 0) with (Z.b2z blk * 2 ^ 27) by by destruct blk.
    apply Z.bits_inj'. intros i Hi. rewrite !Z.lor_spec.
    repeat match goal with |- context [Z.testbit ?a i] => destruct (Z.testbit a i) end; done.
  - assert (Hb : ∀ b, 0 ≤ Z.b2z b ≤ 1) by (intros []; simpl; lia).
    pose proof (Hb w). pose proof (Hb blk). pose proof (Hb incr). unfold pack.
    rewrite (lor_high_low 9), (lor_high_low 26), (lor_high_low 27), (lor_high_low 28), (lor_high_low 31)
      by (unfold in_range; lia).
    lia.
Qed.
(** The card reads out of a CMD53 argument the direction,
    the function, the mode, the address and the count the caller gave, in block
    mode for the block counts 1 to 511 and in byte mode for the sizes 1 to 512
    (512 is sent as the count 0); and a block count of 0 is never put on the
    bus as zero blocks. *)
Lemma cmd53_argument (w incr : bool) (fn addr n : Z)
    (Hf : 1 ≤ fn ≤ 7) (Ha : 0 ≤ addr ≤ SDIO_IO_RW_EXTENDED_ADDR_MASK) (Hn : 1 ≤ n ≤ 512) :
  (n ≤ SDIO_IO_RW_EXTENDED_MAX_BLOCKS →
     decode (mmc_io_rw_extended_arg_block w fn addr incr n) = mkFields w fn true incr addr n) ∧
  decode (mmc_io_rw_extended_arg_byte w fn addr incr n) =
    mkFields w fn false incr addr (if bool_decide (n = 512) then 0 else n) ∧
  mmc_io_rw_extended_data_blocks n = n ∧ mmc_io_rw_extended_data_blocks 0 = 1.
Proof.
  unfold SDIO_IO_RW_EXTENDED_ADDR_MASK, SDIO_IO_RW_EXTENDED_MAX_BLOCKS in *.
  assert (in_range 3 fn) by (unfold in_range; lia). assert (in_range 17 addr) by (unfold in_range; lia).
  split; [|split].
  - intros Hb. assert (in_range 9 n) by (unfold in_range; lia).
    unfold mmc_io_rw_extended_arg_block. change 0x1FF with (Z.ones 9). rewrite land_low_ones by (done || lia).
    rewrite (arg_pack w incr true) by done. by apply decode_pack.
  - unfold mmc_io_rw_extended_arg_byte. case_bool_decide as E.
    + rewrite <- (Z.lor_0_l 0), (arg_pack w incr false) by (done || unfold in_range; lia).
      apply decode_pack; done || unfold in_range; lia.
    + assert (in_range 9 n) by (unfold in_range; lia).
      change 0x1FF with (Z.ones 9). rewrite land_low_ones by (done || lia).
      rewrite <- (Z.lor_0_l n), (arg_pack w incr false) by done. by apply decode_pack.
  - unfold mmc_io_rw_extended_data_blocks. split; [|done]. by rewrite bool_decide_false by lia.
Qed.

Lemma cmd53_argument_witness :
  decode (mmc_io_rw_extended_arg_block true 1 7 false 511) = mkFields true 1 true false 7 511 ∧
  decode (mmc_io_rw_extended_arg_byte false 2 8 false 512) = mkFields false 2 false false 8 0.
Proof.
  split.
  - by apply (proj1 (cmd53_argument true false 1 7 511 ltac:(lia) ltac:(by vm_compute) ltac:(lia))).
  - apply (proj1 (proj2 (cmd53_argument false false 2 8 512 ltac:(lia) ltac:(by vm_compute) ltac:(lia)))).
Defined.
End Arg.

(** ** The split of a transfer into CMD53s *)
Module Split.

(** kernel/sdhci/src/sdio_io.rs:9-9 [SDIO_MAX_BYTE_SIZE] *)
Definition SDIO_MAX_BYTE_SIZE : nat := 512.
(** kernel/sdhci/src/sdio_io.rs:12-12 [SDIO_CUR_BLKSIZE] *)
Definition SDIO_CUR_BLKSIZE : nat := 512.
(** kernel/sdhci/src/sdio_io.rs:15-15 [SDIO_MAX_BLOCKS_PER_CMD] *)
Definition SDIO_MAX_BLOCKS_PER_CMD : nat := 511.

(** kernel/sdhci/src/sdio_io.rs:32-51 [MmcIoRwExtended]: one CMD53; a read is
    given the slice of the buffer it fills and returns its new contents, which a
    [&mut] slice keeps at its length *)
Class MmcIoRwExtended (W : Type) := {
  io_rw_extended_read : Z → Z → bool → list Z → Z → Z → st W (list Z);
  io_rw_extended_write : Z → Z → bool → list Z → Z → Z → st W () }.

(** The two loops, over what one CMD53 does with the buffer. *)
Section loops.
Context {T B : Type} (block : nat → nat → nat → B → st T B) (byte : nat → nat → B → st T B).
Implicit Types (off cur rem size : nat).

(** kernel/sdhci/src/sdio_io.rs:71-84 [sdio_io_rw_ext_helper], also kernel/sdhci/src/sdio_io.rs:126-134 [sdio_writesb],
    also driver/bsp/src/sdio/backend.rs:1931-1940 [sdio_io_rw_ext_helper_read], also driver/bsp/src/sdio/backend.rs:1958-1967 [sdio_io_rw_ext_helper_write]:
    the loop in block mode; a block size of 0 divides by zero *)
Fixpoint block_loop (fuel : nat) cur off rem (buf : B) : st T (nat * B) :=
  if bool_decide (cur ≤ rem)%nat then
    match fuel with
    | O => st_lift Panic
    | S fuel =>
        if bool_decide (cur = 0)%nat then st_lift Panic else
        let blocks := Nat.min (rem / cur) SDIO_MAX_BLOCKS_PER_CMD in
        let chunk := (blocks * cur)%nat in
        buf ← block off blocks cur buf;
        block_loop fuel cur (off + chunk) (rem - chunk) buf
    end
  else mret (off, buf).

(** kernel/sdhci/src/sdio_io.rs:85-93 [sdio_io_rw_ext_helper], also kernel/sdhci/src/sdio_io.rs:135-139 [sdio_writesb],
    also driver/bsp/src/sdio/backend.rs:1941-1945 [sdio_io_rw_ext_helper_read], also driver/bsp/src/sdio/backend.rs:1968-1972 [sdio_io_rw_ext_helper_write]:
    the rest in byte mode *)
Fixpoint byte_loop (fuel : nat) off size (buf : B) : st T B :=
  if bool_decide (off < size)%nat then
    match fuel with
    | O => st_lift Panic
    | S fuel =>
        let n := Nat.min (size - off) SDIO_MAX_BYTE_SIZE in
        buf ← byte off n buf;
        byte_loop fuel (off + n) size buf
    end
  else mret buf.

(** Blocks first when [multi], then the rest. *)
Definition split (multi : bool) cur size (buf : B) : st T B :=
  '(off, buf) ← (if multi then block_loop size cur 0 size buf else mret (0%nat, buf));
  byte_loop size off size buf.

(** The same transfer as a list of commands: all the blocks in commands of at
    most 511, the rest in commands of at most 512 bytes. *)
Definition chunks_of (m q : nat) : list nat :=
  replicate (q / m) m ++ (if bool_decide (q mod m = 0)%nat then [] else [(q mod m)%nat]).

Fixpoint run_blocks cur off (ks : list nat) buf : st T B :=
  match ks with
  | [] => mret buf
  | k :: ks => buf ← block off k cur buf; run_blocks cur (off + k * cur) ks buf
  end.
Fixpoint run_bytes off (ns : list nat) buf : st T B :=
  match ns with
  | [] => mret buf
  | n :: ns => buf ← byte off n buf; run_bytes (off + n) ns buf
  end.

Lemma chunks_step m q :
  (1 ≤ m)%nat → (1 ≤ q)%nat → chunks_of m q = Nat.min q m :: chunks_of m (q - Nat.min q m).
Proof.
  intros Hm Hq. unfold chunks_of. destruct (decide (q < m)%nat) as [Hl|Hl].
  - rewrite Nat.min_l by lia. rewrite Nat.sub_diag, (Nat.div_small q), (Nat.mod_small q) by lia.
    rewrite Nat.Div0.div_0_l, Nat.Div0.mod_0_l. rewrite bool_decide_false by lia. done.
  - rewrite Nat.min_r by lia.
    assert (Ed : (q / m = S ((q - m) / m))%nat).
    { replace q with (1 * m + (q - m))%nat at 1 by lia. rewrite Nat.div_add_l by lia. lia. }
    assert (Em : (q mod m = (q - m) mod m)%nat).
    { replace q with ((q - m) + 1 * m)%nat at 1 by lia. by rewrite Nat.Div0.mod_add. }
    by rewrite Ed, Em.
Qed.

Lemma chunks_sum m q : (1 ≤ m)%nat → sum_list (chunks_of m q) = q.
Proof.
  intros. unfold chunks_of. rewrite sum_list_with_app, sum_list_replicate.
  pose proof (Nat.div_mod_eq q m). case_bool_decide; simpl; lia.
Qed.

Lemma chunks_bounds m q : (1 ≤ m)%nat → Forall (λ k, 1 ≤ k ≤ m)%nat (chunks_of m q).
Proof.
  intros. unfold chunks_of. apply Forall_app_2; [apply Forall_replicate; lia|].
  pose proof (Nat.mod_upper_bound q m ltac:(lia)).
  case_bool_decide; [constructor|]. repeat constructor; lia.
Qed.

Lemma block_loop_run cur fuel off rem buf s :
  (1 ≤ cur)%nat → (rem ≤ fuel)%nat →
  block_loop fuel cur off rem buf s =
    (buf ← run_blocks cur off (chunks_of SDIO_MAX_BLOCKS_PER_CMD (rem / cur)) buf;
     mret ((off + rem / cur * cur)%nat, buf)) s.
Proof.
  intros Hc. revert off rem buf s. induction fuel as [|fuel IH]; intros off rem buf s Hf;
    cbn [block_loop]; case_bool_decide as Hl; try lia.
  1, 3: rewrite Nat.div_small by lia; cbn; by rewrite Nat.add_0_r.
  rewrite bool_decide_false by lia.
  assert (Hq : (1 ≤ rem / cur)%nat) by (apply Nat.div_le_lower_bound; lia).
  rewrite chunks_step by (unfold SDIO_MAX_BLOCKS_PER_CMD; lia). cbn [run_blocks].
  set (k := Nat.min _ _). assert (Hk : (1 ≤ k ≤ rem / cur)%nat)
    by (unfold k, SDIO_MAX_BLOCKS_PER_CMD; lia).
  pose proof (Nat.div_mod_eq rem cur). pose proof (Nat.mod_upper_bound rem cur ltac:(lia)).
  assert (Hd : ((rem - k * cur) / cur = rem / cur - k)%nat).
  { symmetry. apply (Nat.div_unique _ _ _ (rem mod cur)); nia. }
  unfold mbind, st_bind. destruct (block off k cur buf s) as [[b|e|] s']; try done.
  rewrite IH by nia. rewrite Hd.
  replace (off + k * cur + (rem / cur - k) * cur)%nat with (off + rem / cur * cur)%nat by nia. done.
Qed.

Lemma byte_loop_run fuel off size buf s :
  (size - off ≤ fuel)%nat →
  byte_loop fuel off size buf s = run_bytes off (chunks_of SDIO_MAX_BYTE_SIZE (size - off)) buf s.
Proof.
  revert off buf s. induction fuel as [|fuel IH]; intros off buf s Hf;
    cbn [byte_loop]; case_bool_decide as Hl; try lia.
  1, 3: by replace (size - off)%nat with 0%nat by lia.
  rewrite chunks_step by (unfold SDIO_MAX_BYTE_SIZE; lia). cbn [run_bytes].
  unfold mbind, st_bind. set (n := Nat.min _ _).
  assert (Hn : (1 ≤ n ≤ size - off)%nat) by (unfold n, SDIO_MAX_BYTE_SIZE; lia).
  destruct (byte off n buf s) as [[b|e|] s']; try done.
  rewrite IH by lia. by replace (size - (off + n))%nat with (size - off - n)%nat by lia.
Qed.

(** The commands a transfer of [size] bytes is made of. *)
Definition plan_blocks (multi : bool) cur size : list nat :=
  if multi then chunks_of SDIO_MAX_BLOCKS_PER_CMD (size / cur) else [].
Definition plan_bytes (multi : bool) cur size : list nat :=
  chunks_of SDIO_MAX_BYTE_SIZE (if multi then size mod cur else size).

Lemma split_run multi cur size buf s :
  (1 ≤ cur)%nat →
  split multi cur size buf s =
    (buf ← run_blocks cur 0 (plan_blocks multi cur size) buf;
     run_bytes (sum_list (plan_blocks multi cur size) * cur) (plan_bytes multi cur size) buf) s.
Proof.
  intros Hc. unfold split, plan_blocks, plan_bytes. destruct multi.
  - rewrite chunks_sum by (unfold SDIO_MAX_BLOCKS_PER_CMD; lia).
    unfold mbind at 1, st_bind at 1. rewrite block_loop_run by lia. unfold mbind, st_bind, mret, st_ret.
    destruct (run_blocks _ _ _ _ _) as [[b|e|] s']; try done.
    pose proof (Nat.div_mod_eq size cur). rewrite byte_loop_run by lia.
    by replace (size - (0 + size / cur * cur))%nat with (size mod cur)%nat by lia.
  - unfold mbind, st_bind, mret, st_ret; cbn [run_blocks sum_list]. rewrite byte_loop_run by lia. by rewrite Nat.sub_0_r.
Qed.

(** The commands cover the [size] bytes exactly and are within the limits of CMD53. *)
Lemma plan_covers multi cur size :
  (1 ≤ cur)%nat →
  (sum_list (plan_blocks multi cur size) * cur + sum_list (plan_bytes multi cur size) = size)%nat ∧
  Forall (λ k, 1 ≤ k ≤ 511)%nat (plan_blocks multi cur size) ∧
  Forall (λ n, 1 ≤ n ≤ 512)%nat (plan_bytes multi cur size).
Proof.
  intros Hc. unfold plan_blocks, plan_bytes.
  split; [|split]; [|destruct multi; [|by constructor]|]; try (apply (chunks_bounds 511) || apply (chunks_bounds 512); lia).
  destruct multi; rewrite ?chunks_sum by (unfold SDIO_MAX_BYTE_SIZE, SDIO_MAX_BLOCKS_PER_CMD; lia); [|done].
  pose proof (Nat.div_mod_eq size cur). lia.
Qed.
End loops.

Section helper.
Context {W : Type} `{MmcIoRwExtended W}.
Implicit Types (buf : list Z) (off n k cur : nat).

(** The CMD53 of [n] bytes at [off] of the buffer. *)
Definition command (write : bool) (fn addr : Z) (incr : bool) off n (blocks blksz : Z) buf
    : st W (list Z) :=
  s ← st_lift (slice_to off (off + n) buf);
  if write then _ ← io_rw_extended_write fn addr incr s blocks blksz; mret buf
  else d ← io_rw_extended_read fn addr incr s blocks blksz; st_lift (write_at off d buf).
Definition block_command write fn addr incr off k cur : list Z → st W (list Z) :=
  command write fn addr incr off (k * cur) (Z.of_nat k) (Z.of_nat cur).
Definition byte_command write fn addr incr off n : list Z → st W (list Z) :=
  command write fn addr incr off n 0 (Z.of_nat n).

(** kernel/sdhci/src/sdio_io.rs:55-95 [sdio_io_rw_ext_helper] *)
Definition sdio_io_rw_ext_helper (write : bool) (addr : Z) (incr : bool) buf (fn : Z)
    (multi_block : bool) cur : st W (list Z) :=
  let size := length buf in
  if bool_decide (size = 0)%nat then mret buf else
  split (block_command write fn addr incr) (byte_command write fn addr incr)
        (multi_block && bool_decide (cur ≤ size)%nat) cur size buf.

(** kernel/sdhci/src/sdio_io.rs:98-107 [sdio_readsb] *)
Definition sdio_readsb (fn addr : Z) buf (multi_block : bool) cur : st W (list Z) :=
  sdio_io_rw_ext_helper false addr false buf fn multi_block cur.

(** kernel/sdhci/src/sdio_io.rs:111-141 [sdio_writesb]: the helper's text again, for writes *)
Definition sdio_writesb (fn addr : Z) buf (multi_block : bool) cur : st W (list Z) :=
  let size := length buf in
  if bool_decide (size = 0)%nat then mret buf else
  split (block_command true fn addr false) (byte_command true fn addr false)
        (multi_block && bool_decide (cur ≤ size)%nat) cur size buf.

(** A transfer is split into CMD53s as SDIO wants
    them: in block mode the whole blocks, 511 at a time, and then the rest in byte
    mode, 512 bytes at a time; the commands follow each other through the buffer,
    together cover it exactly, and each is within the limits of CMD53
    ([sdio_writesb] is the same split). With a block size of 0 the code divides
    by zero. *)
Lemma ext_helper_splits (write multi : bool) (fn addr : Z) (incr : bool) (buf : list Z) (cur : nat) (w : W) :
  let size := length buf in
  let blocked := multi && bool_decide (cur ≤ size)%nat in
  let ks := plan_blocks blocked cur size in
  let ns := plan_bytes blocked cur size in
  sdio_writesb fn addr buf multi cur = sdio_io_rw_ext_helper true addr false buf fn multi cur ∧
  (if bool_decide (cur = 0)%nat then
     multi = true → buf ≠ [] → sdio_io_rw_ext_helper write addr incr buf fn multi cur w = (Panic, w)
   else
     sdio_io_rw_ext_helper write addr incr buf fn multi cur w =
       (buf ← run_blocks (block_command write fn addr incr) cur 0 ks buf;
        run_bytes (byte_command write fn addr incr) (sum_list ks * cur) ns buf) w ∧
     (sum_list ks * cur + sum_list ns = size)%nat ∧
     Forall (λ k, 1 ≤ k ≤ 511)%nat ks ∧ Forall (λ n, 1 ≤ n ≤ 512)%nat ns).
Proof.
  intros size blocked ks ns. split; [done|]. unfold sdio_io_rw_ext_helper. fold size blocked.
  case_bool_decide as Hc.
  - intros -> Hb. assert (0 < size)%nat by (destruct buf; simpl in *; [done|unfold size; simpl; lia]).
    rewrite bool_decide_false by lia. unfold blocked. rewrite Hc, bool_decide_true by lia.
    unfold split, mbind, st_bind. simpl. destruct size; [lia|]. done.
  - destruct (plan_covers blocked cur size ltac:(lia)) as (Hs & Hk & Hn). split; [|done].
    case_bool_decide as E0; [|by rewrite split_run by lia].
    destruct buf; [|done]. unfold ks, ns, blocked, plan_blocks, plan_bytes, size. simpl.
    rewrite bool_decide_false by lia. by rewrite andb_false_r.
Qed.
End helper.
End Split.

(** ** The DMA buffer *)
Module Dma.

(** kernel/sdhci/src/lib.rs:20-20 [DMA_POOL_SIZE] *)
Definition DMA_POOL_SIZE : nat := 256 * 1024.

(** kernel/sdhci/src/lib.rs:33-46 [alloc_dma_buffer]: one allocation at a time, always
    of the one static buffer *)
Definition alloc_dma_buffer (size : nat) (busy : bool) : bool * bool :=
  if bool_decide (size = 0 ∨ DMA_POOL_SIZE < size ∨ size mod 4 ≠ 0)%nat then (false, busy)
  else if busy then (false, busy) else (true, true).

(** kernel/sdhci/src/lib.rs:49-52 [release_dma_buffer] *)
Definition release_dma_buffer (busy : bool) : bool := false.

(** A transfer of 1 to 511 blocks of 512 bytes always fits the free pool. *)
Lemma alloc_blocks (k : nat) :
  (1 ≤ k ≤ 511)%nat → alloc_dma_buffer (k * 512) false = (true, true).
Proof.
  intros Hk. unfold alloc_dma_buffer. rewrite bool_decide_false; [done|].
  replace (k * 512)%nat with (k * 128 * 4)%nat by lia. rewrite Nat.Div0.mod_mul.
  unfold DMA_POOL_SIZE. lia.
Qed.
End Dma.

(** ** Registers and bits of the standard *)
Module Standard.
(** kernel/sdhci/src/sdhci.rs:19-19 [SDHCI_DMA_ADDRESS] *)
Definition SDHCI_DMA_ADDRESS : Z := 0x00.
(** kernel/sdhci/src/sdhci.rs:21-21 [SDHCI_BLOCK_SIZE] *)
Definition SDHCI_BLOCK_SIZE : Z := 0x04.
(** kernel/sdhci/src/sdhci.rs:23-23 [SDHCI_BLOCK_COUNT] *)
Definition SDHCI_BLOCK_COUNT : Z := 0x06.
(** kernel/sdhci/src/sdhci.rs:25-25 [SDHCI_ARGUMENT] *)
Definition SDHCI_ARGUMENT : Z := 0x08.
(** kernel/sdhci/src/sdhci.rs:27-27 [SDHCI_TRANSFER_MODE] *)
Definition SDHCI_TRANSFER_MODE : Z := 0x0C.
(** kernel/sdhci/src/sdhci.rs:29-29 [SDHCI_COMMAND] *)
Definition SDHCI_COMMAND : Z := 0x0E.
(** kernel/sdhci/src/sdhci.rs:31-31 [SDHCI_BUFFER] *)
Definition SDHCI_BUFFER : Z := 0x20.
(** kernel/sdhci/src/sdhci.rs:33-33 [SDHCI_PRESENT_STATE] *)
Definition SDHCI_PRESENT_STATE : Z := 0x24.
(** kernel/sdhci/src/sdhci.rs:35-35 [SDHCI_HOST_CONTROL] *)
Definition SDHCI_HOST_CONTROL : Z := 0x28.
(** kernel/sdhci/src/sdhci.rs:37-37 [SDHCI_TIMEOUT_CONTROL] *)
Definition SDHCI_TIMEOUT_CONTROL : Z := 0x2E.
(** kernel/sdhci/src/sdhci.rs:39-39 [SDHCI_INT_STATUS] *)
Definition SDHCI_INT_STATUS : Z := 0x30.
(** kernel/sdhci/src/sdhci.rs:40-40 [SDHCI_INT_ENABLE] *)
Definition SDHCI_INT_ENABLE : Z := 0x34.
(** kernel/sdhci/src/sdhci.rs:41-41 [SDHCI_RESPONSE] *)
Definition SDHCI_RESPONSE : Z := 0x10.
(** kernel/sdhci/src/sdhci.rs:59-59 [SDHCI_TRNS_DMA] *)
Definition SDHCI_TRNS_DMA : Z := 0x01.
(** kernel/sdhci/src/sdhci.rs:60-60 [SDHCI_TRNS_BLK_CNT_EN] *)
Definition SDHCI_TRNS_BLK_CNT_EN : Z := 0x02.
(** kernel/sdhci/src/sdhci.rs:61-61 [SDHCI_TRNS_AUTO_CMD12] *)
Definition SDHCI_TRNS_AUTO_CMD12 : Z := 0x04.
(** kernel/sdhci/src/sdhci.rs:62-62 [SDHCI_TRNS_AUTO_CMD23] *)
Definition SDHCI_TRNS_AUTO_CMD23 : Z := 0x08.
(** kernel/sdhci/src/sdhci.rs:63-63 [SDHCI_TRNS_READ] *)
Definition SDHCI_TRNS_READ : Z := 0x10.
(** kernel/sdhci/src/sdhci.rs:64-64 [SDHCI_TRNS_MULTI] *)
Definition SDHCI_TRNS_MULTI : Z := 0x20.
(** kernel/sdhci/src/sdhci.rs:69-69 [SDHCI_CMD_RESP_NONE] *)
Definition SDHCI_CMD_RESP_NONE : Z := 0x00.
(** kernel/sdhci/src/sdhci.rs:70-70 [SDHCI_CMD_RESP_SHORT] *)
Definition SDHCI_CMD_RESP_SHORT : Z := 0x02.
(** kernel/sdhci/src/sdhci.rs:71-71 [SDHCI_CMD_CRC] *)
Definition SDHCI_CMD_CRC : Z := 0x08.
(** kernel/sdhci/src/sdhci.rs:72-72 [SDHCI_CMD_INDEX] *)
Definition SDHCI_CMD_INDEX : Z := 0x10.
(** kernel/sdhci/src/sdhci.rs:73-73 [SDHCI_CMD_DATA] *)
Definition SDHCI_CMD_DATA : Z := 0x20.
(** kernel/sdhci/src/sdhci.rs:78-78 [SDHCI_CTRL_SDMA] *)
Definition SDHCI_CTRL_SDMA : Z := 0x00.
(** kernel/sdhci/src/sdhci.rs:83-83 [SDHCI_INT_RESPONSE] *)
Definition SDHCI_INT_RESPONSE : Z := 0x00000001.
(** kernel/sdhci/src/sdhci.rs:84-84 [SDHCI_INT_DATA_END] *)
Definition SDHCI_INT_DATA_END : Z := 0x00000002.
(** kernel/sdhci/src/sdhci.rs:85-85 [SDHCI_INT_DMA_END] *)
Definition SDHCI_INT_DMA_END : Z := 0x00000008.
(** kernel/sdhci/src/sdhci.rs:86-86 [SDHCI_INT_SPACE_AVAIL] *)
Definition SDHCI_INT_SPACE_AVAIL : Z := 0x00000010.
(** kernel/sdhci/src/sdhci.rs:87-87 [SDHCI_INT_DATA_AVAIL] *)
Definition SDHCI_INT_DATA_AVAIL : Z := 0x00000020.
(** kernel/sdhci/src/sdhci.rs:88-88 [SDHCI_INT_TIMEOUT] *)
Definition SDHCI_INT_TIMEOUT : Z := 0x00010000.
(** kernel/sdhci/src/sdhci.rs:89-89 [SDHCI_INT_DATA_TIMEOUT] *)
Definition SDHCI_INT_DATA_TIMEOUT : Z := 0x00100000.
(** kernel/sdhci/src/sdhci.rs:90-90 [SDHCI_INT_DATA_CRC] *)
Definition SDHCI_INT_DATA_CRC : Z := 0x00200000.
(** kernel/sdhci/src/sdhci.rs:91-91 [SDHCI_INT_DATA_END_BIT] *)
Definition SDHCI_INT_DATA_END_BIT : Z := 0x00400000.
(** kernel/sdhci/src/sdhci.rs:92-92 [SDHCI_INT_ADMA_ERROR] *)
Definition SDHCI_INT_ADMA_ERROR : Z := 0x02000000.
(** kernel/sdhci/src/sdhci.rs:97-97 [SDHCI_CMD_INHIBIT] *)
Definition SDHCI_CMD_INHIBIT : Z := 0x00000001.
(** kernel/sdhci/src/sdhci.rs:98-98 [SDHCI_DATA_INHIBIT] *)
Definition SDHCI_DATA_INHIBIT : Z := 0x00000002.
(** kernel/sdhci/src/sdhci.rs:99-99 [SDHCI_SPACE_AVAILABLE] *)
Definition SDHCI_SPACE_AVAILABLE : Z := 0x00000400.
(** kernel/sdhci/src/sdhci.rs:100-100 [SDHCI_DATA_AVAILABLE] *)
Definition SDHCI_DATA_AVAILABLE : Z := 0x00000800.
End Standard.

(** ** The cache lines of a DMA range *)
Module Cache.

(** kernel/sdhci/src/cache.rs:16-16 [CACHE_LINE_SIZE] *)
Definition CACHE_LINE_SIZE : Z := 64.

(** kernel/sdhci/src/cache.rs:63-76 [riscv64_dcache_clean_range], also kernel/sdhci/src/cache.rs:88-100 [riscv64_dcache_invalidate_range]:
    the addresses given to the cache instruction *)
Fixpoint walk (fuel : nat) (addr e : Z) : list Z :=
  if bool_decide (addr < e) then
    match fuel with
    | O => []
    | S fuel => addr :: walk fuel (addr + CACHE_LINE_SIZE) e
    end
  else [].

(** The lines of a range. *)
Definition dcache_lines (ptr : Z) (size : nat) : list Z :=
  let start_aligned := Z.ldiff ptr (CACHE_LINE_SIZE - 1) in
  walk (Nat.div size 64 + 2) start_aligned (ptr + Z.of_nat size).

(** The instructions of the C906: [dcache.cpa] writes a line back, [dcache.cipa] writes it back and drops it,
    [sync.s] waits for them. *)
Inductive cache_insn := Cpa (line : Z) | Cipa (line : Z) | SyncS.

(** kernel/sdhci/src/cache.rs:59-79 [riscv64_dcache_clean_range] *)
Definition riscv64_dcache_clean_range (ptr : Z) (size : nat) : list cache_insn :=
  map Cpa (dcache_lines ptr size) ++ [SyncS].

(** kernel/sdhci/src/cache.rs:83-103 [riscv64_dcache_invalidate_range] *)
Definition riscv64_dcache_invalidate_range (ptr : Z) (size : nat) : list cache_insn :=
  map Cipa (dcache_lines ptr size) ++ [SyncS].

(** kernel/sdhci/src/cache.rs:22-34 [dma_flush_before_write], on this processor *)
Definition dma_flush_before_write (ptr : Z) (size : nat) : list cache_insn :=
  if bool_decide (ptr = 0 ∨ size = 0%nat) then [] else riscv64_dcache_clean_range ptr size.

(** kernel/sdhci/src/cache.rs:40-52 [dma_invalidate_after_read], on this processor *)
Definition dma_invalidate_after_read (ptr : Z) (size : nat) : list cache_insn :=
  if bool_decide (ptr = 0 ∨ size = 0%nat) then [] else riscv64_dcache_invalidate_range ptr size.

Lemma line_of ptr : Z.ldiff ptr (CACHE_LINE_SIZE - 1) = ptr - ptr `mod` 64.
Proof.
  change (CACHE_LINE_SIZE - 1) with (Z.ones 6). rewrite Z.ldiff_ones_r, Z.shiftr_div_pow2, Z.shiftl_mul_pow2 by lia.
  change (2 ^ 6) with 64. pose proof (Z.div_mod ptr 64). lia.
Qed.

Lemma walk_in fuel addr e a :
  e - addr ≤ 64 * Z.of_nat fuel →
  a ∈ walk fuel addr e ↔ ∃ k, 0 ≤ k ∧ a = addr + 64 * k ∧ a < e.
Proof.
  revert addr. induction fuel as [|fuel IH]; intros addr Hf; cbn [walk]; case_bool_decide as Hl; try lia.
  1, 3: rewrite elem_of_nil; split; [done|]; intros (k & ? & -> & ?); lia.
  rewrite elem_of_cons, IH by (unfold CACHE_LINE_SIZE; lia). unfold CACHE_LINE_SIZE. split.
  - intros [->|(k & ? & -> & ?)]; [exists 0; lia|]. exists (k + 1). lia.
  - intros (k & ? & -> & ?). destruct (decide (k = 0)) as [->|]; [left; lia|].
    right. exists (k - 1). lia.
Qed.

Lemma lines_cover (ptr : Z) (size : nat) (a : Z) :
  (0 < size)%nat →
  a ∈ dcache_lines ptr size ↔ ∃ i, 0 ≤ i < Z.of_nat size ∧ a = Z.ldiff (ptr + i) (CACHE_LINE_SIZE - 1).
Proof.
  intros Hs. unfold dcache_lines. rewrite walk_in, line_of.
  - split.
    + intros (k & Hk & -> & Hl). exists (Z.max 0 (64 * k - ptr `mod` 64)). rewrite line_of.
      Z.to_euclidean_division_equations; lia.
    + intros (i & Hi & ->). rewrite line_of.
      exists ((ptr + i) `div` 64 - ptr `div` 64). Z.to_euclidean_division_equations; lia.
  - rewrite line_of. pose proof (Nat.div_mod_eq size 64). pose proof (Nat.mod_upper_bound size 64 ltac:(done)).
    pose proof (Z.mod_pos_bound ptr 64). lia.
Qed.

(** The maintenance of a DMA range gives the instruction exactly the
    cache lines that hold a byte of the range, then waits for it. *)
Lemma cache_lines_cover (ptr : Z) (size : nat) (a : Z) (Hp : 0 < ptr) :
  let covered := ∃ i, 0 ≤ i < Z.of_nat size ∧ a = Z.ldiff (ptr + i) (CACHE_LINE_SIZE - 1) in
  (Cpa a ∈ dma_flush_before_write ptr size ↔ covered) ∧
  (Cipa a ∈ dma_invalidate_after_read ptr size ↔ covered) ∧
  (size ≠ 0%nat → last (dma_flush_before_write ptr size) = Some SyncS ∧
                  last (dma_invalidate_after_read ptr size) = Some SyncS).
Proof.
  intros covered. unfold dma_flush_before_write, dma_invalidate_after_read, riscv64_dcache_clean_range,
    riscv64_dcache_invalidate_range. case_bool_decide as E.
  { destruct E as [?| ->]; [lia|]. rewrite !elem_of_nil. split_and!; [..|done]; (split; [done|]); intros (i & ? & _); lia. }
  rewrite !elem_of_app, !list_elem_of_singleton, !list_elem_of_fmap, !last_snoc. subst covered. rewrite <- lines_cover by lia.
  split_and!; [naive_solver..|done].
Qed.

Lemma cache_lines_cover_witness :
  dma_flush_before_write 100 200 = [Cpa 64; Cpa 128; Cpa 192; Cpa 256; SyncS] ∧
  Cipa 64 ∈ dma_invalidate_after_read 100 200.
Proof.
  split; [reflexivity|]. apply (cache_lines_cover 100 200 64 ltac:(lia)). by exists 0.
Defined.
End Cache.
