(* ===== verification/SdHost.v ===== *)
(** * The SDHCI controller: [driver/bsp/src/sdio/backend.rs], registers, interrupts, waiting

    The controller is a machine behind memory-mapped registers ([Board]).  The
    driver's statics, which the transfer code shares with the interrupt handler,
    are the record [Sd].  The handler runs at the points where the code waits:
    spinning, sleeping, and blocked on a wait queue. *)

From S2P Require Import Prelude Sdhci.

#[global] Arguments Z.to_nat : simpl never.

(** ** Registers and bits *)
(** driver/bsp/src/sdio/backend.rs:133-133 [SDMA_SADDR] *)
Definition SDMA_SADDR : Z := 0x000.
(** driver/bsp/src/sdio/backend.rs:135-135 [BLK_SIZE_AND_CNT] *)
Definition BLK_SIZE_AND_CNT : Z := 0x004.
(** driver/bsp/src/sdio/backend.rs:136-136 [ARGUMENT] *)
Definition ARGUMENT : Z := 0x008.
(** driver/bsp/src/sdio/backend.rs:137-137 [XFER_MODE_AND_CMD] *)
Definition XFER_MODE_AND_CMD : Z := 0x00c.
(** driver/bsp/src/sdio/backend.rs:139-139 [TRANSFER_MODE] *)
Definition TRANSFER_MODE : Z := 0x00c.
(** driver/bsp/src/sdio/backend.rs:140-140 [COMMAND] *)
Definition COMMAND : Z := 0x00e.
(** driver/bsp/src/sdio/backend.rs:141-141 [RESP31_0] *)
Definition RESP31_0 : Z := 0x010.
(** driver/bsp/src/sdio/backend.rs:142-142 [RESP63_32] *)
Definition RESP63_32 : Z := 0x014.
(** driver/bsp/src/sdio/backend.rs:144-144 [BUF_DATA] *)
Definition BUF_DATA : Z := 0x020.
(** driver/bsp/src/sdio/backend.rs:146-146 [PRESENT_STS] *)
Definition PRESENT_STS : Z := 0x024.
(** driver/bsp/src/sdio/backend.rs:148-148 [HOST_CTRL1] *)
Definition HOST_CTRL1 : Z := 0x028.
(** driver/bsp/src/sdio/backend.rs:150-150 [POWER_CONTROL] *)
Definition POWER_CONTROL : Z := 0x029.
(** driver/bsp/src/sdio/backend.rs:152-152 [BLOCK_GAP_CONTROL] *)
Definition BLOCK_GAP_CONTROL : Z := 0x02A.
(** driver/bsp/src/sdio/backend.rs:154-154 [WAKE_UP_CONTROL] *)
Definition WAKE_UP_CONTROL : Z := 0x02B.
(** driver/bsp/src/sdio/backend.rs:156-156 [CLK_CTL_SWRST] *)
Definition CLK_CTL_SWRST : Z := 0x02c.
(** driver/bsp/src/sdio/backend.rs:158-158 [TIMEOUT_CONTROL] *)
Definition TIMEOUT_CONTROL : Z := 0x02E.
(** driver/bsp/src/sdio/backend.rs:160-160 [NORM_AND_ERR_INT_STS] *)
Definition NORM_AND_ERR_INT_STS : Z := 0x030.
(** driver/bsp/src/sdio/backend.rs:162-162 [NORM_AND_ERR_INT_STS_EN] *)
Definition NORM_AND_ERR_INT_STS_EN : Z := 0x034.
(** driver/bsp/src/sdio/backend.rs:164-164 [NORM_AND_ERR_INT_SIG_EN] *)
Definition NORM_AND_ERR_INT_SIG_EN : Z := 0x038.
(** driver/bsp/src/sdio/backend.rs:166-166 [P_VENDOR_SPECIFIC_AREA] *)
Definition P_VENDOR_SPECIFIC_AREA : Z := 0x0E8.
(** driver/bsp/src/sdio/backend.rs:168-168 [VENDOR_PHY_TX_RX_DLY_OFF] *)
Definition VENDOR_PHY_TX_RX_DLY_OFF : Z := 0x40.
(** driver/bsp/src/sdio/backend.rs:169-169 [VENDOR_PHY_CONFIG_OFF] *)
Definition VENDOR_PHY_CONFIG_OFF : Z := 0x4C.

(** driver/bsp/src/sdio/backend.rs:181-181 [INT_RESPONSE] *)
Definition INT_RESPONSE : Z := 0x00000001.
(** driver/bsp/src/sdio/backend.rs:182-182 [INT_DATA_END] *)
Definition INT_DATA_END : Z := 0x00000002.
(** driver/bsp/src/sdio/backend.rs:183-183 [INT_BLK_GAP] *)
Definition INT_BLK_GAP : Z := 0x00000004.
(** driver/bsp/src/sdio/backend.rs:184-184 [INT_DMA_END] *)
Definition INT_DMA_END : Z := 0x00000008.
(** driver/bsp/src/sdio/backend.rs:185-185 [INT_SPACE_AVAIL] *)
Definition INT_SPACE_AVAIL : Z := 0x00000010.
(** driver/bsp/src/sdio/backend.rs:186-186 [INT_DATA_AVAIL] *)
Definition INT_DATA_AVAIL : Z := 0x00000020.
(** driver/bsp/src/sdio/backend.rs:187-187 [INT_RETUNE] *)
Definition INT_RETUNE : Z := 0x00001000.
(** driver/bsp/src/sdio/backend.rs:188-188 [INT_TIMEOUT] *)
Definition INT_TIMEOUT : Z := 0x00010000.
(** driver/bsp/src/sdio/backend.rs:189-189 [INT_DATA_TIMEOUT] *)
Definition INT_DATA_TIMEOUT : Z := 0x00100000.
(** driver/bsp/src/sdio/backend.rs:190-190 [INT_DATA_CRC] *)
Definition INT_DATA_CRC : Z := 0x00200000.
(** driver/bsp/src/sdio/backend.rs:191-191 [INT_DATA_END_BIT] *)
Definition INT_DATA_END_BIT : Z := 0x00400000.
(** driver/bsp/src/sdio/backend.rs:192-192 [INT_BUS_POWER] *)
Definition INT_BUS_POWER : Z := 0x00800000.
(** driver/bsp/src/sdio/backend.rs:193-193 [INT_AUTO_CMD_ERR] *)
Definition INT_AUTO_CMD_ERR : Z := 0x01000000.
(** driver/bsp/src/sdio/backend.rs:194-194 [INT_ADMA_ERROR] *)
Definition INT_ADMA_ERROR : Z := 0x02000000.
(** driver/bsp/src/sdio/backend.rs:195-195 [INT_CRC] *)
Definition INT_CRC : Z := 0x00020000.
(** driver/bsp/src/sdio/backend.rs:196-196 [INT_END_BIT] *)
Definition INT_END_BIT : Z := 0x00040000.
(** driver/bsp/src/sdio/backend.rs:197-197 [INT_INDEX] *)
Definition INT_INDEX : Z := 0x00080000.
(** driver/bsp/src/sdio/backend.rs:200-200 [INT_CMD_MASK] *)
Definition INT_CMD_MASK : Z :=
  Z.lor (Z.lor (Z.lor (Z.lor (Z.lor INT_RESPONSE INT_TIMEOUT) INT_CRC) INT_END_BIT) INT_INDEX) INT_AUTO_CMD_ERR.
(** driver/bsp/src/sdio/backend.rs:202-203 [INT_DATA_MASK] *)
Definition INT_DATA_MASK : Z :=
  Z.lor (Z.lor (Z.lor (Z.lor (Z.lor (Z.lor (Z.lor (Z.lor INT_DATA_END INT_DMA_END) INT_DATA_AVAIL)
    INT_SPACE_AVAIL) INT_DATA_TIMEOUT) INT_DATA_CRC) INT_DATA_END_BIT) INT_ADMA_ERROR) INT_BLK_GAP.
(** The driver's registers and interrupt bits are those of the shared crate. *)
Lemma standard_registers :
  Forall (λ '(mine, std), mine = std) [
   (SDMA_SADDR, Standard.SDHCI_DMA_ADDRESS); (BLK_SIZE_AND_CNT, Standard.SDHCI_BLOCK_SIZE);
   (ARGUMENT, Standard.SDHCI_ARGUMENT); (TRANSFER_MODE, Standard.SDHCI_TRANSFER_MODE);
   (COMMAND, Standard.SDHCI_COMMAND); (BUF_DATA, Standard.SDHCI_BUFFER);
   (PRESENT_STS, Standard.SDHCI_PRESENT_STATE); (HOST_CTRL1, Standard.SDHCI_HOST_CONTROL);
   (TIMEOUT_CONTROL, Standard.SDHCI_TIMEOUT_CONTROL); (NORM_AND_ERR_INT_STS, Standard.SDHCI_INT_STATUS);
   (NORM_AND_ERR_INT_STS_EN, Standard.SDHCI_INT_ENABLE); (RESP31_0, Standard.SDHCI_RESPONSE);
   (INT_RESPONSE, Standard.SDHCI_INT_RESPONSE); (INT_DATA_END, Standard.SDHCI_INT_DATA_END);
   (INT_DMA_END, Standard.SDHCI_INT_DMA_END); (INT_SPACE_AVAIL, Standard.SDHCI_INT_SPACE_AVAIL);
   (INT_DATA_AVAIL, Standard.SDHCI_INT_DATA_AVAIL); (INT_TIMEOUT, Standard.SDHCI_INT_TIMEOUT);
   (INT_DATA_TIMEOUT, Standard.SDHCI_INT_DATA_TIMEOUT); (INT_DATA_CRC, Standard.SDHCI_INT_DATA_CRC);
   (INT_DATA_END_BIT, Standard.SDHCI_INT_DATA_END_BIT); (INT_ADMA_ERROR, Standard.SDHCI_INT_ADMA_ERROR)].
Proof. repeat constructor. Qed.

(** driver/bsp/src/sdio/backend.rs:207-217 [DEFAULT_IER] *)
Definition DEFAULT_IER : Z :=
  Z.lor (Z.lor (Z.lor (Z.lor (Z.lor (Z.lor (Z.lor (Z.lor (Z.lor (Z.lor INT_BUS_POWER INT_DATA_END_BIT)
    INT_DATA_CRC) INT_DATA_TIMEOUT) INT_INDEX) INT_END_BIT) INT_CRC) INT_TIMEOUT) INT_DATA_END)
    INT_RESPONSE) INT_RETUNE.
(** driver/bsp/src/sdio/backend.rs:220-220 [CMD_POLL_TIMEOUT_US] *)
Definition CMD_POLL_TIMEOUT_US : nat := Z.to_nat 100000.
(** driver/bsp/src/sdio/backend.rs:222-222 [WAIT_INHIBIT_TIMEOUT_MS] *)
Definition WAIT_INHIBIT_TIMEOUT_MS : nat := 100.
(** driver/bsp/src/sdio/backend.rs:225-225 [WAIT_INHIBIT_DELAY_MS] *)
Definition WAIT_INHIBIT_DELAY_MS : Z := 1.
(** driver/bsp/src/sdio/backend.rs:238-238 [CARD_INT] *)
Definition CARD_INT : Z := 0x100.
(** driver/bsp/src/sdio/backend.rs:490-490 [SDHCI_DEFAULT_BOUNDARY_SIZE] *)
Definition SDHCI_DEFAULT_BOUNDARY_SIZE : Z := 512 * 1024.

(** [(a & m) != 0] *)
Definition has (a m : Z) : bool := negb (bool_decide (Z.land a m = 0)).

(** ** The machine *)

(** Memory-mapped accesses, the DMA buffer's memory, and the interrupts taken while
    the code spins, sleeps [ms] milliseconds or blocks on a wait queue. *)
Class Board (W : Type) := {
  rd : Z → W → Z * W;
  wr : Z → Z → W → W;
  wr8 : Z → Z → W → W;
  wr16 : Z → Z → W → W;
  dma_phys : Z;
  dma_store : list Z → W → W;
  dma_load : nat → W → list Z;
  on_spin : W → nat * W;
  on_sleep : Z → W → nat * W;
  on_block : W → nat * W;
}.

(** The wait queues a waiter is woken from. *)
Inductive queue := HOST_CMD_DONE_QUEUE | HOST_DMA_DONE_QUEUE.

(** driver/bsp/src/sdio/backend.rs:241-259 [SDIO_IRQ_PENDING, HOST_TRANSFER_CMD_PENDING, HOST_TRANSFER_DMA_PENDING, HOST_DMA_BASE_PHYS, HOST_DMA_TOTAL, HOST_DMA_BYTES_XFERRED, HOST_CMD_DONE_QUEUE, HOST_DMA_DONE_QUEUE, HOST_CMD_RESULT, HOST_DMA_RESULT]:
    the statics, with the DMA pool's mutex, the notifications of the card-interrupt
    worker and whether a waiter of a queue has been woken *)
Record Sd (W : Type) := mkSd {
  machine : W;
  dma_busy : bool;
  sdio_irq_pending : bool;
  cmd_pending : bool;
  dma_pending : bool;
  base_phys : Z;
  dma_total : Z;
  bytes_xferred : Z;
  cmd_result : Z;
  dma_result : Z;
  cmd_woken : bool;
  dma_woken : bool;
  irq_work : nat;
}.
Arguments mkSd {W}.
Arguments machine {W} _.
Arguments dma_busy {W} _.
Arguments sdio_irq_pending {W} _.
Arguments cmd_pending {W} _.
Arguments dma_pending {W} _.
Arguments base_phys {W} _.
Arguments dma_total {W} _.
Arguments bytes_xferred {W} _.
Arguments cmd_result {W} _.
Arguments dma_result {W} _.
Arguments cmd_woken {W} _.
Arguments dma_woken {W} _.
Arguments irq_work {W} _.

(** One setter per static. *)
Section setters.
Context {W : Type}.
Implicit Types s : Sd W.
Definition set_machine x s : Sd W :=
  mkSd x s.(dma_busy) s.(sdio_irq_pending) s.(cmd_pending) s.(dma_pending) s.(base_phys) s.(dma_total) s.(bytes_xferred) s.(cmd_result) s.(dma_result) s.(cmd_woken) s.(dma_woken) s.(irq_work).
Definition set_dma_busy x s : Sd W :=
  mkSd s.(machine) x s.(sdio_irq_pending) s.(cmd_pending) s.(dma_pending) s.(base_phys) s.(dma_total) s.(bytes_xferred) s.(cmd_result) s.(dma_result) s.(cmd_woken) s.(dma_woken) s.(irq_work).
Definition set_sdio_irq_pending x s : Sd W :=
  mkSd s.(machine) s.(dma_busy) x s.(cmd_pending) s.(dma_pending) s.(base_phys) s.(dma_total) s.(bytes_xferred) s.(cmd_result) s.(dma_result) s.(cmd_woken) s.(dma_woken) s.(irq_work).
Definition set_cmd_pending x s : Sd W :=
  mkSd s.(machine) s.(dma_busy) s.(sdio_irq_pending) x s.(dma_pending) s.(base_phys) s.(dma_total) s.(bytes_xferred) s.(cmd_result) s.(dma_result) s.(cmd_woken) s.(dma_woken) s.(irq_work).
Definition set_dma_pending x s : Sd W :=
  mkSd s.(machine) s.(dma_busy) s.(sdio_irq_pending) s.(cmd_pending) x s.(base_phys) s.(dma_total) s.(bytes_xferred) s.(cmd_result) s.(dma_result) s.(cmd_woken) s.(dma_woken) s.(irq_work).
Definition set_base_phys x s : Sd W :=
  mkSd s.(machine) s.(dma_busy) s.(sdio_irq_pending) s.(cmd_pending) s.(dma_pending) x s.(dma_total) s.(bytes_xferred) s.(cmd_result) s.(dma_result) s.(cmd_woken) s.(dma_woken) s.(irq_work).
Definition set_dma_total x s : Sd W :=
  mkSd s.(machine) s.(dma_busy) s.(sdio_irq_pending) s.(cmd_pending) s.(dma_pending) s.(base_phys) x s.(bytes_xferred) s.(cmd_result) s.(dma_result) s.(cmd_woken) s.(dma_woken) s.(irq_work).
Definition set_bytes_xferred x s : Sd W :=
  mkSd s.(machine) s.(dma_busy) s.(sdio_irq_pending) s.(cmd_pending) s.(dma_pending) s.(base_phys) s.(dma_total) x s.(cmd_result) s.(dma_result) s.(cmd_woken) s.(dma_woken) s.(irq_work).
Definition set_cmd_result x s : Sd W :=
  mkSd s.(machine) s.(dma_busy) s.(sdio_irq_pending) s.(cmd_pending) s.(dma_pending) s.(base_phys) s.(dma_total) s.(bytes_xferred) x s.(dma_result) s.(cmd_woken) s.(dma_woken) s.(irq_work).
Definition set_dma_result x s : Sd W :=
  mkSd s.(machine) s.(dma_busy) s.(sdio_irq_pending) s.(cmd_pending) s.(dma_pending) s.(base_phys) s.(dma_total) s.(bytes_xferred) s.(cmd_result) x s.(cmd_woken) s.(dma_woken) s.(irq_work).
Definition set_cmd_woken x s : Sd W :=
  mkSd s.(machine) s.(dma_busy) s.(sdio_irq_pending) s.(cmd_pending) s.(dma_pending) s.(base_phys) s.(dma_total) s.(bytes_xferred) s.(cmd_result) s.(dma_result) x s.(dma_woken) s.(irq_work).
Definition set_dma_woken x s : Sd W :=
  mkSd s.(machine) s.(dma_busy) s.(sdio_irq_pending) s.(cmd_pending) s.(dma_pending) s.(base_phys) s.(dma_total) s.(bytes_xferred) s.(cmd_result) s.(dma_result) s.(cmd_woken) x s.(irq_work).
Definition set_irq_work x s : Sd W :=
  mkSd s.(machine) s.(dma_busy) s.(sdio_irq_pending) s.(cmd_pending) s.(dma_pending) s.(base_phys) s.(dma_total) s.(bytes_xferred) s.(cmd_result) s.(dma_result) s.(cmd_woken) s.(dma_woken) x.
End setters.

(** ** Accesses *)
Section access.
Context {W : Type} `{Board W}.

Definition load {A} (f : Sd W → A) : st (Sd W) A := λ s, (Ok (f s), s).
Definition store (f : Sd W → Sd W) : st (Sd W) () := λ s, (Ok (), f s).
Definition when (b : bool) (m : st (Sd W) ()) : st (Sd W) () := if b then m else mret ().

(** driver/bsp/src/sdio/backend.rs:1067-1069 [read_reg] *)
Definition read_reg (offset : Z) : st (Sd W) Z := λ s,
  let '(v, w) := rd offset s.(machine) in (Ok v, set_machine w s).
(** driver/bsp/src/sdio/backend.rs:1072-1074 [write_reg] *)
Definition write_reg (offset value : Z) : st (Sd W) () :=
  store (λ s, set_machine (wr offset value s.(machine)) s).
(** driver/bsp/src/sdio/backend.rs:1078-1080 [write_reg_8] *)
Definition write_reg_8 (offset value : Z) : st (Sd W) () :=
  store (λ s, set_machine (wr8 offset value s.(machine)) s).
(** driver/bsp/src/sdio/backend.rs:1084-1086 [write_reg_16] *)
Definition write_reg_16 (offset value : Z) : st (Sd W) () :=
  store (λ s, set_machine (wr16 offset value s.(machine)) s).

(** Registers read only to be logged. *)
Fixpoint log_regs (l : list Z) : st (Sd W) () :=
  match l with
  | [] => mret ()
  | r :: l => _ ← read_reg r; log_regs l
  end.

(** [notify_one] wakes a waiter; with nobody waiting it has no effect that a later
    [wait_timeout] could see. *)
Definition notify_one (q : queue) : st (Sd W) () :=
  store (match q with HOST_CMD_DONE_QUEUE => set_cmd_woken true | HOST_DMA_DONE_QUEUE => set_dma_woken true end).
Definition woken (q : queue) : Sd W → bool :=
  match q with HOST_CMD_DONE_QUEUE => cmd_woken | HOST_DMA_DONE_QUEUE => dma_woken end.

(** driver/bsp/src/sdio/irq.rs:147-149 [notify_sdio_irq_work] *)
Definition notify_sdio_irq_work : st (Sd W) () := store (λ s, set_irq_work (S s.(irq_work)) s).

(** ** The interrupt handler *)

(** driver/bsp/src/sdio/backend.rs:293-305 [handle_sdhci_host_irq]: the result of a command *)
Definition cmd_err (sts : Z) : Z :=
  if has sts INT_TIMEOUT then -110
  else if has sts INT_CRC then -84
  else if has sts INT_END_BIT then -74
  else if has sts INT_RESPONSE then 0
  else -5.

(** driver/bsp/src/sdio/backend.rs:316-358 [handle_sdhci_host_irq]: the result of a data
    phase, none when only a DMA boundary was reached *)
Definition data_err (sts : Z) : option Z :=
  if has sts INT_DATA_END then Some 0
  else if has sts INT_DATA_TIMEOUT then Some (-110)
  else if has sts INT_DATA_END_BIT then Some (-84)
  else if has sts INT_DATA_CRC then Some (-84)
  else if has sts INT_ADMA_ERROR then Some (-5)
  else if has sts INT_DMA_END then None
  else Some (-5).

(** driver/bsp/src/sdio/backend.rs:291-309 [handle_sdhci_host_irq]: a command completes *)
Definition irq_cmd (sts : Z) : st (Sd W) () :=
  p ← load cmd_pending;
  when (has sts INT_CMD_MASK && p)
    (_ ← when (has sts INT_TIMEOUT) (_ ← read_reg RESP31_0; mret ());
     _ ← store (set_cmd_result (cmd_err sts));
     _ ← store (set_cmd_pending false);
     notify_one HOST_CMD_DONE_QUEUE).

(** driver/bsp/src/sdio/backend.rs:343-347 [handle_sdhci_host_irq]: the next boundary *)
Definition dma_next (base bytes : Z) : Z :=
  wrap 32 (Z.ldiff (wrap 32 (base + wrap 32 bytes)) (SDHCI_DEFAULT_BOUNDARY_SIZE - 1) + SDHCI_DEFAULT_BOUNDARY_SIZE).

(** driver/bsp/src/sdio/backend.rs:311-359 [handle_sdhci_host_irq]: the data phase *)
Definition irq_data (sts : Z) : st (Sd W) () :=
  p ← load dma_pending;
  when (has sts INT_DATA_MASK && p)
    (total ← load dma_total;
     base ← load base_phys;
     match data_err sts with
     | Some e =>
         _ ← store (set_dma_result e);
         _ ← store (set_dma_pending false);
         _ ← write_reg NORM_AND_ERR_INT_STS (Z.land sts INT_DATA_MASK);
         notify_one HOST_DMA_DONE_QUEUE
     | None =>
         bytes ← load bytes_xferred;
         let next := dma_next base bytes in
         let new_bytes := wrap 32 (next - base) in
         _ ← store (set_bytes_xferred new_bytes);
         _ ← when (bool_decide (new_bytes < total)) (write_reg SDMA_SADDR next);
         write_reg NORM_AND_ERR_INT_STS INT_DMA_END
     end).

(** driver/bsp/src/sdio/backend.rs:369-378 [handle_sdhci_host_irq]: the card's interrupt *)
Definition irq_card (sts : Z) : st (Sd W) () :=
  ier ← read_reg NORM_AND_ERR_INT_STS_EN;
  when (has sts CARD_INT && has ier CARD_INT)
    (sts_en ← read_reg NORM_AND_ERR_INT_STS_EN;
     sig_en ← read_reg NORM_AND_ERR_INT_SIG_EN;
     _ ← write_reg NORM_AND_ERR_INT_STS_EN (Z.ldiff sts_en CARD_INT);
     _ ← write_reg NORM_AND_ERR_INT_SIG_EN (Z.ldiff sig_en CARD_INT);
     _ ← store (set_sdio_irq_pending true);
     notify_sdio_irq_work).

(** driver/bsp/src/sdio/backend.rs:282-289 [handle_sdhci_host_irq]: what is cleared first *)
Definition clear_mask (sts : Z) (pending : bool) : Z :=
  let m := Z.land sts (Z.lor INT_CMD_MASK INT_BUS_POWER) in
  if pending then m else Z.lor m (Z.land sts INT_DATA_MASK).

(** driver/bsp/src/sdio/backend.rs:282-384 [handle_sdhci_host_irq]: one round *)
Definition irq_round (sts : Z) : st (Sd W) () :=
  p ← load dma_pending;
  let m := clear_mask sts p in
  _ ← when (negb (bool_decide (m = 0))) (write_reg NORM_AND_ERR_INT_STS m);
  _ ← irq_cmd sts;
  _ ← irq_data sts;
  _ ← irq_card sts;
  let after := Z.lor (Z.land sts CARD_INT) (Z.land sts INT_RETUNE) in
  when (negb (bool_decide (after = 0))) (write_reg NORM_AND_ERR_INT_STS after).

(** driver/bsp/src/sdio/backend.rs:271-271 [MAX_IRQ_LOOPS] *)
Definition MAX_IRQ_LOOPS : nat := 16.

(** driver/bsp/src/sdio/backend.rs:272-279 [handle_sdhci_host_irq], also driver/bsp/src/sdio/backend.rs:386-391 [handle_sdhci_host_irq] *)
Fixpoint irq_loop (loops : nat) : st (Sd W) () :=
  match loops with
  | O => mret ()
  | S loops =>
      sts ← read_reg NORM_AND_ERR_INT_STS;
      if bool_decide (sts = 0 ∨ sts = 0xffffffff) then mret ()
      else _ ← irq_round sts; irq_loop loops
  end.

(** driver/bsp/src/sdio/backend.rs:268-392 [handle_sdhci_host_irq] *)
Definition handle_sdhci_host_irq : st (Sd W) () := irq_loop MAX_IRQ_LOOPS.

(** ** Waiting *)

(** [n] interrupts. *)
Fixpoint serve (n : nat) : st (Sd W) () :=
  match n with
  | O => mret ()
  | S n => _ ← handle_sdhci_host_irq; serve n
  end.

Definition spin_loop : st (Sd W) () := λ s,
  let '(n, w) := on_spin s.(machine) in serve n (set_machine w s).
Definition sleep_ms (ms : Z) : st (Sd W) () := λ s,
  let '(n, w) := on_sleep ms s.(machine) in serve n (set_machine w s).

(** The interrupts taken while blocked, until one of them wakes the waiter. *)
Fixpoint blocked (q : queue) (n : nat) : st (Sd W) bool :=
  match n with
  | O => mret true
  | S n =>
      _ ← handle_sdhci_host_irq;
      b ← load (woken q);
      if b : bool then mret false else blocked q n
  end.

(** [WaitQueue::wait_timeout]: true on a timeout. Interrupts may come before the
    caller is on the queue; a notification that comes then is not remembered. *)
Definition enqueue (q : queue) : st (Sd W) () :=
  store (match q with HOST_CMD_DONE_QUEUE => set_cmd_woken false | HOST_DMA_DONE_QUEUE => set_dma_woken false end).
Definition block_on (q : queue) : st (Sd W) bool := λ s,
  let '(n, w) := on_block s.(machine) in blocked q n (set_machine w s).
Definition wait_timeout (q : queue) : st (Sd W) bool :=
  _ ← spin_loop;
  _ ← enqueue q;
  block_on q.

(** A poll: up to [n] attempts with a pause after each, then [after]. *)
Fixpoint poll {A} (n : nat) (attempt : st (Sd W) (option A)) (pause : st (Sd W) ())
    (after : st (Sd W) A) : st (Sd W) A :=
  match n with
  | O => after
  | S n =>
      o ← attempt;
      match o with
      | Some a => mret a
      | None => _ ← pause; poll n attempt pause after
      end
  end.

(** ** Resets *)

(** driver/bsp/src/sdio/backend.rs:1298-1305 [clear_int_status] *)
Definition clear_int_status : st (Sd W) () :=
  sts ← read_reg NORM_AND_ERR_INT_STS;
  when (negb (bool_decide (sts = 0))) (write_reg NORM_AND_ERR_INT_STS sts).

(** One attempt of the wait for a reset bit to clear itself. *)
Definition bit_clear (bit : Z) : st (Sd W) (option ()) :=
  v ← read_reg CLK_CTL_SWRST;
  mret (if has v bit then None else Some ()).

(** driver/bsp/src/sdio/backend.rs:866-879 [reset_cmd_line] *)
Definition reset_cmd_line : st (Sd W) () :=
  let SW_RST_CMD := Z.shiftl 1 25 in
  val ← read_reg CLK_CTL_SWRST;
  _ ← write_reg CLK_CTL_SWRST (Z.lor val SW_RST_CMD);
  poll (Z.to_nat 10000) (bit_clear SW_RST_CMD) spin_loop (mret ()).

(** driver/bsp/src/sdio/backend.rs:885-898 [reset_dat_line] *)
Definition reset_dat_line : st (Sd W) () :=
  let SW_RST_DAT := Z.shiftl 1 26 in
  val ← read_reg CLK_CTL_SWRST;
  _ ← write_reg CLK_CTL_SWRST (Z.lor val SW_RST_DAT);
  poll (Z.to_nat 10000) (bit_clear SW_RST_DAT) spin_loop (mret ()).

(** driver/bsp/src/sdio/backend.rs:689-709 [reset_all] *)
Definition reset_all : st (Sd W) () :=
  let SW_RST_ALL := Z.shiftl 1 24 in
  _ ← write_reg NORM_AND_ERR_INT_STS_EN 0;
  _ ← write_reg NORM_AND_ERR_INT_SIG_EN 0;
  _ ← write_reg CLK_CTL_SWRST SW_RST_ALL;
  poll (Z.to_nat 100000)
    (v ← read_reg CLK_CTL_SWRST;
     if has v SW_RST_ALL then mret None
     else _ ← write_reg NORM_AND_ERR_INT_STS_EN DEFAULT_IER;
          _ ← write_reg NORM_AND_ERR_INT_SIG_EN DEFAULT_IER;
          mret (Some ()))
    spin_loop (mret ()).

(** ** Polling the controller *)

(** driver/bsp/src/sdio/backend.rs:1049-1051 [read_present_sts] *)
Definition read_present_sts : st (Sd W) Z := read_reg PRESENT_STS.

(** driver/bsp/src/sdio/backend.rs:1093-1108 [wait_not_inhibit] *)
Definition wait_not_inhibit : st (Sd W) () :=
  poll WAIT_INHIBIT_TIMEOUT_MS
    (sts ← read_reg PRESENT_STS; mret (if has sts 3 then None else Some ()))
    (sleep_ms 1)
    (_ ← read_reg PRESENT_STS; st_err (-110)).

(** driver/bsp/src/sdio/backend.rs:901-920 [wait_cmd_complete_no_resp] *)
Definition wait_cmd_complete_no_resp : st (Sd W) () :=
  poll CMD_POLL_TIMEOUT_US
    (sts ← read_reg NORM_AND_ERR_INT_STS;
     _ ← when (negb (bool_decide (sts = 0))) (write_reg NORM_AND_ERR_INT_STS sts);
     present ← read_reg PRESENT_STS;
     mret (if has present 1 then None else Some ()))
    spin_loop
    (_ ← read_reg PRESENT_STS; st_err (-110)).

(** driver/bsp/src/sdio/backend.rs:1005-1011 [wait_cmd_complete_no_crc] *)
Definition NO_CRC_ERR_MASK : Z := Z.lor (Z.lor INT_TIMEOUT INT_END_BIT) INT_INDEX.

(** driver/bsp/src/sdio/backend.rs:1004-1046 [wait_cmd_complete_no_crc] *)
Definition wait_cmd_complete_no_crc : st (Sd W) () :=
  poll CMD_POLL_TIMEOUT_US
    (sts ← read_reg NORM_AND_ERR_INT_STS;
     if has sts NO_CRC_ERR_MASK then
       _ ← write_reg NORM_AND_ERR_INT_STS sts;
       st_err (if has sts INT_TIMEOUT then -110 else if has sts INT_END_BIT then -74 else -5)
     else if has sts INT_RESPONSE then
       _ ← write_reg NORM_AND_ERR_INT_STS sts; mret (Some ())
     else mret None)
    spin_loop
    (_ ← read_reg NORM_AND_ERR_INT_STS; st_err (-110)).

(** driver/bsp/src/sdio/backend.rs:1114-1121 [wait_cmd_complete] *)
Definition INT_CMD_ERR_MASK : Z := Z.lor (Z.lor (Z.lor INT_TIMEOUT INT_CRC) INT_END_BIT) INT_INDEX.
Definition INT_CMD_CLEAR_MASK : Z := Z.lor INT_RESPONSE INT_CMD_ERR_MASK.

(** driver/bsp/src/sdio/backend.rs:1128-1141 [wait_cmd_complete]: the error of a status with an error bit *)
Definition poll_cmd_err (sts : Z) : Z :=
  if has sts INT_TIMEOUT then -110
  else if has sts INT_CRC then -84
  else if has sts INT_END_BIT then -74
  else -5.

(** driver/bsp/src/sdio/backend.rs:1126-1146 [wait_cmd_complete]: one attempt *)
Definition cmd_attempt : st (Sd W) (option ()) :=
  sts ← read_reg NORM_AND_ERR_INT_STS;
  if has sts INT_CMD_ERR_MASK then
    _ ← write_reg NORM_AND_ERR_INT_STS (Z.land sts INT_CMD_CLEAR_MASK);
    st_err (poll_cmd_err sts)
  else if has sts INT_RESPONSE then
    _ ← write_reg NORM_AND_ERR_INT_STS (Z.land sts INT_CMD_CLEAR_MASK); mret (Some ())
  else mret None.

(** driver/bsp/src/sdio/backend.rs:1113-1154 [wait_cmd_complete] *)
Definition wait_cmd_complete : st (Sd W) () :=
  poll 100 cmd_attempt (sleep_ms 1)
    (_ ← read_reg NORM_AND_ERR_INT_STS;
     _ ← read_reg PRESENT_STS;
     _ ← clear_int_status;
     _ ← reset_cmd_line;
     st_err (-110)).

(** driver/bsp/src/sdio/backend.rs:1158-1179 [wait_buf_rd_ready], also driver/bsp/src/sdio/backend.rs:1184-1203 [wait_buf_wr_ready]:
    ready in the interrupt status or in the present state *)
Definition wait_buf_ready (int_bit present_bit : Z) : st (Sd W) () :=
  poll 100
    (ist ← read_reg NORM_AND_ERR_INT_STS;
     if has ist int_bit then mret (Some ()) else
     present ← read_reg PRESENT_STS;
     mret (if has present present_bit then Some () else None))
    (sleep_ms 1)
    (_ ← read_reg NORM_AND_ERR_INT_STS; _ ← read_reg PRESENT_STS; st_err (-110)).
Definition BUF_RRDY : Z := Z.shiftl 1 5.
Definition BUF_WRDY : Z := Z.shiftl 1 4.
(** driver/bsp/src/sdio/backend.rs:1158-1179 [wait_buf_rd_ready] *)
Definition wait_buf_rd_ready : st (Sd W) () := wait_buf_ready BUF_RRDY (Z.shiftl 1 11).
(** driver/bsp/src/sdio/backend.rs:1184-1203 [wait_buf_wr_ready] *)
Definition wait_buf_wr_ready : st (Sd W) () := wait_buf_ready BUF_WRDY (Z.shiftl 1 10).

(** driver/bsp/src/sdio/backend.rs:1214-1243 [wait_xfer_complete]: the outcome of a polled data phase *)
Definition xfer_outcome (intmask : Z) : option (res ()) :=
  if has intmask INT_DATA_END && has intmask INT_DATA_TIMEOUT then Some (Ok ())
  else if has intmask INT_DATA_TIMEOUT then Some (Err (-110))
  else if has intmask INT_DATA_END_BIT then Some (Err (-84))
  else if has intmask INT_DATA_CRC then Some (Err (-84))
  else if has intmask INT_ADMA_ERROR then Some (Err (-5))
  else if has intmask INT_TIMEOUT then Some (Err (-110))
  else if has intmask INT_DATA_END then Some (Ok ())
  else None.

(** driver/bsp/src/sdio/backend.rs:1260-1289 [wait_dma_complete]: the same with [INT_DMA_END] *)
Definition dma_outcome (intmask : Z) : option (res ()) :=
  if has intmask INT_DATA_TIMEOUT then Some (Err (-110))
  else if has intmask INT_DATA_END_BIT then Some (Err (-84))
  else if has intmask INT_DATA_CRC then Some (Err (-84))
  else if has intmask INT_ADMA_ERROR then Some (Err (-5))
  else if has intmask INT_TIMEOUT then Some (Err (-110))
  else if has intmask INT_DMA_END then Some (Ok ())
  else None.

(** An outcome is acknowledged by writing the status back. *)
Definition poll_data (outcome : Z → option (res ())) : st (Sd W) () :=
  poll 100
    (intmask ← read_reg NORM_AND_ERR_INT_STS;
     match outcome intmask with
     | Some r => _ ← write_reg NORM_AND_ERR_INT_STS intmask; _ ← st_lift r; mret (Some ())
     | None => mret None
     end)
    (sleep_ms 1)
    (_ ← read_reg NORM_AND_ERR_INT_STS; st_err (-110)).
(** driver/bsp/src/sdio/backend.rs:1209-1252 [wait_xfer_complete] *)
Definition wait_xfer_complete : st (Sd W) () := poll_data xfer_outcome.
(** driver/bsp/src/sdio/backend.rs:1256-1295 [wait_dma_complete] *)
Definition wait_dma_complete : st (Sd W) () := poll_data dma_outcome.

(** driver/bsp/src/sdio/backend.rs:1318-1323 [wait_cmd_complete_irq], also driver/bsp/src/sdio/backend.rs:1335-1340 [wait_dma_complete_irq] *)
Definition irq_result (f : Sd W → Z) : st (Sd W) () :=
  r ← load f; if bool_decide (r = 0) then mret () else st_err r.

(** driver/bsp/src/sdio/backend.rs:1310-1324 [wait_cmd_complete_irq] *)
Definition wait_cmd_complete_irq : st (Sd W) () :=
  timed_out ← wait_timeout HOST_CMD_DONE_QUEUE;
  if timed_out : bool then _ ← store (set_cmd_pending false); st_err (-110)
  else irq_result cmd_result.

(** driver/bsp/src/sdio/backend.rs:1327-1341 [wait_dma_complete_irq] *)
Definition wait_dma_complete_irq : st (Sd W) () :=
  timed_out ← wait_timeout HOST_DMA_DONE_QUEUE;
  if timed_out : bool then _ ← store (set_dma_pending false); st_err (-110)
  else irq_result dma_result.

(** driver/bsp/src/sdio/backend.rs:1344-1356 [set_transfer_irqs_dma] *)
Definition set_transfer_irqs_dma : st (Sd W) () :=
  let PIO_IRQS := Z.lor INT_SPACE_AVAIL INT_DATA_AVAIL in
  let DMA_IRQS := Z.lor (Z.lor INT_DMA_END INT_DATA_END) INT_ADMA_ERROR in
  current ← read_reg NORM_AND_ERR_INT_STS_EN;
  let ier := Z.lor (Z.ldiff current PIO_IRQS) DMA_IRQS in
  _ ← write_reg NORM_AND_ERR_INT_STS_EN ier;
  write_reg NORM_AND_ERR_INT_SIG_EN ier.

(** driver/bsp/src/sdio/backend.rs:1367-1381 [enable_sdio_irq] *)
Definition enable_sdio_irq (enable : bool) : st (Sd W) () :=
  let en := if enable then CARD_INT else 0 in
  sts_en ← read_reg NORM_AND_ERR_INT_STS_EN;
  sig_en ← read_reg NORM_AND_ERR_INT_SIG_EN;
  _ ← write_reg NORM_AND_ERR_INT_STS_EN (Z.lor (Z.ldiff sts_en CARD_INT) en);
  write_reg NORM_AND_ERR_INT_SIG_EN (Z.lor (Z.ldiff sig_en CARD_INT) en).

(** driver/bsp/src/sdio/backend.rs:1397-1399 [ack_sdio_irq] *)
Definition ack_sdio_irq : st (Sd W) () := enable_sdio_irq true.

(** driver/bsp/src/sdio/backend.rs:1410-1412 [sdio_signal_irq] *)
Definition sdio_signal_irq : st (Sd W) () := store (set_sdio_irq_pending true).

(** driver/bsp/src/sdio/backend.rs:1416-1425 [process_sdio_pending_irqs_if_set] *)
Definition process_sdio_pending_irqs_if_set : st (Sd W) bool :=
  sts ← read_reg NORM_AND_ERR_INT_STS;
  if has sts CARD_INT then
    _ ← enable_sdio_irq false;
    _ ← sdio_signal_irq;
    _ ← notify_sdio_irq_work;
    mret true
  else mret false.

End access.

(** ** Bits of a status word *)
Section bits.
Implicit Types a m n : Z.

Lemma has_lor a m n : has a (Z.lor m n) = has a m || has a n.
Proof.
  unfold has. rewrite Z.land_lor_distr_r.
  destruct (decide (Z.land a m = 0)) as [E|E]; destruct (decide (Z.land a n = 0)) as [F|F];
    rewrite ?E, ?F, ?(bool_decide_false (Z.land a m = 0)), ?(bool_decide_false (Z.land a n = 0)) by done;
    rewrite ?Z.lor_0_l, ?Z.lor_0_r; rewrite ?bool_decide_true, ?bool_decide_false by done; try done.
  rewrite bool_decide_false; [done|]. by intros [? ?]%Z.lor_eq_0_iff.
Qed.
End bits.

(** Decide a goal about a status word by cases on the bits it mentions. *)
Ltac by_bits :=
  rewrite ?has_lor;
  repeat match goal with |- context [has ?a ?m] => generalize (has a m); intros [] end;
  try (intros; simplify_eq/=; done).



(** The next SDMA boundary is the first multiple of 512 KiB above the bytes
    transferred so far. *)
Lemma dma_next_spec base bytes :
  0 ≤ base → 0 ≤ bytes → base + bytes + SDHCI_DEFAULT_BOUNDARY_SIZE < 2 ^ 32 →
  dma_next base bytes = ((base + bytes) `div` SDHCI_DEFAULT_BOUNDARY_SIZE + 1) * SDHCI_DEFAULT_BOUNDARY_SIZE.
Proof.
  unfold SDHCI_DEFAULT_BOUNDARY_SIZE. intros. unfold dma_next, SDHCI_DEFAULT_BOUNDARY_SIZE.
  rewrite (wrap_id 32 bytes), (wrap_id 32 (base + bytes)) by (unfold in_range; lia).
  change (512 * 1024 - 1) with (Z.ones 19). rewrite Z.ldiff_ones_r, Z.shiftr_div_pow2, Z.shiftl_mul_pow2 by lia.
  change (512 * 1024) with (2 ^ 19). rewrite wrap_id; [lia|].
  unfold in_range. Z.to_euclidean_division_equations; lia.
Qed.

(** ** What every call ends with

    [safe b m]: from a state in which the DMA pool is taken or free as [b] says and
    the results left by the interrupt handler are 0 or error codes, [m] does not
    panic, fails only with one of the controller's error codes, and leaves such a
    state. *)
Definition sd_codes : list Z := [-110; -84; -74; -5; -11; -12; -19].
Definition ready {W} (b : bool) (s : Sd W) : Prop :=
  s.(dma_busy) = b ∧ s.(cmd_result) ∈ 0 :: sd_codes ∧ s.(dma_result) ∈ 0 :: sd_codes.
Definition safe {W} (b : bool) {A} (m : st (Sd W) A) : Prop :=
  ∀ s, ready b s →
    ready b (m s).2 ∧ match (m s).1 with Ok _ => True | Err e => e ∈ sd_codes | Panic => False end.

Create HintDb sd discriminated.
#[export] Hint Constants Opaque : sd.

Section safe.
Context {W : Type} `{Board W} (b : bool).

Lemma ready_machine w (s : Sd W) : ready b s → ready b (set_machine w s).
Proof. done. Qed.

Lemma safe_ret {A} (a : A) : safe (W := W) b (mret a).
Proof. intros s Hs. by split. Qed.
Lemma safe_err {A} e : e ∈ sd_codes → safe (W := W) b (st_err (A := A) e).
Proof. intros He s Hs. by split. Qed.
Lemma safe_load {A} (g : Sd W → A) : safe b (load g).
Proof. intros s Hs. by split. Qed.
Lemma safe_store (g : Sd W → Sd W) : (∀ s, ready b s → ready b (g s)) → safe b (store g).
Proof. intros Hg s Hs. split; [by apply Hg|done]. Qed.

Lemma safe_bind {A C} (m : st (Sd W) A) (k : A → st (Sd W) C) :
  safe b m → (∀ a, safe b (k a)) → safe b (m ≫= k).
Proof.
  intros Hm Hk s Hs. unfold mbind, st_bind. destruct (Hm s Hs) as [Hr He].
  destruct (m s) as [[a|e|] s'] eqn:E; simpl in *; [by apply Hk|done|done].
Qed.

Lemma safe_when c (m : st (Sd W) ()) : safe b m → safe b (when c m).
Proof. destruct c; [done|]. intros _. apply safe_ret. Qed.

Lemma safe_poll {A} n (attempt : st (Sd W) (option A)) pause after :
  safe b attempt → safe b pause → safe b after → safe b (poll n attempt pause after).
Proof.
  intros. induction n as [|n IH]; [done|]; cbn [poll]. apply safe_bind; [done|].
  intros [a|]; [apply safe_ret|]. by apply safe_bind.
Qed.

Lemma safe_read r : safe (W := W) b (read_reg r).
Proof. intros s Hs. unfold read_reg. destruct (rd _ _). by split. Qed.
Lemma safe_write r v : safe (W := W) b (write_reg r v).
Proof. by apply safe_store. Qed.
Lemma safe_write8 r v : safe (W := W) b (write_reg_8 r v).
Proof. by apply safe_store. Qed.
Lemma safe_write16 r v : safe (W := W) b (write_reg_16 r v).
Proof. by apply safe_store. Qed.
Lemma safe_log l : safe (W := W) b (log_regs l).
Proof. induction l; simpl; [apply safe_ret|]. by apply safe_bind; [apply safe_read|]. Qed.
End safe.
#[export] Hint Resolve safe_ret safe_load safe_read safe_write safe_write8 safe_write16 safe_log : sd.

(** Follow the structure of a call; what is left are the calls it makes, looked up
    in the hint database, and error codes. *)
Ltac safe_step :=
  lazymatch goal with
  | |- safe _ (_ ≫= _) => apply safe_bind; [|intros ?]
  | |- safe _ (mret _) => apply safe_ret
  | |- safe _ (load _) => apply safe_load
  | |- safe _ (read_reg _) => apply safe_read
  | |- safe _ (when _ _) => apply safe_when
  | |- safe _ (poll _ _ _ _) => apply safe_poll
  | |- safe _ (store _) => apply safe_store; intros ? ?; done
  | |- safe _ (st_err _) => apply safe_err; unfold sd_codes; repeat case_match; set_solver
  | |- safe _ (if ?c then _ else _) => destruct c eqn:?
  | |- safe _ (match ?o with Some _ => _ | None => _ end) => destruct o eqn:?
  | |- safe _ _ => solve [auto 1 with sd nocore]
  end.
Ltac safe_auto := repeat safe_step.

Section waits.
Context {W : Type} `{Board W} (b : bool).

Lemma cmd_err_code sts : cmd_err sts ∈ 0 :: sd_codes.
Proof. unfold cmd_err, sd_codes. repeat case_match; set_solver. Qed.
Lemma data_err_code sts e : data_err sts = Some e → e ∈ 0 :: sd_codes.
Proof. unfold data_err, sd_codes. repeat case_match; intros; simplify_eq; set_solver. Qed.

Lemma safe_notify q : safe (W := W) b (notify_one q).
Proof. destruct q; by apply safe_store. Qed.
Lemma safe_notify_work : safe (W := W) b notify_sdio_irq_work.
Proof. by apply safe_store. Qed.

Lemma safe_irq_cmd sts : safe (W := W) b (irq_cmd sts).
Proof.
  unfold irq_cmd. safe_auto; try apply safe_notify.
  apply safe_store. intros s (? & ? & ?). split; [done|]. split; [apply cmd_err_code|done].
Qed.

Lemma safe_irq_data sts : safe (W := W) b (irq_data sts).
Proof.
  unfold irq_data. safe_auto; try apply safe_notify.
  apply safe_store. intros s (? & ? & ?). split; [done|]. split; [done|]. by eapply data_err_code.
Qed.
End waits.
#[export] Hint Resolve safe_irq_cmd safe_irq_data safe_notify safe_notify_work : sd.

Section irq.
Context {W : Type} `{Board W} (b : bool).

Lemma safe_irq : safe (W := W) b handle_sdhci_host_irq.
Proof.
  unfold handle_sdhci_host_irq. induction MAX_IRQ_LOOPS as [|n IH]; cbn [irq_loop]; [apply safe_ret|].
  unfold irq_round, irq_card. safe_auto; exact IH.
Qed.

Lemma safe_serve n : safe (W := W) b (serve n).
Proof. induction n; cbn [serve]; [apply safe_ret|]. apply safe_bind; [apply safe_irq|done]. Qed.
Lemma safe_spin : safe (W := W) b spin_loop.
Proof. intros s Hs. unfold spin_loop. destruct (on_spin _). by apply safe_serve. Qed.
Lemma safe_sleep ms : safe (W := W) b (sleep_ms ms).
Proof. intros s Hs. unfold sleep_ms. destruct (on_sleep _ _). by apply safe_serve. Qed.

Lemma safe_blocked q n : safe (W := W) b (blocked q n).
Proof.
  induction n as [|n IH]; cbn [blocked]; [apply safe_ret|]. apply safe_bind; [apply safe_irq|].
  intros _. safe_auto; exact IH.
Qed.
Lemma safe_wait q : safe (W := W) b (wait_timeout q).
Proof.
  unfold wait_timeout. apply safe_bind; [apply safe_spin|intros _]. apply safe_bind.
  - destruct q; by apply safe_store.
  - intros _ s Hs. unfold block_on. destruct (on_block _). by apply safe_blocked.
Qed.
End irq.
#[export] Hint Resolve safe_irq safe_spin safe_sleep safe_wait : sd.

Section polls.
Context {W : Type} `{Board W} (b : bool).

Lemma safe_clear : safe (W := W) b clear_int_status.
Proof. unfold clear_int_status. safe_auto. Qed.
Lemma safe_reset_cmd : safe (W := W) b reset_cmd_line.
Proof. unfold reset_cmd_line, bit_clear. safe_auto. Qed.
Lemma safe_reset_dat : safe (W := W) b reset_dat_line.
Proof. unfold reset_dat_line, bit_clear. safe_auto. Qed.
Lemma safe_reset_all : safe (W := W) b reset_all.
Proof. unfold reset_all. safe_auto. Qed.
#[local] Hint Resolve safe_clear safe_reset_cmd safe_reset_dat : sd.

Lemma safe_wait_not_inhibit : safe (W := W) b wait_not_inhibit.
Proof. unfold wait_not_inhibit. safe_auto. Qed.
Lemma safe_wait_no_resp : safe (W := W) b wait_cmd_complete_no_resp.
Proof. unfold wait_cmd_complete_no_resp. safe_auto. Qed.
Lemma safe_wait_no_crc : safe (W := W) b wait_cmd_complete_no_crc.
Proof. unfold wait_cmd_complete_no_crc. safe_auto. Qed.
Lemma safe_wait_cmd : safe (W := W) b wait_cmd_complete.
Proof. unfold wait_cmd_complete, cmd_attempt, poll_cmd_err. safe_auto. Qed.
Lemma safe_wait_buf i p : safe (W := W) b (wait_buf_ready i p).
Proof. unfold wait_buf_ready. safe_auto. Qed.

Lemma safe_poll_data outcome :
  (∀ v r, outcome v = Some r → match r with Err e => e ∈ sd_codes | Ok _ => True | Panic => False end) →
  safe (W := W) b (poll_data outcome).
Proof.
  intros Ho. unfold poll_data. safe_auto. apply Ho in Heqo. intros s Hs. by destruct r.
Qed.
Lemma safe_wait_xfer : safe (W := W) b wait_xfer_complete.
Proof. apply safe_poll_data. unfold xfer_outcome, sd_codes. intros v r. repeat case_match; intros [= <-]; set_solver. Qed.
Lemma safe_wait_dma : safe (W := W) b wait_dma_complete.
Proof. apply safe_poll_data. unfold dma_outcome, sd_codes. intros v r. repeat case_match; intros [= <-]; set_solver. Qed.

Lemma safe_result (f : Sd W → Z) :
  (∀ s, ready b s → f s ∈ 0 :: sd_codes) →
  safe b (irq_result f).
Proof.
  intros Hf s Hs. pose proof (Hf s Hs) as Hc. unfold irq_result, mbind, st_bind, load.
  case_bool_decide as E; split; try done. simpl. apply elem_of_cons in Hc as [?|?]; done.
Qed.
Lemma safe_wait_cmd_irq : safe (W := W) b wait_cmd_complete_irq.
Proof.
  unfold wait_cmd_complete_irq. safe_auto. apply safe_result. by intros s (_ & ? & _).
Qed.
Lemma safe_wait_dma_irq : safe (W := W) b wait_dma_complete_irq.
Proof.
  unfold wait_dma_complete_irq. safe_auto. apply safe_result. by intros s (_ & _ & ?).
Qed.
Lemma safe_set_irqs : safe (W := W) b set_transfer_irqs_dma.
Proof. unfold set_transfer_irqs_dma. safe_auto. Qed.
Lemma safe_enable_irq e : safe (W := W) b (enable_sdio_irq e).
Proof. unfold enable_sdio_irq. safe_auto. Qed.
#[local] Hint Resolve safe_enable_irq : sd.
Lemma safe_irqs_if_set : safe (W := W) b process_sdio_pending_irqs_if_set.
Proof. unfold process_sdio_pending_irqs_if_set, sdio_signal_irq. safe_auto. Qed.
End polls.
#[export] Hint Resolve safe_clear safe_reset_cmd safe_reset_dat safe_reset_all safe_wait_not_inhibit
  safe_wait_no_resp safe_wait_no_crc safe_wait_cmd safe_wait_buf safe_wait_xfer safe_wait_dma
  safe_wait_cmd_irq safe_wait_dma_irq safe_set_irqs safe_enable_irq safe_irqs_if_set : sd.

(** ** One round of the interrupt handler *)
Section round.
Context {W : Type} `{Board W}.
Implicit Types s : Sd W.

(** The statics the transfer code waits for. *)
Definition cmd_side s := (s.(cmd_pending), s.(cmd_woken), s.(cmd_result)).
Definition dma_side s :=
  (s.(dma_pending), s.(dma_woken), s.(dma_result), s.(bytes_xferred), s.(base_phys), s.(dma_total)).

(** Calls that end well and leave both sides alone. *)
Definition apart {A} (m : st (Sd W) A) : Prop :=
  ∀ s, (∃ a, (m s).1 = Ok a) ∧ cmd_side (m s).2 = cmd_side s ∧ dma_side (m s).2 = dma_side s.

Lemma apart_ret {A} (a : A) : apart (mret a).
Proof. intros s. split; [by exists a|done]. Qed.
Lemma apart_bind {A C} (m : st (Sd W) A) (k : A → st (Sd W) C) :
  apart m → (∀ a, apart (k a)) → apart (m ≫= k).
Proof.
  intros Hm Hk s. unfold mbind, st_bind. destruct (Hm s) as ((a & E) & Hc & Hd).
  destruct (m s) as [r s']; simpl in *; subst r. destruct (Hk a s') as (? & -> & ->). done.
Qed.
Lemma apart_when c (m : st (Sd W) ()) : apart m → apart (when c m).
Proof. destruct c; [done|]. intros _. apply apart_ret. Qed.
Lemma apart_read r : apart (read_reg r).
Proof. intros s. unfold read_reg. destruct (rd r _) as [v w]. split; [by exists v|done]. Qed.
Lemma apart_write r v : apart (write_reg r v).
Proof. intros s. split; [by exists ()|done]. Qed.

Lemma irq_card_apart sts : apart (irq_card sts).
Proof.
  unfold irq_card. apply apart_bind; [apply apart_read|intros ier]. apply apart_when.
  repeat (apply apart_bind; [first [apply apart_read|apply apart_write|idtac]|intros ?]);
    intros s; (split; [by exists ()|done]).
Qed.

Lemma irq_cmd_spec sts s :
  ∃ s', irq_cmd sts s = (Ok (), s') ∧ dma_side s' = dma_side s ∧
    cmd_side s' = if has sts INT_CMD_MASK && s.(cmd_pending) then (false, true, cmd_err sts) else cmd_side s.
Proof.
  unfold irq_cmd, mbind, st_bind, load. destruct (has sts INT_CMD_MASK && cmd_pending s); simpl; [|by eexists].
  destruct (has sts INT_TIMEOUT); simpl; [|by eexists].
  unfold mbind, st_bind. destruct (apart_read RESP31_0 s) as ((a & E) & Hc & Hd).
  destruct (read_reg RESP31_0 s) as [r s1]; simpl in *; subst r. eexists. split; [done|].
  split; [exact Hd|done].
Qed.

Lemma irq_data_spec sts s :
  ∃ s', irq_data sts s = (Ok (), s') ∧ cmd_side s' = cmd_side s ∧
    dma_side s' =
      if has sts INT_DATA_MASK && s.(dma_pending) then
        match data_err sts with
        | Some e => (false, true, e, s.(bytes_xferred), s.(base_phys), s.(dma_total))
        | None => (s.(dma_pending), s.(dma_woken), s.(dma_result),
                   wrap 32 (dma_next s.(base_phys) s.(bytes_xferred) - s.(base_phys)), s.(base_phys), s.(dma_total))
        end
      else dma_side s.
Proof.
  unfold irq_data, mbind, st_bind, load. destruct (has sts INT_DATA_MASK && dma_pending s); simpl; [|by eexists].
  destruct (data_err sts); simpl; [by eexists|].
  destruct (bool_decide _); simpl; by eexists.
Qed.

(** A round of the interrupt handler completes the command
    that is waited for on any command bit and the data phase on any data bit that
    ends it: it leaves the outcome in the result, clears the pending flag and wakes
    the waiter. A data phase that only reached an SDMA boundary goes on with the
    next boundary recorded. A wait that was not started, or whose bits are not set,
    is left exactly as it was. *)
Lemma irq_completes (sts : Z) (s : Sd W) :
  let s' := (irq_round sts s).2 in
  (irq_round sts s).1 = Ok () ∧
  (s'.(cmd_pending), s'.(cmd_woken), s'.(cmd_result)) =
    (if has sts INT_CMD_MASK && s.(cmd_pending) then (false, true, cmd_err sts)
     else (s.(cmd_pending), s.(cmd_woken), s.(cmd_result))) ∧
  (s'.(dma_pending), s'.(dma_woken), s'.(dma_result), s'.(bytes_xferred)) =
    (if has sts INT_DATA_MASK && s.(dma_pending) then
       match data_err sts with
       | Some e => (false, true, e, s.(bytes_xferred))
       | None => (true, s.(dma_woken), s.(dma_result),
                  wrap 32 (dma_next s.(base_phys) s.(bytes_xferred) - s.(base_phys)))
       end
     else (s.(dma_pending), s.(dma_woken), s.(dma_result), s.(bytes_xferred))).
Proof.
  unfold irq_round, mbind, st_bind, load.
  pose proof (apart_when (negb (bool_decide (clear_mask sts (dma_pending s) = 0)))
    (write_reg NORM_AND_ERR_INT_STS (clear_mask sts (dma_pending s))) (apart_write _ _) s) as ((a & E1) & C1 & D1).
  destruct (when _ _ s) as [r1 s1]; simpl in *; subst r1.
  destruct (irq_cmd_spec sts s1) as (s2 & -> & D2 & C2).
  destruct (irq_data_spec sts s2) as (s3 & -> & C3 & D3).
  destruct (irq_card_apart sts s3) as ((b & E4) & C4 & D4).
  destruct (irq_card sts s3) as [r4 s4]; simpl in *; subst r4.
  set (af := Z.lor _ _). destruct (apart_when (negb (bool_decide (af = 0))) (write_reg NORM_AND_ERR_INT_STS af)
    (apart_write _ _) s4) as ((c & E5) & C5 & D5).
  destruct (when _ _ s4) as [r5 s5]; simpl in *; subst r5. destruct c.
  split; [done|].
  assert (Cs : cmd_side s5 = if has sts INT_CMD_MASK && cmd_pending s then (false, true, cmd_err sts) else cmd_side s).
  { rewrite C5, C4, C3, C2. unfold cmd_side in *. by injection C1 as -> -> ->. }
  rewrite D2 in D3. assert (Ds := D5). rewrite D4, D3 in Ds.
  assert (dma_pending s2 = dma_pending s ∧ dma_woken s2 = dma_woken s ∧ dma_result s2 = dma_result s ∧
          bytes_xferred s2 = bytes_xferred s ∧ base_phys s2 = base_phys s) as (P1 & P2 & P3 & P4 & P5).
  { unfold dma_side in D1, D2. injection D1; injection D2. intros. repeat split; congruence. }
  split; [exact Cs|]. rewrite P1, P2, P3, P4, P5, D1 in Ds. unfold dma_side in Ds. clear -Ds.
  destruct (has sts INT_DATA_MASK); [|by injection Ds as -> -> -> -> _ _].
  destruct (dma_pending s) eqn:E; [|by injection Ds as -> -> -> -> _ _].
  simpl in *. destruct (data_err sts); by injection Ds as -> -> -> -> _ _.
Qed.
End round.

(** At an SDMA boundary the handler continues at the next
    multiple of 512 KiB, which is beyond what was transferred and at most 512 KiB
    further; the count it records is the distance to the buffer's start, and since
    a CMD53 carries at most 511 blocks of 512 bytes no transfer meets more than
    one boundary. *)
Lemma dma_boundary (base bytes total : Z)
    (Hb : 0 ≤ base) (Hx : 0 ≤ bytes) (Ht : total ≤ 511 * 512)
    (Hw : base + bytes + 2 * SDHCI_DEFAULT_BOUNDARY_SIZE < 2 ^ 32) :
  let next := dma_next base bytes in
  let new_bytes := wrap 32 (next - base) in
  next `mod` SDHCI_DEFAULT_BOUNDARY_SIZE = 0 ∧ next = base + new_bytes ∧
  bytes < new_bytes ≤ bytes + SDHCI_DEFAULT_BOUNDARY_SIZE ∧
  total ≤ wrap 32 (dma_next base new_bytes - base).
Proof.
  intros next new_bytes. assert (E := dma_next_spec base bytes Hb Hx).
  assert (S : SDHCI_DEFAULT_BOUNDARY_SIZE = 524288) by reflexivity. rewrite S in *.
  fold next in E. specialize (E ltac:(lia)).
  assert (En : new_bytes = next - base).
  { apply wrap_id. unfold in_range. Z.to_euclidean_division_equations; lia. }
  assert (Hn : bytes < new_bytes ≤ bytes + 524288) by (Z.to_euclidean_division_equations; lia).
  split; [rewrite E; apply Z_mod_mult|]. split; [lia|]. split; [done|].
  assert (E2 : dma_next base new_bytes = next + 524288).
  { rewrite dma_next_spec by (rewrite ?S; lia). rewrite S, En.
    replace (base + (next - base)) with next by lia. rewrite E. rewrite Z.div_mul by lia. lia. }
  rewrite E2, wrap_id; unfold in_range; lia.
Qed.

Lemma dma_boundary_witness :
  dma_next 0x8007F000 0 = 0x80080000 ∧ dma_next 0x8007F000 0 `mod` SDHCI_DEFAULT_BOUNDARY_SIZE = 0.
Proof.
  split; [reflexivity|].
  apply (dma_boundary 0x8007F000 0 1024 ltac:(lia) ltac:(lia) ltac:(lia) ltac:(by vm_compute)).
Defined.
