(* ===== verification/SdCmd.v ===== *)
(** * The SDHCI controller: [driver/bsp/src/sdio/backend.rs], commands and transfers

    The bring-up of the controller, the enumeration of the card, CMD52, CMD53 by
    polled words and by DMA blocks, and the transfers the rest of the driver asks
    for: the implementation of the interface [Host.SdioHost]. *)

From S2P Require Import Prelude Host Sdhci SdHost.
Import Fields Arg Split Dma.

(** ** Command words *)

(** driver/bsp/src/sdio/backend.rs:399-403 [CMD0_XFER_MODE] *)
Definition CMD0_XFER_MODE : Z := Z.shiftl 0 24.
(** driver/bsp/src/sdio/backend.rs:410-416 [CMD5_XFER_MODE] *)
Definition CMD5_XFER_MODE : Z := Z.lor (Z.shiftl 2 16) (Z.shiftl 5 24).
(** A response of type [resp] with its checksum and its index checked. *)
Definition checked_cmd (resp index : Z) : Z :=
  Z.lor (Z.lor (Z.lor (Z.shiftl resp 16) (Z.shiftl 1 19)) (Z.shiftl 1 20)) (Z.shiftl index 24).
(** driver/bsp/src/sdio/backend.rs:423-429 [CMD3_XFER_MODE] *)
Definition CMD3_XFER_MODE : Z := checked_cmd 2 3.
(** driver/bsp/src/sdio/backend.rs:436-442 [CMD7_XFER_MODE] *)
Definition CMD7_XFER_MODE : Z := checked_cmd 3 7.
(** driver/bsp/src/sdio/backend.rs:450-456 [CMD52_XFER_MODE] *)
Definition CMD52_XFER_MODE : Z := checked_cmd 2 52.
(** driver/bsp/src/sdio/backend.rs:477-486 [CMD53_WRITE_XFER_MODE]: a data phase with a block count *)
Definition CMD53_WRITE_XFER_MODE : Z :=
  Z.lor (Z.lor (checked_cmd 2 53) (Z.shiftl 1 21)) (Z.shiftl 1 1).
(** driver/bsp/src/sdio/backend.rs:465-474 [CMD53_READ_XFER_MODE] *)
Definition CMD53_READ_XFER_MODE : Z := Z.lor CMD53_WRITE_XFER_MODE (Z.shiftl 1 4).
(** driver/bsp/src/sdio/backend.rs:495-505 [CMD53_WRITE_MULTI_XFER_MODE] *)
Definition CMD53_WRITE_MULTI_XFER_MODE : Z :=
  Z.lor (Z.lor CMD53_WRITE_XFER_MODE (Z.shiftl 1 5)) (Z.shiftl 1 0).
(** driver/bsp/src/sdio/backend.rs:509-519 [CMD53_READ_MULTI_XFER_MODE] *)
Definition CMD53_READ_MULTI_XFER_MODE : Z :=
  Z.lor (Z.lor CMD53_READ_XFER_MODE (Z.shiftl 1 5)) (Z.shiftl 1 0).
(** driver/bsp/src/sdio/backend.rs:491-491 [SDHCI_BLOCK_SIZE_WORD] *)
Definition SDHCI_BLOCK_SIZE_WORD : Z := sdhci_make_blksz 7 512.
(** driver/bsp/src/sdio/backend.rs:526-526 [INT_CARD_CLK_HZ] *)
Definition INT_CARD_CLK_HZ : Z := 375000000.
(** driver/bsp/src/sdio/backend.rs:227-227 [CMD53_MAX_BYTES] *)
Definition CMD53_MAX_BYTES : nat := 512.

Section host.
Context {W : Type} `{Board W}.

(** [for _ in 0..n { spin_loop() }] *)
Fixpoint spins (n : nat) : st (Sd W) () :=
  match n with
  | O => mret ()
  | S n => _ ← spin_loop; spins n
  end.

(** [if let Err(e) = m { recover; return Err(e); }] *)
Definition guarded {A} (recover : st (Sd W) ()) (m : st (Sd W) A) : st (Sd W) A := λ s,
  match m s with
  | (Err e, s') => (_ ← recover; st_err e) s'
  | x => x
  end.

(** ** The controller's settings *)

(** driver/bsp/src/sdio/backend.rs:677-685 [set_host_high_speed] *)
Definition set_host_high_speed (enable : bool) : st (Sd W) () :=
  ctrl ← read_reg HOST_CTRL1;
  let new_ctrl := if enable then Z.lor ctrl (Z.shiftl 1 2) else Z.ldiff ctrl (Z.shiftl 1 2) in
  when (negb (bool_decide (new_ctrl = ctrl))) (write_reg HOST_CTRL1 new_ctrl).

(** driver/bsp/src/sdio/backend.rs:649-651 [set_clock]: the clock divisor, rounded up and
    clamped; the arithmetic is on 32 bits *)
Definition clock_divisor (clock_hz : Z) : res Z :=
  double ← (if bool_decide (2 * clock_hz < 2 ^ 32) then Ok (2 * clock_hz) else Panic);
  sum ← add_w 32 INT_CARD_CLK_HZ double;
  Ok (Z.max 1 (Z.min 255 ((sum - 1) `div` double))).

(** driver/bsp/src/sdio/backend.rs:635-674 [set_clock] *)
Definition set_clock (clock_hz : Z) : st (Sd W) () :=
  let SD_CLK_EN := Z.shiftl 1 2 in
  if bool_decide (clock_hz = 0) then
    _ ← set_host_high_speed false;
    ctl ← read_reg CLK_CTL_SWRST;
    write_reg CLK_CTL_SWRST (Z.ldiff ctl SD_CLK_EN)
  else
    divisor ← st_lift (clock_divisor clock_hz);
    ctl ← read_reg CLK_CTL_SWRST;
    _ ← write_reg CLK_CTL_SWRST (Z.lor (Z.lor (Z.ldiff ctl 0xFF00) (Z.shiftl divisor 8)) 1);
    _ ← spins (Z.to_nat 1000);
    poll CMD_POLL_TIMEOUT_US
      (s ← read_reg CLK_CTL_SWRST;
       if has s (Z.shiftl 1 1) then
         _ ← write_reg CLK_CTL_SWRST (Z.lor s SD_CLK_EN);
         _ ← set_host_high_speed (bool_decide (20000000 ≤ clock_hz));
         mret (Some ())
       else mret None)
      spin_loop
      (s ← read_reg CLK_CTL_SWRST;
       _ ← write_reg CLK_CTL_SWRST (Z.lor s SD_CLK_EN);
       set_host_high_speed (bool_decide (20000000 ≤ clock_hz))).

(** driver/bsp/src/sdio/backend.rs:578-629 [enable_sd_interface_clock] *)
Definition enable_sd_interface_clock : st (Sd W) () :=
  _ ← reset_all;
  _ ← write_reg_8 POWER_CONTROL (Z.lor 0x01 0x0E);
  _ ← write_reg_8 BLOCK_GAP_CONTROL 0;
  _ ← write_reg_8 WAKE_UP_CONTROL 0;
  _ ← write_reg_8 TIMEOUT_CONTROL 0x0E;
  host_ctrl ← read_reg HOST_CTRL1;
  _ ← write_reg HOST_CTRL1 (Z.lor (Z.lor host_ctrl (Z.shiftl 1 6)) (Z.shiftl 1 7));
  vendor_area ← read_reg P_VENDOR_SPECIFIC_AREA;
  let vendor_base := Z.land vendor_area 0xFFF in
  ctrl ← read_reg vendor_base;
  _ ← write_reg vendor_base (Z.lor (Z.lor (Z.lor ctrl 1) (Z.shiftl 1 1)) (Z.shiftl 1 16));
  _ ← write_reg (vendor_base + VENDOR_PHY_TX_RX_DLY_OFF) 0x1000100;
  cfg ← read_reg (vendor_base + VENDOR_PHY_CONFIG_OFF);
  _ ← write_reg (vendor_base + VENDOR_PHY_CONFIG_OFF) (Z.lor cfg 1);
  _ ← write_reg NORM_AND_ERR_INT_STS_EN DEFAULT_IER;
  _ ← write_reg NORM_AND_ERR_INT_SIG_EN DEFAULT_IER;
  set_clock 400000.

(** driver/bsp/src/sdio/backend.rs:788-798 [set_bus_width] *)
Definition set_bus_width (width_4 : bool) : st (Sd W) () :=
  host_ctrl ← read_reg HOST_CTRL1;
  write_reg HOST_CTRL1 (if width_4 then Z.lor host_ctrl (Z.shiftl 1 1) else Z.ldiff host_ctrl (Z.shiftl 1 1)).

(** driver/bsp/src/sdio/mmc_impl.rs:33-40 [BspSdioHost::set_ios], with the fields of [MmcIos]; [-19] without a device *)
Definition set_ios (device four_bit : bool) (clock : Z) : st (Sd W) () :=
  if negb device then st_err (-19) else
  _ ← set_clock clock;
  set_bus_width four_bit.

(** driver/bsp/src/sdio/backend.rs:1056-1064 [set_ios_raw] *)
Definition set_ios_raw (four_bit : bool) (freq_sel : option Z) : st (Sd W) () :=
  _ ← set_bus_width four_bit;
  match freq_sel with
  | Some v => ctl ← read_reg CLK_CTL_SWRST; write_reg CLK_CTL_SWRST (Z.lor (Z.ldiff ctl 0xFF00) (Z.shiftl v 8))
  | None => mret ()
  end.

(** ** The enumeration of the card *)

(** driver/bsp/src/sdio/backend.rs:844-847 [cmd0_go_idle], also driver/bsp/src/sdio/backend.rs:935-938 [cmd5_io_send_op_cond],
    also driver/bsp/src/sdio/backend.rs:962-965 [cmd3_send_relative_addr], also driver/bsp/src/sdio/backend.rs:984-987 [cmd7_select_card],
    also driver/bsp/src/sdio/backend.rs:1436-1439 [cmd52_read_func], also driver/bsp/src/sdio/backend.rs:1455-1458 [cmd52_write_func]:
    the argument, then the command word that starts it *)
Definition send_command (arg word : Z) : st (Sd W) () :=
  _ ← write_reg ARGUMENT arg;
  write_reg XFER_MODE_AND_CMD word.

(** driver/bsp/src/sdio/backend.rs:834-863 [cmd0_go_idle] *)
Definition cmd0_go_idle : st (Sd W) () :=
  _ ← reset_cmd_line;
  _ ← wait_not_inhibit;
  _ ← clear_int_status;
  _ ← log_regs [PRESENT_STS; NORM_AND_ERR_INT_STS];
  _ ← send_command 0 CMD0_XFER_MODE;
  _ ← spins (Z.to_nat 1000);
  _ ← log_regs [PRESENT_STS; NORM_AND_ERR_INT_STS];
  wait_cmd_complete_no_resp.

(** driver/bsp/src/sdio/backend.rs:929-954 [cmd5_io_send_op_cond] *)
Definition cmd5_io_send_op_cond (arg : Z) : st (Sd W) Z :=
  _ ← wait_not_inhibit;
  _ ← log_regs [NORM_AND_ERR_INT_STS];
  _ ← send_command arg CMD5_XFER_MODE;
  wait_result ← st_try wait_cmd_complete_no_crc;
  _ ← log_regs [NORM_AND_ERR_INT_STS; PRESENT_STS];
  _ ← st_lift wait_result;
  resp ← read_reg RESP31_0;
  _ ← log_regs [RESP63_32];
  mret resp.

(** driver/bsp/src/sdio/backend.rs:959-973 [cmd3_send_relative_addr] *)
Definition cmd3_send_relative_addr : st (Sd W) Z :=
  _ ← wait_not_inhibit;
  _ ← send_command 0 CMD3_XFER_MODE;
  _ ← wait_cmd_complete;
  resp ← read_reg RESP31_0;
  mret (Z.land (Z.shiftr resp 16) 0xFFFF).

(** driver/bsp/src/sdio/backend.rs:980-994 [cmd7_select_card] *)
Definition cmd7_select_card (rca : Z) : st (Sd W) () :=
  _ ← wait_not_inhibit;
  _ ← send_command (wrap 32 (Z.shiftl rca 16)) CMD7_XFER_MODE;
  _ ← wait_cmd_complete;
  _ ← sleep_ms WAIT_INHIBIT_DELAY_MS;
  wait_not_inhibit.

(** driver/bsp/src/sdio/backend.rs:746-766 [sdio_card_init]: CMD5 until the card is ready *)
Definition cmd5_ready (ocr : Z) : st (Sd W) () :=
  poll 100
    (resp ← cmd5_io_send_op_cond (Z.land ocr 0x00FFFF00);
     mret (if has resp 0x80000000 then Some () else None))
    (spins (Z.to_nat 1000))
    (st_err (-110)).

(** driver/bsp/src/sdio/backend.rs:718-785 [sdio_card_init] *)
Definition sdio_card_init : st (Sd W) Z :=
  _ ← log_regs [PRESENT_STS; CLK_CTL_SWRST];
  _ ← spins (Z.to_nat 100000);
  _ ← cmd0_go_idle;
  _ ← spins (Z.to_nat 50000);
  ocr ← cmd5_io_send_op_cond 0;
  if bool_decide (ocr = 0) then st_err (-19) else
  _ ← cmd5_ready ocr;
  rca ← cmd3_send_relative_addr;
  _ ← cmd7_select_card rca;
  mret rca.

(** ** CMD52 *)

(** driver/bsp/src/sdio/backend.rs:1443-1446 [cmd52_read_func], also driver/bsp/src/sdio/backend.rs:1461-1464 [cmd52_write_func] *)
Definition check_r5 (resp : Z) : st (Sd W) () :=
  if has (Z.shiftr resp 16) R5_ERROR_MASK then st_err (-5) else mret ().

(** driver/bsp/src/sdio/backend.rs:1432-1448 [cmd52_read_func] *)
Definition sd_cmd52_read_func (func reg : Z) : st (Sd W) Z :=
  _ ← wait_not_inhibit;
  _ ← send_command (Z.lor (Z.shiftl (Z.land func 7) 28) (Z.shiftl (Z.land reg 0x1FFFF) 9)) CMD52_XFER_MODE;
  _ ← wait_cmd_complete;
  resp ← read_reg RESP31_0;
  _ ← check_r5 resp;
  mret (Z.land resp 0xFF).

(** driver/bsp/src/sdio/backend.rs:1451-1466 [cmd52_write_func] *)
Definition sd_cmd52_write_func (func reg val : Z) : st (Sd W) () :=
  _ ← wait_not_inhibit;
  _ ← send_command (Z.lor (Z.lor (Z.lor (Z.shiftl 1 31) (Z.shiftl (Z.land func 7) 28))
                      (Z.shiftl (Z.land reg 0x1FFFF) 9)) val) CMD52_XFER_MODE;
  _ ← wait_cmd_complete;
  resp ← read_reg RESP31_0;
  check_r5 resp.

(** driver/bsp/src/sdio/backend.rs:1472-1474 [cmd52_read] *)
Definition sd_cmd52_read (addr : Z) : st (Sd W) Z := sd_cmd52_read_func 0 (Z.land addr 0x1FFFF).
(** driver/bsp/src/sdio/backend.rs:1477-1479 [cmd52_write] *)
Definition sd_cmd52_write (addr val : Z) : st (Sd W) () := sd_cmd52_write_func 0 (Z.land addr 0x1FFFF) val.

(** ** The card's interrupt *)

(** driver/bsp/src/sdio/backend.rs:1361-1364 [sdio_get_pending_irqs], also driver/bsp/src/sdio/backend.rs:177-177 [SDIO_CCCR_INTX] *)
Definition sdio_get_pending_irqs : st (Sd W) Z := sd_cmd52_read_func 0 0x05.

(** driver/bsp/src/sdio/backend.rs:1384-1394 [process_sdio_pending_irqs] *)
Definition process_sdio_pending_irqs : st (Sd W) () :=
  _ ← store (set_sdio_irq_pending false);
  _ ← log_regs [NORM_AND_ERR_INT_STS];
  ret ← st_try sdio_get_pending_irqs;
  _ ← log_regs [NORM_AND_ERR_INT_STS];
  _ ← st_lift ret;
  mret ().

(** driver/bsp/src/sdio/backend.rs:1402-1407 [sdio_run_irqs] *)
Definition sdio_run_irqs : st (Sd W) () :=
  _ ← st_try process_sdio_pending_irqs;
  pending ← load sdio_irq_pending;
  when (negb pending) ack_sdio_irq.

(** ** CMD53, polled words *)

(** [self.clear_int_status(); self.reset_dat_line();] *)
Definition recover_dat : st (Sd W) () := _ ← clear_int_status; reset_dat_line.

(** driver/bsp/src/sdio/backend.rs:1562-1564 [cmd53_read_chunk], also driver/bsp/src/sdio/backend.rs:1653-1655 [cmd53_write_chunk],
    also driver/bsp/src/sdio/backend.rs:1796-1798 [cmd53_write_blocks], also driver/bsp/src/sdio/backend.rs:1876-1878 [cmd53_read_blocks]:
    the status cleared and the lines idle before the next command *)
Definition settle : st (Sd W) () :=
  _ ← clear_int_status;
  _ ← sleep_ms WAIT_INHIBIT_DELAY_MS;
  wait_not_inhibit.

(** driver/bsp/src/sdio/backend.rs:1517-1517 [INT_XFER_ERR_READ], also driver/bsp/src/sdio/backend.rs:1605-1605 [INT_XFER_ERR_MASK] *)
Definition INT_XFER_ERR : Z := Z.lor (Z.lor (Z.shiftl 1 20) (Z.shiftl 1 21)) (Z.shiftl 1 22).

(** driver/bsp/src/sdio/backend.rs:1524-1524 [cmd53_read_chunk], also driver/bsp/src/sdio/backend.rs:1616-1616 [cmd53_write_chunk] *)
Definition xfer_err_code (sts : Z) : Z :=
  if has sts (Z.shiftl 1 20) then -110 else if has sts (Z.shiftl 1 16) then -110 else -5.

(** driver/bsp/src/sdio/backend.rs:1543-1547 [cmd53_read_chunk]: the first [k] bytes of a word *)
Definition word_bytes (k : nat) (word : Z) : list Z :=
  (λ j, wrap 8 (Z.shiftr word (8 * Z.of_nat j))) <$> seq 0 k.

(** driver/bsp/src/sdio/backend.rs:1632-1637 [cmd53_write_chunk]: the word of up to 4 bytes *)
Fixpoint word_of (j : nat) (l : list Z) : Z :=
  match l with
  | [] => 0
  | b :: l => Z.lor (Z.shiftl b (8 * Z.of_nat j)) (word_of (S j) l)
  end.

(** driver/bsp/src/sdio/backend.rs:1528-1548 [cmd53_read_chunk]: the words left, [count] bytes of them *)
Fixpoint read_words (words count : nat) : st (Sd W) (list Z) :=
  match words with
  | O => mret []
  | S words =>
      _ ← guarded recover_dat wait_buf_rd_ready;
      ist ← read_reg NORM_AND_ERR_INT_STS;
      _ ← when (has ist BUF_RRDY) (write_reg NORM_AND_ERR_INT_STS BUF_RRDY);
      word ← read_reg BUF_DATA;
      rest ← read_words words (count - 4);
      mret (word_bytes (Nat.min 4 count) word ++ rest)
  end.

(** driver/bsp/src/sdio/backend.rs:1619-1639 [cmd53_write_chunk] *)
Fixpoint write_words (words : nat) (buf : list Z) : st (Sd W) () :=
  match words with
  | O => mret ()
  | S words =>
      _ ← guarded recover_dat wait_buf_wr_ready;
      ist ← read_reg NORM_AND_ERR_INT_STS;
      _ ← when (has ist BUF_WRDY) (write_reg NORM_AND_ERR_INT_STS BUF_WRDY);
      _ ← write_reg BUF_DATA (word_of 0 (take 4 buf));
      write_words words (drop 4 buf)
  end.

(** driver/bsp/src/sdio/backend.rs:1490-1513 [cmd53_read_chunk], also driver/bsp/src/sdio/backend.rs:1577-1600 [cmd53_write_chunk]:
    up to the response; a pending card interrupt is queued for its worker and the
    transfer is refused with [-11] *)
Definition cmd53_start (write : bool) (addr : Z) (count : nat) (len : nat) : st (Sd W) () :=
  if negb (bool_decide (1 ≤ count ≤ CMD53_MAX_BYTES ∧ count ≤ len)%nat) then st_lift Panic else
  let func := Z.land (Z.shiftr addr 8) 7 in
  let reg := Z.land addr 0xFF in
  _ ← wait_not_inhibit;
  queued ← process_sdio_pending_irqs_if_set;
  if queued : bool then st_err (-11) else
  _ ← write_reg BLK_SIZE_AND_CNT (Z.lor (Z.shiftl 1 16) (Z.of_nat count));
  _ ← send_command (mmc_io_rw_extended_arg_byte write func reg false (Z.of_nat count))
        (if write then CMD53_WRITE_XFER_MODE else CMD53_READ_XFER_MODE);
  guarded recover_dat wait_cmd_complete.

(** driver/bsp/src/sdio/backend.rs:1549-1565 [cmd53_read_chunk], also driver/bsp/src/sdio/backend.rs:1640-1656 [cmd53_write_chunk] *)
Definition cmd53_finish : st (Sd W) () :=
  _ ← guarded recover_dat wait_xfer_complete;
  resp ← read_reg RESP31_0;
  _ ← guarded recover_dat (check_r5 resp);
  settle.

(** driver/bsp/src/sdio/backend.rs:1489-1566 [cmd53_read_chunk] *)
Definition cmd53_read_chunk (addr : Z) (len count : nat) : st (Sd W) (list Z) :=
  _ ← cmd53_start false addr count len;
  sts_r ← read_reg NORM_AND_ERR_INT_STS;
  _ ← log_regs [PRESENT_STS];
  if has sts_r (Z.lor INT_XFER_ERR (Z.shiftl 1 16)) then
    _ ← write_reg NORM_AND_ERR_INT_STS sts_r;
    _ ← recover_dat;
    st_err (xfer_err_code sts_r)
  else
  data ← read_words ((count + 3) / 4) count;
  _ ← cmd53_finish;
  mret data.

(** driver/bsp/src/sdio/backend.rs:1576-1657 [cmd53_write_chunk] *)
Definition cmd53_write_chunk (addr : Z) (buf : list Z) (count : nat) : st (Sd W) () :=
  _ ← cmd53_start true addr count (length buf);
  sts ← read_reg NORM_AND_ERR_INT_STS;
  _ ← log_regs [PRESENT_STS];
  let CLEAR_BEFORE_FIFO := Z.lor (Z.lor INT_XFER_ERR (Z.shiftl 1 16)) (Z.shiftl 1 1) in
  _ ← when (has sts CLEAR_BEFORE_FIFO) (write_reg NORM_AND_ERR_INT_STS (Z.land sts CLEAR_BEFORE_FIFO));
  sts2 ← read_reg NORM_AND_ERR_INT_STS;
  if has sts2 (Z.lor INT_XFER_ERR (Z.shiftl 1 16)) then
    _ ← recover_dat;
    st_err (xfer_err_code sts2)
  else
  _ ← write_words ((count + 3) / 4) (take count buf);
  cmd53_finish.

(** ** CMD53, blocks by DMA *)

Definition BLOCKSIZE : nat := 512.

(** [sdhci::alloc_dma_buffer(count).ok_or(-12)?] *)
Definition alloc (count : nat) : st (Sd W) () := λ s,
  let '(ok, busy) := alloc_dma_buffer count s.(dma_busy) in
  (if ok then Ok () else Err (-12), set_dma_busy busy s).

(** driver/bsp/src/sdio/backend.rs:1665-1673 [cmd53_write_blocks], also driver/bsp/src/sdio/backend.rs:1808-1816 [cmd53_read_blocks] *)
Definition blocks_enter (block_count : Z) (len : nat) : st (Sd W) () :=
  if negb (bool_decide (1 ≤ block_count ≤ 511 ∧ (Z.to_nat block_count * BLOCKSIZE ≤ len)%nat)) then st_lift Panic else
  _ ← wait_not_inhibit;
  queued ← process_sdio_pending_irqs_if_set;
  if queued : bool then st_err (-11) else mret ().

(** driver/bsp/src/sdio/backend.rs:1683-1703 [cmd53_write_blocks], also driver/bsp/src/sdio/backend.rs:1821-1841 [cmd53_read_blocks]:
    the DMA context, the controller's DMA registers, the argument *)
Definition blocks_prepare (write : bool) (addr block_count : Z) (host_ctrl_saved : Z) : st (Sd W) () :=
  let func := Z.land (Z.shiftr addr 8) 7 in
  let reg := Z.land addr 0xFF in
  let count := 512 * block_count in
  _ ← store (set_base_phys (wrap 32 dma_phys));
  _ ← store (set_dma_total count);
  _ ← store (set_bytes_xferred 0);
  _ ← write_reg SDMA_SADDR (wrap 32 dma_phys);
  _ ← write_reg HOST_CTRL1 (Z.ldiff host_ctrl_saved (Z.shiftl 3 3));
  _ ← set_transfer_irqs_dma;
  _ ← write_reg BLK_SIZE_AND_CNT (Z.lor (Z.shiftl block_count 16) SDHCI_BLOCK_SIZE_WORD);
  _ ← write_reg ARGUMENT (mmc_io_rw_extended_arg_block write func reg false block_count);
  write_reg_8 TIMEOUT_CONTROL 0x0E.

(** driver/bsp/src/sdio/backend.rs:1715-1722 [cmd53_write_blocks], also driver/bsp/src/sdio/backend.rs:1842-1849 [cmd53_read_blocks]:
    the waits are announced, then the mode and the command word that starts it *)
Definition blocks_issue (xfer_mode_cmd : Z) : st (Sd W) () :=
  _ ← store (set_cmd_pending true);
  _ ← store (set_dma_pending true);
  _ ← write_reg_16 TRANSFER_MODE (Z.land xfer_mode_cmd 0xFFFF);
  write_reg_16 COMMAND (Z.shiftr xfer_mode_cmd 16).

(** driver/bsp/src/sdio/backend.rs:1777-1799 [cmd53_write_blocks], also driver/bsp/src/sdio/backend.rs:1868-1879 [cmd53_read_blocks]:
    the setting and the DMA buffer are given back whatever the outcome *)
Definition blocks_leave (logged : list Z) (host_ctrl_saved : Z) (r : res ()) : st (Sd W) () :=
  _ ← write_reg HOST_CTRL1 host_ctrl_saved;
  _ ← store (λ s, set_dma_busy (release_dma_buffer s.(dma_busy)) s);
  _ ← guarded (_ ← log_regs logged; _ ← clear_int_status; _ ← reset_cmd_line; reset_dat_line) (st_lift r);
  settle.

Definition blocks_log : list Z :=
  [SDMA_SADDR; BLK_SIZE_AND_CNT; ARGUMENT; XFER_MODE_AND_CMD; HOST_CTRL1; PRESENT_STS; NORM_AND_ERR_INT_STS; RESP31_0].

(** driver/bsp/src/sdio/backend.rs:1662-1800 [cmd53_write_blocks] *)
Definition cmd53_write_blocks (addr : Z) (buf : list Z) (block_count : Z) : st (Sd W) () :=
  let count := (Z.to_nat block_count * BLOCKSIZE)%nat in
  _ ← blocks_enter block_count (length buf);
  _ ← alloc count;
  _ ← store (λ s, set_machine (dma_store (take count buf) s.(machine)) s);
  host_ctrl_saved ← read_reg HOST_CTRL1;
  _ ← blocks_prepare true addr block_count host_ctrl_saved;
  _ ← log_regs [SDMA_SADDR; BLK_SIZE_AND_CNT; ARGUMENT; HOST_CTRL1; PRESENT_STS; NORM_AND_ERR_INT_STS];
  _ ← blocks_issue CMD53_WRITE_MULTI_XFER_MODE;
  _ ← log_regs [XFER_MODE_AND_CMD; SDMA_SADDR; BLK_SIZE_AND_CNT; ARGUMENT; HOST_CTRL1; PRESENT_STS; NORM_AND_ERR_INT_STS; RESP31_0];
  cmd_ok ← st_try wait_cmd_complete_irq;
  _ ← log_regs [XFER_MODE_AND_CMD; PRESENT_STS; NORM_AND_ERR_INT_STS; RESP31_0];
  res_after_cmd ← st_try (_ ← st_lift cmd_ok; wait_dma_complete_irq);
  _ ← log_regs [PRESENT_STS; NORM_AND_ERR_INT_STS; RESP31_0];
  r ← st_try (_ ← st_lift res_after_cmd; resp ← read_reg RESP31_0; check_r5 resp);
  blocks_leave blocks_log host_ctrl_saved r.

(** driver/bsp/src/sdio/backend.rs:1805-1880 [cmd53_read_blocks] *)
Definition cmd53_read_blocks (addr : Z) (len : nat) (block_count : Z) : st (Sd W) (list Z) :=
  let count := (Z.to_nat block_count * BLOCKSIZE)%nat in
  _ ← blocks_enter block_count len;
  _ ← alloc count;
  host_ctrl_saved ← read_reg HOST_CTRL1;
  _ ← blocks_prepare false addr block_count host_ctrl_saved;
  _ ← blocks_issue CMD53_READ_MULTI_XFER_MODE;
  r ← st_try (_ ← wait_cmd_complete_irq; _ ← wait_dma_complete_irq;
              resp ← read_reg RESP31_0; check_r5 resp);
  data ← load (λ s, if is_Ok r then dma_load count s.(machine) else []);
  _ ← blocks_leave [] host_ctrl_saved r;
  mret data.

(** ** Transfers *)

(** driver/bsp/src/sdio/backend.rs:1923-1948 [sdio_io_rw_ext_helper_read]: the bytes read so far *)
Definition sd_helper_read (addr : Z) (size : nat) : st (Sd W) (list Z) :=
  if bool_decide (size = 0)%nat then mret [] else
  split (λ _ k cur acc, d ← cmd53_read_blocks addr (k * cur) (Z.of_nat k); mret (acc ++ d))
        (λ _ n acc, d ← cmd53_read_chunk addr n n; mret (acc ++ d))
        (bool_decide (CMD53_MAX_BYTES < size)%nat) BLOCKSIZE size [].

(** driver/bsp/src/sdio/backend.rs:1950-1974 [sdio_io_rw_ext_helper_write] *)
Definition sd_helper_write (addr : Z) (buf : list Z) : st (Sd W) () :=
  let size := length buf in
  if bool_decide (size = 0)%nat then mret () else
  split (λ off k cur _, s ← st_lift (slice_to off (off + k * cur) buf); cmd53_write_blocks addr s (Z.of_nat k))
        (λ off n _, s ← st_lift (slice_to off (off + n) buf); cmd53_write_chunk addr s n)
        (bool_decide (CMD53_MAX_BYTES < size)%nat) BLOCKSIZE size ().

(** driver/bsp/src/sdio/backend.rs:1993-2004 [read_cmd52]: byte by byte; the FIFO's register does not move *)
Definition read_cmd52 (func addr : Z) (len : nat) : st (Sd W) (list Z) :=
  let reg_base := Z.land addr 0xFF in
  let is_fifo := bool_decide (func = 1 ∧ reg_base = 0x08 ∧ (1 < len)%nat) in
  data ← (fix go (n : nat) (i : Z) : st (Sd W) (list Z) :=
            match n with
            | O => mret []
            | S n => b ← sd_cmd52_read_func func (if is_fifo then 0x08 else reg_base + i);
                     rest ← go n (i + 1); mret (b :: rest)
            end) len 0;
  _ ← clear_int_status;
  _ ← sleep_ms WAIT_INHIBIT_DELAY_MS;
  mret data.

(** driver/bsp/src/sdio/backend.rs:2023-2037 [write_cmd52] *)
Definition write_cmd52 (func addr : Z) (buf : list Z) : st (Sd W) nat :=
  let reg_base := Z.land addr 0xFF in
  _ ← (fix go (l : list Z) (i : Z) : st (Sd W) () :=
         match l with
         | [] => mret ()
         | b :: l => _ ← sd_cmd52_write_func func (reg_base + i) b; go l (i + 1)
         end) buf 0;
  _ ← when (bool_decide (func = 1)) (_ ← clear_int_status; sleep_ms WAIT_INHIBIT_DELAY_MS);
  mret (length buf).

(** driver/bsp/src/sdio/backend.rs:802-813 [enable_sdio_high_speed] *)
Definition enable_sdio_high_speed : st (Sd W) () :=
  speed ← sd_cmd52_read_func 0 (Z.land 0x13 0x1FFFF);
  if negb (has speed 0x01) then mret () else
  sd_cmd52_write_func 0 (Z.land 0x13 0x1FFFF) (Z.lor speed 0x02).

(** driver/bsp/src/sdio/backend.rs:817-831 [enable_4bit_bus]: errors of the card's register are only logged *)
Definition enable_4bit_bus : st (Sd W) () :=
  _ ← st_try (ctrl ← sd_cmd52_read_func 0 (Z.land 0x07 0x1FFFF);
              sd_cmd52_write_func 0 (Z.land 0x07 0x1FFFF) (Z.lor (Z.ldiff ctrl 0x03) 0x02));
  set_bus_width true.
End host.

(** The interface the rest of the driver is written against. *)
#[export] Instance sd_host {W} `{Board W} : SdioHost (Sd W) := {|
  cmd52_read_func := sd_cmd52_read_func;
  cmd52_write_func := sd_cmd52_write_func;
  sdio_io_rw_ext_helper_read := sd_helper_read;
  sdio_io_rw_ext_helper_write := sd_helper_write |}.

(** ** Outcomes of the calls *)

(** [ends b b' m]: like [safe], with the pool taken or free as [b'] says at the end;
    [does b b' m]: moreover [m] cannot fail. *)
Definition ends {W} (b b' : bool) {A} (m : st (Sd W) A) : Prop :=
  ∀ s, ready b s →
    ready b' (m s).2 ∧ match (m s).1 with Ok _ => True | Err e => e ∈ sd_codes | Panic => False end.
Definition does {W} (b b' : bool) {A} (m : st (Sd W) A) : Prop :=
  ∀ s, ready b s → ∃ a s', m s = (Ok a, s') ∧ ready b' s'.

Section outcomes.
Context {W : Type} `{Board W}.

Lemma does_bind {A C} b1 b2 b3 (m : st (Sd W) A) (k : A → st (Sd W) C) :
  does b1 b2 m → (∀ a, does b2 b3 (k a)) → does b1 b3 (m ≫= k).
Proof.
  intros Hm Hk s Hs. destruct (Hm s Hs) as (a & s1 & E & H1). unfold mbind, st_bind. rewrite E. by apply Hk.
Qed.
Lemma does_ends {A C} b1 b2 b3 (m : st (Sd W) A) (k : A → st (Sd W) C) :
  does b1 b2 m → (∀ a, ends b2 b3 (k a)) → ends b1 b3 (m ≫= k).
Proof.
  intros Hm Hk s Hs. destruct (Hm s Hs) as (a & s1 & E & H1). unfold mbind, st_bind. rewrite E. by apply Hk.
Qed.
Lemma does_read b r : does (W := W) b b (read_reg r).
Proof. intros s Hs. unfold read_reg. destruct (rd r _) as [v w]. by exists v, (set_machine w s). Qed.
Lemma does_store b b' g : (∀ s, ready b s → ready b' (g s)) → does (W := W) b b' (store g).
Proof. intros Hg s Hs. exists (), (g s). split; [done|by apply Hg]. Qed.
Lemma does_write b r v : does (W := W) b b (write_reg r v).
Proof. by apply does_store. Qed.
Lemma does_write8 b r v : does (W := W) b b (write_reg_8 r v).
Proof. by apply does_store. Qed.
Lemma does_write16 b r v : does (W := W) b b (write_reg_16 r v).
Proof. by apply does_store. Qed.
Lemma does_load b {A} (g : Sd W → A) : does b b (load g).
Proof. intros s Hs. by exists (g s), s. Qed.
Lemma does_log b l : does (W := W) b b (log_regs l).
Proof.
  induction l as [|r l IH]; cbn [log_regs]; [intros s Hs; by exists (), s|].
  by eapply does_bind; [apply does_read|].
Qed.
Lemma does_try b {A} (m : st (Sd W) A) : safe b m → does b b (st_try m).
Proof.
  intros Hm s Hs. destruct (Hm s Hs) as [Hr He]. unfold st_try.
  destruct (m s) as [[a|e|] s']; simpl in *; [by exists (Ok a), s'|by exists (Err e), s'|done].
Qed.

Lemma safe_lift b {A} (r : res A) :
  match r with Ok _ => True | Err e => e ∈ sd_codes | Panic => False end → safe (W := W) b (st_lift r).
Proof. intros Hr s Hs. by split. Qed.

(** A result caught from a safe call can be raised again. *)
Lemma try_then b b' {A C} (m : st (Sd W) A) (k : res A → st (Sd W) C) :
  safe b m →
  (∀ r, match r with Ok _ => True | Err e => e ∈ sd_codes | Panic => False end → ends b b' (k r)) →
  ends b b' (st_try m ≫= k).
Proof.
  intros Hm Hk s Hs. destruct (Hm s Hs) as [Hr He]. unfold mbind, st_bind, st_try.
  destruct (m s) as [[a|e|] s']; simpl in *; [|by apply Hk|done].
  by apply (Hk (Ok a) I).
Qed.

Lemma safe_guarded b {A} recover (m : st (Sd W) A) :
  safe b recover → safe b m → safe b (guarded recover m).
Proof.
  intros Hr Hm s Hs. unfold guarded. destruct (Hm s Hs) as [H1 H2].
  destruct (m s) as [[a|e|] s'] eqn:E; simpl in *; [done| |done].
  apply (safe_bind b recover (λ _, st_err e)); [done| |done]. intros _. by apply safe_err.
Qed.

Lemma safe_try b {A} (m : st (Sd W) A) : safe b m → safe b (st_try m).
Proof.
  intros Hm s Hs. destruct (does_try b m Hm s Hs) as (a & s' & -> & ?). done.
Qed.

Lemma safe_spins b n : safe (W := W) b (spins n).
Proof. induction n; cbn [spins]; [apply safe_ret|]. apply safe_bind; [apply safe_spin|done]. Qed.
Lemma safe_send b a c : safe (W := W) b (send_command a c).
Proof. unfold send_command. safe_auto. Qed.
Lemma safe_r5 b r : safe (W := W) b (check_r5 r).
Proof. unfold check_r5. safe_auto. Qed.
Lemma safe_recover b : safe (W := W) b recover_dat.
Proof. unfold recover_dat. safe_auto. Qed.
Lemma safe_settle b : safe (W := W) b settle.
Proof. unfold settle. safe_auto. Qed.
End outcomes.
#[export] Hint Resolve safe_spins safe_send safe_r5 safe_recover safe_settle : sd.

Section calls.
Context {W : Type} `{Board W} (b : bool).

Lemma safe_cmd52_read f r : safe (W := W) b (sd_cmd52_read_func f r).
Proof. unfold sd_cmd52_read_func. safe_auto. Qed.
Lemma safe_cmd52_write f r v : safe (W := W) b (sd_cmd52_write_func f r v).
Proof. unfold sd_cmd52_write_func. safe_auto. Qed.
Lemma safe_cmd0 : safe (W := W) b cmd0_go_idle.
Proof. unfold cmd0_go_idle. safe_auto. Qed.

Lemma safe_caught {A C} (m : st (Sd W) A) (n : st (Sd W) ()) (k : A → st (Sd W) C) :
  safe b m → safe b n → (∀ a, safe b (k a)) →
  safe b (r ← st_try m; _ ← n; a ← st_lift r; k a).
Proof.
  intros Hm Hn Hk. apply (try_then b b); [done|]. intros r Hr. apply safe_bind; [done|intros _].
  apply safe_bind; [by apply safe_lift|done].
Qed.

Lemma safe_cmd5 a : safe (W := W) b (cmd5_io_send_op_cond a).
Proof.
  unfold cmd5_io_send_op_cond. do 3 (apply safe_bind; [first [apply safe_log|auto with sd]|intros _]).
  apply safe_caught; [| |intros _]; safe_auto.
Qed.
Lemma safe_cmd3 : safe (W := W) b cmd3_send_relative_addr.
Proof. unfold cmd3_send_relative_addr. safe_auto. Qed.
Lemma safe_cmd7 rca : safe (W := W) b (cmd7_select_card rca).
Proof. unfold cmd7_select_card. safe_auto. Qed.
#[local] Hint Resolve safe_cmd52_read safe_cmd52_write safe_cmd0 safe_cmd5 safe_cmd3 safe_cmd7 : sd.

Lemma safe_card_init : safe (W := W) b sdio_card_init.
Proof. unfold sdio_card_init, cmd5_ready. safe_auto. Qed.

Lemma safe_read_words words count : safe (W := W) b (read_words words count).
Proof.
  revert count. induction words as [|words IH]; intros count; cbn [read_words]; [apply safe_ret|].
  apply safe_bind; [apply safe_guarded; [apply safe_recover|apply safe_wait_buf]|intros _].
  safe_auto; apply IH.
Qed.
Lemma safe_write_words words buf : safe (W := W) b (write_words words buf).
Proof.
  revert buf. induction words as [|words IH]; intros buf; cbn [write_words]; [apply safe_ret|].
  apply safe_bind; [apply safe_guarded; [apply safe_recover|apply safe_wait_buf]|intros _].
  safe_auto; apply IH.
Qed.

Lemma safe_start write addr count len :
  (1 ≤ count ≤ CMD53_MAX_BYTES)%nat → (count ≤ len)%nat → safe (W := W) b (cmd53_start write addr count len).
Proof.
  intros Hc Hl. unfold cmd53_start. rewrite bool_decide_true by done. simpl negb. cbn iota.
  safe_auto. apply safe_guarded; auto with sd.
Qed.
Lemma safe_finish : safe (W := W) b cmd53_finish.
Proof.
  unfold cmd53_finish. apply safe_bind; [apply safe_guarded; auto with sd|intros _].
  safe_auto. apply safe_guarded; auto with sd.
Qed.
#[local] Hint Resolve safe_read_words safe_write_words safe_finish : sd.

Lemma safe_read_chunk addr n :
  (1 ≤ n ≤ CMD53_MAX_BYTES)%nat → safe (W := W) b (cmd53_read_chunk addr n n).
Proof.
  intros Hn. unfold cmd53_read_chunk, xfer_err_code.
  apply safe_bind; [by apply safe_start|intros _]. safe_auto.
Qed.
Lemma safe_write_chunk addr buf :
  (1 ≤ length buf ≤ CMD53_MAX_BYTES)%nat → safe (W := W) b (cmd53_write_chunk addr buf (length buf)).
Proof.
  intros Hn. unfold cmd53_write_chunk, xfer_err_code.
  apply safe_bind; [by apply safe_start|intros _]. safe_auto.
Qed.
End calls.
#[export] Hint Resolve safe_cmd52_read safe_cmd52_write safe_card_init : sd.

(** ** The block transfers give the DMA buffer back *)
Section blocks.
Context {W : Type} `{Board W}.

Lemma does_alloc k : (1 ≤ k ≤ 511)%nat → does (W := W) false true (alloc (k * BLOCKSIZE)).
Proof.
  intros Hk s (Hb & Hs). exists (), (set_dma_busy true s). unfold alloc.
  rewrite Hb, alloc_blocks by done. done.
Qed.

Lemma does_set_irqs : does (W := W) true true set_transfer_irqs_dma.
Proof.
  unfold set_transfer_irqs_dma. eapply does_bind; [apply does_read|intros v].
  eapply does_bind; [apply does_write|intros _; apply does_write].
Qed.

Lemma does_prepare write addr k h : does (W := W) true true (blocks_prepare write addr k h).
Proof.
  unfold blocks_prepare. do 3 (eapply does_bind; [by apply does_store|intros _]).
  do 2 (eapply does_bind; [apply does_write|intros _]). eapply does_bind; [apply does_set_irqs|intros _].
  do 2 (eapply does_bind; [apply does_write|intros _]). apply does_write8.
Qed.

Lemma does_issue c : does (W := W) true true (blocks_issue c).
Proof.
  unfold blocks_issue. do 2 (eapply does_bind; [by apply does_store|intros _]).
  eapply does_bind; [apply does_write16|intros _; apply does_write16].
Qed.

Lemma ends_leave l h r :
  match r with Ok _ => True | Err e => e ∈ sd_codes | Panic => False end →
  ends (W := W) true false (blocks_leave l h r).
Proof.
  intros Hr. unfold blocks_leave. eapply does_ends; [apply does_write|intros _].
  eapply (does_ends true false false); [apply does_store; by intros s (_ & ?)|intros _].
  apply safe_bind; [apply safe_guarded; [safe_auto|by apply safe_lift]|intros _]. apply safe_settle.
Qed.

Lemma safe_enter k len :
  (1 ≤ k ≤ 511)%nat → (k * BLOCKSIZE ≤ len)%nat → safe (W := W) false (blocks_enter (Z.of_nat k) len).
Proof.
  intros Hk Hl. unfold blocks_enter. rewrite Nat2Z.id, bool_decide_true by (split; [lia|done]).
  simpl negb. cbn iota. safe_auto.
Qed.

Lemma safe_write_blocks addr buf k :
  (1 ≤ k ≤ 511)%nat → (k * BLOCKSIZE ≤ length buf)%nat →
  safe (W := W) false (cmd53_write_blocks addr buf (Z.of_nat k)).
Proof.
  intros Hk Hl. unfold cmd53_write_blocks. apply safe_bind; [by apply safe_enter|intros _].
  rewrite Nat2Z.id. eapply (does_ends false true false); [by apply does_alloc|intros _].
  eapply does_ends; [by apply does_store|intros _]. eapply does_ends; [apply does_read|intros h].
  eapply does_ends; [apply does_prepare|intros _]. eapply does_ends; [apply does_log|intros _].
  eapply does_ends; [apply does_issue|intros _]. eapply does_ends; [apply does_log|intros _].
  apply try_then; [apply safe_wait_cmd_irq|intros r1 H1]. eapply does_ends; [apply does_log|intros _].
  apply try_then; [apply safe_bind; [by apply safe_lift|intros _; apply safe_wait_dma_irq]|intros r2 H2].
  eapply does_ends; [apply does_log|intros _].
  apply try_then; [apply safe_bind; [by apply safe_lift|intros _; safe_auto]|intros r3 H3].
  by apply ends_leave.
Qed.

Lemma safe_read_blocks addr k len :
  (1 ≤ k ≤ 511)%nat → (k * BLOCKSIZE ≤ len)%nat →
  safe (W := W) false (cmd53_read_blocks addr len (Z.of_nat k)).
Proof.
  intros Hk Hl. unfold cmd53_read_blocks. apply safe_bind; [by apply safe_enter|intros _].
  rewrite Nat2Z.id. eapply (does_ends false true false); [by apply does_alloc|intros _].
  eapply does_ends; [apply does_read|intros h]. eapply does_ends; [apply does_prepare|intros _].
  eapply does_ends; [apply does_issue|intros _].
  apply try_then; [safe_auto|intros r Hr]. eapply does_ends; [apply does_load|intros d].
  intros s Hs. apply (ends_leave [] h r Hr) in Hs as [H1 H2]. unfold mbind, st_bind.
  destruct (blocks_leave [] h r s) as [[[]|e|] s']; simpl in *; done.
Qed.

(** Commands that stay inside the transfer are safe one after the other. *)
Lemma safe_run_blocks {B} (block : nat → nat → nat → B → st (Sd W) B) cur size off ks x :
  (∀ off k x, (1 ≤ k ≤ 511)%nat → (off + k * cur ≤ size)%nat → safe false (block off k cur x)) →
  Forall (λ k, 1 ≤ k ≤ 511)%nat ks → (off + sum_list ks * cur ≤ size)%nat →
  safe false (run_blocks block cur off ks x).
Proof.
  intros Hb. revert off x. induction ks as [|k ks IH]; intros off x Hk Hs; cbn [run_blocks]; [apply safe_ret|].
  inversion Hk; subst. simpl in Hs. apply safe_bind; [apply Hb; [done|lia]|].
  intros y. apply IH; [done|lia].
Qed.
Lemma safe_run_bytes {B} (byte : nat → nat → B → st (Sd W) B) size off ns x :
  (∀ off n x, (1 ≤ n ≤ 512)%nat → (off + n ≤ size)%nat → safe false (byte off n x)) →
  Forall (λ n, 1 ≤ n ≤ 512)%nat ns → (off + sum_list ns ≤ size)%nat →
  safe false (run_bytes byte off ns x).
Proof.
  intros Hb. revert off x. induction ns as [|n ns IH]; intros off x Hn Hs; cbn [run_bytes]; [apply safe_ret|].
  inversion Hn; subst. simpl in Hs. apply safe_bind; [apply Hb; [done|lia]|].
  intros y. apply IH; [done|lia].
Qed.

Lemma safe_split {B} (block : nat → nat → nat → B → st (Sd W) B) byte multi cur size x :
  (1 ≤ cur)%nat →
  (∀ off k x, (1 ≤ k ≤ 511)%nat → (off + k * cur ≤ size)%nat → safe false (block off k cur x)) →
  (∀ off n x, (1 ≤ n ≤ 512)%nat → (off + n ≤ size)%nat → safe false (byte off n x)) →
  safe false (split block byte multi cur size x).
Proof.
  intros Hc Hb Hn s Hs. rewrite split_run by done.
  destruct (plan_covers multi cur size Hc) as (Hsum & Hks & Hns).
  revert s Hs. change (safe false
    (y ← run_blocks block cur 0 (plan_blocks multi cur size) x;
     run_bytes byte (sum_list (plan_blocks multi cur size) * cur) (plan_bytes multi cur size) y)).
  apply safe_bind; [apply (safe_run_blocks _ _ size); [done|done|lia]|].
  intros y. apply (safe_run_bytes _ size); [done|done|lia].
Qed.

Lemma safe_helper_read addr size : safe (W := W) false (sd_helper_read addr size).
Proof.
  unfold sd_helper_read. case_bool_decide; [apply safe_ret|]. apply safe_split; [unfold BLOCKSIZE; lia| |].
  - intros off k acc Hk _. apply safe_bind; [by apply safe_read_blocks|intros d; apply safe_ret].
  - intros off n acc Hn _. apply safe_bind; [by apply safe_read_chunk|intros d; apply safe_ret].
Qed.

Lemma safe_helper_write addr buf : safe (W := W) false (sd_helper_write addr buf).
Proof.
  unfold sd_helper_write. case_bool_decide; [apply safe_ret|]. apply safe_split; [unfold BLOCKSIZE; lia| |].
  - intros off k [] Hk Ho. rewrite slice_to_ok by lia.
    apply (safe_write_blocks addr); [done|]. rewrite length_slice. lia.
  - intros off n [] Hn Ho. rewrite slice_to_ok by lia.
    assert (L : length (slice off (off + n - off) buf) = n) by (rewrite length_slice; lia).
    pose proof (safe_write_chunk (W := W) false addr (slice off (off + n - off) buf)) as Hw.
    rewrite L in Hw. by apply Hw.
Qed.

(** C38 (safety): whatever the controller and the card do, every call the
    rest of the driver makes of the host ends without a panic, fails only with one
    of the controller's error codes, and gives the DMA buffer back: CMD52 reads
    and writes, transfers of any length (which the split keeps within the asserted
    limits of the CMD53 routines), and the enumeration of the card. *)
Theorem controller_calls_end (func reg val addr : Z) (n : nat) (buf : list Z) :
  safe (W := W) false (cmd52_read_func func reg) ∧
  safe (W := W) false (cmd52_write_func func reg val) ∧
  safe (W := W) false (host_read_block addr n) ∧
  safe (W := W) false (host_write_block addr buf) ∧
  safe (W := W) false sdio_card_init.
Proof.
  split; [apply safe_cmd52_read|]. split; [apply safe_cmd52_write|].
  split; [|split; [|apply safe_card_init]].
  - unfold host_read_block. case_bool_decide; [apply safe_ret|].
    apply safe_bind; [apply safe_helper_read|intros d; apply safe_ret].
  - unfold host_write_block. case_bool_decide; [apply safe_ret|].
    apply safe_bind; [apply safe_helper_write|intros _; apply safe_ret].
Qed.
End blocks.

(** ** The clock *)

(** C39 (bounds): the divisor is in the 8-bit field and gives the fastest
    clock that does not exceed the requested one, except below 735295 Hz, where the
    largest divisor gives 735294 Hz whatever was requested (so for the 400 kHz of
    the enumeration); a request above 1959983647 Hz overflows the 32-bit arithmetic. *)
Lemma clock_divisor_spec (clock_hz : Z) (Hc : 1 ≤ clock_hz < 2 ^ 32) :
  if bool_decide (clock_hz ≤ 1959983647) then
    ∃ d, clock_divisor clock_hz = Ok d ∧ 1 ≤ d ≤ 255 ∧
      (if bool_decide (735295 ≤ clock_hz) then
         INT_CARD_CLK_HZ ≤ 2 * d * clock_hz ∧ (∀ d', 1 ≤ d' < d → 2 * d' * clock_hz < INT_CARD_CLK_HZ)
       else d = 255 ∧ INT_CARD_CLK_HZ `div` (2 * d) = 735294)
  else clock_divisor clock_hz = Panic.
Proof.
  unfold clock_divisor, INT_CARD_CLK_HZ. case_bool_decide as Ho.
  - rewrite (bool_decide_true (2 * clock_hz < 2 ^ 32)) by lia. cbn [mbind res_bind].
    rewrite add_w_ok by lia. cbn [mbind res_bind]. set (q := (375000000 + 2 * clock_hz - 1) `div` (2 * clock_hz)).
    assert (Hq : 2 * clock_hz * q ≤ 375000000 + 2 * clock_hz - 1 < 2 * clock_hz * (q + 1)).
    { pose proof (Z.div_mod (375000000 + 2 * clock_hz - 1) (2 * clock_hz) ltac:(lia)).
      pose proof (Z.mod_pos_bound (375000000 + 2 * clock_hz - 1) (2 * clock_hz) ltac:(lia)). fold q in H. lia. }
    assert (1 ≤ q) by nia. eexists. split; [done|]. split; [lia|].
    case_bool_decide as Hl.
    + assert (q ≤ 255) by nia. replace (Z.max 1 (Z.min 255 q)) with q by lia.
      split; [nia|]. intros d' Hd. nia.
    + assert (255 ≤ q) by nia. replace (Z.max 1 (Z.min 255 q)) with 255 by lia.
      done.
  - unfold add_w. case_bool_decide; [|done]. cbn [mbind res_bind]. by rewrite bool_decide_false by lia.
Qed.

Lemma clock_divisor_spec_witness :
  clock_divisor 25000000 = Ok 8 ∧ clock_divisor 400000 = Ok 255 ∧ INT_CARD_CLK_HZ `div` (2 * 255) = 735294.
Proof.
  split; [reflexivity|]. split; [reflexivity|].
  destruct (clock_divisor_spec 400000 ltac:(lia)) as (d & E & _ & Hd & H). by rewrite Hd in H.
Defined.
