(* ===== verification/SdTrace.v ===== *)
(** * What goes over the bus: commands and FIFO words of [driver/bsp/src/sdio/backend.rs]

    A controller observed from outside ([Traced]): the commands started and the
    words that pass the data port, in order. The theorems hold for every
    controller and card behind it. *)

From S2P Require Import Prelude Host Sdhci SdHost SdCmd.
Import Fields Arg Split Dma.

Inductive event :=
  | Cmd (arg word : Z)        (* a command started with its argument *)
  | Multi (arg word : Z)      (* the same through the 16-bit command register *)
  | Out (word : Z)            (* a word into the data port *)
  | In (word : Z).            (* a word out of it *)

Record Traced (W : Type) := traced { inner : W; last_arg : Z; events : list event }.
Arguments traced {W}.
Arguments inner {W} _.
Arguments last_arg {W} _.
Arguments events {W} _.

#[export] Instance traced_board {W} `{Board W} : Board (Traced W) := {|
  rd := λ r t, let '(v, w) := rd r t.(inner) in
    (v, traced w t.(last_arg) (t.(events) ++ if bool_decide (r = BUF_DATA) then [In v] else []));
  wr := λ r v t,
    traced (wr r v t.(inner)) (if bool_decide (r = ARGUMENT) then v else t.(last_arg))
      (t.(events) ++ if bool_decide (r = XFER_MODE_AND_CMD) then [Cmd t.(last_arg) v]
                     else if bool_decide (r = BUF_DATA) then [Out v] else []);
  wr8 := λ r v t, traced (wr8 r v t.(inner)) t.(last_arg) t.(events);
  wr16 := λ r v t, traced (wr16 r v t.(inner)) t.(last_arg)
    (t.(events) ++ if bool_decide (r = COMMAND) then [Multi t.(last_arg) v] else []);
  dma_phys := dma_phys;
  dma_store := λ l t, traced (dma_store l t.(inner)) t.(last_arg) t.(events);
  dma_load := λ n t, dma_load n t.(inner);
  on_spin := λ t, let '(n, w) := on_spin t.(inner) in (n, traced w t.(last_arg) t.(events));
  on_sleep := λ ms t, let '(n, w) := on_sleep ms t.(inner) in (n, traced w t.(last_arg) t.(events));
  on_block := λ t, let '(n, w) := on_block t.(inner) in (n, traced w t.(last_arg) t.(events)) |}.

Section quiet.
Context {W : Type} `{Board W}.
Abbreviation S := (Sd (Traced W)).
Implicit Types s : S.

Definition evs s : list event := s.(machine).(events).

(** [quiet m]: [m] neither starts a command nor touches the data port. *)
Definition quiet {A} (m : st S A) : Prop := ∀ s, evs (m s).2 = evs s.

Lemma quiet_ret {A} (a : A) : quiet (mret a).
Proof. by intros s. Qed.
Lemma quiet_err {A} e : quiet (st_err (A := A) e).
Proof. by intros s. Qed.
Lemma quiet_lift {A} (r : res A) : quiet (st_lift r).
Proof. by intros s. Qed.
Lemma quiet_load {A} (g : S → A) : quiet (load g).
Proof. by intros s. Qed.
Lemma quiet_store g : (∀ s, evs (g s) = evs s) → quiet (store g).
Proof. intros Hg s. apply Hg. Qed.
Lemma quiet_bind {A C} (m : st S A) (k : A → st S C) : quiet m → (∀ a, quiet (k a)) → quiet (m ≫= k).
Proof.
  intros Hm Hk s. unfold mbind, st_bind. specialize (Hm s).
  destruct (m s) as [[a|e|] s']; simpl in *; [|done|done]. by rewrite (Hk a s').
Qed.
Lemma quiet_when c (m : st S ()) : quiet m → quiet (when c m).
Proof. destruct c; [done|]. intros _. apply quiet_ret. Qed.
Lemma quiet_poll {A} n (attempt : st S (option A)) pause after :
  quiet attempt → quiet pause → quiet after → quiet (poll n attempt pause after).
Proof.
  intros. induction n as [|n IH]; [done|]; cbn [poll]. apply quiet_bind; [done|].
  intros [a|]; [apply quiet_ret|]. by apply quiet_bind.
Qed.
Lemma quiet_try {A} (m : st S A) : quiet m → quiet (st_try m).
Proof. intros Hm s. unfold st_try. specialize (Hm s). by destruct (m s) as [[a|e|] s']. Qed.

Lemma quiet_guarded {A} (r : st S ()) (m : st S A) : quiet r → quiet m → quiet (guarded r m).
Proof.
  intros Hr Hm s. unfold guarded. specialize (Hm s). destruct (m s) as [[a|e|] s1]; simpl in *; [done| |done].
  rewrite <- Hm. apply (quiet_bind r); [done|]. intros. apply quiet_err.
Qed.

Lemma quiet_read r : r ≠ BUF_DATA → quiet (read_reg r).
Proof.
  intros Hr s. unfold read_reg, evs. simpl. destruct (rd r _). simpl. by rewrite bool_decide_false, app_nil_r.
Qed.
Lemma quiet_write r v : r ≠ BUF_DATA → r ≠ XFER_MODE_AND_CMD → quiet (write_reg r v).
Proof. intros Hr Hx s. unfold evs. simpl. by rewrite !bool_decide_false, app_nil_r. Qed.
Lemma quiet_log l : BUF_DATA ∉ l → quiet (log_regs l).
Proof.
  induction l as [|r l IH]; intros Hl; cbn [log_regs]; [apply quiet_ret|].
  apply quiet_bind; [apply quiet_read|intros _; apply IH]; set_solver.
Qed.
Lemma quiet_clock {A} (m : nat → st S A) (f : Traced W → nat * Traced W) :
  (∀ t, (f t).2.(events) = t.(events)) → (∀ n, quiet (m n)) →
  quiet (λ s, let '(n, w) := f s.(machine) in m n (set_machine w s)).
Proof.
  intros Hf Hm s. specialize (Hf s.(machine)). destruct (f (machine s)) as [n w]. rewrite (Hm n). exact Hf.
Qed.
End quiet.

Create HintDb quiet discriminated.
#[export] Hint Constants Opaque : quiet.

(** Follow the structure of a call, as [safe_auto] does. *)
Ltac quiet_step :=
  lazymatch goal with
  | |- quiet (_ ≫= _) => apply quiet_bind; [|intros ?]
  | |- quiet (mret _) => apply quiet_ret
  | |- quiet (load _) => apply quiet_load
  | |- quiet (st_err _) => apply quiet_err
  | |- quiet (st_lift _) => apply quiet_lift
  | |- quiet (st_try _) => apply quiet_try
  | |- quiet (read_reg _) => apply quiet_read; done
  | |- quiet (write_reg _ _) => apply quiet_write; done
  | |- quiet (log_regs _) => apply quiet_log; vm_compute; intros ?; set_solver
  | |- quiet (when _ _) => apply quiet_when
  | |- quiet (poll _ _ _ _) => apply quiet_poll
  | |- quiet (store _) => apply quiet_store; intros ?; done
  | |- quiet (if ?c then _ else _) => destruct c eqn:?
  | |- quiet (match ?o with Some _ => _ | None => _ end) => destruct o eqn:?
  | |- quiet _ => solve [auto 1 with quiet nocore]
  end.
Ltac quiet_auto := repeat quiet_step.

Section quiet_calls.
Context {W : Type} `{Board W}.
Abbreviation M A := (st (Sd (Traced W)) A).

Lemma quiet_notify q : quiet (notify_one q : M ()).
Proof. by destruct q; apply quiet_store. Qed.
#[local] Hint Resolve quiet_notify : quiet.

Lemma quiet_irq : quiet (handle_sdhci_host_irq : M ()).
Proof.
  unfold handle_sdhci_host_irq. induction MAX_IRQ_LOOPS as [|n IH]; cbn [irq_loop]; [apply quiet_ret|].
  unfold irq_round, irq_cmd, irq_data, irq_card, notify_sdio_irq_work. quiet_auto; exact IH.
Qed.
Lemma quiet_serve n : quiet (serve n : M ()).
Proof. induction n; cbn [serve]; [apply quiet_ret|]. apply quiet_bind; [apply quiet_irq|done]. Qed.
Lemma quiet_spin : quiet (spin_loop : M ()).
Proof. apply quiet_clock; [|apply quiet_serve]. intros t. simpl. by destruct (on_spin _). Qed.
Lemma quiet_sleep ms : quiet (sleep_ms ms : M ()).
Proof. apply quiet_clock; [|apply quiet_serve]. intros t. simpl. by destruct (on_sleep _ _). Qed.
#[local] Hint Resolve quiet_spin quiet_sleep : quiet.
Lemma quiet_spins n : quiet (spins n : M ()).
Proof. induction n; cbn [spins]; [apply quiet_ret|]. apply quiet_bind; [apply quiet_spin|done]. Qed.

Lemma quiet_clear : quiet (clear_int_status : M ()).
Proof. unfold clear_int_status. quiet_auto. Qed.
Lemma quiet_reset_cmd : quiet (reset_cmd_line : M ()).
Proof. unfold reset_cmd_line, bit_clear. quiet_auto. Qed.
Lemma quiet_reset_dat : quiet (reset_dat_line : M ()).
Proof. unfold reset_dat_line, bit_clear. quiet_auto. Qed.
#[local] Hint Resolve quiet_spins quiet_clear quiet_reset_cmd quiet_reset_dat : quiet.

Lemma quiet_wait_not_inhibit : quiet (wait_not_inhibit : M ()).
Proof. unfold wait_not_inhibit. quiet_auto. Qed.
Lemma quiet_wait_no_resp : quiet (wait_cmd_complete_no_resp : M ()).
Proof. unfold wait_cmd_complete_no_resp. quiet_auto. Qed.
Lemma quiet_wait_no_crc : quiet (wait_cmd_complete_no_crc : M ()).
Proof. unfold wait_cmd_complete_no_crc. quiet_auto. Qed.
Lemma quiet_wait_cmd : quiet (wait_cmd_complete : M ()).
Proof. unfold wait_cmd_complete, cmd_attempt. quiet_auto. Qed.
Lemma quiet_wait_buf i p : quiet (wait_buf_ready i p : M ()).
Proof. unfold wait_buf_ready. quiet_auto. Qed.
Lemma quiet_wait_xfer : quiet (wait_xfer_complete : M ()).
Proof. unfold wait_xfer_complete, poll_data. quiet_auto. Qed.
Lemma quiet_pending : quiet (process_sdio_pending_irqs_if_set : M bool).
Proof.
  unfold process_sdio_pending_irqs_if_set, enable_sdio_irq, sdio_signal_irq, notify_sdio_irq_work. quiet_auto.
Qed.
Lemma quiet_r5 r : quiet (check_r5 r : M ()).
Proof. unfold check_r5. quiet_auto. Qed.
End quiet_calls.
#[export] Hint Resolve quiet_spin quiet_sleep quiet_spins quiet_clear quiet_reset_cmd quiet_reset_dat
  quiet_wait_not_inhibit quiet_wait_no_resp quiet_wait_no_crc quiet_wait_cmd quiet_wait_buf
  quiet_wait_xfer quiet_pending quiet_r5 : quiet.

(** ** The events of a call that succeeds *)
Section gives.
Context {W : Type} `{Board W}.
Abbreviation S := (Sd (Traced W)).

(** [gives L m]: when [m] ends well with [a], the events it added satisfy [L a]. *)
Definition gives {A} (L : A → list event → Prop) (m : st S A) : Prop :=
  ∀ s a s', m s = (Ok a, s') → ∃ l, evs s' = evs s ++ l ∧ L a l.

Lemma gives_weaken {A} (L L' : A → list event → Prop) (m : st S A) :
  gives L m → (∀ a l, L a l → L' a l) → gives L' m.
Proof. intros Hm HL s a s' E. destruct (Hm s a s' E) as (l & ? & ?). eauto. Qed.
Lemma gives_quiet {A} (m : st S A) : quiet m → gives (λ _ l, l = []) m.
Proof. intros Hm s a s' E. exists []. rewrite app_nil_r. specialize (Hm s). rewrite E in Hm. done. Qed.
Lemma gives_ret {A} (a : A) : gives (λ a' l, a' = a ∧ l = []) (mret a).
Proof. intros s a' s' E. unfold mret, st_ret in E. simplify_eq. exists []. by rewrite app_nil_r. Qed.

Lemma gives_bind {A C} (L1 : A → list event → Prop) (L2 : A → C → list event → Prop)
    (m : st S A) (k : A → st S C) :
  gives L1 m → (∀ a, gives (L2 a) (k a)) →
  gives (λ c l, ∃ a l1 l2, l = l1 ++ l2 ∧ L1 a l1 ∧ L2 a c l2) (m ≫= k).
Proof.
  intros Hm Hk s c s' E. unfold mbind, st_bind in E.
  destruct (m s) as [[a|e|] s1] eqn:E1; [|done|done].
  destruct (Hm _ _ _ E1) as (l1 & H1 & ?). destruct (Hk a _ _ _ E) as (l2 & H2 & ?).
  exists (l1 ++ l2). rewrite H2, H1, <- app_assoc. eauto 10.
Qed.

(** The two common cases: a quiet call first, and a call with known events first. *)
Lemma gives_after {A C} (L : C → list event → Prop) (m : st S A) (k : A → st S C) :
  quiet m → (∀ a, gives L (k a)) → gives L (m ≫= k).
Proof.
  intros Hm Hk. eapply gives_weaken; [apply gives_bind; [by apply gives_quiet|exact Hk]|].
  by intros c l (a & l1 & l2 & -> & -> & ?).
Qed.
Lemma gives_cons {A C} (l1 : list event) (L : C → list event → Prop) (m : st S A) (k : A → st S C) :
  gives (λ _ l, l = l1) m → (∀ a, gives L (k a)) → gives (λ c l, ∃ l2, l = l1 ++ l2 ∧ L c l2) (m ≫= k).
Proof.
  intros Hm Hk. eapply gives_weaken; [apply gives_bind; [exact Hm|exact Hk]|].
  intros c l (a & l' & l2 & -> & -> & ?). eauto.
Qed.

Lemma gives_guarded {A} (L : A → list event → Prop) r (m : st S A) : gives L m → gives L (guarded r m).
Proof.
  intros Hm s a s' E. unfold guarded in E. destruct (m s) as [[b|e|] s1] eqn:E1; [|exfalso|done].
  - apply (Hm s). by rewrite E1.
  - unfold mbind, st_bind in E. by destruct (r s1) as [[[]|e'|] s2].
Qed.

Lemma gives_send arg word : gives (λ _ l, l = [Cmd arg word]) (send_command arg word : st S ()).
Proof.
  intros s a s' E. unfold send_command, write_reg, store, mbind, st_bind in E.
  injection E as <- <-. exists [Cmd arg word]. split; [|done].
  unfold evs, set_machine, machine, wr, traced_board, events, last_arg.
  cbv -[app events]. by rewrite app_nil_r.
Qed.

(** A poll that sends one command per attempt and fails when it runs out. *)
Lemma gives_poll {A} (ev : event) n (attempt : st S (option A)) pause after :
  gives (λ _ l, l = [ev]) attempt → quiet pause → gives (λ _ _, False) after →
  gives (λ _ l, ∃ k, (1 ≤ k ≤ n)%nat ∧ l = replicate k ev) (poll n attempt pause after).
Proof.
  intros Ha Hp Hf. induction n as [|n IH]; cbn [poll].
  - eapply gives_weaken; [exact Hf|]. done.
  - eapply gives_weaken.
    + apply (gives_cons [ev] (λ _ l, l = [] ∨ ∃ k, (1 ≤ k ≤ n)%nat ∧ l = replicate k ev)); [exact Ha|].
      intros [a|].
      * eapply gives_weaken; [apply gives_ret|]. intros ? ? [_ ->]. by left.
      * apply gives_after; [done|intros _]. eapply gives_weaken; [exact IH|]. by right.
    + simpl. intros _ l (l2 & -> & [->|(k & Hk & ->)]); [exists 1%nat|exists (Datatypes.S k)]; (split; [lia|done]).
Qed.

Lemma gives_false {A} e : gives (λ _ _, False) (st_err e : st S A).
Proof. by intros s a s' E. Qed.
Lemma gives_panic {A} (L : A → list event → Prop) : gives L (st_lift Panic : st S A).
Proof. by intros s a s' E. Qed.
End gives.

(** ** The enumeration *)
Section enumeration.
Context {W : Type} `{Board W}.
Abbreviation S := (Sd (Traced W)).

Lemma gives_cmd0 : gives (λ _ l, l = [Cmd 0 CMD0_XFER_MODE]) (cmd0_go_idle : st S ()).
Proof.
  unfold cmd0_go_idle. do 4 (apply gives_after; [quiet_auto|intros _]).
  eapply gives_weaken; [eapply (gives_cons _ (λ _ l, l = [])); [apply gives_send|intros _]|].
  - apply gives_quiet. quiet_auto.
  - by intros a l (l2 & -> & ->).
Qed.
Lemma gives_cmd5 arg : gives (λ _ l, l = [Cmd arg CMD5_XFER_MODE]) (cmd5_io_send_op_cond arg : st S Z).
Proof.
  unfold cmd5_io_send_op_cond. do 2 (apply gives_after; [quiet_auto|intros _]).
  eapply gives_weaken; [eapply (gives_cons _ (λ _ l, l = [])); [apply gives_send|intros _]|].
  - apply gives_quiet. quiet_auto.
  - by intros a l (l2 & -> & ->).
Qed.
Lemma gives_cmd3 : gives (λ _ l, l = [Cmd 0 CMD3_XFER_MODE]) (cmd3_send_relative_addr : st S Z).
Proof.
  unfold cmd3_send_relative_addr. apply gives_after; [quiet_auto|intros _].
  eapply gives_weaken; [eapply (gives_cons _ (λ _ l, l = [])); [apply gives_send|intros _]|].
  - apply gives_quiet. quiet_auto.
  - by intros a l (l2 & -> & ->).
Qed.
Lemma gives_cmd7 rca :
  gives (λ _ l, l = [Cmd (wrap 32 (Z.shiftl rca 16)) CMD7_XFER_MODE]) (cmd7_select_card rca : st S ()).
Proof.
  unfold cmd7_select_card. apply gives_after; [quiet_auto|intros _].
  eapply gives_weaken; [eapply (gives_cons _ (λ _ l, l = [])); [apply gives_send|intros _]|].
  - apply gives_quiet. quiet_auto.
  - by intros a l (l2 & -> & ->).
Qed.

Lemma gives_ready ocr :
  gives (λ _ l, ∃ k, (1 ≤ k ≤ 100)%nat ∧ l = replicate k (Cmd (Z.land ocr 0x00FFFF00) CMD5_XFER_MODE))
        (cmd5_ready ocr : st S ()).
Proof.
  unfold cmd5_ready. apply gives_poll; [|quiet_auto|apply gives_false].
  eapply gives_weaken; [eapply (gives_cons _ (λ _ l, l = [])); [apply gives_cmd5|intros r]|].
  - apply gives_quiet. quiet_auto.
  - by intros a l (l2 & -> & ->).
Qed.

(** An enumeration that succeeds has put exactly the
    sequence SDIO asks for on the bus: CMD0, CMD5 to learn the voltages, CMD5 with
    the card's own voltages until it is ready (at most 100 times), CMD3, and CMD7
    with the address CMD3 gave, which is also the result. *)
Lemma enumeration_sequence (s s' : S) (rca : Z) (E : sdio_card_init s = (Ok rca, s')) :
  ∃ ocr k, (1 ≤ k ≤ 100)%nat ∧ ocr ≠ 0 ∧
    evs s' = evs s ++ [Cmd 0 CMD0_XFER_MODE; Cmd 0 CMD5_XFER_MODE] ++
      replicate k (Cmd (Z.land ocr 0x00FFFF00) CMD5_XFER_MODE) ++
      [Cmd 0 CMD3_XFER_MODE; Cmd (wrap 32 (Z.shiftl rca 16)) CMD7_XFER_MODE].
Proof.
  assert (G : gives (λ rca l, ∃ ocr k, (1 ≤ k ≤ 100)%nat ∧ ocr ≠ 0 ∧
    l = [Cmd 0 CMD0_XFER_MODE; Cmd 0 CMD5_XFER_MODE] ++
      replicate k (Cmd (Z.land ocr 0x00FFFF00) CMD5_XFER_MODE) ++
      [Cmd 0 CMD3_XFER_MODE; Cmd (wrap 32 (Z.shiftl rca 16)) CMD7_XFER_MODE]) (sdio_card_init : st S Z)).
  { unfold sdio_card_init. do 2 (apply gives_after; [quiet_auto|intros _]).
    eapply gives_weaken.
    { eapply gives_cons; [apply gives_cmd0|intros _]. apply gives_after; [quiet_auto|intros _].
      eapply gives_bind; [apply gives_cmd5|intros ocr].
      instantiate (1 := λ ocr rca l, ocr ≠ 0 ∧ ∃ k, (1 ≤ k ≤ 100)%nat ∧
        l = replicate k (Cmd (Z.land ocr 0x00FFFF00) CMD5_XFER_MODE) ++
            [Cmd 0 CMD3_XFER_MODE; Cmd (wrap 32 (Z.shiftl rca 16)) CMD7_XFER_MODE]).
      cbv beta. case_bool_decide as Eo; [by intros ? ? ? ?|].
      eapply gives_weaken.
      { eapply gives_bind; [apply gives_ready|intros u]. eapply gives_bind; [apply gives_cmd3|intros r].
        eapply gives_cons; [apply gives_cmd7|intros _; apply gives_ret]. }
      cbv beta. intros a l (_ & l1 & l2 & -> & (k & Hk & ->) & r & l3 & l4 & -> & -> & l5 & -> & -> & ->).
      split; [done|]. exists k. split; [done|]. by rewrite app_nil_r. }
    cbv beta. intros a l (l2 & -> & ocr & l3 & l4 & -> & -> & Ho & k & Hk & ->). exists ocr, k. by split. }
  destruct (G s rca s' E) as (l & Hl & ocr & k & Hk & Ho & ->). exists ocr, k. by split.
Qed.
End enumeration.

(** ** The words of a FIFO transfer *)

(** The words of a buffer, and the bytes of a run of words. *)
Fixpoint words_of (words : nat) (buf : list Z) : list Z :=
  match words with
  | O => []
  | S words => word_of 0 (take 4 buf) :: words_of words (drop 4 buf)
  end.
Fixpoint bytes_of (ws : list Z) (count : nat) : list Z :=
  match ws with
  | [] => []
  | w :: ws => word_bytes (Nat.min 4 count) w ++ bytes_of ws (count - 4)
  end.

Section words.
Lemma word_of_le j l :
  bytes_ok l → word_of j l = of_le l * 2 ^ (8 * Z.of_nat j) ∧ 0 ≤ of_le l < 256 ^ Z.of_nat (length l).
Proof.
  intros Hl. split; [|by apply of_le_range]. revert j. induction Hl as [|x l Hx Hl IH]; intros j.
  { done. }
  cbn [word_of of_le]. rewrite IH. rewrite Z.shiftl_mul_pow2 by lia.
  replace (of_le l * 2 ^ (8 * Z.of_nat (S j))) with (Z.shiftl (of_le l) 8 * 2 ^ (8 * Z.of_nat j)).
  2: { rewrite Z.shiftl_mul_pow2, Nat2Z.inj_succ by lia.
       replace (8 * Z.succ (Z.of_nat j)) with (8 + 8 * Z.of_nat j) by lia. rewrite Z.pow_add_r by lia. lia. }
  rewrite <- !Z.shiftl_mul_pow2, <- Z.shiftl_lor by lia. f_equal.
  rewrite lor_shiftl_add; unfold in_range; lia.
Qed.

Lemma word_bytes_to_le k w : word_bytes k w = to_le k w.
Proof.
  unfold word_bytes. revert w. induction k as [|k IH]; intros w; [done|].
  cbn [seq to_le]. rewrite <- fmap_S_seq, fmap_cons, <- list_fmap_compose. f_equal.
  rewrite <- IH. apply list_fmap_ext. intros i j _. unfold compose. f_equal.
  rewrite !Z.shiftr_div_pow2 by lia. rewrite Nat2Z.inj_succ.
  replace (8 * Z.succ (Z.of_nat j)) with (8 + 8 * Z.of_nat j) by lia.
  rewrite Z.pow_add_r, Z.div_div by lia. done.
Qed.

Lemma words_round l :
  bytes_ok l → ∀ n, length l = n → bytes_of (words_of ((n + 3) / 4) l) n = l.
Proof.
  intros Hl n. remember ((n + 3) / 4)%nat as words eqn:Hw. revert l n Hl Hw.
  induction words as [|words IH]; intros l n Hl Hw Hn.
  { assert (n = 0)%nat by nat_div. destruct l; [done|simpl in *; lia]. }
  cbn [words_of bytes_of]. destruct (word_of_le 0 (take 4 l) ltac:(by apply Forall_take)) as [-> Hr].
  rewrite Z.mul_1_r, word_bytes_to_le.
  assert (L4 : length (take 4 l) = Nat.min 4 n) by (rewrite length_take; lia).
  rewrite <- L4, to_le_of_le by (by apply Forall_take).
  rewrite IH; [by rewrite take_drop|by apply Forall_drop|nat_div|rewrite length_drop; lia].
Qed.
End words.

Section chunks.
Context {W : Type} `{Board W}.
Abbreviation S := (Sd (Traced W)).

Lemma gives_write_words words buf :
  gives (λ _ l, l = Out <$> words_of words buf) (write_words words buf : st S ()).
Proof.
  revert buf. induction words as [|words IH]; intros buf; cbn [write_words words_of].
  { eapply gives_weaken; [apply gives_ret|]. by intros ? ? [_ ->]. }
  apply gives_after; [|intros _; apply gives_after; [quiet_auto|intros ist; apply gives_after; [quiet_auto|intros _]]].
  { apply quiet_guarded; unfold recover_dat, wait_buf_wr_ready; quiet_auto. }
  eapply gives_weaken; [eapply (gives_cons [Out (word_of 0 (take 4 buf))]); [|intros _; apply IH]|].
  - intros s a s' E. unfold write_reg, store in E. injection E as <- <-.
    exists [Out (word_of 0 (take 4 buf))]. split; [|done]. unfold evs. simpl. done.
  - intros a l (l2 & -> & ->). done.
Qed.

Lemma quiet_buf_rd : quiet (guarded recover_dat wait_buf_rd_ready : st S ()).
Proof. apply quiet_guarded; unfold recover_dat, wait_buf_rd_ready; quiet_auto. Qed.

Lemma gives_read_words words count :
  gives (λ data l, ∃ ws, l = In <$> ws ∧ length ws = words ∧ data = bytes_of ws count)
        (read_words words count : st S (list Z)).
Proof.
  revert count. induction words as [|words IH]; intros count; cbn [read_words].
  { eapply gives_weaken; [apply gives_ret|]. intros ? ? [-> ->]. by exists []. }
  apply gives_after; [apply quiet_buf_rd|intros _]. apply gives_after; [quiet_auto|intros ist].
  apply gives_after; [quiet_auto|intros _].
  eapply gives_weaken.
  - eapply (gives_bind (λ w l, l = [In w])).
    + intros s a s' E. unfold read_reg in E. simpl in E. destruct (rd BUF_DATA _) as [v w] eqn:R.
      injection E as <- <-. by exists [In v].
    + intros w. eapply gives_bind; [apply IH|intros rest; apply gives_ret].
  - cbv beta. intros data l (w & l1 & l2 & -> & -> & rest & l3 & l4 & -> & (ws & -> & Hl & ->) & -> & ->).
    exists (w :: ws). rewrite app_nil_r. split; [done|]. split; [simpl; by rewrite Hl|done].
Qed.

(** The command a chunk starts with. *)
Definition chunk_cmd (write : bool) (addr : Z) (count : nat) : event :=
  Cmd (mmc_io_rw_extended_arg_byte write (Z.land (Z.shiftr addr 8) 7) (Z.land addr 0xFF) false (Z.of_nat count))
      (if write then CMD53_WRITE_XFER_MODE else CMD53_READ_XFER_MODE).

Lemma gives_start write addr count len :
  gives (λ _ l, l = [chunk_cmd write addr count]) (cmd53_start write addr count len : st S ()).
Proof.
  unfold cmd53_start. destruct (negb _); [apply gives_panic|].
  apply gives_after; [quiet_auto|intros _]. apply gives_after; [quiet_auto|intros [|]]; [by intros ? ? ? ?|].
  apply gives_after; [quiet_auto|intros _].
  eapply gives_weaken; [eapply (gives_cons [chunk_cmd write addr count] (λ _ l, l = [])); [apply gives_send|intros _]|].
  - apply gives_quiet, quiet_guarded; unfold recover_dat; quiet_auto.
  - by intros a l (l2 & -> & ->).
Qed.

Lemma quiet_finish : quiet (cmd53_finish : st S ()).
Proof.
  unfold cmd53_finish, settle.
  apply quiet_bind; [apply quiet_guarded; unfold recover_dat; quiet_auto|intros _].
  apply quiet_bind; [quiet_auto|intros r].
  apply quiet_bind; [apply quiet_guarded; unfold recover_dat; quiet_auto|intros _]. quiet_auto.
Qed.

(** A CMD53 in byte mode that succeeds has put the command with
    the function, register and count of the transfer on the bus and then, for a
    write, the buffer's bytes as little-endian words, from which the bytes can be
    read back; a read returns the bytes of the words that came out of the port, as
    many as were asked for. *)
Lemma fifo_chunks (addr : Z) (buf : list Z) (count : nat) (s s' : S) (Hb : bytes_ok buf)
    (Hn : (count ≤ length buf)%nat) :
  (cmd53_write_chunk addr buf count s = (Ok (), s') →
     ∃ ws, evs s' = evs s ++ chunk_cmd true addr count :: (Out <$> ws) ∧
           length ws = ((count + 3) / 4)%nat ∧ bytes_of ws count = take count buf) ∧
  (∀ data, cmd53_read_chunk addr count count s = (Ok data, s') →
     ∃ ws, evs s' = evs s ++ chunk_cmd false addr count :: (In <$> ws) ∧
           length ws = ((count + 3) / 4)%nat ∧ data = bytes_of ws count).
Proof.
  split.
  - intros E. set (ws := words_of ((count + 3) / 4) (take count buf)).
    assert (G : gives (λ _ l, l = chunk_cmd true addr count :: (Out <$> ws))
                  (cmd53_write_chunk addr buf count : st S ())).
    { unfold cmd53_write_chunk. eapply gives_weaken.
      - eapply (gives_cons _ (λ _ l, l = Out <$> ws)); [apply gives_start|intros _].
        apply gives_after; [quiet_auto|intros sts]. apply gives_after; [quiet_auto|intros _].
        apply gives_after; [quiet_auto|intros _]. apply gives_after; [quiet_auto|intros sts2].
        destruct (has sts2 _); [apply gives_after; [unfold recover_dat; quiet_auto|by intros _ ? ? ?]|].
        eapply gives_weaken; [eapply (gives_cons _ (λ _ l, l = [])); [apply gives_write_words|intros _]|].
        + apply gives_quiet, quiet_finish.
        + intros a l (l2 & -> & ->). by rewrite app_nil_r.
      - by intros a l (l2 & -> & ->). }
    destruct (G s () s' E) as (l & Hl & ->). exists ws. split; [exact Hl|]. split.
    + unfold ws. clear. generalize (take count buf). induction ((count + 3) / 4)%nat as [|k IH]; intros l; [done|].
      simpl. by rewrite IH.
    + apply words_round; [by apply Forall_take|]. rewrite length_take. lia.
  - intros data E.
    assert (G : gives (λ data l, ∃ ws, l = chunk_cmd false addr count :: (In <$> ws) ∧
                  length ws = ((count + 3) / 4)%nat ∧ data = bytes_of ws count)
                  (cmd53_read_chunk addr count count : st S (list Z))).
    { unfold cmd53_read_chunk. eapply gives_weaken.
      - eapply gives_cons; [apply gives_start|intros _].
        apply gives_after; [quiet_auto|intros sts]. apply gives_after; [quiet_auto|intros _].
        instantiate (1 := λ data l, ∃ ws, l = In <$> ws ∧ length ws = ((count + 3) / 4)%nat ∧ data = bytes_of ws count).
        cbv beta. destruct (has sts _).
        { apply gives_after; [quiet_auto|intros _]. apply gives_after; [unfold recover_dat; quiet_auto|].
          by intros _ ? ? ?. }
        eapply gives_weaken.
        + eapply gives_bind; [apply gives_read_words|intros d]. apply gives_after; [apply quiet_finish|intros _].
          apply gives_ret.
        + cbv beta. intros d l (d0 & l1 & l2 & -> & (ws & -> & Hw & ->) & -> & ->).
          exists ws. by rewrite app_nil_r.
      - cbv beta. intros d l (l2 & -> & ws & -> & Hw & ->). by exists ws. }
    destruct (G s data s' E) as (l & Hl & ws & -> & Hw & ->). by exists ws.
Qed.
End chunks.

(** ** A controller and a card to evaluate on

    Commands complete at once, or ([late]) a millisecond later; [wired] says whether
    the controller's interrupt reaches the handler. The data port holds as many
    words as the block size asks for. *)
Module SimSd.
Record t := mk { int : Z; resp : Z; blk : Z; left : nat; rx : list Z; late : bool; wired : bool; due : bool }.
Definition reset (rx : list Z) (late wired : bool) : t := mk 0 0 0 0 rx late wired false.

Definition ready_bits (left : nat) : Z := if bool_decide (left = 0)%nat then INT_DATA_END else Z.lor BUF_WRDY BUF_RRDY.
(** One word has passed the port. *)
Definition pass (rx : list Z) (c : t) : t :=
  match c.(left) with
  | O => c
  | S n => mk (Z.lor (Z.ldiff c.(int) (Z.lor BUF_WRDY BUF_RRDY)) (ready_bits n)) c.(resp) c.(blk) n rx c.(late) c.(wired) c.(due)
  end.
Definition answer (index : Z) : Z :=
  if bool_decide (index = 5) then 0x80FF8000 else if bool_decide (index = 3) then 0x12340000 else 0x2020.
Definition start (word : Z) (c : t) : t :=
  let index := Z.shiftr word 24 in
  let data := bool_decide (index = 53) in
  let n := if data then ((Z.to_nat (Z.land c.(blk) 0xFFF) + 3) / 4)%nat else O in
  let bits := if data then Z.lor BUF_WRDY BUF_RRDY else 0 in
  mk (Z.lor c.(int) (if c.(late) then bits else Z.lor INT_RESPONSE bits)) (answer index) c.(blk) n c.(rx)
     c.(late) c.(wired) c.(late).

#[export] Instance board : Board t := {|
  rd := λ r c,
    if bool_decide (r = NORM_AND_ERR_INT_STS) then (c.(int), c)
    else if bool_decide (r = RESP31_0) then (c.(resp), c)
    else if bool_decide (r = BUF_DATA) then (default 0 (head c.(rx)), pass (tail c.(rx)) c)
    else if bool_decide (r = CLK_CTL_SWRST) then (2, c)
    else (0, c);
  wr := λ r v c,
    if bool_decide (r = NORM_AND_ERR_INT_STS) then
      mk (Z.lor (Z.ldiff c.(int) v) (if bool_decide (c.(left) = 0)%nat then 0 else Z.lor BUF_WRDY BUF_RRDY))
         c.(resp) c.(blk) c.(left) c.(rx) c.(late) c.(wired) c.(due)
    else if bool_decide (r = BLK_SIZE_AND_CNT) then mk c.(int) c.(resp) v c.(left) c.(rx) c.(late) c.(wired) c.(due)
    else if bool_decide (r = XFER_MODE_AND_CMD) then start v c
    else if bool_decide (r = BUF_DATA) then pass c.(rx) c
    else c;
  wr8 := λ _ _ c, c;
  wr16 := λ _ _ c, c;
  dma_phys := 0x80000000;
  dma_store := λ _ c, c;
  dma_load := λ n _, zeros n;
  on_spin := λ c, (0%nat, c);
  on_sleep := λ _ c,
    if c.(due) then
      (if c.(wired) then 1%nat else 0%nat,
       mk (Z.lor c.(int) INT_RESPONSE) c.(resp) c.(blk) c.(left) c.(rx) c.(late) c.(wired) false)
    else (0%nat, c);
  on_block := λ c, (0%nat, c) |}.

Definition idle {W} (w : W) : Sd W := mkSd w false false false false 0 0 0 0 0 false false 0.
Definition watched (c : t) : Sd (Traced t) := idle (traced c 0 []).
End SimSd.
#[local] Existing Instance SimSd.board.

(** The interrupt handler clears the completion of every
    command it sees, also of one whose completion is being polled for: the same
    CMD52, answered by the card a millisecond after it was sent, succeeds while the
    interrupt is not taken and times out with [-110] when it is. *)
Lemma polled_command_lost :
  (sd_cmd52_read_func 0 0x05 (SimSd.idle (SimSd.reset [] true false))).1 = Ok 0x20 ∧
  (sd_cmd52_read_func 0 0x05 (SimSd.idle (SimSd.reset [] true true))).1 = Err (-110).
Proof. split; vm_compute; reflexivity. Qed.

Lemma enumeration_sequence_witness :
  ∃ ocr k, (1 ≤ k ≤ 100)%nat ∧ ocr ≠ 0 ∧
    evs (sdio_card_init (SimSd.watched (SimSd.reset [] false true))).2 =
      [] ++ [Cmd 0 CMD0_XFER_MODE; Cmd 0 CMD5_XFER_MODE] ++
      replicate k (Cmd (Z.land ocr 0x00FFFF00) CMD5_XFER_MODE) ++
      [Cmd 0 CMD3_XFER_MODE; Cmd (wrap 32 (Z.shiftl 0x1234 16)) CMD7_XFER_MODE].
Proof.
  refine (enumeration_sequence (SimSd.watched (SimSd.reset [] false true))
    (sdio_card_init (SimSd.watched (SimSd.reset [] false true))).2 0x1234 _).
  vm_compute. reflexivity.
Defined.

Lemma fifo_chunks_witness :
  (∃ ws, evs (cmd53_write_chunk 0x107 [1; 2; 3; 4; 5] 5 (SimSd.watched (SimSd.reset [] false true))).2 =
           [] ++ chunk_cmd true 0x107 5 :: (Out <$> ws) ∧ length ws = 2%nat ∧ bytes_of ws 5 = [1; 2; 3; 4; 5]) ∧
  (cmd53_read_chunk 0x108 5 5 (SimSd.watched (SimSd.reset [0x04030201; 5] false true))).1 = Ok [1; 2; 3; 4; 5].
Proof.
  split.
  - refine (proj1 (fifo_chunks 0x107 [1; 2; 3; 4; 5] 5 (SimSd.watched (SimSd.reset [] false true)) _ _ _) _).
    + repeat constructor; lia.
    + simpl. lia.
    + vm_compute. reflexivity.
  - vm_compute. reflexivity.
Defined.
