(* ===== verification/SdioOps.v ===== *)
(** * The chip's SDIO interface: [driver/bsp/src/sdio/ops.rs]

    [SdioOps] is the trait the rest of the driver is written against; its default
    methods are the [default_*] definitions.  [CisReadOps] and [Aic8800Sdio] are
    its two implementations over a host. *)

From S2P Require Import Prelude Chip Host.

(** driver/bsp/src/sdio/ops.rs:10-10 [FUNC1_BASE] *)
Definition FUNC1_BASE : Z := 0x100.
(** driver/bsp/src/sdio/ops.rs:11-11 [FUNC2_BASE] *)
Definition FUNC2_BASE : Z := 0x200.
(** driver/bsp/src/sdio/ops.rs:13-13 [FUNC2_MSG_ADDR_OFFSET] *)
Definition FUNC2_MSG_ADDR_OFFSET : Z := 7.
(** driver/bsp/src/sdio/ops.rs:17-17 [FLOW_CTRL_RETRY_COUNT] *)
Definition FLOW_CTRL_RETRY_COUNT : nat := 50.
(** driver/bsp/src/sdio/ops.rs:19-19 [BUFFER_SIZE] *)
Definition BUFFER_SIZE : nat := 1536.

(** driver/bsp/src/sdio/ops.rs:23-86 [SdioOps] *)
Class SdioOps (W : Type) := mkOps {
  writeb : Z → Z → st W ();
  readb : Z → st W Z;
  readb_func2 : Z → st W Z;
  writeb_func2 : Z → Z → st W ();
  read_byte : Z → st W Z;
  read_byte_f0 : Z → st W Z;
  read_byte_at_func : Z → Z → st W Z;
  write_byte : Z → Z → st W ();
  (* the buffer afterwards and the count *)
  recv_pkt : list Z → Z → Z → st W (list Z * nat);
  send_pkt : list Z → nat → st W nat;
  send_msg : list Z → nat → st W nat;
  read_block : Z → list Z → st W (list Z * nat);
  write_block : Z → list Z → st W nat;
}.

(** ** The default methods *)
Section defaults.
Context {W : Type}.

(** driver/bsp/src/sdio/ops.rs:37-45 [SdioOps::read_byte] *)
Definition default_read_byte (readb readb_func2 : Z → st W Z) (addr : Z) : st W Z :=
  let func := Z.land (Z.shiftr addr 8) 7 in
  let offset := Z.land addr 0xFF in
  match func with
  | 1 => readb offset
  | 2 => readb_func2 offset
  | _ => st_err (-22)
  end.

(** driver/bsp/src/sdio/ops.rs:55-63 [SdioOps::write_byte] *)
Definition default_write_byte (writeb writeb_func2 : Z → Z → st W ()) (addr val : Z) : st W () :=
  let func := Z.land (Z.shiftr addr 8) 7 in
  let offset := Z.land addr 0xFF in
  match func with
  | 1 => writeb offset val
  | 2 => writeb_func2 offset val
  | _ => st_err (-22)
  end.

(** driver/bsp/src/sdio/ops.rs:73-78 [SdioOps::read_block], the loop from byte [i] *)
Fixpoint default_read_loop (read_byte : Z → st W Z) (addr i : Z) (n : nat) : st W (list Z) :=
  match n with
  | O => mret []
  | S n =>
      b ← read_byte (wrap 32 (addr + i));
      rest ← default_read_loop read_byte addr (i + 1) n;
      mret (b :: rest)
  end.

(** driver/bsp/src/sdio/ops.rs:73-78 [SdioOps::read_block] *)
Definition default_read_block (read_byte : Z → st W Z) (addr : Z) (buf : list Z) :
    st W (list Z * nat) :=
  l ← default_read_loop read_byte addr 0 (length buf); mret (l, length buf).

(** driver/bsp/src/sdio/ops.rs:80-85 [SdioOps::write_block], the loop from byte [i] *)
Fixpoint default_write_loop (write_byte : Z → Z → st W ()) (addr i : Z) (buf : list Z) : st W () :=
  match buf with
  | [] => mret ()
  | b :: buf =>
      _ ← write_byte (wrap 32 (addr + i)) b;
      default_write_loop write_byte addr (i + 1) buf
  end.

(** driver/bsp/src/sdio/ops.rs:80-85 [SdioOps::write_block] *)
Definition default_write_block (write_byte : Z → Z → st W ()) (addr : Z) (buf : list Z) : st W nat :=
  _ ← default_write_loop write_byte addr 0 buf; mret (length buf).
End defaults.

(** ** The implementations over a host *)
Section impls.
Context {W : Type} `{SdioHost W} `{Clock W}.

(** driver/bsp/src/sdio/ops.rs:102-104 [CisReadOps::readb], also driver/bsp/src/sdio/ops.rs:221-223 [Aic8800Sdio::readb] *)
Definition func1_readb (regaddr : Z) : st W Z :=
  a ← st_lift (add_w 32 FUNC1_BASE regaddr); host_read_byte a.

(** driver/bsp/src/sdio/ops.rs:217-219 [Aic8800Sdio::writeb], also driver/bsp/src/sdio/ops.rs:105-107 [CisReadOps::writeb] *)
Definition func1_writeb (regaddr val : Z) : st W () :=
  a ← st_lift (add_w 32 FUNC1_BASE regaddr); host_write_byte a val.

(** driver/bsp/src/sdio/ops.rs:225-227 [Aic8800Sdio::readb_func2], also driver/bsp/src/sdio/ops.rs:108-110 [CisReadOps::readb_func2] *)
Definition func2_readb (regaddr : Z) : st W Z :=
  a ← st_lift (add_w 32 FUNC2_BASE regaddr); host_read_byte a.

(** driver/bsp/src/sdio/ops.rs:229-231 [Aic8800Sdio::writeb_func2], also driver/bsp/src/sdio/ops.rs:111-113 [CisReadOps::writeb_func2] *)
Definition func2_writeb (regaddr val : Z) : st W () :=
  a ← st_lift (add_w 32 FUNC2_BASE regaddr); host_write_byte a val.

(** driver/bsp/src/sdio/ops.rs:101-132 [CisReadOps] *)
Definition cis_read_ops : SdioOps W := {|
  writeb := func1_writeb; readb := func1_readb;
  readb_func2 := func2_readb; writeb_func2 := func2_writeb;
  read_byte := host_read_byte; read_byte_f0 := host_read_byte_f0;
  read_byte_at_func := host_read_byte_at_func; write_byte := host_write_byte;
  recv_pkt := λ _ _ _, st_err (-19); send_pkt := λ _ _, st_err (-19);
  send_msg := λ _ _, st_err (-19);
  read_block := default_read_block host_read_byte;
  write_block := default_write_block host_write_byte |}.

(** driver/bsp/src/sdio/ops.rs:137-142 [Aic8800Sdio]; the host is the machine [W] *)
Record Aic8800Sdio := mkSdio { product_id : ProductId; wr_fifo_offset : Z; rd_fifo_offset : Z }.

(** driver/bsp/src/sdio/ops.rs:150-163 [Aic8800Sdio::new] *)
Definition sdio_new (chipid : ProductId) : Aic8800Sdio :=
  let '(wr, rd) :=
    match chipid with
    | Aic8800D80 | Aic8800D80X2 => (RegV3.WR_FIFO_ADDR, RegV3.RD_FIFO_ADDR)
    | _ => (Reg.WR_FIFO_ADDR, Reg.RD_FIFO_ADDR)
    end in
  mkSdio chipid wr rd.

(** driver/bsp/src/sdio/ops.rs:169-176 [Aic8800Sdio::new_v1_v2] *)
Definition new_v1_v2 : Aic8800Sdio := mkSdio Aic8800Dc Reg.WR_FIFO_ADDR Reg.RD_FIFO_ADDR.

(** driver/bsp/src/sdio/ops.rs:182-189 [Aic8800Sdio::new_v3] *)
Definition new_v3 : Aic8800Sdio := mkSdio Aic8800D80 RegV3.WR_FIFO_ADDR RegV3.RD_FIFO_ADDR.

(** driver/bsp/src/sdio/ops.rs:197-204 [Aic8800Sdio::new_with_reg] *)
Definition new_with_reg (wr rd : Z) : Aic8800Sdio := mkSdio Aic8800Dc wr rd.

(** driver/bsp/src/sdio/ops.rs:235-243 [Aic8800Sdio::read_byte] *)
Definition sdio_read_byte (addr : Z) : st W Z :=
  if bool_decide (0x100 ≤ addr < 0x200) then host_read_byte_at_func 1 (Z.land addr 0xFF)
  else if bool_decide (0x200 ≤ addr < 0x300) then host_read_byte_at_func 2 (Z.land addr 0xFF)
  else host_read_byte addr.

(** driver/bsp/src/sdio/ops.rs:245-253 [Aic8800Sdio::write_byte] *)
Definition sdio_write_byte (addr val : Z) : st W () :=
  if bool_decide (0x100 ≤ addr < 0x200) then host_write_byte_at_func 1 (Z.land addr 0xFF) val
  else if bool_decide (0x200 ≤ addr < 0x300) then host_write_byte_at_func 2 (Z.land addr 0xFF) val
  else host_write_byte addr val.

(** driver/bsp/src/sdio/ops.rs:278-283 [Aic8800Sdio::recv_pkt], the length of the packet *)
Definition packet_len (block_cnt : Z) : st W nat :=
  if bool_decide (64 ≤ block_cnt)
  then byte_len ← host_read_byte_at_func 1 Reg.BYTEMODE_LEN; mret (Z.to_nat byte_len * 4)%nat
  else mret (Z.to_nat block_cnt * 512)%nat.

(** driver/bsp/src/sdio/ops.rs:255-291 [Aic8800Sdio::recv_pkt]; the read fills the
    front of the caller's buffer *)
Definition sdio_recv_pkt (d : Aic8800Sdio) (buf : list Z) (size msg : Z) : st W (list Z * nat) :=
  let n := Z.to_nat size in
  if bool_decide (length buf < n)%nat then st_err (-22)
  else
    let base :=
      if bool_decide (d.(product_id) = Aic8801) then FUNC1_BASE + d.(rd_fifo_offset)
      else if bool_decide (msg = 0) then FUNC1_BASE + d.(rd_fifo_offset)
      else FUNC2_BASE + d.(rd_fifo_offset) in
    if bool_decide (d.(product_id) = Aic8801) then
      block_cnt ← host_read_byte_at_func 1 Reg.BLOCK_CNT;
      if bool_decide (block_cnt = 0) then mret (buf, 0%nat)
      else
        data_len ← packet_len block_cnt;
        let read_len := Nat.min n data_len in
        '(data, k) ← host_read_block base read_len;
        buf ← st_lift (write_at 0 data buf);
        mret (buf, k)
    else
      '(data, k) ← host_read_block base n;
      buf ← st_lift (write_at 0 data buf);
      mret (buf, k).

(** driver/bsp/src/sdio/ops.rs:293-296 [Aic8800Sdio::send_pkt] *)
Definition sdio_send_pkt (d : Aic8800Sdio) (buf : list Z) (count : nat) : st W nat :=
  data ← st_lift (slice_to 0 count buf);
  host_write_block (FUNC1_BASE + d.(wr_fifo_offset)) data.

(** driver/bsp/src/sdio/ops.rs:313-319 [Aic8800Sdio::send_msg], the pause of try [i] *)
Definition flow_pause (i : Z) : W → W :=
  if bool_decide (i < 30) then spin_us 200
  else if bool_decide (i < 40) then sleep_us 1000
  else sleep_us 10000.

(** driver/bsp/src/sdio/ops.rs:306-320 [Aic8800Sdio::send_msg], one wait for buffers *)
Fixpoint flow_wait (tries : nat) (i last_fc : Z) : st W Z :=
  match tries with
  | O => mret last_fc
  | S tries =>
      fc ← host_read_byte_at_func 1 Reg.FLOW_CTRL;
      let last_fc := Z.land fc Reg.FLOWCTRL_MASK in
      if bool_decide (last_fc ≠ 0) then mret last_fc
      else _ ← st_modify (flow_pause i); flow_wait tries (i + 1) last_fc
  end.

(** driver/bsp/src/sdio/ops.rs:305-328 [Aic8800Sdio::send_msg], the ten waits *)
Fixpoint flow_retry (tries : nat) (retry : Z) (count : nat) (buffer_cnt : Z) : st W Z :=
  match tries with
  | O => mret buffer_cnt
  | S tries =>
      last_fc ← flow_wait FLOW_CTRL_RETRY_COUNT 0 0;
      if bool_decide (0 < last_fc ∧ (count < Z.to_nat last_fc * BUFFER_SIZE)%nat) then mret last_fc
      else if bool_decide (retry = 9) then st_err (-110)
      else flow_retry tries (retry + 1) count last_fc
  end.

(** driver/bsp/src/sdio/ops.rs:302-335 [Aic8800Sdio::send_msg], the address it writes to *)
Definition send_addr (d : Aic8800Sdio) (count : nat) : st W Z :=
  if bool_decide (d.(product_id) = Aic8801) then
    buffer_cnt ← flow_retry 10 0 count 0;
    if bool_decide (buffer_cnt ≤ 0 ∨ (Z.to_nat buffer_cnt * BUFFER_SIZE ≤ count)%nat)
    then st_err (-110)
    else mret (FUNC1_BASE + d.(wr_fifo_offset))
  else mret (FUNC2_BASE + FUNC2_MSG_ADDR_OFFSET).

(** driver/bsp/src/sdio/ops.rs:301-337 [Aic8800Sdio::send_msg] *)
Definition sdio_send_msg (d : Aic8800Sdio) (buf : list Z) (count : nat) : st W nat :=
  addr ← send_addr d count;
  data ← st_lift (slice_to 0 count buf);
  host_write_block addr data.

(** driver/bsp/src/sdio/ops.rs:216-346 [Aic8800Sdio], the implementation of the trait *)
Definition aic8800_sdio_ops (d : Aic8800Sdio) : SdioOps W := {|
  writeb := func1_writeb; readb := func1_readb;
  readb_func2 := func2_readb; writeb_func2 := func2_writeb;
  read_byte := sdio_read_byte; read_byte_f0 := sdio_read_byte;
  read_byte_at_func := λ _ _, st_err (-22); write_byte := sdio_write_byte;
  recv_pkt := sdio_recv_pkt d; send_pkt := sdio_send_pkt d; send_msg := sdio_send_msg d;
  read_block := λ addr buf, '(data, k) ← host_read_block addr (length buf); mret (data, k);
  write_block := host_write_block |}.
End impls.

(** ** Sending a message to the 8801 *)
Section send_msg.
Context {W : Type} `{SdioHost W} `{Clock W}.

(** What happens while the driver waits for buffers: FLOW_CTRL is read, time
    passes. *)
Inductive quiet : W → W → Prop :=
  | quiet_read w r w' : host_read_byte_at_func 1 Reg.FLOW_CTRL w = (r, w') → quiet w w'
  | quiet_pause i w : quiet w (flow_pause i w).

(** A read of FLOW_CTRL in [w1] announced [n] buffers. *)
Definition announced (w1 w2 : W) (n : Z) : Prop :=
  ∃ fc, host_read_byte_at_func 1 Reg.FLOW_CTRL w1 = (Ok fc, w2) ∧ n = Z.land fc Reg.FLOWCTRL_MASK.

Definition room (n : Z) (count : nat) : Prop := 0 < n ∧ (count < Z.to_nat n * BUFFER_SIZE)%nat.

Lemma flow_wait_spec tries i last w :
  let r := flow_wait tries i last w in
  (∃ n w1, rtc quiet w w1 ∧ n ≠ 0 ∧ announced w1 r.2 n ∧ r.1 = Ok n) ∨
  (rtc quiet w r.2 ∧ (r.1 = Ok 0 ∨ r.1 = Ok last ∧ tries = 0%nat ∨ is_Ok r.1 = false)).
Proof.
  revert i last w. induction tries as [|tries IH]; intros i last w; simpl.
  { right. split; [apply rtc_refl|]. auto. }
  unfold mbind, st_bind. destruct (host_read_byte_at_func 1 Reg.FLOW_CTRL w) as [[fc|e|] w1] eqn:E.
  - case_bool_decide as Hn.
    + left. exists (Z.land fc Reg.FLOWCTRL_MASK), w. split; [apply rtc_refl|]. split; [done|].
      split; [|done]. exists fc. split; [exact E|done].
    + simpl. assert (Hq : rtc quiet w (flow_pause i w1)).
      { eapply rtc_l; [by eapply quiet_read|]. apply rtc_once, quiet_pause. }
      specialize (IH (i + 1) (Z.land fc Reg.FLOWCTRL_MASK) (flow_pause i w1)) as
        [(n & w2 & Hr & Hn' & Ha & Ho)|[Hr Ho]].
      * left. exists n, w2. split; [by etrans|]. done.
      * right. split; [by etrans|]. destruct Ho as [?|[[Ho _]|?]]; [auto| |auto].
        left. by rewrite Ho, Hn.
  - right. simpl. split; [apply rtc_once; by eapply quiet_read|]. auto.
  - right. simpl. split; [apply rtc_once; by eapply quiet_read|]. auto.
Qed.

Lemma flow_retry_spec tries retry count b w :
  let r := flow_retry tries retry count b w in
  (∃ n w1, rtc quiet w w1 ∧ room n count ∧ announced w1 r.2 n ∧ r.1 = Ok n) ∨
  (rtc quiet w r.2 ∧ (r.1 = Ok b ∧ tries = 0%nat ∨ is_Ok r.1 = false ∨
                      ∃ n, r.1 = Ok n ∧ ¬ room n count)).
Proof.
  revert retry b w. induction tries as [|tries IH]; intros retry b w; cbn [flow_retry].
  { right. simpl. split; [apply rtc_refl|]. auto. }
  unfold mbind, st_bind.
  pose proof (flow_wait_spec FLOW_CTRL_RETRY_COUNT 0 0 w) as Hw.
  destruct (flow_wait FLOW_CTRL_RETRY_COUNT 0 0 w) as [r1 w1]; simpl in Hw.
  assert (Hq : rtc quiet w w1).
  { destruct Hw as [(n & w0 & Hr & _ & (fc & Hf & _) & _)|[Hr _]]; [|done].
    eapply rtc_r; [done|by eapply quiet_read]. }
  destruct r1 as [n|e|]; [|right; simpl; auto..].
  case_bool_decide as Hroom.
  - left. destruct Hw as [(n' & w0 & Hr & _ & Ha & [= <-])|[_ Ho]].
    + exists n, w0. split; [done|]. split; [done|]. split; [exact Ha|reflexivity].
    + exfalso. destruct Hroom as [? _]. destruct Ho as [[= ->]|[[[= ->] _]|[=]]]; lia.
  - case_bool_decide; [right; simpl; split; [done|]; auto|].
    specialize (IH (retry + 1) n w1) as [(n' & w0 & Hr & ?)|[Hr Ho]].
    + left. exists n', w0. split; [by etrans|done].
    + right. split; [by etrans|]. right. destruct Ho as [[Ho _]|[Ho|Ho]]; eauto.
Qed.

(** A card that never has room for [count] bytes. *)
Definition no_room (count : nat) : Prop :=
  ∀ w, ∃ fc w', host_read_byte_at_func 1 Reg.FLOW_CTRL w = (Ok fc, w') ∧
                ¬ room (Z.land fc Reg.FLOWCTRL_MASK) count.

Lemma flow_wait_never count tries i last w :
  no_room count → ¬ room last count →
  ∃ n w', flow_wait tries i last w = (Ok n, w') ∧ ¬ room n count.
Proof.
  intros Hno. revert i last w. induction tries as [|tries IH]; intros i last w Hl; simpl; [eauto|].
  unfold mbind, st_bind. destruct (Hno w) as (fc & w1 & -> & Hr).
  case_bool_decide; [eauto|]. simpl. by apply IH.
Qed.

Lemma flow_retry_never count tries retry b w :
  no_room count → retry + Z.of_nat tries = 10 → (0 < tries)%nat →
  ∃ w', flow_retry tries retry count b w = (Err (-110), w').
Proof.
  intros Hno. revert retry b w. induction tries as [|tries IH]; intros retry b w Hs Ht; [lia|].
  cbn [flow_retry]. unfold mbind, st_bind.
  destruct (flow_wait_never count FLOW_CTRL_RETRY_COUNT 0 0 w Hno) as (n & w1 & -> & Hr);
    [by intros []|].
  rewrite bool_decide_false by done. case_bool_decide; [by eexists|]. apply IH; lia.
Qed.

Lemma room_dec n count :
  bool_decide (n ≤ 0 ∨ (Z.to_nat n * BUFFER_SIZE ≤ count)%nat) = negb (bool_decide (room n count)).
Proof. unfold room. repeat case_bool_decide; simpl; try done; lia. Qed.

Lemma send_addr_spec d count w :
  d.(product_id) = Aic8801 →
  let r := send_addr d count w in
  (rtc quiet w r.2 ∧ is_Ok r.1 = false) ∨
  ∃ w1 n, rtc quiet w w1 ∧ announced w1 r.2 n ∧ room n count ∧
          r.1 = Ok (FUNC1_BASE + d.(wr_fifo_offset)).
Proof.
  intros Hd. unfold send_addr. rewrite bool_decide_true by done. unfold mbind, st_bind.
  pose proof (flow_retry_spec 10 0 count 0 w) as Hr.
  destruct (flow_retry 10 0 count 0 w) as [[n|e|] w2]; simpl in Hr.
  - rewrite room_dec. destruct Hr as [(n' & w1 & ? & ? & ? & [= <-])|[Hq Ho]].
    + rewrite bool_decide_true by done. right. exists w1, n. done.
    + rewrite bool_decide_false; [by left|].
      destruct Ho as [[_ [=]]|[[=]|(n' & [= <-] & Hn)]]; done.
  - left. simpl. split; [|done]. by destruct Hr as [(? & ? & _ & _ & _ & [=])|[? _]].
  - left. simpl. split; [|done]. by destruct Hr as [(? & ? & _ & _ & _ & [=])|[? _]].
Qed.

(** C34 (safety): on the 8801, [send_msg] touches the write FIFO only when the
    card has just announced room: either it does nothing but read FLOW_CTRL and
    wait, and does not succeed; or the last of those reads announced [n] buffers
    with [count < 1536 n], and the call ends as the one write of the first [count]
    bytes to the FIFO from there ends.  A card that never announces room makes it
    fail with [-110]. *)
Theorem send_msg_flow_control (d : Aic8800Sdio) (buf : list Z) (count : nat) (w : W)
    (Hd : d.(product_id) = Aic8801) :
  let r := sdio_send_msg d buf count w in
  ((rtc quiet w r.2 ∧ is_Ok r.1 = false) ∨
   ∃ w1 w2 n, rtc quiet w w1 ∧ announced w1 w2 n ∧ room n count ∧
     r = (data ← st_lift (slice_to 0 count buf);
          host_write_block (FUNC1_BASE + d.(wr_fifo_offset)) data) w2) ∧
  (no_room count → r.1 = Err (-110)).
Proof.
  intros r. subst r. unfold sdio_send_msg. split.
  - pose proof (send_addr_spec d count w Hd) as Hs. unfold mbind, st_bind.
    destruct (send_addr d count w) as [[a|e|] w2]; simpl in Hs.
    + destruct Hs as [[_ [=]]|(w1 & n & ? & ? & ? & [= ->])]. right. by exists w1, w2, n.
    + left. simpl. by destruct Hs as [?|(? & ? & _ & _ & _ & [=])].
    + left. simpl. by destruct Hs as [?|(? & ? & _ & _ & _ & [=])].
  - intros Hno. unfold send_addr. rewrite bool_decide_true by done.
    unfold mbind, st_bind.
    destruct (flow_retry_never count 10 0 0 w Hno) as (w' & ->); [done|lia|done].
Qed.

End send_msg.

(** A card whose registers all read zero. *)
Definition dead_card : SdioHost () := {|
  cmd52_read_func := λ _ _ w, (Ok 0, w);
  cmd52_write_func := λ _ _ _ w, (Ok (), w);
  sdio_io_rw_ext_helper_read := λ _ n w, (Ok (zeros n), w);
  sdio_io_rw_ext_helper_write := λ _ _ w, (Ok (), w) |}.
Definition no_clock : Clock () := {| spin_us := λ _ w, w; sleep_us := λ _ w, w |}.

Lemma send_msg_flow_control_witness :
  (sdio_send_msg (H := dead_card) (H0 := no_clock) (sdio_new Aic8801) (zeros 512) 512 ()).1
  = Err (-110).
Proof.
  apply (send_msg_flow_control (H := dead_card) (H0 := no_clock)
           (sdio_new Aic8801) (zeros 512) 512 () eq_refl).
  intros w. exists 0, w. split; [reflexivity|]. vm_compute. intros [? _]. discriminate.
Defined.
