(* ===== verification/SdCard.v ===== *)
(** * A card behind the controller: [driver/bsp/src/sdio/backend.rs] against the standard's controller

    SdCmd proves that the controller driver's calls end whatever the controller
    does.  Here they are run against an SDHCI controller as its standard describes
    it ([Port]), with an arbitrary SDIO card on the bus ([SdioCard]): status bits
    that are cleared by writing them, the data port, the DMA buffer, an interrupt
    for a completion while the caller is blocked.  Against this machine the driver
    refines direct access to the card ([sim]), and so do the messages of SdioOps
    built on it. *)

From S2P Require Import Prelude Chip Host Sdhci SdHost SdCmd SdTrace SdioOps.
Import Fields Arg Split Dma.

(** ** One call simulates another *)

(** From related states the same outcome, and related states again. *)
Definition sim {S T A} (R : T → S → Prop) (m : st S A) (n : st T A) : Prop :=
  ∀ t s, R t s → (m s).1 = (n t).1 ∧ R (n t).2 (m s).2.

Section sim.
Context {S T : Type} (R : T → S → Prop).

Lemma sim_ret {A} (a : A) : sim R (mret a) (mret a).
Proof. by intros t s Hs. Qed.
Lemma sim_err {A} e : sim R (st_err (A := A) e) (st_err e).
Proof. by intros t s Hs. Qed.
Lemma sim_lift {A} (r : res A) : sim R (st_lift r) (st_lift r).
Proof. by intros t s Hs. Qed.
Lemma sim_bind {A B} (m : st S A) (n : st T A) (k : A → st S B) (l : A → st T B) :
  sim R m n → (∀ a, sim R (k a) (l a)) → sim R (m ≫= k) (n ≫= l).
Proof.
  intros Hm Hk t s Hs. destruct (Hm t s Hs) as [He Hr]. unfold mbind, st_bind.
  destruct (m s) as [r s'], (n t) as [r' t']. simpl in *. subst r'. destruct r; [by apply Hk|done..].
Qed.
Lemma sim_if {A} (c : bool) (m m' : st S A) (n n' : st T A) :
  sim R m n → sim R m' n' → sim R (if c then m else m') (if c then n else n').
Proof. by destruct c. Qed.
Lemma sim_modify (f : S → S) (g : T → T) : (∀ t s, R t s → R (g t) (f s)) → sim R (st_modify f) (st_modify g).
Proof. intros Hf t s Hs. split; [done|by apply Hf]. Qed.
Lemma sim_same {A} (m : st S A) (n : st T A) :
  (∀ t s, R t s → ∃ r t' s', n t = (r, t') ∧ m s = (r, s') ∧ R t' s') → sim R m n.
Proof. intros Hm t s Hs. destruct (Hm t s Hs) as (r & t' & s' & -> & -> & ?). done. Qed.
End sim.

(** ** The card *)

(** CMD52 on a register, CMD53 on a register that does not move. *)
Class SdioCard (C : Type) := {
  io_read : Z → Z → C → Z * C;
  io_write : Z → Z → Z → C → C;
  fifo_read : Z → Z → nat → C → list Z * C;
  fifo_write : Z → Z → list Z → C → C;
}.

(** Registers hold bytes; a FIFO is a stream: it does not matter how a transfer is
    cut into commands. *)
Class SdioCardOk (C : Type) `{SdioCard C} : Prop := {
  io_read_byte f r c : byte_ok (io_read f r c).1;
  fifo_read_length f r n c : length (fifo_read f r n c).1 = n;
  fifo_read_bytes f r n c : bytes_ok (fifo_read f r n c).1;
  fifo_read_none f r c : fifo_read f r 0 c = ([], c);
  fifo_read_add f r n m c :
    fifo_read f r (n + m) c =
      let '(a, c1) := fifo_read f r n c in let '(b, c2) := fifo_read f r m c1 in (a ++ b, c2);
  fifo_write_nil f r c : fifo_write f r [] c = c;
  fifo_write_app f r a b c : fifo_write f r (a ++ b) c = fifo_write f r b (fifo_write f r a c);
}.

(** The function and the register a CMD53 of the driver addresses. *)
Definition fifo_fn (addr : Z) : Z := Z.land (Z.shiftr addr 8) 7.
Definition fifo_reg (addr : Z) : Z := Z.land addr 0xFF.

(** The card as a host: the abstract side of the refinement. *)
Module Direct.
#[export] Instance host {C} `{SdioCard C} : SdioHost C := {|
  cmd52_read_func := λ f r c, let '(v, c') := io_read (Z.land f 7) (Z.land r 0x1FFFF) c in (Ok v, c');
  cmd52_write_func := λ f r v c, (Ok (), io_write (Z.land f 7) (Z.land r 0x1FFFF) v c);
  sdio_io_rw_ext_helper_read := λ a n c, let '(d, c') := fifo_read (fifo_fn a) (fifo_reg a) n c in (Ok d, c');
  sdio_io_rw_ext_helper_write := λ a l c, (Ok (), fifo_write (fifo_fn a) (fifo_reg a) l c) |}.
#[export] Instance clock {C} `{SdioCard C} : Clock C := {| spin_us := λ _ c, c; sleep_us := λ _ c, c |}.
End Direct.

(** ** The controller *)
Module Port.
Section port.
Context {C : Type} `{SdioCard C}.

(** The card, the plain registers, the interrupt status, the response, the data
    port in both directions ([want] bytes to come for function and register [dest]),
    the DMA buffer and the completions still to be signalled. *)
Record t := mk {
  card : C; regs : Z → Z; int : Z; resp : Z;
  rx : list Z; tx : list Z; want : nat; dest : Z * Z;
  buffer : list Z; due : list Z }.

Definition set_int (i : Z) (m : t) : t :=
  mk m.(card) m.(regs) i m.(resp) m.(rx) m.(tx) m.(want) m.(dest) m.(buffer) m.(due).
Definition set_reg (r v : Z) (m : t) : t :=
  mk m.(card) (λ r', if r' =? r then v else m.(regs) r') m.(int) m.(resp) m.(rx) m.(tx) m.(want) m.(dest)
     m.(buffer) m.(due).

(** A response, without a data phase. *)
Definition respond (v : Z) (c : C) (m : t) : t :=
  mk c m.(regs) (Z.lor m.(int) INT_RESPONSE) v [] [] 0 m.(dest) m.(buffer) m.(due).

Definition cmd52 (m : t) : t :=
  let a := decode (m.(regs) ARGUMENT) in
  if a.(f_block) || a.(f_incr) then m
  else if a.(f_write) then respond (f_count a `mod` 256) (io_write a.(f_fn) a.(f_addr) (f_count a `mod` 256) m.(card)) m
  else let '(v, c) := io_read a.(f_fn) a.(f_addr) m.(card) in respond v c m.

(** The bytes of a CMD53, by its argument, and by the block register. *)
Definition arg_bytes (a : fields) : Z :=
  if a.(f_block) then f_count a * 512 else if f_count a =? 0 then 512 else f_count a.
Definition blk_bytes (blk : Z) : Z := (blk `div` 2 ^ 16) * (blk `mod` 2 ^ 12).

(** A transfer whose argument, block register and mode do not agree never completes. *)
Definition consistent (a : fields) (mode : Z) (m : t) : bool :=
  (arg_bytes a =? blk_bytes (m.(regs) BLK_SIZE_AND_CNT)) && (0 <? arg_bytes a) && negb a.(f_incr) &&
  Bool.eqb (has mode 0x10) (negb a.(f_write)) && Bool.eqb (has mode 0x20) a.(f_block).

Definition cmd53 (mode : Z) (m : t) : t :=
  let a := decode (m.(regs) ARGUMENT) in
  let n := Z.to_nat (arg_bytes a) in
  if negb (consistent a mode m) then m
  else if has mode 1 then
    if negb (m.(regs) SDMA_SADDR =? 0x80000000) then m
    else
      let '(buf, c) := if a.(f_write) then (m.(buffer), fifo_write a.(f_fn) a.(f_addr) (take n m.(buffer)) m.(card))
                       else fifo_read a.(f_fn) a.(f_addr) n m.(card) in
      mk c m.(regs) m.(int) 0 [] [] 0 m.(dest) buf [INT_RESPONSE; INT_DATA_END]
  else if a.(f_write) then
    mk m.(card) m.(regs) (Z.lor m.(int) INT_RESPONSE) 0 [] [] n (a.(f_fn), a.(f_addr)) m.(buffer) m.(due)
  else
    let '(d, c) := fifo_read a.(f_fn) a.(f_addr) n m.(card) in
    mk c m.(regs) (Z.lor m.(int) INT_RESPONSE) 0 d [] 0 m.(dest) m.(buffer) m.(due).

Definition command (index mode : Z) (m : t) : t :=
  if index =? 52 then cmd52 m
  else if index =? 53 then cmd53 mode m
  else if index =? 5 then respond 0x80FF8000 m.(card) m
  else if index =? 3 then respond 0x00010000 m.(card) m
  else if index =? 7 then respond 0 m.(card) m
  else m.

(** A word leaves the port; the last one completes the transfer. *)
Definition port_read (m : t) : Z * t :=
  let l := drop 4 m.(rx) in
  (of_le (take 4 m.(rx)),
   mk m.(card) m.(regs) (if bool_decide (m.(rx) ≠ [] ∧ l = []) then Z.lor m.(int) INT_DATA_END else m.(int)) m.(resp)
      l m.(tx) m.(want) m.(dest) m.(buffer) m.(due)).
(** A word enters it. *)
Definition port_write (v : Z) (m : t) : t :=
  let l := m.(tx) ++ to_le 4 v in
  if bool_decide (m.(want) = 0)%nat then m
  else if bool_decide (m.(want) ≤ length l)%nat then
    mk (fifo_write m.(dest).1 m.(dest).2 (take m.(want) l) m.(card)) m.(regs) (Z.lor m.(int) INT_DATA_END) m.(resp)
       m.(rx) [] 0 m.(dest) m.(buffer) m.(due)
  else mk m.(card) m.(regs) m.(int) m.(resp) m.(rx) l m.(want) m.(dest) m.(buffer) m.(due).

#[export] Instance board : Board t := {|
  rd := λ r m,
    if r =? NORM_AND_ERR_INT_STS then (m.(int), m)
    else if r =? PRESENT_STS then
      (Z.lor (if bool_decide (m.(rx) = []) then 0 else 0x800) (if bool_decide (m.(want) = 0)%nat then 0 else 0x400), m)
    else if r =? RESP31_0 then (m.(resp), m)
    else if r =? CLK_CTL_SWRST then (Z.lor (Z.ldiff (m.(regs) r) 0x7000000) 2, m)
    else if r =? BUF_DATA then port_read m
    else (m.(regs) r, m);
  wr := λ r v m,
    if r =? NORM_AND_ERR_INT_STS then set_int (Z.ldiff m.(int) v) m
    else if r =? BUF_DATA then port_write v m
    else if r =? XFER_MODE_AND_CMD then command (Z.shiftr v 24) (Z.land v 0xFFFF) m
    else set_reg r v m;
  wr8 := λ r v m, m;
  wr16 := λ r v m, if r =? COMMAND then command (Z.shiftr v 8) (m.(regs) TRANSFER_MODE) m else set_reg r v m;
  dma_phys := 0x80000000;
  dma_store := λ l m, mk m.(card) m.(regs) m.(int) m.(resp) m.(rx) m.(tx) m.(want) m.(dest) l m.(due);
  dma_load := λ n m, take n m.(buffer);
  on_spin := λ m, (0%nat, m);
  on_sleep := λ _ m, (0%nat, m);
  on_block := λ m,
    match m.(due) with
    | [] => (0%nat, m)
    | e :: l => (1%nat, mk m.(card) m.(regs) (Z.lor m.(int) e) m.(resp) m.(rx) m.(tx) m.(want) m.(dest) m.(buffer) l)
    end |}.
End port.
Arguments t : clear implicits.
End Port.
#[local] Existing Instance Port.board.

(** ** The driver's steps on this controller *)
Section steps.
Context {C : Type} `{SdioCard C}.
Abbreviation P := (Port.t C).
Abbreviation S := (Sd P).
Implicit Types (s : S) (m : P).

Definition at_rest (c : C) (s : S) : Prop :=
  let m := s.(machine) in
  Port.card m = c ∧ Port.int m = 0 ∧ Port.rx m = [] ∧ Port.want m = 0%nat ∧ Port.due m = [] ∧ s.(dma_busy) = false.

Lemma set_machine_same s : set_machine s.(machine) s = s.
Proof. by destruct s. Qed.
Lemma set_machine_twice m m' s : set_machine m (set_machine m' s) = set_machine m s.
Proof. done. Qed.

Lemma bind_ok {A B} (x : st S A) (k : A → st S B) a s s' : x s = (Ok a, s') → (x ≫= k) s = k a s'.
Proof. intros E. unfold mbind, st_bind. by rewrite E. Qed.

Lemma bind_ret {A B} (a : A) (k : A → st S B) s : (mret a ≫= k) s = k a s.
Proof. done. Qed.

Lemma bind_store {B} f (k : () → st S B) s : (store f ≫= k) s = k () (f s).
Proof. done. Qed.
Lemma bind_write {B} r v (k : () → st S B) s :
  (write_reg r v ≫= k) s = k () (set_machine (wr r v s.(machine)) s).
Proof. done. Qed.

Lemma read_int s : read_reg NORM_AND_ERR_INT_STS s = (Ok (Port.int s.(machine)), s).
Proof. by destruct s. Qed.
Lemma read_resp s : read_reg RESP31_0 s = (Ok (Port.resp s.(machine)), s).
Proof. by destruct s. Qed.
Lemma read_quiet r s : r ≠ BUF_DATA → ∃ v, read_reg r s = (Ok v, s).
Proof.
  intros Hr. destruct s as [m]. unfold read_reg. cbn [machine rd Port.board].
  rewrite (proj2 (Z.eqb_neq r BUF_DATA) Hr). by repeat case_match; simplify_eq; eexists.
Qed.
Lemma log_quiet l s : BUF_DATA ∉ l → log_regs l s = (Ok (), s).
Proof.
  induction l as [|r l IH]; intros Hl; [done|]. cbn [log_regs].
  destruct (read_quiet r s ltac:(set_solver)) as [v E]. rewrite (bind_ok _ _ _ _ _ E). apply IH. set_solver.
Qed.
Lemma bind_log {B} l (k : () → st S B) s :
  bool_decide (BUF_DATA ∈ l) = false → (log_regs l ≫= k) s = k () s.
Proof. intros Hl%bool_decide_eq_false. by rewrite (bind_ok _ _ _ _ _ (log_quiet l s Hl)). Qed.
Lemma log_present s : log_regs [PRESENT_STS] s = (Ok (), s).
Proof. by destruct s. Qed.
Lemma write_int v s :
  write_reg NORM_AND_ERR_INT_STS v s = (Ok (), set_machine (Port.set_int (Z.ldiff (Port.int s.(machine)) v) s.(machine)) s).
Proof. done. Qed.

Lemma poll_first {A} n (attempt : st S (option A)) pause after a s s' :
  attempt s = (Ok (Some a), s') → poll (Datatypes.S n) attempt pause after s = (Ok a, s').
Proof. intros E. cbn [poll]. by rewrite (bind_ok _ _ _ _ _ E). Qed.

Lemma not_inhibit s : wait_not_inhibit s = (Ok (), s).
Proof.
  unfold wait_not_inhibit. apply (poll_first 99). destruct s as [m].
  unfold mbind, st_bind, read_reg. cbn [machine rd Port.board]. by repeat case_bool_decide.
Qed.

Lemma no_pending s : Port.int s.(machine) = 0 → process_sdio_pending_irqs_if_set s = (Ok false, s).
Proof. intros Hi. unfold process_sdio_pending_irqs_if_set. by rewrite (bind_ok _ _ _ _ _ (read_int s)), Hi. Qed.

Lemma sent a w s :
  send_command a w s =
    (Ok (), set_machine (Port.command (Z.shiftr w 24) (Z.land w 0xFFFF) (Port.set_reg ARGUMENT a s.(machine))) s).
Proof. done. Qed.

Lemma set_int_same i m : Port.int m = i → Port.set_int i m = m.
Proof. by intros <-; destruct m. Qed.

(** The waits, when what they wait for is there. *)
Lemma completed s : Port.int s.(machine) = INT_RESPONSE →
  wait_cmd_complete s = (Ok (), set_machine (Port.set_int 0 s.(machine)) s).
Proof.
  intros Hi. unfold wait_cmd_complete. apply (poll_first 99). unfold cmd_attempt.
  rewrite (bind_ok _ _ _ _ _ (read_int s)), Hi.
  change (has INT_RESPONSE INT_CMD_ERR_MASK) with false. change (has INT_RESPONSE INT_RESPONSE) with true.
  cbv iota. by rewrite (bind_ok _ _ _ _ _ (write_int _ s)), Hi.
Qed.
Lemma transferred s : Port.int s.(machine) = INT_DATA_END →
  wait_xfer_complete s = (Ok (), set_machine (Port.set_int 0 s.(machine)) s).
Proof.
  intros Hi. unfold wait_xfer_complete, poll_data. apply (poll_first 99).
  rewrite (bind_ok _ _ _ _ _ (read_int s)), Hi. change (xfer_outcome INT_DATA_END) with (Some (Ok ())).
  cbv iota. rewrite (bind_ok _ _ _ _ _ (write_int _ s)), Hi. done.
Qed.
Lemma cleared s : clear_int_status s = (Ok (), set_machine (Port.set_int 0 s.(machine)) s).
Proof.
  unfold clear_int_status. rewrite (bind_ok _ _ _ _ _ (read_int s)). case_bool_decide as Hi; cbn [when negb].
  - unfold mret, st_ret. by rewrite set_int_same, set_machine_same.
  - by rewrite write_int, Z.ldiff_diag.
Qed.
Lemma slept ms s : sleep_ms ms s = (Ok (), s).
Proof. by destruct s. Qed.
Lemma settled s : settle s = (Ok (), set_machine (Port.set_int 0 s.(machine)) s).
Proof.
  unfold settle. rewrite (bind_ok _ _ _ _ _ (cleared s)), (bind_ok _ _ _ _ _ (slept _ _)). apply not_inhibit.
Qed.
Lemma guarded_ok {A} r (m : st S A) a s s' : m s = (Ok a, s') → guarded r m s = (Ok a, s').
Proof. intros E. unfold guarded. by rewrite E. Qed.

(** A response without error bits. *)
Lemma r5_ok v s : 0 ≤ v < 2 ^ 16 → check_r5 v s = (Ok (), s).
Proof.
  intros Hv. unfold check_r5. replace (Z.shiftr v 16) with 0; [done|].
  rewrite Z.shiftr_div_pow2, Z.div_small by lia. done.
Qed.
End steps.

(** ** CMD52 *)

(** What the card reads out of the arguments of the driver. *)
Lemma cmd52_argument (w : bool) (f r v : Z) : byte_ok v →
  decode (Z.lor (Z.lor (Z.lor (if w then Z.shiftl 1 31 else 0) (Z.shiftl (Z.land f 7) 28))
            (Z.shiftl (Z.land r 0x1FFFF) 9)) v) =
  mkFields w (Z.land f 7) false false (Z.land r 0x1FFFF) v.
Proof.
  intros Hv. change 7 with (Z.ones 3). change 0x1FFFF with (Z.ones 17).
  pose proof (land_ones_range 3 f ltac:(lia)) as Hf. pose proof (land_ones_range 17 r ltac:(lia)) as Hr.
  cbv beta in Hv. assert (in_range 9 v) as Hv9 by (unfold in_range; lia).
  rewrite <- (decode_pack w _ false false _ v Hf Hr Hv9), <- (arg_pack w false false) by done.
  unfold arg_head. rewrite Z.lor_0_l, Z.lor_0_r. change SDIO_IO_RW_EXTENDED_ADDR_MASK with (Z.ones 17).
  rewrite (land_low_ones 17 (Z.land r (Z.ones 17))) by (done || lia).
  unfold in_range in *. rewrite (wrap_id 32); [done|]. unfold in_range. rewrite Z.shiftl_mul_pow2; lia.
Qed.

Lemma cmd53_argument_any (w incr : bool) (f r n : Z) : in_range 3 f → in_range 17 r → 1 ≤ n ≤ 512 →
  (n ≤ 511 → decode (mmc_io_rw_extended_arg_block w f r incr n) = mkFields w f true incr r n) ∧
  decode (mmc_io_rw_extended_arg_byte w f r incr n) = mkFields w f false incr r (if bool_decide (n = 512) then 0 else n).
Proof.
  intros Hf Hr Hn. split.
  - intros Hb. assert (in_range 9 n) by (unfold in_range; lia). unfold mmc_io_rw_extended_arg_block.
    change 0x1FF with (Z.ones 9). rewrite land_low_ones by (done || lia).
    rewrite (arg_pack w incr true) by done. by apply decode_pack.
  - unfold mmc_io_rw_extended_arg_byte. case_bool_decide as E.
    + rewrite <- (Z.lor_0_l 0), (arg_pack w incr false) by done. by apply decode_pack.
    + assert (in_range 9 n) by (unfold in_range; lia). change 0x1FF with (Z.ones 9).
      rewrite land_low_ones by (done || lia). rewrite <- (Z.lor_0_l n), (arg_pack w incr false) by done.
      by apply decode_pack.
Qed.

Section cmd52.
Context {C : Type} `{SdioCard C} `{!SdioCardOk C}.
Abbreviation S := (Sd (Port.t C)).
Implicit Types (s : S).

Lemma io52 a (w : bool) fn r v (c : C) s :
  decode a = mkFields w fn false false r v → byte_ok v → at_rest c s →
  ∃ s', at_rest (if w then io_write fn r v c else (io_read fn r c).2) s' ∧
    ∀ A (k : Z → st S A),
      (_ ← wait_not_inhibit; _ ← send_command a CMD52_XFER_MODE; _ ← wait_cmd_complete;
       resp ← read_reg RESP31_0; k resp) s = k (if w then v else (io_read fn r c).1) s'.
Proof.
  intros Ha Hv (Hc & Hi & Hrx & Hw & Hd & Hb). cbv beta in Hv.
  set (m1 := Port.command (Z.shiftr CMD52_XFER_MODE 24) (Z.land CMD52_XFER_MODE 0xFFFF) (Port.set_reg ARGUMENT a s.(machine))).
  assert (Hm : m1 = Port.respond (if w then v else (io_read fn r c).1)
                      (if w then io_write fn r v c else (io_read fn r c).2) (Port.set_reg ARGUMENT a s.(machine))).
  { unfold m1. change (Port.command _ _) with (Port.cmd52 (C := C)). unfold Port.cmd52.
    change (Port.regs (Port.set_reg ARGUMENT a s.(machine)) ARGUMENT) with a. rewrite Ha. cbn [f_block f_incr f_write f_fn f_addr f_count orb].
    change (Port.card (Port.set_reg ARGUMENT a s.(machine))) with (Port.card s.(machine)). rewrite Hc.
    destruct w; [by rewrite Z.mod_small|]. by destruct (io_read fn r c). }
  assert (Hi1 : Port.int m1 = INT_RESPONSE).
  { rewrite Hm. cbn. by rewrite Hi. }
  exists (set_machine (Port.set_int 0 m1) s). split.
  - rewrite Hm. by repeat split.
  - intros A k. rewrite (bind_ok _ _ _ _ _ (not_inhibit s)), (bind_ok _ _ _ _ _ (sent _ _ s)). fold m1.
    rewrite (bind_ok _ _ _ _ _ (completed (set_machine m1 s) Hi1)).
    rewrite (bind_ok _ _ _ _ _ (read_resp _)). by rewrite Hm.
Qed.

Lemma read52 f r (c : C) s : at_rest c s →
  ∃ s', sd_cmd52_read_func f r s = (Ok (io_read (Z.land f 7) (Z.land r 0x1FFFF) c).1, s') ∧
    at_rest (io_read (Z.land f 7) (Z.land r 0x1FFFF) c).2 s'.
Proof.
  intros Hs. pose proof (cmd52_argument false f r 0 ltac:(done)) as Ha. rewrite Z.lor_0_l, Z.lor_0_r in Ha.
  destruct (io52 _ _ _ _ _ c s Ha ltac:(done) Hs) as (s' & Hs' & E). exists s'. split; [|exact Hs'].
  unfold sd_cmd52_read_func. rewrite (E Z (λ resp, _ ← check_r5 resp; mret (Z.land resp 0xFF))).
  pose proof (io_read_byte (Z.land f 7) (Z.land r 0x1FFFF) c) as Hb. cbv beta in Hb.
  assert (0 ≤ (io_read (Z.land f 7) (Z.land r 0x1FFFF) c).1 < 2 ^ 16) as Hr by lia.
  rewrite (bind_ok _ _ _ _ _ (r5_ok _ s' Hr)).
  cbn [mret st_ret]. unfold mret, st_ret. do 2 f_equal. change 0xFF with (Z.ones 8). apply land_low_ones; [done|].
  unfold in_range. lia.
Qed.

Lemma write52 f r v (c : C) s : byte_ok v → at_rest c s →
  ∃ s', sd_cmd52_write_func f r v s = (Ok (), s') ∧
    at_rest (io_write (Z.land f 7) (Z.land r 0x1FFFF) v c) s'.
Proof.
  intros Hv Hs. pose proof (cmd52_argument true f r v Hv) as Ha.
  destruct (io52 _ _ _ _ _ c s Ha Hv Hs) as (s' & Hs' & E). exists s'. split; [|exact Hs'].
  unfold sd_cmd52_write_func. rewrite (E unit check_r5). apply r5_ok. cbv beta in Hv. lia.
Qed.
End cmd52.

(** ** CMD53 by words *)
Section words.
Context {C : Type} `{SdioCard C} `{!SdioCardOk C}.
Abbreviation S := (Sd (Port.t C)).
Implicit Types (s : S).

(** The machine during a transfer by words. *)
Definition port_state (m : Port.t C) (i : Z) (l tx : list Z) (n : nat) : Port.t C :=
  Port.mk (Port.card m) (Port.regs m) i (Port.resp m) l tx n (Port.dest m) (Port.buffer m) (Port.due m).

Lemma port_state_eta m i l tx n :
  Port.int m = i → Port.rx m = l → Port.tx m = tx → Port.want m = n → m = port_state m i l tx n.
Proof. destruct m. by intros; simpl in *; subst. Qed.

Lemma buf_ready_rd m l s : l ≠ [] →
  wait_buf_rd_ready (set_machine (port_state m 0 l [] 0) s) = (Ok (), set_machine (port_state m 0 l [] 0) s).
Proof.
  intros Hl. unfold wait_buf_rd_ready, wait_buf_ready. apply (poll_first 99).
  rewrite (bind_ok _ _ _ _ _ (read_int _)). change (has (Port.int _) BUF_RRDY) with false. cbv iota.
  unfold mbind, st_bind, read_reg. cbn. by rewrite bool_decide_false by done.
Qed.

Lemma read_word m l s :
  read_reg BUF_DATA (set_machine (port_state m 0 l [] 0) s) =
    (Ok (of_le (take 4 l)),
     set_machine (port_state m (if bool_decide (l ≠ [] ∧ drop 4 l = []) then INT_DATA_END else 0) (drop 4 l) [] 0) s).
Proof. done. Qed.

Lemma words_in words : ∀ m l s, l ≠ [] → bytes_ok l → words = ((length l + 3) / 4)%nat →
  read_words words (length l) (set_machine (port_state m 0 l [] 0) s) =
    (Ok l, set_machine (port_state m INT_DATA_END [] [] 0) s).
Proof.
  induction words as [|words IH]; intros m l s Hl Hb Hw.
  { assert (length l = 0)%nat by nat_div. by destruct l. }
  cbn [read_words]. rewrite (bind_ok _ _ _ _ _ (guarded_ok _ _ _ _ _ (buf_ready_rd m l s Hl))).
  rewrite (bind_ok _ _ _ _ _ (read_int _)). change (has (Port.int _) BUF_RRDY) with false.
  cbn [when]. rewrite bind_ret, (bind_ok _ _ _ _ _ (read_word m l s)).
  assert (Hword : word_bytes (Nat.min 4 (length l)) (of_le (take 4 l)) = take 4 l).
  { rewrite word_bytes_to_le, <- (length_take l 4). apply to_le_of_le. by apply Forall_take. }
  destruct (decide (drop 4 l = [])) as [E|E].
  - rewrite E, bool_decide_true by done. assert (words = 0%nat) as ->.
    { apply (f_equal length) in E. rewrite length_drop in E. simpl in E. nat_div. }
    cbn [read_words]. rewrite bind_ret, Hword, app_nil_r. unfold mret, st_ret.
    do 2 f_equal. rewrite <- (take_drop 4 l) at 2. by rewrite E, app_nil_r.
  - rewrite bool_decide_false by (by intros [_ ?]). rewrite <- length_drop.
    rewrite (bind_ok _ _ _ _ _ (IH m (drop 4 l) s E ltac:(by apply Forall_drop) ltac:(rewrite length_drop; nat_div))).
    unfold mret, st_ret. by rewrite Hword, take_drop.
Qed.

Lemma buf_ready_wr m tx n s : n ≠ 0%nat →
  wait_buf_wr_ready (set_machine (port_state m 0 [] tx n) s) = (Ok (), set_machine (port_state m 0 [] tx n) s).
Proof.
  intros Hn. unfold wait_buf_wr_ready, wait_buf_ready. apply (poll_first 99).
  rewrite (bind_ok _ _ _ _ _ (read_int _)). change (has (Port.int _) BUF_WRDY) with false. cbv iota.
  unfold mbind, st_bind, read_reg. cbn. by rewrite (bool_decide_false (n = 0%nat)) by done.
Qed.

(** Words of four bytes, then the last, of at least one. *)
Lemma words_out words : ∀ m l tx s, l ≠ [] → bytes_ok l → words = ((length l + 3) / 4)%nat →
  write_words words l (set_machine (port_state m 0 [] tx (length tx + length l)) s) =
    (Ok (), set_machine (Port.mk (fifo_write (Port.dest m).1 (Port.dest m).2 (tx ++ l) (Port.card m)) (Port.regs m)
                           INT_DATA_END (Port.resp m) [] [] 0 (Port.dest m) (Port.buffer m) (Port.due m)) s).
Proof.
  induction words as [|words IH]; intros m l tx s Hl Hb Hw.
  { assert (length l = 0)%nat by nat_div. by destruct l. }
  assert (0 < length l)%nat as Hlen by (destruct l; [done|simpl; lia]).
  cbn [write_words].
  rewrite (bind_ok _ _ _ _ _ (guarded_ok _ _ _ _ _ (buf_ready_wr m tx (length tx + length l) s ltac:(lia)))).
  rewrite (bind_ok _ _ _ _ _ (read_int _)). change (has (Port.int _) BUF_WRDY) with false. cbn [when]. rewrite bind_ret.
  set (n := (length tx + length l)%nat).
  assert (E : write_reg BUF_DATA (word_of 0 (take 4 l)) (set_machine (port_state m 0 [] tx n) s) =
    (Ok (), set_machine (Port.port_write (word_of 0 (take 4 l)) (port_state m 0 [] tx n)) s)) by done.
  rewrite (bind_ok _ _ _ _ _ E). clear E.
  destruct (word_of_le 0 (take 4 l) ltac:(by apply Forall_take)) as [-> Hr]. rewrite Z.mul_1_r.
  unfold Port.port_write. cbn [Port.want Port.tx port_state]. rewrite bool_decide_false by (unfold n; lia).
  set (w := of_le (take 4 l)).
  destruct (decide (length l ≤ 4)%nat) as [Hle|Hgt].
  - rewrite bool_decide_true by (rewrite length_app, length_to_le; unfold n; lia).
    assert (words = 0%nat) as -> by nat_div. cbn [write_words]. unfold mret, st_ret. do 2 f_equal.
    assert (take n (tx ++ to_le 4 w) = tx ++ l) as ->; [|done].
    unfold n. rewrite take_app_add. f_equal. unfold w. rewrite (take_ge l 4) by lia.
    assert (E4 : take (length l) (to_le 4 (of_le l)) = to_le (length l) (of_le l)).
    { clear -Hle. generalize (of_le l). destruct l as [|? [|? [|? [|? [|]]]]]; simpl in *; try done; lia. }
    rewrite E4. by apply to_le_of_le.
  - rewrite bool_decide_false by (rewrite length_app, length_to_le; unfold n; lia).
    assert (L4 : length (take 4 l) = 4%nat) by (rewrite length_take; lia).
    assert (to_le 4 w = take 4 l) as ->.
    { unfold w. rewrite <- L4 at 1. apply to_le_of_le. by apply Forall_take. }
    assert (drop 4 l ≠ []) as Hd.
    { intros E. apply (f_equal length) in E. rewrite length_drop in E. simpl in E. lia. }
    pose proof (IH m (drop 4 l) (tx ++ take 4 l) s Hd ltac:(by apply Forall_drop) ltac:(rewrite length_drop; nat_div)) as IH'.
    rewrite <- app_assoc, take_drop, length_app, L4, length_drop in IH'.
    replace (length tx + 4 + (length l - 4))%nat with n in IH' by (unfold n; lia). exact IH'.
Qed.
End words.

(** ** CMD53 in byte mode *)
Section chunks.
Context {C : Type} `{SdioCard C} `{!SdioCardOk C}.
Abbreviation S := (Sd (Port.t C)).
Implicit Types (s : S).

Lemma fn_range addr : in_range 3 (fifo_fn addr).
Proof. apply (land_ones_range 3). lia. Qed.
Lemma reg_range addr : in_range 17 (fifo_reg addr).
Proof. pose proof (land_ones_range 8 addr ltac:(lia)). unfold in_range, fifo_reg in *. change 0xFF with (Z.ones 8). lia. Qed.

(** The block register of [k] blocks of [n] bytes. *)
Lemma blk_word k n : 0 ≤ n < 2 ^ 12 → 0 ≤ k → Port.blk_bytes (Z.lor (Z.shiftl k 16) n) = k * n.
Proof.
  intros Hn Hk. unfold Port.blk_bytes. rewrite Z.lor_comm, lor_shiftl_add by (unfold in_range; lia).
  rewrite Z.div_add, (Z.div_small n), Z.add_0_l by lia.
  replace (n + k * 2 ^ 16) with (n + (k * 2 ^ 4) * 2 ^ 12) by lia. by rewrite Z_mod_plus_full, (Z.mod_small n).
Qed.

(** The command of a transfer by words reaches the card as it was meant. *)
Lemma chunk_command (write : bool) addr n (c : C) (m : Port.t C) :
  (1 ≤ n ≤ 512)%nat → Port.card m = c → Port.int m = 0 →
  let word := if write then CMD53_WRITE_XFER_MODE else CMD53_READ_XFER_MODE in
  let m' := Port.set_reg ARGUMENT (mmc_io_rw_extended_arg_byte write (fifo_fn addr) (fifo_reg addr) false (Z.of_nat n))
              (Port.set_reg BLK_SIZE_AND_CNT (Z.lor (Z.shiftl 1 16) (Z.of_nat n)) m) in
  Port.command (Z.shiftr word 24) (Z.land word 0xFFFF) m' =
    if write then Port.mk c (Port.regs m') INT_RESPONSE 0 [] [] n (fifo_fn addr, fifo_reg addr) (Port.buffer m) (Port.due m)
    else let '(d, c') := fifo_read (fifo_fn addr) (fifo_reg addr) n c in
         Port.mk c' (Port.regs m') INT_RESPONSE 0 d [] 0 (Port.dest m) (Port.buffer m) (Port.due m).
Proof.
  intros Hn Hc Hi word m'. pose proof (fn_range addr) as Hf. pose proof (reg_range addr) as Hr.
  destruct (cmd53_argument_any write false (fifo_fn addr) (fifo_reg addr) (Z.of_nat n) Hf Hr ltac:(lia)) as [_ Ha].
  assert (Harg : Port.regs m' ARGUMENT = mmc_io_rw_extended_arg_byte write (fifo_fn addr) (fifo_reg addr) false (Z.of_nat n)) by done.
  assert (Hblk : Port.regs m' BLK_SIZE_AND_CNT = Z.lor (Z.shiftl 1 16) (Z.of_nat n)) by done.
  assert (Hb : Port.arg_bytes (mkFields write (fifo_fn addr) false false (fifo_reg addr) (if bool_decide (Z.of_nat n = 512) then 0 else Z.of_nat n)) = Z.of_nat n).
  { unfold Port.arg_bytes. cbn [f_block f_count]. case_bool_decide as E; [by rewrite E|].
    by rewrite (proj2 (Z.eqb_neq _ _)) by lia. }
  assert (Hcmd : Port.command (Z.shiftr word 24) (Z.land word 0xFFFF) m' = Port.cmd53 (if write then 2 else 0x12) m')
    by (by destruct write).
  rewrite Hcmd. unfold Port.cmd53. rewrite Harg, Ha, Hb.
  assert (Hok : Port.consistent (mkFields write (fifo_fn addr) false false (fifo_reg addr) (if bool_decide (Z.of_nat n = 512) then 0 else Z.of_nat n))
                  (if write then 2 else 0x12) m' = true).
  { unfold Port.consistent. rewrite Hb, Hblk, blk_word, Z.mul_1_l, Z.eqb_refl by lia.
    rewrite (proj2 (Z.ltb_lt _ _)) by lia. by destruct write. }
  rewrite Hok, Nat2Z.id. cbn [negb f_write f_fn f_addr].
  change (Port.card m') with (Port.card m). change (Port.int m') with (Port.int m).
  change (Port.buffer m') with (Port.buffer m). change (Port.due m') with (Port.due m).
  change (Port.dest m') with (Port.dest m). rewrite Hc, Hi. by destruct write.
Qed.

Lemma finished m s : Port.int m = INT_DATA_END → Port.resp m = 0 →
  cmd53_finish (set_machine m s) = (Ok (), set_machine (Port.set_int 0 m) s).
Proof.
  intros Hi Hr. unfold cmd53_finish.
  rewrite (bind_ok _ _ _ _ _ (guarded_ok _ _ _ _ _ (transferred (set_machine m s) Hi))).
  rewrite (bind_ok _ _ _ _ _ (read_resp _)). change (Port.resp _) with (Port.resp m). rewrite Hr.
  rewrite (bind_ok _ _ _ _ _ (guarded_ok _ _ _ _ _ (r5_ok 0 _ ltac:(lia)))).
  etransitivity; [apply settled|done].
Qed.

Lemma started (write : bool) addr n len (c : C) s :
  (1 ≤ n ≤ 512)%nat → (n ≤ len)%nat → at_rest c s → ∃ m,
  cmd53_start write addr n len s = (Ok (), set_machine m s) ∧
  Port.int m = 0 ∧ Port.resp m = 0 ∧ Port.tx m = [] ∧ Port.due m = [] ∧
  (if write then Port.card m = c ∧ Port.rx m = [] ∧ Port.want m = n ∧ Port.dest m = (fifo_fn addr, fifo_reg addr)
   else Port.card m = (fifo_read (fifo_fn addr) (fifo_reg addr) n c).2 ∧
        Port.rx m = (fifo_read (fifo_fn addr) (fifo_reg addr) n c).1 ∧ Port.want m = 0%nat).
Proof.
  intros Hn Hl (Hc & Hi & Hrx & Hw & Hd & Hb).
  pose proof (chunk_command write addr n c s.(machine) Hn Hc Hi) as E. cbv zeta in E.
  unfold cmd53_start. rewrite bool_decide_true by (unfold CMD53_MAX_BYTES; lia). cbn [negb].
  fold (fifo_fn addr) (fifo_reg addr).
  rewrite (bind_ok _ _ _ _ _ (not_inhibit s)), (bind_ok _ _ _ _ _ (no_pending s Hi)). cbv iota.
  set (m0 := Port.set_reg BLK_SIZE_AND_CNT (Z.lor (Z.shiftl 1 16) (Z.of_nat n)) s.(machine)) in *.
  rewrite (bind_ok _ _ () s (set_machine m0 s) eq_refl), (bind_ok _ _ _ _ _ (sent _ _ _)).
  change (machine (set_machine m0 s)) with m0. rewrite E.
  destruct write.
  - rewrite (guarded_ok _ _ _ _ _ (completed (set_machine (Port.mk _ _ INT_RESPONSE _ _ _ _ _ _ _) _) eq_refl)). by eexists.
  - destruct (fifo_read _ _ n c) as [d c']. rewrite (guarded_ok _ _ _ _ _ (completed (set_machine (Port.mk _ _ INT_RESPONSE _ _ _ _ _ _ _) _) eq_refl)).
    eexists. split; [done|]. by repeat split.
Qed.

Lemma no_err_bits : has 0 (Z.lor INT_XFER_ERR (Z.shiftl 1 16)) = false.
Proof. done. Qed.

Lemma read_chunk addr n (c : C) s : (1 ≤ n ≤ 512)%nat → at_rest c s → ∃ s',
  cmd53_read_chunk addr n n s = (Ok (fifo_read (fifo_fn addr) (fifo_reg addr) n c).1, s') ∧
  at_rest (fifo_read (fifo_fn addr) (fifo_reg addr) n c).2 s'.
Proof.
  intros Hn Hs. destruct (started false addr n n c s Hn ltac:(lia) Hs) as (m & E & Hi & Hr & Htx & Hd & Hc & Hrx & Hw).
  unfold cmd53_read_chunk. rewrite (bind_ok _ _ _ _ _ E), (bind_ok _ _ _ _ _ (read_int _)).
  rewrite (bind_ok _ _ _ _ _ (log_present _)).
  change (Port.int _) with (Port.int m). rewrite Hi, no_err_bits.
  pose proof (fifo_read_length (fifo_fn addr) (fifo_reg addr) n c) as Hlen.
  pose proof (fifo_read_bytes (fifo_fn addr) (fifo_reg addr) n c) as Hbytes.
  set (d := (fifo_read (fifo_fn addr) (fifo_reg addr) n c).1) in *.
  rewrite (port_state_eta m 0 d [] 0 Hi Hrx Htx Hw).
  assert (d ≠ []) as Hne by (intros E0; rewrite E0 in Hlen; simpl in Hlen; lia).
  pose proof (words_in ((n + 3) / 4) m d s Hne Hbytes ltac:(by rewrite Hlen)) as Hin. rewrite Hlen in Hin.
  rewrite (bind_ok _ _ _ _ _ Hin).
  rewrite (bind_ok _ _ _ _ _ (finished (port_state m INT_DATA_END [] [] 0) s eq_refl Hr)).
  eexists. split; [done|]. destruct Hs as (_ & _ & _ & _ & _ & Hb). by repeat split.
Qed.

Lemma write_chunk addr l (c : C) s : (1 ≤ length l ≤ 512)%nat → bytes_ok l → at_rest c s → ∃ s',
  cmd53_write_chunk addr l (length l) s = (Ok (), s') ∧
  at_rest (fifo_write (fifo_fn addr) (fifo_reg addr) l c) s'.
Proof.
  intros Hn Hl Hs.
  destruct (started true addr (length l) (length l) c s Hn ltac:(lia) Hs) as (m & E & Hi & Hr & Htx & Hd & Hc & Hrx & Hw & Hdest).
  unfold cmd53_write_chunk. rewrite (bind_ok _ _ _ _ _ E), (bind_ok _ _ _ _ _ (read_int _)).
  rewrite (bind_ok _ _ _ _ _ (log_present _)).
  change (Port.int _) with (Port.int m). rewrite Hi.
  change (has 0 _) with false. cbn [when]. rewrite bind_ret, (bind_ok _ _ _ _ _ (read_int _)).
  change (Port.int _) with (Port.int m). rewrite Hi, no_err_bits, take_ge by lia.
  rewrite (port_state_eta m 0 [] [] (length (@nil Z) + length l) Hi Hrx Htx Hw).
  assert (l ≠ []) as Hne by (by destruct l; [simpl in Hn; lia|]).
  rewrite (bind_ok _ _ _ _ _ (words_out ((length l + 3) / 4) m l [] s Hne Hl eq_refl)).
  rewrite (finished (Port.mk _ _ INT_DATA_END _ _ _ _ _ _ _) s eq_refl Hr). eexists. split; [done|].
  destruct Hs as (_ & _ & _ & _ & _ & Hb). rewrite Hdest, Hc. by repeat split.
Qed.
End chunks.

(** ** CMD53 in block mode, by DMA *)
Section blocks.
Context {C : Type} `{SdioCard C} `{!SdioCardOk C}.
Abbreviation S := (Sd (Port.t C)).
Implicit Types (s : S).

(** The machine between the commands of a transfer by DMA. *)
Definition dma_state (c : C) (regs : Z → Z) (m : Port.t C) (buf due : list Z) : Port.t C :=
  Port.mk c regs 0 0 [] [] 0 (Port.dest m) buf due.

Lemma prepared (write : bool) addr k h s : ∃ s' regs,
  blocks_prepare write addr k h s = (Ok (), s') ∧
  machine s' = (let m := s.(machine) in Port.mk (Port.card m) regs (Port.int m) (Port.resp m) (Port.rx m) (Port.tx m)
                  (Port.want m) (Port.dest m) (Port.buffer m) (Port.due m)) ∧
  regs ARGUMENT = mmc_io_rw_extended_arg_block write (fifo_fn addr) (fifo_reg addr) false k ∧
  regs BLK_SIZE_AND_CNT = Z.lor (Z.shiftl k 16) SDHCI_BLOCK_SIZE_WORD ∧ regs SDMA_SADDR = 0x80000000 ∧
  dma_busy s' = dma_busy s.
Proof. do 2 eexists. by split_and!. Qed.

Definition blocks_word (write : bool) : Z :=
  if write then CMD53_WRITE_MULTI_XFER_MODE else CMD53_READ_MULTI_XFER_MODE.

(** The command of a transfer by blocks reaches the card as it was meant. *)
Lemma issued (write : bool) addr k (c : C) s : (1 ≤ k ≤ 511)%nat →
  let m := s.(machine) in
  Port.card m = c → Port.int m = 0 →
  Port.regs m ARGUMENT = mmc_io_rw_extended_arg_block write (fifo_fn addr) (fifo_reg addr) false (Z.of_nat k) →
  Port.regs m BLK_SIZE_AND_CNT = Z.lor (Z.shiftl (Z.of_nat k) 16) SDHCI_BLOCK_SIZE_WORD →
  Port.regs m SDMA_SADDR = 0x80000000 →
  let n := (k * BLOCKSIZE)%nat in
  ∃ s' regs, blocks_issue (blocks_word write) s = (Ok (), s') ∧
    machine s' = (if write
       then dma_state (fifo_write (fifo_fn addr) (fifo_reg addr) (take n (Port.buffer m)) c) regs m (Port.buffer m)
       else dma_state (fifo_read (fifo_fn addr) (fifo_reg addr) n c).2 regs m (fifo_read (fifo_fn addr) (fifo_reg addr) n c).1)
      [INT_RESPONSE; INT_DATA_END] ∧
    dma_busy s' = dma_busy s ∧ dma_pending s' = true ∧ cmd_pending s' = true.
Proof.
  intros Hk m Hc Hi Harg Hblk Hsaddr n. pose proof (fn_range addr) as Hf. pose proof (reg_range addr) as Hr.
  destruct (cmd53_argument_any write false (fifo_fn addr) (fifo_reg addr) (Z.of_nat k) Hf Hr ltac:(lia)) as [Ha _].
  specialize (Ha ltac:(lia)).
  set (m1 := Port.set_reg TRANSFER_MODE (Z.land (blocks_word write) 0xFFFF) m).
  set (a := mkFields write (fifo_fn addr) true false (fifo_reg addr) (Z.of_nat k)) in *.
  set (mode := if write then 0x23 else 0x33).
  assert (Hcmd : Port.command (Z.shiftr (Z.shiftr (blocks_word write) 16) 8) (Port.regs m1 TRANSFER_MODE) m1 = Port.cmd53 mode m1)
    by (by destruct write).
  assert (Hn : Z.to_nat (Port.arg_bytes a) = n) by (unfold Port.arg_bytes, n, BLOCKSIZE; cbn; lia).
  assert (Hok : Port.consistent a mode m1 = true).
  { unfold Port.consistent. change (Port.regs m1 BLK_SIZE_AND_CNT) with (Port.regs m BLK_SIZE_AND_CNT). rewrite Hblk.
    assert (Port.blk_bytes (Z.lor (Z.shiftl (Z.of_nat k) 16) SDHCI_BLOCK_SIZE_WORD) = Z.of_nat k * 512) as ->.
    { unfold Port.blk_bytes. change SDHCI_BLOCK_SIZE_WORD with 0x7200.
      rewrite Z.lor_comm, lor_shiftl_add by (unfold in_range; lia).
      rewrite Z.div_add by lia. replace (0x7200 + Z.of_nat k * 2 ^ 16) with (512 + (7 + Z.of_nat k * 2 ^ 4) * 2 ^ 12) by lia.
      by rewrite Z_mod_plus_full. }
    change (Port.arg_bytes a) with (Z.of_nat k * 512). rewrite Z.eqb_refl, (proj2 (Z.ltb_lt _ _)) by lia. by destruct write. }
  assert (E : Port.cmd53 mode m1 =
    (if write then dma_state (fifo_write (fifo_fn addr) (fifo_reg addr) (take n (Port.buffer m)) c) (Port.regs m1) m (Port.buffer m)
     else dma_state (fifo_read (fifo_fn addr) (fifo_reg addr) n c).2 (Port.regs m1) m (fifo_read (fifo_fn addr) (fifo_reg addr) n c).1)
      [INT_RESPONSE; INT_DATA_END]).
  { unfold Port.cmd53. change (Port.regs m1 ARGUMENT) with (Port.regs m ARGUMENT). rewrite Harg, Ha, Hok, Hn.
    change (Port.regs m1 SDMA_SADDR) with (Port.regs m SDMA_SADDR). rewrite Hsaddr.
    change (Port.card m1) with (Port.card m). change (Port.int m1) with (Port.int m). rewrite Hc, Hi.
    destruct write; cbn [negb]; [done|]. change (has mode 1) with true. cbn [f_write f_fn f_addr a].
    by destruct (fifo_read _ _ n c). }
  exists (set_machine (Port.cmd53 mode m1) (set_dma_pending true (set_cmd_pending true s))), (Port.regs m1).
  split; [|split; [exact E|done]].
  change (blocks_issue (blocks_word write) s) with
    (@Ok () (), set_machine (Port.command (Z.shiftr (Z.shiftr (blocks_word write) 16) 8) (Port.regs m1 TRANSFER_MODE) m1)
            (set_dma_pending true (set_cmd_pending true s))).
  by rewrite Hcmd.
Qed.

(** The two completions, each served while the caller is blocked for it. *)
Lemma command_served c regs m buf l busy pend dp bp dt bx cr dr cw dw iw :
  wait_cmd_complete_irq (mkSd (dma_state c regs m buf (INT_RESPONSE :: l)) busy pend true dp bp dt bx cr dr cw dw iw) =
    (Ok (), mkSd (dma_state c regs m buf l) busy pend false dp bp dt bx 0 dr true dw iw).
Proof. destruct dp; vm_compute; reflexivity. Qed.

Lemma data_served c regs m buf busy pend cp bp dt bx cr dr cw dw iw :
  wait_dma_complete_irq (mkSd (dma_state c regs m buf [INT_DATA_END]) busy pend cp true bp dt bx cr dr cw dw iw) =
    (Ok (), mkSd (dma_state c regs m buf []) busy pend cp false bp dt bx cr 0 cw true iw).
Proof. destruct cp; vm_compute; reflexivity. Qed.

(** Both in turn, with reads of registers in between. *)
Lemma served c regs m buf s :
  s.(machine) = dma_state c regs m buf [INT_RESPONSE; INT_DATA_END] → cmd_pending s = true → dma_pending s = true →
  ∃ s1 s2, wait_cmd_complete_irq s = (Ok (), s1) ∧ wait_dma_complete_irq s1 = (Ok (), s2) ∧
    machine s2 = dma_state c regs m buf [] ∧ dma_busy s2 = dma_busy s.
Proof.
  destruct s as [m0 busy pend cp dp bp dt bx cr dr cw dw iw]. cbn [machine cmd_pending dma_pending].
  intros -> -> ->. do 2 eexists. split; [apply command_served|]. split; [apply data_served|done].
Qed.

(** The end of a transfer that went well: the machine is at rest and the buffer given back. *)
Lemma left_ok logged h c regs m buf s : s.(machine) = dma_state c regs m buf [] →
  ∃ s', blocks_leave logged h (Ok ()) s = (Ok (), s') ∧ at_rest c s'.
Proof.
  intros Hm. unfold blocks_leave.
  rewrite bind_write, bind_store. set (s2 := set_dma_busy _ _).
  rewrite (bind_ok _ _ _ _ _ (guarded_ok _ (st_lift (Ok ())) () s2 s2 eq_refl)), settled. eexists. split; [done|].
  unfold s2. cbn. rewrite Hm. done.
Qed.

Lemma entered k len c s : (1 ≤ k ≤ 511)%nat → (k * BLOCKSIZE ≤ len)%nat → at_rest c s →
  blocks_enter (Z.of_nat k) len s = (Ok (), s) ∧ alloc (k * BLOCKSIZE) s = (Ok (), set_dma_busy true s).
Proof.
  intros Hk Hl (_ & Hi & _ & _ & _ & Hb). split.
  - unfold blocks_enter. rewrite Nat2Z.id, bool_decide_true by (split; [lia|done]). cbn [negb].
    by rewrite (bind_ok _ _ _ _ _ (not_inhibit s)), (bind_ok _ _ _ _ _ (no_pending s Hi)).
  - unfold alloc. by rewrite Hb, alloc_blocks.
Qed.

Lemma bind_try {A B} (x : st S A) (k : res A → st S B) a s s' :
  x s = (Ok a, s') → (st_try x ≫= k) s = k (Ok a) s'.
Proof. intros E. unfold mbind, st_bind, st_try. by rewrite E. Qed.

Lemma wrote_blocks addr l k (c : C) s : (1 ≤ k ≤ 511)%nat → length l = (k * BLOCKSIZE)%nat → at_rest c s → ∃ s',
  cmd53_write_blocks addr l (Z.of_nat k) s = (Ok (), s') ∧
  at_rest (fifo_write (fifo_fn addr) (fifo_reg addr) l c) s'.
Proof.
  intros Hk Hl Hs. destruct (entered k (length l) c s Hk ltac:(lia) Hs) as [E1 E2].
  destruct Hs as (Hc & Hi & Hrx & Hw & Hd & Hb).
  unfold cmd53_write_blocks. rewrite Nat2Z.id, (bind_ok _ _ _ _ _ E1), (bind_ok _ _ _ _ _ E2), bind_store.
  rewrite take_ge by lia. set (s1 := set_machine _ _).
  destruct (read_quiet HOST_CTRL1 s1 ltac:(done)) as [h Eh]. rewrite (bind_ok _ _ _ _ _ Eh).
  destruct (prepared true addr (Z.of_nat k) h s1) as (s2 & regs & E & Hm2 & Harg & Hblk & Hsa & Hb2).
  rewrite (bind_ok _ _ _ _ _ E), bind_log by done.
  destruct (issued true addr k c s2 Hk) as (s3 & regs3 & E3 & Hm3 & Hb3 & Hdp & Hcp); [by rewrite Hm2..|].
  change (blocks_word true) with CMD53_WRITE_MULTI_XFER_MODE in E3.
  rewrite (bind_ok _ _ _ _ _ E3), bind_log by done.
  destruct (served _ _ _ _ _ Hm3 Hcp Hdp) as (s4 & s5 & E4 & E5 & Hm5 & Hb5).
  rewrite (bind_try _ _ _ _ _ E4), bind_log by done.
  rewrite (bind_try (_ ← st_lift (Ok ()); wait_dma_complete_irq) _ () s4 s5 E5).
  rewrite bind_log by done.
  rewrite (bind_try (_ ← st_lift (Ok ()); resp ← read_reg RESP31_0; check_r5 resp) _ () s5 s5).
  2: { change ((resp ← read_reg RESP31_0; check_r5 resp) s5 = (Ok (), s5)).
       rewrite (bind_ok _ _ _ _ _ (read_resp s5)), Hm5. by apply r5_ok. }
  rewrite Hm2 in Hm5. cbn [Port.buffer] in Hm5.
  rewrite take_ge in Hm5 by (change (Port.buffer _) with l; lia).
  exact (left_ok _ h _ _ _ _ s5 Hm5).
Qed.

Lemma did_read_blocks addr k (c : C) s : (1 ≤ k ≤ 511)%nat → at_rest c s →
  let n := (k * BLOCKSIZE)%nat in ∃ s',
  cmd53_read_blocks addr n (Z.of_nat k) s = (Ok (fifo_read (fifo_fn addr) (fifo_reg addr) n c).1, s') ∧
  at_rest (fifo_read (fifo_fn addr) (fifo_reg addr) n c).2 s'.
Proof.
  intros Hk Hs n. destruct (entered k n c s Hk ltac:(done) Hs) as [E1 E2].
  destruct Hs as (Hc & Hi & Hrx & Hw & Hd & Hb).
  unfold cmd53_read_blocks. rewrite Nat2Z.id, (bind_ok _ _ _ _ _ E1), (bind_ok _ _ _ _ _ E2).
  set (s1 := set_dma_busy true s).
  destruct (read_quiet HOST_CTRL1 s1 ltac:(done)) as [h Eh]. rewrite (bind_ok _ _ _ _ _ Eh).
  destruct (prepared false addr (Z.of_nat k) h s1) as (s2 & regs & E & Hm2 & Harg & Hblk & Hsa & Hb2).
  rewrite (bind_ok _ _ _ _ _ E).
  destruct (issued false addr k c s2 Hk) as (s3 & regs3 & E3 & Hm3 & Hb3 & Hdp & Hcp); [by rewrite Hm2..|].
  change (blocks_word false) with CMD53_READ_MULTI_XFER_MODE in E3. rewrite (bind_ok _ _ _ _ _ E3).
  destruct (served _ _ _ _ _ Hm3 Hcp Hdp) as (s4 & s5 & E4 & E5 & Hm5 & Hb5).
  rewrite (bind_try (_ ← wait_cmd_complete_irq; _ ← wait_dma_complete_irq; resp ← read_reg RESP31_0; check_r5 resp) _ () s3 s5).
  2: { rewrite (bind_ok _ _ _ _ _ E4), (bind_ok _ _ _ _ _ E5), (bind_ok _ _ _ _ _ (read_resp s5)), Hm5. by apply r5_ok. }
  pose proof (fifo_read_length (fifo_fn addr) (fifo_reg addr) n c) as Hlen. fold n in Hm5.
  set (d := (fifo_read (fifo_fn addr) (fifo_reg addr) n c).1) in *. cbn [is_Ok].
  assert (Ed : load (λ s, dma_load (k * BLOCKSIZE) s.(machine)) s5 = (Ok d, s5)).
  { unfold load. rewrite Hm5. cbn. by rewrite take_ge by (fold n; lia). }
  rewrite (bind_ok _ _ _ _ _ Ed). destruct (left_ok [] h _ _ _ _ s5 Hm5) as (s6 & E6 & H6).
  rewrite (bind_ok _ _ _ _ _ E6). by exists s6.
Qed.
End blocks.

(** ** Transfers of any length *)
Section transfers.
Context {C : Type} `{SdioCard C} `{!SdioCardOk C}.
Abbreviation S := (Sd (Port.t C)).
Implicit Types (s : S).

(** What the FIFO of [addr] gives and takes. *)
Definition gives (addr : Z) (n : nat) (c : C) : list Z * C := fifo_read (fifo_fn addr) (fifo_reg addr) n c.
Definition takes (addr : Z) (l : list Z) (c : C) : C := fifo_write (fifo_fn addr) (fifo_reg addr) l c.

Lemma gives_add addr n m c :
  (gives addr (n + m) c).1 = (gives addr n c).1 ++ (gives addr m (gives addr n c).2).1 ∧
  (gives addr (n + m) c).2 = (gives addr m (gives addr n c).2).2.
Proof. unfold gives. rewrite fifo_read_add. by repeat destruct (fifo_read _ _ _ _). Qed.

Lemma read_block_run addr ks : ∀ off acc (c : C) s, Forall (λ k, 1 ≤ k ≤ 511)%nat ks → at_rest c s → ∃ s',
  run_blocks (λ _ k cur acc, d ← cmd53_read_blocks addr (k * cur) (Z.of_nat k); mret (acc ++ d)) BLOCKSIZE off ks acc s =
    (Ok (acc ++ (gives addr (sum_list ks * BLOCKSIZE) c).1), s') ∧ at_rest (gives addr (sum_list ks * BLOCKSIZE) c).2 s'.
Proof.
  induction ks as [|k ks IH]; intros off acc c s Hk Hs; cbn [run_blocks sum_list_with id].
  { exists s. unfold gives. by rewrite fifo_read_none, app_nil_r. }
  apply Forall_cons in Hk as [Hk Hks]. destruct (did_read_blocks addr k c s Hk Hs) as (s1 & E1 & H1). cbv zeta in E1, H1.
  destruct (IH (off + k * BLOCKSIZE)%nat (acc ++ (gives addr (k * BLOCKSIZE) c).1) _ s1 Hks H1) as (s2 & E2 & H2).
  exists s2. rewrite Nat.mul_add_distr_r.
  destruct (gives_add addr (k * BLOCKSIZE) (sum_list ks * BLOCKSIZE) c) as [-> ->]. split; [|exact H2].
  assert (E : (d ← cmd53_read_blocks addr (k * BLOCKSIZE) (Z.of_nat k); mret (acc ++ d)) s =
              (Ok (acc ++ (gives addr (k * BLOCKSIZE) c).1), s1)) by by rewrite (bind_ok _ _ _ _ _ E1).
  rewrite (bind_ok _ _ _ _ _ E), app_assoc. exact E2.
Qed.

Lemma read_byte_run addr ns : ∀ off acc (c : C) s, Forall (λ n, 1 ≤ n ≤ 512)%nat ns → at_rest c s → ∃ s',
  run_bytes (λ _ n acc, d ← cmd53_read_chunk addr n n; mret (acc ++ d)) off ns acc s =
    (Ok (acc ++ (gives addr (sum_list ns) c).1), s') ∧ at_rest (gives addr (sum_list ns) c).2 s'.
Proof.
  induction ns as [|n ns IH]; intros off acc c s Hn Hs; cbn [run_bytes sum_list_with id].
  { exists s. unfold gives. by rewrite fifo_read_none, app_nil_r. }
  apply Forall_cons in Hn as [Hn Hns]. destruct (read_chunk addr n c s Hn Hs) as (s1 & E1 & H1).
  destruct (IH (off + n)%nat (acc ++ (gives addr n c).1) _ s1 Hns H1) as (s2 & E2 & H2).
  exists s2. destruct (gives_add addr n (sum_list ns) c) as [-> ->]. split; [|exact H2].
  assert (E : (d ← cmd53_read_chunk addr n n; mret (acc ++ d)) s = (Ok (acc ++ (gives addr n c).1), s1))
    by by rewrite (bind_ok _ _ _ _ _ E1).
  rewrite (bind_ok _ _ _ _ _ E), app_assoc. exact E2.
Qed.

Lemma write_block_run addr buf ks : ∀ off (c : C) s,
  Forall (λ k, 1 ≤ k ≤ 511)%nat ks → (off + sum_list ks * BLOCKSIZE ≤ length buf)%nat → at_rest c s → ∃ s',
  run_blocks (λ off k cur _, l ← st_lift (slice_to off (off + k * cur) buf); cmd53_write_blocks addr l (Z.of_nat k))
    BLOCKSIZE off ks () s = (Ok (), s') ∧ at_rest (takes addr (slice off (sum_list ks * BLOCKSIZE) buf) c) s'.
Proof.
  induction ks as [|k ks IH]; intros off c s Hk Hl Hs; cbn [run_blocks sum_list_with id] in *.
  { exists s. split; [done|]. unfold takes, slice. simpl. by rewrite fifo_write_nil. }
  apply Forall_cons in Hk as [Hk Hks]. set (n := (k * BLOCKSIZE)%nat).
  assert (E : slice_to off (off + n) buf = Ok (slice off n buf)).
  { rewrite slice_to_ok by lia. do 2 f_equal. lia. }
  destruct (wrote_blocks addr (slice off n buf) k c s Hk) as (s1 & E1 & H1); [rewrite length_slice; lia|done|].
  destruct (IH (off + n)%nat _ s1 Hks ltac:(lia) H1) as (s2 & E2 & H2). exists s2.
  assert (Eb : (l ← st_lift (slice_to off (off + n) buf); cmd53_write_blocks addr l (Z.of_nat k)) s = (Ok (), s1))
    by by rewrite E.
  rewrite (bind_ok _ _ _ _ _ Eb). split; [exact E2|]. unfold takes in *. rewrite <- fifo_write_app in H2.
  replace (slice off ((k + sum_list ks) * BLOCKSIZE) buf) with (slice off n buf ++ slice (off + n) (sum_list ks * BLOCKSIZE) buf);
    [exact H2|]. rewrite Nat.mul_add_distr_r. fold n. unfold slice. by rewrite <- drop_drop, take_take_drop.
Qed.

Lemma write_byte_run addr buf ns : ∀ off (c : C) s, bytes_ok buf →
  Forall (λ n, 1 ≤ n ≤ 512)%nat ns → (off + sum_list ns ≤ length buf)%nat → at_rest c s → ∃ s',
  run_bytes (λ off n _, l ← st_lift (slice_to off (off + n) buf); cmd53_write_chunk addr l n) off ns () s = (Ok (), s') ∧
  at_rest (takes addr (slice off (sum_list ns) buf) c) s'.
Proof.
  induction ns as [|n ns IH]; intros off c s Hb Hn Hl Hs; cbn [run_bytes sum_list_with id] in *.
  { exists s. split; [done|]. unfold takes, slice. simpl. by rewrite fifo_write_nil. }
  apply Forall_cons in Hn as [Hn Hns].
  assert (E : slice_to off (off + n) buf = Ok (slice off n buf)).
  { rewrite slice_to_ok by lia. do 2 f_equal. lia. }
  assert (L : length (slice off n buf) = n) by (rewrite length_slice; lia).
  destruct (write_chunk addr (slice off n buf) c s) as (s1 & E1 & H1); [by rewrite L|by apply Forall_slice|done|].
  rewrite L in E1. destruct (IH (off + n)%nat _ s1 Hb Hns ltac:(lia) H1) as (s2 & E2 & H2). exists s2.
  assert (Eb : (l ← st_lift (slice_to off (off + n) buf); cmd53_write_chunk addr l n) s = (Ok (), s1)) by by rewrite E.
  rewrite (bind_ok _ _ _ _ _ Eb). split; [exact E2|]. unfold takes in *. rewrite <- fifo_write_app in H2.
  replace (slice off (n + sum_list ns) buf) with (slice off n buf ++ slice (off + n) (sum_list ns) buf);
    [exact H2|]. unfold slice. by rewrite <- drop_drop, take_take_drop.
Qed.
End transfers.

(** ** The driver refines the card *)

(** Time passes on the controller while its caller pauses. *)
#[export] Instance sd_clock {W} `{Board W} : Clock (Sd W) := {|
  spin_us := λ _ s, (spin_loop s).2; sleep_us := λ us s, (sleep_ms (us `div` 1000) s).2 |}.

Section refine.
Context {C : Type} `{SdioCard C} `{!SdioCardOk C}.
Abbreviation S := (Sd (Port.t C)).
#[local] Existing Instances Direct.host Direct.clock.

Lemma sim_read52 f r : sim (at_rest (C := C)) (sd_cmd52_read_func f r) (cmd52_read_func f r).
Proof.
  apply sim_same. intros c s Hs. destruct (read52 f r c s Hs) as (s' & E & Hs').
  cbn [cmd52_read_func Direct.host]. destruct (io_read _ _ c) as [v c']. by exists (Ok v), c', s'.
Qed.
Lemma sim_write52 f r v : byte_ok v → sim (at_rest (C := C)) (sd_cmd52_write_func f r v) (cmd52_write_func f r v).
Proof.
  intros Hv. apply sim_same. intros c s Hs. destruct (write52 f r v c s Hv Hs) as (s' & E & Hs').
  eexists _, _, s'. by split_and!.
Qed.

Lemma sim_helper_read addr n :
  sim (at_rest (C := C)) (sd_helper_read addr n) (sdio_io_rw_ext_helper_read addr n).
Proof.
  apply sim_same. intros c s Hs. cbn [sdio_io_rw_ext_helper_read Direct.host]. fold (gives addr n c).
  cut (∃ s', sd_helper_read addr n s = (Ok (gives addr n c).1, s') ∧ at_rest (gives addr n c).2 s').
  { intros (s' & E & Hs'). destruct (gives addr n c) as [d c']. by exists (Ok d), c', s'. }
  unfold sd_helper_read. case_bool_decide as Hn.
  { subst n. exists s. unfold gives. by rewrite fifo_read_none. }
  rewrite split_run by (unfold BLOCKSIZE; lia).
  destruct (plan_covers (bool_decide (CMD53_MAX_BYTES < n)%nat) BLOCKSIZE n ltac:(unfold BLOCKSIZE; lia)) as (Hsum & Hks & Hns).
  set (ks := plan_blocks _ _ _) in *. set (ns := plan_bytes _ _ _) in *.
  destruct (read_block_run addr ks 0 [] c s Hks Hs) as (s1 & E1 & H1).
  rewrite (bind_ok _ _ _ _ _ E1). cbn [app].
  destruct (read_byte_run addr ns (sum_list ks * BLOCKSIZE) (gives addr (sum_list ks * BLOCKSIZE) c).1 _ s1 Hns H1)
    as (s2 & E2 & H2).
  exists s2. rewrite <- Hsum.
  destruct (gives_add addr (sum_list ks * BLOCKSIZE) (sum_list ns) c) as [-> ->]. done.
Qed.

Lemma sim_helper_write addr l : bytes_ok l →
  sim (at_rest (C := C)) (sd_helper_write addr l) (sdio_io_rw_ext_helper_write addr l).
Proof.
  intros Hl. apply sim_same. intros c s Hs. cbn [sdio_io_rw_ext_helper_write Direct.host]. fold (takes addr l c).
  cut (∃ s', sd_helper_write addr l s = (Ok (), s') ∧ at_rest (takes addr l c) s').
  { intros (s' & E & Hs'). by exists (Ok ()), (takes addr l c), s'. }
  unfold sd_helper_write. case_bool_decide as Hn.
  { exists s. apply length_zero_iff_nil in Hn as ->. unfold takes. by rewrite fifo_write_nil. }
  rewrite split_run by (unfold BLOCKSIZE; lia). set (n := length l) in *.
  destruct (plan_covers (bool_decide (CMD53_MAX_BYTES < n)%nat) BLOCKSIZE n ltac:(unfold BLOCKSIZE; lia)) as (Hsum & Hks & Hns).
  set (ks := plan_blocks _ _ _) in *. set (ns := plan_bytes _ _ _) in *.
  destruct (write_block_run addr l ks 0 c s Hks ltac:(lia) Hs) as (s1 & E1 & H1).
  rewrite (bind_ok _ _ _ _ _ E1).
  destruct (write_byte_run addr l ns (sum_list ks * BLOCKSIZE) _ s1 Hl Hns ltac:(lia) H1) as (s2 & E2 & H2).
  exists s2. split; [exact E2|]. unfold takes in *. rewrite <- fifo_write_app in H2.
  assert (slice 0 (sum_list ks * BLOCKSIZE) l ++ slice (sum_list ks * BLOCKSIZE) (sum_list ns) l = l) as El.
  { unfold slice. rewrite drop_0, (take_ge (drop _ l)) by (rewrite length_drop; fold n; lia). apply take_drop. }
  by rewrite El in H2.
Qed.

Lemma sim_read_block addr n : sim (at_rest (C := C)) (host_read_block addr n) (host_read_block addr n).
Proof.
  unfold host_read_block. apply sim_if; [apply sim_ret|]. apply sim_bind; [apply sim_helper_read|intros; apply sim_ret].
Qed.
Lemma sim_write_block addr buf : bytes_ok buf →
  sim (at_rest (C := C)) (host_write_block addr buf) (host_write_block addr buf).
Proof.
  intros Hb. unfold host_write_block. apply sim_if; [apply sim_ret|].
  apply sim_bind; [by apply sim_helper_write|intros; apply sim_ret].
Qed.

(** C6 (refinement): on a controller as its standard describes it, with any card behind it, the
    controller driver does to the card what the caller asked for, and nothing else: a CMD52 reads or
    writes the one register of the one function; a transfer of any length, cut into commands by
    words and by DMA, moves exactly the bytes asked for, in order, through the FIFO addressed; and
    the controller is at rest again after it. *)
Theorem controller_refines_card (func reg val addr : Z) (n : nat) (buf : list Z) :
  byte_ok val → bytes_ok buf →
  sim (at_rest (C := C)) (sd_cmd52_read_func func reg) (cmd52_read_func func reg) ∧
  sim (at_rest (C := C)) (sd_cmd52_write_func func reg val) (cmd52_write_func func reg val) ∧
  sim (at_rest (C := C)) (host_read_block addr n) (host_read_block addr n) ∧
  sim (at_rest (C := C)) (host_write_block addr buf) (host_write_block addr buf).
Proof.
  intros Hv Hb. split; [apply sim_read52|]. split; [by apply sim_write52|].
  split; [apply sim_read_block|by apply sim_write_block].
Qed.

(** *** The messages on top of it *)

Lemma sim_pause i : sim (at_rest (C := C)) (st_modify (flow_pause i)) (st_modify (flow_pause i)).
Proof.
  apply sim_modify. intros c s Hs.
  assert (∀ us, spin_us us s = s ∧ sleep_us us s = s) as Ht by (intros us; by destruct s).
  unfold flow_pause. repeat case_bool_decide; rewrite ?(proj1 (Ht _)), ?(proj2 (Ht _)); exact Hs.
Qed.

Lemma sim_flow_wait tries i fc : sim (at_rest (C := C)) (flow_wait tries i fc) (flow_wait tries i fc).
Proof.
  revert i fc. induction tries as [|tries IH]; intros i fc; cbn [flow_wait]; [apply sim_ret|].
  apply sim_bind; [apply sim_read52|intros v]. apply sim_if; [apply sim_ret|].
  apply sim_bind; [apply sim_pause|intros _; apply IH].
Qed.
Lemma sim_flow_retry tries retry count n :
  sim (at_rest (C := C)) (flow_retry tries retry count n) (flow_retry tries retry count n).
Proof.
  revert retry n. induction tries as [|tries IH]; intros retry n; cbn [flow_retry]; [apply sim_ret|].
  apply sim_bind; [apply sim_flow_wait|intros fc]. apply sim_if; [apply sim_ret|].
  apply sim_if; [apply sim_err|apply IH].
Qed.

End refine.

(** ** A card to evaluate on

    Registers, a source the FIFO reads from at [pos], and what was written to FIFOs. *)
Module StreamCard.
Record t := mk { bytes : Z → Z → Z; src : nat → Z; pos : nat; out : list (Z * Z * Z) }.

#[export] Instance card : SdioCard t := {|
  io_read := λ f r c, (c.(bytes) f r `mod` 256, c);
  io_write := λ f r v c,
    mk (λ f' r', if bool_decide (f' = f ∧ r' = r) then v else c.(bytes) f' r') c.(src) c.(pos) c.(out);
  fifo_read := λ _ _ n c,
    ((λ i, c.(src) i `mod` 256) <$> seq c.(pos) n, mk c.(bytes) c.(src) (c.(pos) + n) c.(out));
  fifo_write := λ f r l c, mk c.(bytes) c.(src) c.(pos) (c.(out) ++ ((λ b, (f, r, b)) <$> l)) |}.

#[export] Instance card_ok : SdioCardOk t.
Proof.
  split.
  - intros f r c. apply Z.mod_pos_bound. done.
  - intros f r n c. simpl. by rewrite length_fmap, length_seq.
  - intros f r n c. apply Forall_fmap, Forall_true. intros i. apply Z.mod_pos_bound. done.
  - intros f r [b s p o]. simpl. by rewrite Nat.add_0_r.
  - intros f r n m [b s p o]. simpl. by rewrite seq_app, fmap_app, Nat.add_assoc.
  - intros f r [b s p o]. simpl. by rewrite app_nil_r.
  - intros f r l l' [b s p o]. simpl. by rewrite fmap_app, app_assoc.
Qed.

(** The controller at rest with such a card: flow control says 4 buffers, one block waits. *)
Definition fresh : t :=
  mk (λ f r, if bool_decide (f = 1 ∧ r = Reg.FLOW_CTRL) then 4
             else if bool_decide (f = 1 ∧ r = Reg.BLOCK_CNT) then 1 else 0) Z.of_nat 0 [].
Definition resting (c : t) : Sd (Port.t t) :=
  mkSd (Port.mk c (λ _, 0) 0 0 [] [] 0 (0, 0) [] []) false false false false 0 0 0 0 0 false false 0.
Lemma resting_ok c : at_rest c (resting c).
Proof. done. Qed.
End StreamCard.
#[local] Existing Instances StreamCard.card StreamCard.card_ok.

(** A write of 1100 bytes: two blocks by DMA, 76 bytes by words. *)
Lemma controller_refines_card_witness :
  let buf := (λ i, Z.of_nat i `mod` 256) <$> seq 0 1100 in
  let s := StreamCard.resting StreamCard.fresh in
  (host_write_block 0x107 buf s).1 = Ok 1100%nat ∧
  StreamCard.out (Port.card (host_write_block 0x107 buf s).2.(machine)) = (λ b, (1, 7, b)) <$> buf.
Proof.
  intros buf s.
  assert (bytes_ok buf) as Hb by (apply Forall_fmap, Forall_true; intros i; by apply Z.mod_pos_bound).
  pose proof (controller_refines_card (C := StreamCard.t) 0 0 0 0x107 0 buf ltac:(done) Hb) as (_ & _ & _ & R).
  destruct (R StreamCard.fresh s (StreamCard.resting_ok _)) as [E (Hc & _)]. rewrite E, Hc. by split.
Defined.

