(* ===== verification/Cis.v ===== *)
(** * Card information structures: [driver/bsp/src/sdio/cis.rs], [chip_ident.rs]

    Reading the CIS pointers, walking a chain of tuples for CISTPL_MANFID and
    identifying the chip from it.  The theorems are about cards whose registers
    hold an encoded chain ([chain]). *)

From S2P Require Import Prelude Chip Host SdioOps.

(** driver/bsp/src/sdio/cis.rs:11-13 [sdio_fbr_base] *)
Definition sdio_fbr_base (func_num : Z) : Z := func_num * 0x100.
(** driver/bsp/src/sdio/cis.rs:16-16 [SDIO_FBR_CIS] *)
Definition SDIO_FBR_CIS : Z := 0x09.
(** driver/bsp/src/sdio/cis.rs:19-19 [CISTPL_MANFID] *)
Definition CISTPL_MANFID : Z := 0x20.
(** driver/bsp/src/sdio/cis.rs:22-22 [CISTPL_END] *)
Definition CISTPL_END : Z := 0xff.
(** driver/bsp/src/sdio/cis.rs:23-23 [CISTPL_NULL] *)
Definition CISTPL_NULL : Z := 0x00.
(** driver/bsp/src/sdio/cis.rs:83-83 [SDIO_ADDR_17BIT_MASK] *)
Definition SDIO_ADDR_17BIT_MASK : Z := 0x1FFFF.

Section cis.
Context {W : Type} (ops : SdioOps W) `{Clock W}.
#[local] Existing Instance ops.

(** driver/bsp/src/sdio/cis.rs:27-32 [read_cccr_cis_ptr] *)
Definition read_cccr_cis_ptr : st W Z :=
  b0 ← read_byte SDIO_FBR_CIS;
  b1 ← read_byte (SDIO_FBR_CIS + 1);
  b2 ← read_byte (SDIO_FBR_CIS + 2);
  mret (Z.lor (Z.lor b0 (Z.shiftl b1 8)) (Z.shiftl b2 16)).

(** driver/bsp/src/sdio/cis.rs:38-45 [read_fbr_cis_ptr] *)
Definition read_fbr_cis_ptr (func_num : Z) : st W Z :=
  let base := sdio_fbr_base func_num + SDIO_FBR_CIS in
  b0 ← read_byte base;
  b1 ← read_byte (base + 1);
  b2 ← read_byte (base + 2);
  mret (Z.lor (Z.lor b0 (Z.shiftl b1 8)) (Z.shiftl b2 16)).

(** The walk of both parsers, over the byte read they are given. *)
Section walk.
Context (rd : Z → st W Z).

(** driver/bsp/src/sdio/cis.rs:69-75 [parse_cis_for_manfid], the MANFID tuple's body *)
Definition read_manfid (ptr : Z) : st W (Z * Z) :=
  d0 ← rd ptr;
  p1 ← st_lift (add_w 32 ptr 1); d1 ← rd p1;
  p2 ← st_lift (add_w 32 ptr 2); d2 ← rd p2;
  p3 ← st_lift (add_w 32 ptr 3); d3 ← rd p3;
  mret (Z.lor d0 (Z.shiftl d1 8), Z.lor d2 (Z.shiftl d3 8)).

(** driver/bsp/src/sdio/cis.rs:53-79 [parse_cis_for_manfid], the loop *)
Fixpoint parse_loop (tuples : nat) (ptr : Z) : st W (option (Z * Z)) :=
  match tuples with
  | O => mret None
  | S tuples =>
      tpl_code ← rd ptr;
      let ptr := wrap 32 (ptr + 1) in
      if bool_decide (tpl_code = CISTPL_END) then mret None
      else if bool_decide (tpl_code = CISTPL_NULL) then parse_loop tuples ptr
      else
        tpl_link ← rd ptr;
        let ptr := wrap 32 (ptr + 1) in
        if bool_decide (tpl_link = CISTPL_END) then mret None
        else if bool_decide (tpl_code = CISTPL_MANFID ∧ 4 ≤ tpl_link)
        then ids ← read_manfid ptr; mret (Some ids)
        else parse_loop tuples (wrap 32 (ptr + tpl_link))
  end.

Definition parse_walk (cis_ptr : Z) : st W (option (Z * Z)) :=
  parse_loop 256 (Z.land cis_ptr SDIO_ADDR_17BIT_MASK).
End walk.

(** driver/bsp/src/sdio/cis.rs:50-80 [parse_cis_for_manfid] *)
Definition parse_cis_for_manfid (cis_ptr : Z) : st W (option (Z * Z)) :=
  parse_walk read_byte cis_ptr.

(** driver/bsp/src/sdio/cis.rs:110-140 [parse_cis_for_manfid_at_func] *)
Definition parse_cis_for_manfid_at_func (func_num cis_ptr : Z) : st W (option (Z * Z)) :=
  parse_walk (read_byte_at_func func_num) cis_ptr.

(** driver/bsp/src/sdio/cis.rs:86-94 [dump_cis_raw], the reads; only they matter to the
    card, the bytes go to the log *)
Fixpoint dump_loop (read : Z → st W Z) (n : nat) (a : Z) : st W () :=
  match n with
  | O => mret ()
  | S n => _ ← st_try (read (wrap 32 a)); dump_loop read n (a + 1)
  end.

(** driver/bsp/src/sdio/cis.rs:86-94 [dump_cis_raw] *)
Definition dump_cis_raw (base : Z) (n : nat) : st W () :=
  dump_loop read_byte (Nat.min n 32) (Z.land base SDIO_ADDR_17BIT_MASK).

(** driver/bsp/src/sdio/cis.rs:98-106 [dump_cis_raw_at_func] *)
Definition dump_cis_raw_at_func (func_num base : Z) (n : nat) : st W () :=
  dump_loop (read_byte_at_func func_num) (Nat.min n 32) (Z.land base SDIO_ADDR_17BIT_MASK).

(** driver/bsp/src/sdio/cis.rs:146-171 [read_vendor_device] *)
Definition read_vendor_device (func_num : Z) : st W (Z * Z) :=
  _ ← st_modify (delay_spin_ms 5);
  cis_ptr_cccr ← read_cccr_cis_ptr;
  first ← (if bool_decide (cis_ptr_cccr ≠ 0 ∧ cis_ptr_cccr ≠ 0xFFFFFF)
           then parse_cis_for_manfid cis_ptr_cccr else mret None);
  match first with
  | Some ids => mret ids
  | None =>
      cis_ptr_fbr ← read_fbr_cis_ptr func_num;
      second ← parse_cis_for_manfid cis_ptr_fbr;
      match second with
      | Some ids => mret ids
      | None =>
          _ ← dump_cis_raw cis_ptr_cccr 16;
          _ ← dump_cis_raw cis_ptr_fbr 16;
          st_err (-2)
      end
  end.

(** driver/bsp/src/sdio/chip_ident.rs:59-83 [identify_chip_from_cis] *)
Definition identify_chip_from_cis (func_num : Z) : st W ProductId :=
  '(vid, did) ← read_vendor_device func_num;
  if negb (is_known_aic_sdio vid did) then st_err (-1)
  else st_lift (ok_or (aicwf_sdio_chipmatch vid did) (-1)).

(** driver/bsp/src/sdio/cis.rs:175-204 [probe_chip_type]; the two busy waits are
    within [spin_us] *)
Definition probe_chip_type : st W ProductId :=
  io_enable ← st_try (read_byte 0x02);
  let io_enable := unwrap_or 0 io_enable in
  _ ← st_try (write_byte 0x02 (Z.lor io_enable 0x04));
  _ ← st_modify (spin_us 1000);
  io_ready ← st_try (read_byte 0x03);
  let io_ready := unwrap_or 0 io_ready in
  _ ← st_try (write_byte 0x02 io_enable);
  if bool_decide (Z.land io_ready 0x04 ≠ 0 ∨ Z.land io_ready 0x10 ≠ 0) then mret Aic8800Dc
  else
    f0 ← st_try (read_byte 0xF0);
    f1 ← st_try (read_byte 0xF1);
    f2 ← st_try (read_byte 0xF2);
    if bool_decide (unwrap_or 0xFF f0 ≠ 0xFF ∨ unwrap_or 0xFF f1 ≠ 0xFF ∨ unwrap_or 0xFF f2 ≠ 0xFF)
    then mret Aic8800D80 else mret Aic8800Dc.
End cis.

(** ** Encoded chains *)

(** A tuple: its code and its body, or a NULL byte. *)
Inductive tuple := TNull | TBody (code : Z) (body : list Z).

Definition encode (t : tuple) : list Z :=
  match t with
  | TNull => [CISTPL_NULL]
  | TBody code body => code :: Z.of_nat (length body) :: body
  end.

(** A tuple the walk passes over. *)
Definition other (t : tuple) : Prop :=
  match t with
  | TNull => True
  | TBody code body =>
      code ≠ CISTPL_END ∧ code ≠ CISTPL_NULL ∧ (length body < 255)%nat ∧
      (code = CISTPL_MANFID → (length body < 4)%nat)
  end.

(** The bytes [l] lie from address [a] on. *)
Definition stored (mem : Z → Z) (a : Z) (l : list Z) : Prop :=
  ∀ i x, l !! i = Some x → mem (a + Z.of_nat i) = x.

Definition manfid (vid did : Z) (more : list Z) : tuple :=
  TBody CISTPL_MANFID (to_le 2 vid ++ to_le 2 did ++ more).

Lemma stored_app mem a l l' :
  stored mem a (l ++ l') → stored mem a l ∧ stored mem (a + Z.of_nat (length l)) l'.
Proof.
  intros Hs. split; intros i x Hi.
  - apply Hs. by apply lookup_app_l_Some.
  - rewrite <- Z.add_assoc, <- Nat2Z.inj_add. apply Hs.
    rewrite lookup_app_r by lia. by rewrite Nat.add_sub'.
Qed.

Lemma stored_cons mem a x l : stored mem a (x :: l) → mem a = x ∧ stored mem (a + 1) l.
Proof.
  intros Hs. split; [by rewrite <- (Hs 0%nat x eq_refl), Z.add_0_r|].
  intros i y Hi. rewrite <- (Hs (S i) y Hi). f_equal. lia.
Qed.

Lemma le_word_bytes v :
  in_range 16 v → Z.lor (v `mod` 256) (Z.shiftl ((v `div` 256) `mod` 256) 8) = v.
Proof.
  unfold in_range. intros Hv. rewrite lor_shiftl_add by (try apply Z.mod_pos_bound; lia).
  rewrite (Z.mod_small (v `div` 256)) by (Z.to_euclidean_division_equations; lia).
  pose proof (Z.div_mod v 256). lia.
Qed.

Lemma le24_bytes v :
  in_range 24 v →
  Z.lor (Z.lor (v `mod` 256) (Z.shiftl ((v `div` 256) `mod` 256) 8))
        (Z.shiftl (((v `div` 256) `div` 256) `mod` 256) 16) = v.
Proof.
  unfold in_range. intros Hv.
  rewrite (lor_shiftl_add 8) by (try apply Z.mod_pos_bound; lia).
  rewrite (lor_shiftl_add 16) by
    (unfold in_range; pose proof (Z.mod_pos_bound v 256); pose proof (Z.mod_pos_bound (v `div` 256) 256); lia).
  rewrite (Z.mod_small ((v `div` 256) `div` 256)) by (Z.to_euclidean_division_equations; lia).
  pose proof (Z.div_mod v 256). pose proof (Z.div_mod (v `div` 256) 256). lia.
Qed.

(** ** Walking a chain *)
Section chain.
Context {W : Type} (rd : Z → st W Z) (mem : Z → Z).

(** The card answers every read from its memory. *)
Hypothesis rd_mem : ∀ a w, rd a w = (Ok (mem a), w).

Lemma read_manfid_stored a vid did more w :
  0 ≤ a → a + 4 < 2 ^ 32 → in_range 16 vid → in_range 16 did →
  stored mem a (to_le 2 vid ++ to_le 2 did ++ more) →
  read_manfid rd a w = (Ok (vid, did), w).
Proof.
  intros Ha Hb Hv Hd Hs. simpl in Hs.
  apply stored_cons in Hs as [E0 Hs]. apply stored_cons in Hs as [E1 Hs].
  apply stored_cons in Hs as [E2 Hs]. apply stored_cons in Hs as [E3 _].
  unfold read_manfid, mbind, st_bind, st_lift. rewrite !add_w_ok by lia.
  repeat (rewrite rd_mem; cbv beta iota).
  replace (a + 2) with (a + 1 + 1) by lia. replace (a + 3) with (a + 1 + 1 + 1) by lia.
  rewrite E0, E1, E2, E3. unfold mret, st_ret. by rewrite !le_word_bytes.
Qed.

(** One tuple that is not the one looked for. *)
Lemma parse_other n a t l w :
  other t → 0 ≤ a → a + Z.of_nat (length (encode t)) < 2 ^ 32 → stored mem a (encode t ++ l) →
  parse_loop rd (S n) a w = parse_loop rd n (a + Z.of_nat (length (encode t))) w.
Proof.
  intros Ho Ha Hb Hs. cbn [parse_loop]. unfold mbind, st_bind. rewrite rd_mem.
  destruct t as [|code body]; simpl in Hs, Hb.
  - apply stored_cons in Hs as [-> _]. simpl. rewrite wrap_id by (unfold in_range; lia). done.
  - destruct Ho as (He & Hn & Hl & Hm).
    apply stored_cons in Hs as [-> Hs]. apply stored_cons in Hs as [E1 _].
    rewrite !bool_decide_false by done. rewrite (wrap_id 32 (a + 1)) by (unfold in_range; lia).
    rewrite rd_mem, E1. unfold CISTPL_END. rewrite bool_decide_false by lia.
    rewrite bool_decide_false by (intros [? ?]; specialize (Hm ltac:(done)); lia).
    f_equal. simpl. rewrite !wrap_id; unfold in_range; rewrite ?wrap_id; unfold in_range; lia.
Qed.

Lemma parse_found n a vid did more l w :
  0 ≤ a → a + 6 < 2 ^ 32 → in_range 16 vid → in_range 16 did → (length more < 251)%nat →
  stored mem a (encode (manfid vid did more) ++ l) →
  parse_loop rd (S n) a w = (Ok (Some (vid, did)), w).
Proof.
  intros Ha Hb Hv Hd Hl Hs. cbn [parse_loop]. unfold mbind, st_bind. rewrite rd_mem.
  pose proof Hs as Hs0. cbn [encode manfid app] in Hs.
  apply stored_cons in Hs as [-> Hs]. apply stored_cons in Hs as [E1 Hs].
  rewrite !bool_decide_false by done. rewrite (wrap_id 32 (a + 1)) by (unfold in_range; lia).
  rewrite rd_mem, E1. unfold CISTPL_END.
  rewrite !length_app, !length_to_le in *.
  rewrite bool_decide_false by lia. rewrite bool_decide_true by (split; [done|lia]).
  rewrite wrap_id by (unfold in_range; lia).
  rewrite <- !app_assoc in Hs. erewrite read_manfid_stored; [done|lia|lia|done..].
Qed.

Lemma parse_chain n pre a vid did more l w :
  Forall other pre → (length pre < n)%nat → 0 ≤ a →
  a + Z.of_nat (length (concat (encode <$> pre))) + 6 < 2 ^ 32 →
  in_range 16 vid → in_range 16 did → (length more < 251)%nat →
  stored mem a (concat (encode <$> pre) ++ encode (manfid vid did more) ++ l) →
  parse_loop rd n a w = (Ok (Some (vid, did)), w).
Proof.
  revert n a. induction pre as [|t pre IH]; intros [|n] a Ho Hn Ha Hb Hv Hd Hl Hs; simpl in Hn; try lia.
  - simpl in Hb. eapply parse_found; [lia|lia|done|done|exact Hl|exact Hs].
  - apply Forall_cons in Ho as [Ht Ho]. rewrite fmap_cons in Hs, Hb. cbn [concat] in Hs, Hb.
    rewrite length_app, Nat2Z.inj_add in Hb. rewrite <- app_assoc in Hs.
    rewrite (parse_other n a t (concat (encode <$> pre) ++ encode (manfid vid did more) ++ l) w)
      by (done || lia).
    apply stored_app in Hs as [_ Hs]. eapply IH; try done; lia.
Qed.
End chain.

(** ** Identifying the chip *)
Section identify.
Context {W : Type} (ops : SdioOps W) `{Clock W} (mem : Z → Z).
#[local] Existing Instance ops.

Definition ptr_at (a p : Z) : Prop := stored mem a (to_le 3 p).

(** The chain the walk follows from [p]: tuples to pass over, at most 255 of
    them, then the MANFID tuple. *)
Definition chain_at (p : Z) (pre : list tuple) (vid did : Z) (more l : list Z) : Prop :=
  in_range 17 p ∧ in_range 16 vid ∧ in_range 16 did ∧ (length more < 251)%nat ∧
  Forall other pre ∧ (length pre < 256)%nat ∧
  stored mem p (concat (encode <$> pre) ++ encode (manfid vid did more) ++ l).

Lemma length_encode t : other t → (length (encode t) ≤ 256)%nat.
Proof. destruct t as [|c b]; simpl; [lia|]. intros (_ & _ & ? & _). lia. Qed.

Lemma length_chain pre : Forall other pre → (length (concat (encode <$> pre)) ≤ 256 * length pre)%nat.
Proof.
  induction 1 as [|t pre Ht _ IH]; [simpl; lia|].
  rewrite fmap_cons. cbn [concat length]. rewrite length_app.
  pose proof (length_encode t Ht). lia.
Qed.

Hypothesis rd_mem : ∀ a w, read_byte a w = (Ok (mem a), w).

Lemma parse_chain_at p pre vid did more l w :
  chain_at p pre vid did more l → parse_cis_for_manfid ops p w = (Ok (Some (vid, did)), w).
Proof.
  intros (Hp & Hv & Hd & Hm & Ho & Hn & Hs). unfold parse_cis_for_manfid, parse_walk.
  change SDIO_ADDR_17BIT_MASK with (Z.ones 17). rewrite land_low_ones by done.
  pose proof (length_chain pre Ho). unfold in_range in Hp.
  eapply parse_chain; try done; lia.
Qed.

Lemma read_ptr_at a p w :
  in_range 24 p → ptr_at a p →
  (b0 ← read_byte a; b1 ← read_byte (a + 1); b2 ← read_byte (a + 2);
   mret (Z.lor (Z.lor b0 (Z.shiftl b1 8)) (Z.shiftl b2 16))) w = (Ok p, w).
Proof.
  intros Hp Hs. unfold ptr_at in Hs. cbn [to_le] in Hs.
  apply stored_cons in Hs as [E0 Hs]. apply stored_cons in Hs as [E1 Hs].
  apply stored_cons in Hs as [E2 _].
  unfold mbind, st_bind. repeat (rewrite rd_mem; cbv beta iota).
  replace (a + 2) with (a + 1 + 1) by lia. rewrite E0, E1, E2.
  unfold mret, st_ret. by rewrite le24_bytes.
Qed.

(** Where the card announces the chain: in the CCCR, or, with no chain there, in
    the FBR of the function. *)
Definition announces (func_num p : Z) : Prop :=
  ptr_at 9 p ∧ p ≠ 0 ∨ ptr_at 9 0 ∧ ptr_at (func_num * 0x100 + 9) p.

Lemma read_vendor_device_found func_num p pre vid did more l w :
  announces func_num p → chain_at p pre vid did more l →
  read_vendor_device ops func_num w = (Ok (vid, did), delay_spin_ms 5 w).
Proof.
  intros Ha Hc. assert (Hp : in_range 17 p) by apply Hc. unfold in_range in Hp.
  assert (Hp24 : in_range 24 p) by (unfold in_range; lia).
  unfold read_vendor_device. unfold mbind at 1, st_bind at 1. cbn [st_modify].
  unfold read_cccr_cis_ptr, SDIO_FBR_CIS. unfold mbind at 1, st_bind at 1.
  destruct Ha as [[H9 H0]|[H9 HF]].
  - rewrite (read_ptr_at 9 p) by done.
    rewrite bool_decide_true by lia. unfold mbind at 1, st_bind at 1.
    by rewrite (parse_chain_at p pre vid did more l).
  - rewrite (read_ptr_at 9 0) by done.
    rewrite bool_decide_false by lia.
    unfold mbind at 1, st_bind at 1. cbv beta iota delta [mret st_ret].
    unfold read_fbr_cis_ptr, sdio_fbr_base, SDIO_FBR_CIS.
    unfold mbind at 1, st_bind at 1. cbv zeta.
    rewrite (read_ptr_at (func_num * 0x100 + 9) p) by done.
    unfold mbind at 1, st_bind at 1. by rewrite (parse_chain_at p pre vid did more l).
Qed.

(** C35 (functional): a card whose registers hold, at the pointer of its CCCR or (that
    one being zero) of its function's FBR, a chain of at most 255 other tuples and
    then a MANFID tuple, is identified by that tuple: as the product [chipmatch]
    gives for the two numbers, and as unsupported ([-1]) when it gives none. *)
Theorem identify_chip (func_num p : Z) (pre : list tuple) (vid did : Z) (more l : list Z) (w : W)
    (Ha : announces func_num p) (Hc : chain_at p pre vid did more l) :
  identify_chip_from_cis ops func_num w =
  (match chipmatch vid did with Some pid => Ok pid | None => Err (-1) end, delay_spin_ms 5 w).
Proof.
  unfold identify_chip_from_cis, mbind, st_bind.
  rewrite (read_vendor_device_found func_num p pre vid did more l) by done.
  rewrite known_iff_chipmatch. unfold aicwf_sdio_chipmatch.
  by destruct (chipmatch vid did).
Qed.
End identify.

(** A D80 card: CCCR pointer 0x1000, a VERS tuple and a NULL before MANFID. *)
Definition d80_cis : list Z := [0x15; 2; 1; 0; 0; 0x20; 4; 0xa1; 0xc8; 0x82; 0x00; 0xff].
Definition d80_mem (a : Z) : Z :=
  if bool_decide (a = 0xa) then 0x10
  else if bool_decide (0x1000 ≤ a < 0x100c) then nth (Z.to_nat (a - 0x1000)) d80_cis 0 else 0.

Definition mem_ops : SdioOps () := {|
  writeb := λ _ _ w, (Ok (), w); readb := λ _ w, (Ok 0, w); readb_func2 := λ _ w, (Ok 0, w);
  writeb_func2 := λ _ _ w, (Ok (), w); read_byte := λ a w, (Ok (d80_mem a), w);
  read_byte_f0 := λ a w, (Ok (d80_mem a), w); read_byte_at_func := λ _ _ w, (Ok 0, w);
  write_byte := λ _ _ w, (Ok (), w); recv_pkt := λ b _ _ w, (Ok (b, 0%nat), w);
  send_pkt := λ _ _ w, (Ok 0%nat, w); send_msg := λ _ _ w, (Ok 0%nat, w);
  read_block := λ _ b w, (Ok (b, 0%nat), w); write_block := λ _ _ w, (Ok 0%nat, w) |}.

Lemma identify_chip_witness :
  identify_chip_from_cis (H := no_clock) mem_ops 1 () = (Ok Aic8800D80, ()).
Proof.
  apply (identify_chip (H := no_clock) mem_ops d80_mem (λ a w, eq_refl) 1 0x1000
           [TBody 0x15 [1; 0]; TNull] 0xc8a1 0x0082 [] [0xff]).
  - left. split; [|discriminate]. intros i x.
    do 3 (destruct i as [|i]; [intros [= <-]; reflexivity|]). discriminate.
  - unfold chain_at, in_range. split_and!; try (vm_compute; (done || lia)).
    + repeat constructor; vm_compute; try discriminate; lia.
    + intros i x. do 12 (destruct i as [|i]; [intros [= <-]; reflexivity|]). discriminate.
Defined.
