(* ===== verification/FwLoad.v ===== *)
(** * Firmware loading: [driver/bsp/src/fw_load.rs]

    The DBG_* messages ([Dbg]), the registry of firmware images ([Store]), and
    the request/confirmation exchanges of [send_dbg_mem_read],
    [send_dbg_mem_write], [fw_upload_blocks] and [fw_start_app] ([Load]). *)

From S2P Require Import Prelude CmdMgr.

(** ** Messages *)
Module Dbg.
Import Lmac.

(** driver/bsp/src/fw_load.rs:9-9 [TASK_DBG] *)
Definition TASK_DBG : Z := 1.
(** driver/bsp/src/fw_load.rs:11-11 [DRV_TASK_ID] *)
Definition DRV_TASK_ID : Z := 100.
(** driver/bsp/src/fw_load.rs:14-14 [DBG_MEM_READ_REQ] *)
Definition DBG_MEM_READ_REQ : Z := 1024.
(** driver/bsp/src/fw_load.rs:15-15 [DBG_MEM_READ_CFM] *)
Definition DBG_MEM_READ_CFM : Z := 1025.
(** driver/bsp/src/fw_load.rs:16-16 [DBG_MEM_WRITE_REQ] *)
Definition DBG_MEM_WRITE_REQ : Z := 1026.
(** driver/bsp/src/fw_load.rs:17-17 [DBG_MEM_WRITE_CFM] *)
Definition DBG_MEM_WRITE_CFM : Z := 1027.
(** driver/bsp/src/fw_load.rs:18-18 [DBG_MEM_BLOCK_WRITE_REQ] *)
Definition DBG_MEM_BLOCK_WRITE_REQ : Z := 1034.
(** driver/bsp/src/fw_load.rs:19-19 [DBG_MEM_BLOCK_WRITE_CFM] *)
Definition DBG_MEM_BLOCK_WRITE_CFM : Z := 1035.
(** driver/bsp/src/fw_load.rs:20-20 [DBG_START_APP_REQ] *)
Definition DBG_START_APP_REQ : Z := 1036.
(** driver/bsp/src/fw_load.rs:21-21 [DBG_START_APP_CFM] *)
Definition DBG_START_APP_CFM : Z := 1037.
(** driver/bsp/src/fw_load.rs:22-22 [DBG_MEM_MASK_WRITE_REQ] *)
Definition DBG_MEM_MASK_WRITE_REQ : Z := 1038.
(** driver/bsp/src/fw_load.rs:23-23 [DBG_MEM_MASK_WRITE_CFM] *)
Definition DBG_MEM_MASK_WRITE_CFM : Z := 1039.
(** driver/bsp/src/fw_load.rs:26-26 [RAM_FMAC_FW_ADDR] *)
Definition RAM_FMAC_FW_ADDR : Z := 0x00120000.
(** driver/bsp/src/fw_load.rs:28-28 [RAM_FMAC_FW_PATCH_ADDR] *)
Definition RAM_FMAC_FW_PATCH_ADDR : Z := 0x00190000.
(** driver/bsp/src/fw_load.rs:30-30 [HOST_START_APP_AUTO] *)
Definition HOST_START_APP_AUTO : Z := 1.
(** driver/bsp/src/fw_load.rs:33-33 [HOST_START_APP_DUMMY] *)
Definition HOST_START_APP_DUMMY : Z := 0.
(** driver/bsp/src/fw_load.rs:36-36 [CHIP_REV_MEM_ADDR] *)
Definition CHIP_REV_MEM_ADDR : Z := 0x40500000.

(** [msg.param[off..off+n].copy_from_slice(src)]; the offsets below are within
    the array's 1032 bytes. *)
Definition set_param (off : nat) (src : list Z) (m : LmacMsg) : LmacMsg :=
  mkMsg m.(header) (splice off src m.(param)).

(** driver/bsp/src/fw_load.rs:66-70 [build_dbg_mem_read_req] *)
Definition build_dbg_mem_read_req (mem_addr : Z) : LmacMsg :=
  set_param 0 (to_le 4 mem_addr) (new DBG_MEM_READ_REQ TASK_DBG DRV_TASK_ID 4).

(** driver/bsp/src/fw_load.rs:101-111 [parse_dbg_mem_read_cfm_full] *)
Definition parse_dbg_mem_read_cfm_full (param : list Z) : option (Z * Z) :=
  if bool_decide (length param < 8)%nat then None
  else Some (of_le (slice 0 4 param), of_le (slice 4 4 param)).

(** driver/bsp/src/fw_load.rs:77-84 [parse_dbg_mem_read_cfm] *)
Definition parse_dbg_mem_read_cfm (param : list Z) : option Z :=
  if bool_decide (length param < 8)%nat then None else Some (of_le (slice 4 4 param)).

(** driver/bsp/src/fw_load.rs:90-98 [parse_dbg_mem_read_cfm_with_addr] *)
Definition parse_dbg_mem_read_cfm_with_addr (param : list Z) (requested_addr : Z) : option Z :=
  '(first, second) ← parse_dbg_mem_read_cfm_full param;
  Some (if bool_decide (second = requested_addr) then first else second).

(** driver/bsp/src/fw_load.rs:114-119 [build_dbg_mem_write_req] *)
Definition build_dbg_mem_write_req (mem_addr mem_data : Z) : LmacMsg :=
  set_param 4 (to_le 4 mem_data)
    (set_param 0 (to_le 4 mem_addr) (new DBG_MEM_WRITE_REQ TASK_DBG DRV_TASK_ID 8)).

(** driver/bsp/src/fw_load.rs:122-128 [build_dbg_mem_mask_write_req] *)
Definition build_dbg_mem_mask_write_req (mem_addr mem_mask mem_data : Z) : LmacMsg :=
  set_param 8 (to_le 4 mem_data) (set_param 4 (to_le 4 mem_mask)
    (set_param 0 (to_le 4 mem_addr) (new DBG_MEM_MASK_WRITE_REQ TASK_DBG DRV_TASK_ID 12))).

(** driver/bsp/src/fw_load.rs:205-219 [build_dbg_mem_block_write_req] *)
Definition build_dbg_mem_block_write_req (mem_addr mem_size : Z) (mem_data : list Z) :
    option LmacMsg :=
  let param_len := (8 + length mem_data)%nat in
  if bool_decide (LMAC_MSG_MAX_LEN < param_len)%nat then None
  else Some (set_param 8 mem_data (set_param 4 (to_le 4 mem_size) (set_param 0 (to_le 4 mem_addr)
         (new DBG_MEM_BLOCK_WRITE_REQ TASK_DBG DRV_TASK_ID (wrap 16 (Z.of_nat param_len)))))).

(** driver/bsp/src/fw_load.rs:223-228 [build_dbg_start_app_req] *)
Definition build_dbg_start_app_req (boot_addr boot_type : Z) : LmacMsg :=
  set_param 4 (to_le 4 boot_type)
    (set_param 0 (to_le 4 boot_addr) (new DBG_START_APP_REQ TASK_DBG DRV_TASK_ID 8)).

Lemma parse_words a b rest :
  in_range 32 a → in_range 32 b →
  parse_dbg_mem_read_cfm_full (to_le 4 a ++ to_le 4 b ++ rest) = Some (a, b).
Proof.
  intros Ha Hb. unfold parse_dbg_mem_read_cfm_full.
  rewrite bool_decide_false by (rewrite !length_app, !length_to_le; lia).
  change (slice 0 4 (to_le 4 a ++ to_le 4 b ++ rest)) with (to_le 4 a).
  change (slice 4 4 (to_le 4 a ++ to_le 4 b ++ rest)) with (to_le 4 b).
  by rewrite !of_le_to_le_id by done.
Qed.

Lemma parse_addr_data addr data rest :
  in_range 32 addr → in_range 32 data →
  parse_dbg_mem_read_cfm_with_addr (to_le 4 addr ++ to_le 4 data ++ rest) addr = Some data.
Proof.
  intros. unfold parse_dbg_mem_read_cfm_with_addr. rewrite parse_words by done. simpl.
  by case_bool_decide; subst.
Qed.

(** Whichever of its two words the chip puts first, the answer
    to a memory read is decoded to the data word, also when that equals the
    address; and an answer shorter than the two words is refused. *)
Lemma dbg_read_either_order (addr data : Z) (rest short : list Z)
    (Ha : in_range 32 addr) (Hd : in_range 32 data) (Hs : (length short < 8)%nat) :
  parse_dbg_mem_read_cfm_with_addr (to_le 4 addr ++ to_le 4 data ++ rest) addr = Some data ∧
  parse_dbg_mem_read_cfm_with_addr (to_le 4 data ++ to_le 4 addr ++ rest) addr = Some data ∧
  parse_dbg_mem_read_cfm_with_addr short addr = None.
Proof.
  split_and!; [by apply parse_addr_data| |].
  - unfold parse_dbg_mem_read_cfm_with_addr. rewrite parse_words by done. simpl.
    by rewrite bool_decide_true.
  - unfold parse_dbg_mem_read_cfm_with_addr, parse_dbg_mem_read_cfm_full.
    by rewrite bool_decide_true by lia.
Qed.

Lemma dbg_read_either_order_witness :
  parse_dbg_mem_read_cfm_with_addr (to_le 4 0x00070000 ++ to_le 4 0x40500000 ++ []) 0x40500000
  = Some 0x00070000.
Proof.
  apply (dbg_read_either_order 0x40500000 0x00070000 [] []); unfold in_range; simpl; lia.
Defined.

End Dbg.

(** ** The registry of images *)
Module Store.

(** driver/bsp/src/fw_load.rs:40-40 [MAX_FIRMWARE_SLOTS] *)
Definition MAX_FIRMWARE_SLOTS : nat := 12.

(** driver/bsp/src/fw_load.rs:41-42 [WIFI_FIRMWARE_STORE] *)
Definition t : Type := list (option (string * list Z)).

(** driver/bsp/src/fw_load.rs:41-42 [WIFI_FIRMWARE_STORE], its initial value *)
Definition empty : t := replicate MAX_FIRMWARE_SLOTS None.

(** driver/bsp/src/fw_load.rs:45-50 [set_wifi_firmware] *)
Definition set_wifi_firmware (name : string) (data : list Z) (s : t) : t :=
  match list_find (λ x, x = None) s with
  | Some (i, _) => <[i := Some (name, data)]> s
  | None => s
  end.

(** driver/bsp/src/fw_load.rs:53-58 [get_wifi_firmware] *)
Fixpoint get_wifi_firmware (name : string) (s : t) : option (list Z) :=
  match s with
  | [] => None
  | Some (n, d) :: s => if bool_decide (n = name) then Some d else get_wifi_firmware name s
  | None :: s => get_wifi_firmware name s
  end.

(** driver/bsp/src/fw_load.rs:61-63 [get_firmware_by_name]; [embedded] is the
    lookup of firmware_data.rs among the images the build embeds *)
Definition get_firmware_by_name (embedded : string → option (list Z)) (name : string) (s : t) :
    option (list Z) :=
  match embedded name with Some d => Some d | None => get_wifi_firmware name s end.

End Store.

(** ** Exchanges *)
Module Load.
Import Dbg.

(** The exchanges work on a manager the caller holds and on [E], everything else:
    the transport under [tx_fn], the receiver under [poll_fn], the clock. *)
Section exchange.
Context {E : Type} (tx_fn : Lmac.LmacMsg → st E ()) (poll_fn : Mgr.t → E → Mgr.t * E)
        (pause spin_100ms : E → E).

Definition on_mgr {A} (f : Mgr.t → A * Mgr.t) : st (Mgr.t * E) A := λ '(m, e),
  let '(a, m) := f m in (Ok a, (m, e)).
Definition on_env {A} (f : st E A) : st (Mgr.t * E) A := λ '(m, e),
  let '(r, e) := f e in (r, (m, e)).

(** driver/bsp/src/fw_load.rs:144-145 [send_dbg_mem_read]: push, then transmit; the other
    exchanges begin the same way (179-180, 198-199, 290-291) *)
Definition request (cfm : Z) (msg : Lmac.LmacMsg) : st (Mgr.t * E) nat :=
  slot ← on_mgr (Mgr.push cfm);
  token ← st_lift (ok_or slot (-12));
  _ ← st_map_err (-5) (on_env (tx_fn msg));
  mret token.

Definition wait (tick : option (Z → E → E)) (token : nat) (timeout_ms : Z) : st (Mgr.t * E) () :=
  λ '(m, e), Mgr.wait_done poll_fn tick pause token timeout_ms m e.

(** driver/bsp/src/fw_load.rs:132-156 [send_dbg_mem_read] *)
Definition send_dbg_mem_read (mem_addr timeout_ms : Z) (after_delay : option (E → E)) :
    st (Mgr.t * E) Z :=
  token ← request DBG_MEM_READ_CFM (build_dbg_mem_read_req mem_addr);
  _ ← on_env (st_modify spin_100ms);
  _ ← on_env (st_modify (default id after_delay));
  _ ← wait None token timeout_ms;
  taken ← on_mgr (Mgr.take_cfm token (zeros 16));
  '(len, cfm_buf) ← st_lift (ok_or taken (-5));
  cfm ← st_lift (slice_to 0 len cfm_buf);
  st_lift (ok_or (parse_dbg_mem_read_cfm_with_addr cfm mem_addr) (-5)).

(** driver/bsp/src/fw_load.rs:160-182 [send_dbg_mem_write] *)
Definition send_dbg_mem_write (mem_addr mem_data timeout_ms : Z) (tick : option (Z → E → E)) :
    st (Mgr.t * E) () :=
  token ← request DBG_MEM_WRITE_CFM (build_dbg_mem_write_req mem_addr mem_data);
  wait tick token timeout_ms.

(** driver/bsp/src/fw_load.rs:185-201 [send_dbg_mem_mask_write] *)
Definition send_dbg_mem_mask_write (mem_addr mem_mask mem_data timeout_ms : Z) :
    st (Mgr.t * E) () :=
  token ← request DBG_MEM_MASK_WRITE_CFM (build_dbg_mem_mask_write_req mem_addr mem_mask mem_data);
  wait None token timeout_ms.

(** driver/bsp/src/fw_load.rs:277-293 [fw_start_app] *)
Definition fw_start_app (boot_addr boot_type timeout_ms : Z) : st (Mgr.t * E) () :=
  token ← request DBG_START_APP_CFM (build_dbg_start_app_req boot_addr boot_type);
  wait None token timeout_ms.
End exchange.

(** *** The block upload *)
Section upload.
Context {S : Type} (tx_fn : Lmac.LmacMsg → st S ()) (push_fn : st S (option nat))
        (wait_fn : nat → st S ()).

(** driver/bsp/src/fw_load.rs:245-245 [BLOCK] *)
Definition BLOCK : nat := 1024.

(** driver/bsp/src/fw_load.rs:257-271 [fw_upload_blocks], the loop; each round
    consumes at least one byte, so [length data] rounds are enough *)
Fixpoint upload_loop (fuel : nat) (addr : Z) (off : nat) (data : list Z) : st S () :=
  if bool_decide (off < length data)%nat then
    match fuel with
    | O => st_lift Panic
    | Datatypes.S fuel =>
        let len := Nat.min (length data - off) BLOCK in
        block ← st_lift (slice_to off (off + len) data);
        msg ← st_lift (ok_or (build_dbg_mem_block_write_req addr (Z.of_nat len) block) (-12));
        slot ← push_fn;
        token ← st_lift (ok_or slot (-12));
        _ ← st_map_err (-5) (tx_fn msg);
        _ ← wait_fn token;
        addr ← st_lift (add_w 32 addr (Z.of_nat len));
        upload_loop fuel addr (off + len) data
    end
  else mret ().

(** driver/bsp/src/fw_load.rs:232-274 [fw_upload_blocks] *)
Definition fw_upload_blocks (mem_addr : Z) (data : list Z) : st S () :=
  upload_loop (length data) mem_addr 0 data.
End upload.

(** *** What the upload leaves in the chip's memory *)

Definition write_bytes (a : Z) (d : list Z) (mem : Z → Z) (x : Z) : Z :=
  if bool_decide (a ≤ x) then default (mem x) (d !! Z.to_nat (x - a)) else mem x.

(** The chip's side of DBG_MEM_BLOCK_WRITE: address, size, then the bytes. *)
Definition apply_block_write (m : Lmac.LmacMsg) (mem : Z → Z) : Z → Z :=
  if bool_decide (m.(Lmac.header).(Lmac.id) = DBG_MEM_BLOCK_WRITE_REQ)
  then write_bytes (of_le (slice 0 4 m.(Lmac.param)))
         (slice 8 (Z.to_nat (of_le (slice 4 4 m.(Lmac.param)))) m.(Lmac.param)) mem
  else mem.

Lemma write_bytes_app a d d' mem x :
  write_bytes (a + Z.of_nat (length d)) d' (write_bytes a d mem) x = write_bytes a (d ++ d') mem x.
Proof.
  unfold write_bytes. repeat case_bool_decide; try lia; try done.
  - rewrite lookup_app_r by lia. rewrite (lookup_ge_None_2 d) by lia. simpl.
    do 2 f_equal. lia.
  - by rewrite lookup_app_l by lia.
Qed.

Lemma write_bytes_nil a mem x : write_bytes a [] mem x = mem x.
Proof. unfold write_bytes. by case_bool_decide. Qed.

Lemma write_bytes_ext a d mem mem' x :
  mem x = mem' x → write_bytes a d mem x = write_bytes a d mem' x.
Proof. unfold write_bytes. by intros ->. Qed.

Lemma build_block_write a d :
  in_range 32 a → (length d ≤ BLOCK)%nat →
  ∃ m, build_dbg_mem_block_write_req a (Z.of_nat (length d)) d = Some m ∧
       ∀ mem, apply_block_write m mem = write_bytes a d mem.
Proof.
  unfold BLOCK. intros Ha Hd. unfold build_dbg_mem_block_write_req.
  rewrite bool_decide_false by (unfold Lmac.LMAC_MSG_MAX_LEN; lia). eexists. split; [done|].
  intros mem. unfold apply_block_write. cbn [set_param Lmac.new Lmac.header Lmac.param Lmac.id].
  rewrite bool_decide_true by done. unfold Lmac.LMAC_MSG_MAX_LEN.
  set (p0 := splice 0 (to_le 4 a) (zeros 1032)).
  set (p1 := splice 4 (to_le 4 (Z.of_nat (length d))) p0).
  assert (L0 : length p0 = 1032%nat).
  { unfold p0. rewrite length_splice, length_zeros; [done|]. rewrite length_to_le, length_zeros. lia. }
  assert (L1 : length p1 = 1032%nat).
  { unfold p1. rewrite length_splice; [done|]. rewrite length_to_le, L0. lia. }
  assert (E1 : slice 0 4 (splice 8 d p1) = to_le 4 a).
  { rewrite slice_splice_before by lia. unfold p1.
    rewrite slice_splice_before by (rewrite ?length_to_le, ?L0; lia).
    apply (slice_splice 0 (to_le 4 a)). rewrite length_to_le, length_zeros. lia. }
  assert (E2 : slice 4 4 (splice 8 d p1) = to_le 4 (Z.of_nat (length d))).
  { rewrite slice_splice_before by lia.
    apply (slice_splice 4 (to_le 4 (Z.of_nat (length d)))). rewrite length_to_le, L0. lia. }
  rewrite E1, E2, !of_le_to_le_id by (unfold in_range in *; lia). rewrite Nat2Z.id.
  by rewrite slice_splice by lia.
Qed.

Section upload_correct.
Context {S : Type} (tx_fn : Lmac.LmacMsg → st S ()) (push_fn : st S (option nat))
        (wait_fn : nat → st S ()) (mem : S → Z → Z).

(** A transport that works: a slot is free, the chip carries every message out,
    and its confirmation arrives. *)
Hypothesis push_ok : ∀ s, ∃ tok s', push_fn s = (Ok (Some tok), s') ∧ ∀ x, mem s' x = mem s x.
Hypothesis tx_ok : ∀ m s, ∃ s', tx_fn m s = (Ok (), s') ∧
  ∀ x, mem s' x = apply_block_write m (mem s) x.
Hypothesis wait_ok : ∀ tok s, ∃ s', wait_fn tok s = (Ok (), s') ∧ ∀ x, mem s' x = mem s x.

Lemma upload_loop_writes fuel a off data s :
  (length data - off ≤ fuel)%nat → (off ≤ length data)%nat → 0 ≤ a →
  a + Z.of_nat (length data - off) < 2 ^ 32 →
  ∃ s', upload_loop tx_fn push_fn wait_fn fuel a off data s = (Ok (), s') ∧
        ∀ x, mem s' x = write_bytes a (drop off data) (mem s) x.
Proof.
  revert a off s. induction fuel as [|fuel IH]; intros a off s Hf Ho Ha Hb; cbn [upload_loop].
  - rewrite bool_decide_false by lia. exists s. split; [done|]. intros x.
    rewrite drop_ge by lia. by rewrite write_bytes_nil.
  - case_bool_decide as Hlt.
    2:{ exists s. split; [done|]. intros x. rewrite drop_ge by lia. by rewrite write_bytes_nil. }
    set (len := Nat.min (length data - off) BLOCK).
    assert (Hlen : (0 < len ≤ length data - off)%nat) by (unfold len, BLOCK; lia).
    rewrite slice_to_ok by lia. rewrite Nat.add_sub'.
    assert (Hsl : length (slice off len data) = len) by (rewrite length_slice; lia).
    destruct (build_block_write a (slice off len data)) as (m & Hm & Happ);
      [unfold in_range; lia|rewrite Hsl; unfold len, BLOCK; lia|].
    rewrite Hsl in Hm. unfold mbind, st_bind, st_lift, st_map_err. rewrite Hm. simpl.
    destruct (push_ok s) as (tok & s1 & -> & M1). simpl.
    destruct (tx_ok m s1) as (s2 & -> & M2). simpl.
    destruct (wait_ok tok s2) as (s3 & -> & M3). rewrite add_w_ok by lia.
    destruct (IH (a + Z.of_nat len) (off + len)%nat s3) as (s' & E & M); try lia.
    exists s'. split; [exact E|]. intros x. rewrite M.
    rewrite (write_bytes_ext _ _ (mem s3) (write_bytes a (slice off len data) (mem s))).
    + rewrite <- Hsl at 1. rewrite write_bytes_app. f_equal. unfold slice.
      rewrite <- (take_drop len (drop off data)) at 2. by rewrite drop_drop.
    + rewrite M3, M2, Happ. by apply write_bytes_ext.
Qed.

(** C18 (refinement): over a transport that carries the messages out,
    [fw_upload_blocks] terminates successfully and the chip's memory holds the
    image from [mem_addr] on, byte for byte, and is unchanged everywhere else:
    the 1024-byte blocks neither overlap nor leave a gap. *)
Theorem fw_upload_writes_image (mem_addr : Z) (data : list Z) (s : S)
    (Ha : 0 ≤ mem_addr) (Hb : mem_addr + Z.of_nat (length data) < 2 ^ 32) :
  ∃ s', fw_upload_blocks tx_fn push_fn wait_fn mem_addr data s = (Ok (), s') ∧
    (∀ i b, data !! i = Some b → mem s' (mem_addr + Z.of_nat i) = b) ∧
    (∀ x, x < mem_addr ∨ mem_addr + Z.of_nat (length data) ≤ x → mem s' x = mem s x).
Proof.
  destruct (upload_loop_writes (length data) mem_addr 0 data s) as (s' & E & M); try lia.
  exists s'. split; [exact E|]. rewrite drop_0 in M. unfold write_bytes in M. split.
  - intros i b Hi. rewrite M, bool_decide_true by lia.
    by replace (Z.to_nat (mem_addr + Z.of_nat i - mem_addr)) with i by lia; rewrite Hi.
  - intros x Hx. rewrite M. case_bool_decide; [|done]. by rewrite lookup_ge_None_2 by lia.
Qed.
End upload_correct.

Lemma fw_upload_writes_image_witness :
  ∃ mem', fw_upload_blocks (S := Z → Z) (λ m s, (Ok (), apply_block_write m s))
            (λ s, (Ok (Some 0%nat), s)) (λ _ s, (Ok (), s)) 0x120000 [1; 2; 3] (λ _, 0)
          = (Ok (), mem') ∧ mem' 0x120001 = 2.
Proof.
  destruct (fw_upload_writes_image (S := Z → Z) (λ m s, (Ok (), apply_block_write m s))
    (λ s, (Ok (Some 0%nat), s)) (λ _ s, (Ok (), s)) id
    ltac:(intros s; exists 0%nat, s; split; reflexivity)
    ltac:(intros m s; exists (apply_block_write m s); split; reflexivity)
    ltac:(intros tok s; exists s; split; reflexivity)
    0x120000 [1; 2; 3] (λ _, 0) ltac:(lia) ltac:(simpl; lia)) as (s' & E & H & _).
  exists s'. split; [exact E|]. exact (H 1%nat 2 eq_refl).
Defined.

(** *** What an exchange does to the slots

    The receiver answers at its [k]-th poll from now. *)

Definition answer_poll (cfm : Z) (ans : list Z) (m : Mgr.t) (k : nat) : Mgr.t * nat :=
  match k with O => ((Mgr.on_cfm cfm ans m).1, 0%nat) | S k => (m, k) end.

Lemma wait_loop_answered tok cfm ans n w m k :
  Mgr.sole cfm tok m →
  Mgr.wait_loop (answer_poll cfm ans) None id tok n w m k =
  if bool_decide (k < n)%nat then (Ok (), ((Mgr.on_cfm cfm ans m).1, 0%nat))
  else (Err (-62), (m, (k - n)%nat)).
Proof.
  intros Hs. pose proof Hs as (Hwf & Ht & _). revert w k.
  assert (D0 : Mgr.is_done tok m = false) by by rewrite (Mgr.is_done_lookup _ _ _ Hwf Ht).
  induction n as [|n IH]; intros w k; cbn [Mgr.wait_loop].
  { rewrite bool_decide_false by lia. by rewrite Nat.sub_0_r. }
  rewrite D0. destruct k as [|k]; cbn [answer_poll].
  - rewrite bool_decide_true by lia.
    destruct (Mgr.on_cfm cfm ans m) as [m' wk] eqn:E. simpl.
    destruct (Mgr.on_cfm_sole _ _ _ _ _ _ Hs E) as [_ [Hwf' Ht']].
    by rewrite (Mgr.is_done_lookup _ _ _ Hwf' Ht').
  - rewrite D0. replace (Mgr.end_round None id w k) with k
      by (unfold Mgr.end_round; by case_bool_decide).
    rewrite IH.
    case_bool_decide; [by rewrite bool_decide_true by lia|by rewrite bool_decide_false by lia].
Qed.

Section slots.
Context (tr : list Mgr.ev) (m : Mgr.t).
Hypothesis Hrun : Mgr.run Mgr.disciplined Mgr.new tr m.
Hypothesis Hstate : m.(Mgr.state) ≠ Mgr.Crashed.
Hypothesis Hfree : None ∈ m.(Mgr.slots).

Definition quiet_tx : Lmac.LmacMsg → st nat () := λ _ e, (Ok (), e).

Lemma request_ok cfm msg e :
  (∀ s, s ∈ m.(Mgr.slots) → Mgr.awaits cfm s = false) →
  ∃ tok m1, request quiet_tx cfm msg (m, e) = (Ok tok, (m1, e)) ∧ Mgr.sole cfm tok m1 ∧
            Mgr.occupied m1 = S (Mgr.occupied m).
Proof.
  intros Hno. pose proof (Mgr.run_counted _ _ Hrun) as Hc.
  destruct (Mgr.push cfm m) as [[tok|] m1] eqn:E.
  - exists tok, m1. unfold request, on_mgr, mbind, st_bind. rewrite E. simpl. split; [done|].
    split; [eapply Mgr.push_sole; [apply Hc|done|exact E]|by eapply Mgr.occupied_push].
  - exfalso. destruct (proj1 (Mgr.push_none_iff cfm m Hc)) as [?|Hf]; [by rewrite E|done|].
    by apply (Hf None).
Qed.

Lemma freed_slot tok cfm ans m1 :
  Mgr.sole cfm tok m1 → (length ans ≤ 16)%nat →
  ∃ m', Mgr.take_cfm tok (zeros 16) (Mgr.on_cfm cfm ans m1).1 =
          (Some (length ans, ans ++ zeros (16 - length ans)), m') ∧
        S (Mgr.occupied m') = Mgr.occupied m1.
Proof.
  intros Hs Hl. destruct (Mgr.on_cfm cfm ans m1) as [m2 w] eqn:E.
  destruct (Mgr.on_cfm_sole _ _ _ _ _ _ Hs E) as [_ H2].
  destruct (Mgr.take_holds _ tok (zeros 16) m2 H2 eq_refl) as (m' & T & Hf). exists m'.
  assert (O2 : Mgr.occupied m2 = Mgr.occupied m1)
    by (pose proof (Mgr.occupied_cfm cfm ans m1 (proj1 Hs)) as O; by rewrite E in O).
  split.
  - simpl. rewrite T. unfold Mgr.completed, Mgr.confirm, Lmac.RWNX_CMD_E2AMSG_LEN_MAX; simpl.
    rewrite (Nat.min_l (length ans) 256), Nat.min_l by lia. rewrite (take_ge ans) by lia.
    unfold splice; simpl. rewrite take_app_le, take_ge by lia.
    unfold zeros. by rewrite drop_replicate.
  - rewrite <- O2. destruct H2 as [_ H2]. apply Mgr.take_inv in T as [([=] & _)|(s & Hi & _ & -> & _)].
    unfold Mgr.occupied; simpl. pose proof (countb_insert Mgr.taken _ _ _ None Hi) as C.
    simpl in C. lia.
Qed.

(** An exchange with a chip that answers at the [k]-th poll, begun
    with a free slot: within the timeout a memory read returns the data word and
    gives its slot back, while a memory write succeeds and leaves its slot
    occupied; past the timeout the read fails with [-62] and its slot stays
    occupied too. *)
Lemma dbg_exchange_slots (addr data : Z) (T : Z) (k : nat)
    (Ha : in_range 32 addr) (Hd : in_range 32 data)
    (Hr : ∀ s, s ∈ m.(Mgr.slots) → Mgr.awaits DBG_MEM_READ_CFM s = false)
    (Hw : ∀ s, s ∈ m.(Mgr.slots) → Mgr.awaits DBG_MEM_WRITE_CFM s = false) :
  let ans := to_le 4 addr ++ to_le 4 data in
  let read := send_dbg_mem_read quiet_tx (answer_poll DBG_MEM_READ_CFM ans) id id addr T None in
  let write := send_dbg_mem_write quiet_tx (answer_poll DBG_MEM_WRITE_CFM []) id addr data T None in
  if bool_decide (k < Z.to_nat T)%nat then
    (∃ m' e', read (m, k) = (Ok data, (m', e')) ∧ Mgr.occupied m' = Mgr.occupied m) ∧
    (∃ m' e', write (m, k) = (Ok (), (m', e')) ∧ Mgr.occupied m' = S (Mgr.occupied m))
  else
    ∃ m' e', read (m, k) = (Err (-62), (m', e')) ∧ Mgr.occupied m' = S (Mgr.occupied m).
Proof.
  intros ans read write.
  destruct (request_ok DBG_MEM_READ_CFM (build_dbg_mem_read_req addr) k Hr) as (tok & m1 & E & Hs & Ho).
  assert (R : read (m, k) =
    (_ ← wait (answer_poll DBG_MEM_READ_CFM ans) id None tok T;
     taken ← on_mgr (Mgr.take_cfm tok (zeros 16));
     '(len, buf) ← st_lift (ok_or taken (-5));
     cfm ← st_lift (slice_to 0 len buf);
     st_lift (ok_or (parse_dbg_mem_read_cfm_with_addr cfm addr) (-5))) (m1, k)).
  { unfold read, send_dbg_mem_read. unfold mbind at 1, st_bind at 1. by rewrite E. }
  rewrite R. unfold mbind, st_bind, wait, Mgr.wait_done. cbv beta iota.
  rewrite !wait_loop_answered by done. case_bool_decide as Hk.
  - split.
    + destruct (freed_slot tok DBG_MEM_READ_CFM ans m1 Hs) as (m' & T' & O'); [simpl; lia|].
      exists m', 0%nat. split; [|lia]. unfold on_mgr. cbv beta iota. fold ans. rewrite T'. cbv beta iota.
      unfold st_lift, ok_or. cbv beta iota. unfold ans.
      rewrite slice_to_ok by (rewrite ?length_app, ?length_to_le, ?length_zeros; lia).
      cbv beta iota. rewrite Nat.sub_0_r, slice_app_l, take_ge by done.
      rewrite <- (app_nil_r (to_le 4 data)). by rewrite parse_addr_data.
    + destruct (request_ok DBG_MEM_WRITE_CFM (build_dbg_mem_write_req addr data) k Hw)
        as (tokw & m2 & Ew & Hsw & How).
      unfold write, send_dbg_mem_write. unfold mbind, st_bind. rewrite Ew.
      unfold wait, Mgr.wait_done. rewrite wait_loop_answered by done.
      rewrite bool_decide_true by done. eexists _, _. split; [done|].
      rewrite Mgr.occupied_cfm by apply Hsw. done.
  - eexists _, _. split; [done|]. done.
Qed.
End slots.

Lemma dbg_exchange_slots_witness :
  ∃ m' e',
    send_dbg_mem_write quiet_tx (answer_poll DBG_MEM_WRITE_CFM []) id 0x40500000 7 2000 None
      (Mgr.new, 3%nat) = (Ok (), (m', e')) ∧
    Mgr.occupied m' = 1%nat.
Proof.
  apply (dbg_exchange_slots [] Mgr.new (Mgr.run_nil _ _) ltac:(done) (list_elem_of_lookup_2 (replicate 8 None) 0%nat None eq_refl)
           0x40500000 7 2000 3 ltac:(unfold in_range; lia) ltac:(unfold in_range; lia));
    intros s Hs; repeat (apply elem_of_cons in Hs as [->|Hs]; [done|]); by apply elem_of_nil in Hs.
Defined.

End Load.
