(* ===== verification/Mmc.v ===== *)
(** * The MMC layer: [kernel/mmc/src] and its BSP side [mmc_impl.rs]

    Device identifiers and their matching, the CCCR sequences that enable and
    disable a function, the single-slot driver registry, and [BspSdioFuncRef], the
    function view of the chip the registry probes with. *)

From S2P Require Import Prelude Chip Host SdioOps Cis.

(** ** Identifiers *)
Module Types.

(** kernel/mmc/src/types.rs:7-14 [SdioDeviceId] *)
Record SdioDeviceId := mkId { class : Z; vendor : Z; device : Z }.
#[export] Instance SdioDeviceId_eq_dec : EqDecision SdioDeviceId.
Proof. solve_decision. Defined.

(** kernel/mmc/src/types.rs:17-17 [SDIO_ANY_ID] *)
Definition SDIO_ANY_ID : Z := 0xff.
(** kernel/mmc/src/types.rs:18-18 [SDIO_ANY_ID_U16] *)
Definition SDIO_ANY_ID_U16 : Z := 0xffff.

(** kernel/mmc/src/types.rs:21-27 [SdioDeviceId::any] *)
Definition any : SdioDeviceId := mkId SDIO_ANY_ID SDIO_ANY_ID_U16 SDIO_ANY_ID_U16.

(** kernel/mmc/src/types.rs:34-38 [SdioDeviceId::matches] *)
Definition matches (self other : SdioDeviceId) : bool :=
  bool_decide (self.(class) = SDIO_ANY_ID ∨ self.(class) = other.(class)) &&
  bool_decide (self.(vendor) = SDIO_ANY_ID_U16 ∨ self.(vendor) = other.(vendor)) &&
  bool_decide (self.(device) = SDIO_ANY_ID_U16 ∨ self.(device) = other.(device)).

(** kernel/mmc/src/types.rs:44-49 [MmcBusWidth] *)
Inductive MmcBusWidth := OneBit | FourBit | EightBit.
#[export] Instance MmcBusWidth_eq_dec : EqDecision MmcBusWidth.
Proof. solve_decision. Defined.

(** kernel/mmc/src/types.rs:53-58 [MmcIos] *)
Record MmcIos := mkIos { clock : Z; bus_width : MmcBusWidth }.

(** kernel/mmc/src/types.rs:61-66 [MmcIos::default_legacy] *)
Definition default_legacy : MmcIos := mkIos 400000 OneBit.

(** kernel/mmc/src/types.rs:70-81 [sdio_class] *)
Definition WLAN : Z := 0x07.

(** kernel/mmc/src/types.rs:84-84 [SDIO_FUNC_BLOCKSIZE_DEFAULT] *)
Definition SDIO_FUNC_BLOCKSIZE_DEFAULT : Z := 512.

(** kernel/mmc/src/sdio_func.rs:92-94 [default_func_blocksize] *)
Definition default_func_blocksize : Z := SDIO_FUNC_BLOCKSIZE_DEFAULT.

(** kernel/mmc/src/types.rs:29-31 [SdioDeviceId::new] *)
Definition device_id_new (class vendor device : Z) : SdioDeviceId := mkId class vendor device.

(** kernel/mmc/src/card.rs:7-22 [Rca, MmcCard, MmcCard::new] *)
Record MmcCard := mkCard { card_rca : Z }.

Lemma matches_any id : matches any id = true.
Proof. unfold matches. by rewrite !bool_decide_true by (by left). Qed.

Lemma matches_refl id : matches id id = true.
Proof. unfold matches. by rewrite !bool_decide_true by (by right). Qed.
End Types.
Import Types.

(** ** Enabling and disabling a function *)
Module Cccr.

(** kernel/mmc/src/cccr.rs:7-7 [SDIO_CCCR_IO_ENABLE] *)
Definition SDIO_CCCR_IO_ENABLE : Z := 0x02.
(** kernel/mmc/src/cccr.rs:8-8 [SDIO_CCCR_IO_READY] *)
Definition SDIO_CCCR_IO_READY : Z := 0x03.

(** kernel/mmc/src/cccr.rs:12-22 [sdio_f0_reg]: 04, 13, F0, F1, F2, F8 *)
Definition sdio_f0_reg : list Z := [0x04; 0x13; 0xF0; 0xF1; 0xF2; 0xF8].

(** kernel/mmc/src/cccr.rs:25-35 [CccrAccess, DelayMs]: the function-0 registers
    and the caller's delay *)
Class CccrAccess (W : Type) := {
  read_f0 : Z → st W Z;
  write_f0 : Z → Z → st W ();
  delay_ms : Z → W → W;
}.

Section cccr.
Context {W : Type} `{CccrAccess W}.

(** kernel/mmc/src/cccr.rs:51-51 [POLL_MS] *)
Definition POLL_MS : Z := 2.

(** kernel/mmc/src/cccr.rs:52-60 [sdio_enable_function], the polling loop; every
    round adds [POLL_MS] to [waited] *)
Fixpoint ready_loop (fuel : nat) (bit waited timeout_ms : Z) : st W () :=
  if bool_decide (waited < timeout_ms) then
    match fuel with
    | O => st_lift Panic
    | S fuel =>
        _ ← st_modify (delay_ms POLL_MS);
        waited ← st_lift (add_w 32 waited POLL_MS);
        r ← st_try (read_f0 SDIO_CCCR_IO_READY);
        if bool_decide (Z.land (unwrap_or 0 r) bit ≠ 0) then mret ()
        else ready_loop fuel bit waited timeout_ms
    end
  else st_err (-110).

(** kernel/mmc/src/cccr.rs:38-61 [sdio_enable_function] *)
Definition sdio_enable_function (func_num timeout_ms : Z) : st W () :=
  if bool_decide (func_num = 0 ∨ 7 < func_num) then st_err (-22)
  else
    let bit := Z.shiftl 1 func_num in
    io_enable ← read_f0 SDIO_CCCR_IO_ENABLE;
    _ ← write_f0 SDIO_CCCR_IO_ENABLE (Z.lor io_enable bit);
    ready_loop (Z.to_nat timeout_ms) bit 0 timeout_ms.

(** kernel/mmc/src/cccr.rs:64-71 [sdio_disable_function]; [Z.ldiff] is [& !] *)
Definition sdio_disable_function (func_num : Z) : st W () :=
  if bool_decide (func_num = 0 ∨ 7 < func_num) then st_err (-22)
  else
    let bit := Z.shiftl 1 func_num in
    io_enable ← read_f0 SDIO_CCCR_IO_ENABLE;
    write_f0 SDIO_CCCR_IO_ENABLE (Z.ldiff io_enable bit).
End cccr.

(** *** What the sequences do to a card

    [enable w] is the card's IO_ENABLE register: a register like any other;
    IO_READY reads as [ready w], and time may change it but not IO_ENABLE. *)
Section card.
Context {W : Type} `{CccrAccess W} (enable ready : W → Z).
Hypothesis read_enable : ∀ w, read_f0 SDIO_CCCR_IO_ENABLE w = (Ok (enable w), w).
Hypothesis read_ready : ∀ w, read_f0 SDIO_CCCR_IO_READY w = (Ok (ready w), w).
Hypothesis write_enable : ∀ v w, ∃ w',
  write_f0 SDIO_CCCR_IO_ENABLE v w = (Ok (), w') ∧ enable w' = v.
Hypothesis delay_enable : ∀ ms w, enable (delay_ms ms w) = enable w.

(** [n] rounds of the loop go by. *)
Definition after (n : nat) (w : W) : W := Nat.iter n (delay_ms POLL_MS) w.

Lemma after_S n w : after (S n) w = after n (delay_ms POLL_MS w).
Proof. unfold after. by rewrite Nat.iter_succ_r. Qed.

Lemma after_enable n w : enable (after n w) = enable w.
Proof. unfold after. induction n as [|n IH]; simpl; [done|]. by rewrite delay_enable. Qed.

Definition is_ready (bit : Z) (w : W) : Prop := Z.land (ready w) bit ≠ 0.

(** The loop ends at the first round that finds the function ready, or when the
    time is up. *)
Lemma ready_loop_spec fuel bit waited timeout w :
  0 ≤ waited → timeout < 2 ^ 32 - 1 → timeout - waited ≤ Z.of_nat fuel →
  (∃ n, (0 < n)%nat ∧ waited + 2 * (Z.of_nat n - 1) < timeout ∧ is_ready bit (after n w) ∧
        ready_loop fuel bit waited timeout w = (Ok (), after n w)) ∨
  (∃ n, ready_loop fuel bit waited timeout w = (Err (-110), after n w) ∧
        (∀ k, (0 < k ≤ n)%nat → ¬ is_ready bit (after k w)) ∧ timeout ≤ waited + 2 * Z.of_nat n).
Proof.
  revert waited w. induction fuel as [|fuel IH]; intros waited w Hw Ht Hf; cbn [ready_loop].
  - rewrite bool_decide_false by lia. right. exists 0%nat. split_and!; [done|lia|lia].
  - case_bool_decide as Hlt.
    2:{ right. exists 0%nat. split_and!; [done|lia|lia]. }
    unfold mbind, st_bind, st_modify, st_lift, st_try, POLL_MS.
    rewrite add_w_ok by lia. rewrite read_ready. cbn [unwrap_or].
    change (delay_ms 2 w) with (after 1 w). case_bool_decide as Hr.
    + left. exists 1%nat. split_and!; [lia|lia|done|done].
    + destruct (IH (waited + 2) (after 1 w)) as [(n & Hn & Hb & Hr' & E)|(n & E & Hk & Hb)]; try lia.
      * left. exists (S n). rewrite (after_S n w). split_and!; [lia|lia|done|exact E].
      * right. exists (S n). rewrite (after_S n w). split_and!; [exact E| |lia].
        intros [|[|k]] Hk'; [lia| |]. { unfold is_ready. rewrite Hr. by intros []. } rewrite (after_S (S k) w). apply Hk. lia.
Qed.

(** Enabling function [f] sets its bit of IO_ENABLE and no
    other, whatever the outcome; it succeeds exactly when the card reports the
    function ready at one of the polls made every 2 ms before the timeout, and
    fails with [-110] otherwise; disabling it again leaves IO_ENABLE as it was
    with the bit clear. *)
Lemma enable_function_sets_bit (f timeout : Z) (w : W)
    (Hf : 1 ≤ f ≤ 7) (Ht : 0 ≤ timeout < 2 ^ 32 - 1) :
  ∃ r w1 w2,
    sdio_enable_function f timeout w = (r, w1) ∧
    enable w1 = Z.lor (enable w) (2 ^ f) ∧
    (r = Ok () ∨ r = Err (-110)) ∧
    (r = Ok () → is_ready (2 ^ f) w1) ∧
    (r = Err (-110) → ∃ w0 n, w1 = after n w0 ∧ timeout ≤ 2 * Z.of_nat n ∧
       ∀ k, (0 < k ≤ n)%nat → ¬ is_ready (2 ^ f) (after k w0)) ∧
    sdio_disable_function f w1 = (Ok (), w2) ∧
    enable w2 = Z.ldiff (enable w) (2 ^ f).
Proof.
  unfold sdio_enable_function, sdio_disable_function.
  rewrite !bool_decide_false by lia. rewrite Z.shiftl_1_l.
  unfold mbind, st_bind. rewrite read_enable.
  destruct (write_enable (Z.lor (enable w) (2 ^ f)) w) as (w0 & -> & E0).
  assert (L : ∀ w1, enable w1 = Z.lor (enable w) (2 ^ f) → ∃ w2,
    write_f0 SDIO_CCCR_IO_ENABLE (Z.ldiff (enable w1) (2 ^ f)) w1 = (Ok (), w2) ∧
    enable w2 = Z.ldiff (enable w) (2 ^ f)).
  { intros w1 E1. destruct (write_enable (Z.ldiff (enable w1) (2 ^ f)) w1) as (w2 & -> & E2).
    exists w2. split; [done|]. rewrite E2, E1. apply Z.bits_inj'. intros i Hi.
    rewrite !Z.ldiff_spec, Z.lor_spec. by destruct (Z.testbit (enable w) i), (Z.testbit (2 ^ f) i). }
  destruct (ready_loop_spec (Z.to_nat timeout) (2 ^ f) 0 timeout w0)
    as [(n & Hn & Hb & Hr & ->)|(n & -> & Hk & Hb)]; try lia.
  - destruct (L (after n w0)) as (w2 & E2 & E3); [by rewrite after_enable|].
    exists (Ok ()), (after n w0), w2. rewrite after_enable, read_enable.
    split_and!; try done; by left.
  - destruct (L (after n w0)) as (w2 & E2 & E3); [by rewrite after_enable|].
    exists (Err (-110)), (after n w0), w2. rewrite after_enable, read_enable.
    split_and!; try done; [by right|]. intros _. exists w0, n. split_and!; [done|lia|done].
Qed.
End card.

(** A card that is ready [n] milliseconds after it is powered. *)
Definition slow_card : CccrAccess (Z * Z) := {|
  read_f0 := λ r w, (Ok (if bool_decide (r = 2) then w.1 else if bool_decide (w.2 ≤ 0) then w.1 else 0), w);
  write_f0 := λ _ v w, (Ok (), (v, w.2));
  delay_ms := λ ms w, (w.1, w.2 - ms) |}.

Lemma enable_function_sets_bit_witness :
  ∃ r w1, sdio_enable_function (H := slow_card) 1 100 (0, 5) = (r, w1) ∧ r = Ok () ∧ w1.1 = 2.
Proof.
  destruct (enable_function_sets_bit (H := slow_card) fst
    (λ w, if bool_decide (w.2 ≤ 0) then w.1 else 0)
    ltac:(done) ltac:(done) ltac:(intros v w; by exists (v, w.2)) ltac:(done) 1 100 (0, 5)
    ltac:(lia) ltac:(lia)) as (r & w1 & w2 & E & H1 & _).
  exists r, w1. split; [exact E|]. split; [|exact H1].
  vm_compute in E. by injection E as <- _.
Defined.

End Cccr.
Import Cccr.

(** ** The driver registry *)
Module Driver.

(** kernel/mmc/src/driver.rs:16-38 [SdioDriver]; [F] is a function the driver may
    be given, [W] what [probe] and [remove] change *)
Record SdioDriver (W F : Type) := mkDriver {
  name : string;
  id_table : list SdioDeviceId;
  probe : F → st W ();
  remove : F → st W () }.
Arguments mkDriver {W F} name id_table probe remove.
Arguments name {W F} s.
Arguments id_table {W F} s.
Arguments probe {W F} s.
Arguments remove {W F} s.

(** kernel/mmc/src/driver.rs:33-37 [SdioDriver::matches] *)
Definition driver_matches {W F} (d : SdioDriver W F) (id : SdioDeviceId) : bool :=
  existsb (λ tid, matches tid id) d.(id_table).

(** kernel/mmc/src/driver.rs:42-42 [REGISTERED] *)
Definition registry (W F : Type) : Type := option (SdioDriver W F).

(** kernel/mmc/src/driver.rs:46-53 [sdio_register_driver] *)
Definition sdio_register_driver {W F} (d : SdioDriver W F) (r : registry W F) :
    res () * registry W F :=
  match r with Some _ => (Err (-16), r) | None => (Ok (), Some d) end.

(** kernel/mmc/src/driver.rs:57-60 [sdio_unregister_driver] *)
Definition sdio_unregister_driver {W F} (_ : registry W F) : registry W F := None.

(** kernel/mmc/src/driver.rs:65-73 [sdio_try_probe] *)
Definition sdio_try_probe {W F} (device_id : F → SdioDeviceId) (func : F) (r : registry W F) : st W () :=
  let id := device_id func in
  let driver_opt := match r with
                    | Some d => if driver_matches d id then Some d else None
                    | None => None
                    end in
  driver ← st_lift (ok_or driver_opt (-19));
  driver.(probe) func.

(** kernel/mmc/src/driver.rs:77-87 [sdio_driver_remove] *)
Definition sdio_driver_remove {W F} (func : F) (r : registry W F) : st W () :=
  match r with Some d => d.(remove) func | None => mret () end.

(** The calls on the registry, with what they return. *)
Inductive ev (W F : Type) :=
  | EReg (d : SdioDriver W F) (r : res ())
  | EUnreg.
Arguments EReg {W F} d r.
Arguments EUnreg {W F}.

Inductive step {W F} : registry W F → ev W F → registry W F → Prop :=
  | step_reg r d o r' : sdio_register_driver d r = (o, r') → step r (EReg d o) r'
  | step_unreg r : step r EUnreg (sdio_unregister_driver r).

Inductive steps {W F} : registry W F → list (ev W F) → registry W F → Prop :=
  | steps_nil r : steps r [] r
  | steps_cons r e r1 tr r2 : step r e r1 → steps r1 tr r2 → steps r (e :: tr) r2.

(** The driver the calls leave registered: the first one since the last
    unregistration. *)
Fixpoint first_registered {W F} (tr : list (ev W F)) (cur : registry W F) : registry W F :=
  match tr with
  | [] => cur
  | EReg d _ :: tr => first_registered tr (match cur with Some _ => cur | None => Some d end)
  | EUnreg :: tr => first_registered tr None
  end.

(** Through any sequence of calls the registry holds the first
    driver registered since the last unregistration: a second registration is
    refused with [-16] and changes nothing; and a probe runs that driver exactly
    when its table matches the device, and is [-19] otherwise. *)
Lemma registry_first_wins {W F} (tr : list (ev W F)) (r : registry W F)
    (dev : F → SdioDeviceId) (func : F) (w : W) (Hr : steps None tr r) :
  r = first_registered tr None ∧
  (∀ d, r = Some d → ∀ d', sdio_register_driver d' r = (Err (-16), r)) ∧
  sdio_try_probe dev func r w =
    match r with
    | Some d => if driver_matches d (dev func) then d.(probe) func w else (Err (-19), w)
    | None => (Err (-19), w)
    end.
Proof.
  split_and!.
  - revert Hr. generalize (None : registry W F). intros r0 Hr.
    induction Hr as [|r0 e r1 tr r2 Hs _ IH]; [done|]. rewrite IH.
    destruct Hs as [r0 d o r1 E|]; simpl; [|done].
    destruct r0; simpl in E; by injection E as <- <-.
  - by intros d -> d'.
  - destruct r as [d|]; [|done]. unfold sdio_try_probe. by destruct (driver_matches _ _).
Qed.
End Driver.
Import Driver.

(** ** The function view of the chip *)
Module FuncRef.

(** kernel/mmc/src/sdio_func.rs:77-83 [SdioFunc::align_size] *)
Definition align_size (cur_blksize sz : nat) : nat :=
  if bool_decide (cur_blksize = 0)%nat then sz
  else ((sz + cur_blksize - 1) / cur_blksize * cur_blksize)%nat.

(** The least multiple of the block size that holds [sz] bytes. *)
Lemma align_size_spec blk sz :
  (0 < blk)%nat →
  (∃ k, align_size blk sz = k * blk)%nat ∧ (sz ≤ align_size blk sz < sz + blk)%nat.
Proof.
  intros Hb. unfold align_size. rewrite bool_decide_false by lia.
  split; [by eexists|].
  pose proof (Nat.div_mod_eq (sz + blk - 1) blk). pose proof (Nat.mod_upper_bound (sz + blk - 1) blk).
  lia.
Qed.

(** driver/bsp/src/sdio/mmc_impl.rs:64-67 [BspSdioFuncRef] *)
Record BspSdioFuncRef := mkFunc { sdio : Aic8800Sdio; num : Z }.

Section ops.
Context {W : Type} `{SdioHost W} `{Clock W}.
Implicit Types f : BspSdioFuncRef.

(** driver/bsp/src/sdio/mmc_impl.rs:74-80 [BspSdioFuncRef::base], also driver/bsp/src/sdio/mmc_impl.rs:17-18 *)
Definition base f : Z := if bool_decide (f.(num) = 1) then 0x100 else 0x200.

(** driver/bsp/src/sdio/mmc_impl.rs:88-90 [BspSdioFuncRef::vendor] *)
Definition func_vendor f : Z := (product_id_to_vid_did f.(sdio).(product_id)).1.
(** driver/bsp/src/sdio/mmc_impl.rs:92-94 [BspSdioFuncRef::device] *)
Definition func_device f : Z := (product_id_to_vid_did f.(sdio).(product_id)).2.
(** driver/bsp/src/sdio/mmc_impl.rs:96-98 [BspSdioFuncRef::class] *)
Definition func_class f : Z := WLAN.
(** driver/bsp/src/sdio/mmc_impl.rs:100-102 [BspSdioFuncRef::cur_blksize], also driver/bsp/src/sdio/mmc_impl.rs:19-19 *)
Definition cur_blksize f : nat := 512.

(** kernel/mmc/src/sdio_func.rs:86-88 [SdioFunc::device_id] *)
Definition device_id f : SdioDeviceId := mkId (func_class f) (func_vendor f) (func_device f).

(** driver/bsp/src/sdio/mmc_impl.rs:104-106 [BspSdioFuncRef::readb] *)
Definition readb f (addr : Z) : st W Z :=
  a ← st_lift (add_w 32 (base f) addr); host_read_byte a.

(** driver/bsp/src/sdio/mmc_impl.rs:108-110 [BspSdioFuncRef::writeb] *)
Definition writeb f (addr b : Z) : st W () :=
  a ← st_lift (add_w 32 (base f) addr); host_write_byte a b.

(** driver/bsp/src/sdio/mmc_impl.rs:112-114 [BspSdioFuncRef::read_f0], also driver/bsp/src/sdio/mmc_impl.rs:46-48 [CccrViaSdioHost::read_f0] *)
Definition func_read_f0 (reg : Z) : st W Z := host_read_byte reg.

(** driver/bsp/src/sdio/mmc_impl.rs:116-118 [BspSdioFuncRef::write_f0], also driver/bsp/src/sdio/mmc_impl.rs:49-51 [CccrViaSdioHost::write_f0] *)
Definition func_write_f0 (reg val : Z) : st W () := host_write_byte reg val.

(** driver/bsp/src/sdio/mmc_impl.rs:120-128 [BspSdioFuncRef::readsb]; the bytes
    read, as many as asked *)
Definition readsb f (addr : Z) (n : nat) : st W (list Z) :=
  a ← st_lift (add_w 32 (base f) addr);
  if bool_decide (n = 0)%nat then mret []
  else '(data, _) ← host_read_block a n; mret data.

(** driver/bsp/src/sdio/mmc_impl.rs:130-138 [BspSdioFuncRef::writesb] *)
Definition writesb f (addr : Z) (buf : list Z) : st W nat :=
  a ← st_lift (add_w 32 (base f) addr);
  if bool_decide (length buf = 0)%nat then mret 0%nat
  else _ ← host_write_block a buf; mret (length buf).

(** driver/bsp/src/sdio/mmc_impl.rs:140-142 [BspSdioFuncRef::set_block_size] *)
Definition set_block_size f (blksz : Z) : st W () := host_set_block_size f.(num) blksz.

(** driver/bsp/src/sdio/mmc_impl.rs:43-60 [CccrViaSdioHost, BspDelay] *)
Definition cccr : CccrAccess W := {|
  read_f0 := func_read_f0; write_f0 := func_write_f0; delay_ms := delay_spin_ms |}.

(** driver/bsp/src/sdio/mmc_impl.rs:144-148 [BspSdioFuncRef::enable_func] *)
Definition enable_func f : st W () := sdio_enable_function (H := cccr) f.(num) 100.

(** driver/bsp/src/sdio/mmc_impl.rs:150-153 [BspSdioFuncRef::disable_func] *)
Definition disable_func f : st W () := sdio_disable_function (H := cccr) f.(num).
End ops.

(** kernel/mmc/src/sdio_func.rs:17-89 [SdioFunc]; [F] is the handle, [W] what its operations work on *)
Class SdioFunc (W F : Type) := {
  fn_num : F → Z;
  fn_vendor : F → Z;
  fn_device : F → Z;
  fn_class : F → Z;
  fn_cur_blksize : F → nat;
  fn_readb : F → Z → st W Z;
  fn_writeb : F → Z → Z → st W ();
  fn_read_f0 : F → Z → st W Z;
  fn_write_f0 : F → Z → Z → st W ();
  fn_readsb : F → Z → nat → st W (list Z);
  fn_writesb : F → Z → list Z → st W nat;
  fn_set_block_size : F → Z → st W ();
  fn_enable_func : F → st W ();
  fn_disable_func : F → st W ();
  fn_claim_irq : F → st W ();
  fn_release_irq : F → st W () }.

(** kernel/mmc/src/sdio_func.rs:41-43 [SdioFunc::read_f0], the body the trait has itself *)
Definition default_read_f0 {W F} (f : F) (reg : Z) : st W Z := st_err (-38).
(** kernel/mmc/src/sdio_func.rs:47-49 [SdioFunc::write_f0], the body the trait has itself *)
Definition default_write_f0 {W F} (f : F) (reg val : Z) : st W () := st_err (-38).
(** kernel/mmc/src/sdio_func.rs:67-69 [SdioFunc::claim_irq], the body the trait has itself *)
Definition default_claim_irq {W F} (f : F) : st W () := mret ().
(** kernel/mmc/src/sdio_func.rs:72-74 [SdioFunc::release_irq], the body the trait has itself *)
Definition default_release_irq {W F} (f : F) : st W () := mret ().

(** driver/bsp/src/sdio/mmc_impl.rs:83-154 [SdioFunc for BspSdioFuncRef] *)
#[export] Instance bsp_sdio_func {W} `{SdioHost W} `{Clock W} : SdioFunc W BspSdioFuncRef := {|
  fn_num := num; fn_vendor := func_vendor; fn_device := func_device; fn_class := func_class;
  fn_cur_blksize := cur_blksize; fn_readb := readb; fn_writeb := writeb;
  fn_read_f0 := λ _, func_read_f0; fn_write_f0 := λ _, func_write_f0;
  fn_readsb := readsb; fn_writesb := writesb; fn_set_block_size := set_block_size;
  fn_enable_func := enable_func; fn_disable_func := disable_func;
  fn_claim_irq := default_claim_irq; fn_release_irq := default_release_irq |}.

(** A length aligned for a function of the BSP is the least multiple of 512 that holds it. *)
Lemma bsp_align_size {W} `{SdioHost W} `{Clock W} (f : BspSdioFuncRef) sz :
  let n := align_size (fn_cur_blksize (W := W) f) sz in (∃ k, n = k * 512)%nat ∧ (sz ≤ n < sz + 512)%nat.
Proof. apply (align_size_spec 512 sz). lia. Qed.

(** kernel/mmc/src/host.rs:11-23 [MmcHost]; [G] is the guard, which [release_host] drops *)
Class MmcHost (W G : Type) := {
  claim_host : st W G;
  release_host : G → W → W;
  mmc_set_ios : MmcIos → st W () }.

(** kernel/mmc/src/host.rs:26-32 [with_host_claimed] *)
Definition with_host_claimed {W G A} `{MmcHost W G} (f : st W A) : st W A := λ w,
  match claim_host w with
  | (Ok g, w) => let '(r, w) := f w in (r, release_host g w)
  | (Err e, w) => (Err e, w)
  | (Panic, w) => (Panic, w)
  end.

(** The guard is dropped however the closure ends. *)
Lemma with_host_releases {W G A} `{MmcHost W G} (f : st W A) w g w1 :
  claim_host w = (Ok g, w1) → with_host_claimed f w = ((f w1).1, release_host g (f w1).2).
Proof. intros E. unfold with_host_claimed. rewrite E. by destruct (f w1). Qed.

(** driver/bsp/src/sdio/mmc_impl.rs:158-163 [AIC_BSP_SDIO_ID_TABLE] *)
Definition AIC_BSP_SDIO_ID_TABLE : list SdioDeviceId := [
  mkId WLAN Ids.VENDOR_AIC8801 Ids.DEVICE_AIC8801;
  mkId WLAN Ids.VENDOR_AIC8800DC Ids.DEVICE_AIC8800DC;
  mkId WLAN Ids.VENDOR_AIC8800D80 Ids.DEVICE_AIC8800D80;
  mkId WLAN Ids.VENDOR_AIC8800D80X2 Ids.DEVICE_AIC8800D80X2].

(** driver/bsp/src/sdio/mmc_impl.rs:165-187 [AicBspSdioDriver] *)
Definition AicBspSdioDriver {W} : SdioDriver W BspSdioFuncRef :=
  mkDriver "aicbsp_sdio" AIC_BSP_SDIO_ID_TABLE (λ _, mret ()) (λ _, mret ()).

(** driver/bsp/src/sdio/mmc_impl.rs:190-192 [register_aicbsp_sdio_driver] *)
Definition register_aicbsp_sdio_driver {W} : registry W BspSdioFuncRef → _ :=
  sdio_register_driver AicBspSdioDriver.

(** driver/bsp/src/sdio/mmc_impl.rs:194-196 [unregister_aicbsp_sdio_driver] *)
Definition unregister_aicbsp_sdio_driver {W} : registry W BspSdioFuncRef → _ :=
  sdio_unregister_driver.

(** The BSP's driver, once registered, probes every chip the
    identification can produce, through either function, without touching the
    card; and its table matches no other identifier than that of a chip the
    allow-list knows. *)
Lemma bsp_driver_probes {W} (f : BspSdioFuncRef) (w : W) (id : SdioDeviceId)
    (Hc : id.(class) = WLAN) :
  sdio_try_probe device_id f (register_aicbsp_sdio_driver None).2 w = (Ok (), w) ∧
  (driver_matches (AicBspSdioDriver (W := W)) id = true →
   ∃ pid, product_id_to_vid_did pid = (id.(vendor), id.(device))).
Proof.
  split.
  - destruct f as [[pid wr rd] n]. by destruct pid.
  - destruct id as [c v d]. simpl in Hc. subst c. unfold driver_matches, AicBspSdioDriver; simpl.
    unfold matches; simpl. rewrite !orb_true_iff, !andb_true_iff, !bool_decide_eq_true.
    intros Hm. destruct_or! Hm; destruct_and? Hm; try discriminate; destruct_or?; try discriminate; subst;
      [by exists Aic8801|by exists Aic8800Dc|by exists Aic8800D80|by exists Aic8800D80X2].
Qed.

Lemma bsp_driver_probes_witness :
  sdio_try_probe device_id (mkFunc (sdio_new Aic8800D80) 2)
    (register_aicbsp_sdio_driver None).2 7%nat = (Ok (), 7%nat).
Proof.
  apply (bsp_driver_probes (mkFunc (sdio_new Aic8800D80) 2) 7%nat (mkId WLAN 0 0) eq_refl).
Defined.

Lemma registry_first_wins_witness :
  sdio_register_driver AicBspSdioDriver (Some (AicBspSdioDriver (W := nat)))
  = (Err (-16), Some AicBspSdioDriver).
Proof.
  refine (proj1 (proj2 (registry_first_wins [EReg AicBspSdioDriver (Ok ())]
    (Some (AicBspSdioDriver (W := nat))) device_id (mkFunc new_v3 1) 0%nat _)) _ eq_refl _).
  eapply steps_cons; [by constructor|]. apply steps_nil.
Defined.
End FuncRef.
