(* ===== verification/Rx.v ===== *)
(** * Framing: [driver/bsp/src/sdio/flow.rs], from a command to the bytes sent and
    from the bytes received to confirmations and data frames

    [Pad] is the length and the padding of what is sent, [Rx] the walk over a
    received buffer. *)

From S2P Require Import Prelude CmdMgr.

(** ** The padding of a command *)
Module Pad.

(** [buf[a..b].fill(0)] *)
Definition fill (a b : nat) (buf : list Z) : res (list Z) := write_at a (zeros (b - a)) buf.

(** driver/bsp/src/sdio/flow.rs:63-70 [aicwf_sdio_tx_msg_pad], alignment to four bytes *)
Definition pad_align (buf : list Z) (payload_len : nat) : res (list Z * nat) :=
  if bool_decide (payload_len mod 4 ≠ 0)%nat then
    let adjust_len := ((payload_len + 4 - 1) / 4 * 4)%nat in
    let need := (adjust_len - payload_len)%nat in
    buf ← (if bool_decide (payload_len + need ≤ length buf)%nat
           then fill payload_len (payload_len + need) buf else Ok buf);
    Ok (buf, adjust_len)
  else Ok (buf, payload_len).

(** driver/bsp/src/sdio/flow.rs:72-80 [aicwf_sdio_tx_msg_pad], the tail and the length to send *)
Definition pad_tail (buf : list Z) (len : nat) : res (list Z * nat) :=
  if bool_decide (len mod 512 ≠ 0)%nat then
    buf ← (if bool_decide (len + 4 ≤ length buf)%nat then fill len (len + 4) buf else Ok buf);
    let payload_len_after_tail := (len + 4)%nat in
    Ok (buf, ((payload_len_after_tail / 512 + 1) * 512)%nat)
  else Ok (buf, len).

(** driver/bsp/src/sdio/flow.rs:57-85 [aicwf_sdio_tx_msg_pad] *)
Definition aicwf_sdio_tx_msg_pad (buf : list Z) (payload_len : nat) : res (list Z * nat) :=
  '(buf, len) ← pad_align buf payload_len;
  '(buf, send_len) ← pad_tail buf len;
  buf ← (if bool_decide (len < send_len ∧ send_len ≤ length buf)%nat
         then fill len send_len buf else Ok buf);
  Ok (buf, send_len).

(** driver/bsp/src/sdio/flow.rs:93-103 [ipc_send_len_8801] *)
Definition ipc_send_len_8801 (serialized_len : nat) : nat :=
  let len4 := ((serialized_len + 4 - 1) / 4 * 4)%nat in
  if bool_decide (len4 mod 512 = 0)%nat then len4
  else ((len4 + 4 + 512 - 1) / 512 * 512)%nat.

(** The length rounded up to a multiple of four. *)
Definition round4 (n : nat) : nat := ((n + 3) / 4 * 4)%nat.

(** The length the padding announces. *)
Definition pad_len (n : nat) : nat :=
  if bool_decide (round4 n mod 512 = 0)%nat then round4 n
  else (((round4 n + 4) / 512 + 1) * 512)%nat.

Lemma round4_spec n : (n ≤ round4 n < n + 4 ∧ round4 n mod 4 = 0)%nat.
Proof.
  unfold round4. split; [|by rewrite Nat.Div0.mod_mul].
  pose proof (Nat.div_mod_eq (n + 3) 4). pose proof (Nat.mod_upper_bound (n + 3) 4). lia.
Qed.

Lemma round4_id n : (n mod 4 = 0)%nat → round4 n = n.
Proof.
  intros H. pose proof (round4_spec n) as [? H4].
  pose proof (Nat.div_mod_eq n 4). pose proof (Nat.div_mod_eq (round4 n) 4). lia.
Qed.

Lemma pad_len_bounds n : (round4 n ≤ pad_len n ∧ pad_len n mod 512 = 0)%nat.
Proof.
  unfold pad_len. case_bool_decide as H; [lia|].
  rewrite Nat.Div0.mod_mul. split; [|done].
  pose proof (Nat.div_mod_eq (round4 n + 4) 512).
  pose proof (Nat.mod_upper_bound (round4 n + 4) 512). lia.
Qed.

Lemma fill_spec a b buf :
  (a ≤ b)%nat → (b ≤ length buf)%nat → fill a b buf = Ok (splice a (zeros (b - a)) buf).
Proof. intros. unfold fill. apply write_at_ok. rewrite length_zeros. lia. Qed.

(** A buffer whose payload is [pl] and whose bytes up to [k] are zero. *)
Definition padded (pl buf : list Z) (k : nat) : Prop :=
  take (length pl) buf = pl ∧ ∀ i, (length pl ≤ i < k)%nat → buf !! i = Some 0.

Lemma padded_fill pl buf a b k :
  (length pl ≤ a)%nat → (a ≤ b)%nat → (b ≤ length buf)%nat → (a ≤ k)%nat → padded pl buf k →
  padded pl (splice a (zeros (b - a)) buf) (Nat.max k b) ∧
  length (splice a (zeros (b - a)) buf) = length buf.
Proof.
  intros Ha Hab Hb Hak [Ht Hz].
  assert (Hs : (a + length (zeros (b - a)) ≤ length buf)%nat) by (rewrite length_zeros; lia).
  split; [split|by rewrite length_splice].
  - rewrite <- Ht at 2. apply list_eq. intros i.
    destruct (decide (i < length pl)%nat).
    + rewrite !lookup_take_lt by done. rewrite lookup_splice_out by (lia || done). done.
    + rewrite !lookup_ge_None_2; [done|rewrite length_take; lia..].
  - intros i Hi. destruct (decide (a ≤ i < b)%nat).
    + rewrite lookup_splice_in by (rewrite ?length_zeros; lia).
      unfold zeros. apply lookup_replicate_2. lia.
    + rewrite lookup_splice_out by (rewrite ?length_zeros; lia). apply Hz. lia.
Qed.

Lemma pad_spec pl buf :
  take (length pl) buf = pl → (pad_len (length pl) ≤ length buf)%nat →
  ∃ buf', aicwf_sdio_tx_msg_pad buf (length pl) = Ok (buf', pad_len (length pl)) ∧
          length buf' = length buf ∧ padded pl buf' (pad_len (length pl)).
Proof.
  intros Hp Hl. pose proof (pad_len_bounds (length pl)) as [Hb _].
  pose proof (round4_spec (length pl)) as [Hr _].
  assert (P0 : padded pl buf (length pl)) by (split; [done|intros; lia]).
  assert (E1 : ∃ b1, pad_align buf (length pl) = Ok (b1, round4 (length pl)) ∧
     length b1 = length buf ∧ padded pl b1 (round4 (length pl))).
  { unfold pad_align. case_bool_decide as H4.
    - replace ((length pl + 4 - 1) / 4 * 4)%nat with (round4 (length pl))
        by (unfold round4; do 3 f_equal; lia).
      cbv zeta. replace (length pl + (round4 (length pl) - length pl))%nat
        with (round4 (length pl)) by lia.
      rewrite bool_decide_true by lia. rewrite fill_spec by lia. cbn [mbind res_bind].
      eexists. split; [done|].
      destruct (padded_fill pl buf (length pl) (round4 (length pl)) (length pl)) as [P L]; try lia; try done.
      split; [exact L|]. by rewrite Nat.max_r in P by lia.
    - rewrite round4_id by lia. by exists buf. }
  destruct E1 as (b1 & E1 & L1 & P1). unfold aicwf_sdio_tx_msg_pad. rewrite E1.
  cbn [mbind res_bind]. unfold pad_tail, pad_len in *. case_bool_decide as H5.
  - rewrite bool_decide_false by tauto. cbn [mbind res_bind].
    rewrite bool_decide_false by lia. cbn [mbind res_bind]. by exists b1.
  - rewrite bool_decide_true by done.
    set (k := (((round4 (length pl) + 4) / 512 + 1) * 512)%nat) in *.
    assert (Hk : (round4 (length pl) + 4 < k)%nat).
    { unfold k. pose proof (Nat.div_mod_eq (round4 (length pl) + 4) 512).
      pose proof (Nat.mod_upper_bound (round4 (length pl) + 4) 512). lia. }
    rewrite bool_decide_true by lia. rewrite fill_spec by lia. cbn [mbind res_bind].
    destruct (padded_fill pl b1 (round4 (length pl)) (round4 (length pl) + 4) (round4 (length pl)))
      as [P2 L2]; try lia; try done.
    rewrite bool_decide_true by (rewrite L2; lia). rewrite fill_spec by (rewrite ?L2; lia).
    cbn [mbind res_bind].
    destruct (padded_fill pl _ (round4 (length pl)) k (Nat.max (round4 (length pl))
                (round4 (length pl) + 4)) ltac:(lia) ltac:(lia) ltac:(rewrite L2; lia)
                ltac:(lia) P2) as [P3 L3].
    eexists. split; [done|]. split; [lia|]. rewrite Nat.max_r in P3 by lia. exact P3.
Qed.

(** The bytes a padded buffer sends. *)
Lemma padded_take pl buf k :
  (length pl ≤ k)%nat → (k ≤ length buf)%nat → padded pl buf k →
  take k buf = pl ++ zeros (k - length pl).
Proof.
  intros Hk Hb [Pt Pz]. apply list_eq. intros i. destruct (decide (i < length pl)%nat).
  - rewrite lookup_take_lt by lia. rewrite lookup_app_l by done. by rewrite <- Pt, lookup_take_lt.
  - rewrite lookup_app_r by lia. destruct (decide (i < k)%nat).
    + rewrite lookup_take_lt by done. rewrite Pz by lia.
      symmetry. unfold zeros. apply lookup_replicate_2. lia.
    + rewrite !lookup_ge_None_2; [done|rewrite length_zeros; lia|rewrite length_take; lia].
Qed.

(** Padding a command keeps its bytes, follows them with zeros up to the
    next block boundary past a four-byte tail, and sends a whole number of
    512-byte blocks; on the direct path the length is computed apart, and the two
    agree except when the aligned length is four short of a block, where the
    thread sends one block more. *)
Lemma pad_lengths (pl buf : list Z)
    (Hp : take (length pl) buf = pl) (Hl : (pad_len (length pl) ≤ length buf)%nat) :
  let n := length pl in
  (∃ buf', aicwf_sdio_tx_msg_pad buf n = Ok (buf', pad_len n) ∧ length buf' = length buf ∧
     take (pad_len n) buf' = pl ++ zeros (pad_len n - n)) ∧
  (n ≤ pad_len n ∧ pad_len n mod 512 = 0)%nat ∧
  pad_len n = (ipc_send_len_8801 n +
               if bool_decide (round4 n mod 512 = 508) then 512 else 0)%nat.
Proof.
  intros n. pose proof (pad_len_bounds n) as [Hb Hm]. pose proof (round4_spec n) as [Hr Hr4].
  split_and!; [|lia|done|].
  - destruct (pad_spec pl buf Hp Hl) as (buf' & E & L & P). exists buf'.
    split; [exact E|]. split; [exact L|]. apply padded_take; [fold n; lia|by rewrite L|exact P].
  - unfold pad_len, ipc_send_len_8801.
    replace ((n + 4 - 1) / 4 * 4)%nat with (round4 n) by (unfold round4; do 3 f_equal; lia).
    generalize dependent (round4 n). intros m _ _ Hm4.
    repeat case_bool_decide; nat_div.
Qed.

Lemma pad_lengths_witness :
  ∃ buf', aicwf_sdio_tx_msg_pad ([1; 2; 3] ++ zeros 1533) 3 = Ok (buf', 512%nat) ∧
          take 512 buf' = [1; 2; 3] ++ zeros 509.
Proof.
  destruct (proj1 (pad_lengths [1; 2; 3] ([1; 2; 3] ++ zeros 1533) eq_refl ltac:(vm_compute; lia)))
    as (buf' & E & _ & H).
  exists buf'. split; [exact E|exact H].
Defined.

(** A payload of 1529 to 1532 bytes fits the 1536-byte command buffer but not the
    2048 bytes the padding asks to send. *)
Lemma pad_len_overflow n : (1529 ≤ n ≤ 1532)%nat → pad_len n = 2048%nat.
Proof.
  intros Hn. pose proof (round4_spec n) as [Hr H4].
  assert (E : round4 n = 1532%nat) by (nat_div).
  unfold pad_len. by rewrite E.
Qed.

(** The commands the buffer really holds: everything else up to its size. *)
Lemma pad_len_fits n : (n ≤ 1528 ∨ 1533 ≤ n ≤ 1536)%nat → (pad_len n ≤ 1536)%nat.
Proof.
  intros Hn. pose proof (round4_spec n) as [Hr H4]. unfold pad_len.
  case_bool_decide; [nat_div|].
  assert (round4 n ≤ 1528 ∨ round4 n = 1536)%nat as [Hs|Hs]
    by (nat_div).
  - assert ((round4 n + 4) / 512 ≤ 2)%nat by (nat_div). lia.
  - by rewrite Hs in *.
Qed.

(** Whatever does not fit the buffer is left out, and the length is the same. *)
Lemma pad_short buf n :
  (n ≤ length buf)%nat →
  ∃ buf', aicwf_sdio_tx_msg_pad buf n = Ok (buf', pad_len n) ∧ length buf' = length buf.
Proof.
  intros Hn. pose proof (round4_spec n) as [Hr _].
  assert (F : ∀ (c : Prop) `{Decision c} b a e, (c → (a ≤ e)%nat ∧ (e ≤ length b)%nat) →
    ∃ b', (if bool_decide c then fill a e b else Ok b) = Ok b' ∧ length b' = length b).
  { intros c ? b a e Hc. case_bool_decide as Hd; [|by exists b]. destruct (Hc Hd).
    rewrite fill_spec by done. eexists. split; [done|]. apply length_splice. rewrite length_zeros. lia. }
  assert (E1 : ∃ b1, pad_align buf n = Ok (b1, round4 n) ∧ length b1 = length buf).
  { unfold pad_align. case_bool_decide as H4; [|by rewrite round4_id by lia; exists buf].
    replace ((n + 4 - 1) / 4 * 4)%nat with (round4 n) by (unfold round4; do 3 f_equal; lia).
    cbv zeta. destruct (F (n + (round4 n - n) ≤ length buf)%nat _ buf n (n + (round4 n - n))%nat)
      as (b1 & -> & L); [lia|]. by exists b1. }
  destruct E1 as (b1 & E1 & L1). unfold aicwf_sdio_tx_msg_pad. rewrite E1. cbn [mbind res_bind].
  assert (E2 : ∃ b2, pad_tail b1 (round4 n) = Ok (b2, pad_len n) ∧ length b2 = length b1).
  { unfold pad_tail, pad_len. case_bool_decide as H5.
    - destruct (F (round4 n + 4 ≤ length b1)%nat _ b1 (round4 n) (round4 n + 4)%nat)
        as (b2 & -> & L); [lia|]. rewrite bool_decide_false by done. by exists b2.
    - rewrite bool_decide_true by lia. by exists b1. }
  destruct E2 as (b2 & E2 & L2). rewrite E2. cbn [mbind res_bind].
  destruct (F (round4 n < pad_len n ∧ pad_len n ≤ length b2)%nat _ b2 (round4 n) (pad_len n))
    as (b3 & -> & L3); [lia|]. exists b3. split; [done|lia].
Qed.

End Pad.

(** ** The walk over a received buffer *)
Module Rx.

(** driver/bsp/src/sdio/flow.rs:88-88 [IPC_RX_BUF_SIZE] *)
Definition IPC_RX_BUF_SIZE : nat := 512.
(** driver/bsp/src/sdio/flow.rs:136-136 [RX_HWHRD_LEN_DATA] *)
Definition RX_HWHRD_LEN_DATA : nat := 60.
(** driver/bsp/src/sdio/flow.rs:137-137 [RX_ALIGNMENT] *)
Definition RX_ALIGNMENT : Z := 4.
(** driver/bsp/src/sdio/flow.rs:150-150 [SDIO_TYPE_CFG_CMD_RSP] *)
Definition SDIO_TYPE_CFG_CMD_RSP : Z := 0x11.
(** driver/bsp/src/sdio/flow.rs:208-208 [SDIO_TYPE_CFG] *)
Definition SDIO_TYPE_CFG : Z := 0x10.

(** Confirmations are all that reaches the manager. *)
Definition cfms (m m' : Mgr.t) : Prop :=
  ∃ tr, Mgr.run (λ _ e, ∃ id param w, e = Mgr.ECfm id param w) m tr m'.

Lemma cfms_refl m : cfms m m.
Proof. exists []. constructor. Qed.

Lemma run_app P m tr m1 tr' m2 :
  Mgr.run P m tr m1 → Mgr.run P m1 tr' m2 → Mgr.run P m (tr ++ tr') m2.
Proof. induction 1; simpl; [done|]. intros. eapply Mgr.run_cons; eauto. Qed.

Lemma cfms_trans m1 m2 m3 : cfms m1 m2 → cfms m2 m3 → cfms m1 m3.
Proof. intros [tr H1] [tr' H2]. exists (tr ++ tr'). by eapply run_app. Qed.

Lemma cfms_wf m m' : cfms m m' → Mgr.wf m → Mgr.wf m'.
Proof. intros [tr Hr]. by eapply Mgr.run_wf. Qed.

(** *** The bytes in the log *)

Definition hex_digit (d : Z) : Ascii.ascii := Ascii.ascii_of_N (Z.to_N (if bool_decide (d < 10) then 48 + d else 87 + d)).

(** [{:02x}] of a byte *)
Definition hex02 (b : Z) : string := String (hex_digit (b / 16)) (String (hex_digit (b `mod` 16)) EmptyString).

(** driver/bsp/src/sdio/flow.rs:112-117 [HexPrefix::fmt], the loop; a byte beyond the buffer is written as zero *)
Fixpoint hex_loop (buf : list Z) (i n : nat) : string :=
  match n with
  | O => EmptyString
  | S n =>
      (if bool_decide (0 < i)%nat then " " else "") +:+ hex02 (nth i buf 0) +:+ hex_loop buf (S i) n
  end%string.

(** driver/bsp/src/sdio/flow.rs:107-123 [HexPrefix, HexPrefix::fmt] *)
Definition hex_prefix (buf : list Z) (len : nat) : string :=
  (hex_loop buf 0 (Nat.min len 32) +:+ if bool_decide (32 < len)%nat then " ..." else "")%string.

(** Who listens: the two registered callbacks, over the state [C] of the layer that
    registered them.  An indication callback gets the message identifier and the
    [param_len] bytes at its pointer, a data callback the bytes of the frame. *)
Section rx.
Context {C : Type}.

(** driver/bsp/src/sdio/flow.rs:127-147 [E2A_INDICATION_CB, RX_DATA_INDICATION_CB] *)
Record Client := mkClient {
  user : C;
  e2a_cb : option (Z → list Z → C → C);
  rx_data_cb : option (list Z → C → C) }.

(** driver/bsp/src/sdio/flow.rs:131-133 [set_e2a_indication_cb] *)
Definition set_e2a_indication_cb (cb : option (Z → list Z → C → C)) (c : Client) : Client :=
  mkClient c.(user) cb c.(rx_data_cb).

(** driver/bsp/src/sdio/flow.rs:145-147 [set_rx_data_indication_cb] *)
Definition set_rx_data_indication_cb (cb : option (list Z → C → C)) (c : Client) : Client :=
  mkClient c.(user) c.(e2a_cb) cb.

Definition indicate (id : Z) (param : list Z) (c : Client) : Client :=
  match c.(e2a_cb) with
  | Some cb => mkClient (cb id param c.(user)) c.(e2a_cb) c.(rx_data_cb)
  | None => c
  end.

Definition rx_data (bytes : list Z) (c : Client) : Client :=
  match c.(rx_data_cb) with
  | Some cb => mkClient (cb bytes c.(user)) c.(e2a_cb) c.(rx_data_cb)
  | None => c
  end.

(** [u16::from_le_bytes([buf[i], buf[i + 1]])] *)
Definition u16_at (buf : list Z) (i : nat) : res Z :=
  a ← index buf i; b ← index buf (i + 1); Ok (of_le [a; b]).

(** driver/bsp/src/sdio/flow.rs:162-177 [parse_one_cfm_at], also driver/bsp/src/sdio/flow.rs:182-197 [parse_one_cfm_at];
    the two forms differ in the size of the header [hdr], in where it holds the
    identifier and the length, and in the least length accepted *)
Definition cfm_at (buf : list Z) (n offset hdr id_off len_off min_len : nat) :
    st (Mgr.t * Client) (option nat) :=
  len ← st_lift (u16_at buf (offset + len_off));
  let param_len := Z.to_nat len in
  if bool_decide (min_len ≤ param_len ∧ param_len ≤ 256)%nat then
    let total := (hdr + param_len)%nat in
    if bool_decide (offset + total ≤ n)%nat then
      msg_id ← st_lift (u16_at buf (offset + id_off));
      param ← st_lift (slice_to (offset + hdr) (offset + total) buf);
      _ ← st_modify (λ '(m, c), ((Mgr.on_cfm msg_id param m).1, indicate msg_id param c));
      mret (Some total)
    else mret None
  else mret None.

(** driver/bsp/src/sdio/flow.rs:156-201 [parse_one_cfm_at] *)
Definition parse_one_cfm_at (buf : list Z) (n offset : nat) : st (Mgr.t * Client) nat :=
  if bool_decide (n < offset + 16)%nat then mret 0%nat
  else
    type ← st_lift (index buf (offset + 2));
    r ← (if bool_decide (Z.land type 0x7f = SDIO_TYPE_CFG_CMD_RSP)
         then cfm_at buf n offset 16 4 10 0 else mret None);
    match r with
    | Some total => mret total
    | None =>
        if bool_decide (offset + 8 ≤ n)%nat then
          r ← cfm_at buf n offset 8 0 6 1;
          mret (default 0%nat r)
        else mret 0%nat
    end.

(** driver/bsp/src/sdio/flow.rs:228-230 [poll_rx_one], the lengths of a data frame:
    what is delivered and what is consumed *)
Definition data_lens (pkt_len : nat) : nat * nat :=
  let aggr_len := (pkt_len + RX_HWHRD_LEN_DATA)%nat in
  let adjust_len := Z.to_nat (Z.land (Z.of_nat aggr_len + RX_ALIGNMENT - 1) (Z.lnot (RX_ALIGNMENT - 1))) in
  ((3 + aggr_len)%nat, (3 + adjust_len)%nat).

(** driver/bsp/src/sdio/flow.rs:224-239 [poll_rx_one], a data frame at [offset] *)
Definition data_at (buf : list Z) (n offset : nat) : st (Mgr.t * Client) (option nat) :=
  if bool_decide (offset + 3 ≤ n)%nat then
    len ← st_lift (u16_at buf offset);
    type_byte ← st_lift (index buf (offset + 2));
    if bool_decide (Z.land type_byte SDIO_TYPE_CFG ≠ SDIO_TYPE_CFG) then
      let '(deliver, total) := data_lens (Z.to_nat len) in
      if bool_decide (offset + total ≤ n)%nat then
        _ ← st_modify (λ '(m, c), (m, rx_data (slice offset deliver buf) c));
        mret (Some total)
      else mret None
    else mret None
  else mret None.

(** driver/bsp/src/sdio/flow.rs:222-253 [poll_rx_one], the loop; a round that goes
    on consumes at least one byte, so [n] rounds are enough *)
Fixpoint rx_loop (fuel : nat) (buf : list Z) (n offset : nat) : st (Mgr.t * Client) () :=
  if bool_decide (offset < n)%nat then
    match fuel with
    | O => st_lift Panic
    | S fuel =>
        d ← data_at buf n offset;
        match d with
        | Some total => rx_loop fuel buf n (offset + total)
        | None =>
            consumed ← parse_one_cfm_at buf n offset;
            if bool_decide (consumed = 0)%nat then mret ()
            else rx_loop fuel buf n (offset + consumed)
        end
    end
  else mret ().

(** driver/bsp/src/sdio/flow.rs:220-254 [poll_rx_one], what it does with the [n]
    bytes received *)
Definition process (buf : list Z) (n : nat) : st (Mgr.t * Client) () := rx_loop n buf n 0.

(** *** No buffer makes it panic or loop *)

Lemma u16_ok buf i : (i + 1 < length buf)%nat → ∃ v, u16_at buf i = Ok v.
Proof.
  intros Hi. unfold u16_at, index.
  destruct (lookup_lt_is_Some_2 buf i) as [a ->]; [lia|].
  destruct (lookup_lt_is_Some_2 buf (i + 1)) as [b ->]; [lia|]. by eexists.
Qed.

Lemma index_is_ok (buf : list Z) i : (i < length buf)%nat → ∃ v, index buf i = Ok v.
Proof. intros Hi. unfold index. destruct (lookup_lt_is_Some_2 buf i Hi) as [a ->]. by eexists. Qed.

(** What a parse of the buffer may do to the manager and the listener. *)
Definition cfm_only (s s' : Mgr.t * Client) : Prop := cfms s.1 s'.1.

Lemma cfm_only_refl s : cfm_only s s.
Proof. apply cfms_refl. Qed.

Lemma cfm_only_trans s1 s2 s3 : cfm_only s1 s2 → cfm_only s2 s3 → cfm_only s1 s3.
Proof. apply cfms_trans. Qed.

Lemma cfm_only_one id param m c c' :
  cfm_only (m, c) ((Mgr.on_cfm id param m).1, c').
Proof.
  destruct (Mgr.on_cfm id param m) as [m' w] eqn:E. exists [Mgr.ECfm id param w].
  eapply Mgr.run_cons; [by eexists _, _, _|by constructor|constructor].
Qed.

Lemma cfm_only_same m c c' : cfm_only (m, c) (m, c').
Proof. exists []. constructor. Qed.

Lemma data_lens_pos k : (63 ≤ (data_lens k).1 ≤ (data_lens k).2)%nat.
Proof.
  unfold data_lens, RX_HWHRD_LEN_DATA, RX_ALIGNMENT. simpl.
  change (Z.lnot (4 - 1)) with (Z.lnot (Z.ones 2)).
  rewrite <- Z.ldiff_land, Z.ldiff_ones_r, Z.shiftl_mul_pow2, Z.shiftr_div_pow2 by lia.
  change (2 ^ 2) with 4. Z.to_euclidean_division_equations. lia.
Qed.

Lemma data_at_total buf n offset s :
  (n ≤ length buf)%nat →
  ∃ r s', data_at buf n offset s = (Ok r, s') ∧ cfm_only s s' ∧
          ∀ t, r = Some t → (0 < t ∧ offset + t ≤ n)%nat.
Proof.
  intros Hn. destruct s as [m c]. unfold data_at.
  case_bool_decide; [|by exists None, (m, c); split_and!; eauto using cfm_only_refl].
  destruct (u16_ok buf offset) as [len El]; [lia|].
  destruct (index_is_ok buf (offset + 2)) as [ty Et]; [lia|].
  unfold mbind, st_bind, st_lift. rewrite El, Et.
  case_bool_decide; [|by exists None, (m, c); split_and!; eauto using cfm_only_refl].
  pose proof (data_lens_pos (Z.to_nat len)) as Hp. destruct (data_lens _) as [dl tl]; simpl in Hp.
  case_bool_decide; [|by exists None, (m, c); split_and!; eauto using cfm_only_refl].
  eexists _, _. split_and!; [done|apply cfm_only_same|]. intros t [= <-]. lia.
Qed.

Lemma cfm_at_total buf n offset hdr id_off len_off min_len s :
  (n ≤ length buf)%nat → (offset + hdr ≤ n)%nat → (0 < hdr)%nat →
  (id_off + 1 < hdr)%nat → (len_off + 1 < hdr)%nat →
  ∃ r s', cfm_at buf n offset hdr id_off len_off min_len s = (Ok r, s') ∧ cfm_only s s' ∧
          ∀ t, r = Some t → (0 < t ∧ offset + t ≤ n)%nat.
Proof.
  intros Hn Ho Hh Hi Hl. destruct s as [m c]. unfold cfm_at.
  destruct (u16_ok buf (offset + len_off)) as [len El]; [lia|].
  destruct (u16_ok buf (offset + id_off)) as [id Ei]; [lia|].
  unfold mbind, st_bind, st_lift. rewrite El.
  case_bool_decide; [|by exists None, (m, c); split_and!; eauto using cfm_only_refl].
  case_bool_decide; [|by exists None, (m, c); split_and!; eauto using cfm_only_refl].
  rewrite Ei, slice_to_ok by lia. eexists _, _. split_and!; [done|apply cfm_only_one|].
  intros t [= <-]. lia.
Qed.

Lemma parse_total buf n offset s :
  (n ≤ length buf)%nat →
  ∃ k s', parse_one_cfm_at buf n offset s = (Ok k, s') ∧ cfm_only s s' ∧
          (offset < n → offset + k ≤ n)%nat.
Proof.
  intros Hn. unfold parse_one_cfm_at.
  case_bool_decide; [exists 0%nat, s; split_and!; eauto using cfm_only_refl; lia|].
  destruct (index_is_ok buf (offset + 2)) as [ty Et]; [lia|].
  unfold mbind at 1, st_bind at 1, st_lift at 1. rewrite Et.
  assert (H1 : ∃ r s1, (if bool_decide (Z.land ty 0x7f = SDIO_TYPE_CFG_CMD_RSP)
         then cfm_at buf n offset 16 4 10 0 else mret None) s = (Ok r, s1) ∧ cfm_only s s1 ∧
          ∀ t, r = Some t → (0 < t ∧ offset + t ≤ n)%nat).
  { case_bool_decide; [apply cfm_at_total; lia|].
    exists None, s. split_and!; eauto using cfm_only_refl. done. }
  destruct H1 as (r & s1 & E1 & C1 & B1). unfold mbind at 1, st_bind at 1. rewrite E1.
  destruct r as [t|].
  - exists t, s1. split_and!; eauto. destruct (B1 t eq_refl). lia.
  - rewrite bool_decide_true by lia.
    destruct (cfm_at_total buf n offset 8 0 6 1 s1) as (r & s2 & E2 & C2 & B2); try lia.
    unfold mbind, st_bind. rewrite E2. exists (default 0%nat r), s2.
    split_and!; [done|by eapply cfm_only_trans|].
    destruct r as [t|]; simpl; [destruct (B2 t eq_refl); lia|lia].
Qed.

Lemma rx_loop_total fuel buf n offset s :
  (n ≤ length buf)%nat → (n - offset ≤ fuel)%nat →
  ∃ s', rx_loop fuel buf n offset s = (Ok (), s') ∧ cfm_only s s'.
Proof.
  intros Hn. revert offset s. induction fuel as [|fuel IH]; intros offset s Hf; cbn [rx_loop].
  - rewrite bool_decide_false by lia. exists s. split; eauto using cfm_only_refl.
  - case_bool_decide; [|exists s; split; eauto using cfm_only_refl].
    destruct (data_at_total buf n offset s Hn) as (d & s1 & E1 & C1 & B1).
    unfold mbind at 1, st_bind at 1. rewrite E1. destruct d as [t|].
    + destruct (B1 t eq_refl). destruct (IH (offset + t)%nat s1) as (s' & E & C'); [lia|].
      exists s'. split; [exact E|by eapply cfm_only_trans].
    + destruct (parse_total buf n offset s1 Hn) as (k & s2 & E2 & C2 & B2).
      unfold mbind, st_bind. rewrite E2.
      assert (C12 : cfm_only s s2) by by eapply cfm_only_trans.
      case_bool_decide; [by exists s2|].
      destruct (IH (offset + k)%nat s2) as (s' & E & C'); [lia|].
      exists s'. split; [exact E|by eapply cfm_only_trans].
Qed.

(** C40 (safety): whatever bytes the card delivers, the walk over them ends without a
    panic: no length field takes it past the buffer, no frame makes it stand
    still, and all it does to the command manager is deliver confirmations, so the
    manager's invariants survive any input. *)
Theorem rx_never_panics (buf : list Z) (n : nat) (m : Mgr.t) (c : Client)
    (Hn : (n ≤ length buf)%nat) :
  ∃ m' c', process buf n (m, c) = (Ok (), (m', c')) ∧
    (Mgr.counted m → Mgr.counted m').
Proof.
  destruct (rx_loop_total n buf n 0 (m, c) Hn ltac:(lia)) as ([m' c'] & E & tr & Hr).
  exists m', c'. split; [exact E|]. revert Hr. simpl. apply Mgr.run_invariant.
  intros m0 e m1 Hc (id & param & w & ->) Hs. eapply Mgr.step_counted; [exact Hc| |exact Hs]. exact I.
Qed.

(** *** Frames back to back *)

(** What the chip sends: a confirmation behind four bytes of prefix, or a data
    frame behind its three; [extra] is whatever fills the hardware header and the
    alignment. *)
Inductive frame :=
  | FCfm (p0 p1 ty p3 id dest src : Z) (pattern param : list Z)
  | FData (pkt_len ty : Z) (body : list Z).

Definition frame_ok (f : frame) : Prop :=
  match f with
  | FCfm _ _ ty _ id _ _ pattern param =>
      Z.land ty 0x7f = SDIO_TYPE_CFG_CMD_RSP ∧ in_range 16 id ∧ length pattern = 4%nat ∧
      (length param ≤ 256)%nat
  | FData pkt_len ty body =>
      Z.land ty SDIO_TYPE_CFG ≠ SDIO_TYPE_CFG ∧ in_range 16 pkt_len ∧
      (3 + length body = (data_lens (Z.to_nat pkt_len)).2)%nat
  end.

Definition encode (f : frame) : list Z :=
  match f with
  | FCfm p0 p1 ty p3 id dest src pattern param =>
      [p0; p1; ty; p3] ++ to_le 2 id ++ to_le 2 dest ++ to_le 2 src ++
      to_le 2 (Z.of_nat (length param)) ++ pattern ++ param
  | FData pkt_len ty body => to_le 2 pkt_len ++ [ty] ++ body
  end.

Definition deliver (f : frame) (s : Mgr.t * Client) : Mgr.t * Client :=
  match f with
  | FCfm _ _ _ _ id _ _ _ param => ((Mgr.on_cfm id param s.1).1, indicate id param s.2)
  | FData pkt_len _ _ => (s.1, rx_data (take (data_lens (Z.to_nat pkt_len)).1 (encode f)) s.2)
  end.

Lemma index_app (pre x : list Z) k : index (pre ++ x) (length pre + k) = index x k.
Proof. unfold index. by rewrite lookup_app_r, Nat.add_sub' by lia. Qed.

Lemma u16_app (pre x : list Z) k : u16_at (pre ++ x) (length pre + k) = u16_at x k.
Proof. unfold u16_at. by rewrite <- Nat.add_assoc, !index_app. Qed.

Lemma u16_to_le id : in_range 16 id → of_le [id `mod` 256; (id `div` 256) `mod` 256] = id.
Proof. intros. by apply (of_le_to_le_id 2). Qed.

Lemma cfg_cmd_rsp_is_cfg ty :
  Z.land ty 0x7f = SDIO_TYPE_CFG_CMD_RSP → Z.land ty SDIO_TYPE_CFG = SDIO_TYPE_CFG.
Proof.
  intros H. change SDIO_TYPE_CFG with (Z.land 0x7f 0x10). by rewrite Z.land_assoc, H.
Qed.

Lemma data_at_data pre pkt_len ty body post s :
  frame_ok (FData pkt_len ty body) →
  let buf := pre ++ encode (FData pkt_len ty body) ++ post in
  data_at buf (length buf) (length pre) s =
    (Ok (Some (length (encode (FData pkt_len ty body)))), deliver (FData pkt_len ty body) s).
Proof.
  intros (Ht & Hp & Hl) buf. destruct s as [m c].
  pose proof (data_lens_pos (Z.to_nat pkt_len)) as Hd.
  set (e := encode (FData pkt_len ty body)) in *.
  assert (Le : length e = (3 + length body)%nat) by done.
  assert (Lb : length buf = (length pre + length e + length post)%nat)
    by (unfold buf; rewrite !length_app; lia).
  assert (U : u16_at buf (length pre) = Ok pkt_len).
  { rewrite <- (Nat.add_0_r (length pre)). unfold buf. rewrite u16_app.
    unfold e, encode, u16_at, index. cbn. f_equal. by apply u16_to_le. }
  assert (T : index buf (length pre + 2) = Ok ty) by (unfold buf; by rewrite index_app).
  unfold data_at. rewrite bool_decide_true by lia.
  unfold mbind, st_bind, st_lift. rewrite U, T. rewrite bool_decide_true by done.
  unfold deliver. fold e. destruct (data_lens (Z.to_nat pkt_len)) as [dl tl]. simpl in Hl, Hd |- *.
  rewrite bool_decide_true by lia. unfold st_modify, buf.
  rewrite slice_app_r, Nat.sub_diag, slice_app_l by lia.
  by replace tl with (length e) by lia.
Qed.

Lemma parse_cfm pre p0 p1 ty p3 id dest src pattern param post s :
  let f := FCfm p0 p1 ty p3 id dest src pattern param in
  frame_ok f →
  let buf := pre ++ encode f ++ post in
  data_at buf (length buf) (length pre) s = (Ok None, s) ∧
  parse_one_cfm_at buf (length buf) (length pre) s = (Ok (length (encode f)), deliver f s).
Proof.
  intros f (Ht & Hi & Hpat & Hpar) buf. destruct s as [m c].
  destruct pattern as [|q0 [|q1 [|q2 [|q3 [|]]]]]; try discriminate Hpat.
  assert (Le : length (encode f) = (16 + length param)%nat) by done.
  assert (Lb : length buf = (length pre + length (encode f) + length post)%nat)
    by (unfold buf; rewrite !length_app; lia).
  assert (T : index buf (length pre + 2) = Ok ty) by (unfold buf; by rewrite index_app).
  assert (UL : u16_at buf (length pre + 10) = Ok (Z.of_nat (length param))).
  { unfold buf. rewrite u16_app. unfold f, encode, u16_at, index. cbn. f_equal.
    apply u16_to_le. unfold in_range. lia. }
  assert (UI : u16_at buf (length pre + 4) = Ok id).
  { unfold buf. rewrite u16_app. unfold f, encode, u16_at, index. cbn. f_equal. by apply u16_to_le. }
  assert (SL : slice_to (length pre + 16) (length pre + (16 + length param)) buf = Ok param).
  { rewrite slice_to_ok by lia. f_equal.
    replace (length pre + (16 + length param) - (length pre + 16))%nat with (length param) by lia.
    unfold buf. rewrite slice_app_r by lia. rewrite Nat.add_sub'.
    change (encode f ++ post) with (([p0; p1; ty; p3] ++ to_le 2 id ++ to_le 2 dest ++ to_le 2 src ++
      to_le 2 (Z.of_nat (length param)) ++ [q0; q1; q2; q3]) ++ param ++ post).
    by apply slice_app_mid. }
  split.
  - unfold data_at. rewrite bool_decide_true by lia.
    destruct (u16_ok buf (length pre)) as [v U]; [lia|].
    unfold mbind, st_bind, st_lift. rewrite U, T.
    by rewrite bool_decide_false by (intros Hc; by apply Hc, cfg_cmd_rsp_is_cfg).
  - unfold parse_one_cfm_at. rewrite bool_decide_false by lia.
    unfold mbind, st_bind, st_lift. rewrite T. rewrite (bool_decide_true _ Ht).
    unfold cfm_at, mbind, st_bind, st_lift. rewrite UL, Nat2Z.id.
    rewrite bool_decide_true by lia. rewrite bool_decide_true by lia. by rewrite UI, SL.
Qed.

Lemma encode_pos f : frame_ok f → (0 < length (encode f))%nat.
Proof. destruct f; intros _; simpl; lia. Qed.

(** The loop over a run of frames leaves what follows them. *)
Lemma rx_loop_frames fs pre post fuel s :
  Forall frame_ok fs →
  let buf := pre ++ concat (encode <$> fs) ++ post in
  (length (concat (encode <$> fs)) + length post ≤ fuel)%nat →
  ∃ fuel', (length post ≤ fuel')%nat ∧
    rx_loop fuel buf (length buf) (length pre) s =
    rx_loop fuel' buf (length buf) (length (pre ++ concat (encode <$> fs)))
      (foldl (flip deliver) s fs).
Proof.
  intros Hok. revert pre fuel s.
  induction Hok as [|f fs Hf Hfs IH]; intros pre fuel s buf Hfuel.
  - exists fuel. split; [simpl in Hfuel; lia|]. simpl. by rewrite app_nil_r.
  - pose proof (encode_pos f Hf) as Hpos.
    assert (Eb : buf = pre ++ encode f ++ (concat (encode <$> fs) ++ post))
      by (unfold buf; simpl; by rewrite <- app_assoc).
    assert (Eb' : buf = (pre ++ encode f) ++ concat (encode <$> fs) ++ post)
      by (rewrite Eb; by rewrite <- app_assoc).
    change (length (encode f ++ concat (encode <$> fs)) + length post ≤ fuel)%nat in Hfuel.
    rewrite length_app in Hfuel.
    destruct fuel as [|fuel]; [lia|]. cbn [rx_loop].
    rewrite bool_decide_true by (rewrite Eb, !length_app; lia).
    destruct (IH (pre ++ encode f) fuel (deliver f s)) as (fuel' & Hf' & E); [lia|].
    rewrite <- Eb' in E. exists fuel'. split; [done|].
    replace (pre ++ concat (encode <$> f :: fs)) with ((pre ++ encode f) ++ concat (encode <$> fs))
      by (simpl; by rewrite <- app_assoc).
    rewrite length_app in E. simpl foldl. rewrite <- E. unfold mbind, st_bind. destruct f as [p0 p1 ty p3 id dest src pat param|k ty body].
    + destruct (parse_cfm pre p0 p1 ty p3 id dest src pat param
                  (concat (encode <$> fs) ++ post) s Hf) as [D P].
      rewrite <- Eb in D, P. rewrite D, P. by rewrite bool_decide_false by lia.
    + pose proof (data_at_data pre k ty body (concat (encode <$> fs) ++ post) s Hf) as D.
      cbv zeta in D. rewrite <- Eb in D. by rewrite D.
Qed.

Lemma process_frames fs m c :
  Forall frame_ok fs →
  let buf := concat (encode <$> fs) in
  process buf (length buf) (m, c) = (Ok (), foldl (flip deliver) (m, c) fs).
Proof.
  intros Hok buf. unfold process.
  pose proof (rx_loop_frames fs [] [] (length buf) (m, c) Hok) as L. simpl in L.
  rewrite app_nil_r in L. fold buf in L. destruct L as (fuel' & _ & E); [lia|].
  rewrite E. destruct fuel'; simpl; by rewrite bool_decide_false by lia.
Qed.

(** C16 (roundtrip): a buffer that holds frames back to back is delivered frame by
    frame, in order: every confirmation reaches the command manager and the
    indication callback with its identifier and parameters, every data frame the
    data callback with the bytes it was sent as. *)
Theorem rx_frames_in_order (fs : list frame) (m : Mgr.t) (c : Client) (Hok : Forall frame_ok fs) :
  let buf := concat (encode <$> fs) in
  process buf (length buf) (m, c) = (Ok (), foldl (flip deliver) (m, c) fs).
Proof. by apply process_frames. Qed.

(** Bytes that hold no frame: less than a data frame of zeros. *)
Lemma rx_loop_zeros fuel pre k s :
  (k < 63)%nat → (k ≤ fuel)%nat →
  rx_loop fuel (pre ++ zeros k) (length (pre ++ zeros k)) (length pre) s = (Ok (), s).
Proof.
  intros Hk Hf.
  assert (Lb : length (pre ++ zeros k) = (length pre + k)%nat) by by rewrite length_app, length_zeros.
  destruct fuel as [|fuel]; cbn [rx_loop]; [by rewrite bool_decide_false by lia|].
  case_bool_decide; [|done].
  assert (I : ∀ i, (i < k)%nat → index (pre ++ zeros k) (length pre + i) = Ok 0).
  { intros i Hi. rewrite index_app. unfold index, zeros. by rewrite (lookup_replicate_2 k 0 i Hi). }
  assert (U : ∀ i, (i + 1 < k)%nat → u16_at (pre ++ zeros k) (length pre + i) = Ok 0).
  { intros i Hi. unfold u16_at. rewrite <- Nat.add_assoc, !I by lia. done. }
  assert (D : data_at (pre ++ zeros k) (length (pre ++ zeros k)) (length pre) s = (Ok None, s)).
  { unfold data_at. case_bool_decide; [|done]. unfold mbind, st_bind, st_lift.
    pose proof (U 0%nat ltac:(lia)) as U0. rewrite Nat.add_0_r in U0. rewrite U0, I by lia.
    rewrite bool_decide_true by done. change (data_lens (Z.to_nat 0)) with (63, 63)%nat.
    cbv beta iota. by rewrite bool_decide_false by lia. }
  unfold mbind at 1, st_bind at 1. rewrite D.
  assert (P : parse_one_cfm_at (pre ++ zeros k) (length (pre ++ zeros k)) (length pre) s = (Ok 0%nat, s)).
  { unfold parse_one_cfm_at. case_bool_decide; [done|]. unfold mbind, st_bind, st_lift.
    rewrite I by lia. rewrite bool_decide_false by done. simpl. rewrite bool_decide_true by lia.
    unfold cfm_at, mbind, st_bind, st_lift. by rewrite U by lia. }
  unfold mbind, st_bind. by rewrite P.
Qed.

Definition zero_frame : frame := FData 0 0 (zeros 60).

(** The card pads a packet with zeros to the 512-byte block it is
    read in, and the walk does not stop at them: behind a confirmation every 63
    zero bytes are handed to the data callback as one more received frame; only
    what is left below 63 bytes is recognised as the end. *)
Lemma zero_padding_delivered p0 p1 ty p3 id dest src pattern param (m : Mgr.t) (c : Client) :
  let f := FCfm p0 p1 ty p3 id dest src pattern param in
  let pad := (IPC_RX_BUF_SIZE - length (encode f))%nat in
  frame_ok f →
  process (encode f ++ zeros pad) IPC_RX_BUF_SIZE (m, c) =
    (Ok (), foldl (flip deliver) (m, c) (f :: replicate (pad / 63) zero_frame)).
Proof.
  intros f pad Hf.
  assert (Le : (length (encode f) ≤ 272)%nat).
  { destruct Hf as (_ & _ & Hp & Hl). unfold f, encode. rewrite !length_app, !length_to_le, Hp. simpl. lia. }
  set (fs := f :: replicate (pad / 63) zero_frame).
  assert (Hok : Forall frame_ok fs).
  { constructor; [done|]. apply Forall_replicate. by split_and!; [|unfold in_range; lia|]. }
  assert (Ez : ∀ k, concat (encode <$> replicate k zero_frame) = zeros (63 * k)).
  { induction k as [|k IHk]; [done|]. cbn [replicate fmap list_fmap concat]. rewrite IHk.
    change (encode zero_frame) with (zeros 63). unfold zeros. rewrite <- replicate_add. f_equal. lia. }
  assert (Eb : encode f ++ zeros pad = concat (encode <$> fs) ++ zeros (pad mod 63)).
  { unfold fs. cbn [fmap list_fmap concat]. fold (encode <$> replicate (pad / 63) zero_frame).
    rewrite Ez, <- app_assoc. f_equal. unfold zeros. rewrite <- replicate_add. f_equal.
    apply Nat.div_mod_eq. }
  assert (Lb : length (encode f ++ zeros pad) = IPC_RX_BUF_SIZE)
    by (rewrite length_app, length_zeros; unfold pad, IPC_RX_BUF_SIZE; lia).
  unfold process. rewrite <- Lb at 1 2. rewrite Eb.
  pose proof (rx_loop_frames fs [] (zeros (pad mod 63))
    (length (concat (encode <$> fs) ++ zeros (pad mod 63))) (m, c) Hok) as L.
  cbv zeta in L. rewrite !app_nil_l in L. change (length []) with 0%nat in L.
  destruct L as (fuel' & Hf' & E); [rewrite length_app; lia|]. rewrite E.
  rewrite length_zeros in Hf'. rewrite rx_loop_zeros; [done| |done]. by apply Nat.mod_upper_bound.
Qed.
End rx.

Lemma rx_never_panics_witness :
  ∃ m' c', process (C := nat) (replicate 512 255) 512 (Mgr.new, mkClient 0%nat None None) = (Ok (), (m', c')).
Proof.
  destruct (rx_never_panics (C := nat) (replicate 512 255) 512 Mgr.new (mkClient 0%nat None None)
    ltac:(done)) as (m' & c' & E & _).
  exists m', c'. exact E.
Defined.

Lemma rx_frames_in_order_witness :
  let f := FCfm 0 0 0x11 0 0x401 0 0 [0; 0; 0; 0] [7; 8] in
  process (encode f ++ encode zero_frame) 81 (Mgr.new, mkClient [] None (Some cons)) =
    (Ok (), (Mgr.new, mkClient [zeros 63] None (Some cons))).
Proof.
  refine (rx_frames_in_order [FCfm 0 0 0x11 0 0x401 0 0 [0; 0; 0; 0] [7; 8]; zero_frame]
            Mgr.new (mkClient [] None (Some cons)) _).
  repeat constructor; try done; unfold in_range; simpl; lia.
Defined.

Lemma zero_padding_delivered_witness :
  let f := FCfm 0 0 0x11 0 0x401 0 0 [0; 0; 0; 0] (zeros 8) in
  process (encode f ++ zeros 488) 512 (Mgr.new, mkClient 0%nat None (Some (λ _, S))) =
    (Ok (), (Mgr.new, mkClient 7%nat None (Some (λ _, S)))).
Proof.
  intros f. refine (zero_padding_delivered 0 0 0x11 0 0x401 0 0 [0; 0; 0; 0] (zeros 8) _ _ _).
  repeat split; simpl; lia.
Defined.
Arguments Client : clear implicits.

End Rx.
