(* ===== verification/Flow.v ===== *)
(** * The SDIO flow: [driver/bsp/src/sdio/flow.rs], state, threads and exchanges

    [Bsp] gathers the statics of the BSP.  The main thread runs the definitions
    below; the other threads, bustx and busrx, take their turns where it sleeps,
    waits or takes a lock ([turns]), in the order the scheduler [Sched] chooses,
    each turn being one pass of the thread's loop. *)

From S2P Require Import Prelude CmdMgr Chip Host SdioOps FwLoad Mmc Rx.
Import Types Driver FuncRef.

(** What is left to the scheduler: which threads run at a point where the main
    thread lets go, and whether a wait for the bustx thread ends by its timeout. *)
Inductive turn := BusRx | BusTx.
Class Sched (W : Type) := {
  next_turns : W → list turn * W;
  timed_out : W → bool * W;
}.

(** A kernel thread: whether its [Once] has run, the flag its loop tests, whether
    its loop has ended. *)
Record Thread := mkThread { started : bool; running : bool; exited : bool }.

(** driver/bsp/src/export.rs:39-46 [AicBspInfo] *)
Record AicBspInfo := mkInfo {
  cpmode : Z; hwinfo_r : Z; hwinfo : Z; chip_rev : Z; fwlog_en : bool }.

(** driver/bsp/src/export.rs:50-58 [AicBspInfo::default_const] *)
Definition default_info : AicBspInfo := mkInfo 0 0 0 0 false.

(** driver/bsp/src/sdio/flow.rs:31-31 [PRODUCT_ID_NONE] *)
Definition PRODUCT_ID_NONE : Z := 0xFFFF.
(** driver/bsp/src/sdio/flow.rs:49-49 [PENDING_CMD_TX_CAP] *)
Definition PENDING_CMD_TX_CAP : nat := 1536.
(** driver/bsp/src/sdio/flow.rs:297-297 [EAGAIN], also driver/bsp/src/sdio/flow.rs:377-377 *)
Definition EAGAIN : Z := -11.
(** driver/bsp/src/sdio/flow.rs:424-424 [TX_DONE_TIMEOUT_MS] *)
Definition TX_DONE_TIMEOUT_MS : Z := 5000.

Section flow.
Context {W C : Type} `{SdioHost W} `{Clock W} `{Sched W}.

(** driver/bsp/src/sdio/flow.rs:33-52 [CURRENT_PRODUCT_ID, SDIO_DEVICE, CMD_MGR,
    BUSRX_RUNNING, BUSTX_RUNNING, PENDING_CMD_TX, TX_RESULT]; [sending] is the
    bustx thread's own: the padded command it is sending.  A caller that holds the
    CMD_MGR lock has the manager itself, and the field is then [None]. *)
Record Bsp := mkBsp {
  world : W;
  client : Rx.Client C;
  sdio_device : option Aic8800Sdio;
  cmd_mgr : option Mgr.t;
  current_product_id : Z;
  pending_cmd_tx : option (list Z * nat);
  sending : option (list Z);
  tx_result : option Z;
  busrx : Thread;
  bustx : Thread;
  panicked : bool;
  probe_flag : bool;
  driver : registry W BspSdioFuncRef;
  bsp_info : AicBspInfo;
  firmware : Store.t }.

Definition set_world (x : W) (b : Bsp) : Bsp :=
  mkBsp x b.(client) b.(sdio_device) b.(cmd_mgr) b.(current_product_id) b.(pending_cmd_tx)
        b.(sending) b.(tx_result) b.(busrx) b.(bustx) b.(panicked) b.(probe_flag) b.(driver)
        b.(bsp_info) b.(firmware).
Definition set_client (x : Rx.Client C) (b : Bsp) : Bsp :=
  mkBsp b.(world) x b.(sdio_device) b.(cmd_mgr) b.(current_product_id) b.(pending_cmd_tx)
        b.(sending) b.(tx_result) b.(busrx) b.(bustx) b.(panicked) b.(probe_flag) b.(driver)
        b.(bsp_info) b.(firmware).
Definition set_sdio_device (x : option Aic8800Sdio) (b : Bsp) : Bsp :=
  mkBsp b.(world) b.(client) x b.(cmd_mgr) b.(current_product_id) b.(pending_cmd_tx) b.(sending)
        b.(tx_result) b.(busrx) b.(bustx) b.(panicked) b.(probe_flag) b.(driver) b.(bsp_info)
        b.(firmware).
Definition set_cmd_mgr (x : option Mgr.t) (b : Bsp) : Bsp :=
  mkBsp b.(world) b.(client) b.(sdio_device) x b.(current_product_id) b.(pending_cmd_tx)
        b.(sending) b.(tx_result) b.(busrx) b.(bustx) b.(panicked) b.(probe_flag) b.(driver)
        b.(bsp_info) b.(firmware).
Definition set_current_product_id (x : Z) (b : Bsp) : Bsp :=
  mkBsp b.(world) b.(client) b.(sdio_device) b.(cmd_mgr) x b.(pending_cmd_tx) b.(sending)
        b.(tx_result) b.(busrx) b.(bustx) b.(panicked) b.(probe_flag) b.(driver) b.(bsp_info)
        b.(firmware).
Definition set_pending_cmd_tx (x : option (list Z * nat)) (b : Bsp) : Bsp :=
  mkBsp b.(world) b.(client) b.(sdio_device) b.(cmd_mgr) b.(current_product_id) x b.(sending)
        b.(tx_result) b.(busrx) b.(bustx) b.(panicked) b.(probe_flag) b.(driver) b.(bsp_info)
        b.(firmware).
Definition set_sending (x : option (list Z)) (b : Bsp) : Bsp :=
  mkBsp b.(world) b.(client) b.(sdio_device) b.(cmd_mgr) b.(current_product_id)
        b.(pending_cmd_tx) x b.(tx_result) b.(busrx) b.(bustx) b.(panicked) b.(probe_flag)
        b.(driver) b.(bsp_info) b.(firmware).
Definition set_tx_result (x : option Z) (b : Bsp) : Bsp :=
  mkBsp b.(world) b.(client) b.(sdio_device) b.(cmd_mgr) b.(current_product_id)
        b.(pending_cmd_tx) b.(sending) x b.(busrx) b.(bustx) b.(panicked) b.(probe_flag)
        b.(driver) b.(bsp_info) b.(firmware).
Definition set_busrx (x : Thread) (b : Bsp) : Bsp :=
  mkBsp b.(world) b.(client) b.(sdio_device) b.(cmd_mgr) b.(current_product_id)
        b.(pending_cmd_tx) b.(sending) b.(tx_result) x b.(bustx) b.(panicked) b.(probe_flag)
        b.(driver) b.(bsp_info) b.(firmware).
Definition set_bustx (x : Thread) (b : Bsp) : Bsp :=
  mkBsp b.(world) b.(client) b.(sdio_device) b.(cmd_mgr) b.(current_product_id)
        b.(pending_cmd_tx) b.(sending) b.(tx_result) b.(busrx) x b.(panicked) b.(probe_flag)
        b.(driver) b.(bsp_info) b.(firmware).
Definition set_panicked (x : bool) (b : Bsp) : Bsp :=
  mkBsp b.(world) b.(client) b.(sdio_device) b.(cmd_mgr) b.(current_product_id)
        b.(pending_cmd_tx) b.(sending) b.(tx_result) b.(busrx) b.(bustx) x b.(probe_flag)
        b.(driver) b.(bsp_info) b.(firmware).
Definition set_probe_flag (x : bool) (b : Bsp) : Bsp :=
  mkBsp b.(world) b.(client) b.(sdio_device) b.(cmd_mgr) b.(current_product_id)
        b.(pending_cmd_tx) b.(sending) b.(tx_result) b.(busrx) b.(bustx) b.(panicked) x
        b.(driver) b.(bsp_info) b.(firmware).
Definition set_driver (x : registry W BspSdioFuncRef) (b : Bsp) : Bsp :=
  mkBsp b.(world) b.(client) b.(sdio_device) b.(cmd_mgr) b.(current_product_id)
        b.(pending_cmd_tx) b.(sending) b.(tx_result) b.(busrx) b.(bustx) b.(panicked)
        b.(probe_flag) x b.(bsp_info) b.(firmware).
Definition set_bsp_info (x : AicBspInfo) (b : Bsp) : Bsp :=
  mkBsp b.(world) b.(client) b.(sdio_device) b.(cmd_mgr) b.(current_product_id)
        b.(pending_cmd_tx) b.(sending) b.(tx_result) b.(busrx) b.(bustx) b.(panicked)
        b.(probe_flag) b.(driver) x b.(firmware).
Definition set_firmware (x : Store.t) (b : Bsp) : Bsp :=
  mkBsp b.(world) b.(client) b.(sdio_device) b.(cmd_mgr) b.(current_product_id)
        b.(pending_cmd_tx) b.(sending) b.(tx_result) b.(busrx) b.(bustx) b.(panicked)
        b.(probe_flag) b.(driver) b.(bsp_info) x.

Definition on_w {A} (f : st W A) : st Bsp A := λ b,
  let '(r, w) := f b.(world) in (r, set_world w b).

Definition sleep_ms (ms : Z) : Bsp → Bsp := λ b, set_world (sleep_us (1000 * ms) b.(world)) b.

(** ** Receiving *)

(** driver/bsp/src/sdio/flow.rs:207-255 [poll_rx_one] *)
Definition poll_rx_one (d : Aic8800Sdio) : st (Mgr.t * Bsp) () := λ '(m, b),
  match sdio_recv_pkt d (zeros Rx.IPC_RX_BUF_SIZE) (Z.of_nat Rx.IPC_RX_BUF_SIZE) 1 b.(world) with
  | (Ok (buf, n), w) =>
      let b := set_world w b in
      if bool_decide (n = 0)%nat then (Ok (), (m, b))
      else
        let '(r, (m, c)) := Rx.process (take n buf) n (m, b.(client)) in
        (r, (m, set_client c b))
  | (Err e, w) => (Err e, (m, set_world w b))
  | (Panic, w) => (Panic, (m, set_world w b))
  end.

(** driver/bsp/src/sdio/flow.rs:302-322 [run_poll_rx_one] *)
Definition run_poll_rx_one : st Bsp () := λ b,
  match b.(cmd_mgr), b.(sdio_device) with
  | Some m, Some d =>
      let '(r, (m, b)) := poll_rx_one d (m, b) in
      let b := set_cmd_mgr (Some m) b in
      match r with
      | Err e => (Ok (), if bool_decide (e = EAGAIN) then sleep_ms 2000 b else b)
      | r => (r, b)
      end
  | _, _ => (Ok (), b)
  end.

(** driver/bsp/src/sdio/flow.rs:292-295 [sdio_poll_rx_once] *)
Definition sdio_poll_rx_once : st Bsp () := run_poll_rx_one.

(** ** The threads *)

Definition leave (t : Thread) : Thread := mkThread t.(started) t.(running) (t.(exited) || negb t.(running)).
Definition alive (t : Thread) : bool := t.(started) && negb t.(exited).

(** driver/bsp/src/sdio/flow.rs:325-336 [busrx_thread_fn], one pass of the loop *)
Definition busrx_turn : st Bsp () := λ b,
  if alive b.(busrx)
  then let '(r, b) := run_poll_rx_one b in (r, set_busrx (leave b.(busrx)) b)
  else (Ok (), b).

(** driver/bsp/src/sdio/flow.rs:385-403 [bustx_thread_fn], one pass of the inner
    loop: [-11] keeps the command for another try *)
Definition bustx_attempt (data : list Z) : st Bsp () := λ b,
  let '(r, b) :=
    match b.(sdio_device) with
    | Some d => let '(r, w) := sdio_send_msg d data (length data) b.(world) in (r, set_world w b)
    | None => (Err (-5), b)
    end in
  let done result b :=
    if bool_decide (result ≠ EAGAIN)
    then set_bustx (leave b.(bustx)) (set_sending None (set_tx_result (Some result) b))
    else set_sending (Some data) (sleep_ms 2000 b) in
  match r with
  | Ok _ => (Ok (), done 0 b)
  | Err e => (Ok (), done e b)
  | Panic => (Panic, b)
  end.

(** driver/bsp/src/sdio/flow.rs:375-408 [bustx_thread_fn], one pass of the loop *)
Definition bustx_turn : st Bsp () := λ b,
  if alive b.(bustx) then
    match b.(sending) with
    | Some data => bustx_attempt data b
    | None =>
        match b.(pending_cmd_tx) with
        | Some (buf, payload_len) =>
            let b := set_pending_cmd_tx None b in
            match ('(buf, send_len) ← Pad.aicwf_sdio_tx_msg_pad buf payload_len; slice_to 0 send_len buf) with
            | Ok data => bustx_attempt data b
            | Err e => (Err e, b)
            | Panic => (Panic, b)
            end
        | None => (Ok (), set_bustx (leave b.(bustx)) b)
        end
    end
  else (Ok (), b).

(** A panic in a thread stops the kernel. *)
Definition run_turn (t : turn) (b : Bsp) : Bsp :=
  match (match t with BusRx => busrx_turn | BusTx => bustx_turn end) b with
  | (Panic, b) => set_panicked true b
  | (_, b) => b
  end.

Definition turns (b : Bsp) : Bsp :=
  let '(ts, w) := next_turns b.(world) in foldl (flip run_turn) (set_world w b) ts.

(** The main thread lets the others run. *)
Definition sync : st Bsp () := λ b,
  let b := turns b in if b.(panicked) then (Panic, b) else (Ok (), b).

Definition pause (ms : Z) (b : Bsp) : Bsp := turns (sleep_ms ms b).
Definition sleep (ms : Z) : st Bsp () := _ ← st_modify (sleep_ms ms); sync.

(** The closure under the CMD_MGR lock. *)
Definition locked_mgr {A} (f : Mgr.t → A * Mgr.t) : st Bsp (option A) := λ b,
  match b.(cmd_mgr) with
  | Some m => let '(a, m) := f m in (Ok (Some a), set_cmd_mgr (Some m) b)
  | None => (Ok None, b)
  end.

(** driver/bsp/src/sdio/flow.rs:258-263 [with_cmd_mgr] *)
Definition with_cmd_mgr {A} (f : Mgr.t → A * Mgr.t) : st Bsp (option A) :=
  _ ← sync; locked_mgr f.

(** The closure under the SDIO_DEVICE lock. *)
Definition locked_sdio {A} (f : Aic8800Sdio → st W A) : st Bsp (option (res A)) := λ b,
  match b.(sdio_device) with
  | Some d =>
      match f d b.(world) with
      | (Panic, w) => (Panic, set_world w b)
      | (r, w) => (Ok (Some r), set_world w b)
      end
  | None => (Ok None, b)
  end.

(** driver/bsp/src/sdio/flow.rs:266-271 [with_sdio], also driver/bsp/src/sdio/flow.rs:274-276 [lock_sdio_device] *)
Definition with_sdio {A} (f : Aic8800Sdio → st W A) : st Bsp (option (res A)) :=
  _ ← sync; locked_sdio f.

(** driver/bsp/src/sdio/flow.rs:338-348 [ensure_busrx_thread_started] *)
Definition ensure_busrx_thread_started : st Bsp () := λ b,
  if b.(busrx).(started) then (Ok (), b)
  else sleep 1 (set_busrx (mkThread true true b.(busrx).(exited)) b).

(** driver/bsp/src/sdio/flow.rs:411-420 [ensure_bustx_thread_started] *)
Definition ensure_bustx_thread_started : st Bsp () := λ b,
  if b.(bustx).(started) then (Ok (), b)
  else sleep 1 (set_bustx (mkThread true true b.(bustx).(exited)) b).

(** ** Sending a command through the thread *)

(** driver/bsp/src/sdio/flow.rs:443-455 [submit_cmd_tx_and_wait_tx_done], the loop;
    [wakeups] bounds the waits that are looked at *)
Fixpoint tx_done_loop (wakeups : nat) (elapsed_ms : Z) (b : Bsp) : res () * Bsp :=
  match wakeups with
  | O => (Panic, b)
  | S wakeups =>
      match sleep 50 b with
      | (Ok _, b) =>
          let '(timeout, w) := timed_out b.(world) in
          let b := set_world w b in
          match b.(tx_result) with
          | Some result =>
              (if bool_decide (result = 0) then Ok () else Err result, set_tx_result None b)
          | None =>
              if timeout then
                if bool_decide (TX_DONE_TIMEOUT_MS ≤ elapsed_ms + 50) then (Err (-110), b)
                else tx_done_loop wakeups (elapsed_ms + 50) b
              else tx_done_loop wakeups elapsed_ms b
          end
      | (Err e, b) => (Err e, b)
      | (Panic, b) => (Panic, b)
      end
  end.

(** driver/bsp/src/sdio/flow.rs:429-456 [submit_cmd_tx_and_wait_tx_done] *)
Definition submit_cmd_tx_and_wait_tx_done (wakeups : nat) (buf : list Z) (len : nat) : st Bsp () :=
  if bool_decide (PENDING_CMD_TX_CAP < len)%nat then st_err (-22)
  else
    _ ← st_modify (set_tx_result None);
    arr ← st_lift (if bool_decide (length buf = len)%nat
                   then write_at 0 buf (zeros PENDING_CMD_TX_CAP) else Panic);
    _ ← st_modify (set_pending_cmd_tx (Some (arr, len)));
    tx_done_loop wakeups 0.

(** ** Exchanges *)

(** driver/bsp/src/sdio/flow.rs:279-290 [log_f1_block_cnt_flow_ctrl]: three reads *)
Definition log_f1 : st Bsp () :=
  _ ← with_sdio (λ _, _ ← st_try (sdio_read_byte 0x112); _ ← st_try (sdio_read_byte 0x102);
                      _ ← st_try (sdio_read_byte 0x10A); mret ());
  mret ().

(** driver/bsp/src/sdio/flow.rs:1398-1411 [aicbsp_current_product_id] *)
Definition aicbsp_current_product_id (b : Bsp) : option ProductId :=
  match b.(current_product_id) with
  | 0 => Some Aic8801 | 1 => Some Aic8800Dc | 2 => Some Aic8800Dw
  | 3 => Some Aic8800D80 | 4 => Some Aic8800D80X2 | _ => None
  end.

(** driver/bsp/src/sdio/types.rs:70-76 [ProductId as u32] *)
Definition ProductId_u32 (p : ProductId) : Z :=
  match p with
  | Aic8801 => 0 | Aic8800Dc => 1 | Aic8800Dw => 2 | Aic8800D80 => 3 | Aic8800D80X2 => 4
  end.

(** driver/bsp/src/sync.rs:15-20 [probe_reset] *)
Definition probe_reset (b : Bsp) : Bsp := set_probe_flag false b.
(** driver/bsp/src/sync.rs:22-26 [probe_signal] *)
Definition probe_signal (b : Bsp) : Bsp := set_probe_flag true b.

(** driver/bsp/src/sdio/flow.rs:829-833 [aicbsp_sdio_probe] *)
Definition aicbsp_sdio_probe (p : ProductId) (b : Bsp) : Bsp :=
  probe_signal (set_current_product_id (ProductId_u32 p) b).

Definition push_slot (cfm : Z) : st Bsp nat :=
  r ← with_cmd_mgr (Mgr.push cfm); st_lift (ok_or (mjoin r) (-12)).

(** [with_cmd_mgr(|c| c.is_done(token)).unwrap_or(false)] *)
Definition slot_done (token : nat) (b : Bsp) : bool :=
  match b.(cmd_mgr) with Some m => Mgr.is_done token m | None => false end.

(** A wait for a slot: [RwnxCmdMgr::wait_done_until], its errors mapped to [-62]. *)
Definition wait_slot (timeout_ms : Z) (token : nat) (tick : option (Z → Bsp → Bsp))
    (poll_fn : option (Bsp → Bsp)) (log_every : option Z) : st Bsp () :=
  let wait : st Bsp () :=
    Mgr.wait_done_until (slot_done token) tick poll_fn (pause 1) timeout_ms log_every in
  _ ← st_map_err (-62) wait; sync.

Definition take_slot (token : nat) : st Bsp (list Z) :=
  taken ← with_cmd_mgr (Mgr.take_cfm token (zeros 16));
  '(len, cfm_buf) ← st_lift (ok_or (mjoin taken) (-5));
  st_lift (slice_to 0 len cfm_buf).

Definition serialize_for (pid : ProductId) (msg : Lmac.LmacMsg) (cap : nat) : res (list Z * nat) :=
  if bool_decide (pid = Aic8801) then Lmac.serialize_8801 msg (zeros cap)
  else Lmac.serialize msg (zeros cap).

(** driver/bsp/src/sdio/flow.rs:459-500 [send_dbg_mem_read_busrx] *)
Definition send_dbg_mem_read_busrx (wakeups : nat) (mem_addr timeout_ms : Z) (after_delay : st Bsp ()) :
    st Bsp Z :=
  token ← push_slot Dbg.DBG_MEM_READ_CFM;
  b ← st_get;
  product_id ← st_lift (ok_or (aicbsp_current_product_id b) (-22));
  '(buf, len) ← st_lift (serialize_for product_id (Dbg.build_dbg_mem_read_req mem_addr) 512);
  data ← st_lift (slice_to 0 len buf);
  _ ← submit_cmd_tx_and_wait_tx_done wakeups data len;
  _ ← sleep 100;
  _ ← after_delay;
  _ ← wait_slot timeout_ms token None None None;
  cfm ← take_slot token;
  st_lift (ok_or (Dbg.parse_dbg_mem_read_cfm_with_addr cfm mem_addr) (-5)).

(** driver/bsp/src/sdio/flow.rs:906-910 [send_dbg_mem_read_direct], also driver/bsp/src/sdio/flow.rs:943-947 [send_dbg_mem_write_direct], also driver/bsp/src/sdio/flow.rs:1137-1147 [aicbsp_driver_fw_init]:
    [send_msg] from the main thread *)
Definition send_buf (buf : list Z) (send_len : nat) : st Bsp () :=
  r ← with_sdio (λ d, data ← st_lift (slice_to 0 send_len buf); sdio_send_msg d data send_len);
  match r with
  | Some (Ok _) => mret ()
  | Some (Err e) => st_err e
  | Some Panic => st_lift Panic
  | None => st_err (-5)
  end.

(** driver/bsp/src/sdio/flow.rs:892-905 [send_dbg_mem_read_direct], also driver/bsp/src/sdio/flow.rs:929-942 [send_dbg_mem_write_direct], also driver/bsp/src/sdio/flow.rs:1102-1129 [aicbsp_driver_fw_init]:
    the message in a buffer of [cap] bytes, its length and the length to send *)
Definition prepare (pid : ProductId) (msg : Lmac.LmacMsg) (cap : nat) : res (list Z * nat * nat) :=
  '(buf, len) ← serialize_for pid msg cap;
  let send_len := if bool_decide (pid = Aic8801) then Pad.ipc_send_len_8801 len else len in
  buf ← (if bool_decide (len < send_len)%nat then Pad.fill len send_len buf else Ok buf);
  Ok (buf, len, send_len).

Definition send_direct (pid : ProductId) (msg : Lmac.LmacMsg) (cap : nat) : st Bsp () :=
  '(buf, _, send_len) ← st_lift (prepare pid msg cap); send_buf buf send_len.

(** driver/bsp/src/sdio/flow.rs:889-923 [send_dbg_mem_read_direct] *)
Definition send_dbg_mem_read_direct (mem_addr timeout_ms : Z) (product_id : ProductId) : st Bsp Z :=
  token ← push_slot Dbg.DBG_MEM_READ_CFM;
  _ ← send_direct product_id (Dbg.build_dbg_mem_read_req mem_addr) 512;
  _ ← sleep 100;
  _ ← wait_slot timeout_ms token None None None;
  cfm ← take_slot token;
  st_lift (ok_or (Dbg.parse_dbg_mem_read_cfm_with_addr cfm mem_addr) (-5)).

(** driver/bsp/src/sdio/flow.rs:926-956 [send_dbg_mem_write_direct] *)
Definition send_dbg_mem_write_direct (addr data timeout_ms : Z) (product_id : ProductId) : st Bsp () :=
  token ← push_slot Dbg.DBG_MEM_WRITE_CFM;
  _ ← send_direct product_id (Dbg.build_dbg_mem_write_req addr data) 512;
  wait_slot timeout_ms token None None None.

(** ** What the other threads do to the command manager

    [calm]: they deliver confirmations, nothing else. *)

Definition calm (b b' : Bsp) : Prop :=
  match b.(cmd_mgr), b'.(cmd_mgr) with
  | Some m, Some m' => Rx.cfms m m'
  | None, None => True
  | _, _ => False
  end.

Definition calm_op {A} (f : st Bsp A) : Prop := ∀ b, calm b (f b).2.

Lemma calm_same b b' : b.(cmd_mgr) = b'.(cmd_mgr) → calm b b'.
Proof. unfold calm. intros ->. destruct (cmd_mgr b'); [apply Rx.cfms_refl|done]. Qed.

Lemma calm_trans b1 b2 b3 : calm b1 b2 → calm b2 b3 → calm b1 b3.
Proof.
  unfold calm. destruct (cmd_mgr b1), (cmd_mgr b2), (cmd_mgr b3); try done. apply Rx.cfms_trans.
Qed.

Lemma calm_bind {A B} (f : st Bsp A) (g : A → st Bsp B) :
  calm_op f → (∀ a, calm_op (g a)) → calm_op (f ≫= g).
Proof.
  intros Hf Hg b. unfold mbind, st_bind. pose proof (Hf b) as H'.
  destruct (f b) as [[a|e|] b1]; [|done..]. eapply calm_trans; [exact H'|apply Hg].
Qed.

Lemma calm_pure {A} (f : st Bsp A) : (∀ b, (f b).2.(cmd_mgr) = b.(cmd_mgr)) → calm_op f.
Proof. intros Hf b. by apply calm_same. Qed.

Lemma calm_ret {A} (a : A) : calm_op (mret a).
Proof. by apply calm_pure. Qed.
Lemma calm_lift {A} (r : res A) : calm_op (st_lift r).
Proof. by apply calm_pure. Qed.
Lemma calm_err {A} e : calm_op (st_err (A := A) e).
Proof. by apply calm_pure. Qed.
Lemma calm_get : calm_op st_get.
Proof. by apply calm_pure. Qed.
Lemma calm_modify f : (∀ b, (f b).(cmd_mgr) = b.(cmd_mgr)) → calm_op (st_modify f).
Proof. intros. by apply calm_pure. Qed.
Lemma calm_map_err {A} e (f : st Bsp A) : calm_op f → calm_op (st_map_err e f).
Proof. intros Hf b. unfold st_map_err. specialize (Hf b). by destruct (f b). Qed.
Lemma calm_on_w {A} (f : st W A) : calm_op (on_w f).
Proof. apply calm_pure. intros b. unfold on_w. by destruct (f _). Qed.
Lemma calm_if {A} (c : bool) (f g : st Bsp A) : calm_op f → calm_op g → calm_op (if c then f else g).
Proof. by destruct c. Qed.

(** [recv_pkt] fills the caller's buffer and counts no more than it holds. *)
Lemma read_block_len a n w data k w' :
  host_read_block a n w = (Ok (data, k), w') → k = n.
Proof.
  unfold host_read_block, mbind, st_bind, mret, st_ret. case_bool_decide; [intros; by simplify_eq/=|].
  destruct (sdio_io_rw_ext_helper_read a n w) as [[?|?|] ?]; intros; by simplify_eq/=.
Qed.

Lemma recv_pkt_len d buf size msg w buf' n w' :
  sdio_recv_pkt d buf size msg w = (Ok (buf', n), w') →
  length buf' = length buf ∧ (n ≤ length buf)%nat.
Proof.
  unfold sdio_recv_pkt. case_bool_decide; [done|].
  assert (R : ∀ base k w0, (k ≤ length buf)%nat →
    ('(data, k) ← host_read_block base k; buf ← st_lift (write_at 0 data buf); mret (buf, k)) w0
    = (Ok (buf', n), w') → length buf' = length buf ∧ (n ≤ length buf)%nat).
  { intros base k w0 Hk. unfold mbind, st_bind, st_lift.
    destruct (host_read_block base k w0) as [[[data k']|?|] w1] eqn:E; try done.
    apply read_block_len in E as ->. destruct (write_at 0 data buf) as [b1|?|] eqn:Ew; try done.
    apply write_at_inv in Ew as [Hl ->]. intros [= <- <- <-]. by rewrite length_splice. }
  case_bool_decide; [|apply R; lia]. unfold mbind at 1, st_bind at 1.
  destruct (host_read_byte_at_func _ _ w) as [[bc|?|] w1]; try done.
  case_bool_decide; [intros [= <- <- <-]; split; [done|lia]|].
  unfold mbind at 1, st_bind at 1. destruct (packet_len bc w1) as [[dl|?|] w2]; try done.
  apply R. lia.
Qed.

Lemma poll_rx_cfms d m b : Rx.cfms m (poll_rx_one d (m, b)).2.1.
Proof.
  unfold poll_rx_one. destruct (sdio_recv_pkt _ _ _ _ _) as [[[buf n]|e|] w] eqn:E;
    [|apply Rx.cfms_refl..].
  apply recv_pkt_len in E as [E1 E2]. rewrite <- E1 in E2.
  case_bool_decide; [apply Rx.cfms_refl|]. unfold Rx.process.
  destruct (Rx.rx_loop_total n (take n buf) n 0 (m, client (set_world w b)))
    as ([m' c] & -> & Hc); [rewrite length_take; lia|lia|]. exact Hc.
Qed.

Lemma poll_rx_mgr d m b : (poll_rx_one d (m, b)).2.2.(cmd_mgr) = b.(cmd_mgr).
Proof.
  unfold poll_rx_one. destruct (sdio_recv_pkt _ _ _ _ _) as [[[buf n]|e|] w]; [|done..].
  case_bool_decide; [done|]. by destruct (Rx.process _ _ _) as [r [m' c]].
Qed.

Lemma calm_run_poll : calm_op run_poll_rx_one.
Proof.
  intros b. unfold run_poll_rx_one. destruct (cmd_mgr b) as [m|] eqn:Em; [|by apply calm_same].
  destruct (sdio_device b) as [d|]; [|by apply calm_same].
  pose proof (poll_rx_cfms d m b) as Hc. destruct (poll_rx_one d (m, b)) as [r [m' b']].
  unfold calm. rewrite Em. destruct r as [?|e|]; [exact Hc| |exact Hc].
  by case_bool_decide.
Qed.

Lemma calm_busrx : calm_op busrx_turn.
Proof.
  intros b. unfold busrx_turn. destruct (alive _); [|by apply calm_same].
  pose proof (calm_run_poll b) as Hc. by destruct (run_poll_rx_one b).
Qed.

Lemma calm_attempt data : calm_op (bustx_attempt data).
Proof.
  apply calm_pure. intros b. unfold bustx_attempt. destruct (sdio_device b) as [d|].
  - destruct (sdio_send_msg _ _ _ _) as [[?|e|] w]; [done| |done]. by case_bool_decide.
  - by case_bool_decide.
Qed.

Lemma calm_bustx : calm_op bustx_turn.
Proof.
  intros b. unfold bustx_turn. destruct (alive _); [|by apply calm_same].
  destruct (sending b); [apply calm_attempt|].
  destruct (pending_cmd_tx b) as [[buf n]|]; [|by apply calm_same].
  destruct (_ ← _; _) as [data|e|]; [|by apply calm_same..].
  eapply calm_trans; [|apply calm_attempt]. by apply calm_same.
Qed.

Lemma calm_turns b : calm b (turns b).
Proof.
  unfold turns. destruct (next_turns _) as [ts w].
  assert (H' : calm b (set_world w b)) by by apply calm_same.
  revert H'. generalize (set_world w b). induction ts as [|t ts IH]; intros b' Hb; simpl; [done|].
  apply IH. eapply calm_trans; [exact Hb|]. unfold run_turn.
  assert (Ht : calm_op (match t with BusRx => busrx_turn | BusTx => bustx_turn end))
    by (destruct t; [apply calm_busrx|apply calm_bustx]).
  specialize (Ht b'). destruct (_ b') as [[?|e|] b'']; [done..|].
  eapply calm_trans; [exact Ht|by apply calm_same].
Qed.

Lemma calm_sync : calm_op sync.
Proof. intros b. unfold sync. pose proof (calm_turns b). by destruct (panicked _). Qed.

Lemma calm_pause ms b : calm b (pause ms b).
Proof. eapply calm_trans; [|apply calm_turns]. by apply calm_same. Qed.

Lemma calm_sleep ms : calm_op (sleep ms).
Proof. apply calm_bind; [by apply calm_modify|intros; apply calm_sync]. Qed.

Lemma calm_locked_sdio {A} (f : Aic8800Sdio → st W A) : calm_op (locked_sdio f).
Proof.
  apply calm_pure. intros b. unfold locked_sdio. destruct (sdio_device b); [|done].
  by destruct (f _ _) as [[?|?|] ?].
Qed.

Lemma calm_with_sdio {A} (f : Aic8800Sdio → st W A) : calm_op (with_sdio f).
Proof. apply calm_bind; [apply calm_sync|intros; apply calm_locked_sdio]. Qed.

Lemma calm_ensure_rx : calm_op ensure_busrx_thread_started.
Proof.
  intros b. unfold ensure_busrx_thread_started. destruct (started _); [by apply calm_same|].
  eapply calm_trans; [|apply calm_sleep]. by apply calm_same.
Qed.

Lemma calm_ensure_tx : calm_op ensure_bustx_thread_started.
Proof.
  intros b. unfold ensure_bustx_thread_started. destruct (started _); [by apply calm_same|].
  eapply calm_trans; [|apply calm_sleep]. by apply calm_same.
Qed.

Lemma calm_tx_done wakeups elapsed : calm_op (tx_done_loop wakeups elapsed).
Proof.
  revert elapsed. induction wakeups as [|n IH]; intros elapsed b; cbn [tx_done_loop];
    [by apply calm_same|].
  pose proof (calm_sleep 50 b) as Hs. destruct (sleep 50 b) as [[?|e|] b1]; [|exact Hs..].
  destruct (timed_out _) as [t w]. eapply calm_trans; [exact Hs|]. simpl.
  destruct (tx_result b1); [by apply calm_same|].
  destruct t; [case_bool_decide; [by apply calm_same|]|];
    (eapply calm_trans; [|apply IH]; by apply calm_same).
Qed.

(** *** The wait for the bustx thread ends

    A wait that is woken without a result is not counted towards the 5000 ms, so
    the loop ends only when such wake-ups do: [spurious] bounds those still to come. *)
Section tx_done.
Context (spurious : W → nat).
Context (sleep_spurious : ∀ b, (spurious (sleep 50 b).2.(world) ≤ spurious b.(world))%nat).
Context (woken_spurious : ∀ w, let '(timeout, w') := timed_out w in
  (spurious w' + (if timeout then 0 else 1) ≤ spurious w)%nat).

Lemma tx_done_fuel n k elapsed b :
  elapsed < TX_DONE_TIMEOUT_MS →
  50 * Z.of_nat (spurious b.(world)) + (TX_DONE_TIMEOUT_MS - elapsed) <= 50 * Z.of_nat n →
  tx_done_loop (n + k) elapsed b = tx_done_loop n elapsed b.
Proof.
  revert elapsed b. induction n as [|n IH]; intros elapsed b He Hn; [lia|]. cbn [Nat.add tx_done_loop].
  pose proof (sleep_spurious b) as Hs. destruct (sleep 50 b) as [[?|e|] b1]; [|done..]. simpl in Hs.
  pose proof (woken_spurious b1.(world)) as Hw. destruct (timed_out b1.(world)) as [t w]. simpl.
  destruct (tx_result b1); [done|]. destruct t; [case_bool_decide as Hd; [done|]|]; apply IH; simpl; lia.
Qed.

(** C27 (termination): submitting a command comes to its end: however many wake-ups
    without a result are still to come, [101] looks more than their number always suffice, whatever the
    other threads do meanwhile; more fuel changes neither the outcome nor the state left. *)
Theorem submit_terminates n buf len b :
  (101 + spurious b.(world) ≤ n)%nat →
  submit_cmd_tx_and_wait_tx_done n buf len b =
    submit_cmd_tx_and_wait_tx_done (101 + spurious b.(world)) buf len b.
Proof.
  intros Hn. unfold submit_cmd_tx_and_wait_tx_done. case_bool_decide; [done|].
  unfold mbind, st_bind, st_modify, st_lift. destruct (if bool_decide _ then _ else _) as [arr|e|]; [|done..].
  replace n with (101 + spurious b.(world) + (n - (101 + spurious b.(world))))%nat by lia.
  apply tx_done_fuel; [done|]. cbn [world set_tx_result set_pending_cmd_tx]. unfold TX_DONE_TIMEOUT_MS. lia.
Qed.
End tx_done.

(** *** The slots an operation uses up

    [costs k f]: when [f] succeeds, [k] slots fewer are free afterwards. *)

Definition free (b : Bsp) : Z :=
  match b.(cmd_mgr) with Some m => 8 - Z.of_nat (Mgr.occupied m) | None => 0 end.
Definition sane (b : Bsp) : Prop := ∀ m, b.(cmd_mgr) = Some m → Mgr.wf m.

Definition costs {A} (k : Z) (f : st Bsp A) : Prop := ∀ b a b',
  sane b → f b = (Ok a, b') → sane b' ∧ free b' + k ≤ free b.

Lemma free_range b : sane b → 0 ≤ free b ≤ 8.
Proof.
  unfold free, sane. destruct (cmd_mgr b) as [m|]; intros Hs; [|lia].
  pose proof (Mgr.occupied_le m (Hs m eq_refl)). lia.
Qed.

Lemma cfms_occupied m m' : Mgr.wf m → Rx.cfms m m' → Mgr.wf m' ∧ Mgr.occupied m' = Mgr.occupied m.
Proof.
  intros Hwf [tr Hr]. revert Hwf. induction Hr as [|m e m1 tr m2 (id & pa & wk & ->) Hs _ IH]; [done|].
  intros Hwf. inversion Hs as [|m0 id0 pa0 w0 m0' E| |]; subst.
  pose proof (Mgr.occupied_cfm id pa m Hwf) as Ho. rewrite E in Ho. simpl in Ho.
  destruct IH as [Hw2 Ho2]; [by eapply Mgr.step_wf|]. split; [done|lia].
Qed.

Lemma calm_sane b b' : calm b b' → sane b → sane b' ∧ free b' = free b.
Proof.
  unfold calm, sane, free. destruct (cmd_mgr b) as [m|], (cmd_mgr b') as [m'|]; try done.
  intros Hc Hs. destruct (cfms_occupied m m' (Hs m eq_refl) Hc) as [Hw ->].
  split; [by intros ? [= <-]|done].
Qed.

Lemma costs_calm {A} (f : st Bsp A) : calm_op f → costs 0 f.
Proof.
  intros Hf b a b' Hs E. specialize (Hf b). rewrite E in Hf.
  destruct (calm_sane b b' Hf Hs). split; [done|lia].
Qed.

Lemma costs_bind {A B} j k n (f : st Bsp A) (g : A → st Bsp B) :
  n = j + k → costs j f → (∀ a, costs k (g a)) → costs n (f ≫= g).
Proof.
  intros -> Hf Hg b x b' Hs. unfold mbind, st_bind.
  destruct (f b) as [[a|e|] b1] eqn:E; intros E2; [|done..].
  destruct (Hf b a b1 Hs E) as [Hs1 L1]. destruct (Hg a b1 x b' Hs1 E2) as [Hs2 L2].
  split; [done|lia].
Qed.

Lemma costs_then {A B} n (f : st Bsp A) (g : A → st Bsp B) :
  calm_op f → (∀ a, costs n (g a)) → costs n (f ≫= g).
Proof. intros Hf. by apply (costs_bind 0 n), costs_calm. Qed.

Lemma costs_pay {A B} n (f : st Bsp A) (g : A → st Bsp B) :
  costs 1 f → (∀ a, costs (n - 1) (g a)) → costs n (f ≫= g).
Proof. apply costs_bind. lia. Qed.

Lemma costs_weaken {A} j k (f : st Bsp A) : k ≤ j → costs j f → costs k f.
Proof. intros Hk Hf b a b' Hs E. destruct (Hf b a b' Hs E). split; [done|lia]. Qed.

Lemma costs_map_err {A} k e (f : st Bsp A) : costs k f → costs k (st_map_err e f).
Proof.
  intros Hf b a b' Hs. unfold st_map_err. destruct (f b) as [[x|?|] b1] eqn:E; try done.
  intros [= <- <-]. by apply (Hf b x).
Qed.

Lemma costs_if {A} (c : bool) k (f g : st Bsp A) : costs k f → costs k g → costs k (if c then f else g).
Proof. by destruct c. Qed.

(** Nothing is left to fail for an operation that costs more than there is. *)
Lemma costs_refused {A} k (f : st Bsp A) b a :
  costs k f → sane b → free b < k → (f b).1 ≠ Ok a.
Proof.
  intros Hf Hs Hk E. destruct (f b) as [r b'] eqn:Ef. simpl in E. subst r.
  destruct (Hf b a b' Hs Ef) as [Hs' L]. pose proof (free_range b' Hs'). lia.
Qed.

(** An operation that may take a slot and tells. *)
Definition takes_slot (f : st Bsp (option (option nat))) : Prop := ∀ b r b',
  sane b → f b = (Ok r, b') →
  sane b' ∧ free b' + (match r with Some (Some _) => 1 | _ => 0 end) ≤ free b.

Lemma takes_push cfm : takes_slot (with_cmd_mgr (Mgr.push cfm)).
Proof.
  intros b r b' Hs. unfold with_cmd_mgr, mbind, st_bind.
  pose proof (calm_sync b) as Hc. destruct (sync b) as [[?|?|] b1]; try done.
  destruct (calm_sane b b1 Hc Hs) as [Hs1 L1]. unfold locked_mgr.
  destruct (cmd_mgr b1) as [m|] eqn:Em; [|intros [= <- <-]; split; [done|lia]].
  destruct (Mgr.push cfm m) as [o m'] eqn:Ep. intros [= <- <-].
  assert (Mgr.wf m') by (eapply Mgr.step_wf; [by apply Hs1|by constructor]).
  split; [by intros ? [= <-]|]. unfold free in *. rewrite Em in L1. simpl.
  destruct o; [pose proof (Mgr.occupied_push _ _ _ _ Ep); lia|].
  apply Mgr.push_inv in Ep as [[_ ->]|(? & [=] & _)]. lia.
Qed.

(** Going on with the slot pays for it. *)
Lemma costs_slot {A} k (f : st Bsp (option (option nat))) (g : option (option nat) → st Bsp A) :
  takes_slot f → (∀ tok, costs k (g (Some (Some tok)))) →
  (∀ r b a b', mjoin r = None → g r b ≠ (Ok a, b')) → costs (1 + k) (f ≫= g).
Proof.
  intros Hf Hg Hn b a b' Hs. unfold mbind, st_bind.
  destruct (f b) as [[r|?|] b1] eqn:E; try done. destruct (Hf b r b1 Hs E) as [Hs1 L1].
  destruct r as [[tok|]|]; intros E2; [|by apply Hn in E2..].
  destruct (Hg tok b1 a b' Hs1 E2). split; [done|lia].
Qed.

Lemma costs_slot_opt {A} k (f : st Bsp (option (option nat))) (g : option nat → st Bsp A) :
  takes_slot f → (∀ tok, costs k (g (Some tok))) → (∀ b a b', g None b ≠ (Ok a, b')) →
  costs (1 + k) ((r ← f; mret (mjoin r)) ≫= g).
Proof.
  intros Hf Hg Hn b a b' Hs E.
  refine (costs_slot k f (λ r, g (mjoin r)) Hf Hg _ b a b' Hs _); [by intros r b0 a0 b0' ->|].
  revert E. unfold mbind, st_bind. by destruct (f b) as [[r|?|] b1].
Qed.

Lemma costs_push cfm : costs 1 (push_slot cfm).
Proof.
  apply (costs_slot 0); [apply takes_push|intros; apply costs_calm, calm_lift|].
  intros r b a b' Hr. by rewrite Hr.
Qed.

Lemma costs_take_cfm token out : costs (-1) (with_cmd_mgr (Mgr.take_cfm token out)).
Proof.
  intros b a b' Hs. unfold with_cmd_mgr, mbind, st_bind.
  pose proof (calm_sync b) as Hc. destruct (sync b) as [[?|?|] b1]; try done.
  destruct (calm_sane b b1 Hc Hs) as [Hs1 L1]. unfold locked_mgr.
  destruct (cmd_mgr b1) as [m|] eqn:Em; [|intros [= <- <-]; split; [done|lia]].
  destruct (Mgr.take_cfm token out m) as [r m'] eqn:Et. intros [= <- <-].
  assert (Mgr.wf m') by (eapply Mgr.step_wf; [by apply Hs1|by constructor]).
  pose proof (Mgr.occupied_take _ _ _ _ _ Et). split; [by intros ? [= <-]|].
  unfold free in *. rewrite Em in L1. simpl. lia.
Qed.

Lemma costs_take token : costs (-1) (take_slot token).
Proof.
  unfold take_slot. eapply (costs_bind (-1) 0); [done|apply costs_take_cfm|]. intros r.
  apply costs_calm, calm_bind; [apply calm_lift|]. intros []. apply calm_lift.
Qed.

Lemma calm_wait_slot timeout token tick poll log :
  (∀ f, poll = Some f → ∀ b, calm b (f b)) → (∀ f, tick = Some f → ∀ z b, calm b (f z b)) →
  calm_op (wait_slot timeout token tick poll log).
Proof.
  intros Hp Ht. unfold wait_slot. apply calm_bind; [|intros; apply calm_sync].
  apply calm_map_err. intros b.
  refine (proj1 (Mgr.wait_until_inv _ _ _ _ (calm b) _ _ _ _ _ _ _ _)).
  - intros e He f Hf. eapply calm_trans; [exact He|by apply (Hp f)].
  - intros z e He f Hf. eapply calm_trans; [exact He|by apply (Ht f)].
  - intros e He. eapply calm_trans; [exact He|apply calm_pause].
  - by apply calm_same.
Qed.

Lemma calm_log_f1 : calm_op log_f1.
Proof. apply calm_bind; [apply calm_with_sdio|intros; apply calm_ret]. Qed.

Lemma calm_submit wakeups buf len : calm_op (submit_cmd_tx_and_wait_tx_done wakeups buf len).
Proof.
  unfold submit_cmd_tx_and_wait_tx_done. apply calm_if; [apply calm_err|].
  apply calm_bind; [by apply calm_modify|intros]. apply calm_bind; [apply calm_lift|intros].
  apply calm_bind; [by apply calm_modify|intros]. apply calm_tx_done.
Qed.

Lemma calm_send_buf buf n : calm_op (send_buf buf n).
Proof.
  apply calm_bind; [apply calm_with_sdio|].
  intros [[?|?|]|]; [apply calm_ret|apply calm_err|apply calm_lift|apply calm_err].
Qed.

Lemma calm_send_direct pid msg cap : calm_op (send_direct pid msg cap).
Proof.
  apply calm_bind; [apply calm_lift|intros [[buf len] send_len]]. apply calm_send_buf.
Qed.

Lemma costs_write_direct addr data timeout pid :
  costs 1 (send_dbg_mem_write_direct addr data timeout pid).
Proof.
  unfold send_dbg_mem_write_direct. apply (costs_bind 1 0); [done|apply costs_push|intros tok].
  apply costs_calm, calm_bind; [apply calm_send_direct|intros; by apply calm_wait_slot].
Qed.

Lemma costs_read_direct addr timeout pid : costs 0 (send_dbg_mem_read_direct addr timeout pid).
Proof.
  unfold send_dbg_mem_read_direct. apply (costs_bind 1 (-1)); [done|apply costs_push|intros tok].
  apply costs_then; [apply calm_send_direct|intros].
  apply costs_then; [apply calm_sleep|intros].
  apply costs_then; [by apply calm_wait_slot|intros].
  apply (costs_bind (-1) 0); [done|apply costs_take|intros]. apply costs_calm, calm_lift.
Qed.

Lemma costs_read_busrx wakeups addr timeout after :
  calm_op after → costs 0 (send_dbg_mem_read_busrx wakeups addr timeout after).
Proof.
  intros Ha. unfold send_dbg_mem_read_busrx.
  apply (costs_bind 1 (-1)); [done|apply costs_push|intros tok].
  apply costs_then; [apply calm_get|intros b].
  apply costs_then; [apply calm_lift|intros pid].
  apply costs_then; [apply calm_lift|intros [buf len]].
  apply costs_then; [apply calm_lift|intros].
  apply costs_then; [apply calm_submit|intros].
  apply costs_then; [apply calm_sleep|intros].
  apply costs_then; [done|intros].
  apply costs_then; [by apply calm_wait_slot|intros].
  apply (costs_bind (-1) 0); [done|apply costs_take|intros]. apply costs_calm, calm_lift.
Qed.

(** ** The thread that sends *)

Definition after_send (r : res nat) (data : list Z) (b : Bsp) : Bsp :=
  match r with
  | Ok _ => set_bustx (leave b.(bustx)) (set_sending None (set_tx_result (Some 0) b))
  | Err e =>
      if bool_decide (e = EAGAIN) then set_sending (Some data) (sleep_ms 2000 b)
      else set_bustx (leave b.(bustx)) (set_sending None (set_tx_result (Some e) b))
  | Panic => b
  end.

Lemma bustx_attempt_spec data d b :
  b.(sdio_device) = Some d →
  let '(r, w) := sdio_send_msg d data (length data) b.(world) in
  bustx_attempt data b =
    (match r with Panic => Panic | _ => Ok () end, after_send r data (set_world w b)).
Proof.
  intros Hd. unfold bustx_attempt. rewrite Hd.
  destruct (sdio_send_msg d data (length data) (world b)) as [[k|e|] w]; simpl; try done.
  by repeat case_bool_decide.
Qed.

(** C17 (functional): a turn of the sending thread takes the pending command of [n] bytes,
    pads it and sends the padded command in one [send_msg], and leaves the result
    for the waiting caller ([-11] keeps it for another try); for the lengths 1529
    to 1532, which [submit_cmd_tx_and_wait_tx_done] accepts, the padded length
    exceeds the command buffer and the thread panics. *)
Theorem bustx_turn_sends (pl : list Z) (d : Aic8800Sdio) (b : Bsp)
    (Hn : (length pl ≤ PENDING_CMD_TX_CAP)%nat)
    (Hp : b.(pending_cmd_tx) = Some (pl ++ zeros (PENDING_CMD_TX_CAP - length pl), length pl))
    (Hs : b.(sending) = None) (Hd : b.(sdio_device) = Some d) (Ha : alive b.(bustx) = true) :
  let n := length pl in
  let data := pl ++ zeros (Pad.pad_len n - n) in
  if bool_decide (1529 ≤ n ≤ 1532)%nat then (bustx_turn b).1 = Panic
  else
    let '(r, w) := sdio_send_msg d data (Pad.pad_len n) b.(world) in
    bustx_turn b = (match r with Panic => Panic | _ => Ok () end,
                    after_send r data (set_world w (set_pending_cmd_tx None b))).
Proof.
  intros n data. unfold PENDING_CMD_TX_CAP in *.
  assert (Lb : length (pl ++ zeros (1536 - length pl)) = 1536%nat)
    by (rewrite length_app, length_zeros; lia).
  unfold bustx_turn. rewrite Ha, Hs, Hp. case_bool_decide as Hr.
  - destruct (Pad.pad_short (pl ++ zeros (1536 - length pl)) n ltac:(lia)) as (b1 & E & L).
    fold n in E. fold n. rewrite E. cbn [mbind res_bind].
    rewrite Pad.pad_len_overflow by done. unfold slice_to. by rewrite bool_decide_false by lia.
  - destruct (Pad.pad_spec pl (pl ++ zeros (1536 - length pl))) as (b1 & E & L & P).
    { by rewrite take_app_length. }
    { rewrite Lb. apply Pad.pad_len_fits. fold n. lia. }
    fold n. fold n in E, P. rewrite E. cbn [mbind res_bind].
    assert (Hfit : (Pad.pad_len n ≤ 1536)%nat) by (apply Pad.pad_len_fits; lia).
    rewrite slice_to_ok by lia. rewrite Nat.sub_0_r. unfold slice. rewrite drop_0.
    pose proof (Pad.pad_len_bounds n) as [Hb _]. pose proof (Pad.round4_spec n) as [Hr4 _].
    rewrite (Pad.padded_take pl b1 (Pad.pad_len n)); [|fold n; lia|lia|exact P].
    fold n. fold data.
    assert (Ld : length data = Pad.pad_len n).
    { unfold data. rewrite length_app, length_zeros. fold n. lia. }
    pose proof (bustx_attempt_spec data d (set_pending_cmd_tx None b) Hd) as A.
    rewrite Ld in A. exact A.
Qed.

(** Turns in which the sending thread is gone. *)
Definition tx_gone (b : Bsp) : Prop :=
  b.(bustx).(exited) = true ∧ b.(tx_result) = None.

Lemma tx_gone_same b b' :
  b'.(bustx) = b.(bustx) → b'.(tx_result) = b.(tx_result) → tx_gone b → tx_gone b'.
Proof. unfold tx_gone. by intros -> ->. Qed.

Lemma poll_rx_tx d m b :
  (poll_rx_one d (m, b)).2.2.(bustx) = b.(bustx) ∧
  (poll_rx_one d (m, b)).2.2.(tx_result) = b.(tx_result).
Proof.
  unfold poll_rx_one. destruct (sdio_recv_pkt _ _ _ _ _) as [[[buf n]|e|] w]; [|done..].
  case_bool_decide; [done|]. by destruct (Rx.process _ _ _) as [r [m' c]].
Qed.

Lemma run_poll_tx b :
  (run_poll_rx_one b).2.(bustx) = b.(bustx) ∧ (run_poll_rx_one b).2.(tx_result) = b.(tx_result).
Proof.
  unfold run_poll_rx_one. destruct (cmd_mgr b) as [m|]; [|done].
  destruct (sdio_device b) as [d|]; [|done].
  pose proof (poll_rx_tx d m b) as Hp. destruct (poll_rx_one d (m, b)) as [r [m' b']].
  destruct r as [?|e|]; [exact Hp| |exact Hp]. by case_bool_decide.
Qed.

Lemma run_turn_gone t b : tx_gone b → tx_gone (run_turn t b).
Proof.
  intros Hg. unfold run_turn. destruct t.
  - assert (Hb : tx_gone (busrx_turn b).2).
    { unfold busrx_turn. destruct (alive _); [|done]. pose proof (run_poll_tx b) as [E1 E2].
      destruct (run_poll_rx_one b) as [r b']. by apply (tx_gone_same b). }
    destruct (busrx_turn b) as [[?|?|] b']; done.
  - unfold bustx_turn, alive. destruct Hg as [He Hr]. rewrite He, andb_false_r. done.
Qed.

Lemma turns_gone b : tx_gone b → tx_gone (turns b).
Proof.
  intros Hg. unfold turns. destruct (next_turns _) as [ts w].
  assert (Hg' : tx_gone (set_world w b)) by by apply (tx_gone_same b).
  revert Hg'. generalize (set_world w b). induction ts as [|t ts IH]; intros b' Hb; simpl; [done|].
  apply IH. by apply run_turn_gone.
Qed.

Lemma sleep_gone ms b : tx_gone b →
  tx_gone (sleep ms b).2 ∧ ((sleep ms b).1 = Ok () ∨ (sleep ms b).1 = Panic).
Proof.
  intros Hg. unfold sleep, sync, mbind, st_bind, st_modify.
  assert (tx_gone (turns (sleep_ms ms b))) by (apply turns_gone; by apply (tx_gone_same b)).
  destruct (panicked _); simpl; auto.
Qed.

Lemma tx_done_gone wakeups elapsed b :
  tx_gone b → (∀ w, (timed_out w).1 = true) → 0 ≤ elapsed →
  TX_DONE_TIMEOUT_MS ≤ elapsed + 50 * Z.of_nat wakeups → elapsed < TX_DONE_TIMEOUT_MS →
  let r := tx_done_loop wakeups elapsed b in
  tx_gone r.2 ∧ (r.1 = Err (-110) ∨ r.1 = Panic).
Proof.
  intros Hg Ht. revert elapsed b Hg.
  induction wakeups as [|n IH]; intros elapsed b Hg He Hw Hl; cbn [tx_done_loop]; [lia|].
  destruct (sleep_gone 50 b Hg) as [Hg1 Ho]. destruct (sleep 50 b) as [[?|e|] b1]; simpl in *.
  2:{ by destruct Ho. } 2:{ by split; [|right]. }
  pose proof (Ht b1.(world)) as T. destruct (timed_out (world b1)) as [t w]. simpl in T. subst t.
  destruct Hg1 as [G1 G2]. simpl. rewrite G2.
  case_bool_decide; [by split; [|left]|]. apply IH; simpl; try lia. done.
Qed.

(** Once the sending thread's loop has ended, no command can be sent any
    more: with waits that end by their timeout, every submission fails with
    [-110] after five seconds (or the kernel panics meanwhile), whatever the card,
    and nothing brings the thread back: starting it again is a no-op. *)
Lemma submit_without_thread (wakeups : nat) (buf : list Z) (b : Bsp)
    (Hx : b.(bustx).(exited) = true) (Hst : b.(bustx).(started) = true)
    (Hl : (length buf ≤ PENDING_CMD_TX_CAP)%nat)
    (Ht : ∀ w, (timed_out w).1 = true) (Hw : (100 ≤ wakeups)%nat) :
  ((submit_cmd_tx_and_wait_tx_done wakeups buf (length buf) b).1 = Err (-110) ∨
   (submit_cmd_tx_and_wait_tx_done wakeups buf (length buf) b).1 = Panic) ∧
  ensure_bustx_thread_started b = (Ok (), b).
Proof.
  split; [|by unfold ensure_bustx_thread_started; rewrite Hst].
  unfold submit_cmd_tx_and_wait_tx_done. rewrite bool_decide_false by lia.
  unfold mbind, st_bind, st_modify, st_lift. rewrite bool_decide_true by done.
  rewrite write_at_ok by (rewrite length_zeros; lia).
  apply tx_done_gone; try done; unfold TX_DONE_TIMEOUT_MS; lia.
Qed.
End flow.

(** ** A machine to evaluate on

    The card of [RamCard]; the threads run in the order of a fixed plan, and every
    wait ends by its timeout. *)
Module Plan.
Record t := mk { card : RamCard.t; plan : list (list turn) }.

#[local] Existing Instance RamCard.host.

Definition on_card {A} (f : st RamCard.t A) : st t A := λ p,
  let '(r, c) := f p.(card) in (r, mk c p.(plan)).

#[export] Instance clock : Clock t := {| spin_us := λ _ p, p; sleep_us := λ _ p, p |}.
#[export] Instance host : SdioHost t := {|
  cmd52_read_func := λ f r, on_card (cmd52_read_func f r);
  cmd52_write_func := λ f r v, on_card (cmd52_write_func f r v);
  sdio_io_rw_ext_helper_read := λ a n, on_card (sdio_io_rw_ext_helper_read a n);
  sdio_io_rw_ext_helper_write := λ a l, on_card (sdio_io_rw_ext_helper_write a l) |}.
#[export] Instance sched : Sched t := {|
  next_turns := λ p, match p.(plan) with
                     | ts :: rest => (ts, mk p.(card) rest)
                     | [] => ([], p)
                     end;
  timed_out := λ p, (true, p) |}.
End Plan.
#[export] Existing Instances Plan.clock Plan.host Plan.sched.

Definition idle_thread : Thread := mkThread false false false.
Definition live_thread : Thread := mkThread true true false.
Definition gone_thread : Thread := mkThread true false true.

Definition bsp_of {W C} (w : W) (c : Rx.Client C) (d : option Aic8800Sdio) (m : option Mgr.t)
    (pid : Z) (rx tx : Thread) : Bsp :=
  mkBsp w c d m pid None None None rx tx false false None default_info Store.empty.

Definition no_client : Rx.Client () := Rx.mkClient () None None.
Definition ready_card (rx : list Z) : RamCard.t :=
  RamCard.mk (λ f r, if bool_decide (f = 1 ∧ r = Reg.FLOW_CTRL) then 1 else 0) rx [].

Lemma bustx_turn_sends_witness :
  let b := set_pending_cmd_tx (Some ([1; 2; 3] ++ zeros 1533, 3%nat))
             (bsp_of (Plan.mk (ready_card []) []) no_client (Some (sdio_new Aic8801))
                None 0 live_thread live_thread) in
  (bustx_turn b).2.(tx_result) = Some 0 ∧
  RamCard.tx (Plan.card (world (bustx_turn b).2)) = [(0x107, [1; 2; 3] ++ zeros 509)].
Proof.
  intros b. pose proof (bustx_turn_sends [1; 2; 3] (sdio_new Aic8801) b ltac:(vm_compute; lia)
    eq_refl eq_refl eq_refl eq_refl) as H. cbv zeta in H.
  rewrite bool_decide_false in H by (simpl; lia).
  destruct (sdio_send_msg _ _ _ _) as [r w] eqn:E. rewrite H. clear H. revert E. vm_compute.
  intros [= <- <-]. split; reflexivity.
Defined.

Lemma submit_without_thread_witness :
  let b := bsp_of (Plan.mk (ready_card []) []) no_client (Some (sdio_new Aic8801))
             (Some Mgr.new) 0 live_thread gone_thread in
  (submit_cmd_tx_and_wait_tx_done 100 (zeros 24) 24 b).1 = Err (-110) ∨
  (submit_cmd_tx_and_wait_tx_done 100 (zeros 24) 24 b).1 = Panic.
Proof.
  intros b. refine (proj1 (submit_without_thread 100 (zeros 24) b _ _ _ _ _)); try reflexivity; vm_compute; lia.
Defined.
