(* ===== verification/FwInit.v ===== *)
(** * Bringing the chip up: [driver/bsp/src/sdio/flow.rs], [aicbsp_driver_fw_init]

    The configuration tables and the steps of the firmware initialisation: the
    chip revision, the system configuration, the uploads, the patch and masked
    configuration, START_APP; and the accounting of command slots along them. *)

From S2P Require Import Prelude CmdMgr Chip Host SdioOps FwLoad Mmc Rx Flow.

Import Dbg.

(** ** The tables of the 8801 *)

(** driver/bsp/src/sdio/flow.rs:837-848 [AICBSP_SYSCFG_TBL_8801] *)
Definition AICBSP_SYSCFG_TBL_8801 : list (Z * Z) := [
  (0x40500014, 0x00000101); (0x40500018, 0x00000109); (0x40500004, 0x00000010);
  (0x40040000, 0x00001AC8); (0x40040084, 0x00011580); (0x40040080, 0x00000001);
  (0x40100058, 0x00000000); (0x50000000, 0x03220204); (0x50019150, 0x00000002);
  (0x50017008, 0x00000000)].

(** driver/bsp/src/sdio/flow.rs:867-869 [SYSCFG_TBL_MASKED_8801] *)
Definition SYSCFG_TBL_MASKED_8801 : list (Z * Z * Z) := [(0x40506024, 0x000000FF, 0x000000DF)].
(** driver/bsp/src/sdio/flow.rs:872-874 [RF_TBL_MASKED_8801] *)
Definition RF_TBL_MASKED_8801 : list (Z * Z * Z) := [(0x40344058, 0x00800000, 0x00000000)].
(** driver/bsp/src/sdio/flow.rs:877-877 [RD_PATCH_ADDR_8801] *)
Definition RD_PATCH_ADDR_8801 : Z := RAM_FMAC_FW_ADDR + 0x0180.
(** driver/bsp/src/sdio/flow.rs:878-878 [PATCH_START_ADDR_8801] *)
Definition PATCH_START_ADDR_8801 : Z := 0x1e6000.
(** driver/bsp/src/sdio/flow.rs:879-879 [PATCH_ADDR_REG_8801] *)
Definition PATCH_ADDR_REG_8801 : Z := 0x1e5318.
(** driver/bsp/src/sdio/flow.rs:880-880 [PATCH_NUM_REG_8801] *)
Definition PATCH_NUM_REG_8801 : Z := 0x1e531c.
(** driver/bsp/src/sdio/flow.rs:882-886 [PATCH_TBL_8801] *)
Definition PATCH_TBL_8801 : list (Z * Z) := [
  (0x0104, 0x00000000); (0x004c, 0x0000004B); (0x0050, 0x0011FC00)].

(** driver/bsp/src/sdio/flow.rs:962-962 [patch_num] *)
Definition patch_num : Z := Z.of_nat (length PATCH_TBL_8801) * 2.

(** ** The steps *)
Section init.
Context {W C : Type} `{SdioHost W} `{Clock W} `{Sched W}.
(** The images the build embeds, the error the caller sees, the bound on the waits
    for the sending thread. *)
Context (embedded : string → option (list Z)) (ax_bad_state : Z) (wakeups : nat).

Abbreviation Bsp := (Bsp (W := W) (C := C)).

(** driver/bsp/src/sdio/flow.rs:853-864 [aicbsp_system_config_8801] *)
Fixpoint system_config (send_one : Z → Z → st Bsp ()) (tbl : list (Z * Z)) : st Bsp () :=
  match tbl with
  | [] => mret ()
  | (addr, data) :: tbl => _ ← send_one addr data; system_config send_one tbl
  end.

Definition aicbsp_system_config_8801 (send_one : Z → Z → st Bsp ()) : st Bsp () :=
  system_config send_one AICBSP_SYSCFG_TBL_8801.

(** driver/bsp/src/sdio/flow.rs:964-968 [aicwifi_patch_config_8801_init], the loop
    from entry [cnt] *)
Fixpoint patch_loop (write : Z → Z → st Bsp ()) (config_base cnt : Z) (tbl : list (Z * Z)) : st Bsp () :=
  match tbl with
  | [] => mret ()
  | (off, val) :: tbl =>
      let addr := PATCH_START_ADDR_8801 + cnt * 8 in
      v ← st_lift (add_w 32 off config_base);
      _ ← write addr v;
      _ ← write (addr + 4) val;
      patch_loop write config_base (cnt + 1) tbl
  end.

(** driver/bsp/src/sdio/flow.rs:959-970 [aicwifi_patch_config_8801_init] *)
Definition aicwifi_patch_config_8801_init (pid : ProductId) (timeout_ms : Z) : st Bsp () :=
  let write addr v := send_dbg_mem_write_direct addr v timeout_ms pid in
  config_base ← send_dbg_mem_read_direct RD_PATCH_ADDR_8801 timeout_ms pid;
  _ ← write PATCH_ADDR_REG_8801 PATCH_START_ADDR_8801;
  _ ← write PATCH_NUM_REG_8801 patch_num;
  patch_loop write config_base 0 PATCH_TBL_8801.

(** driver/bsp/src/sdio/flow.rs:1004-1009 [aicwifi_sys_config_8801], one table *)
Fixpoint mask_writes {E} (write : Z → Z → Z → st E ()) (tbl : list (Z * Z * Z)) : st E () :=
  match tbl with
  | [] => mret ()
  | (addr, mask, data) :: tbl => _ ← write addr mask data; mask_writes write tbl
  end.

(** driver/bsp/src/sdio/flow.rs:998-1011 [aicwifi_sys_config_8801] *)
Definition aicwifi_sys_config_8801 {E} (tx_fn : Lmac.LmacMsg → st E ())
    (poll_fn : Mgr.t → E → Mgr.t * E) (pause : E → E) (timeout_ms : Z) : st (Mgr.t * E) () :=
  let write a k d := Load.send_dbg_mem_mask_write tx_fn poll_fn pause a k d timeout_ms in
  _ ← mask_writes write SYSCFG_TBL_MASKED_8801;
  mask_writes write RF_TBL_MASKED_8801.

(** driver/bsp/src/sdio/flow.rs:972-995 [aicwifi_patch_config_8801], the loop from entry [cnt] *)
Fixpoint patch_loop_held {E} (write : Z → Z → st (Mgr.t * E) ()) (config_base cnt : Z)
    (tbl : list (Z * Z)) : st (Mgr.t * E) () :=
  match tbl with
  | [] => mret ()
  | (off, val) :: tbl =>
      let addr := PATCH_START_ADDR_8801 + cnt * 8 in
      v ← st_lift (add_w 32 off config_base);
      _ ← write addr v;
      _ ← write (addr + 4) val;
      patch_loop_held write config_base (cnt + 1) tbl
  end.

(** driver/bsp/src/sdio/flow.rs:972-995 [aicwifi_patch_config_8801] *)
Definition aicwifi_patch_config_8801 {E} (tx_fn : Lmac.LmacMsg → st E ())
    (poll_fn : Mgr.t → E → Mgr.t * E) (pause spin_100ms : E → E) (timeout_ms : Z) :
    st (Mgr.t * E) () :=
  let write a v := Load.send_dbg_mem_write tx_fn poll_fn pause a v timeout_ms None in
  config_base ← Load.send_dbg_mem_read tx_fn poll_fn pause spin_100ms RD_PATCH_ADDR_8801 timeout_ms None;
  _ ← write PATCH_ADDR_REG_8801 PATCH_START_ADDR_8801;
  _ ← write PATCH_NUM_REG_8801 patch_num;
  patch_loop_held write config_base 0 PATCH_TBL_8801.

(** *** The pieces of [aicbsp_driver_fw_init] *)

(** driver/bsp/src/sdio/flow.rs:1051-1051 [CMD_TIMEOUT_MS] *)
Definition CMD_TIMEOUT_MS : Z := 2000.

(** driver/bsp/src/sdio/flow.rs:1055-1062 [aicbsp_driver_fw_init], [after_delay] *)
Definition after_delay : st Bsp () :=
  _ ← with_sdio (λ _, _ ← st_try (sdio_read_byte 0x102); _ ← st_try (sdio_read_byte 0x112);
                      _ ← st_try (sdio_read_byte 0x10A); mret ());
  mret ().

(** driver/bsp/src/sdio/flow.rs:1067-1088 [aicbsp_driver_fw_init]: the revision in
    the word read, and whether it is an H chip *)
Definition decode_rev (pid : ProductId) (memdata : Z) : Z * bool :=
  let v := Z.shiftr memdata 16 in
  match pid with
  | Aic8801 => (Z.land v 0xff, false)
  | Aic8800Dc | Aic8800Dw | Aic8800D80 =>
      (Z.land v 0x3F, bool_decide (Z.land v 0xC0 = 0xC0))
  | Aic8800D80X2 => (Z.land v 0x3F, false)
  end.

Definition set_chip_rev (r : Z) (b : Bsp) : Bsp :=
  let i := b.(bsp_info) in
  set_bsp_info (mkInfo i.(cpmode) i.(hwinfo_r) i.(hwinfo) r i.(fwlog_en)) b.

(** driver/bsp/src/sdio/flow.rs:1053-1094 [aicbsp_driver_fw_init], step 1 *)
Definition read_chip_rev (pid : ProductId) : st Bsp (Z * bool) :=
  memdata ← st_map_err ax_bad_state
    (send_dbg_mem_read_busrx wakeups CHIP_REV_MEM_ADDR CMD_TIMEOUT_MS
       (if bool_decide (pid = Aic8801) then after_delay else mret ()));
  _ ← st_modify (set_chip_rev (decode_rev pid memdata).1);
  mret (decode_rev pid memdata).

(** driver/bsp/src/sdio/flow.rs:1101-1149 [aicbsp_driver_fw_init], [tx_fn] *)
Definition tx_fn (pid : ProductId) (msg : Lmac.LmacMsg) : st Bsp () :=
  '(buf, len, send_len) ← st_lift (prepare pid msg 1536);
  if bool_decide (pid = Aic8801)
  then data ← st_lift (slice_to 0 len buf); submit_cmd_tx_and_wait_tx_done wakeups data len
  else send_buf buf send_len.

(** A closure run for its effect; its panic stops the kernel. *)
Definition effect {A} (f : st Bsp A) (b : Bsp) : Bsp :=
  match f b with (Panic, b) => set_panicked true b | (_, b) => b end.

(** driver/bsp/src/sdio/flow.rs:1150-1152 [aicbsp_driver_fw_init], [poll], with the
    manager held by the caller *)
Definition poll_held (m : Mgr.t) (b : Bsp) : Mgr.t * Bsp :=
  let b := turns b in
  match b.(sdio_device) with
  | Some d =>
      let '(r, (m, b)) := poll_rx_one d (m, b) in
      (m, match r with Panic => set_panicked true b | _ => b end)
  | None => (m, b)
  end.

(** driver/bsp/src/sdio/flow.rs:1234-1238 [aicbsp_driver_fw_init], [poll_impl] *)
Definition poll_impl (b : Bsp) : Bsp :=
  let b := turns b in
  match b.(cmd_mgr) with
  | Some m => let '(m, b) := poll_held m (set_cmd_mgr None b) in set_cmd_mgr (Some m) b
  | None => b
  end.

(** driver/bsp/src/sdio/flow.rs:1177-1222 [aicbsp_driver_fw_init], [send_one] *)
Definition send_one (addr data : Z) : st Bsp () :=
  '(buf, len) ← st_lift (Lmac.serialize_8801 (build_dbg_mem_write_req addr data) (zeros PENDING_CMD_TX_CAP));
  let send_len := Pad.ipc_send_len_8801 len in
  if bool_decide (length buf < send_len)%nat then st_err (-22)
  else
    buf ← st_lift (if bool_decide (len < send_len)%nat then
                     buf ← Pad.fill len (len + 4) buf;
                     if bool_decide (len + 4 < send_len)%nat then Pad.fill (len + 4) send_len buf
                     else Ok buf
                   else Ok buf);
    r ← with_cmd_mgr (Mgr.push DBG_MEM_WRITE_CFM);
    token ← st_lift (match r with Some (Some t) => Ok t | Some None => Err (-12) | None => Err (-5) end);
    data ← st_lift (slice_to 0 send_len buf);
    _ ← submit_cmd_tx_and_wait_tx_done wakeups data send_len;
    _ ← wait_slot 3000 token (Some (λ _, effect log_f1)) None (Some 500);
    _ ← with_cmd_mgr (Mgr.take_cfm token (zeros 16));
    sleep 10.

(** driver/bsp/src/sdio/flow.rs:1242-1242 [aicbsp_driver_fw_init], [push_fn] *)
Definition push_fn : st Bsp (option nat) :=
  r ← with_cmd_mgr (Mgr.push DBG_MEM_BLOCK_WRITE_CFM); mret (mjoin r).

(** driver/bsp/src/sdio/flow.rs:1239-1256 [aicbsp_driver_fw_init], [wait_fn] *)
Definition wait_fn (token : nat) : st Bsp () :=
  _ ← wait_slot 500 token (Some (λ _, effect log_f1)) (Some poll_impl) (Some 100);
  _ ← with_cmd_mgr (Mgr.take_cfm token (zeros 16));
  mret ().

(** driver/bsp/src/sdio/flow.rs:1257-1273 [aicbsp_driver_fw_init], step 3a, also driver/bsp/src/sdio/flow.rs:1274-1293 [aicbsp_driver_fw_init] *)
Definition upload (pid : ProductId) (name : string) (addr : Z) : st Bsp () :=
  b ← st_get;
  match Store.get_firmware_by_name embedded name b.(firmware) with
  | Some data =>
      st_map_err ax_bad_state (Load.fw_upload_blocks (tx_fn pid) push_fn wait_fn addr data)
  | None => mret ()
  end.

(** Work under the CMD_MGR lock, the manager in the caller's hands. *)
Definition holding_mgr {A} (f : st (Mgr.t * Bsp) A) : st Bsp A := λ b,
  match sync b with
  | (Ok _, b) =>
      match b.(cmd_mgr) with
      | Some m =>
          let '(r, (m, b)) := f (m, set_cmd_mgr None b) in (r, set_cmd_mgr (Some m) b)
      | None => (Err ax_bad_state, b)
      end
  | (Err e, b) => (Err e, b)
  | (Panic, b) => (Panic, b)
  end.

(** driver/bsp/src/sdio/flow.rs:1305-1329 [aicbsp_driver_fw_init], steps 4 and 5 *)
Definition configure_and_start (pid : ProductId) : st (Mgr.t * Bsp) () :=
  _ ← (if bool_decide (pid = Aic8801)
       then st_map_err ax_bad_state
              (aicwifi_sys_config_8801 (tx_fn pid) poll_held (pause 1) CMD_TIMEOUT_MS)
       else mret ());
  st_map_err ax_bad_state
    (Load.fw_start_app (tx_fn pid) poll_held (pause 1) RAM_FMAC_FW_ADDR HOST_START_APP_AUTO CMD_TIMEOUT_MS).

(** driver/bsp/src/sdio/flow.rs:1037-1046 [aicbsp_driver_fw_init]: the interrupt mask of the 8801 *)
Definition enable_f1_intr : st Bsp () :=
  r ← with_sdio (λ _, sdio_write_byte (0x100 + Reg.INTR_CONFIG) 0x07);
  match r with Some (Err _) => st_err ax_bad_state | _ => mret () end.

(** driver/bsp/src/sdio/flow.rs:1053-1303 [aicbsp_driver_fw_init], steps 1 to 3c *)
Definition load_firmware (pid : ProductId) : st Bsp () :=
  '(rev, is_h) ← read_chip_rev pid;
  fw_list ← st_lift (ok_or (get_firmware_list pid rev is_h) ax_bad_state);
  b ← st_get;
  fw ← st_lift (index fw_list (Nat.min (Z.to_nat b.(bsp_info).(cpmode)) 1));
  _ ← (if bool_decide (pid = Aic8801)
       then st_map_err ax_bad_state (aicbsp_system_config_8801 send_one) else mret ());
  _ ← upload pid fw.(wl_fw) RAM_FMAC_FW_ADDR;
  _ ← (if bool_decide (pid = Aic8801)
       then upload pid "fmacfw_patch.bin" RAM_FMAC_FW_PATCH_ADDR else mret ());
  if bool_decide (pid = Aic8801)
  then st_map_err ax_bad_state (aicwifi_patch_config_8801_init pid CMD_TIMEOUT_MS) else mret ().

(** driver/bsp/src/sdio/flow.rs:1025-1334 [aicbsp_driver_fw_init] *)
Definition aicbsp_driver_fw_init : st Bsp () :=
  b ← st_get;
  product_id ← st_lift (ok_or (aicbsp_current_product_id b) ax_bad_state);
  dev ← with_sdio (λ _, mret ());
  _ ← st_lift (ok_or dev ax_bad_state);
  _ ← ensure_bustx_thread_started;
  _ ← ensure_busrx_thread_started;
  _ ← (if bool_decide (product_id = Aic8801) then enable_f1_intr else mret ());
  _ ← sleep 200;
  _ ← load_firmware product_id;
  holding_mgr (configure_and_start product_id).

(** ** The slots the initialisation uses up *)

Lemma calm_effect {A} (f : st Bsp A) b : calm_op f → calm b (effect f b).
Proof.
  intros Hf. unfold effect. specialize (Hf b). destruct (f b) as [[?|?|] b']; [done..|].
  eapply calm_trans; [exact Hf|by apply calm_same].
Qed.

Lemma calm_poll_impl b : calm b (poll_impl b).
Proof.
  unfold poll_impl. pose proof (calm_turns b) as H1'. destruct (cmd_mgr (turns b)) as [m|] eqn:Em;
    [|done]. eapply calm_trans; [exact H1'|]. unfold poll_held.
  pose proof (calm_turns (set_cmd_mgr None (turns b))) as H2'.
  set (b1 := turns (set_cmd_mgr None (turns b))) in *.
  destruct (sdio_device b1) as [d|].
  - pose proof (poll_rx_cfms d m b1) as Hc. destruct (poll_rx_one d (m, b1)) as [r [m' b2]].
    unfold calm. rewrite Em. exact Hc.
  - unfold calm. rewrite Em. apply Rx.cfms_refl.
Qed.

Lemma costs_system_config send tbl :
  (∀ a d, costs 0 (send a d)) → costs 0 (system_config send tbl).
Proof.
  intros Hs. induction tbl as [|[a d] tbl IH]; simpl; [apply costs_calm, calm_ret|].
  by apply (costs_bind 0 0).
Qed.

Lemma costs_send_one addr data : costs 0 (send_one addr data).
Proof.
  unfold send_one. apply costs_then; [apply calm_lift|intros [buf len]].
  cbv zeta. apply costs_if; [apply costs_calm, calm_err|].
  apply costs_then; [apply calm_lift|intros buf'].
  apply (costs_slot (-1)); [apply takes_push| |by intros [[?|]|] b a b'].
  intros tok. apply costs_then; [apply calm_lift|intros t].
  apply costs_then; [apply calm_lift|intros d].
  apply costs_then; [apply calm_submit|intros].
  apply (costs_bind 0 (-1)); [done| |intros].
  { apply costs_calm, calm_wait_slot; [done|]. intros f [= <-] z b. apply calm_effect, calm_log_f1. }
  apply (costs_bind (-1) 0); [done|apply costs_take_cfm|intros]. apply costs_calm, calm_sleep.
Qed.

Lemma costs_wait_fn token : costs (-1) (wait_fn token).
Proof.
  unfold wait_fn. apply (costs_bind 0 (-1)); [done| |intros].
  { apply costs_calm, calm_wait_slot.
    - intros f [= <-]. apply calm_poll_impl.
    - intros f [= <-] z b. apply calm_effect, calm_log_f1. }
  apply (costs_bind (-1) 0); [done|apply costs_take_cfm|intros]. apply costs_calm, calm_ret.
Qed.

Lemma calm_tx_fn pid msg : calm_op (tx_fn pid msg).
Proof.
  unfold tx_fn. apply calm_bind; [apply calm_lift|intros [[buf len] n]].
  apply calm_if; [|apply calm_send_buf].
  apply calm_bind; [apply calm_lift|intros]. apply calm_submit.
Qed.

Lemma costs_upload_loop pid fuel addr off data :
  costs 0 (Load.upload_loop (tx_fn pid) push_fn wait_fn fuel addr off data).
Proof.
  revert addr off. induction fuel as [|fuel IH]; intros addr off; cbn [Load.upload_loop];
    (apply costs_if; [|apply costs_calm, calm_ret]); [apply costs_calm, calm_lift|].
  apply costs_then; [apply calm_lift|intros block].
  apply costs_then; [apply calm_lift|intros msg].
  apply (costs_slot_opt (-1)); [apply takes_push| |done].
  intros tok. apply costs_then; [apply calm_lift|intros t].
  apply (costs_bind 0 (-1)); [done|apply costs_map_err, costs_calm, calm_tx_fn|intros].
  apply (costs_bind (-1) 0); [done|apply costs_wait_fn|intros].
  apply costs_then; [apply calm_lift|intros]. apply IH.
Qed.

Lemma costs_upload pid name addr : costs 0 (upload pid name addr).
Proof.
  unfold upload. apply costs_then; [apply calm_get|intros b].
  destruct (Store.get_firmware_by_name _ _ _); [|apply costs_calm, calm_ret].
  apply costs_map_err, costs_upload_loop.
Qed.

(** Eight memory writes, none of which gives its slot back. *)
Lemma costs_patch_config pid timeout : costs 8 (aicwifi_patch_config_8801_init pid timeout).
Proof.
  unfold aicwifi_patch_config_8801_init, PATCH_TBL_8801, patch_loop.
  apply (costs_bind 0 8); [done|apply costs_read_direct|intros base].
  do 2 (apply costs_pay; [apply costs_write_direct|intros]).
  do 3 (apply costs_then; [apply calm_lift|intros];
        do 2 (apply costs_pay; [apply costs_write_direct|intros])).
  apply costs_calm, calm_ret.
Qed.

Lemma calm_after_delay : calm_op after_delay.
Proof. apply calm_bind; [apply calm_with_sdio|intros; apply calm_ret]. Qed.

Lemma costs_read_chip_rev pid : costs 0 (read_chip_rev pid).
Proof.
  unfold read_chip_rev. apply (costs_bind 0 0); [done| |intros v].
  - apply costs_map_err, costs_read_busrx. apply calm_if; [apply calm_after_delay|apply calm_ret].
  - apply costs_then; [by apply calm_modify|intros].
    apply costs_calm, calm_ret.
Qed.

Lemma costs_load_firmware : costs 8 (load_firmware Aic8801).
Proof.
  unfold load_firmware.
  apply (costs_bind 0 8); [done|apply costs_read_chip_rev|intros [rev h]].
  apply costs_then; [apply calm_lift|intros fws].
  apply costs_then; [apply calm_get|intros b].
  apply costs_then; [apply calm_lift|intros fw].
  rewrite !bool_decide_true by done.
  apply (costs_bind 0 8); [done| |intros].
  { apply costs_map_err, costs_system_config. apply costs_send_one. }
  apply (costs_bind 0 8); [done|apply costs_upload|intros].
  apply (costs_bind 0 8); [done|apply costs_upload|intros].
  apply costs_map_err, costs_patch_config.
Qed.

Lemma calm_enable_f1_intr : calm_op enable_f1_intr.
Proof.
  apply calm_bind; [apply calm_with_sdio|].
  intros [[?|?|]|]; first [apply calm_ret|apply calm_err].
Qed.

(** Steps 4 and 5 cannot begin without a free slot. *)
Lemma configure_no_slot m b :
  Mgr.wf m → Mgr.occupied m = 8%nat →
  configure_and_start Aic8801 (m, b) = (Err ax_bad_state, (m, b)).
Proof.
  intros Hwf Ho. unfold configure_and_start. rewrite bool_decide_true by done.
  unfold mbind at 1, st_bind at 1, st_map_err at 1.
  unfold aicwifi_sys_config_8801, SYSCFG_TBL_MASKED_8801, mask_writes,
    Load.send_dbg_mem_mask_write, Load.request, Load.on_mgr, mbind, st_bind, st_lift.
  by rewrite (Mgr.push_full _ m Hwf Ho).
Qed.

Lemma holding_no_slot b a :
  sane b → free b ≤ 0 → (holding_mgr (configure_and_start Aic8801) b).1 ≠ Ok a.
Proof.
  intros Hs Hf. unfold holding_mgr. pose proof (calm_sync b) as Hc.
  destruct (sync b) as [[?|?|] b1]; [|done..].
  destruct (calm_sane b b1 Hc Hs) as [Hs1 L1]. destruct (cmd_mgr b1) as [m|] eqn:Em; [|done].
  pose proof (Mgr.occupied_le m (Hs1 m Em)) as Ho. unfold free in L1, Hf. rewrite Em in L1.
  rewrite configure_no_slot; [done|by apply Hs1|lia].
Qed.

(** An operation that cannot succeed. *)
Definition never {A} (f : st Bsp A) : Prop := ∀ b a, sane b → (f b).1 ≠ Ok a.

Lemma never_then {A B} (f : st Bsp A) (g : A → st Bsp B) :
  calm_op f → (∀ a, never (g a)) → never (f ≫= g).
Proof.
  intros Hf Hg b a Hs. unfold mbind, st_bind. specialize (Hf b).
  destruct (f b) as [[x|?|] b1]; [|done..]. apply Hg. by eapply calm_sane.
Qed.

Lemma never_after {A B} k (f : st Bsp A) (g : A → st Bsp B) :
  costs k f → 8 ≤ k → (∀ x b a, sane b → free b ≤ 0 → (g x b).1 ≠ Ok a) → never (f ≫= g).
Proof.
  intros Hf Hk Hg b a Hs. unfold mbind, st_bind.
  destruct (f b) as [[x|?|] b1] eqn:E; [|done..]. destruct (Hf b x b1 Hs E) as [Hs1 L].
  pose proof (free_range b Hs). apply Hg; [done|lia].
Qed.

(** C3 (counterexample): on the 8801 [aicbsp_driver_fw_init] never succeeds, whatever the
    card answers, however the threads are scheduled and whatever firmware is
    installed: the eight memory writes of step 3c keep their command slots, all
    eight there are, and step 4 finds none left, if an earlier step has not failed
    already. *)
Theorem fw_init_8801_never_succeeds (b : Bsp)
    (Hpid : aicbsp_current_product_id b = Some Aic8801)
    (Hm : ∀ m, b.(cmd_mgr) = Some m → Mgr.wf m) :
  (aicbsp_driver_fw_init b).1 ≠ Ok ().
Proof.
  unfold aicbsp_driver_fw_init. unfold mbind at 1, st_bind at 1, st_get. cbv beta iota.
  rewrite Hpid. unfold mbind at 1, st_bind at 1. unfold st_lift at 1, ok_or at 1. cbv beta iota.
  rewrite bool_decide_true by done.
  apply (never_then _ _ (calm_with_sdio _)); [|exact Hm]. intros dev.
  apply never_then; [apply calm_lift|intros]. apply never_then; [apply calm_ensure_tx|intros].
  apply never_then; [apply calm_ensure_rx|intros]. apply never_then; [apply calm_enable_f1_intr|intros].
  apply never_then; [apply calm_sleep|intros].
  apply (never_after 8); [apply costs_load_firmware|done|]. intros _. apply holding_no_slot.
Qed.
End init.

(** ** A chip to run it against

    It answers every request it is sent: a read with the word at the
    address, anything else with a confirmation of zeros; block writes go to its memory. *)
Module SimChip.
Record t := mk { framed : bool; mem : Z → Z; replies : list (list Z) }.

Definition reply (id : Z) (param : list Z) : list Z :=
  [0; 0; 0x11; 0] ++ to_le 2 id ++ zeros 4 ++ to_le 2 (Z.of_nat (length param)) ++ zeros 4 ++ param.

Definition word (mem : Z → Z) (a : Z) : list Z := (λ i, mem (a + Z.of_nat i)) <$> seq 0 4.

(** The request in a command: behind eight bytes on the 8801. *)
Definition answer (c : t) (buf : list Z) : t :=
  let h := if c.(framed) then drop 8 buf else buf in
  let id := of_le (take 2 h) in
  let a := of_le (slice 8 4 h) in
  if bool_decide (id = DBG_MEM_READ_REQ)
  then mk c.(framed) c.(mem) (c.(replies) ++ [reply (id + 1) (to_le 4 a ++ word c.(mem) a)])
  else
    let mem := if bool_decide (id = DBG_MEM_BLOCK_WRITE_REQ)
               then Load.write_bytes a (slice 16 (Z.to_nat (of_le (slice 12 4 h))) h) c.(mem)
               else c.(mem) in
    mk c.(framed) mem (c.(replies) ++ [reply (id + 1) (zeros 32)]).

Definition fill_to (n : nat) (l : list Z) : list Z := take n (l ++ zeros n).

#[export] Instance clock : Clock t := {| spin_us := λ _ c, c; sleep_us := λ _ c, c |}.
#[export] Instance sched : Sched t := {|
  next_turns := λ c, ([BusTx; BusRx], c); timed_out := λ c, (true, c) |}.
#[export] Instance host : SdioHost t := {|
  cmd52_read_func := λ f r c,
    (Ok (if bool_decide (f = 1 ∧ r = Reg.FLOW_CTRL) then 4
         else if bool_decide (f = 1 ∧ r = Reg.BLOCK_CNT)
         then (if bool_decide (c.(replies) = []) then 0 else 1) else 0), c);
  cmd52_write_func := λ _ _ _ c, (Ok (), c);
  sdio_io_rw_ext_helper_read := λ _ n c,
    (Ok (fill_to n (default [] (head c.(replies)))), mk c.(framed) c.(mem) (tail c.(replies)));
  sdio_io_rw_ext_helper_write := λ _ buf c, (Ok (), answer c buf) |}.

(** A chip of revision 7, just found by the probe; the work firmware is [fw]. *)
Definition probed (pid : ProductId) (fw : list Z) : Bsp :=
  let w := mk (bool_decide (pid = Aic8801))
              (λ a, if bool_decide (a = CHIP_REV_MEM_ADDR + 2) then 7 else 0) [] in
  set_firmware (Store.set_wifi_firmware (nth 0 (wl_images pid) "") fw Store.empty)
    (bsp_of w no_client (Some (sdio_new pid)) (Some Mgr.new) (ProductId_u32 pid)
       idle_thread idle_thread).
End SimChip.
#[local] Existing Instances SimChip.clock SimChip.sched SimChip.host.

Definition no_embedded : string → option (list Z) := λ _, None.

(** Against this chip the 8801 gets as far as step 4: all slots are taken, the
    firmware is in place, and the call fails. *)
Lemma fw_init_8801_never_succeeds_witness :
  let r := aicbsp_driver_fw_init no_embedded (-1) 100 (SimChip.probed Aic8801 [10; 20; 30]) in
  r.1 ≠ Ok () ∧ r.1 = Err (-1) ∧ option_map Mgr.occupied r.2.(cmd_mgr) = Some 8%nat ∧
  SimChip.mem (world r.2) (RAM_FMAC_FW_ADDR + 1) = 20.
Proof.
  intros r. split.
  - apply (fw_init_8801_never_succeeds no_embedded (-1) 100 (SimChip.probed Aic8801 [10; 20; 30])).
    + reflexivity.
    + intros m [= <-]. apply Mgr.new_wf.
  - vm_compute. done.
Defined.



(** On this chip every wait that is looked at times out: [101] looks. *)
Lemma submit_terminates_witness :
  submit_cmd_tx_and_wait_tx_done 5000 [1; 2; 3; 4] 4 (SimChip.probed Aic8800Dc []) =
    submit_cmd_tx_and_wait_tx_done 101 [1; 2; 3; 4] 4 (SimChip.probed Aic8800Dc []) ∧
  (submit_cmd_tx_and_wait_tx_done 101 [1; 2; 3; 4] 4 (SimChip.probed Aic8800Dc [])).1 = Err (-110).
Proof.
  split; [|vm_compute; reflexivity].
  apply (submit_terminates (λ _, 0%nat)); [intros; lia|intros w; simpl; lia|lia].
Defined.
