(* ===== verification/Images.v ===== *)
(** * The images a build embeds: [driver/bsp/src/firmware_data.rs]

    [get_firmware_by_name] is compiled in one of three versions, which the Cargo
    features choose.  The images are files the repository does not hold: their bytes
    are a parameter, by their path.  What is shown is which of the names that
    firmware.rs and flow.rs ask for a build can answer, and what the initialisation
    does when it cannot. *)

From S2P Require Import Prelude CmdMgr Chip Host SdioOps FwLoad Mmc Rx Flow FwInit.
Import Dbg Load.
Local Open Scope string_scope.

(** The features of driver/bsp/Cargo.toml; [embed_firmware] brings [embed_firmware_8801], which is the default. *)
Inductive features := EmbedNothing | Embed8801 | EmbedAll.

Section images.
(** [include_bytes!] of a path. *)
Context (include_bytes : string → list Z).

(** An arm of the [match]: the image of this name. *)
Definition arms (names : list string) (name : string) : option (list Z) :=
  if bool_decide (name ∈ names) then Some (include_bytes ("../../../firmware/" +:+ name)) else None.

(** driver/bsp/src/firmware_data.rs:8-31 [get_firmware_by_name], with [embed_firmware] *)
Definition embed_firmware : string → option (list Z) := arms
  ["fmacfw.bin"; "fmacfw_patch.bin"; "fmacfw_rf.bin"; "fw_adid.bin"; "fw_adid_u03.bin"; "fw_patch.bin";
   "fw_patch_u03.bin"; "fw_patch_table.bin"; "fw_patch_table_u03.bin"; "fmacfw_patch_8800dc_u02.bin";
   "fw_adid_8800dc_u02.bin"; "fw_patch_8800dc_u02.bin"; "fw_patch_table_8800dc_u02.bin";
   "fmacfw_8800d80_u02.bin"; "fw_adid_8800d80_u02.bin"; "fw_patch_8800d80_u02.bin";
   "fw_patch_table_8800d80_u02.bin"].

(** driver/bsp/src/firmware_data.rs:33-40 [get_firmware_by_name], with [embed_firmware_8801] alone *)
Definition embed_firmware_8801 : string → option (list Z) := arms ["fmacfw.bin"; "fmacfw_patch.bin"].

(** driver/bsp/src/firmware_data.rs:42-45 [get_firmware_by_name], without either *)
Definition embed_nothing : string → option (list Z) := λ _, None.

Definition embedded (f : features) : string → option (list Z) :=
  match f with EmbedNothing => embed_nothing | Embed8801 => embed_firmware_8801 | EmbedAll => embed_firmware end.

Definition has_image (f : features) (name : string) : bool :=
  match embedded f name with Some _ => true | None => false end.

(** For which products the work image and the test image are there. *)
Definition available (f : features) (pid : ProductId) : list bool :=
  match f, pid with
  | EmbedAll, Aic8801 => [true; true]
  | EmbedAll, _ => [true; false]
  | Embed8801, Aic8801 => [true; false]
  | _, _ => [false; false]
  end.

(** Whatever the revision: a build with all images has the work image of every product, but a test
    image for the 8801 alone; the default build has the work image of the 8801 and nothing else. *)
Lemma images_available f pid rev h l :
  get_firmware_list pid rev h = Some l → (λ e, has_image f e.(wl_fw)) <$> l = available f pid.
Proof.
  intros E. pose proof (firmware_list_spec pid rev h) as Hs. rewrite E in Hs. destruct Hs as [_ Hl].
  trans (has_image f <$> (wl_fw <$> l)); [by rewrite <- list_fmap_compose|].
  rewrite Hl. destruct f, pid; vm_compute; reflexivity.
Qed.
End images.

(** The chip of FwInit.v with nothing registered. *)
Definition bare (pid : ProductId) : Bsp (W := SimChip.t) (C := ()) := set_firmware Store.empty (SimChip.probed pid []).
#[local] Existing Instances SimChip.clock SimChip.sched SimChip.host.


