(* ===== verification/Power.v ===== *)
(** * Power and life cycle: [driver/bsp/src/gpio.rs], [sdio/flow.rs], [lib.rs]

    The power pin, the bring-up of the SDIO device ([aicbsp_sdio_init]), its end
    ([aicbsp_sdio_exit]) and the calls of the upper layer: [aicbsp_init],
    [aicbsp_set_subsys], [aicbsp_exit]. *)

From S2P Require Import Prelude CmdMgr Chip Host Sdhci SdHost SdCmd SdioOps Cis FwLoad Mmc Rx Flow FwInit.
Import Types Driver FuncRef Dbg.

(** ** The interfaces the bring-up uses *)

(** 32-bit registers outside the SD controller, by physical address. *)
Class Phys (W : Type) := {
  mem_read : Z → W → Z * W;
  mem_write : Z → Z → W → W;
}.

(** What the bring-up asks of the SD host besides transfers. *)
Class HostControl (W : Type) := {
  ctl_interface_clock : st W ();
  ctl_card_init : st W Z;
  ctl_high_speed : st W ();
  ctl_set_clock : Z → st W ();
  ctl_4bit_bus : st W ();
  ctl_present : st W Z;
}.

(** driver/bsp/src/sdio/backend.rs:1049-1051 [read_present_sts]: the controller's driver behind the interface *)
#[export] Instance sd_control {W} `{Board W} : HostControl (Sd W) := {|
  ctl_interface_clock := enable_sd_interface_clock;
  ctl_card_init := sdio_card_init;
  ctl_high_speed := enable_sdio_high_speed;
  ctl_set_clock := set_clock;
  ctl_4bit_bus := enable_4bit_bus;
  ctl_present := read_reg PRESENT_STS |}.

(** ** The power pin *)
Module Gpio.
Section gpio.
Context {W : Type} `{Phys W} `{Clock W} (ax_invalid_input : Z).

Definition preg (a : Z) : st W Z := λ w, let '(v, w) := mem_read a w in (Ok v, w).
Definition pwrite (a v : Z) : st W () := λ w, (Ok (), mem_write a v w).

(** driver/bsp/src/gpio.rs:13-16 [GPIO0_BASE to GPIO3_BASE] *)
Definition GPIO_BASE (controller : Z) : option Z :=
  match controller with
  | 0 => Some 0x03020000 | 1 => Some 0x03021000 | 2 => Some 0x03022000 | 3 => Some 0x03023000
  | _ => None
  end.

(** driver/bsp/src/gpio.rs:83-103 [GpioController::new]; the base address *)
Definition gpio_new (controller : Z) : res Z := ok_or (GPIO_BASE controller) ax_invalid_input.

(** driver/bsp/src/gpio.rs:40-51 [GpioPin, GpioPin::new] *)
Record GpioPin := mkPin { controller : Z; pin : Z }.

(** driver/bsp/src/gpio.rs:21-21 [SWPORTA_DR] *)
Definition SWPORTA_DR : Z := 0x00.
(** driver/bsp/src/gpio.rs:23-23 [SWPORTA_DDR] *)
Definition SWPORTA_DDR : Z := 0x04.
(** driver/bsp/src/gpio.rs:25-35 [INTEN, INTMASK, INTTYPE_LEVEL, INT_POLARITY, INTSTATUS, RAW_INTSTATUS] *)
Definition interrupt_regs : list Z := [0x30; 0x34; 0x38; 0x3C; 0x40; 0x44].

(** driver/bsp/src/gpio.rs:106-109 [GpioController::read_reg] *)
Definition read_reg (base offset : Z) : st W Z := preg (base + offset).
(** driver/bsp/src/gpio.rs:112-115 [GpioController::write_reg] *)
Definition write_reg (base offset value : Z) : st W () := pwrite (base + offset) value.

(** driver/bsp/src/gpio.rs:118-129 [GpioController::set_output] *)
Definition set_output (base pin : Z) : st W () :=
  if bool_decide (32 ≤ pin) then st_err ax_invalid_input else
  ddr ← read_reg base SWPORTA_DDR;
  write_reg base SWPORTA_DDR (Z.lor ddr (Z.shiftl 1 pin)).

(** driver/bsp/src/gpio.rs:132-143 [GpioController::set_input] *)
Definition set_input (base pin : Z) : st W () :=
  if bool_decide (32 ≤ pin) then st_err ax_invalid_input else
  ddr ← read_reg base SWPORTA_DDR;
  write_reg base SWPORTA_DDR (Z.ldiff ddr (Z.shiftl 1 pin)).

(** driver/bsp/src/gpio.rs:146-161 [GpioController::set_pin] *)
Definition set_pin (base pin : Z) (high : bool) : st W () :=
  if bool_decide (32 ≤ pin) then st_err ax_invalid_input else
  dr ← read_reg base SWPORTA_DR;
  write_reg base SWPORTA_DR (if high then Z.lor dr (Z.shiftl 1 pin) else Z.ldiff dr (Z.shiftl 1 pin)).

(** driver/bsp/src/gpio.rs:164-173 [GpioController::get_pin] *)
Definition get_pin (base pin : Z) : st W bool :=
  if bool_decide (32 ≤ pin) then st_err ax_invalid_input else
  dr ← read_reg base SWPORTA_DR;
  mret (has dr (Z.shiftl 1 pin)).

(** driver/bsp/src/gpio.rs:65-67 [WIFI_POWER_EN] *)
Definition WIFI_POWER_EN : GpioPin := mkPin 0 26.
(** driver/bsp/src/gpio.rs:69-70 [WIFI_RESET]; the pin of the power, read by nobody *)
Definition WIFI_RESET : GpioPin := mkPin 0 26.
(** driver/bsp/src/gpio.rs:72-73 [WIFI_WAKE] *)
Definition WIFI_WAKE : option GpioPin := None.

Definition spin_ms (ms : Z) : st W () := st_modify (delay_spin_ms ms).

(** driver/bsp/src/gpio.rs:184-189 [WifiGpioControl::new], the base of the controller and the pin *)
Definition wifi_gpio_new : res (Z * Z) :=
  base ← gpio_new WIFI_POWER_EN.(controller); Ok (base, WIFI_POWER_EN.(pin)).

(** driver/bsp/src/gpio.rs:192-197 [WifiGpioControl::init] *)
Definition gpio_init (base pin : Z) : st W () := set_output base pin.

(** driver/bsp/src/gpio.rs:203-211 [WifiGpioControl::power_on] *)
Definition gpio_power_on (base pin : Z) : st W () :=
  _ ← set_pin base pin false;
  _ ← spin_ms 50;
  _ ← set_pin base pin true;
  spin_ms 50.

(** driver/bsp/src/gpio.rs:214-216 [WifiGpioControl::reset] *)
Definition gpio_reset (base pin : Z) : st W () := gpio_power_on base pin.
(** driver/bsp/src/gpio.rs:219-221 [WifiGpioControl::power_on_and_reset] *)
Definition power_on_and_reset (base pin : Z) : st W () := gpio_power_on base pin.
(** driver/bsp/src/gpio.rs:224-227 [WifiGpioControl::readback_state] *)
Definition readback_state (base pin : Z) : st W (bool * bool) :=
  high ← get_pin base pin; mret (high, high).

(** driver/bsp/src/gpio.rs:230-235 [WifiGpioControl::verify_after_power_on] *)
Definition verify_after_power_on (base pin : Z) : st W bool := get_pin base pin.

(** driver/bsp/src/gpio.rs:238-243 [WifiGpioControl::power_off] *)
Definition gpio_power_off (base pin : Z) : st W () :=
  _ ← set_pin base pin false; spin_ms 100.
End gpio.

(** *** What the sequence does to the registers *)
Section on_memory.
Context {W : Type} `{Phys W} `{Clock W} (ax_invalid_input : Z).
(** Registers that hold what is written to them, untouched by time. *)
Context (mem : W → Z → Z).
Hypothesis read_mem : ∀ a w, mem_read a w = (mem w a, w).
Hypothesis write_mem : ∀ a v w, mem (mem_write a v w) = λ a', if bool_decide (a' = a) then v else mem w a'.
Hypothesis spin_mem : ∀ us w, mem (spin_us us w) = mem w.

(** The power-on sequence ends with the pin high
    whatever it was, having written it low before; it changes no other pin and no
    other register, and the read-back sees the pin high. *)
Lemma power_on_raises_pin (base pin : Z) (w : W) (Hp : 0 ≤ pin < 32) (Hd : 0 ≤ mem w (base + SWPORTA_DR)) :
  ∃ w', gpio_power_on ax_invalid_input base pin w = (Ok (), w') ∧
    Z.testbit (mem w' (base + SWPORTA_DR)) pin = true ∧
    (∀ i, 0 ≤ i → i ≠ pin → Z.testbit (mem w' (base + SWPORTA_DR)) i = Z.testbit (mem w (base + SWPORTA_DR)) i) ∧
    (∀ a, a ≠ base + SWPORTA_DR → mem w' a = mem w a) ∧
    (∃ w1, set_pin ax_invalid_input base pin false w = (Ok (), w1) ∧
           Z.testbit (mem w1 (base + SWPORTA_DR)) pin = false) ∧
    verify_after_power_on ax_invalid_input base pin w' = (Ok true, w').
Proof.
  set (dr := base + SWPORTA_DR).
  assert (S : ∀ high w0, set_pin ax_invalid_input base pin high w0 =
    (Ok (), mem_write dr (if high then Z.lor (mem w0 dr) (Z.shiftl 1 pin) else Z.ldiff (mem w0 dr) (Z.shiftl 1 pin)) w0)).
  { intros high w0. unfold set_pin. rewrite bool_decide_false by lia. unfold read_reg, write_reg, mbind, st_bind, preg, pwrite.
    by rewrite read_mem. }
  set (w1 := mem_write dr (Z.ldiff (mem w dr) (Z.shiftl 1 pin)) w). set (w2 := spin_us (1000 * 50) w1).
  assert (M2 : ∀ a, mem w2 a = if bool_decide (a = dr) then Z.ldiff (mem w dr) (Z.shiftl 1 pin) else mem w a).
  { intros a. unfold w2, w1. by rewrite spin_mem, write_mem. }
  set (w3 := mem_write dr (Z.lor (mem w2 dr) (Z.shiftl 1 pin)) w2). set (w4 := spin_us (1000 * 50) w3).
  assert (M4 : ∀ a, mem w4 a = if bool_decide (a = dr) then Z.lor (mem w2 dr) (Z.shiftl 1 pin) else mem w2 a).
  { intros a. unfold w4, w3. by rewrite spin_mem, write_mem. }
  assert (B : ∀ i, 0 ≤ i → Z.testbit (mem w4 dr) i = (Z.testbit (mem w dr) i || bool_decide (i = pin))).
  { intros i Hi. rewrite M4, bool_decide_true, M2, bool_decide_true by done.
    rewrite Z.lor_spec, Z.ldiff_spec, Z.shiftl_1_l, Z.pow2_bits_eqb by lia.
    case_bool_decide; subst; rewrite ?Z.eqb_refl, ?orb_true_r; [done|].
    rewrite (proj2 (Z.eqb_neq pin i)) by done. by rewrite andb_true_r, !orb_false_r. }
  exists w4. split_and!.
  - unfold gpio_power_on, mbind, st_bind, spin_ms, st_modify, delay_spin_ms. rewrite S. fold w1 w2. by rewrite S.
  - by rewrite B, bool_decide_true, orb_true_r by lia.
  - intros i Hi Hne. by rewrite B, bool_decide_false, orb_false_r by done.
  - intros a Ha. rewrite M4, bool_decide_false, M2, bool_decide_false; done.
  - exists w1. split; [apply S|]. unfold w1. rewrite write_mem, bool_decide_true by done.
    rewrite Z.ldiff_spec, Z.shiftl_1_l, Z.pow2_bits_true by lia. apply andb_false_r.
  - unfold verify_after_power_on, get_pin. rewrite bool_decide_false by lia.
    unfold read_reg, mbind, st_bind, preg. rewrite read_mem. unfold has, mret, st_ret. fold dr.
    rewrite bool_decide_false; [done|]. intros E. apply (f_equal (λ z, Z.testbit z pin)) in E.
    rewrite Z.land_spec, B, Z.shiftl_1_l, Z.pow2_bits_true, Z.bits_0, bool_decide_true, orb_true_r in E by lia. done.
Qed.
End on_memory.
End Gpio.
Import Gpio.

(** ** The life cycle *)

(** driver/bsp/src/export.rs:7-10 [AicBspSubsys] *)
Inductive AicBspSubsys := Bluetooth | Wifi.
(** driver/bsp/src/export.rs:15-18 [AicBspPwrState] *)
Inductive AicBspPwrState := PwrOff | PwrOn.
(** driver/bsp/src/export.rs:20-25 [SkBuffId] *)
Inductive SkBuffId := TxData.
(** driver/bsp/src/export.rs:27-35 [AicBspFeature] *)
Record AicBspFeature := mkFeature {
  feature_hwinfo : Z; sdio_clock : Z; sdio_phase : Z; feature_fwlog_en : bool; irqf : Z }.
(** driver/bsp/src/lib.rs:66-67 [FW_PATH_MAX] *)
Definition FW_PATH_MAX : nat := 200.
(** driver/bsp/src/lib.rs:68-69 [DEFAULT_FW_PATH] *)
Definition DEFAULT_FW_PATH : string := "/lib/firmware/aic".

Section cycle.
Context {W C : Type} `{SdioHost W} `{Clock W} `{Sched W} `{Phys W} `{HostControl W}.
Context (embedded : string → option (list Z)) (ax_bad_state ax_invalid_input : Z) (wakeups : nat).

Abbreviation Bsp := (Bsp (W := W) (C := C)).

Definition pset (a v : Z) : st W () := pwrite a v.

(** driver/bsp/src/sdio/backend.rs:33-35 [RSTGEN_PHYS, RSTGEN_SOFT_RSTN_0]; the register that releases resets *)
Definition RSTGEN_SOFT_RSTN_0 : Z := 0x03003000 + 0x000.
(** driver/bsp/src/sdio/backend.rs:36-36 [RSTGEN_SD1_BIT] *)
Definition RSTGEN_SD1_BIT : Z := Z.shiftl 1 17.
(** driver/bsp/src/sdio/backend.rs:38-40 [CLKGEN_PHYS, CLKGEN_CLK_EN_0]; the register that enables clocks *)
Definition CLKGEN_CLK_EN_0 : Z := 0x03002000 + 0x000.
(** driver/bsp/src/sdio/backend.rs:41-42 [CLKGEN_SD1_BITS] *)
Definition CLKGEN_SD1_BITS : Z := Z.lor (Z.lor (Z.shiftl 1 21) (Z.shiftl 1 22)) (Z.shiftl 1 23).
(** driver/bsp/src/sdio/backend.rs:44-45 [PINMUX_BASE] *)
Definition PINMUX_BASE : Z := 0x03001000.
(** driver/bsp/src/sdio/backend.rs:47-53 [sd1_pinmux]: D3, D2, D1, D0, CMD, CLK *)
Definition sd1_pins : list Z := [0x0D0; 0x0D4; 0x0D8; 0x0DC; 0x0E0; 0x0E4].
(** driver/bsp/src/sdio/backend.rs:54-54 [sd1_pinmux::WIFI_PWR] *)
Definition WIFI_PWR : Z := 0x04C.

(** driver/bsp/src/sdio/backend.rs:60-68 [set_wifi_power_pinmux_to_gpio] *)
Definition set_wifi_power_pinmux_to_gpio : st W () := pset (PINMUX_BASE + WIFI_PWR) 3.

Fixpoint pset_all (offsets : list Z) : st W () :=
  match offsets with
  | [] => mret ()
  | o :: l => _ ← pset (PINMUX_BASE + o) 0; pset_all l
  end.

(** driver/bsp/src/sdio/backend.rs:73-86 [set_sd1_sdio_pinmux_after_power] *)
Definition set_sd1_sdio_pinmux_after_power : st W () := pset_all sd1_pins.

(** driver/bsp/src/sdio/backend.rs:90-126 [sd1_host_init] *)
Definition sd1_host_init : st W () :=
  v ← preg RSTGEN_SOFT_RSTN_0;
  _ ← pset RSTGEN_SOFT_RSTN_0 (Z.lor v RSTGEN_SD1_BIT);
  _ ← preg RSTGEN_SOFT_RSTN_0;
  v ← preg CLKGEN_CLK_EN_0;
  _ ← pset CLKGEN_CLK_EN_0 (Z.lor v CLKGEN_SD1_BITS);
  _ ← preg CLKGEN_CLK_EN_0;
  _ ← pset (PINMUX_BASE + WIFI_PWR) 3;
  pset_all sd1_pins.

(** driver/bsp/src/sdio/backend.rs:569-575 [new_sd1_with_card_init] *)
Definition new_sd1_with_card_init : st W Z :=
  _ ← sd1_host_init; _ ← ctl_interface_clock; ctl_card_init.

(** driver/bsp/src/sdio/backend.rs:559-564 [new_sd1], which has no caller: the same without the card *)
Definition new_sd1 : st W () := _ ← sd1_host_init; ctl_interface_clock.

(** driver/bsp/src/sdio/flow.rs:506-506 [POST_POWER_STABLE_MS] *)
Definition POST_POWER_STABLE_MS : Z := 1000.

(** driver/bsp/src/sdio/flow.rs:509-522 [aicbsp_power_on_with_stable_ms] *)
Definition aicbsp_power_on_with_stable_ms (stable_ms : Z) : st Bsp () :=
  _ ← on_w set_wifi_power_pinmux_to_gpio;
  '(base, pin) ← st_lift (wifi_gpio_new ax_invalid_input);
  _ ← on_w (gpio_init ax_invalid_input base pin);
  _ ← on_w (power_on_and_reset ax_invalid_input base pin);
  _ ← st_try (on_w (verify_after_power_on ax_invalid_input base pin));
  _ ← on_w (spin_ms 50);
  _ ← on_w set_sd1_sdio_pinmux_after_power;
  sleep stable_ms.

(** driver/bsp/src/sdio/flow.rs:537-539 [aicbsp_power_on] *)
Definition aicbsp_power_on : st Bsp () := aicbsp_power_on_with_stable_ms POST_POWER_STABLE_MS.

(** driver/bsp/src/sdio/flow.rs:644-649 [aicbsp_sdio_init], also driver/bsp/src/sdio/flow.rs:788-788 [aicbsp_sdio_init]:
    an error (a driver already there) is ignored *)
Definition register_driver : st Bsp () :=
  st_modify (λ b, set_driver (register_aicbsp_sdio_driver b.(driver)).2 b).

(** driver/bsp/src/sdio/flow.rs:677-684 [aicbsp_sdio_init], also driver/bsp/src/sdio/flow.rs:751-758 [aicbsp_sdio_init] *)
Definition io_enable (bit : Z) : st W () :=
  v ← host_read_byte 0x02;
  host_write_byte 0x02 (Z.lor v bit).

(** driver/bsp/src/sdio/flow.rs:685-702 [aicbsp_sdio_init], also driver/bsp/src/sdio/flow.rs:759-774 [aicbsp_sdio_init]:
    up to [polls] looks two milliseconds apart; no answer is not an error *)
Fixpoint wait_io_ready (polls : nat) (bit : Z) : st W () :=
  r ← st_try (host_read_byte 0x03);
  match polls with
  | O => mret ()
  | S polls =>
      let io_ready := unwrap_or 0 r in
      if has io_ready bit || has io_ready 0x10 then mret ()
      else _ ← spin_ms 2; wait_io_ready polls bit
  end.

(** driver/bsp/src/sdio/flow.rs:719-738 [aicbsp_sdio_init]: function 1 of the 8801, still on one data line *)
Definition configure_8801 : st W () :=
  _ ← host_set_block_size 1 512;
  _ ← st_modify (spin_us 100);
  _ ← host_write_byte (0x100 + Reg.REGISTER_BLOCK) 1;
  host_write_byte (0x100 + Reg.BYTEMODE_ENABLE) 1.

(** driver/bsp/src/sdio/flow.rs:741-744 [aicbsp_sdio_init], also driver/bsp/src/sdio/flow.rs:750-778 [aicbsp_sdio_init]: four data lines and function 2 *)
Definition configure_other : st W () :=
  _ ← ctl_4bit_bus;
  _ ← spin_ms 10;
  _ ← io_enable 0x04;
  _ ← wait_io_ready 50 0x04;
  host_set_block_size 2 512.

(** driver/bsp/src/sdio/flow.rs:650-738 [aicbsp_sdio_init], also driver/bsp/src/sdio/cis.rs:253-257 [probe_from_sdio_cis]: up to the identified and
    configured card *)
Definition find_card : st Bsp ProductId :=
  _ ← st_map_err ax_bad_state (on_w new_sd1_with_card_init);
  _ ← on_w ctl_present;
  _ ← st_try (on_w ctl_high_speed);
  _ ← on_w (ctl_set_clock 25000000);
  _ ← on_w (spin_ms 2);
  _ ← st_map_err ax_bad_state (on_w (io_enable 0x02));
  _ ← on_w (wait_io_ready 50 0x02);
  found ← st_map_err ax_bad_state (on_w (identify_chip_from_cis cis_read_ops 1));
  _ ← st_modify (aicbsp_sdio_probe found);
  b ← st_get;
  pid ← st_lift (ok_or (aicbsp_current_product_id b) ax_bad_state);
  _ ← st_map_err ax_bad_state (on_w (if bool_decide (pid = Aic8801) then configure_8801 else configure_other));
  mret pid.

(** driver/bsp/src/sdio/flow.rs:783-794 [aicbsp_sdio_init]: the device is stored and its driver probed *)
Definition store_device (pid : ProductId) : st Bsp () :=
  _ ← st_modify (set_sdio_device (Some (sdio_new pid)));
  _ ← register_driver;
  b ← st_get;
  _ ← st_try (on_w (sdio_try_probe device_id (mkFunc (sdio_new pid) 1) b.(driver)));
  mret ().

(** driver/bsp/src/sdio/flow.rs:642-815 [aicbsp_sdio_init] *)
Definition aicbsp_sdio_init : st Bsp () :=
  _ ← register_driver;
  pid ← find_card;
  _ ← store_device pid;
  _ ← st_modify (set_cmd_mgr (Some Mgr.new));
  _ ← ensure_bustx_thread_started;
  if bool_decide (pid = Aic8801)
  then _ ← with_sdio (λ _, sdio_write_byte (0x100 + Reg.INTR_CONFIG) 0x07); mret ()
  else mret ().

(** driver/bsp/src/sdio/flow.rs:1377-1388 [aicbsp_sdio_exit]: the functions are disabled, errors ignored *)
Definition disable_functions : st W () :=
  _ ← st_try (v ← host_read_byte 0x02; host_write_byte 0x02 (Z.ldiff (Z.ldiff v 0x02) 0x04));
  mret ().

Definition stop (t : Thread) : Thread := mkThread t.(started) false t.(exited).

(** driver/bsp/src/sdio/flow.rs:1360-1394 [aicbsp_sdio_exit] *)
Definition aicbsp_sdio_exit : st Bsp () :=
  _ ← st_modify (λ b, set_bustx (stop b.(bustx)) b);
  _ ← st_modify (λ b, set_busrx (stop b.(busrx)) b);
  b ← st_get;
  _ ← match b.(sdio_device) with
      | Some d => _ ← st_try (on_w (sdio_driver_remove (mkFunc d 1) b.(driver))); mret ()
      | None => mret ()
      end;
  _ ← st_modify (λ b, set_driver (unregister_aicbsp_sdio_driver b.(driver)) b);
  _ ← match b.(sdio_device) with Some _ => on_w disable_functions | None => mret () end;
  _ ← st_modify (set_current_product_id PRODUCT_ID_NONE);
  _ ← st_modify (set_sdio_device None);
  st_modify (set_cmd_mgr None).

(** driver/bsp/src/lib.rs:149-168 [aicbsp_set_subsys] *)
Definition aicbsp_set_subsys (subsys : AicBspSubsys) (state : AicBspPwrState) : st Bsp () :=
  match subsys, state with
  | Bluetooth, _ => mret ()
  | Wifi, PwrOn =>
      _ ← aicbsp_power_on;
      _ ← aicbsp_sdio_init;
      aicbsp_driver_fw_init embedded ax_bad_state wakeups
  | Wifi, PwrOff => aicbsp_sdio_exit
  end.

(** driver/bsp/src/lib.rs:99-108 [aicbsp_init] *)
Definition aicbsp_init (info : AicBspInfo) (testmode : Z) : st Bsp AicBspInfo :=
  let info := mkInfo testmode info.(hwinfo_r) info.(hwinfo) info.(chip_rev) info.(fwlog_en) in
  _ ← st_modify (set_bsp_info info);
  _ ← st_modify probe_reset;
  mret info.

(** driver/bsp/src/sdio/cis.rs:253-257 [probe_from_sdio_cis] *)
Definition probe_from_sdio_cis (ops : SdioOps W) (func_num : Z) : st Bsp () :=
  pid ← on_w (identify_chip_from_cis ops func_num);
  st_modify (aicbsp_sdio_probe pid).

(** driver/bsp/src/lib.rs:75-80 [aicbsp_resv_mem_init] *)
Definition aicbsp_resv_mem_init : st Bsp () := mret ().
(** driver/bsp/src/lib.rs:82-86 [aicbsp_resv_mem_deinit] *)
Definition aicbsp_resv_mem_deinit : st Bsp () := mret ().
(** driver/bsp/src/lib.rs:135-137 [aicbsp_platform_init] *)
Definition aicbsp_platform_init : st Bsp () := mret ().
(** driver/bsp/src/lib.rs:139-142 [aicbsp_platform_deinit] *)
Definition aicbsp_platform_deinit : st Bsp () := mret ().
(** driver/bsp/src/sdio/flow.rs:1345-1349 [aicbsp_sdio_release] *)
Definition aicbsp_sdio_release : st Bsp () := mret ().

(** driver/bsp/src/lib.rs:114-120 [aicbsp_init_gpio_test] *)
Definition aicbsp_init_gpio_test : st Bsp () :=
  _ ← st_modify probe_reset;
  aicbsp_power_on.

(** driver/bsp/src/lib.rs:125-132 [aicbsp_exit] *)
Definition aicbsp_exit : st Bsp AicBspInfo := _ ← aicbsp_sdio_exit; mret default_info.

(** driver/bsp/src/sdio/flow.rs:584-598 [aicbsp_minimal_ipc_verify], [tick]: the status registers,
    and a reception when a packet is announced *)
Definition verify_tick (_ : Z) : Bsp → Bsp := effect (
  r ← with_sdio (λ _,
        bc ← st_try (sdio_read_byte 0x112);
        _ ← st_try (sdio_read_byte 0x102);
        _ ← st_try (sdio_read_byte 0x10A);
        mret (unwrap_or 0xff bc));
  match r with
  | Some (Ok bc) => if bool_decide (0 < bc) then _ ← sleep 1; run_poll_rx_one else mret ()
  | _ => mret ()
  end).

(** driver/bsp/src/sdio/flow.rs:545-619 [aicbsp_minimal_ipc_verify] *)
Definition aicbsp_minimal_ipc_verify (stable_ms : Z) : st Bsp () :=
  _ ← st_modify probe_reset;
  _ ← aicbsp_power_on_with_stable_ms stable_ms;
  _ ← aicbsp_sdio_init;
  _ ← sleep 500;
  b ← st_get;
  product_id ← st_lift (ok_or (aicbsp_current_product_id b) ax_bad_state);
  if negb (bool_decide (product_id = Aic8801)) then st_err ax_bad_state else
  _ ← ensure_bustx_thread_started;
  token ← st_map_err ax_bad_state (push_slot Dbg.DBG_MEM_READ_CFM);
  '(buf, len) ← st_lift (Lmac.serialize_8801 (Dbg.build_dbg_mem_read_req CHIP_REV_MEM_ADDR) (zeros 512));
  data ← st_lift (slice_to 0 len buf);
  _ ← st_map_err ax_bad_state (submit_cmd_tx_and_wait_tx_done wakeups data len);
  _ ← ensure_busrx_thread_started;
  _ ← sleep 100;
  ok ← st_try (wait_slot 1500 token (Some verify_tick) (Some (effect run_poll_rx_one)) None);
  match ok with
  | Ok _ =>
      taken ← with_cmd_mgr (Mgr.take_cfm token (zeros 16));
      let '(len, cfm_buf) := default (0%nat, zeros 16) (mjoin taken) in
      cfm ← st_lift (slice_to 0 len cfm_buf);
      match Dbg.parse_dbg_mem_read_cfm_with_addr cfm CHIP_REV_MEM_ADDR with
      | Some _ => mret ()
      | None => st_err ax_bad_state
      end
  | _ => st_err ax_bad_state
  end.

(** ** Switching off and on again

    [dead]: the loop of the sending thread has ended.  Nothing undoes that. *)

Definition dead (b : Bsp) : Prop := b.(bustx).(exited) = true.
Definition keeps {A} (f : st Bsp A) : Prop := ∀ b, dead b → dead (f b).2.
Definition barred {A} (f : st Bsp A) : Prop := ∀ b a, dead b → (f b).1 ≠ Ok a.

Lemma dead_same b b' : b'.(bustx) = b.(bustx) → dead b → dead b'.
Proof. unfold dead. by intros ->. Qed.

Lemma keeps_bind {A B} (f : st Bsp A) (g : A → st Bsp B) :
  keeps f → (∀ a, keeps (g a)) → keeps (f ≫= g).
Proof.
  intros Hf Hg b Hb. unfold mbind, st_bind. specialize (Hf b Hb).
  destruct (f b) as [[a|e|] b']; [by apply Hg|done..].
Qed.

Lemma barred_then {A B} (f : st Bsp A) (g : A → st Bsp B) :
  keeps f → (∀ a, barred (g a)) → barred (f ≫= g).
Proof.
  intros Hf Hg b a Hb. unfold mbind, st_bind. specialize (Hf b Hb).
  destruct (f b) as [[x|e|] b']; [by apply Hg|done..].
Qed.

Lemma barred_first {A B} (f : st Bsp A) (g : A → st Bsp B) : barred f → barred (f ≫= g).
Proof.
  intros Hf b a Hb. unfold mbind, st_bind. specialize (Hf b).
  destruct (f b) as [[x|e|] b']; [|done..]. by destruct (Hf x).
Qed.

Lemma barred_map_err {A} e (f : st Bsp A) : barred f → barred (st_map_err e f).
Proof. intros Hf b a Hb. unfold st_map_err. specialize (Hf b a Hb). by destruct (f b) as [[?|?|] ?]. Qed.

Lemma keeps_pure {A} (f : st Bsp A) : (∀ b, (f b).2.(bustx) = b.(bustx)) → keeps f.
Proof. intros Hf b. by apply dead_same. Qed.

Lemma keeps_ret {A} (a : A) : keeps (mret a).
Proof. by apply keeps_pure. Qed.
Lemma keeps_lift {A} (r : res A) : keeps (st_lift r).
Proof. by apply keeps_pure. Qed.
Lemma keeps_err {A} e : keeps (st_err (A := A) e).
Proof. by apply keeps_pure. Qed.
Lemma keeps_get : keeps st_get.
Proof. by apply keeps_pure. Qed.
Lemma keeps_modify f : (∀ b, (f b).(bustx) = b.(bustx)) → keeps (st_modify f).
Proof. intros Hf. by apply keeps_pure. Qed.
Lemma keeps_on_w {A} (f : st W A) : keeps (on_w f).
Proof. apply keeps_pure. intros b. unfold on_w. by destruct (f _). Qed.
Lemma keeps_if {A} (c : bool) (f g : st Bsp A) : keeps f → keeps g → keeps (if c then f else g).
Proof. by destruct c. Qed.
Lemma keeps_map_err {A} e (f : st Bsp A) : keeps f → keeps (st_map_err e f).
Proof. intros Hf b Hb. unfold st_map_err. specialize (Hf b Hb). by destruct (f b). Qed.
Lemma keeps_try {A} (f : st Bsp A) : keeps f → keeps (st_try f).
Proof. intros Hf b Hb. unfold st_try. specialize (Hf b Hb). by destruct (f b) as [[?|?|] ?]. Qed.

Lemma run_turn_dead t b : dead b → dead (run_turn t b).
Proof.
  intros Hb. unfold run_turn. destruct t.
  - assert (Hr : dead (busrx_turn b).2).
    { unfold busrx_turn. destruct (alive _); [|done]. pose proof (run_poll_tx b) as [E _].
      destruct (run_poll_rx_one b) as [r b']. by apply (dead_same b). }
    by destruct (busrx_turn b) as [[?|?|] b'].
  - unfold bustx_turn, alive. unfold dead in Hb. by rewrite Hb, andb_false_r.
Qed.

Lemma turns_dead b : dead b → dead (turns b).
Proof.
  intros Hb. unfold turns. destruct (next_turns _) as [ts w].
  assert (Hw : dead (set_world w b)) by by apply (dead_same b).
  revert Hw. generalize (set_world w b). induction ts as [|t ts IH]; intros b' Hb'; simpl; [done|].
  apply IH. by apply run_turn_dead.
Qed.

Lemma keeps_sync : keeps sync.
Proof. intros b Hb. apply turns_dead in Hb. unfold sync. by destruct (panicked _). Qed.

Lemma keeps_sleep ms : keeps (sleep ms).
Proof. apply keeps_bind; [by apply keeps_modify|intros; apply keeps_sync]. Qed.

Lemma keeps_with_sdio {A} (f : Aic8800Sdio → st W A) : keeps (with_sdio f).
Proof.
  apply keeps_bind; [apply keeps_sync|intros]. apply keeps_pure. intros b. unfold locked_sdio.
  destruct (sdio_device b); [|done]. by destruct (f _ _) as [[?|?|] ?].
Qed.

Lemma keeps_with_cmd_mgr {A} (f : Mgr.t → A * Mgr.t) : keeps (with_cmd_mgr f).
Proof.
  apply keeps_bind; [apply keeps_sync|intros]. apply keeps_pure. intros b. unfold locked_mgr.
  destruct (cmd_mgr b) as [m|]; [|done]. by destruct (f m).
Qed.

Lemma keeps_ensure_tx : keeps ensure_bustx_thread_started.
Proof.
  intros b Hb. unfold ensure_bustx_thread_started. destruct (started _); [done|].
  by apply keeps_sleep.
Qed.

Lemma keeps_ensure_rx : keeps ensure_busrx_thread_started.
Proof.
  intros b Hb. unfold ensure_busrx_thread_started. destruct (started _); [done|].
  apply keeps_sleep. by apply (dead_same b).
Qed.

Lemma tx_done_barred n elapsed (b : Bsp) : tx_gone b → (tx_done_loop n elapsed b).1 ≠ Ok ().
Proof.
  revert elapsed b. induction n as [|n IH]; intros elapsed b Hg; cbn [tx_done_loop]; [done|].
  destruct (sleep_gone 50 b Hg) as [[G1 G2] _]. destruct (sleep 50 b) as [[?|e|] b1]; try done.
  destruct (timed_out (world b1)) as [t w]. simpl in *. rewrite G2.
  destruct t; [|by apply IH]. case_bool_decide; [done|by apply IH].
Qed.

Lemma submit_barred buf len : barred (submit_cmd_tx_and_wait_tx_done wakeups buf len).
Proof.
  intros b [] Hb. unfold submit_cmd_tx_and_wait_tx_done. case_bool_decide; [done|].
  unfold mbind, st_bind, st_modify, st_lift.
  destruct (if bool_decide _ then _ else _) as [arr|?|]; try done. by apply tx_done_barred.
Qed.

Lemma read_busrx_barred addr timeout after :
  barred (send_dbg_mem_read_busrx wakeups addr timeout after).
Proof.
  unfold send_dbg_mem_read_busrx, push_slot.
  apply barred_then; [apply keeps_bind; [apply keeps_with_cmd_mgr|intros; apply keeps_lift]|intros].
  apply barred_then; [apply keeps_get|intros]. apply barred_then; [apply keeps_lift|intros].
  apply barred_then; [apply keeps_lift|intros [buf len]]. apply barred_then; [apply keeps_lift|intros].
  apply barred_first, submit_barred.
Qed.

Lemma fw_init_barred : barred (aicbsp_driver_fw_init embedded ax_bad_state wakeups).
Proof.
  unfold aicbsp_driver_fw_init.
  apply barred_then; [apply keeps_get|intros b]. apply barred_then; [apply keeps_lift|intros pid].
  apply barred_then; [apply keeps_with_sdio|intros]. apply barred_then; [apply keeps_lift|intros].
  apply barred_then; [apply keeps_ensure_tx|intros]. apply barred_then; [apply keeps_ensure_rx|intros].
  apply barred_then.
  { apply keeps_if; [|apply keeps_ret]. apply keeps_bind; [apply keeps_with_sdio|].
    intros [[?|?|]|]; first [apply keeps_ret|apply keeps_err]. }
  intros. apply barred_then; [apply keeps_sleep|intros].
  unfold load_firmware, read_chip_rev. apply barred_first, barred_first, barred_first.
  apply barred_map_err, read_busrx_barred.
Qed.

Lemma keeps_power_on ms : keeps (aicbsp_power_on_with_stable_ms ms).
Proof.
  unfold aicbsp_power_on_with_stable_ms.
  apply keeps_bind; [apply keeps_on_w|intros]. apply keeps_bind; [apply keeps_lift|intros [base pin]].
  do 2 (apply keeps_bind; [apply keeps_on_w|intros]).
  apply keeps_bind; [apply keeps_try, keeps_on_w|intros].
  do 2 (apply keeps_bind; [apply keeps_on_w|intros]). apply keeps_sleep.
Qed.

Lemma keeps_find_card : keeps find_card.
Proof.
  unfold find_card. apply keeps_bind; [apply keeps_map_err, keeps_on_w|intros].
  apply keeps_bind; [apply keeps_on_w|intros]. apply keeps_bind; [apply keeps_try, keeps_on_w|intros].
  do 2 (apply keeps_bind; [apply keeps_on_w|intros]).
  apply keeps_bind; [apply keeps_map_err, keeps_on_w|intros].
  apply keeps_bind; [apply keeps_on_w|intros].
  apply keeps_bind; [apply keeps_map_err, keeps_on_w|intros].
  apply keeps_bind; [by apply keeps_modify|intros]. apply keeps_bind; [apply keeps_get|intros].
  apply keeps_bind; [apply keeps_lift|intros].
  apply keeps_bind; [apply keeps_map_err, keeps_on_w|intros]. apply keeps_ret.
Qed.

Lemma keeps_sdio_init : keeps aicbsp_sdio_init.
Proof.
  unfold aicbsp_sdio_init, store_device.
  apply keeps_bind; [by apply keeps_modify|intros]. apply keeps_bind; [apply keeps_find_card|intros].
  apply keeps_bind; [|intros].
  { apply keeps_bind; [by apply keeps_modify|intros]. apply keeps_bind; [by apply keeps_modify|intros].
    apply keeps_bind; [apply keeps_get|intros].
    apply keeps_bind; [apply keeps_try, keeps_on_w|intros]. apply keeps_ret. }
  apply keeps_bind; [by apply keeps_modify|intros]. apply keeps_bind; [apply keeps_ensure_tx|intros].
  apply keeps_if; [|apply keeps_ret]. apply keeps_bind; [apply keeps_with_sdio|intros]. apply keeps_ret.
Qed.

Lemma set_on_barred : barred (aicbsp_set_subsys Wifi PwrOn).
Proof.
  apply barred_then; [apply keeps_power_on|intros]. apply barred_then; [apply keeps_sdio_init|intros].
  apply fw_init_barred.
Qed.

(** What the end of the device leaves of the sending thread. *)
Definition tx_side (b : Bsp) : Thread * option (list Z * nat) * option (list Z) :=
  (b.(bustx), b.(pending_cmd_tx), b.(sending)).

Definition tx_quiet {A} (f : st Bsp A) : Prop := ∀ b, tx_side (f b).2 = tx_side b.

Lemma tx_quiet_bind {A B} (f : st Bsp A) (g : A → st Bsp B) :
  tx_quiet f → (∀ a, tx_quiet (g a)) → tx_quiet (f ≫= g).
Proof.
  intros Hf Hg b. unfold mbind, st_bind. specialize (Hf b).
  destruct (f b) as [[a|e|] b']; [by rewrite Hg|done..].
Qed.

Lemma tx_quiet_ret {A} (a : A) : tx_quiet (mret a).
Proof. done. Qed.
Lemma tx_quiet_on_w {A} (f : st W A) : tx_quiet (on_w f).
Proof. intros b. unfold on_w. by destruct (f _). Qed.
Lemma tx_quiet_try {A} (f : st Bsp A) : tx_quiet f → tx_quiet (st_try f).
Proof. intros Hf b. unfold st_try. specialize (Hf b). by destruct (f b) as [[?|?|] ?]. Qed.

Lemma exit_tx_side b :
  tx_side (aicbsp_sdio_exit b).2 = (stop b.(bustx), b.(pending_cmd_tx), b.(sending)).
Proof.
  unfold aicbsp_sdio_exit. unfold mbind at 1, st_bind at 1, st_modify at 1.
  change (stop b.(bustx), b.(pending_cmd_tx), b.(sending)) with (tx_side (set_bustx (stop b.(bustx)) b)).
  generalize (set_bustx (stop b.(bustx)) b). clear b. fold (tx_quiet (A := ())).
  apply tx_quiet_bind; [done|intros]. apply tx_quiet_bind; [done|intros b].
  apply tx_quiet_bind; [|intros].
  { destruct (sdio_device b); [|done]. apply tx_quiet_bind; [|done]. apply tx_quiet_try, tx_quiet_on_w. }
  apply tx_quiet_bind; [done|intros]. apply tx_quiet_bind; [|intros].
  { destruct (sdio_device b); [apply tx_quiet_on_w|done]. }
  do 2 (apply tx_quiet_bind; [done|intros]). done.
Qed.

(** C11 (counterexample): Wi-Fi switched off cannot be switched
    on again: once the sending thread, idle when [aicbsp_set_subsys] switches off,
    has passed its loop once more, it has ended, and no later switching on ever
    succeeds, for any product, card, firmware and schedule. *)
Theorem power_cycle_never_works (b : Bsp)
    (Ha : alive b.(bustx) = true) (Hp : b.(pending_cmd_tx) = None) (Hs : b.(sending) = None) :
  let off := (aicbsp_set_subsys Wifi PwrOff b).2 in
  (aicbsp_set_subsys Wifi PwrOn (run_turn BusTx off)).1 ≠ Ok ().
Proof.
  intros off. apply set_on_barred. subst off. simpl. pose proof (exit_tx_side b) as E.
  destruct (aicbsp_sdio_exit b) as [r b']. unfold tx_side in E. simpl in *. injection E as E1 E2 E3.
  unfold run_turn, bustx_turn. rewrite E1, E2, E3, Hp, Hs.
  change (alive (stop (bustx b))) with (alive (bustx b)). rewrite Ha.
  unfold dead. simpl. apply orb_true_r.
Qed.
End cycle.

(** ** A board to bring up

    [SimChip] behind a card with registers of function 0 (always ready, the CIS at
    0x1000), the controller's calls succeeding, registers outside it as memory. *)
Module SimBoard.
Record t := mk { chip : SimChip.t; f0 : Z → Z; phys : Z → Z }.

#[local] Existing Instances SimChip.host.

Definition on_chip {A} (f : st SimChip.t A) : st t A := λ s,
  let '(r, c) := f s.(chip) in (r, mk c s.(f0) s.(phys)).

#[export] Instance clock : Clock t := {| spin_us := λ _ s, s; sleep_us := λ _ s, s |}.
#[export] Instance sched : Sched t := {|
  next_turns := λ s, ([BusTx; BusRx], s); timed_out := λ s, (true, s) |}.
#[export] Instance host : SdioHost t := {|
  cmd52_read_func := λ f r s,
    if bool_decide (f = 0) then (Ok (s.(f0) r), s) else on_chip (cmd52_read_func f r) s;
  cmd52_write_func := λ f r v, on_chip (cmd52_write_func f r v);
  sdio_io_rw_ext_helper_read := λ a n, on_chip (sdio_io_rw_ext_helper_read a n);
  sdio_io_rw_ext_helper_write := λ a l, on_chip (sdio_io_rw_ext_helper_write a l) |}.
#[export] Instance registers : Phys t := {|
  mem_read := λ a s, (s.(phys) a, s);
  mem_write := λ a v s, mk s.(chip) s.(f0) (λ a', if bool_decide (a' = a) then v else s.(phys) a') |}.
#[export] Instance control : HostControl t := {|
  ctl_interface_clock := mret (); ctl_card_init := mret 0; ctl_high_speed := mret (); ctl_set_clock := λ _, mret ();
  ctl_4bit_bus := mret (); ctl_present := mret 0 |}.

Definition cis (vid did : Z) : list Z := [0x20; 4] ++ to_le 2 vid ++ to_le 2 did ++ [0xff].

(** A board with the chip [pid], whose firmware the user has supplied, at boot. *)
Definition booted (pid : ProductId) (fw : list Z) : Bsp :=
  let '(vid, did) := product_id_to_vid_did pid in
  let w := mk (SimChip.mk (bool_decide (pid = Aic8801))
                 (λ a, if bool_decide (a = CHIP_REV_MEM_ADDR + 2) then 7 else 0) [])
              (λ a, if bool_decide (a = 0x03) then 0xff
                    else if bool_decide (a = 0x0a) then 0x10
                    else if bool_decide (0x1000 ≤ a < 0x1007) then nth (Z.to_nat (a - 0x1000)) (cis vid did) 0
                    else 0)
              (λ _, 0) in
  set_firmware (Store.set_wifi_firmware (nth 0 (wl_images pid) "") fw Store.empty)
    (bsp_of w no_client None None PRODUCT_ID_NONE idle_thread idle_thread).

Definition set_subsys := aicbsp_set_subsys (C := ()) no_embedded (-1) (-22) 100.
End SimBoard.
#[local] Existing Instances SimBoard.clock SimBoard.sched SimBoard.host SimBoard.registers SimBoard.control.



(** On that board: on, off, the thread's pass, and on again: refused by a timeout. *)
Lemma power_cycle_never_works_witness :
  let on := (SimBoard.set_subsys Wifi PwrOn (SimBoard.booted Aic8800Dc [10; 20; 30])).2 in
  let off := run_turn BusTx (SimBoard.set_subsys Wifi PwrOff on).2 in
  (SimBoard.set_subsys Wifi PwrOn off).1 ≠ Ok () ∧ (SimBoard.set_subsys Wifi PwrOn off).1 = Err (-1).
Proof.
  intros on off. split; [|vm_compute; reflexivity].
  apply (power_cycle_never_works no_embedded (-1) (-22) 100 on); vm_compute; reflexivity.
Defined.

Lemma power_on_raises_pin_witness :
  let w := world (SimBoard.booted Aic8801 []) in
  ∃ w', gpio_power_on (-22) 0x03020000 26 w = (Ok (), w') ∧
        Z.testbit (SimBoard.phys w' 0x03020000) 26 = true.
Proof.
  intros w.
  destruct (power_on_raises_pin (H := SimBoard.registers) (H0 := SimBoard.clock) (-22) SimBoard.phys
              (λ _ _, eq_refl) (λ _ _ _, eq_refl) (λ _ _, eq_refl) 0x03020000 26 w)
    as (w' & E & T & _); [lia|vm_compute; discriminate|].
  exists w'. by split.
Defined.
