(* ===== verification/Ieee80211.v ===== *)
(** * IEEE 802.11 types: [kernel/ieee80211/src/ieee80211.rs], [cfg80211.rs]

    Frame control, cipher suites, and the records the control plane exchanges
    with its callers. *)

From S2P Require Import Prelude.

(** ** Frame control *)
Module Fc.

(** kernel/ieee80211/src/ieee80211.rs:81-81 [fc::TYPE_MGMT] *)
Definition TYPE_MGMT : Z := 0x0000.
(** kernel/ieee80211/src/ieee80211.rs:82-82 [fc::TYPE_CTL] *)
Definition TYPE_CTL : Z := 0x0004.
(** kernel/ieee80211/src/ieee80211.rs:83-83 [fc::TYPE_DATA] *)
Definition TYPE_DATA : Z := 0x0008.
(** kernel/ieee80211/src/ieee80211.rs:84-84 [fc::SUBTYPE_BEACON] *)
Definition SUBTYPE_BEACON : Z := 0x0080.
(** kernel/ieee80211/src/ieee80211.rs:85-85 [fc::SUBTYPE_ASSOC_REQ] *)
Definition SUBTYPE_ASSOC_REQ : Z := 0x0000.
(** kernel/ieee80211/src/ieee80211.rs:86-86 [fc::SUBTYPE_ASSOC_RESP] *)
Definition SUBTYPE_ASSOC_RESP : Z := 0x0010.
(** kernel/ieee80211/src/ieee80211.rs:87-87 [fc::SUBTYPE_REASSOC_REQ] *)
Definition SUBTYPE_REASSOC_REQ : Z := 0x0020.
(** kernel/ieee80211/src/ieee80211.rs:88-88 [fc::SUBTYPE_AUTH] *)
Definition SUBTYPE_AUTH : Z := 0x00B0.
(** kernel/ieee80211/src/ieee80211.rs:89-89 [fc::SUBTYPE_DEAUTH] *)
Definition SUBTYPE_DEAUTH : Z := 0x00C0.
(** kernel/ieee80211/src/ieee80211.rs:90-90 [fc::SUBTYPE_DISASSOC] *)
Definition SUBTYPE_DISASSOC : Z := 0x00A0.
(** kernel/ieee80211/src/ieee80211.rs:91-91 [fc::SUBTYPE_PROBE_REQ] *)
Definition SUBTYPE_PROBE_REQ : Z := 0x0040.
(** kernel/ieee80211/src/ieee80211.rs:92-92 [fc::SUBTYPE_PROBE_RESP] *)
Definition SUBTYPE_PROBE_RESP : Z := 0x0050.
(** kernel/ieee80211/src/ieee80211.rs:93-93 [fc::SUBTYPE_ACTION] *)
Definition SUBTYPE_ACTION : Z := 0x00D0.

(** kernel/ieee80211/src/ieee80211.rs:97-104 [frame_control] *)
Definition frame_control (buf : list Z) : Z :=
  match buf with a :: b :: _ => of_le [a; b] | _ => 0 end.

(** kernel/ieee80211/src/ieee80211.rs:107-110 [is_mgmt] *)
Definition is_mgmt (fc : Z) : bool := bool_decide (Z.land fc 0x000C = TYPE_MGMT).

Definition is_subtype (sub fc : Z) : bool := is_mgmt fc && bool_decide (Z.land fc 0x00F0 = sub).

(** kernel/ieee80211/src/ieee80211.rs:113-116 [is_beacon] *)
Definition is_beacon : Z → bool := is_subtype SUBTYPE_BEACON.
(** kernel/ieee80211/src/ieee80211.rs:119-122 [is_assoc_req] *)
Definition is_assoc_req : Z → bool := is_subtype SUBTYPE_ASSOC_REQ.
(** kernel/ieee80211/src/ieee80211.rs:125-128 [is_reassoc_req] *)
Definition is_reassoc_req : Z → bool := is_subtype SUBTYPE_REASSOC_REQ.
(** kernel/ieee80211/src/ieee80211.rs:131-134 [is_auth] *)
Definition is_auth : Z → bool := is_subtype SUBTYPE_AUTH.
(** kernel/ieee80211/src/ieee80211.rs:137-140 [is_deauth] *)
Definition is_deauth : Z → bool := is_subtype SUBTYPE_DEAUTH.
(** kernel/ieee80211/src/ieee80211.rs:142-145 [is_disassoc] *)
Definition is_disassoc : Z → bool := is_subtype SUBTYPE_DISASSOC.
(** kernel/ieee80211/src/ieee80211.rs:148-151 [is_probe_req] *)
Definition is_probe_req : Z → bool := is_subtype SUBTYPE_PROBE_REQ.
(** kernel/ieee80211/src/ieee80211.rs:154-157 [is_action] *)
Definition is_action : Z → bool := is_subtype SUBTYPE_ACTION.
End Fc.

(** ** Cipher suites *)
Module wlan_cipher_suite.
(** kernel/ieee80211/src/ieee80211.rs:162-162 [wlan_cipher_suite::WEP40] *)
Definition WEP40 : Z := 0x000FAC01.
(** kernel/ieee80211/src/ieee80211.rs:163-163 [wlan_cipher_suite::WEP104] *)
Definition WEP104 : Z := 0x000FAC05.
(** kernel/ieee80211/src/ieee80211.rs:164-164 [wlan_cipher_suite::TKIP] *)
Definition TKIP : Z := 0x000FAC02.
(** kernel/ieee80211/src/ieee80211.rs:165-165 [wlan_cipher_suite::CCMP] *)
Definition CCMP : Z := 0x000FAC04.
(** kernel/ieee80211/src/ieee80211.rs:166-166 [wlan_cipher_suite::AES_CMAC] *)
Definition AES_CMAC : Z := 0x000FAC06.
(** kernel/ieee80211/src/ieee80211.rs:167-167 [wlan_cipher_suite::GCMP] *)
Definition GCMP : Z := 0x000FAC08.
(** kernel/ieee80211/src/ieee80211.rs:168-168 [wlan_cipher_suite::GCMP_256] *)
Definition GCMP_256 : Z := 0x000FAC09.
(** kernel/ieee80211/src/ieee80211.rs:169-169 [wlan_cipher_suite::CCMP_256] *)
Definition CCMP_256 : Z := 0x000FAC10.
(** kernel/ieee80211/src/ieee80211.rs:170-170 [wlan_cipher_suite::BIP_GMAC_128] *)
Definition BIP_GMAC_128 : Z := 0x000FAC0B.
(** kernel/ieee80211/src/ieee80211.rs:171-171 [wlan_cipher_suite::BIP_GMAC_256] *)
Definition BIP_GMAC_256 : Z := 0x000FAC0C.
(** kernel/ieee80211/src/ieee80211.rs:172-172 [wlan_cipher_suite::BIP_CMAC_256] *)
Definition BIP_CMAC_256 : Z := 0x000FAC0D.
End wlan_cipher_suite.

(** kernel/ieee80211/src/ieee80211.rs:178-192 [MacCipherSuite] *)
Inductive MacCipherSuite :=
  | Wep40 | Tkip | Ccmp | Wep104 | WpiSms4 | BipCmac128 | Gcmp128 | Gcmp256 | Ccmp256
  | BipGmac128 | BipGmac256 | BipCmac256 | Invalid.

#[export] Instance MacCipherSuite_eq_dec : EqDecision MacCipherSuite.
Proof. solve_decision. Defined.

(** kernel/ieee80211/src/ieee80211.rs:178-192 [MacCipherSuite as u8] *)
Definition MacCipherSuite_u8 (c : MacCipherSuite) : Z :=
  match c with
  | Wep40 => 0 | Tkip => 1 | Ccmp => 2 | Wep104 => 3 | WpiSms4 => 4 | BipCmac128 => 5
  | Gcmp128 => 6 | Gcmp256 => 7 | Ccmp256 => 8 | BipGmac128 => 9 | BipGmac256 => 10
  | BipCmac256 => 11 | Invalid => 0xFF
  end.

(** kernel/ieee80211/src/ieee80211.rs:195-211 [wlan_cipher_to_mac] *)
Definition wlan_cipher_to_mac (cipher : Z) : option MacCipherSuite :=
  if bool_decide (cipher = wlan_cipher_suite.WEP40) then Some Wep40
  else if bool_decide (cipher = wlan_cipher_suite.WEP104) then Some Wep104
  else if bool_decide (cipher = wlan_cipher_suite.TKIP) then Some Tkip
  else if bool_decide (cipher = wlan_cipher_suite.CCMP) then Some Ccmp
  else if bool_decide (cipher = wlan_cipher_suite.AES_CMAC) then Some BipCmac128
  else if bool_decide (cipher = wlan_cipher_suite.GCMP) then Some Gcmp128
  else if bool_decide (cipher = wlan_cipher_suite.GCMP_256) then Some Gcmp256
  else if bool_decide (cipher = wlan_cipher_suite.CCMP_256) then Some Ccmp256
  else if bool_decide (cipher = wlan_cipher_suite.BIP_GMAC_128) then Some BipGmac128
  else if bool_decide (cipher = wlan_cipher_suite.BIP_GMAC_256) then Some BipGmac256
  else if bool_decide (cipher = wlan_cipher_suite.BIP_CMAC_256) then Some BipCmac256
  else None.

(** ** What the control plane tells its callers *)

(** kernel/ieee80211/src/cfg80211.rs:12-25 [Nl80211Iftype] *)
Inductive Nl80211Iftype :=
  | Unspecified | AdHoc | Station | Ap | ApVlan | Wds | Monitor | MeshPoint | P2pClient | P2pGo
  | P2pDevice.

(** kernel/ieee80211/src/cfg80211.rs:63-66 [KeyStatus] *)
Record KeyStatus := mkKeyStatus { present : bool; cipher : Z }.

(** kernel/ieee80211/src/cfg80211.rs:70-76 [BssInfo] *)
Record BssInfo := mkBss {
  bssid : list Z; freq : Z; rssi : Z; ssid : list Z; ssid_len : Z }.

(** kernel/ieee80211/src/cfg80211.rs:80-91 [StationInfo] *)
Record StationInfo := mkStation {
  filled : Z; sta_rssi : Z; tx_rate : Z; rx_rate : Z; tx_packets : Z; rx_packets : Z;
  tx_failed : Z; inactive_time_ms : Z; rx_bytes : Z; tx_bytes : Z }.

(** kernel/ieee80211/src/cfg80211.rs:95-95 [nl80211_sta_info::TX_BITRATE] *)
Definition TX_BITRATE : Z := Z.shiftl 1 0.
(** kernel/ieee80211/src/cfg80211.rs:97-97 [nl80211_sta_info::SIGNAL] *)
Definition SIGNAL : Z := Z.shiftl 1 2.
(** kernel/ieee80211/src/cfg80211.rs:100-100 [nl80211_sta_info::TX_FAILED] *)
Definition TX_FAILED : Z := Z.shiftl 1 5.

(** ** Facts *)

(** The suites the table knows have different hardware codes. *)
Lemma cipher_codes_injective c c' m :
  wlan_cipher_to_mac c = Some m → wlan_cipher_to_mac c' = Some m → c = c'.
Proof.
  unfold wlan_cipher_to_mac.
  repeat (case_bool_decide as Hc; [subst c|clear Hc]); try done; intros [= <-];
    repeat (case_bool_decide as Hc'; [by subst c'|clear Hc']); done.
Qed.

(** A management frame is of at most one of the kinds told apart. *)
Lemma subtype_exclusive s s' fc : Fc.is_subtype s fc = true → Fc.is_subtype s' fc = true → s = s'.
Proof.
  unfold Fc.is_subtype.
  intros [_ H1%bool_decide_eq_true]%andb_true_iff [_ H2%bool_decide_eq_true]%andb_true_iff. congruence.
Qed.
