(* ===== verification/Cfg80211.v ===== *)
(** * The cfg80211 and mac80211 interfaces: [kernel/ieee80211/src/cfg80211.rs], [mac80211.rs]

    The records and enumerations of the two interfaces and their traits.  Nothing in
    the repository implements the traits: the control plane implements the smaller
    [WiphyOps] of Wiphy.v.  What can be said of them is what a driver that gives only
    the required operations gets. *)

From S2P Require Import Prelude Ieee80211.

(** ** Channels, rates, elements *)

(** kernel/ieee80211/src/ieee80211.rs:8-13 [Band] *)
Inductive Band := TwoGhz | FiveGhz | SixGhz.

(** kernel/ieee80211/src/ieee80211.rs:8-13 [Band, the discriminants] *)
Definition band_code (x : Band) : Z :=
  match x with TwoGhz => 0 | FiveGhz => 1 | SixGhz => 2 end.

(** kernel/ieee80211/src/ieee80211.rs:17-24 [Channel] *)
Record Channel := mkChannel { center_freq : Z; band : Band; max_power : Z }.

(** kernel/ieee80211/src/ieee80211.rs:27-33 [Channel::new_2g] *)
Definition new_2g (freq_mhz max_power_dbm : Z) : Channel := mkChannel freq_mhz TwoGhz max_power_dbm.

(** kernel/ieee80211/src/ieee80211.rs:35-41 [Channel::new_5g] *)
Definition new_5g (freq_mhz max_power_dbm : Z) : Channel := mkChannel freq_mhz FiveGhz max_power_dbm.

(** kernel/ieee80211/src/ieee80211.rs:46-53 [Rate] *)
Record Rate := mkRate { bitrate_100kbps : Z; hw_value : Z; rate_flags : Z }.

(** kernel/ieee80211/src/ieee80211.rs:57-57 [rate_flags::SHORT_PREAMBLE] *)
Definition SHORT_PREAMBLE : Z := Z.shiftl 1 0.

(** kernel/ieee80211/src/ieee80211.rs:58-58 [rate_flags::BASIC] *)
Definition BASIC : Z := Z.shiftl 1 1.

(** kernel/ieee80211/src/ieee80211.rs:64-71 [WlanEid] *)
Inductive WlanEid := EidSsid | EidSupportedRates | EidDsParams | EidHtCapability | EidVhtCapability | EidExtension.

(** kernel/ieee80211/src/ieee80211.rs:73-77 [WlanEid::as_u8] *)
Definition eid_as_u8 (x : WlanEid) : Z :=
  match x with
  | EidSsid => 0 | EidSupportedRates => 1 | EidDsParams => 3 | EidHtCapability => 45 | EidVhtCapability => 191
  | EidExtension => 255
  end.

(** ** What the operations are given and give back *)

(** kernel/ieee80211/src/cfg80211.rs:28-28 [Ifindex] *)
Definition Ifindex : Type := Z.

(** kernel/ieee80211/src/cfg80211.rs:12-25 [Nl80211Iftype, the discriminants] *)
Definition iftype_code (t : Nl80211Iftype) : Z :=
  match t with
  | Unspecified => 0 | AdHoc => 1 | Station => 2 | Ap => 3 | ApVlan => 4 | Wds => 5 | Monitor => 6
  | MeshPoint => 7 | P2pClient => 8 | P2pGo => 9 | P2pDevice => 10
  end.

(** kernel/ieee80211/src/cfg80211.rs:32-39 [ScanRequest] *)
Record ScanRequest := mkScanRequest { channels : list Channel; ssids : list (list Z); ssid_lens : list Z }.

(** kernel/ieee80211/src/cfg80211.rs:43-51 [ConnectParams] *)
Record ConnectParams := mkConnectParams {
  to_bssid : option (list Z); to_ssid : list Z; to_ssid_len : nat; on_channel : option Channel; auth_type
  : Z }.

(** kernel/ieee80211/src/cfg80211.rs:55-59 [KeyParams] *)
Record KeyParams := mkKeyParams { key_cipher : Z; key_bytes : list Z; key_seq : option (list Z) }.

(** kernel/ieee80211/src/cfg80211.rs:96-96 [nl80211_sta_info::RX_BITRATE] *)
Definition RX_BITRATE : Z := Z.shiftl 1 1.

(** kernel/ieee80211/src/cfg80211.rs:98-98 [nl80211_sta_info::TX_PACKETS] *)
Definition TX_PACKETS : Z := Z.shiftl 1 3.

(** kernel/ieee80211/src/cfg80211.rs:99-99 [nl80211_sta_info::RX_PACKETS] *)
Definition RX_PACKETS : Z := Z.shiftl 1 4.

(** kernel/ieee80211/src/cfg80211.rs:101-101 [nl80211_sta_info::INACTIVE_TIME] *)
Definition INACTIVE_TIME : Z := Z.shiftl 1 6.

(** kernel/ieee80211/src/cfg80211.rs:102-102 [nl80211_sta_info::RX_BYTES] *)
Definition RX_BYTES : Z := Z.shiftl 1 7.

(** kernel/ieee80211/src/cfg80211.rs:103-103 [nl80211_sta_info::TX_BYTES] *)
Definition TX_BYTES : Z := Z.shiftl 1 8.

(** kernel/ieee80211/src/cfg80211.rs:108-113 [BeaconData] *)
Record BeaconData := mkBeaconData {
  beacon_head : list Z; beacon_tail : list Z; beacon_ies : list Z; proberesp_ies : list Z }.

(** kernel/ieee80211/src/cfg80211.rs:124-132 [ChanWidth] *)
Inductive ChanWidth := NoHT | TwentyMhz | FortyMhz | EightyMhz | EightyPlus80Mhz | OneSixtyMhz.

(** kernel/ieee80211/src/cfg80211.rs:124-132 [ChanWidth, the discriminants] *)
Definition width_code (x : ChanWidth) : Z :=
  match x with NoHT => 0 | TwentyMhz => 1 | FortyMhz => 2 | EightyMhz => 3 | EightyPlus80Mhz => 4 | OneSixtyMhz => 5 end.

(** kernel/ieee80211/src/cfg80211.rs:117-120 [ChanDef] *)
Record ChanDef := mkChanDef { chan : Channel; width : ChanWidth }.

(** kernel/ieee80211/src/cfg80211.rs:136-139 [WiphyParams] *)
Record WiphyParams := mkWiphyParams { rts_threshold : Z; frag_threshold : Z }.

(** kernel/ieee80211/src/cfg80211.rs:144-148 [TxPowerSetting] *)
Inductive TxPowerSetting := Automatic | Limited | Fixed.

(** kernel/ieee80211/src/cfg80211.rs:144-148 [TxPowerSetting, the discriminants] *)
Definition setting_code (x : TxPowerSetting) : Z :=
  match x with Automatic => 0 | Limited => 1 | Fixed => 2 end.

(** kernel/ieee80211/src/cfg80211.rs:152-157 [MgmtTxParams] *)
Record MgmtTxParams := mkMgmtTxParams {
  tx_channel : option Channel; offchan : bool; wait_ms : Z; frame : list Z }.

(** kernel/ieee80211/src/cfg80211.rs:283-287 [BssParams] *)
Record BssParams := mkBssParams {
  use_cts_prot : option bool; use_short_preamble : option bool; use_short_slot : option bool }.

(** kernel/ieee80211/src/cfg80211.rs:291-295 [ExternalAuthParams] *)
Record ExternalAuthParams := mkExternalAuthParams {
  auth_bssid : list Z; auth_ssid : list Z; auth_action : Z }.

(** kernel/ieee80211/src/cfg80211.rs:299-306 [SurveyInfo] *)
Record SurveyInfo := mkSurveyInfo {
  survey_filled : Z; survey_channel : option Channel; noise : Z; time_busy : Z; time_rx : Z; time_tx : Z
  }.

(** kernel/ieee80211/src/mac80211.rs:10-16 [TxqParams] *)
Record TxqParams := mkTxqParams { ac : Z; txop : Z; cw_min : Z; cw_max : Z; aifs : Z }.

(** kernel/ieee80211/src/mac80211.rs:32-37 [HtCap] *)
Record HtCap := mkHtCap { ht_cap_info : Z; ampdu_factor : Z; ampdu_density : Z; mcs : list Z }.

(** kernel/ieee80211/src/mac80211.rs:41-44 [VhtCap] *)
Record VhtCap := mkVhtCap { vht_cap_info : Z; vht_mcs : list Z }.

(** kernel/ieee80211/src/mac80211.rs:20-28 [SupportedBand] *)
Record SupportedBand := mkSupportedBand {
  in_band : Band; band_channels : list Channel; band_rates : list Rate; n_channels : nat; n_bitrates :
  nat; ht_cap : option HtCap; vht_cap : option VhtCap }.

(** kernel/ieee80211/src/mac80211.rs:48-53 [Conf] *)
Record Conf := mkConf { conf_channel : option Channel; listen_interval : Z; power_level : Z; conf_flags : Z }.

(** ** The traits *)

(** kernel/ieee80211/src/cfg80211.rs:163-279 [Cfg80211Ops]:
    the operations a driver has to give; [S] is what they work on *)
Record Cfg80211Required (S : Type) := mkRequired {
  req_add_virtual_intf : list Z → Nl80211Iftype → st S Ifindex;
  req_del_virtual_intf : Ifindex → st S ();
  req_change_virtual_intf : Ifindex → Nl80211Iftype → st S ();
  req_scan : Ifindex → ScanRequest → st S ();
  req_connect : Ifindex → ConnectParams → st S ();
  req_disconnect : Ifindex → Z → st S ();
  req_add_key : Ifindex → Z → KeyParams → st S ();
  req_del_key : Ifindex → Z → st S ();
  req_set_default_key : Ifindex → Z → st S ();
  req_set_default_mgmt_key : Ifindex → Z → st S ();
  req_add_station : Ifindex → list Z → st S ();
  req_del_station : Ifindex → option (list Z) → Z → st S ();
  req_get_station : Ifindex → list Z → st S StationInfo;
  req_mgmt_tx : Ifindex → MgmtTxParams → st S Z;
  req_start_ap : Ifindex → BeaconData → ChanDef → st S ();
  req_change_beacon : Ifindex → BeaconData → st S ();
  req_stop_ap : Ifindex → st S ();
  req_set_wiphy_params : WiphyParams → st S ();
  req_set_tx_power : Ifindex → TxPowerSetting → Z → st S ();
  req_get_tx_power : Ifindex → st S Z;
  req_set_power_mgmt : Ifindex → bool → Z → st S ();
  req_get_channel : Ifindex → st S ChanDef }.

(** kernel/ieee80211/src/cfg80211.rs:163-279 [Cfg80211Ops], all of them *)
Class Cfg80211Ops (S : Type) := {
  add_virtual_intf : list Z → Nl80211Iftype → st S Ifindex;
  del_virtual_intf : Ifindex → st S ();
  change_virtual_intf : Ifindex → Nl80211Iftype → st S ();
  scan : Ifindex → ScanRequest → st S ();
  connect : Ifindex → ConnectParams → st S ();
  disconnect : Ifindex → Z → st S ();
  add_key : Ifindex → Z → KeyParams → st S ();
  del_key : Ifindex → Z → st S ();
  set_default_key : Ifindex → Z → st S ();
  set_default_mgmt_key : Ifindex → Z → st S ();
  add_station : Ifindex → list Z → st S ();
  del_station : Ifindex → option (list Z) → Z → st S ();
  get_station : Ifindex → list Z → st S StationInfo;
  mgmt_tx : Ifindex → MgmtTxParams → st S Z;
  start_ap : Ifindex → BeaconData → ChanDef → st S ();
  change_beacon : Ifindex → BeaconData → st S ();
  stop_ap : Ifindex → st S ();
  set_wiphy_params : WiphyParams → st S ();
  set_tx_power : Ifindex → TxPowerSetting → Z → st S ();
  get_tx_power : Ifindex → st S Z;
  set_power_mgmt : Ifindex → bool → Z → st S ();
  get_channel : Ifindex → st S ChanDef;
  start_p2p_device : Ifindex → st S ();
  stop_p2p_device : Ifindex → st S ();
  sched_scan_start : Ifindex → ScanRequest → st S ();
  sched_scan_stop : Ifindex → st S ();
  get_key : Ifindex → Z → st S KeyStatus;
  change_station : Ifindex → list Z → st S ();
  dump_station : ∀ D, Ifindex → (list Z → StationInfo → D → bool * D) → st (S * D) ();
  probe_client : Ifindex → list Z → st S Z;
  set_monitor_channel : ChanDef → st S ();
  set_txq_params : Ifindex → TxqParams → st S ();
  remain_on_channel : Ifindex → Channel → Z → st S Z;
  cancel_remain_on_channel : Ifindex → Z → st S ();
  dump_survey : Ifindex → nat → st S SurveyInfo;
  start_radar_detection : Ifindex → ChanDef → st S ();
  reg_notifier : list Z → st S ();
  update_ft_ies : Ifindex → list Z → st S ();
  set_cqm_rssi_config : Ifindex → Z → Z → st S ();
  channel_switch : Ifindex → ChanDef → Z → st S ();
  tdls_mgmt : Ifindex → list Z → list Z → st S Z;
  tdls_oper : Ifindex → list Z → Z → st S ();
  tdls_channel_switch : Ifindex → list Z → Z → st S ();
  tdls_cancel_channel_switch : Ifindex → list Z → st S ();
  change_bss : Ifindex → BssParams → st S ();
  external_auth : Ifindex → ExternalAuthParams → st S () }.

(** kernel/ieee80211/src/cfg80211.rs:163-279 [Cfg80211Ops], the bodies the trait has itself *)
Definition with_defaults {S : Type} (r : Cfg80211Required S) : Cfg80211Ops S := {|
  add_virtual_intf := r.(req_add_virtual_intf S);
  del_virtual_intf := r.(req_del_virtual_intf S);
  change_virtual_intf := r.(req_change_virtual_intf S);
  scan := r.(req_scan S);
  connect := r.(req_connect S);
  disconnect := r.(req_disconnect S);
  add_key := r.(req_add_key S);
  del_key := r.(req_del_key S);
  set_default_key := r.(req_set_default_key S);
  set_default_mgmt_key := r.(req_set_default_mgmt_key S);
  add_station := r.(req_add_station S);
  del_station := r.(req_del_station S);
  get_station := r.(req_get_station S);
  mgmt_tx := r.(req_mgmt_tx S);
  start_ap := r.(req_start_ap S);
  change_beacon := r.(req_change_beacon S);
  stop_ap := r.(req_stop_ap S);
  set_wiphy_params := r.(req_set_wiphy_params S);
  set_tx_power := r.(req_set_tx_power S);
  get_tx_power := r.(req_get_tx_power S);
  set_power_mgmt := r.(req_set_power_mgmt S);
  get_channel := r.(req_get_channel S);
  start_p2p_device := λ _, st_err (-38);
  stop_p2p_device := λ _, st_err (-38);
  sched_scan_start := λ _ _, st_err (-38);
  sched_scan_stop := λ _, st_err (-38);
  get_key := λ _ _, st_err (-38);
  change_station := λ _ _, st_err (-38);
  dump_station := λ _ _ _, st_err (-38);
  probe_client := λ _ _, st_err (-38);
  set_monitor_channel := λ _, st_err (-38);
  set_txq_params := λ _ _, st_err (-38);
  remain_on_channel := λ _ _ _, st_err (-38);
  cancel_remain_on_channel := λ _ _, st_err (-38);
  dump_survey := λ _ _, st_err (-38);
  start_radar_detection := λ _ _, st_err (-38);
  reg_notifier := λ _, st_err (-38);
  update_ft_ies := λ _ _, st_err (-38);
  set_cqm_rssi_config := λ _ _ _, st_err (-38);
  channel_switch := λ _ _ _, st_err (-38);
  tdls_mgmt := λ _ _ _, st_err (-38);
  tdls_oper := λ _ _ _, st_err (-38);
  tdls_channel_switch := λ _ _ _, st_err (-38);
  tdls_cancel_channel_switch := λ _ _, st_err (-38);
  change_bss := λ _ _, st_err (-38);
  external_auth := λ _ _, st_err (-38) |}.


(** kernel/ieee80211/src/mac80211.rs:59-79 [Hw], what a driver has to give *)
Class Hw (S : Type) := {
  conf : S → Conf;
  set_conf : Conf → st S ();
  band_2ghz : S → option SupportedBand;
  band_5ghz : S → option SupportedBand;
  report_scan_completed : bool → st S ();
  report_channel_switch : ChanDef → st S () }.

(** kernel/ieee80211/src/mac80211.rs:76-78 [Hw::report_channel_switch], the body the trait has itself *)
Definition default_report_channel_switch {S : Type} (_ : ChanDef) : st S () := mret ().
(** ** Facts *)

Lemma iftype_code_injective t t' : iftype_code t = iftype_code t' → t = t'.
Proof. by destruct t, t'. Qed.

Definition sta_info_masks : list Z :=
  [TX_BITRATE; RX_BITRATE; SIGNAL; TX_PACKETS; RX_PACKETS; TX_FAILED; INACTIVE_TIME; RX_BYTES; TX_BYTES].

(** The marks of a station's entry are bits of their own: two of them overlap only when they are the same. *)
Lemma sta_info_masks_disjoint :
  forallb (λ i, forallb (λ j,
      bool_decide (i = j) || bool_decide (Z.land (nth i sta_info_masks 0) (nth j sta_info_masks 0) = 0))
    (seq 0 9)) (seq 0 9) = true.
Proof. by vm_compute. Qed.

(** [max_power] is documented in quarters of a dBm, 120 for 30 dBm; the constructors store the dBm. *)
Lemma max_power_unscaled freq dbm :
  (new_2g freq dbm).(max_power) = dbm ∧ (new_5g freq dbm).(max_power) = dbm ∧ (new_2g 2412 30).(max_power) ≠ 30 * 4.
Proof. done. Qed.
