(* ===== verification/LmacCmd.v ===== *)
(** * LMAC requests and indications: [driver/fdrv/src/lmac_cmd.rs]

    The builders of the requests the control plane sends and the parsers of what
    the firmware answers.  [layout] is the reference: the parameters of a request
    as the concatenation of its fields. *)

From S2P Require Import Prelude CmdMgr Ieee80211.
Import Lmac.

(** ** Writing parameters field by field

    The state is the offset reached in [param_out] and its contents. *)
Module Out.
Definition t : Type := nat * list Z.

(** [if off + n > param_out.len() { return .. }] *)
Definition room (n : nat) : st t () := λ '(off, buf),
  if bool_decide (off + n ≤ length buf)%nat then (Ok (), (off, buf)) else (Err 0, (off, buf)).

(** [src] at the offset, which moves on by [n]. *)
Definition field (n : nat) (src : list Z) : st t () := λ '(off, buf),
  match write_at off src buf with
  | Ok buf => (Ok (), ((off + n)%nat, buf))
  | _ => (Panic, (off, buf))
  end.

(** The length returned by a builder: the offset, or 0 where it gave up. *)
Definition finish (r : res () * t) : res (nat * list Z) :=
  match r with
  | (Ok _, (off, buf)) => Ok (off, buf)
  | (Err _, (_, buf)) => Ok (0%nat, buf)
  | (Panic, _) => Panic
  end.

(** A buffer of zeros whose front holds [d]. *)
Definition front (d : list Z) (cap : nat) : t := (length d, d ++ zeros (cap - length d)).

Lemma room_front d cap n : (length d + n ≤ cap)%nat → room n (front d cap) = (Ok (), front d cap).
Proof. intros. unfold room, front. by rewrite bool_decide_true by solve_len. Qed.

Lemma zeros_app a b : zeros (a + b) = zeros a ++ zeros b.
Proof. apply replicate_add. Qed.

Lemma field_front d cap n src :
  (length src ≤ n)%nat → (length d + n ≤ cap)%nat →
  field n src (front d cap) = (Ok (), front (d ++ src ++ zeros (n - length src)) cap).
Proof.
  intros Hs Hn. unfold field, front. rewrite write_at_app by solve_len.
  do 2 f_equal; [solve_len|]. rewrite <- app_assoc. f_equal. rewrite <- app_assoc. f_equal.
  rewrite <- zeros_app. unfold zeros. rewrite drop_replicate. f_equal. solve_len.
Qed.

Lemma field_exact d cap n src :
  length src = n → (length d + n ≤ cap)%nat → field n src (front d cap) = (Ok (), front (d ++ src) cap).
Proof. intros <- Hn. rewrite field_front by lia. by rewrite Nat.sub_diag, app_nil_r. Qed.

Lemma finish_front d cap : finish (Ok (), front d cap) = Ok (length d, d ++ zeros (cap - length d)).
Proof. done. Qed.

Lemma front_nil cap : (0%nat, zeros cap) = front [] cap.
Proof. unfold front. by rewrite Nat.sub_0_r. Qed.
End Out.
Import Out.

(** [msg.param[off..].copy_from_slice(src)] *)
Definition set_param (off : nat) (src : list Z) (m : LmacMsg) : res LmacMsg :=
  param ← write_at off src m.(param); Ok (mkMsg m.(header) param).

(** [msg.param[..plen].copy_from_slice(&param[..plen])] on a new message; nothing
    for a length of 0 *)
Definition with_param (id task : Z) (r : res (nat * list Z)) : res (option LmacMsg) :=
  '(plen, param) ← r;
  if bool_decide (plen = 0)%nat then Ok None
  else
    p ← slice_to 0 plen param;
    m ← set_param 0 p (new id task DRV_TASK_ID (wrap 16 (Z.of_nat plen)));
    Ok (Some m).

(** driver/fdrv/src/lmac_cmd.rs:16-16 [TASK_SCANU] *)
Definition TASK_SCANU : Z := 4.
(** driver/fdrv/src/lmac_cmd.rs:17-17 [TASK_SM] *)
Definition TASK_SM : Z := 6.
(** driver/fdrv/src/lmac_cmd.rs:18-18 [TASK_MM] *)
Definition TASK_MM : Z := 0.
(** driver/fdrv/src/lmac_cmd.rs:19-19 [TASK_APM] *)
Definition TASK_APM : Z := 7.
(** driver/fdrv/src/lmac_cmd.rs:22-22 [MAC_SEC_KEY_LEN] *)
Definition MAC_SEC_KEY_LEN : nat := 32.
(** driver/fdrv/src/lmac_cmd.rs:24-24 [MAC_RATESET_LEN] *)
Definition MAC_RATESET_LEN : nat := 12.
(** driver/fdrv/src/lmac_cmd.rs:27-27 [MAC_BCST] *)
Definition MAC_BCST : list Z := replicate 6 0xff.
(** driver/fdrv/src/lmac_cmd.rs:30-30 [MAC_SSID_LEN] *)
Definition MAC_SSID_LEN : nat := 32.
(** driver/fdrv/src/lmac_cmd.rs:33-35 [SCAN_CHANNEL_MAX, MAC_CHAN_DEF_SIZE] *)
Definition CHAN_SIZE : nat := 42 * 5.

(** ** Building *)

(** driver/fdrv/src/lmac_cmd.rs:38-82 [build_scanu_start_req_param] *)
Definition build_scanu_start_req_param (vif_idx duration_us : Z) : st Out.t () :=
  _ ← room CHAN_SIZE; _ ← field CHAN_SIZE (zeros CHAN_SIZE);
  _ ← room (33 * 3); _ ← field (33 * 3) (zeros (33 * 3));
  _ ← room 6; _ ← field 6 MAC_BCST;
  _ ← room 6; _ ← field 6 (zeros 6);
  _ ← room 4; _ ← field 4 [vif_idx; 0; 0; 0];
  _ ← room 4; field 4 (to_le 4 duration_us).

(** driver/fdrv/src/lmac_cmd.rs:85-95 [build_scanu_start_req] *)
Definition build_scanu_start_req (vif_idx duration_us : Z) : res (option LmacMsg) :=
  with_param SCANU_START_REQ TASK_SCANU
    (finish (build_scanu_start_req_param vif_idx duration_us (0%nat, zeros 400))).

(** driver/fdrv/src/lmac_cmd.rs:105-156 [build_sm_connect_req], the parameters *)
Definition build_sm_connect_req_param (vif_idx : Z) (ssid : list Z) (bssid : option (list Z))
    (chan_freq : option Z) : st Out.t () :=
  _ ← room (1 + MAC_SSID_LEN);
  let ssid_len := Nat.min (length ssid) MAC_SSID_LEN in
  _ ← field (1 + MAC_SSID_LEN) (Z.of_nat ssid_len :: take ssid_len ssid);
  _ ← room 6; _ ← field 6 (default MAC_BCST bssid);
  _ ← room 4;
  _ ← field 4 (match chan_freq with Some f => to_le 2 f ++ [0; 0] | None => [] end);
  _ ← room 10; _ ← field 10 (zeros 10);
  _ ← room 4; _ ← field 4 [0; 0; 0; vif_idx];
  _ ← room 256; field 256 [].

(** driver/fdrv/src/lmac_cmd.rs:99-161 [build_sm_connect_req] *)
Definition build_sm_connect_req (vif_idx : Z) (ssid : list Z) (bssid : option (list Z))
    (chan_freq : option Z) : res (option LmacMsg) :=
  with_param SM_CONNECT_REQ TASK_SM
    (finish (build_sm_connect_req_param vif_idx ssid bssid chan_freq (0%nat, zeros 320))).

(** driver/fdrv/src/lmac_cmd.rs:167-174 [MacVifType] *)
Inductive MacVifType := VifSta | VifIbss | VifAp | VifMeshPoint | VifMonitor | VifUnknown.

(** driver/fdrv/src/lmac_cmd.rs:167-174 [MacVifType as u8] *)
Definition MacVifType_u8 (t : MacVifType) : Z :=
  match t with
  | VifSta => 0 | VifIbss => 1 | VifAp => 2 | VifMeshPoint => 3 | VifMonitor => 4 | VifUnknown => 5
  end.

(** driver/fdrv/src/lmac_cmd.rs:177-183 [build_mm_add_if_req] *)
Definition build_mm_add_if_req (vif_type : MacVifType) (mac_addr : list Z) (p2p : bool) : res LmacMsg :=
  m ← set_param 0 [MacVifType_u8 vif_type] (new MM_ADD_IF_REQ TASK_MM DRV_TASK_ID 8);
  m ← set_param 1 mac_addr m;
  set_param 7 [if p2p then 1 else 0] m.

(** driver/fdrv/src/lmac_cmd.rs:203-207 [build_mm_remove_if_req] *)
Definition build_mm_remove_if_req (inst_nbr : Z) : res LmacMsg :=
  set_param 0 [inst_nbr] (new MM_REMOVE_IF_REQ TASK_MM DRV_TASK_ID 1).

(** driver/fdrv/src/lmac_cmd.rs:210-216 [build_sm_disconnect_req] *)
Definition build_sm_disconnect_req (vif_idx reason_code : Z) : res LmacMsg :=
  m ← set_param 0 (to_le 2 reason_code) (new SM_DISCONNECT_REQ TASK_SM DRV_TASK_ID 3);
  set_param 2 [vif_idx] m.

(** driver/fdrv/src/lmac_cmd.rs:366-397 [build_mm_key_add_req_param] *)
Definition build_mm_key_add_req_param (key_idx sta_idx : Z) (key : list Z) (cipher_suite inst_nbr : Z)
    (pairwise : bool) : st Out.t () :=
  let key_len := Nat.min (length key) MAC_SEC_KEY_LEN in
  _ ← room (2 + 1 + MAC_SEC_KEY_LEN + 4);
  _ ← field 1 [key_idx];
  _ ← field 1 [sta_idx];
  _ ← field 1 [Z.of_nat key_len];
  _ ← field MAC_SEC_KEY_LEN (take key_len key);
  _ ← field 1 [cipher_suite];
  _ ← field 1 [inst_nbr];
  _ ← field 1 [0];
  field 1 [if pairwise then 1 else 0].

(** driver/fdrv/src/lmac_cmd.rs:400-424 [build_mm_key_add_req] *)
Definition build_mm_key_add_req (vif_idx key_idx sta_idx : Z) (key : list Z)
    (cipher_suite : MacCipherSuite) (pairwise : bool) : res (option LmacMsg) :=
  with_param MM_KEY_ADD_REQ TASK_MM
    (finish (build_mm_key_add_req_param key_idx sta_idx key (MacCipherSuite_u8 cipher_suite) vif_idx
               pairwise (0%nat, zeros 64))).

(** driver/fdrv/src/lmac_cmd.rs:444-448 [build_mm_key_del_req] *)
Definition build_mm_key_del_req (hw_key_idx : Z) : res LmacMsg :=
  set_param 0 [hw_key_idx] (new MM_KEY_DEL_REQ TASK_MM DRV_TASK_ID 1).

(** driver/fdrv/src/lmac_cmd.rs:451-456 [build_mm_set_power_req] *)
Definition build_mm_set_power_req (inst_nbr power_dbm : Z) : res LmacMsg :=
  m ← set_param 0 [inst_nbr] (new MM_SET_POWER_REQ TASK_MM DRV_TASK_ID 2);
  set_param 1 [i8_as_u8 power_dbm] m.

(** driver/fdrv/src/lmac_cmd.rs:512-517 [build_mm_sta_add_req] *)
Definition build_mm_sta_add_req (inst_nbr : Z) (mac : list Z) : res LmacMsg :=
  m ← set_param 0 mac (new MM_STA_ADD_REQ TASK_MM DRV_TASK_ID 7);
  set_param 6 [inst_nbr] m.

(** driver/fdrv/src/lmac_cmd.rs:527-531 [build_mm_sta_del_req] *)
Definition build_mm_sta_del_req (sta_idx : Z) : res LmacMsg :=
  set_param 0 [sta_idx] (new MM_STA_DEL_REQ TASK_MM DRV_TASK_ID 1).

(** driver/fdrv/src/lmac_cmd.rs:543-547 [build_mm_get_sta_info_req] *)
Definition build_mm_get_sta_info_req (sta_idx : Z) : res LmacMsg :=
  set_param 0 [sta_idx] (new MM_GET_STA_INFO_REQ TASK_MM DRV_TASK_ID 1).

(** driver/fdrv/src/lmac_cmd.rs:602-672 [build_apm_start_req_param]; the guard
    before the channel asks for 4 bytes, 5 are written *)
Definition build_apm_start_req_param (vif_idx chan_freq_mhz chan_band bcn_int : Z)
    (basic_rates : list Z) (bcn_addr bcn_len tim_oft tim_len : Z) : st Out.t () :=
  _ ← room (1 + MAC_RATESET_LEN);
  let rate_len := Nat.min (length basic_rates) MAC_RATESET_LEN in
  _ ← field 1 [Z.of_nat rate_len];
  _ ← field MAC_RATESET_LEN (take rate_len basic_rates);
  _ ← room 4;
  _ ← field 2 (to_le 2 chan_freq_mhz);
  _ ← field 1 [chan_band]; _ ← field 1 [0]; _ ← field 1 [i8_as_u8 20];
  _ ← room (4 + 4 + 1);
  _ ← field 4 (to_le 4 chan_freq_mhz); _ ← field 4 (to_le 4 chan_freq_mhz); _ ← field 1 [0];
  _ ← room (4 + 2 + 2 + 2);
  _ ← field 4 (to_le 4 bcn_addr); _ ← field 2 (to_le 2 bcn_len);
  _ ← field 2 (to_le 2 tim_oft); _ ← field 2 (to_le 2 bcn_int);
  _ ← room (4 + 2 + 1 + 1);
  _ ← field 4 (zeros 4); _ ← field 2 (to_le 2 0x888E); _ ← field 1 [tim_len];
  field 1 [vif_idx].

(** driver/fdrv/src/lmac_cmd.rs:703-711 [ieee80211_channel_to_freq] *)
Definition ieee80211_channel_to_freq (ch : Z) : Z :=
  if bool_decide (1 ≤ ch ≤ 13) then 2407 + ch * 5
  else if bool_decide (36 ≤ ch ≤ 165) then 5000 + ch * 5
  else 2412.

(** driver/fdrv/src/lmac_cmd.rs:675-701 [build_apm_start_req] *)
Definition build_apm_start_req (vif_idx channel beacon_interval : Z) (basic_rates : list Z) :
    res (option LmacMsg) :=
  with_param APM_START_REQ TASK_APM
    (finish (build_apm_start_req_param vif_idx (ieee80211_channel_to_freq channel) 0 beacon_interval
               basic_rates 0 0 0 0 (0%nat, zeros 128))).

(** driver/fdrv/src/lmac_cmd.rs:735-739 [build_apm_stop_req] *)
Definition build_apm_stop_req (vif_idx : Z) : res LmacMsg :=
  set_param 0 [vif_idx] (new APM_STOP_REQ TASK_APM DRV_TASK_ID 1).

(** ** The requests and their layout *)

Inductive request :=
  | RScan (vif_idx duration_us : Z)
  | RConnect (vif_idx : Z) (ssid : list Z) (bssid : option (list Z)) (chan_freq : option Z)
  | RDisconnect (vif_idx reason_code : Z)
  | RAddIf (vif_type : MacVifType) (mac : list Z) (p2p : bool)
  | RRemoveIf (inst_nbr : Z)
  | RKeyAdd (vif_idx key_idx sta_idx : Z) (key : list Z) (cipher : MacCipherSuite) (pairwise : bool)
  | RKeyDel (hw_key_idx : Z)
  | RSetPower (inst_nbr power_dbm : Z)
  | RStaAdd (inst_nbr : Z) (mac : list Z)
  | RStaDel (sta_idx : Z)
  | RGetStaInfo (sta_idx : Z)
  | RApmStart (vif_idx channel beacon_interval : Z) (basic_rates : list Z)
  | RApmStop (vif_idx : Z).

(** The builder of each. *)
Definition build (r : request) : res (option LmacMsg) :=
  match r with
  | RScan v d => build_scanu_start_req v d
  | RConnect v s b f => build_sm_connect_req v s b f
  | RDisconnect v c => Some <$> build_sm_disconnect_req v c
  | RAddIf t m p => Some <$> build_mm_add_if_req t m p
  | RRemoveIf n => Some <$> build_mm_remove_if_req n
  | RKeyAdd v k s key c p => build_mm_key_add_req v k s key c p
  | RKeyDel k => Some <$> build_mm_key_del_req k
  | RSetPower n p => Some <$> build_mm_set_power_req n p
  | RStaAdd n m => Some <$> build_mm_sta_add_req n m
  | RStaDel s => Some <$> build_mm_sta_del_req s
  | RGetStaInfo s => Some <$> build_mm_get_sta_info_req s
  | RApmStart v c b rates => build_apm_start_req v c b rates
  | RApmStop v => Some <$> build_apm_stop_req v
  end.

(** A field of [n] bytes, the value in front. *)
Definition pad (n : nat) (l : list Z) : list Z := take n l ++ zeros (n - length l).

Definition counted (n : nat) (l : list Z) : list Z := Z.of_nat (Nat.min (length l) n) :: pad n l.

Definition layout (r : request) : list Z :=
  match r with
  | RScan v d => zeros (42 * 5) ++ zeros (3 * 33) ++ MAC_BCST ++ zeros 6 ++ [v; 0; 0; 0] ++ to_le 4 d
  | RConnect v s b f =>
      counted 32 s ++ default MAC_BCST b ++ pad 4 (default [] (to_le 2 <$> f)) ++ zeros 10 ++
      [0; 0; 0; v] ++ zeros 256
  | RDisconnect v c => to_le 2 c ++ [v]
  | RAddIf t m p => [MacVifType_u8 t] ++ m ++ [if p then 1 else 0]
  | RRemoveIf n => [n]
  | RKeyAdd v k s key c p =>
      [k; s] ++ counted 32 key ++ [MacCipherSuite_u8 c; v; 0; if p then 1 else 0]
  | RKeyDel k => [k]
  | RSetPower n p => [n; p `mod` 256]
  | RStaAdd n m => m ++ [n]
  | RStaDel s => [s]
  | RGetStaInfo s => [s]
  | RApmStart v c b rates =>
      let f := ieee80211_channel_to_freq c in
      counted 12 rates ++ to_le 2 f ++ [0; 0; 20] ++ to_le 4 f ++ to_le 4 f ++ [0] ++
      to_le 4 0 ++ to_le 2 0 ++ to_le 2 0 ++ to_le 2 b ++ zeros 4 ++ to_le 2 0x888E ++ [0; v]
  | RApmStop v => [v]
  end.

Definition req_id (r : request) : Z :=
  match r with
  | RScan _ _ => SCANU_START_REQ | RConnect _ _ _ _ => SM_CONNECT_REQ
  | RDisconnect _ _ => SM_DISCONNECT_REQ | RAddIf _ _ _ => MM_ADD_IF_REQ
  | RRemoveIf _ => MM_REMOVE_IF_REQ | RKeyAdd _ _ _ _ _ _ => MM_KEY_ADD_REQ
  | RKeyDel _ => MM_KEY_DEL_REQ | RSetPower _ _ => MM_SET_POWER_REQ
  | RStaAdd _ _ => MM_STA_ADD_REQ | RStaDel _ => MM_STA_DEL_REQ
  | RGetStaInfo _ => MM_GET_STA_INFO_REQ | RApmStart _ _ _ _ => APM_START_REQ
  | RApmStop _ => APM_STOP_REQ
  end.

(** The task is the one whose message block the identifier is in. *)
Definition req_task (r : request) : Z := req_id r / 1024.

(** MAC addresses have six bytes. *)
Definition well_formed (r : request) : Prop :=
  match r with
  | RConnect _ _ (Some b) _ => length b = 6%nat
  | RAddIf _ m _ | RStaAdd _ m => length m = 6%nat
  | _ => True
  end.

(** What it takes to be the message of a request. *)
Definition carries (r : request) (m : LmacMsg) : Prop :=
  m.(header) = mkHeader (req_id r) (req_task r) DRV_TASK_ID (Z.of_nat (length (layout r))) ∧
  length m.(param) = LMAC_MSG_MAX_LEN ∧ take (length (layout r)) m.(param) = layout r.

(** A message whose parameters begin with [d]. *)
Definition msg_of (h : LmacMsgHeader) (d : list Z) : LmacMsg :=
  mkMsg h (d ++ zeros (LMAC_MSG_MAX_LEN - length d)).

Lemma new_msg id task n :
  new id task DRV_TASK_ID n = msg_of (mkHeader id task DRV_TASK_ID n) [].
Proof. done. Qed.

Lemma set_param_next h d off src :
  off = length d → (length d + length src ≤ LMAC_MSG_MAX_LEN)%nat →
  set_param off src (msg_of h d) = Ok (msg_of h (d ++ src)).
Proof.
  intros -> Hl. unfold set_param, msg_of. cbn [param header].
  rewrite write_at_app by (rewrite length_zeros; lia). cbn [mbind res_bind]. do 2 f_equal.
  rewrite <- app_assoc. do 2 f_equal. unfold zeros. rewrite drop_replicate. f_equal. solve_len.
Qed.

Lemma carries_msg r h d :
  d = layout r → h = mkHeader (req_id r) (req_task r) DRV_TASK_ID (Z.of_nat (length d)) →
  (length d ≤ LMAC_MSG_MAX_LEN)%nat → carries r (msg_of h d).
Proof.
  intros -> -> Hl. unfold carries, msg_of. cbn [header param]. split; [done|].
  split; [solve_len|]. by rewrite take_app_length.
Qed.

Lemma with_param_front d cap id task :
  (0 < length d ≤ cap)%nat → (length d ≤ LMAC_MSG_MAX_LEN)%nat →
  with_param id task (finish (Ok (), front d cap)) =
    Ok (Some (msg_of (mkHeader id task DRV_TASK_ID (Z.of_nat (length d))) d)).
Proof.
  intros Hc Hl. rewrite finish_front. unfold with_param. cbn [mbind res_bind].
  rewrite bool_decide_false by lia. rewrite slice_to_ok by solve_len.
  cbn [mbind res_bind]. rewrite Nat.sub_0_r, slice_app_l by lia. rewrite take_ge by lia.
  rewrite new_msg. rewrite set_param_next by (simpl; lia). cbn [mbind res_bind app].
  rewrite wrap_id; [done|]. unfold LMAC_MSG_MAX_LEN, in_range in *. lia.
Qed.

Lemma length_pad n l : length (pad n l) = n.
Proof. unfold pad. solve_len. Qed.

Lemma length_counted n l : length (counted n l) = S n.
Proof. unfold counted. simpl. by rewrite length_pad. Qed.
#[local] Hint Rewrite length_pad length_counted : len.

Lemma pad_take n l :
  take (Nat.min (length l) n) l ++ zeros (n - length (take (Nat.min (length l) n) l)) = pad n l.
Proof.
  unfold pad. rewrite length_take. destruct (decide (length l ≤ n)%nat).
  - rewrite (Nat.min_l (length l) n), !take_ge by lia. do 2 f_equal. lia.
  - rewrite (Nat.min_r (length l) n) by lia. do 2 f_equal. lia.
Qed.

Lemma counted_take n l :
  let k := Nat.min (length l) n in
  (Z.of_nat k :: take k l) ++ zeros (S n - length (Z.of_nat k :: take k l)) = counted n l.
Proof. intros k. unfold counted. subst k. rewrite <- pad_take. done. Qed.

(** Run a builder field by field: its result is the message of the layout. *)
Ltac field_step :=
  first [rewrite field_exact by (rewrite ?length_to_le, ?length_zeros; solve_len)
        |rewrite field_front by solve_len].
Ltac out_step :=
  unfold mbind at 1, st_bind at 1; first [rewrite room_front by solve_len|field_step]; cbv beta iota.
Ltac is_layout :=
  apply carries_msg;
    [cbn [layout app]; rewrite <- ?app_assoc; reflexivity
    |f_equal; solve_len|unfold LMAC_MSG_MAX_LEN; solve_len].
Ltac out_run :=
  unfold CHAN_SIZE, MAC_SEC_KEY_LEN, MAC_RATESET_LEN, MAC_SSID_LEN;
  rewrite front_nil; repeat out_step; field_step; rewrite ?counted_take, ?pad_take.
Ltac out_done :=
  rewrite with_param_front by (unfold LMAC_MSG_MAX_LEN; solve_len);
  eexists; split; [reflexivity|is_layout].
Ltac msg_run :=
  rewrite new_msg;
  repeat (rewrite set_param_next by (unfold LMAC_MSG_MAX_LEN; solve_len); cbn [mbind res_bind]);
  cbn [fmap res_fmap]; eexists; split; [reflexivity|is_layout].

(** C14 (functional): every request the control plane can ask for is
    built: the builder succeeds, whatever the lengths of SSID, key or rate list,
    with the identifier of the request, the task that identifier belongs to, and
    parameters that are the fields one after the other, oversized ones cut. *)
Theorem requests_layout (r : request) (Hr : well_formed r) :
  ∃ m, build r = Ok (Some m) ∧ carries r m.
Proof.
  destruct r; cbn [build well_formed] in *.
  - unfold build_scanu_start_req, build_scanu_start_req_param. out_run. out_done.
  - unfold build_sm_connect_req, build_sm_connect_req_param.
    assert (length (default MAC_BCST bssid) = 6%nat) by (by destruct bssid).
    destruct chan_freq.
    all: out_run; out_done.
  - unfold build_sm_disconnect_req. msg_run.
  - unfold build_mm_add_if_req. msg_run.
  - unfold build_mm_remove_if_req. msg_run.
  - unfold build_mm_key_add_req, build_mm_key_add_req_param. out_run. out_done.
  - unfold build_mm_key_del_req. msg_run.
  - unfold build_mm_set_power_req. msg_run.
  - unfold build_mm_sta_add_req. msg_run.
  - unfold build_mm_sta_del_req. msg_run.
  - unfold build_mm_get_sta_info_req. msg_run.
  - unfold build_apm_start_req, build_apm_start_req_param. out_run. out_done.
  - unfold build_apm_stop_req. msg_run.
Qed.

Lemma requests_layout_witness :
  well_formed (RStaAdd 1 [2; 0; 0; 0; 0; 1]) ∧
  ∃ m, build (RStaAdd 1 [2; 0; 0; 0; 0; 1]) = Ok (Some m) ∧ carries (RStaAdd 1 [2; 0; 0; 0; 0; 1]) m.
Proof.
  assert (well_formed (RStaAdd 1 [2; 0; 0; 0; 0; 1])) as Hr by (simpl; reflexivity).
  split; [exact Hr|exact (requests_layout _ Hr)].
Defined.


(** The longest request, the scan, still fits the 512-byte buffer in either form,
    padded to blocks or not. *)
Lemma layout_size r : well_formed r → (1 ≤ length (layout r) ≤ 329)%nat.
Proof.
  intros Hw. destruct r; cbn [layout well_formed] in *; try (solve_len).
  destruct bssid; cbn [default]; simpl in Hw; solve_len.
Qed.

Lemma carries_ok r m : well_formed r → carries r m → msg_ok m ∧ plen m = length (layout r).
Proof.
  intros Hw (Hh & Hl & _). pose proof (layout_size r Hw).
  assert (Hp : plen m = length (layout r)) by (unfold plen; rewrite Hh; apply Nat2Z.id).
  split; [|done]. unfold msg_ok. rewrite Hp. split_and!; [|done|unfold LMAC_MSG_MAX_LEN; lia].
  rewrite Hh. unfold header_ok, in_range. cbn [id dest_id src_id param_len].
  assert (0 ≤ req_id r < 2 ^ 16) by (destruct r; vm_compute; split; (discriminate || reflexivity)).
  unfold req_task, DRV_TASK_ID. split_and!; try lia.
  - apply Z.div_pos; lia.
  - apply Z.div_lt_upper_bound; lia.
Qed.

(** ** Parsing

    The indices below are within the length just tested. *)
Definition byte_at (l : list Z) (i : nat) : Z := default 0 (l !! i).
Definition le16_at (l : list Z) (i : nat) : Z := of_le (slice i 2 l).
Definition le32_at (l : list Z) (i : nat) : Z := of_le (slice i 4 l).

Definition when_len {A} (n : nat) (param : list Z) (a : A) : option A :=
  if bool_decide (length param < n)%nat then None else Some a.

(** driver/fdrv/src/lmac_cmd.rs:187-190 [MmAddIfCfm] *)
Record MmAddIfCfm := mkAddIf { add_status : Z; inst_nbr : Z }.
(** driver/fdrv/src/lmac_cmd.rs:192-200 [parse_mm_add_if_cfm] *)
Definition parse_mm_add_if_cfm (param : list Z) : option MmAddIfCfm :=
  when_len 2 param (mkAddIf (byte_at param 0) (byte_at param 1)).

(** driver/fdrv/src/lmac_cmd.rs:220-224 [ScanuStartCfm] *)
Record ScanuStartCfm := mkScanCfm { scan_vif : Z; scan_status : Z; result_cnt : Z }.
(** driver/fdrv/src/lmac_cmd.rs:230-239 [parse_scanu_start_cfm_full] *)
Definition parse_scanu_start_cfm_full (param : list Z) : option ScanuStartCfm :=
  when_len 3 param (mkScanCfm (byte_at param 0) (byte_at param 1) (byte_at param 2)).
(** driver/fdrv/src/lmac_cmd.rs:226-228 [parse_scanu_start_cfm] *)
Definition parse_scanu_start_cfm (param : list Z) : option Z :=
  scan_status <$> parse_scanu_start_cfm_full param.

(** driver/fdrv/src/lmac_cmd.rs:243-248 [ScanuResultInd] *)
Record ScanuResultInd := mkScanInd {
  ind_length : Z; center_freq : Z; ind_rssi : Z; payload_offset : nat }.
(** driver/fdrv/src/lmac_cmd.rs:250-267 [parse_scanu_result_ind] *)
Definition parse_scanu_result_ind (param : list Z) : option ScanuResultInd :=
  when_len 10 param
    (mkScanInd (le16_at param 0) (le16_at param 4) (as_i8 (byte_at param 9)) 10).

(** driver/fdrv/src/lmac_cmd.rs:282-282 [WLAN_EID_SSID] *)
Definition WLAN_EID_SSID : Z := 0.
(** driver/fdrv/src/lmac_cmd.rs:283-283 [BEACON_PROBERESP_FIXED] *)
Definition BEACON_PROBERESP_FIXED : nat := 22 + 8 + 2 + 2.

(** driver/fdrv/src/lmac_cmd.rs:285-298 [parse_scan_result_to_bss_info], the loop
    over the elements from [i] on *)
Fixpoint ssid_loop (fuel : nat) (ie_start : list Z) (i : nat) : res (option (list Z)) :=
  match fuel with
  | O => Panic
  | S fuel =>
      if bool_decide (i + 2 ≤ length ie_start)%nat then
        id ← index ie_start i;
        l ← index ie_start (i + 1);
        let len := Z.to_nat l in
        if bool_decide (length ie_start < i + 2 + len)%nat then Ok None
        else if bool_decide (id = WLAN_EID_SSID ∧ (len ≤ 32)%nat)
        then s ← slice_to (i + 2) (i + 2 + len) ie_start; Ok (Some s)
        else ssid_loop fuel ie_start (i + 2 + len)
      else Ok None
  end.

(** driver/fdrv/src/lmac_cmd.rs:271-306 [parse_scan_result_to_bss_info] *)
Definition parse_scan_result_to_bss_info (ind : ScanuResultInd) (param : list Z) : res (option BssInfo) :=
  if bool_decide (length param < ind.(payload_offset))%nat then Ok None
  else
    let payload := drop ind.(payload_offset) param in
    if bool_decide (length payload < 22)%nat then Ok None
    else
      let bssid := slice 16 6 payload in
      if bool_decide (length payload < BEACON_PROBERESP_FIXED)%nat then Ok None
      else
        let ie_start := drop BEACON_PROBERESP_FIXED payload in
        found ← ssid_loop (S (length ie_start)) ie_start 0;
        let s := default [] found in
        ssid ← write_at 0 s (zeros 32);
        Ok (Some (mkBss bssid ind.(center_freq) ind.(ind_rssi) ssid (Z.of_nat (length s)))).

(** driver/fdrv/src/lmac_cmd.rs:310-316 [SmConnectInd] *)
Record SmConnectInd := mkConnectInd {
  status_code : Z; connect_bssid : list Z; connect_vif : Z; ap_idx : Z }.
(** driver/fdrv/src/lmac_cmd.rs:326-342 [parse_sm_connect_ind] *)
Definition parse_sm_connect_ind (param : list Z) : option SmConnectInd :=
  when_len 11 param
    (mkConnectInd (le16_at param 0) (slice 2 6 param) (byte_at param 9) (byte_at param 10)).

(** driver/fdrv/src/lmac_cmd.rs:319-324 [parse_sm_connect_cfm] *)
Definition parse_sm_connect_cfm (param : list Z) : option Z := when_len 1 param (byte_at param 0).
(** driver/fdrv/src/lmac_cmd.rs:519-524 [parse_mm_sta_add_cfm] *)
Definition parse_mm_sta_add_cfm (param : list Z) : option Z := when_len 1 param (byte_at param 0).
(** driver/fdrv/src/lmac_cmd.rs:533-538 [parse_mm_sta_del_cfm] *)
Definition parse_mm_sta_del_cfm (param : list Z) : option Z := when_len 1 param (byte_at param 0).

(** driver/fdrv/src/lmac_cmd.rs:346-349 [SmDisconnectInd] *)
Record SmDisconnectInd := mkDisconnectInd { reason_code : Z; disconnect_vif : Z }.
(** driver/fdrv/src/lmac_cmd.rs:351-361 [parse_sm_disconnect_ind] *)
Definition parse_sm_disconnect_ind (param : list Z) : option SmDisconnectInd :=
  when_len 3 param (mkDisconnectInd (le16_at param 0) (byte_at param 2)).

(** driver/fdrv/src/lmac_cmd.rs:428-431 [MmKeyAddCfm] *)
Record MmKeyAddCfm := mkKeyAdd { key_status : Z; hw_key_idx : Z }.
(** driver/fdrv/src/lmac_cmd.rs:433-441 [parse_mm_key_add_cfm] *)
Definition parse_mm_key_add_cfm (param : list Z) : option MmKeyAddCfm :=
  when_len 2 param (mkKeyAdd (byte_at param 0) (byte_at param 1)).

(** driver/fdrv/src/lmac_cmd.rs:460-463 [MmSetPowerCfm] *)
Record MmSetPowerCfm := mkSetPower { radio_idx : Z; power : Z }.
(** driver/fdrv/src/lmac_cmd.rs:465-473 [parse_mm_set_power_cfm] *)
Definition parse_mm_set_power_cfm (param : list Z) : option MmSetPowerCfm :=
  when_len 2 param (mkSetPower (byte_at param 0) (as_i8 (byte_at param 1))).

(** driver/fdrv/src/lmac_cmd.rs:477-480 [MmPsChangeInd] *)
Record MmPsChangeInd := mkPsChange { ps_sta_idx : Z; ps_state : Z }.
(** driver/fdrv/src/lmac_cmd.rs:482-490 [parse_mm_ps_change_ind] *)
Definition parse_mm_ps_change_ind (param : list Z) : option MmPsChangeInd :=
  when_len 2 param (mkPsChange (byte_at param 0) (byte_at param 1)).

(** driver/fdrv/src/lmac_cmd.rs:494-498 [MmRssiStatusInd] *)
Record MmRssiStatusInd := mkRssi { vif_index : Z; rssi_status : bool; rssi_value : Z }.
(** driver/fdrv/src/lmac_cmd.rs:500-509 [parse_mm_rssi_status_ind] *)
Definition parse_mm_rssi_status_ind (param : list Z) : option MmRssiStatusInd :=
  when_len 3 param
    (mkRssi (byte_at param 0) (bool_decide (byte_at param 1 ≠ 0)) (as_i8 (byte_at param 2))).

(** driver/fdrv/src/lmac_cmd.rs:551-560 [MmGetStaInfoCfm] *)
Record MmGetStaInfoCfm := mkStaInfo {
  rate_info : Z; txfailed : Z; info_rssi : Z; chan_time : Z; chan_busy_time : Z;
  ack_fail_stat : Z; ack_succ_stat : Z; chan_tx_busy_time : Z }.
(** driver/fdrv/src/lmac_cmd.rs:562-597 [parse_mm_get_sta_info_cfm] *)
Definition parse_mm_get_sta_info_cfm (param : list Z) : option MmGetStaInfoCfm :=
  when_len (4 + 4 + 1 + 3 + 4 * 5) param
    (mkStaInfo (le32_at param 0) (le32_at param 4) (as_i8 (byte_at param 8)) (le32_at param 12)
       (le32_at param 16) (le32_at param 20) (le32_at param 24) (le32_at param 28)).

(** driver/fdrv/src/lmac_cmd.rs:715-720 [ApmStartCfm] *)
Record ApmStartCfm := mkApmStart { apm_status : Z; apm_vif : Z; ch_idx : Z; bcmc_idx : Z }.
(** driver/fdrv/src/lmac_cmd.rs:722-732 [parse_apm_start_cfm] *)
Definition parse_apm_start_cfm (param : list Z) : option ApmStartCfm :=
  when_len 4 param
    (mkApmStart (byte_at param 0) (byte_at param 1) (byte_at param 2) (byte_at param 3)).

(** ** What the parsers read back *)

Lemma when_len_ok {A} n param (a : A) : (n ≤ length param)%nat → when_len n param a = Some a.
Proof. intros. unfold when_len. by rewrite bool_decide_false by lia. Qed.

Lemma le16_app pre z post :
  in_range 16 z → le16_at (pre ++ to_le 2 z ++ post) (length pre) = z.
Proof. intros. unfold le16_at. rewrite slice_app_mid by done. by apply of_le_to_le_id. Qed.

Lemma le32_app pre z post :
  in_range 32 z → le32_at (pre ++ to_le 4 z ++ post) (length pre) = z.
Proof. intros. unfold le32_at. rewrite slice_app_mid by done. by apply of_le_to_le_id. Qed.

Lemma byte_at_app pre b post : byte_at (pre ++ b :: post) (length pre) = b.
Proof. unfold byte_at. by rewrite list_lookup_middle. Qed.

(** The confirmation of a station query as the firmware lays it out. *)
Definition sta_info_bytes (c : MmGetStaInfoCfm) (reserved : list Z) : list Z :=
  to_le 4 c.(rate_info) ++ to_le 4 c.(txfailed) ++ [i8_as_u8 c.(info_rssi)] ++ reserved ++
  to_le 4 c.(chan_time) ++ to_le 4 c.(chan_busy_time) ++ to_le 4 c.(ack_fail_stat) ++
  to_le 4 c.(ack_succ_stat) ++ to_le 4 c.(chan_tx_busy_time).

Definition sta_info_ok (c : MmGetStaInfoCfm) : Prop :=
  in_range 32 c.(rate_info) ∧ in_range 32 c.(txfailed) ∧ -128 ≤ c.(info_rssi) < 128 ∧
  in_range 32 c.(chan_time) ∧ in_range 32 c.(chan_busy_time) ∧ in_range 32 c.(ack_fail_stat) ∧
  in_range 32 c.(ack_succ_stat) ∧ in_range 32 c.(chan_tx_busy_time).

Lemma of_le4 z : in_range 32 z → of_le (to_le 4 z) = z.
Proof. intros. by apply of_le_to_le_id. Qed.

Lemma parse_sta_info c reserved rest :
  sta_info_ok c → length reserved = 3%nat →
  parse_mm_get_sta_info_cfm (sta_info_bytes c reserved ++ rest) = Some c.
Proof.
  intros (? & ? & ? & ? & ? & ? & ? & ?) Hr. destruct c; cbn in *.
  destruct reserved as [|r0 [|r1 [|r2 [|]]]]; try done.
  unfold parse_mm_get_sta_info_cfm. rewrite when_len_ok by (unfold sta_info_bytes; solve_len).
  unfold sta_info_bytes. cbn [rate_info txfailed info_rssi chan_time chan_busy_time ack_fail_stat
    ack_succ_stat chan_tx_busy_time].
  do 2 f_equal; try (by etrans; [|apply of_le4; eassumption]).
  by etrans; [|apply as_i8_as_u8; eassumption].
Qed.

(** A connection report. *)
Definition connect_ind_bytes (c : SmConnectInd) (roamed : Z) : list Z :=
  to_le 2 c.(status_code) ++ c.(connect_bssid) ++ [roamed; c.(connect_vif); c.(ap_idx)].

Lemma parse_connect_ind c roamed rest :
  in_range 16 c.(status_code) → length c.(connect_bssid) = 6%nat →
  parse_sm_connect_ind (connect_ind_bytes c roamed ++ rest) = Some c.
Proof.
  intros Hs Hb. destruct c as [s b v a]. cbn in *.
  do 6 (destruct b as [|? b]; [done|]). destruct b; [|done].
  unfold parse_sm_connect_ind. rewrite when_len_ok by (simpl; lia).
  do 2 f_equal. by etrans; [|apply (of_le_to_le_id 2); exact Hs].
Qed.

(** ** Scan results *)

(** An information element, and a run of them. *)
Abbreviation element := (Z * list Z)%type.
Definition element_bytes (e : element) : list Z := e.1 :: Z.of_nat (length e.2) :: e.2.
Definition elements_bytes (es : list element) : list Z := es ≫= element_bytes.

(** What is left when the walk stops: not even a header, or a length beyond the end. *)
Definition cut_off (rest : list Z) : Prop :=
  match rest with _ :: l :: d => (length d < Z.to_nat l)%nat | _ => True end.

(** The first SSID of at most 32 bytes. *)
Fixpoint first_ssid (es : list element) : option (list Z) :=
  match es with
  | [] => None
  | (id, d) :: es =>
      if bool_decide (id = WLAN_EID_SSID ∧ (length d ≤ 32)%nat) then Some d else first_ssid es
  end.

Lemma ssid_loop_spec es rest pre fuel :
  cut_off rest → (length (elements_bytes es ++ rest) < fuel)%nat →
  ssid_loop fuel (pre ++ elements_bytes es ++ rest) (length pre) = Ok (first_ssid es).
Proof.
  intros Hc. revert pre fuel.
  induction es as [|[i d] es IH]; intros pre [|fuel] Hf; try (simpl in Hf; lia).
  - cbn [elements_bytes mbind list_bind app] in *. cbn [ssid_loop].
    destruct rest as [|i [|l d]].
    + by rewrite bool_decide_false by solve_len.
    + by rewrite bool_decide_false by solve_len.
    + rewrite bool_decide_true by solve_len.
      rewrite (index_ok _ (length pre) i) by (by rewrite list_lookup_middle). cbn [mbind res_bind].
      rewrite (index_ok _ (length pre + 1) l) by (by rewrite lookup_app_r, Nat.add_sub' by lia).
      cbn [mbind res_bind]. simpl in Hc. by rewrite bool_decide_true by solve_len.
  - assert (E : elements_bytes ((i, d) :: es) ++ rest =
                i :: Z.of_nat (length d) :: d ++ elements_bytes es ++ rest).
    { unfold elements_bytes. cbn [mbind list_bind element_bytes fst snd app]. by rewrite <- app_assoc. }
    rewrite E in Hf |- *. clear E. cbn [ssid_loop]. rewrite bool_decide_true by solve_len.
    rewrite (index_ok _ (length pre) i) by (by rewrite list_lookup_middle). cbn [mbind res_bind].
    rewrite (index_ok _ (length pre + 1) (Z.of_nat (length d)))
      by (by rewrite lookup_app_r, Nat.add_sub' by lia).
    cbn [mbind res_bind]. rewrite Nat2Z.id, bool_decide_false by solve_len.
    cbn [first_ssid]. case_bool_decide as Hi.
    + rewrite slice_to_ok by solve_len. cbn [mbind res_bind]. do 2 f_equal.
      replace (length pre + 2 + length d - (length pre + 2))%nat with (length d) by lia.
      change (i :: Z.of_nat (length d) :: d ++ elements_bytes es ++ rest)
        with ([i; Z.of_nat (length d)] ++ d ++ elements_bytes es ++ rest).
      rewrite app_assoc. apply slice_app_mid; [solve_len|done].
    + replace (length pre + 2 + length d)%nat with (length (pre ++ i :: Z.of_nat (length d) :: d)) by solve_len.
      replace (pre ++ i :: Z.of_nat (length d) :: d ++ elements_bytes es ++ rest)
        with ((pre ++ i :: Z.of_nat (length d) :: d) ++ elements_bytes es ++ rest)
        by (by rewrite <- app_assoc).
      apply IH. solve_len.
Qed.

(** Any bytes are a run of elements and a cut-off rest. *)
Lemma elements_exist l : bytes_ok l → ∃ es rest, l = elements_bytes es ++ rest ∧ cut_off rest.
Proof.
  remember (length l) as n eqn:En. revert l En.
  induction n as [n IH] using lt_wf_ind. intros l En Hl.
  destruct l as [|i [|k d]]; [by exists [], []|by exists [], [i]|].
  apply Forall_cons in Hl as [_ [Hk Hd]%Forall_cons].
  destruct (decide (length d < Z.to_nat k)%nat); [by exists [], (i :: k :: d)|].
  destruct (IH (length (drop (Z.to_nat k) d))) with (l := drop (Z.to_nat k) d) as (es & rest & E & Hc).
  - rewrite En. solve_len.
  - done.
  - by apply Forall_drop.
  - exists ((i, take (Z.to_nat k) d) :: es), rest. split; [|done].
    unfold elements_bytes in *. cbn [mbind list_bind element_bytes fst snd app].
    rewrite length_take, Nat.min_l, Z2Nat.id, <- app_assoc, <- E, take_drop by lia. done.
Qed.

Lemma first_ssid_short es d : first_ssid es = Some d → (length d ≤ 32)%nat.
Proof.
  induction es as [|[i e] es IH]; [done|]. cbn [first_ssid]. case_bool_decide; [|done].
  intros [= <-]. by destruct_and!.
Qed.

(** A scan report: the receive header, then a management frame of 24 header bytes
    (the BSSID at 16), timestamp, beacon interval, capabilities and elements. *)
Definition scan_report (len freq rssi : Z) (fctl : list Z) (band sta inst : Z) (frame : list Z) : list Z :=
  to_le 2 len ++ fctl ++ to_le 2 freq ++ [band; sta; inst; i8_as_u8 rssi] ++ frame.

Definition mgmt_frame (head bssid seq stamp interval cap ies : list Z) : list Z :=
  head ++ bssid ++ seq ++ stamp ++ interval ++ cap ++ ies.

Definition bss_of (bssid : list Z) (freq rssi : Z) (ssid : list Z) : BssInfo :=
  mkBss bssid freq rssi (ssid ++ zeros (32 - length ssid)) (Z.of_nat (length ssid)).

(** The walk of a frame's elements, wherever the frame came from. *)
Lemma bss_info_of_frame ind pre head bssid mid ies es rest :
  ind.(payload_offset) = length pre → length head = 16%nat → length bssid = 6%nat →
  length mid = 12%nat → ies = elements_bytes es ++ rest → cut_off rest →
  parse_scan_result_to_bss_info ind (pre ++ head ++ bssid ++ mid ++ ies) =
    Ok (Some (bss_of bssid ind.(center_freq) ind.(ind_rssi) (default [] (first_ssid es)))).
Proof.
  intros Ho Hh Hb Hm -> Hc. unfold parse_scan_result_to_bss_info. rewrite Ho.
  rewrite bool_decide_false by solve_len. rewrite drop_app_length.
  do 2 rewrite bool_decide_false by (unfold BEACON_PROBERESP_FIXED; solve_len).
  rewrite (slice_app_mid 16 6) by done.
  replace (drop BEACON_PROBERESP_FIXED (head ++ bssid ++ mid ++ elements_bytes es ++ rest))
    with (elements_bytes es ++ rest).
  2:{ rewrite (app_assoc bssid), (app_assoc head). rewrite drop_app_length'; [done|].
      unfold BEACON_PROBERESP_FIXED. solve_len. }
  pose proof (ssid_loop_spec es rest [] _ Hc (Nat.lt_succ_diag_r _)) as E. cbn [app length] in E.
  rewrite E. cbn [mbind res_bind]. clear E.
  assert (length (default [] (first_ssid es)) ≤ 32)%nat.
  { destruct (first_ssid es) eqn:E; simpl; [by eapply first_ssid_short|lia]. }
  rewrite write_at_front by solve_len. cbn [mbind res_bind]. unfold zeros. by rewrite drop_replicate.
Qed.

(** A scan report is decoded to the frame's BSSID,
    the channel and the signal strength, and the walk for the SSID ends on every
    content; but the elements it walks begin two bytes early, with the capability
    field: the SSID found is the first one of the capabilities read as the head
    of an element and what follows.  When the second capability byte is 0 and the
    first is not, that is the frame's first SSID. *)
Lemma scan_result_parsed (len freq rssi band sta inst : Z) (fctl head bssid seq stamp interval : list Z)
    (c0 c1 : Z) (ies : list Z)
    (Hlen : in_range 16 len) (Hf : in_range 16 freq) (Hr : -128 ≤ rssi < 128)
    (Hfc : length fctl = 2%nat) (Hh : length head = 16%nat) (Hb : length bssid = 6%nat)
    (Hsq : length seq = 2%nat) (Hst : length stamp = 8%nat) (Hi : length interval = 2%nat)
    (Hies : bytes_ok (c0 :: c1 :: ies)) :
  let param := scan_report len freq rssi fctl band sta inst
                 (mgmt_frame head bssid seq stamp interval [c0; c1] ies) in
  ∃ ind, parse_scanu_result_ind param = Some ind ∧ ind.(ind_length) = len ∧
    (∃ es rest, c0 :: c1 :: ies = elements_bytes es ++ rest ∧ cut_off rest ∧
       parse_scan_result_to_bss_info ind param =
         Ok (Some (bss_of bssid freq rssi (default [] (first_ssid es))))) ∧
    (∀ es rest, ies = elements_bytes es ++ rest → cut_off rest → c1 = 0 → c0 ≠ 0 →
       parse_scan_result_to_bss_info ind param =
         Ok (Some (bss_of bssid freq rssi (default [] (first_ssid es))))).
Proof.
  intros param.
  set (pre := to_le 2 len ++ fctl ++ to_le 2 freq ++ [band; sta; inst; i8_as_u8 rssi]).
  assert (Ep : param = pre ++ head ++ bssid ++ (seq ++ stamp ++ interval) ++ c0 :: c1 :: ies).
  { unfold param, scan_report, mgmt_frame, pre. by rewrite <- !app_assoc. }
  assert (Lp : length pre = 10%nat) by (unfold pre; solve_len).
  exists (mkScanInd len freq rssi 10). split; [|split; [done|]].
  { rewrite Ep. unfold parse_scanu_result_ind. rewrite when_len_ok by solve_len.
    destruct fctl as [|f0 [|f1 [|]]]; try done. unfold pre. do 2 f_equal.
    - by etrans; [|apply (of_le_to_le_id 2); exact Hlen].
    - by etrans; [|apply (of_le_to_le_id 2); exact Hf].
    - by etrans; [|apply as_i8_as_u8; exact Hr]. }
  assert (B : ∀ es rest, c0 :: c1 :: ies = elements_bytes es ++ rest → cut_off rest →
    parse_scan_result_to_bss_info (mkScanInd len freq rssi 10) param =
      Ok (Some (bss_of bssid freq rssi (default [] (first_ssid es))))).
  { intros es rest He Hc. rewrite Ep.
    apply (bss_info_of_frame (mkScanInd len freq rssi 10) pre) with (rest := rest); try done. solve_len. }
  split.
  - destruct (elements_exist _ Hies) as (es & rest & He & Hc). exists es, rest.
    split; [done|]. split; [done|]. by apply (B es rest).
  - intros es rest He Hc -> Hne. rewrite (B ((c0, []) :: es) rest); [|rewrite He; reflexivity|done].
    cbn [first_ssid]. rewrite bool_decide_false; [done|]. unfold WLAN_EID_SSID. by intros [? _].
Qed.

(** A beacon of the network [net], BSSID 02:00:00:00:00:01, with the capability
    field [cap]. *)
Definition sample_beacon (cap : list Z) (net : list Z) : list Z :=
  mgmt_frame ([0x80; 0; 0; 0] ++ MAC_BCST ++ [2; 0; 0; 0; 0; 1]) [2; 0; 0; 0; 0; 1] [0x10; 0]
    (zeros 8) [100; 0] cap (elements_bytes [(0, net); (1, [0x82; 0x84])]).

Lemma scan_result_parsed_witness :
  let param := scan_report 60 2437 (-40) [0x80; 0] 0 0 0 (sample_beacon [0x11; 0x00] [0x68; 0x6f; 0x6d; 0x65]) in
  ∃ ind, parse_scanu_result_ind param = Some ind ∧
    parse_scan_result_to_bss_info ind param =
      Ok (Some (bss_of [2; 0; 0; 0; 0; 1] 2437 (-40) [0x68; 0x6f; 0x6d; 0x65])).
Proof.
  intros param. unfold param, sample_beacon.
  destruct (scan_result_parsed 60 2437 (-40) 0 0 0 [0x80; 0] ([0x80; 0; 0; 0] ++ MAC_BCST ++ [2; 0; 0; 0; 0; 1])
    [2; 0; 0; 0; 0; 1] [0x10; 0] (zeros 8) [100; 0] 0x11 0x00
    (elements_bytes [(0, [0x68; 0x6f; 0x6d; 0x65]); (1, [0x82; 0x84])])) as (ind & E1 & _ & _ & E2);
    first [reflexivity|lia|(unfold in_range; lia)|apply (bool_decide_unpack _); reflexivity|idtac].
  exists ind. split; [exact E1|].
  apply (E2 [(0, [0x68; 0x6f; 0x6d; 0x65]); (1, [0x82; 0x84])] []); done.
Defined.

(** An access point that announces ESS, privacy and
    short slot time (capabilities 0x0411) is reported without its SSID: its
    four-byte network name, found when the second capability byte is 0, comes out
    empty, because that byte is taken for the length of an element. *)
Lemma scan_ssid_lost :
  let net := [0x68; 0x6f; 0x6d; 0x65] in
  let scan cap := scan_report 60 2437 (-40) [0x80; 0] 0 0 0 (sample_beacon cap net) in
  let ssid_of cap := ind ← ok_or (parse_scanu_result_ind (scan cap)) 0;
                     b ← parse_scan_result_to_bss_info ind (scan cap);
                     b ← ok_or b 0; Ok (take (Z.to_nat b.(ssid_len)) b.(ssid)) in
  ssid_of [0x11; 0x00] = Ok net ∧ ssid_of [0x11; 0x04] = Ok [].
Proof. vm_compute. done. Qed.
