(* ===== verification/E2a.v ===== *)
(** * Indications to callbacks: [driver/fdrv/src/e2a_dispatch.rs], [ipc.rs]

    The handler the control plane registers with the BSP, which hands each
    indication of the firmware to the callback registered for it. *)

From S2P Require Import Prelude CmdMgr FwLoad Rx Ieee80211 LmacCmd.
Import Lmac.

Section e2a.
Context {U : Type}.

(** driver/fdrv/src/e2a_dispatch.rs:32-37 [SCAN_RESULT_CB, SCAN_DONE_CB, CONNECT_RESULT_CB,
    DISCONNECT_CB, PS_CHANGE_CB, RSSI_STATUS_CB], also driver/fdrv/src/e2a_dispatch.rs:14-30 *)
Record Callbacks := mkCallbacks {
  scan_result_cb : option (ScanuResultInd → list Z → U → U);
  scan_done_cb : option (U → U);
  connect_result_cb : option (SmConnectInd → U → U);
  disconnect_cb : option (SmDisconnectInd → U → U);
  ps_change_cb : option (MmPsChangeInd → U → U);
  rssi_status_cb : option (MmRssiStatusInd → U → U) }.

Definition no_callbacks : Callbacks := mkCallbacks None None None None None None.

(** driver/fdrv/src/e2a_dispatch.rs:40-45 [set_scan_result_cb] *)
Definition set_scan_result_cb f (c : Callbacks) : Callbacks :=
  mkCallbacks f c.(scan_done_cb) c.(connect_result_cb) c.(disconnect_cb) c.(ps_change_cb) c.(rssi_status_cb).
(** driver/fdrv/src/e2a_dispatch.rs:48-53 [set_scan_done_cb] *)
Definition set_scan_done_cb f (c : Callbacks) : Callbacks :=
  mkCallbacks c.(scan_result_cb) f c.(connect_result_cb) c.(disconnect_cb) c.(ps_change_cb) c.(rssi_status_cb).
(** driver/fdrv/src/e2a_dispatch.rs:56-61 [set_connect_result_cb] *)
Definition set_connect_result_cb f (c : Callbacks) : Callbacks :=
  mkCallbacks c.(scan_result_cb) c.(scan_done_cb) f c.(disconnect_cb) c.(ps_change_cb) c.(rssi_status_cb).
(** driver/fdrv/src/e2a_dispatch.rs:64-69 [set_disconnect_cb] *)
Definition set_disconnect_cb f (c : Callbacks) : Callbacks :=
  mkCallbacks c.(scan_result_cb) c.(scan_done_cb) c.(connect_result_cb) f c.(ps_change_cb) c.(rssi_status_cb).
(** driver/fdrv/src/e2a_dispatch.rs:72-77 [set_ps_change_cb] *)
Definition set_ps_change_cb f (c : Callbacks) : Callbacks :=
  mkCallbacks c.(scan_result_cb) c.(scan_done_cb) c.(connect_result_cb) c.(disconnect_cb) f c.(rssi_status_cb).
(** driver/fdrv/src/e2a_dispatch.rs:80-85 [set_rssi_status_cb] *)
Definition set_rssi_status_cb f (c : Callbacks) : Callbacks :=
  mkCallbacks c.(scan_result_cb) c.(scan_done_cb) c.(connect_result_cb) c.(disconnect_cb) c.(ps_change_cb) f.

(** A parsed indication to its callback, where there are both. *)
Definition call {A} (ind : option A) (cb : option (A → U → U)) (u : U) : U :=
  match ind, cb with Some i, Some f => f i u | _, _ => u end.

(** driver/fdrv/src/e2a_dispatch.rs:89-150 [e2a_indication_handler] *)
Definition e2a_indication_handler (c : Callbacks) (msg_id : Z) (param : list Z) (u : U) : U :=
  if bool_decide (length param = 0)%nat then u
  else if bool_decide (msg_id = SCANU_RESULT_IND)
  then call (parse_scanu_result_ind param) ((λ f ind, f ind param) <$> c.(scan_result_cb)) u
  else if bool_decide (msg_id = SCANU_START_CFM) then from_option (λ f, f u) u c.(scan_done_cb)
  else if bool_decide (msg_id = SM_CONNECT_IND)
  then call (parse_sm_connect_ind param) c.(connect_result_cb) u
  else if bool_decide (msg_id = SM_DISCONNECT_IND)
  then call (parse_sm_disconnect_ind param) c.(disconnect_cb) u
  else if bool_decide (msg_id = MM_PS_CHANGE_IND)
  then call (parse_mm_ps_change_ind param) c.(ps_change_cb) u
  else if bool_decide (msg_id = MM_RSSI_STATUS_IND)
  then call (parse_mm_rssi_status_ind param) c.(rssi_status_cb) u
  else u.
End e2a.
Arguments Callbacks : clear implicits.

(** The listener the BSP calls: the handler over the callbacks registered. *)
Definition e2a_client {U} (cbs : Callbacks U) (u : U) (data : option (list Z → U → U)) : Rx.Client U :=
  Rx.mkClient u (Some (e2a_indication_handler cbs)) data.

(** ** What reaches the callbacks *)

Inductive event :=
  | EScanResult (ind : ScanuResultInd) (param : list Z)
  | EScanDone
  | EConnect (ind : SmConnectInd)
  | EDisconnect (ind : SmDisconnectInd)
  | EPsChange (ind : MmPsChangeInd)
  | ERssi (ind : MmRssiStatusInd).

(** The identifiers listened to, and what each makes of its parameters. *)
Definition listened : list (Z * (list Z → option event)) := [
  (SCANU_RESULT_IND, λ p, (λ i, EScanResult i p) <$> parse_scanu_result_ind p);
  (SCANU_START_CFM, λ _, Some EScanDone);
  (SM_CONNECT_IND, λ p, EConnect <$> parse_sm_connect_ind p);
  (SM_DISCONNECT_IND, λ p, EDisconnect <$> parse_sm_disconnect_ind p);
  (MM_PS_CHANGE_IND, λ p, EPsChange <$> parse_mm_ps_change_ind p);
  (MM_RSSI_STATUS_IND, λ p, ERssi <$> parse_mm_rssi_status_ind p)].

Fixpoint heard (id : Z) (l : list (Z * (list Z → option event))) (param : list Z) : option event :=
  match l with
  | [] => None
  | (x, f) :: l => if bool_decide (id = x) then f param else heard id l param
  end.

Definition event_of (id : Z) (param : list Z) : option event :=
  match param with [] => None | _ => heard id listened param end.

(** Callbacks that note what they are called with, the latest first. *)
Definition recorder : Callbacks (list event) :=
  mkCallbacks (Some (λ i p, cons (EScanResult i p))) (Some (cons EScanDone))
    (Some (λ i, cons (EConnect i))) (Some (λ i, cons (EDisconnect i)))
    (Some (λ i, cons (EPsChange i))) (Some (λ i, cons (ERssi i))).

Lemma handler_event id param log :
  e2a_indication_handler recorder id param log = from_option (λ e, e :: log) log (event_of id param).
Proof.
  unfold e2a_indication_handler, event_of. destruct param as [|b param]; [done|].
  rewrite bool_decide_false by done. set (p := b :: param). unfold listened. cbn [heard].
  repeat (case_bool_decide; [unfold call, recorder; cbn|]); try done.
  - by destruct (parse_scanu_result_ind p).
  - by destruct (parse_sm_connect_ind p).
  - by destruct (parse_sm_disconnect_ind p).
  - by destruct (parse_mm_ps_change_ind p).
  - by destruct (parse_mm_rssi_status_ind p).
Qed.

Definition frame_event (f : Rx.frame) : option event :=
  match f with
  | Rx.FCfm _ _ _ _ id _ _ _ param => event_of id param
  | Rx.FData _ _ _ => None
  end.



(** ** The command path of the IPC layer *)
Module Ipc.

(** driver/bsp/src/cmd.rs:12-19 [IpcE2AMsg]; the parameters are an array of 256 words *)
Record IpcE2AMsg := mkE2A {
  e2a_id : Z; dummy_dest_id : Z; dummy_src_id : Z; e2a_param_len : Z; pattern : Z; e2a_param : list Z }.

(** driver/bsp/src/cmd.rs:21-32 [IpcE2AMsg::default] *)
Definition ipc_e2a_msg_default : IpcE2AMsg := mkE2A 0 0 0 0 0 (zeros IPC_E2A_MSG_PARAM_SIZE).

(** driver/fdrv/src/ipc.rs:11-11 [CMD_TX_BUF_SIZE] *)
Definition CMD_TX_BUF_SIZE : nat := 8 + LMAC_MSG_MAX_LEN.

(** driver/fdrv/src/ipc.rs:15-34 [IpcHostCb], which nothing in the repository implements; [S] is what it works on,
    [host_id] a pointer *)
Class IpcHostCb (S : Type) := {
  send_data_cfm : Z → st S Z; recv_data_ind : Z → st S Z; recv_radar_ind : Z → st S Z;
  recv_unsup_rx_vec_ind : Z → st S Z; recv_msg_ind : Z → st S Z; recv_msgack_ind : Z → st S Z;
  recv_dbg_ind : Z → st S Z; prim_tbtt_ind : st S (); sec_tbtt_ind : st S () }.

(** driver/fdrv/src/ipc.rs:37-46 [ipc_handle_e2a_msg] *)
Definition ipc_handle_e2a_msg (msg : IpcE2AMsg) (m : Mgr.t) : Mgr.t :=
  let len := Nat.min (Z.to_nat msg.(e2a_param_len)) (IPC_E2A_MSG_PARAM_SIZE * 4) in
  let param_bytes := take len (msg.(e2a_param) ≫= to_le 4) in
  (Mgr.on_cfm msg.(e2a_id) param_bytes m).1.

(** driver/fdrv/src/ipc.rs:51-66 [ipc_send_cmd_sync] *)
Definition ipc_send_cmd_sync {E} (tx_fn : LmacMsg → st E ()) (poll_fn : Mgr.t → E → Mgr.t * E)
    (pause : E → E) (msg : LmacMsg) (reqid timeout_ms : Z) : st (Mgr.t * E) () :=
  token ← Load.request tx_fn reqid msg;
  Load.wait poll_fn pause None token timeout_ms.
End Ipc.
