(* ===== verification/Wiphy.v ===== *)
(** * The control plane: [driver/fdrv/src/wiphy.rs], [wiphy_impl.rs], [platform.rs]

    Each operation builds a request, sends it through the BSP, waits for its
    confirmation and updates the tables of keys, stations, powers and channels. *)

From stdpp Require Import gmap.
From S2P Require Import Prelude CmdMgr Chip Host SdioOps FwLoad Mmc Rx Flow FwInit Ieee80211 LmacCmd E2a Power.

(** driver/fdrv/src/wiphy_impl.rs:28-28 [MAX_VIF] *)
Definition MAX_VIF : nat := 4.
(** driver/fdrv/src/wiphy_impl.rs:30-30 [MAX_KEYS_PER_VIF] *)
Definition MAX_KEYS_PER_VIF : nat := 8.
(** driver/fdrv/src/wiphy_impl.rs:32-32 [STA_TABLE_LEN] *)
Definition STA_TABLE_LEN : nat := 16.

(** ** The operations *)

(** driver/fdrv/src/wiphy.rs:47-76 [WiphyOps]; [S] is what the operations work on *)
Class WiphyOps (S : Type) := {
  add_interface : Nl80211Iftype → st S Z;
  del_interface : Z → st S ();
  scan : Z → st S ();
  connect : Z → list Z → option (list Z) → st S ();
  disconnect : Z → st S ();
  start_ap : Z → list Z → Z → st S ();
  stop_ap : Z → st S ();
  add_key : Z → Z → list Z → st S ();
  del_key : Z → Z → st S ();
  set_default_key : Z → Z → st S ();
  get_key : Z → Z → st S KeyStatus;
  set_default_mgmt_key : Z → Z → st S ();
  get_station : Z → list Z → st S StationInfo;
  add_station : Z → list Z → st S ();
  del_station : Z → Z → st S ();
  set_tx_power : Z → Z → st S ();
  get_tx_power : Z → st S Z;
  get_channel : Z → st S Z;
  set_power_mgmt : Z → bool → st S ();
  set_wiphy_params : option Z → option Z → st S () }.

(** driver/fdrv/src/wiphy.rs:80-174 [WiphyOpsStub] *)
Definition WiphyOpsStub : WiphyOps () := {|
  add_interface := λ _, mret 0; del_interface := λ _, mret ();
  scan := λ _, st_err (-38); connect := λ _ _ _, st_err (-38); disconnect := λ _, mret ();
  start_ap := λ _ _ _, st_err (-38); stop_ap := λ _, mret ();
  add_key := λ _ _ _, st_err (-38); del_key := λ _ _, st_err (-38);
  set_default_key := λ _ _, mret (); get_key := λ _ _, st_err (-38);
  set_default_mgmt_key := λ _ _, mret (); get_station := λ _ _, st_err (-38);
  add_station := λ _ _, st_err (-38); del_station := λ _ _, st_err (-38);
  set_tx_power := λ _ _, st_err (-38); get_tx_power := λ _, st_err (-38);
  get_channel := λ _, st_err (-61); set_power_mgmt := λ _ _, mret ();
  set_wiphy_params := λ _ _, st_err (-38) |}.

(** ** The tables *)

(** driver/fdrv/src/wiphy_impl.rs:36-40 [StaEntry] *)
Record StaEntry := mkSta { sta_mac : list Z; sta_idx : Z; sta_used : bool }.

(** driver/fdrv/src/wiphy_impl.rs:43-54 [WiphyState], also driver/fdrv/src/wiphy_impl.rs:130-132 [WiphyOpsImpl] *)
Record WiphyState := mkWiphy {
  key_hw : list (list (option Z));
  default_key : list (option Z);
  default_mgmt_key : list (option Z);
  sta_table : list StaEntry;
  last_tx_power_dbm : list (option Z);
  current_channel : list (option Z) }.

(** driver/fdrv/src/wiphy_impl.rs:56-67 [WiphyState::default], also driver/fdrv/src/wiphy_impl.rs:134-140 [WiphyOpsImpl::new] *)
Definition wiphy_new : WiphyState :=
  mkWiphy (replicate MAX_VIF (replicate MAX_KEYS_PER_VIF None)) (replicate MAX_VIF None)
    (replicate MAX_VIF None) (replicate STA_TABLE_LEN (mkSta (zeros 6) 0 false))
    (replicate MAX_VIF None) (replicate MAX_VIF None).

Definition set_key_hw (vif key : nat) (x : option Z) (s : WiphyState) : WiphyState :=
  mkWiphy (alter (<[key := x]>) vif s.(key_hw)) s.(default_key) s.(default_mgmt_key) s.(sta_table)
    s.(last_tx_power_dbm) s.(current_channel).
Definition upd_default_key (vif : nat) (x : Z) (s : WiphyState) : WiphyState :=
  mkWiphy s.(key_hw) (<[vif := Some x]> s.(default_key)) s.(default_mgmt_key) s.(sta_table)
    s.(last_tx_power_dbm) s.(current_channel).
Definition upd_default_mgmt_key (vif : nat) (x : Z) (s : WiphyState) : WiphyState :=
  mkWiphy s.(key_hw) s.(default_key) (<[vif := Some x]> s.(default_mgmt_key)) s.(sta_table)
    s.(last_tx_power_dbm) s.(current_channel).
Definition set_sta_table (x : list StaEntry) (s : WiphyState) : WiphyState :=
  mkWiphy s.(key_hw) s.(default_key) s.(default_mgmt_key) x s.(last_tx_power_dbm) s.(current_channel).
Definition upd_tx_power (vif : nat) (x : Z) (s : WiphyState) : WiphyState :=
  mkWiphy s.(key_hw) s.(default_key) s.(default_mgmt_key) s.(sta_table)
    (<[vif := Some x]> s.(last_tx_power_dbm)) s.(current_channel).
Definition upd_channel (vif : nat) (x : Z) (s : WiphyState) : WiphyState :=
  mkWiphy s.(key_hw) s.(default_key) s.(default_mgmt_key) s.(sta_table) s.(last_tx_power_dbm)
    (<[vif := Some x]> s.(current_channel)).

(** driver/fdrv/src/wiphy_impl.rs:143-154 [WiphyOpsImpl::register_sta_from_connect_ind], the scan of the table *)
Fixpoint register_in (mac : list Z) (ap_idx : Z) (t : list StaEntry) : list StaEntry :=
  match t with
  | [] => []
  | e :: t =>
      if negb e.(sta_used) then mkSta mac ap_idx true :: t
      else if bool_decide (e.(sta_mac) = mac) then mkSta e.(sta_mac) ap_idx e.(sta_used) :: t
      else e :: register_in mac ap_idx t
  end.

(** driver/fdrv/src/wiphy_impl.rs:142-155 [WiphyOpsImpl::register_sta_from_connect_ind] *)
Definition register_sta_from_connect_ind (bssid : list Z) (ap_idx : Z) (s : WiphyState) : WiphyState :=
  set_sta_table (register_in bssid ap_idx s.(sta_table)) s.

(** driver/fdrv/src/wiphy_impl.rs:159-164 [WiphyOpsImpl::unregister_sta_by_mac], the scan of the table *)
Fixpoint unregister_in (mac : list Z) (t : list StaEntry) : list StaEntry :=
  match t with
  | [] => []
  | e :: t =>
      if bool_decide (e.(sta_used) = true ∧ e.(sta_mac) = mac)
      then mkSta e.(sta_mac) e.(sta_idx) false :: t
      else e :: unregister_in mac t
  end.

(** driver/fdrv/src/wiphy_impl.rs:158-165 [WiphyOpsImpl::unregister_sta_by_mac] *)
Definition unregister_sta_by_mac (mac : list Z) (s : WiphyState) : WiphyState :=
  set_sta_table (unregister_in mac s.(sta_table)) s.

(** driver/fdrv/src/wiphy_impl.rs:168-173 [WiphyOpsImpl::lookup_sta_idx], the scan of the table *)
Fixpoint lookup_in (mac : list Z) (t : list StaEntry) : option Z :=
  match t with
  | [] => None
  | e :: t =>
      if bool_decide (e.(sta_used) = true ∧ e.(sta_mac) = mac) then Some e.(sta_idx)
      else lookup_in mac t
  end.

(** driver/fdrv/src/wiphy_impl.rs:167-174 [WiphyOpsImpl::lookup_sta_idx] *)
Definition lookup_sta_idx (mac : list Z) (s : WiphyState) : option Z := lookup_in mac s.(sta_table).

(** driver/fdrv/src/wiphy_impl.rs:176-185 [WiphyOpsImpl::fill_station_info_from_cfm] *)
Definition fill_station_info_from_cfm (c : MmGetStaInfoCfm) : StationInfo :=
  mkStation (Z.lor (Z.lor TX_BITRATE TX_FAILED) SIGNAL) c.(info_rssi) c.(rate_info) c.(rate_info)
    0 0 c.(txfailed) 0 0 0.

(** ** The operations over the BSP *)
Section wiphy.
Context {W C : Type} `{SdioHost W} `{Clock W} `{Sched W}.
(** The bound on the waits for the sending thread. *)
Context (wakeups : nat).

Abbreviation Bsp := (Bsp (W := W) (C := C)).
(** What an operation works on: the tables and the BSP. *)
Abbreviation Ctl := (WiphyState * Bsp)%type.

Definition on_bsp {A} (f : st Bsp A) : st Ctl A := λ '(s, b), let '(r, b) := f b in (r, (s, b)).
Definition upd (f : WiphyState → WiphyState) : st Ctl () := λ '(s, b), (Ok (), (f s, b)).
Definition tables : st Ctl WiphyState := λ '(s, b), (Ok s, (s, b)).

(** driver/fdrv/src/wiphy_impl.rs:70-80 [ipc_send_len_8801] *)
Definition ipc_send_len_8801 (serialized_len : nat) : nat :=
  let len4 := ((serialized_len + 4 - 1) / 4 * 4)%nat in
  if bool_decide (len4 mod 512 = 0)%nat then len4 else ((len4 + 4 + 512 - 1) / 512 * 512)%nat.

(** The driver's copy of the rule is the BSP's. *)
Lemma ipc_send_len_8801_bsp n : ipc_send_len_8801 n = Pad.ipc_send_len_8801 n.
Proof. done. Qed.

(** driver/fdrv/src/wiphy_impl.rs:91-127 [send_lmac_cmd_and_wait_cfm_with_buf];
    the confirmation's length with the buffer *)
Definition send_lmac_cmd_and_wait_cfm_with_buf (msg : Lmac.LmacMsg) (cfm_id timeout_ms : Z)
    (cfm_buf : list Z) : st Bsp (nat * list Z) :=
  b ← st_get;
  product_id ← st_lift (ok_or (aicbsp_current_product_id b) (-22));
  '(buf, len) ← st_lift (serialize_for product_id msg 512);
  let send_len := if bool_decide (product_id = Aic8801) then ipc_send_len_8801 len else len in
  if bool_decide (length buf < send_len)%nat then st_err (-22)
  else
    buf ← st_lift (if bool_decide (len < send_len)%nat then Pad.fill len send_len buf else Ok buf);
    token ← push_slot cfm_id;
    data ← st_lift (slice_to 0 send_len buf);
    _ ← submit_cmd_tx_and_wait_tx_done wakeups data send_len;
    _ ← wait_slot timeout_ms token None (Some (effect run_poll_rx_one)) None;
    taken ← with_cmd_mgr (Mgr.take_cfm token cfm_buf);
    st_lift (ok_or (mjoin taken) (-5)).

(** driver/fdrv/src/wiphy_impl.rs:82-88 [send_lmac_cmd_and_wait_cfm] *)
Definition send_lmac_cmd_and_wait_cfm (msg : Lmac.LmacMsg) (cfm_id timeout_ms : Z) : st Bsp () :=
  _ ← send_lmac_cmd_and_wait_cfm_with_buf msg cfm_id timeout_ms (zeros 64); mret ().

(** An operation's exchange: the request built, sent, and the [n] bytes of the
    confirmation with the buffer of [cap] bytes they were written to. *)
Definition exchange (r : request) (cfm_id : Z) (cap : nat) : st Ctl (nat * list Z) :=
  msg ← st_lift (build r);
  msg ← st_lift (ok_or msg (-22));
  on_bsp (send_lmac_cmd_and_wait_cfm_with_buf msg cfm_id Mgr.RWNX_80211_CMD_TIMEOUT_MS (zeros cap)).

Definition u8 (iface_id : Z) : Z := wrap 8 iface_id.

(** driver/fdrv/src/wiphy_impl.rs:190-196 [WiphyOpsImpl::add_interface], the type of the interface *)
Definition vif_type (t : Nl80211Iftype) : MacVifType :=
  match t with
  | Station => VifSta | Ap => VifAp | AdHoc => VifIbss | Monitor => VifMonitor | _ => VifSta
  end.

(** driver/fdrv/src/wiphy_impl.rs:189-207 [WiphyOpsImpl::add_interface] *)
Definition impl_add_interface (iface_type : Nl80211Iftype) : st Ctl Z :=
  '(_, cfm_buf) ← exchange (RAddIf (vif_type iface_type) (zeros 6) false) Lmac.MM_ADD_IF_CFM 8;
  cfm ← st_lift (ok_or (parse_mm_add_if_cfm cfm_buf) (-5));
  if bool_decide (cfm.(add_status) ≠ 0) then st_err (-5) else mret cfm.(inst_nbr).

(** driver/fdrv/src/wiphy_impl.rs:209-214 [WiphyOpsImpl::del_interface] *)
Definition impl_del_interface (iface_id : Z) : st Ctl () :=
  _ ← exchange (RRemoveIf (u8 iface_id)) Lmac.MM_REMOVE_IF_CFM 64; mret ().

(** driver/fdrv/src/wiphy_impl.rs:216-221 [WiphyOpsImpl::scan] *)
Definition impl_scan (iface_id : Z) : st Ctl () :=
  _ ← exchange (RScan (u8 iface_id) 0) Lmac.SCANU_START_CFM 64; mret ().

(** driver/fdrv/src/wiphy_impl.rs:223-243 [WiphyOpsImpl::connect] *)
Definition impl_connect (iface_id : Z) (ssid : list Z) (bssid : option (list Z)) : st Ctl () :=
  '(n, cfm_buf) ← exchange (RConnect (u8 iface_id) ssid bssid None) Lmac.SM_CONNECT_CFM 8;
  cfm ← st_lift (slice_to 0 n cfm_buf);
  match default 0xff (parse_sm_connect_cfm cfm) with
  | 0 => mret ()
  | 8 => st_err (-115)
  | 9 => st_err (-114)
  | _ => st_err (-5)
  end.

(** driver/fdrv/src/wiphy_impl.rs:245-250 [WiphyOpsImpl::disconnect] *)
Definition impl_disconnect (iface_id : Z) : st Ctl () :=
  _ ← exchange (RDisconnect (u8 iface_id) 3) Lmac.SM_DISCONNECT_CFM 64; mret ().

(** driver/fdrv/src/wiphy_impl.rs:254-254 [basic_rates] *)
Definition basic_rates : list Z := [0x82; 0x84; 0x8b; 0x96].

(** driver/fdrv/src/wiphy_impl.rs:263-271 [WiphyOpsImpl::start_ap], the tables *)
Definition ap_started (vif_idx : nat) (channel : Z) (cfm : ApmStartCfm) (s : WiphyState) : WiphyState :=
  let s := if bool_decide (cfm.(bcmc_idx) < Z.of_nat STA_TABLE_LEN)
           then set_sta_table (<[Z.to_nat cfm.(bcmc_idx) := mkSta MAC_BCST cfm.(bcmc_idx) true]> s.(sta_table)) s
           else s in
  if bool_decide (vif_idx < MAX_VIF)%nat then upd_channel vif_idx channel s else s.

(** driver/fdrv/src/wiphy_impl.rs:252-274 [WiphyOpsImpl::start_ap] *)
Definition impl_start_ap (iface_id : Z) (ssid : list Z) (channel : Z) : st Ctl () :=
  let vif_idx := Z.to_nat iface_id in
  '(_, cfm_buf) ← exchange (RApmStart (u8 iface_id) channel 100 basic_rates) Lmac.APM_START_CFM 32;
  cfm ← st_lift (ok_or (parse_apm_start_cfm cfm_buf) (-5));
  if bool_decide (cfm.(apm_status) ≠ 0) then st_err (-5)
  else upd (ap_started vif_idx channel cfm).

(** driver/fdrv/src/wiphy_impl.rs:276-281 [WiphyOpsImpl::stop_ap] *)
Definition impl_stop_ap (iface_id : Z) : st Ctl () :=
  _ ← exchange (RApmStop (u8 iface_id)) Lmac.APM_STOP_CFM 64; mret ().

(** driver/fdrv/src/wiphy_impl.rs:283-301 [WiphyOpsImpl::add_key] *)
Definition impl_add_key (iface_id key_index : Z) (key_data : list Z) : st Ctl () :=
  let vif_idx := u8 iface_id in
  mac_cipher ← st_lift (ok_or (wlan_cipher_to_mac wlan_cipher_suite.CCMP) (-22));
  '(n, cfm_buf) ← exchange (RKeyAdd vif_idx key_index 0xFF key_data mac_cipher false) Lmac.MM_KEY_ADD_CFM 8;
  cfm ← st_lift (slice_to 0 n cfm_buf);
  cfm ← st_lift (ok_or (parse_mm_key_add_cfm cfm) (-5));
  if bool_decide (cfm.(key_status) ≠ 0) then st_err (-5)
  else if bool_decide (Z.to_nat vif_idx < MAX_VIF ∧ Z.to_nat key_index < MAX_KEYS_PER_VIF)%nat
  then upd (set_key_hw (Z.to_nat vif_idx) (Z.to_nat key_index) (Some cfm.(hw_key_idx)))
  else mret ().

Definition key_at (vif key : nat) (s : WiphyState) : option Z :=
  mjoin (s.(key_hw) !! vif ≫= (.!! key)).

(** driver/fdrv/src/wiphy_impl.rs:303-315 [WiphyOpsImpl::del_key] *)
Definition impl_del_key (iface_id key_index : Z) : st Ctl () :=
  let vif_idx := Z.to_nat iface_id in
  let key := Z.to_nat key_index in
  s ← tables;
  hw_key_idx ← st_lift (if bool_decide (vif_idx < MAX_VIF ∧ key < MAX_KEYS_PER_VIF)%nat
                        then ok_or (key_at vif_idx key s) (-2) else Err (-2));
  _ ← exchange (RKeyDel hw_key_idx) Lmac.MM_KEY_DEL_CFM 64;
  upd (set_key_hw vif_idx key None).

(** driver/fdrv/src/wiphy_impl.rs:317-322 [WiphyOpsImpl::set_default_key] *)
Definition impl_set_default_key (iface_id key_index : Z) : st Ctl () :=
  if bool_decide (Z.to_nat iface_id < MAX_VIF)%nat
  then upd (upd_default_key (Z.to_nat iface_id) key_index) else mret ().

(** driver/fdrv/src/wiphy_impl.rs:324-334 [WiphyOpsImpl::get_key] *)
Definition impl_get_key (iface_id key_index : Z) : st Ctl KeyStatus :=
  if bool_decide (MAX_VIF ≤ Z.to_nat iface_id ∨ MAX_KEYS_PER_VIF ≤ Z.to_nat key_index)%nat
  then st_err (-22)
  else s ← tables;
       mret (mkKeyStatus (bool_decide (is_Some (key_at (Z.to_nat iface_id) (Z.to_nat key_index) s))) 0).

(** driver/fdrv/src/wiphy_impl.rs:336-343 [WiphyOpsImpl::set_default_mgmt_key] *)
Definition impl_set_default_mgmt_key (iface_id key_index : Z) : st Ctl () :=
  if bool_decide (MAX_VIF ≤ Z.to_nat iface_id)%nat then st_err (-22)
  else upd (upd_default_mgmt_key (Z.to_nat iface_id) key_index).

(** driver/fdrv/src/wiphy_impl.rs:345-352 [WiphyOpsImpl::get_station] *)
Definition impl_get_station (mac : list Z) : st Ctl StationInfo :=
  s ← tables;
  sta_idx ← st_lift (ok_or (lookup_sta_idx mac s) (-2));
  '(n, cfm_buf) ← exchange (RGetStaInfo sta_idx) Lmac.MM_GET_STA_INFO_CFM 64;
  cfm ← st_lift (slice_to 0 n cfm_buf);
  cfm ← st_lift (ok_or (parse_mm_get_sta_info_cfm cfm) (-5));
  mret (fill_station_info_from_cfm cfm).

(** The status of a confirmation, by its parser. *)
Definition status_ok (parse : list Z → option Z) (n : nat) (cfm_buf : list Z) : st Ctl () :=
  cfm ← st_lift (slice_to 0 n cfm_buf);
  if bool_decide (default 0xff (parse cfm) ≠ 0) then st_err (-5) else mret ().

(** driver/fdrv/src/wiphy_impl.rs:354-364 [WiphyOpsImpl::add_station] *)
Definition impl_add_station (iface_id : Z) (mac : list Z) : st Ctl () :=
  '(n, cfm_buf) ← exchange (RStaAdd (u8 iface_id) mac) Lmac.MM_STA_ADD_CFM 8;
  status_ok parse_mm_sta_add_cfm n cfm_buf.

(** driver/fdrv/src/wiphy_impl.rs:366-375 [WiphyOpsImpl::del_station] *)
Definition impl_del_station (sta_idx : Z) : st Ctl () :=
  '(n, cfm_buf) ← exchange (RStaDel sta_idx) Lmac.MM_STA_DEL_CFM 8;
  status_ok parse_mm_sta_del_cfm n cfm_buf.

(** driver/fdrv/src/wiphy_impl.rs:383-387 [WiphyOpsImpl::set_tx_power], mBm to dBm; Rust's division
    rounds towards zero *)
Definition power_dbm_of (power : Z) : Z :=
  if bool_decide (power = 2147483647 ∨ 12700 ≤ power) then 0x7f else as_i8 (Z.quot power 100).

(** driver/fdrv/src/wiphy_impl.rs:377-395 [WiphyOpsImpl::set_tx_power] *)
Definition impl_set_tx_power (iface_id power : Z) : st Ctl () :=
  let vif_idx := Z.to_nat iface_id in
  if bool_decide (MAX_VIF ≤ vif_idx)%nat then st_err (-22)
  else
    let power_dbm := power_dbm_of power in
    '(n, cfm_buf) ← exchange (RSetPower (u8 iface_id) power_dbm) Lmac.MM_SET_POWER_CFM 8;
    cfm ← st_lift (slice_to 0 n cfm_buf);
    _ ← st_lift (ok_or (parse_mm_set_power_cfm cfm) (-5));
    upd (upd_tx_power vif_idx power_dbm).

(** driver/fdrv/src/wiphy_impl.rs:397-403 [WiphyOpsImpl::get_tx_power] *)
Definition impl_get_tx_power (iface_id : Z) : st Ctl Z :=
  if bool_decide (MAX_VIF ≤ Z.to_nat iface_id)%nat then st_err (-22)
  else s ← tables; mret (default 0 (mjoin (s.(last_tx_power_dbm) !! Z.to_nat iface_id)) * 100).

(** driver/fdrv/src/wiphy_impl.rs:405-411 [WiphyOpsImpl::get_channel] *)
Definition impl_get_channel (iface_id : Z) : st Ctl Z :=
  if bool_decide (MAX_VIF ≤ Z.to_nat iface_id)%nat then st_err (-22)
  else s ← tables; st_lift (ok_or (mjoin (s.(current_channel) !! Z.to_nat iface_id)) (-61)).

(** driver/fdrv/src/wiphy_impl.rs:188-421 [WiphyOps for WiphyOpsImpl] *)
#[export] Instance WiphyOpsImpl : WiphyOps Ctl := {|
  add_interface := impl_add_interface; del_interface := impl_del_interface;
  scan := impl_scan; connect := impl_connect; disconnect := impl_disconnect;
  start_ap := impl_start_ap; stop_ap := impl_stop_ap;
  add_key := impl_add_key; del_key := impl_del_key; set_default_key := impl_set_default_key;
  get_key := impl_get_key; set_default_mgmt_key := impl_set_default_mgmt_key;
  get_station := λ _, impl_get_station; add_station := impl_add_station;
  del_station := λ _, impl_del_station; set_tx_power := impl_set_tx_power;
  get_tx_power := impl_get_tx_power; get_channel := impl_get_channel;
  set_power_mgmt := λ _ _, mret (); set_wiphy_params := λ _ _, st_err (-38) |}.

(** *** The platform: the one instance of the control plane *)

(** driver/fdrv/src/platform.rs:13-15 [PLATFORM_WIPHY, DEFAULT_IFACE_ID]; with the BSP below *)
Record Platform := mkPlatform {
  platform_wiphy : option WiphyState; default_iface_id : option Z; platform_bsp : Bsp }.

(** driver/fdrv/src/platform.rs:51-54 [with_wiphy_mut] *)
Definition with_wiphy_mut {A} (f : st Ctl A) : st Platform (option (res A)) := λ p,
  match p.(platform_wiphy) with
  | Some s =>
      let '(r, (s, b)) := f (s, p.(platform_bsp)) in
      (match r with Panic => Panic | r => Ok (Some r) end, mkPlatform (Some s) p.(default_iface_id) b)
  | None => (Ok None, p)
  end.

(** driver/fdrv/src/platform.rs:44-46 [default_interface_id] *)
Definition default_interface_id (p : Platform) : option Z := p.(default_iface_id).

(** The handler of [e2a_dispatch] over the callbacks the upper layer has registered. *)
Context (cbs : Callbacks C).

(** driver/fdrv/src/platform.rs:27-29 [platform_init], the instance and the handler *)
Definition install (p : Platform) : Platform :=
  let b := p.(platform_bsp) in
  mkPlatform (Some wiphy_new) p.(default_iface_id)
    (set_client (Rx.set_e2a_indication_cb (Some (e2a_indication_handler cbs)) b.(client)) b).

(** driver/fdrv/src/platform.rs:21-41 [platform_init] *)
Definition platform_init : st Platform () :=
  p ← st_get;
  match p.(platform_wiphy) with
  | Some _ => mret ()
  | None =>
      _ ← st_modify install;
      r ← with_wiphy_mut (add_interface Station);
      match r with
      | Some (Ok id) =>
          st_modify (λ p, mkPlatform p.(platform_wiphy) (Some id) p.(platform_bsp))
      | Some (Err e) => st_err e
      | Some Panic => st_lift Panic
      | None => st_err (-5)
      end
  end.

(** ** What the operations do to the tables *)

(** What holds of the tables holds after the operation. *)
Definition keeps_tables (P : WiphyState → Prop) {A} (f : st Ctl A) : Prop := ∀ c, P c.1 → P (f c).2.1.

Section keeps_tables.
Context (P : WiphyState → Prop).

Lemma kept_bind {A B} (f : st Ctl A) (h : A → st Ctl B) :
  keeps_tables P f → (∀ a, keeps_tables P (h a)) → keeps_tables P (f ≫= h).
Proof.
  intros Hf Hh c HP. unfold mbind, st_bind. specialize (Hf c HP).
  destruct (f c) as [[a|e|] c']; [by apply Hh|done..].
Qed.
Lemma kept_ret {A} (a : A) : keeps_tables P (mret a).
Proof. by intros c. Qed.
Lemma kept_err {A} e : keeps_tables P (st_err (A := A) e).
Proof. by intros c. Qed.
Lemma kept_lift {A} (r : res A) : keeps_tables P (st_lift r).
Proof. by intros c. Qed.
Lemma kept_read : keeps_tables P tables.
Proof. by intros [s b]. Qed.
Lemma kept_on_bsp {A} (f : st Bsp A) : keeps_tables P (on_bsp f).
Proof. intros [s b] HP. unfold on_bsp. by destruct (f b). Qed.
Lemma kept_upd f : (∀ s, P s → P (f s)) → keeps_tables P (upd f).
Proof. intros Hf [s b]. apply Hf. Qed.
Lemma kept_if {A} (c : bool) (f h : st Ctl A) :
  keeps_tables P f → keeps_tables P h → keeps_tables P (if c then f else h).
Proof. by destruct c. Qed.
Lemma kept_exchange r cfm cap : keeps_tables P (exchange r cfm cap).
Proof.
  apply kept_bind; [apply kept_lift|intros]. apply kept_bind; [apply kept_lift|intros].
  apply kept_on_bsp.
Qed.
End keeps_tables.

Create HintDb wiphy.
#[local] Hint Resolve kept_ret kept_err kept_lift kept_read kept_on_bsp kept_if kept_exchange : wiphy.
#[local] Hint Extern 1 (keeps_tables _ (_ ≫= _)) => apply kept_bind; [|intros] : wiphy.
#[local] Hint Extern 1 (keeps_tables _ (upd _)) => apply kept_upd : wiphy.
#[local] Hint Extern 0 (keeps_tables _ (st_ret _ _)) => apply kept_ret : wiphy.
#[local] Hint Extern 2 (keeps_tables _ (match ?x with _ => _ end)) => destruct x : wiphy.

(** The calls of the interface. *)
Inductive wop :=
  | OAddInterface (t : Nl80211Iftype) | ODelInterface (i : Z) | OScan (i : Z)
  | OConnect (i : Z) (ssid : list Z) (bssid : option (list Z)) | ODisconnect (i : Z)
  | OStartAp (i : Z) (ssid : list Z) (ch : Z) | OStopAp (i : Z)
  | OAddKey (i k : Z) (key : list Z) | ODelKey (i k : Z) | OSetDefaultKey (i k : Z)
  | OGetKey (i k : Z) | OSetDefaultMgmtKey (i k : Z) | OGetStation (i : Z) (mac : list Z)
  | OAddStation (i : Z) (mac : list Z) | ODelStation (i sta : Z) | OSetTxPower (i p : Z)
  | OGetTxPower (i : Z) | OGetChannel (i : Z) | OSetPowerMgmt (i : Z) (on : bool)
  | OSetWiphyParams (rts frag : option Z).

Definition run_op (o : wop) : st Ctl () :=
  match o with
  | OAddInterface t => _ ← add_interface t; mret () | ODelInterface i => del_interface i
  | OScan i => scan i | OConnect i s b => connect i s b | ODisconnect i => disconnect i
  | OStartAp i s ch => start_ap i s ch | OStopAp i => stop_ap i
  | OAddKey i k key => add_key i k key | ODelKey i k => del_key i k
  | OSetDefaultKey i k => set_default_key i k | OGetKey i k => _ ← get_key i k; mret ()
  | OSetDefaultMgmtKey i k => set_default_mgmt_key i k
  | OGetStation i mac => _ ← get_station i mac; mret () | OAddStation i mac => add_station i mac
  | ODelStation i sta => del_station i sta | OSetTxPower i p => set_tx_power i p
  | OGetTxPower i => _ ← get_tx_power i; mret () | OGetChannel i => _ ← get_channel i; mret ()
  | OSetPowerMgmt i on => set_power_mgmt i on | OSetWiphyParams r f => set_wiphy_params r f
  end.

Definition touches_keys (o : wop) : bool :=
  match o with OAddKey _ _ _ | ODelKey _ _ => true | _ => false end.

(** The operations by their code. *)
Ltac unfold_ops :=
  cbn; unfold impl_add_interface, impl_del_interface, impl_scan, impl_connect, impl_disconnect, impl_start_ap,
    impl_stop_ap, impl_add_key, impl_del_key, impl_set_default_key, impl_get_key, impl_set_default_mgmt_key,
    impl_get_station, impl_add_station, impl_del_station, status_ok, impl_set_tx_power, impl_get_tx_power,
    impl_get_channel.

Lemma ap_started_keys vif ch cfm s : key_hw (ap_started vif ch cfm s) = key_hw s.
Proof. unfold ap_started. by do 2 case_bool_decide. Qed.

Lemma other_ops_keep_keys o rows : touches_keys o = false → keeps_tables (λ s, key_hw s = rows) (run_op o).
Proof.
  intros Ho. destruct o; try discriminate Ho; unfold_ops; auto 20 with wiphy.
  repeat (apply kept_bind; [auto with wiphy|intros [] || intros]). apply kept_if; [auto with wiphy|].
  apply kept_upd. intros. by rewrite ap_started_keys.
Qed.

(** *** Keys *)

Definition key_slot (vif key : nat) : bool :=
  bool_decide (vif < MAX_VIF ∧ key < MAX_KEYS_PER_VIF)%nat.

(** The table has its dimensions. *)
Definition keys_wf (s : WiphyState) : Prop :=
  length s.(key_hw) = MAX_VIF ∧ Forall (λ row, length row = MAX_KEYS_PER_VIF) s.(key_hw).

Lemma set_key_wf vif key x s : keys_wf s → keys_wf (set_key_hw vif key x s).
Proof.
  intros [Hl Hf]. split; simpl; [by rewrite length_alter|].
  apply Forall_alter; [done|]. intros row _ ?. by rewrite length_insert.
Qed.

Lemma key_at_set vif key x s v k :
  keys_wf s → key_slot vif key = true →
  key_at v k (set_key_hw vif key x s) = if bool_decide (v = vif ∧ k = key) then x else key_at v k s.
Proof.
  unfold key_slot. intros [Hl Hf] Hb. apply bool_decide_eq_true in Hb as [Hv Hk].
  destruct (lookup_lt_is_Some_2 s.(key_hw) vif) as [row Hrow]; [lia|].
  assert (length row = MAX_KEYS_PER_VIF) as Lr by (by eapply (Forall_lookup_1 _ _ _ _ Hf)).
  unfold key_at. cbn [key_hw set_key_hw]. destruct (decide (v = vif)) as [->|Hne].
  - rewrite list_lookup_alter_eq, Hrow. simpl.
    destruct (decide (k = key)) as [->|Hk'].
    + rewrite list_lookup_insert_eq by lia. by rewrite bool_decide_true.
    + rewrite list_lookup_insert_ne by done. rewrite bool_decide_false by naive_solver. done.
  - rewrite list_lookup_alter_ne by done. by rewrite bool_decide_false by naive_solver.
Qed.

(** An exchange, and what is lifted behind it, leave the tables alone. *)
Lemma exchange_then {A} r cfm cap s b (h : nat * list Z → st Ctl A) :
  (∃ x b1, exchange r cfm cap (s, b) = (Ok x, (s, b1)) ∧ (exchange r cfm cap ≫= h) (s, b) = h x (s, b1)) ∨
  (∃ e b1, (exchange r cfm cap ≫= h) (s, b) = (e, (s, b1)) ∧ ∀ a, e ≠ Ok a).
Proof.
  pose proof (kept_exchange (eq s) r cfm cap (s, b) eq_refl) as F. unfold mbind, st_bind.
  destruct (exchange r cfm cap (s, b)) as [[x|e|] [s1 b1]]; simpl in F; subst s1.
  - left. by exists x, b1.
  - right. by eexists _, b1.
  - right. by eexists _, b1.
Qed.

(** The end of [add_key]: the confirmation is looked at and the key noted. *)
Definition key_added (i k : Z) : nat * list Z → st Ctl () := λ '(n, cfm_buf),
  cfm ← st_lift (slice_to 0 n cfm_buf);
  cfm ← st_lift (ok_or (parse_mm_key_add_cfm cfm) (-5));
  if bool_decide (cfm.(key_status) ≠ 0) then st_err (-5)
  else if key_slot (Z.to_nat (u8 i)) (Z.to_nat k)
  then upd (set_key_hw (Z.to_nat (u8 i)) (Z.to_nat k) (Some cfm.(hw_key_idx)))
  else mret ().

Definition key_noted (i k : Z) (r : res ()) (s s' : WiphyState) : Prop :=
  match r with
  | Ok _ => ∃ hw, s' = if key_slot (Z.to_nat (u8 i)) (Z.to_nat k)
                       then set_key_hw (Z.to_nat (u8 i)) (Z.to_nat k) (Some hw) s else s
  | _ => s' = s
  end.

Lemma key_added_spec i k x s b : key_noted i k (key_added i k x (s, b)).1 s (key_added i k x (s, b)).2.1.
Proof.
  destruct x as [n buf]. unfold key_added, mbind, st_bind, st_lift.
  destruct (slice_to 0 n buf) as [p|?|]; simpl; [|done..].
  destruct (parse_mm_key_add_cfm p) as [cfm|]; simpl; [|done].
  unfold key_noted. case_bool_decide; [done|]. destruct (key_slot _ _); by exists cfm.(hw_key_idx).
Qed.

Lemma add_key_spec i k key s b :
  key_noted i k (impl_add_key i k key (s, b)).1 s (impl_add_key i k key (s, b)).2.1.
Proof.
  change (impl_add_key i k key (s, b)) with
    ((exchange (RKeyAdd (u8 i) k 0xFF key Ccmp false) Lmac.MM_KEY_ADD_CFM 8 ≫= key_added i k) (s, b)).
  destruct (exchange_then (RKeyAdd (u8 i) k 0xFF key Ccmp false) Lmac.MM_KEY_ADD_CFM 8 s b (key_added i k))
    as [(x & b1 & _ & ->)|(e & b1 & -> & Hno)]; [apply key_added_spec|].
  destruct e as [a|?|]; [by exfalso; apply (Hno a)|done..].
Qed.

Lemma del_key_spec i k s b :
  let v := Z.to_nat i in let n := Z.to_nat k in
  let r := impl_del_key i k (s, b) in
  if key_slot v n && bool_decide (is_Some (key_at v n s))
  then r.2.1 = match r.1 with Ok _ => set_key_hw v n None s | _ => s end
  else r = (Err (-2), (s, b)).
Proof.
  intros v n r. subst r.
  assert (E : impl_del_key i k (s, b) =
    (st_lift (if key_slot v n then ok_or (key_at v n s) (-2) else Err (-2)) ≫= (λ hw,
       exchange (RKeyDel hw) Lmac.MM_KEY_DEL_CFM 64 ≫= λ _, upd (set_key_hw v n None))) (s, b)) by done.
  rewrite E. clear E. destruct (key_slot v n); [|done].
  destruct (key_at v n s) as [hw|]; [|by rewrite bool_decide_false by (by intros [? ?])].
  rewrite bool_decide_true by done. simpl andb. cbn [ok_or]. unfold mbind at 1 3, st_bind at 1 3, st_lift.
  destruct (exchange_then (RKeyDel hw) Lmac.MM_KEY_DEL_CFM 64 s b (λ _, upd (set_key_hw v n None)))
    as [(x & b1 & _ & ->)|(e & b1 & -> & Hno)]; [done|].
  destruct e as [a|?|]; [by exfalso; apply (Hno a)|done..].
Qed.

(** *** The keys as a map

    The abstract state is the map from interface and key index to the hardware's
    index; a call of the control plane changes it in one of these ways. *)

Abbreviation key_map := (gmap (nat * nat) Z).

Inductive key_step : wop → res () → key_map → key_map → Prop :=
  | key_step_add i k key hw m :
      key_slot (Z.to_nat (u8 i)) (Z.to_nat k) = true →
      key_step (OAddKey i k key) (Ok ()) m (<[(Z.to_nat (u8 i), Z.to_nat k) := hw]> m)
  | key_step_add_unnoted i k key m :
      key_slot (Z.to_nat (u8 i)) (Z.to_nat k) = false → key_step (OAddKey i k key) (Ok ()) m m
  | key_step_add_failed i k key r m : r ≠ Ok () → key_step (OAddKey i k key) r m m
  | key_step_del i k hw m :
      m !! (Z.to_nat i, Z.to_nat k) = Some hw →
      key_step (ODelKey i k) (Ok ()) m (delete (Z.to_nat i, Z.to_nat k) m)
  | key_step_del_failed i k hw r m :
      m !! (Z.to_nat i, Z.to_nat k) = Some hw → r ≠ Ok () → key_step (ODelKey i k) r m m
  | key_step_del_absent i k m :
      m !! (Z.to_nat i, Z.to_nat k) = None → key_step (ODelKey i k) (Err (-2)) m m
  | key_step_other o r m : touches_keys o = false → key_step o r m m.

(** The tables hold the map. *)
Definition holds_keys (m : key_map) (s : WiphyState) : Prop :=
  keys_wf s ∧ ∀ v k, m !! (v, k) = if key_slot v k then key_at v k s else None.

Lemma holds_keys_new : holds_keys ∅ wiphy_new.
Proof.
  split; [split; [done|by repeat constructor]|]. intros v k. rewrite lookup_empty.
  unfold key_slot. case_bool_decide as Hb; [|done]. destruct Hb as [Hv Hk]. unfold MAX_VIF, MAX_KEYS_PER_VIF in *.
  do 4 (destruct v as [|v]; [do 8 (destruct k as [|k]; [done|]); lia|]). lia.
Qed.

Lemma holds_keys_set m s v k x :
  holds_keys m s → key_slot v k = true → holds_keys (partial_alter (λ _, x) (v, k) m) (set_key_hw v k x s).
Proof.
  intros [Hw Hm] Hs. split; [by apply set_key_wf|]. intros v' k'.
  destruct (decide ((v', k') = (v, k))) as [[= -> ->]|Hne].
  - by rewrite lookup_partial_alter_eq, Hs, key_at_set, bool_decide_true by done.
  - rewrite lookup_partial_alter_ne by congruence. rewrite key_at_set by done.
    rewrite (bool_decide_false (v' = v ∧ k' = k)) by naive_solver. apply Hm.
Qed.

Lemma key_step_refines m o s b :
  holds_keys m s →
  ∃ m', key_step o (run_op o (s, b)).1 m m' ∧ holds_keys m' (run_op o (s, b)).2.1.
Proof.
  intros Hm. destruct (touches_keys o) eqn:Ht.
  - destruct o as [| | | | | | |i k key|i k| | | | | | | | | | |]; try discriminate Ht; cbn [run_op add_key del_key WiphyOpsImpl].
    + pose proof (add_key_spec i k key s b) as Hk. destruct (impl_add_key i k key (s, b)) as [r [s1 b1]].
      simpl in *. destruct r as [[]|e|]; simpl in Hk; [|subst s1; exists m; split; [by apply key_step_add_failed|done]..].
      destruct Hk as [hw ->]. destruct (key_slot _ _) eqn:Hs.
      * exists (<[(Z.to_nat (u8 i), Z.to_nat k) := hw]> m). split; [by apply key_step_add|by apply holds_keys_set].
      * exists m. split; [by apply key_step_add_unnoted|done].
    + pose proof (del_key_spec i k s b) as Hk. cbv zeta in Hk. destruct Hm as [Hw Hm].
      destruct (key_slot (Z.to_nat i) (Z.to_nat k)) eqn:Hs; simpl in Hk; [case_bool_decide as Hb|].
      * destruct Hb as [hw Hb]. assert (m !! (Z.to_nat i, Z.to_nat k) = Some hw) as Hl by by rewrite Hm, Hs.
        destruct (impl_del_key i k (s, b)) as [r [s1 b1]]. simpl in *.
        destruct r as [[]|e|]; subst s1; [|by exists m; split; [eapply key_step_del_failed|]..].
        exists (delete (Z.to_nat i, Z.to_nat k) m). split; [by eapply key_step_del|by apply holds_keys_set].
      * rewrite Hk. exists m. split; [|done]. apply key_step_del_absent. rewrite Hm, Hs.
        by apply eq_None_not_Some.
      * rewrite Hk. exists m. split; [|done]. apply key_step_del_absent. by rewrite Hm, Hs.
  - exists m. split; [by apply key_step_other|]. pose proof (other_ops_keep_keys o (key_hw s) Ht (s, b) eq_refl) as Hf.
    destruct Hm as [[Hl Hr] Hm]. simpl in Hf. unfold holds_keys, keys_wf, key_at. by rewrite Hf.
Qed.

(** *** The slots a timeout uses up *)

Definition is_timeout {A} (r : res A) : bool :=
  match r with Err e => bool_decide (e = -62 ∨ e = -110) | _ => false end.
Definition timed {A} (r : res A) : Z := if is_timeout r then 1 else 0.

(** [n] slots are there for it: [f] gives back no slot beyond them, and a timeout takes one. *)
Definition within {A} (n : Z) (f : st Bsp A) : Prop := ∀ b,
  sane b → sane (f b).2 ∧ free (f b).2 + timed (f b).1 ≤ free b + n.
Abbreviation metered := (within 0).

Lemma timed_le {A} (r : res A) : 0 ≤ timed r ≤ 1.
Proof. unfold timed. by destruct (is_timeout r). Qed.

Lemma within_calm {A} (f : st Bsp A) : calm_op f → within 1 f.
Proof.
  intros Hf b Hs. destruct (calm_sane _ _ (Hf b) Hs) as [? ->]. pose proof (timed_le (f b).1).
  split; [done|lia].
Qed.

Lemma within_then {A B} (f : st Bsp A) (g : A → st Bsp B) :
  calm_op f → (∀ a, within 1 (g a)) → within 1 (f ≫= g).
Proof.
  intros Hf Hg b Hs. pose proof (within_calm f Hf b Hs) as R. destruct (calm_sane _ _ (Hf b) Hs) as [Hs1 E1].
  unfold mbind, st_bind. destruct (f b) as [[a|e|] b1]; simpl in *; [|exact R..].
  rewrite <- E1. by apply Hg.
Qed.

Lemma within_lift {A B} (r : res A) (g : A → st Bsp B) :
  is_timeout r = false → (∀ a, r = Ok a → metered (g a)) → metered (st_lift r ≫= g).
Proof.
  intros Hr Hg b Hs. unfold mbind, st_bind, st_lift. destruct r as [a|e|]; [by apply Hg| |];
    (split; [done|]); unfold timed; [simpl in *; rewrite Hr|]; simpl; lia.
Qed.

(** The manager's lock: the threads run, then the closure, unless the kernel has stopped. *)
Lemma with_cmd_mgr_cases {A} (f : Mgr.t → A * Mgr.t) (b : Bsp) :
  (∃ b1, with_cmd_mgr f b = (Panic, b1) ∧ calm b b1) ∨ ∃ r b1, with_cmd_mgr f b = (Ok r, b1).
Proof.
  unfold with_cmd_mgr, mbind, st_bind, sync. pose proof (calm_turns b).
  destruct (panicked (turns b)); [left; by eexists|right]. unfold locked_mgr.
  destruct (cmd_mgr _); [destruct (f _)|]; by do 2 eexists.
Qed.

Lemma within_take {A} token out (g : option (option (nat * list Z)) → res A) :
  (∀ r, is_timeout (g r) = false) →
  within 1 (taken ← with_cmd_mgr (Mgr.take_cfm token out); st_lift (g taken)).
Proof.
  intros Hg b Hs. pose proof (costs_take_cfm token out b) as Ht. unfold mbind, st_bind, st_lift.
  destruct (with_cmd_mgr_cases (Mgr.take_cfm token out) b) as [(b1 & -> & Hc)|(r & b1 & E)].
  - destruct (calm_sane _ _ Hc Hs) as [? E]. split; [done|]. simpl. unfold timed. simpl. lia.
  - rewrite E. destruct (Ht r b1 Hs E). unfold timed. simpl. rewrite Hg. split; [done|lia].
Qed.

Lemma metered_push {A} cfm (g : nat → st Bsp A) :
  (∀ tok, within 1 (g tok)) → metered (push_slot cfm ≫= g).
Proof.
  intros Hg b Hs. pose proof (takes_push cfm b) as Ht. unfold push_slot, mbind, st_bind, st_lift.
  destruct (with_cmd_mgr_cases (Mgr.push cfm) b) as [(b1 & -> & Hc)|(r & b1 & E)].
  { destruct (calm_sane _ _ Hc Hs) as [? Ef]. split; [done|]. unfold timed. simpl. lia. }
  rewrite E. destruct (Ht r b1 Hs E) as [Hs1 L].
  destruct r as [[tok|]|]; simpl in *; [|split; [done|unfold timed; simpl; lia]..].
  destruct (Hg tok b1 Hs1). split; [done|lia].
Qed.

Lemma no_err_timeout {A} (r : res A) : no_err r → is_timeout r = false.
Proof. intros Hr. destruct r as [|e|]; [done|by exfalso; apply (Hr e)|done]. Qed.

Lemma serialize_no_err pid msg cap : no_err (serialize_for pid msg cap).
Proof.
  unfold serialize_for, Lmac.serialize, Lmac.serialize_8801, mret, res_ret.
  repeat first [done | apply no_err_write | apply no_err_slice
    | apply no_err_bind; [|intros] | case_match].
Qed.

(** The bytes of a command and the timeouts: only what follows the slot can time out. *)
Lemma metered_cmd msg cfm timeout buf : metered (send_lmac_cmd_and_wait_cfm_with_buf msg cfm timeout buf).
Proof.
  intros b Hs. unfold send_lmac_cmd_and_wait_cfm_with_buf. unfold mbind at 1, st_bind at 1, st_get.
  set (body := (_ ≫= _)). assert (metered body) as Hb; [|exact (Hb b Hs)]. subst body. clear Hs.
  apply within_lift; [by destruct (aicbsp_current_product_id b)|intros pid _].
  apply within_lift; [apply no_err_timeout, serialize_no_err|intros [bytes len] _].
  case_bool_decide; [intros b1 ?; split; [done|unfold timed; simpl; lia]|].
  apply within_lift; [apply no_err_timeout, no_err_if; [apply no_err_write|done]|intros data _].
  apply metered_push. intros tok.
  apply within_then; [apply calm_lift|intros]. apply within_then; [apply calm_submit|intros].
  apply within_then; [|intros; apply within_take; by intros [[?|]|]].
  apply calm_wait_slot; [|done]. intros f [= <-] b1. apply calm_effect, calm_run_poll.
Qed.

(** The same of an operation on the tables and the BSP. *)
Definition op_metered {A} (f : st Ctl A) : Prop := ∀ c,
  sane c.2 → sane (f c).2.2 ∧ free (f c).2.2 + timed (f c).1 ≤ free c.2.

Lemma op_metered_bind {A B} (f : st Ctl A) (h : A → st Ctl B) :
  op_metered f → (∀ a, op_metered (h a)) → op_metered (f ≫= h).
Proof.
  intros Hf Hh c Hs. destruct (Hf c Hs) as [Hs1 L]. unfold mbind, st_bind.
  destruct (f c) as [[a|e|] c1]; simpl in *; [|done..].
  destruct (Hh a c1 Hs1). split; [done|]. unfold timed in L at 1. simpl in L. lia.
Qed.
Lemma op_metered_lift {A} (r : res A) : is_timeout r = false → op_metered (st_lift r).
Proof. intros Hr c ?. unfold timed. simpl. rewrite Hr. split; [done|lia]. Qed.
Lemma op_metered_slice a b (l : list Z) : op_metered (st_lift (slice_to a b l)).
Proof. apply op_metered_lift, no_err_timeout, no_err_slice. Qed.
Lemma op_metered_ok_or {A} (o : option A) e : e ≠ -62 → e ≠ -110 → op_metered (st_lift (ok_or o e)).
Proof. intros. apply op_metered_lift. destruct o; simpl; [done|]. apply bool_decide_false. lia. Qed.
Lemma op_metered_err {A} e : e ≠ -62 → e ≠ -110 → op_metered (st_err (A := A) e).
Proof. intros. apply (op_metered_ok_or None); done. Qed.
Lemma op_metered_ret {A} (a : A) : op_metered (mret a).
Proof. by apply (op_metered_lift (Ok a)). Qed.
Lemma op_metered_tables : op_metered tables.
Proof. intros [s b] Hs. unfold timed. simpl. split; [done|lia]. Qed.
Lemma op_metered_upd f : op_metered (upd f).
Proof. intros [s b] Hs. unfold timed. simpl. split; [done|lia]. Qed.
Lemma op_metered_if {A} (c : bool) (f h : st Ctl A) :
  op_metered f → op_metered h → op_metered (if c then f else h).
Proof. by destruct c. Qed.

Lemma no_err_set_param off src m : no_err (set_param off src m).
Proof. apply no_err_bind; [apply no_err_write|done]. Qed.
Lemma no_err_with_param id task r : no_err r → no_err (with_param id task r).
Proof.
  intros Hr. apply no_err_bind; [done|intros [plen p]]. apply no_err_if; [done|].
  apply no_err_bind; [apply no_err_slice|intros]. apply no_err_bind; [apply no_err_set_param|done].
Qed.
Lemma no_err_fmap {A B} (f : A → B) r : no_err r → no_err (f <$> r).
Proof. intros Hr. destruct r as [|e|]; [done|by exfalso; apply (Hr e)|done]. Qed.
Lemma no_err_finish (r : res () * Out.t) : no_err (Out.finish r).
Proof. by destruct r as [[a|e|] [off buf]]. Qed.

Lemma no_err_build r : no_err (build r).
Proof.
  destruct r; cbn [build]; try (apply no_err_with_param, no_err_finish); apply no_err_fmap;
    repeat first [apply no_err_set_param | apply no_err_bind; [|intros]].
Qed.

Lemma op_metered_exchange r cfm cap : op_metered (exchange r cfm cap).
Proof.
  apply op_metered_bind; [apply op_metered_lift, no_err_timeout, no_err_build|intros msg].
  apply op_metered_bind; [by apply op_metered_ok_or|intros m].
  intros [s b] Hs. pose proof (metered_cmd m cfm Mgr.RWNX_80211_CMD_TIMEOUT_MS (zeros cap) b Hs) as M.
  unfold on_bsp. destruct (send_lmac_cmd_and_wait_cfm_with_buf _ _ _ _ b). simpl in *.
  by rewrite Z.add_0_r in M.
Qed.

Lemma op_metered_lift_if {A} (c : bool) (r r' : res A) :
  op_metered (st_lift r) → op_metered (st_lift r') → op_metered (st_lift (if c then r else r')).
Proof. by destruct c. Qed.

Create HintDb meter.
#[local] Hint Resolve op_metered_lift_if op_metered_slice op_metered_ok_or op_metered_ret op_metered_tables op_metered_upd
  op_metered_if op_metered_exchange op_metered_err : meter.
#[local] Hint Extern 0 (op_metered (st_lift (Err _))) => apply op_metered_err : meter.
#[local] Hint Extern 1 (op_metered (_ ≫= _)) => apply op_metered_bind; [|intros] : meter.
#[local] Hint Extern 0 (op_metered (st_ret _ _)) => apply op_metered_ret : meter.
#[local] Hint Extern 2 (op_metered (match ?x with _ => _ end)) => destruct x : meter.
#[local] Hint Extern 3 (_ ≠ _) => done : meter.

Lemma op_metered_run o : op_metered (run_op o).
Proof.
  destruct o; unfold_ops; auto 20 with meter.
Qed.

(** One operation after the other, until one panics. *)
Fixpoint run_ops (os : list wop) : Ctl → list (res ()) * Ctl := λ c,
  match os with
  | [] => ([], c)
  | o :: os =>
      match run_op o c with
      | (Panic, c) => ([Panic], c)
      | (r, c) => let '(rs, c) := run_ops os c in (r :: rs, c)
      end
  end.

Lemma run_ops_metered os c :
  sane c.2 → let r := run_ops os c in
  sane r.2.2 ∧ free r.2.2 + Z.of_nat (countb is_timeout r.1) ≤ free c.2.
Proof.
  revert c. induction os as [|o os IH]; intros c Hs; [simpl; split; [done|lia]|].
  cbn [run_ops]. destruct (op_metered_run o c Hs) as [Hs1 L]. unfold timed in L.
  destruct (run_op o c) as [r c1]. specialize (IH c1 Hs1). simpl in *.
  destruct r as [a|e|]; [| |simpl in *; split; [done|lia]];
    (destruct (run_ops os c1) as [rs c2]; destruct IH; simpl in *; split; [done|]; repeat case_match; lia).
Qed.

(** *** When no slot is left *)

Definition needs_chip (o : wop) : bool :=
  match o with
  | OSetDefaultKey _ _ | OGetKey _ _ | OSetDefaultMgmtKey _ _ | OGetTxPower _ | OGetChannel _
  | OSetPowerMgmt _ _ | OSetWiphyParams _ _ => false
  | _ => true
  end.

(** No slot is free. *)
Definition dry (b : Bsp) : Prop := sane b ∧ free b = 0.

(** The operation does not succeed where [P]. *)
Definition refused {S A} (P : S → Prop) (f : st S A) : Prop := ∀ c a, P c → (f c).1 ≠ Ok a.

Section refused.
Context {S : Type} (P : S → Prop).

Lemma refused_first {A B} (f : st S A) (g : A → st S B) : refused P f → refused P (f ≫= g).
Proof.
  intros Hf c a HP. specialize (Hf c). unfold mbind, st_bind.
  destruct (f c) as [[x|e|] c1]; [by destruct (Hf x HP)|done..].
Qed.
Lemma refused_lift {A B} (r : res A) (g : A → st S B) :
  (∀ a, refused P (g a)) → refused P (st_lift r ≫= g).
Proof. intros Hg c x HP. unfold mbind, st_bind, st_lift. destruct r as [a|e|]; [by apply Hg|done..]. Qed.
Lemma refused_get {B} (g : S → st S B) : (∀ s, refused P (g s)) → refused P (st_get ≫= g).
Proof. intros Hg c. exact (Hg c c). Qed.
Lemma refused_if {A} (c : bool) (f h : st S A) : refused P f → refused P h → refused P (if c then f else h).
Proof. by destruct c. Qed.
Lemma refused_err {A} e : refused P (st_err (A := A) e).
Proof. done. Qed.
End refused.

Lemma refused_send msg cfm timeout buf : refused dry (send_lmac_cmd_and_wait_cfm_with_buf msg cfm timeout buf).
Proof.
  apply refused_get; intros b. apply refused_lift; intros pid. apply refused_lift; intros [bytes len].
  apply refused_if; [apply refused_err|]. apply refused_lift; intros data. apply refused_first.
  intros b1 a [Hs Hz]. apply (costs_refused 1); [apply costs_push|done|lia].
Qed.

Abbreviation dry_ctl := (λ c : Ctl, dry c.2).

Lemma refused_exchange r cfm cap : refused dry_ctl (exchange r cfm cap).
Proof.
  apply refused_lift; intros m. apply refused_lift; intros msg. intros [s b] a Hd. unfold on_bsp.
  pose proof (refused_send msg cfm Mgr.RWNX_80211_CMD_TIMEOUT_MS (zeros cap) b a Hd).
  by destruct (send_lmac_cmd_and_wait_cfm_with_buf _ _ _ _ _).
Qed.

Lemma refused_tables {B} (g : WiphyState → st Ctl B) : (∀ s, refused dry_ctl (g s)) → refused dry_ctl (tables ≫= g).
Proof. intros Hg [s b] x Hd. exact (Hg s (s, b) x Hd). Qed.

Lemma needs_chip_refused o : needs_chip o = true → refused dry_ctl (run_op o).
Proof.
  intros Ho. destruct o; try discriminate Ho; unfold_ops;
    repeat first [ apply refused_first, refused_exchange | apply refused_tables; intros
      | apply refused_if; [apply refused_err|] | apply refused_lift; intros | apply refused_first ].
Qed.

(** C13 (bounds): whatever the sequence of calls of the control plane, whatever the
    chip answers: the calls that end in a timeout ([-62] for a confirmation, [-110] for the sending thread)
    are at most as many as the slots that were free, eight at most, since a timeout leaves its slot taken;
    and when none is left no call that needs the chip succeeds any more. *)
Theorem timeouts_exhaust_slots os s b :
  sane b →
  let '(rs, (_, b')) := run_ops os (s, b) in
  Z.of_nat (countb is_timeout rs) ≤ free b - free b' ∧ free b ≤ 8 ∧
  ∀ o s', needs_chip o = true → free b' = 0 → (run_op o (s', b')).1 ≠ Ok ().
Proof.
  intros Hs. pose proof (run_ops_metered os (s, b) Hs) as R. pose proof (free_range b Hs).
  destruct (run_ops os (s, b)) as [rs [s1 b1]]. simpl in *. destruct R as [Hs1 L]. do 2 (split; [lia|]).
  intros o s' Ho Hz. by apply (needs_chip_refused o Ho (s', b1)).
Qed.

Lemma holds_keys_get m c : holds_keys m c.1 → ∀ i k, key_slot (Z.to_nat i) (Z.to_nat k) = true →
  get_key i k c = (Ok (mkKeyStatus (bool_decide (is_Some (m !! (Z.to_nat i, Z.to_nat k)))) 0), c).
Proof.
  destruct c as [s b]. intros [_ Hm] i k Hk. rewrite Hm, Hk. unfold key_slot in Hk.
  apply bool_decide_eq_true in Hk. cbn [get_key WiphyOpsImpl]. unfold impl_get_key.
  by rewrite bool_decide_false by lia.
Qed.

(** A run of the calls, as steps on the map. *)
Inductive key_trace : list (wop * res ()) → key_map → key_map → Prop :=
  | key_trace_nil m : key_trace [] m m
  | key_trace_cons o r l m m1 m2 : key_step o r m m1 → key_trace l m1 m2 → key_trace ((o, r) :: l) m m2.


(** *** Stations *)

Lemma lookup_in_app mac t1 t2 :
  lookup_in mac (t1 ++ t2) = match lookup_in mac t1 with Some i => Some i | None => lookup_in mac t2 end.
Proof. induction t1 as [|e t1 IH]; simpl; [done|]. by case_bool_decide. Qed.

(** There is an entry for the address: a free one, or its own. *)
Definition has_room (mac : list Z) (t : list StaEntry) : bool :=
  existsb (λ e, negb (sta_used e) || bool_decide (sta_mac e = mac)) t.

(** Registering the station of a connection makes the next look-up of
    its address find the new index, and of no other address anything else; when every entry is used for
    other addresses the table stays as it is. *)
Lemma sta_register_lookup mac idx s :
  if has_room mac s.(sta_table)
  then ∀ mac', lookup_sta_idx mac' (register_sta_from_connect_ind mac idx s) =
         if bool_decide (mac' = mac) then Some idx else lookup_sta_idx mac' s
  else register_in mac idx s.(sta_table) = s.(sta_table) ∧ lookup_sta_idx mac s = None.
Proof.
  unfold lookup_sta_idx, register_sta_from_connect_ind. cbn [sta_table set_sta_table].
  induction (sta_table s) as [|[m0 i0 u0] t IH]; [done|]. cbn [has_room existsb register_in lookup_in sta_mac sta_used sta_idx].
  destruct u0; simpl.
  - destruct (decide (m0 = mac)) as [->|Hne].
    + rewrite bool_decide_true by done. intros mac'. simpl.
      repeat case_bool_decide; naive_solver.
    + rewrite (bool_decide_false (m0 = mac)) by done. simpl. change (existsb _ t) with (has_room mac t).
      destruct (has_room mac t).
      * intros mac'. simpl. rewrite IH. repeat case_bool_decide; naive_solver.
      * destruct IH as [-> ->]. by rewrite bool_decide_false by naive_solver.
  - intros mac'. simpl. repeat case_bool_decide; naive_solver.
Qed.

(** *** The tables as arrays *)

(** The tables are the arrays of the declaration: their dimensions, six bytes of address,
    powers that are [i8]. *)
Record tables_ok (s : WiphyState) : Prop := mkTablesOk {
  ok_keys : keys_wf s;
  ok_default : length s.(default_key) = MAX_VIF;
  ok_mgmt : length s.(default_mgmt_key) = MAX_VIF;
  ok_stas : length s.(sta_table) = STA_TABLE_LEN;
  ok_macs : Forall (λ e, length e.(sta_mac) = 6%nat) s.(sta_table);
  ok_powers : length s.(last_tx_power_dbm) = MAX_VIF;
  ok_dbm : Forall (λ p, ∀ d, p = Some d → -128 ≤ d < 128) s.(last_tx_power_dbm);
  ok_channels : length s.(current_channel) = MAX_VIF }.

Lemma tables_ok_new : tables_ok wiphy_new.
Proof.
  constructor; try done; [split; [done|]|..]; repeat constructor; done.
Qed.

Lemma power_dbm_range p : -128 ≤ power_dbm_of p < 128.
Proof. unfold power_dbm_of. case_bool_decide; [lia|apply as_i8_range]. Qed.

(** A field replaced, the others as they were. *)
Ltac one_field :=
  intros []; constructor; cbn [key_hw default_key default_mgmt_key sta_table last_tx_power_dbm
    current_channel upd_default_key upd_default_mgmt_key upd_channel upd_tx_power set_sta_table set_key_hw];
  rewrite ?length_insert; try done.

Lemma upd_default_key_ok v x s : tables_ok s → tables_ok (upd_default_key v x s).
Proof. one_field. Qed.
Lemma upd_default_mgmt_key_ok v x s : tables_ok s → tables_ok (upd_default_mgmt_key v x s).
Proof. one_field. Qed.
Lemma upd_channel_ok v x s : tables_ok s → tables_ok (upd_channel v x s).
Proof. one_field. Qed.
Lemma set_key_hw_ok v k x s : tables_ok s → tables_ok (set_key_hw v k x s).
Proof. one_field. by apply set_key_wf. Qed.
Lemma upd_tx_power_ok v p s : tables_ok s → tables_ok (upd_tx_power v (power_dbm_of p) s).
Proof. one_field. apply Forall_insert; [done|]. intros d [= <-]. apply power_dbm_range. Qed.
Lemma set_sta_table_ok t s :
  length t = length (sta_table s) → Forall (λ e, length e.(sta_mac) = 6%nat) t → tables_ok s →
  tables_ok (set_sta_table t s).
Proof. intros Ht Hf. one_field. congruence. Qed.
Lemma ap_started_ok v ch cfm s : tables_ok s → tables_ok (ap_started v ch cfm s).
Proof.
  intros Hs. unfold ap_started.
  set (s1 := if bool_decide (bcmc_idx _ < _) then _ else _). assert (tables_ok s1) as Hs1.
  { subst s1. case_bool_decide; [|done]. apply set_sta_table_ok; [apply length_insert|by apply Forall_insert; [apply ok_macs|]|done]. }
  case_bool_decide; [by apply upd_channel_ok|done].
Qed.
#[local] Hint Resolve upd_default_key_ok upd_default_mgmt_key_ok set_key_hw_ok upd_tx_power_ok ap_started_ok : wiphy.

Lemma run_op_tables_ok o : keeps_tables tables_ok (run_op o).
Proof. destruct o; unfold_ops; auto 20 with wiphy. Qed.

Lemma register_in_shape mac idx t :
  length mac = 6%nat → Forall (λ e, length e.(sta_mac) = 6%nat) t →
  length (register_in mac idx t) = length t ∧
  Forall (λ e, length e.(sta_mac) = 6%nat) (register_in mac idx t).
Proof.
  intros Hm. induction 1 as [|e t He Ht [IH1 IH2]]; simpl; [done|].
  repeat case_match; simpl; by rewrite ?IH1; (split; [|constructor]).
Qed.

Lemma unregister_in_shape mac t :
  Forall (λ e, length e.(sta_mac) = 6%nat) t →
  length (unregister_in mac t) = length t ∧
  Forall (λ e, length e.(sta_mac) = 6%nat) (unregister_in mac t).
Proof.
  induction 1 as [|e t He Ht [IH1 IH2]]; simpl; [done|].
  case_match; simpl; by rewrite ?IH1; (split; [|constructor]).
Qed.


(** *** Transmit power *)

Lemma power_dbm_near p : -12900 < p < 12700 →
  Z.abs (p - power_dbm_of p * 100) < 100 ∧ Z.abs (power_dbm_of p * 100) ≤ Z.abs p.
Proof.
  intros Hp. unfold power_dbm_of. rewrite bool_decide_false by lia.
  assert (-128 ≤ Z.quot p 100 < 128) by (Z.to_euclidean_division_equations; lia).
  assert (as_i8 (Z.quot p 100) = Z.quot p 100) as ->.
  { rewrite <- (as_i8_as_u8 (Z.quot p 100)) at 2 by done. unfold as_i8, i8_as_u8. by rewrite Z.mod_mod. }
  Z.to_euclidean_division_equations; lia.
Qed.

(** [get_tx_power] after a [set_tx_power] that succeeded answers the
    power that was asked for, in mBm, rounded towards zero to a whole dBm, from -12899 to 12699; from 12700
    on it answers 12700; and one step below, -12900 comes back as plus 12700, since the [i8] wraps. *)
Lemma tx_power_roundtrip i p s b :
  tables_ok s →
  let '(r, c) := set_tx_power i p (s, b) in
  r = Ok () → ∃ got, get_tx_power i c = (Ok got, c) ∧
    (-12900 < p < 12700 → Z.abs (p - got) < 100 ∧ Z.abs got ≤ Z.abs p) ∧
    (12700 ≤ p → got = 12700) ∧ (p = -12900 → got = 12700).
Proof.
  intros Hs. cbn [set_tx_power get_tx_power WiphyOpsImpl]. unfold impl_set_tx_power, impl_get_tx_power.
  destruct (bool_decide (MAX_VIF ≤ Z.to_nat i)%nat) eqn:Hi; [done|]. apply bool_decide_eq_false in Hi.
  set (k := λ '(n, cfm_buf), _ ≫= _).
  destruct (exchange_then (RSetPower (u8 i) (power_dbm_of p)) Lmac.MM_SET_POWER_CFM 8 s b k)
    as [([n buf] & b1 & _ & ->)|(e & b1 & -> & Hno)]; [|by intros ->; exfalso; apply (Hno ())].
  unfold k, mbind, st_bind, st_lift. destruct (slice_to 0 n buf) as [cfm|?|]; [|done..].
  destruct (parse_mm_set_power_cfm cfm); [|done]. cbn [ok_or upd]. intros _.
  exists (power_dbm_of p * 100). split; [|split; [apply power_dbm_near|]].
  - cbn [tables]. cbn [last_tx_power_dbm upd_tx_power mret st_ret].
    rewrite list_lookup_insert_eq by (rewrite (ok_powers s Hs); lia). done.
  - split; [intros; unfold power_dbm_of; by rewrite bool_decide_true by lia|by intros ->].
Qed.

(** *** Starting the platform *)

(** [platform_init] on a fresh platform either succeeds and then there is a
    default interface, or it fails; but after the failure the instance stays stored, so that every later
    call answers [Ok] at once although there is no default interface. *)
Lemma platform_init_once p :
  p.(platform_wiphy) = None →
  let '(r, p1) := platform_init p in
  match r with
  | Ok _ => is_Some (default_interface_id p1) ∧ is_Some p1.(platform_wiphy)
  | Err _ => default_interface_id p1 = default_interface_id p ∧ is_Some p1.(platform_wiphy) ∧
             platform_init p1 = (Ok (), p1)
  | Panic => True
  end.
Proof.
  intros Hp. unfold platform_init, mbind, st_bind, st_get. rewrite Hp. unfold st_modify, with_wiphy_mut.
  cbn [install platform_wiphy platform_bsp default_iface_id].
  destruct (add_interface Station _) as [[id|e|] [s b]]; [by split|by split; [|split]|done].
Qed.

End wiphy.
Arguments Platform : clear implicits.

#[local] Existing Instances SimBoard.clock SimBoard.sched SimBoard.host SimBoard.registers SimBoard.control.

(** A board with a chip [pid] brought up by the BSP, the control plane not yet started. *)
Definition brought_up (pid : ProductId) : Platform SimBoard.t () :=
  mkPlatform None None (SimBoard.set_subsys Wifi PwrOn (SimBoard.booted pid [10; 20; 30])).2.

Definition sim_init := platform_init (W := SimBoard.t) (C := ()) 100 no_callbacks.

(** The platform of [pid] after [platform_init], and calls made one after the other. *)
Definition started (pid : ProductId) : Platform SimBoard.t () := (sim_init (brought_up pid)).2.
Definition sim_run (os : list wop) (pid : ProductId) : list (res ()) :=
  match (started pid).(platform_wiphy) with
  | Some s => (run_ops 100 os (s, (started pid).(platform_bsp))).1
  | None => []
  end.



(** A BSP whose manager is up and whose device has gone: nothing is ever sent. *)
Definition unplugged : Bsp (W := SimBoard.t) (C := ()) :=
  bsp_of (world (SimBoard.booted Aic8800Dc [])) no_client None (Some Mgr.new) (ProductId_u32 Aic8800Dc)
    idle_thread idle_thread.

(** Eight scans time out, the ninth is refused. *)
Lemma timeouts_exhaust_slots_witness :
  let r := run_ops 100 (replicate 9 (OScan 0)) (wiphy_new, unplugged) in
  free r.2.2 = 0 ∧ (∀ s', (run_op 100 (OScan 0) (s', r.2.2)).1 ≠ Ok ()) ∧
  r.1 = replicate 8 (Err (-110)) ++ [Err (-12)].
Proof.
  assert (sane unplugged) as Hs by (intros m [= <-]; apply Mgr.new_wf).
  pose proof (timeouts_exhaust_slots 100 (replicate 9 (OScan 0)) wiphy_new unplugged Hs) as T.
  assert (free (run_ops 100 (replicate 9 (OScan 0)) (wiphy_new, unplugged)).2.2 = 0) as Hf by (vm_compute; reflexivity).
  assert ((run_ops 100 (replicate 9 (OScan 0)) (wiphy_new, unplugged)).1 = replicate 8 (Err (-110)) ++ [Err (-12)])
    as Hr by (vm_compute; reflexivity).
  destruct (run_ops 100 (replicate 9 (OScan 0)) (wiphy_new, unplugged)) as [rs [s1 b1]].
  destruct T as (_ & _ & T). split; [exact Hf|]. split; [|exact Hr]. intros s'. by apply T.
Defined.



(** 20 dBm and a half. *)
Lemma tx_power_roundtrip_witness :
  let ops := WiphyOpsImpl 100 in let c := (wiphy_new, platform_bsp (started Aic8800Dc)) in
  (set_tx_power 0 2050 c).1 = Ok () ∧ ∃ got, (get_tx_power 0 (set_tx_power 0 2050 c).2).1 = Ok got ∧ Z.abs (2050 - got) < 100.
Proof.
  intros ops c. pose proof (tx_power_roundtrip 100 0 2050 wiphy_new (platform_bsp (started Aic8800Dc)) tables_ok_new) as T.
  assert ((set_tx_power 0 2050 c).1 = Ok ()) as Hr by (vm_compute; done). split; [exact Hr|].
  subst c. subst ops. destruct (set_tx_power 0 2050 _) as [r c1]. simpl in Hr. destruct (T Hr) as (got & Hg & Hn & _).
  exists got. split; [exact (f_equal fst Hg)|]. apply Hn. lia.
Defined.

(** The first attempt fails on the unplugged board, the second is [Ok]. *)
Lemma platform_init_once_witness :
  let init := platform_init 100 no_callbacks in
  let p := mkPlatform None None unplugged in
  (init p).1 = Err (-110) ∧ default_interface_id (init p).2 = None ∧ (init (init p).2).1 = Ok ().
Proof.
  intros init p. assert ((init p).1 = Err (-110)) as Hr by (vm_compute; reflexivity).
  pose proof (platform_init_once 100 no_callbacks p eq_refl) as T. fold init in T.
  revert T Hr. clearbody init. destruct (init p) as [[a|e|] p1]; try done.
  intros (Hd & _ & Hi) Hr. split; [exact Hr|]. split; [exact Hd|]. simpl. by rewrite Hi.
Defined.
