(* ===== verification/BringUp.v ===== *)
(** * From the registers up

    The life cycle of Power and the control plane of Wiphy run on the controller of
    SdCard, through the driver of SdCmd: every command and every word goes through
    the registers, short transfers by words, long ones by DMA and interrupts. *)

From S2P Require Import Prelude CmdMgr Chip Host SdHost SdCmd SdCard SdioOps FwLoad Mmc Rx Flow FwInit Power Ieee80211 E2a Wiphy.
Import Driver FuncRef Dbg.

Module RegBoard.

(** The board of Power as the card behind the controller. *)
#[export] Instance card : SdioCard SimBoard.t := {|
  io_read := λ f r c, let '(v, c') := cmd52_read_func (SdioHost := SimBoard.host) f r c in (unwrap_or 0 v, c');
  io_write := λ f r v c, (cmd52_write_func (SdioHost := SimBoard.host) f r v c).2;
  fifo_read := λ f r n c,
    let '(d, c') := sdio_io_rw_ext_helper_read (SdioHost := SimBoard.host) (256 * f + r) n c in (unwrap_or [] d, c');
  fifo_write := λ f r l c, (sdio_io_rw_ext_helper_write (SdioHost := SimBoard.host) (256 * f + r) l c).2 |}.

#[export] Existing Instance Port.board.
Definition t : Type := Sd (Port.t SimBoard.t).
Definition on_board (f : SimBoard.t → SimBoard.t) (s : t) : t :=
  let m := s.(machine) in
  set_machine (Port.mk (f (Port.card m)) (Port.regs m) (Port.int m) (Port.resp m) (Port.rx m) (Port.tx m)
                 (Port.want m) (Port.dest m) (Port.buffer m) (Port.due m)) s.
Definition board (s : t) : SimBoard.t := Port.card s.(machine).

#[export] Instance host : SdioHost t := sd_host.
#[export] Instance clock : Clock t := sd_clock.
#[export] Instance control : HostControl t := sd_control.
#[export] Instance sched : Sched t := {| next_turns := λ s, ([BusTx; BusRx], s); timed_out := λ s, (true, s) |}.
#[export] Instance registers : Phys t := {|
  mem_read := λ a s, (SimBoard.phys (board s) a, s);
  mem_write := λ a v, on_board (mem_write (Phys := SimBoard.registers) a v) |}.

(** The same boot state, the controller's registers as after power-on. *)
Definition reset (b : SimBoard.t) : t :=
  mkSd (Port.mk b (λ _, 0) 0 0 [] [] 0 (0, 0) [] []) false false false false 0 0 0 0 0 false false 0.
Definition booted (pid : ProductId) (fw : list Z) : Bsp (W := t) :=
  let b := SimBoard.booted pid fw in
  set_firmware (firmware b)
    (bsp_of (reset (world b)) no_client None None PRODUCT_ID_NONE idle_thread idle_thread).

Definition set_subsys := aicbsp_set_subsys (W := t) (C := ()) no_embedded (-1) (-22) 100.

Definition brought_up (pid : ProductId) (fw : list Z) := set_subsys Wifi PwrOn (booted pid fw).
Definition image (s : t) (n : nat) : list Z :=
  (λ i, SimChip.mem (SimBoard.chip (board s)) (RAM_FMAC_FW_ADDR + Z.of_nat i)) <$> seq 0 n.

(** The control plane on a board brought up, and calls made one after the other. *)
Definition started (pid : ProductId) : res () * Platform t () :=
  platform_init 100 no_callbacks (mkPlatform None None (brought_up pid [10; 20; 30]).2).
Definition calls (os : list wop) (pid : ProductId) : list (res ()) :=
  match (started pid).2.(platform_wiphy) with
  | Some s => (run_ops 100 os (s, (started pid).2.(platform_bsp))).1
  | None => []
  end.
End RegBoard.

(** A firmware image of 1500 bytes, sent in blocks that go out by DMA. *)
Definition long_image : list Z := (λ i, Z.of_nat i `mod` 251) <$> seq 0 1500.


