(* ===== verification/SdioBus.v ===== *)
(** * The SDIO bus of the full driver: [driver/fdrv/src/sdio_bus.rs]

    Register maps and the state of the device, and the rings of host identifiers:
    each transmit queue keeps the identifiers of the packets the firmware has not
    confirmed yet in a ring of 64 entries with two free-running [u32] indices.
    The ring is proved to be a first-in first-out queue while at most 64
    identifiers are outstanding. *)

From S2P Require Import Prelude Chip.

(** driver/fdrv/src/sdio_bus.rs:34-34 [SDIOWIFI_FUNC_BLOCKSIZE] *)
Definition SDIOWIFI_FUNC_BLOCKSIZE : Z := 512.
(** driver/fdrv/src/sdio_bus.rs:37-37 [SDIO_BUFFER_SIZE] *)
Definition SDIO_BUFFER_SIZE : nat := 1536.
(** driver/fdrv/src/sdio_bus.rs:40-40 [SDIO_TAIL_LEN] *)
Definition SDIO_TAIL_LEN : nat := 4.
(** driver/fdrv/src/sdio_bus.rs:44-44 [SDIOWIFI_PWR_CTRL_INTERVAL] *)
Definition SDIOWIFI_PWR_CTRL_INTERVAL : Z := 30.
(** driver/fdrv/src/sdio_bus.rs:48-48 [FLOW_CTRL_RETRY_COUNT] *)
Definition FLOW_CTRL_RETRY_COUNT : Z := 50.
(** driver/fdrv/src/sdio_bus.rs:52-52 [CMD_BUF_MAX] *)
Definition CMD_BUF_MAX : nat := 1536.
(** driver/fdrv/src/sdio_bus.rs:56-56 [TXPKT_BLOCKSIZE] *)
Definition TXPKT_BLOCKSIZE : Z := 512.
(** driver/fdrv/src/sdio_bus.rs:60-60 [MAX_AGGR_TXPKT_LEN] *)
Definition MAX_AGGR_TXPKT_LEN : Z := 1536 * 64.
(** driver/fdrv/src/sdio_bus.rs:63-63 [NX_TXQ_CNT] *)
Definition NX_TXQ_CNT : nat := 4.
(** driver/fdrv/src/sdio_bus.rs:67-67 [NX_TXDESC_CNT_MAX], also driver/fdrv/src/sdio_bus.rs:174-174 [TXDESC_PER_QUEUE] *)
Definition TXDESC_PER_QUEUE : nat := 64.
(** driver/fdrv/src/sdio_bus.rs:70-71 [SDIO_SLEEP_ST, SDIO_ACTIVE_ST] *)
Definition SDIO_SLEEP_ST : Z := 0.
Definition SDIO_ACTIVE_ST : Z := 1.

(** ** The device *)

(** driver/fdrv/src/sdio_bus.rs:79-92 [SdioReg] *)
Record SdioReg := mkSdioReg {
  bytemode_len_reg : Z; intr_config_reg : Z; sleep_reg : Z; wakeup_reg : Z; flow_ctrl_reg : Z;
  flowctrl_mask_reg : Z; register_block : Z; bytemode_enable_reg : Z; block_cnt_reg : Z;
  misc_int_status_reg : Z; rd_fifo_addr : Z; wr_fifo_addr : Z }.

(** driver/fdrv/src/sdio_bus.rs:96-111 [SdioReg::v1_v2_default] *)
Definition v1_v2_default : SdioReg := {|
  bytemode_len_reg := 0x02; intr_config_reg := 0x04; sleep_reg := 0x05; wakeup_reg := 0x09;
  flow_ctrl_reg := 0x0A; flowctrl_mask_reg := 0x7F; register_block := 0x0B; bytemode_enable_reg := 0x11;
  block_cnt_reg := 0x12; misc_int_status_reg := 0; rd_fifo_addr := 0x08; wr_fifo_addr := 0x07 |}.

(** driver/fdrv/src/sdio_bus.rs:114-129 [SdioReg::v3_default] *)
Definition v3_default : SdioReg := {|
  bytemode_len_reg := 0x05; intr_config_reg := 0; sleep_reg := 0; wakeup_reg := 0;
  flow_ctrl_reg := 0x03; flowctrl_mask_reg := 0; register_block := 0; bytemode_enable_reg := 0x07;
  block_cnt_reg := 0; misc_int_status_reg := 0x04; rd_fifo_addr := 0x0F; wr_fifo_addr := 0x10 |}.

(** driver/fdrv/src/sdio_bus.rs:132-137 [SdioReg::for_product] *)
Definition for_product (chipid : ProductId) : SdioReg :=
  match chipid with Aic8800D80 | Aic8800D80X2 => v3_default | _ => v1_v2_default end.

(** driver/fdrv/src/sdio_bus.rs:147-150 [BusState] *)
Inductive BusState := BusDown | BusUp.

(** driver/fdrv/src/sdio_bus.rs:158-167 [BusOps], which nothing in the repository implements; [S] is what it works on *)
Class BusOps (S : Type) := {
  bus_start : st S ();
  bus_stop : st S ();
  txdata : list Z → st S nat;
  txmsg : list Z → st S nat }.

(** driver/fdrv/src/sdio_bus.rs:240-247 [SdioDev] *)
Record SdioDev := mkSdioDev { chipid : ProductId; sdio_reg : SdioReg; dev_state : Z }.

(** driver/fdrv/src/sdio_bus.rs:251-258 [SdioDev::new] *)
Definition sdio_dev_new (c : ProductId) : SdioDev := mkSdioDev c (for_product c) SDIO_ACTIVE_ST.

(** driver/fdrv/src/sdio_bus.rs:287-293 [aicwf_sdio_probe_equiv] *)
Definition aicwf_sdio_probe_equiv (chipid : ProductId) : SdioDev := sdio_dev_new chipid.

(** driver/fdrv/src/sdio_bus.rs:261-263 [SdioDev::set_sleep] *)
Definition set_sleep (d : SdioDev) : SdioDev := mkSdioDev d.(chipid) d.(sdio_reg) SDIO_SLEEP_ST.
(** driver/fdrv/src/sdio_bus.rs:266-268 [SdioDev::set_active] *)
Definition set_active (d : SdioDev) : SdioDev := mkSdioDev d.(chipid) d.(sdio_reg) SDIO_ACTIVE_ST.
(** driver/fdrv/src/sdio_bus.rs:271-273 [SdioDev::is_v3] *)
Definition is_v3 (d : SdioDev) : bool :=
  match d.(chipid) with Aic8800D80 | Aic8800D80X2 => true | _ => false end.

(** The registers the full driver uses are those of the BSP for the same chip. *)
Lemma for_product_bsp c :
  let r := for_product c in
  if is_v3 (sdio_dev_new c)
  then r.(bytemode_len_reg) = RegV3.BYTEMODE_LEN ∧ r.(flow_ctrl_reg) = RegV3.FLOW_CTRL_Q1 ∧
       r.(bytemode_enable_reg) = RegV3.BYTEMODE_ENABLE ∧ r.(misc_int_status_reg) = RegV3.MISC_INT_STATUS ∧
       r.(rd_fifo_addr) = RegV3.RD_FIFO_ADDR ∧ r.(wr_fifo_addr) = RegV3.WR_FIFO_ADDR
  else r.(bytemode_len_reg) = Reg.BYTEMODE_LEN ∧ r.(flow_ctrl_reg) = Reg.FLOW_CTRL ∧
       r.(bytemode_enable_reg) = Reg.BYTEMODE_ENABLE ∧ r.(block_cnt_reg) = Reg.BLOCK_CNT ∧
       r.(rd_fifo_addr) = Reg.RD_FIFO_ADDR ∧ r.(wr_fifo_addr) = Reg.WR_FIFO_ADDR.
Proof. by destruct c. Qed.

(** ** The rings of host identifiers *)

(** driver/fdrv/src/sdio_bus.rs:179-188 [SdioHostEnv]; [pthis] is an address *)
Record SdioHostEnv := mkEnv {
  txdesc_free_idx : list Z; txdesc_used_idx : list Z; tx_host_id : list (list Z); pthis : option Z }.

(** driver/fdrv/src/sdio_bus.rs:190-199 [SdioHostEnv::default] *)
Definition env_default : SdioHostEnv :=
  mkEnv (zeros NX_TXQ_CNT) (zeros NX_TXQ_CNT) (replicate NX_TXQ_CNT (zeros TXDESC_PER_QUEUE)) None.

(** driver/fdrv/src/sdio_bus.rs:203-206 [SdioHostEnv::init] *)
Definition env_init (p : option Z) (e : SdioHostEnv) : SdioHostEnv :=
  mkEnv env_default.(txdesc_free_idx) env_default.(txdesc_used_idx) env_default.(tx_host_id) p.

(** [self.idx[queue] as usize % TXDESC_PER_QUEUE] *)
Definition ring_index (i : Z) : nat := Z.to_nat i mod TXDESC_PER_QUEUE.

(** driver/fdrv/src/sdio_bus.rs:210-217 [SdioHostEnv::txdesc_push] *)
Definition txdesc_push (queue_idx : nat) (host_id : Z) (e : SdioHostEnv) : res SdioHostEnv :=
  if bool_decide (NX_TXQ_CNT ≤ queue_idx)%nat then Ok e
  else
    free ← index e.(txdesc_free_idx) queue_idx;
    ring ← index e.(tx_host_id) queue_idx;
    _ ← index ring (ring_index free);
    Ok (mkEnv (<[queue_idx := wrap 32 (free + 1)]> e.(txdesc_free_idx)) e.(txdesc_used_idx)
          (<[queue_idx := <[ring_index free := host_id]> ring]> e.(tx_host_id)) e.(pthis)).

(** driver/fdrv/src/sdio_bus.rs:222-230 [SdioHostEnv::tx_cfm_advance] *)
Definition tx_cfm_advance (queue_idx : nat) (e : SdioHostEnv) : res (option Z * SdioHostEnv) :=
  if bool_decide (NX_TXQ_CNT ≤ queue_idx)%nat then Ok (None, e)
  else
    used ← index e.(txdesc_used_idx) queue_idx;
    ring ← index e.(tx_host_id) queue_idx;
    host_id ← index ring (ring_index used);
    Ok (Some host_id,
        mkEnv e.(txdesc_free_idx) (<[queue_idx := wrap 32 (used + 1)]> e.(txdesc_used_idx))
          e.(tx_host_id) e.(pthis)).

(** ** The queue the rings stand for *)

Inductive host_op := HPush (queue_idx : nat) (host_id : Z) | HCfm (queue_idx : nat).

(** What the confirmations answer, in their order. *)
Fixpoint run_host (ops : list host_op) (e : SdioHostEnv) : res (list (option Z)) :=
  match ops with
  | [] => Ok []
  | HPush q x :: ops => e ← txdesc_push q x e; run_host ops e
  | HCfm q :: ops => '(x, e) ← tx_cfm_advance q e; xs ← run_host ops e; Ok (x :: xs)
  end.

(** The specification: a queue of outstanding identifiers for each transmit queue; [None] where
    a ring of 64 overflows or a confirmation comes without a packet. *)
Fixpoint run_fifo (ops : list host_op) (qs : list (list Z)) : option (list (option Z)) :=
  match ops with
  | [] => Some []
  | HPush q x :: ops =>
      match qs !! q with
      | None => run_fifo ops qs
      | Some m => if bool_decide (length m < TXDESC_PER_QUEUE)%nat
                  then run_fifo ops (<[q := m ++ [x]]> qs) else None
      end
  | HCfm q :: ops =>
      match qs !! q with
      | None => xs ← run_fifo ops qs; Some (None :: xs)
      | Some [] => None
      | Some (x :: m) => xs ← run_fifo ops (<[q := m]> qs); Some (Some x :: xs)
      end
  end.

Lemma ring_index_wrap u k :
  0 ≤ u → ring_index (wrap 32 (u + Z.of_nat k)) = ((Z.to_nat u + k) mod TXDESC_PER_QUEUE)%nat.
Proof.
  intros Hu. unfold ring_index, wrap, TXDESC_PER_QUEUE. apply Nat2Z.inj.
  rewrite !Nat2Z.inj_mod, Z2Nat.id by (apply Z.mod_pos_bound; lia). rewrite Nat2Z.inj_add, Z2Nat.id by done.
  change (Z.of_nat 64) with 64. change (2 ^ 32) with (64 * 67108864).
  rewrite Z.rem_mul_r by lia. rewrite (Z.mul_comm 64 (_ `mod` _)), Z_mod_plus_full. by rewrite Z.mod_mod.
Qed.

(** The ring of one queue: the identifiers from [used] on, in their order. *)
Record ring_holds (free used : Z) (ring m : list Z) : Prop := mkRing {
  ring_length : length ring = TXDESC_PER_QUEUE;
  ring_used : in_range 32 used;
  ring_room : (length m ≤ TXDESC_PER_QUEUE)%nat;
  ring_free : free = wrap 32 (used + Z.of_nat (length m));
  ring_ids : ∀ i x, m !! i = Some x →
    ring !! ((Z.to_nat used + i) mod TXDESC_PER_QUEUE)%nat = Some x }.

Lemma ring_slot_lt n : (n mod TXDESC_PER_QUEUE < TXDESC_PER_QUEUE)%nat.
Proof. by apply Nat.mod_upper_bound. Qed.

(** Two places of the window are different entries. *)
Lemma ring_slot_inj n i j : (i < j < i + TXDESC_PER_QUEUE)%nat →
  ((n + i) mod TXDESC_PER_QUEUE ≠ (n + j) mod TXDESC_PER_QUEUE)%nat.
Proof. unfold TXDESC_PER_QUEUE. intros. nat_div. Qed.

Lemma ring_push free used ring m x :
  ring_holds free used ring m → (length m < TXDESC_PER_QUEUE)%nat →
  (ring_index free < length ring)%nat ∧
  ring_holds (wrap 32 (free + 1)) used (<[ring_index free := x]> ring) (m ++ [x]).
Proof.
  intros [Hl Hu Hr -> Hi] Hm. destruct Hu. rewrite ring_index_wrap by done.
  split; [rewrite Hl; apply ring_slot_lt|]. constructor; [by rewrite length_insert|done|solve_len| |].
  - unfold wrap. rewrite Zplus_mod_idemp_l. f_equal. solve_len.
  - intros i y Hy. apply lookup_snoc_Some in Hy as [[Hlt Hy]|[-> ->]].
    + rewrite list_lookup_insert_ne; [by apply Hi|]. apply not_eq_sym, ring_slot_inj. lia.
    + apply list_lookup_insert_eq. rewrite Hl. apply ring_slot_lt.
Qed.

Lemma ring_pop free used ring x m :
  ring_holds free used ring (x :: m) →
  ring !! ring_index used = Some x ∧ ring_holds free (wrap 32 (used + 1)) ring m.
Proof.
  intros [Hl [Hu0 Hu] Hr -> Hi]. simpl in Hr. split.
  - specialize (Hi 0%nat x eq_refl). rewrite <- Hi. unfold ring_index. do 2 f_equal. lia.
  - constructor; [done|by apply wrap_range|lia| |].
    + unfold wrap. rewrite Zplus_mod_idemp_l. f_equal. solve_len.
    + intros i y Hy. rewrite <- (Hi (S i) y Hy). f_equal.
      pose proof (ring_index_wrap (wrap 32 (used + 1)) i) as E1. pose proof (ring_index_wrap used (S i)) as E2.
      rewrite <- E1, <- E2 by (done || by apply wrap_range). unfold wrap. rewrite Zplus_mod_idemp_l.
      do 2 f_equal. lia.
Qed.

(** The environment stands for the queues. *)
Definition env_holds (e : SdioHostEnv) (qs : list (list Z)) : Prop :=
  length qs = NX_TXQ_CNT ∧ length e.(txdesc_free_idx) = NX_TXQ_CNT ∧
  length e.(txdesc_used_idx) = NX_TXQ_CNT ∧ length e.(tx_host_id) = NX_TXQ_CNT ∧
  ∀ q m free used ring, qs !! q = Some m → e.(txdesc_free_idx) !! q = Some free →
    e.(txdesc_used_idx) !! q = Some used → e.(tx_host_id) !! q = Some ring → ring_holds free used ring m.

Lemma env_empty_holds idx p :
  length idx = NX_TXQ_CNT → Forall (in_range 32) idx →
  env_holds (mkEnv idx idx (replicate NX_TXQ_CNT (zeros TXDESC_PER_QUEUE)) p) (replicate NX_TXQ_CNT []).
Proof.
  intros Hl Hf. do 4 (split; [done|]). intros q m free used ring Hm Hfr Hu Hr. cbn [txdesc_free_idx txdesc_used_idx tx_host_id] in *.
  apply lookup_replicate in Hm as [-> _]. apply lookup_replicate in Hr as [-> _].
  rewrite Hfr in Hu. injection Hu as <-. pose proof (Forall_lookup_1 _ _ _ _ Hf Hfr).
  constructor; [done|done|simpl; lia|by rewrite Z.add_0_r, wrap_id|done].
Qed.

(** The entries of a queue that exists. *)
Lemma env_lookup e qs q m : env_holds e qs → qs !! q = Some m →
  (q < NX_TXQ_CNT)%nat ∧ ∃ free used ring, e.(txdesc_free_idx) !! q = Some free ∧
    e.(txdesc_used_idx) !! q = Some used ∧ e.(tx_host_id) !! q = Some ring ∧ ring_holds free used ring m.
Proof.
  intros (Lq & Lf & Lu & Lr & Hh) Hm. pose proof (lookup_lt_Some _ _ _ Hm) as Hq. rewrite Lq in Hq.
  split; [done|].
  destruct (lookup_lt_is_Some_2 e.(txdesc_free_idx) q) as [free Hf]; [lia|].
  destruct (lookup_lt_is_Some_2 e.(txdesc_used_idx) q) as [used Hu]; [lia|].
  destruct (lookup_lt_is_Some_2 e.(tx_host_id) q) as [ring Hr]; [lia|].
  exists free, used, ring. repeat split; try done; by apply (Hh q m free used ring).
Qed.

Lemma push_holds e qs q m x :
  env_holds e qs → qs !! q = Some m → (length m < TXDESC_PER_QUEUE)%nat →
  ∃ e', txdesc_push q x e = Ok e' ∧ env_holds e' (<[q := m ++ [x]]> qs).
Proof.
  intros He Hm Hlt. destruct (env_lookup e qs q m He Hm) as (Hq & free & used & ring & Hf & Hu & Hr & Hh).
  destruct (ring_push free used ring m x Hh Hlt) as [Hi Hh']. unfold txdesc_push. rewrite bool_decide_false by lia.
  rewrite (index_ok _ _ _ Hf), (index_ok _ _ _ Hr). cbn [mbind res_bind]. destruct (lookup_lt_is_Some_2 ring _ Hi) as [y Hy].
  rewrite (index_ok _ _ _ Hy). cbn [mbind res_bind]. eexists. split; [reflexivity|].
  destruct He as (Lq & Lf & Lu & Lr & Hall).
  unfold env_holds. cbn [txdesc_free_idx txdesc_used_idx tx_host_id]. rewrite !length_insert.
  repeat (split; [done|]). intros q' m' f' u' r'. destruct (decide (q' = q)) as [->|Hne].
  - rewrite !list_lookup_insert_eq by lia. intros [= <-] [= <-] Hu' [= <-].
    rewrite Hu in Hu'. by injection Hu' as <-.
  - rewrite !list_lookup_insert_ne by done. apply Hall.
Qed.

Lemma cfm_holds e qs q x m :
  env_holds e qs → qs !! q = Some (x :: m) →
  ∃ e', tx_cfm_advance q e = Ok (Some x, e') ∧ env_holds e' (<[q := m]> qs).
Proof.
  intros He Hm. destruct (env_lookup e qs q _ He Hm) as (Hq & free & used & ring & Hf & Hu & Hr & Hh).
  destruct (ring_pop free used ring x m Hh) as [Hx Hh']. unfold tx_cfm_advance. rewrite bool_decide_false by lia.
  rewrite (index_ok _ _ _ Hu), (index_ok _ _ _ Hr). cbn [mbind res_bind]. rewrite (index_ok _ _ _ Hx).
  eexists. split; [reflexivity|]. destruct He as (Lq & Lf & Lu & Lr & Hall).
  unfold env_holds. cbn [txdesc_free_idx txdesc_used_idx tx_host_id]. rewrite !length_insert.
  repeat (split; [done|]). intros q' m' f' u' r'. destruct (decide (q' = q)) as [->|Hne].
  - rewrite !list_lookup_insert_eq by lia. intros [= <-] Hf' [= <-] Hr'.
    rewrite Hf in Hf'. injection Hf' as <-. rewrite Hr in Hr'. by injection Hr' as <-.
  - rewrite !list_lookup_insert_ne by done. apply Hall.
Qed.

(** C36 (refinement): the rings of host identifiers refine first-in first-out queues: whatever
    the sequence of pushes and confirmations over the four queues, while no queue has more than 64
    packets outstanding and none is confirmed that was not sent, every confirmation gives back the
    identifier of the oldest outstanding packet of its queue; the indices may wrap around at 2^32,
    and a queue number out of range is ignored. *)
Theorem host_id_fifo ops e qs out :
  env_holds e qs → run_fifo ops qs = Some out → run_host ops e = Ok out.
Proof.
  revert e qs out. induction ops as [|[q x|q] ops IH]; intros e qs out He; cbn [run_fifo run_host].
  - by intros [= <-].
  - destruct (qs !! q) as [m|] eqn:Hm.
    + case_bool_decide as Hlt; [|done]. intros Hr.
      destruct (push_holds e qs q m x He Hm Hlt) as (e' & -> & He'). by eapply IH.
    + intros Hr. unfold txdesc_push. rewrite bool_decide_true; [by eapply IH|].
      destruct He as [<- _]. by apply lookup_ge_None_1.
  - destruct (qs !! q) as [[|x m]|] eqn:Hm; [done| |].
    + destruct (run_fifo ops _) as [xs|] eqn:Hr; [|done]. intros [= <-].
      destruct (cfm_holds e qs q x m He Hm) as (e' & -> & He'). cbn [mbind res_bind].
      by rewrite (IH e' _ xs He' Hr).
    + destruct (run_fifo ops qs) as [xs|] eqn:Hr; [|done]. intros [= <-]. unfold tx_cfm_advance.
      rewrite bool_decide_true; [cbn [mbind res_bind]; by rewrite (IH e qs xs He Hr)|].
      destruct He as [<- _]. by apply lookup_ge_None_1.
Qed.

(** Indices that wrap: all of them at 2^32 - 1. *)
Lemma host_id_fifo_witness :
  let idx := replicate 4 4294967295 in
  let e := mkEnv idx idx (replicate 4 (zeros 64)) None in
  env_holds e (replicate 4 []) ∧
  run_host [HPush 1 11; HPush 3 33; HPush 1 12; HCfm 1; HCfm 3; HCfm 9; HCfm 1] e =
    Ok [Some 11; Some 33; None; Some 12].
Proof.
  intros idx e. assert (env_holds e (replicate 4 [])) as He.
  { apply env_empty_holds; [done|]. by apply Forall_replicate. }
  split; [exact He|]. apply (host_id_fifo _ e (replicate 4 []) _ He). reflexivity.
Defined.

(** The ring itself notices nothing: the 65th packet replaces the first one's identifier,
    and a confirmation without a packet answers an identifier all the same. *)
Lemma host_id_overrun :
  run_host (((λ i, HPush 0 (Z.of_nat i)) <$> seq 1 65) ++ [HCfm 0]) env_default = Ok [Some 65] ∧
  run_host [HCfm 0] env_default = Ok [Some 0].
Proof. vm_compute. done. Qed.
