(* ===== verification/CfgFile.v ===== *)
(** * Configuration files: [driver/fdrv/src/cfgfile.rs]

    Lines of the form [TAG=value]: the search for a tag, MAC addresses and words
    in hexadecimal, and the two files built of them.  The search is proved to
    agree with a reference on the list of lines, the parsers to undo a printer. *)

From Stdlib Require Import Ascii.
From S2P Require Import Prelude.

(** The bytes of a string literal. *)
Definition bytes_of (s : string) : list Z := (λ c, Z.of_N (N_of_ascii c)) <$> String.list_ascii_of_string s.

Definition newline : Z := 10.
Definition colon : Z := 58.

(** driver/fdrv/src/cfgfile.rs:10-12 [RwnxConfFile] *)
Record RwnxConfFile := mkConf { mac_addr : list Z }.

(** driver/fdrv/src/cfgfile.rs:16-26 [RwnxKarstConf] *)
Record RwnxKarstConf := mkKarst {
  tx_iq_comp_2_4g_path_0 : Z; tx_iq_comp_2_4g_path_1 : Z;
  rx_iq_comp_2_4g_path_0 : Z; rx_iq_comp_2_4g_path_1 : Z;
  tx_iq_comp_5g_path_0 : Z; tx_iq_comp_5g_path_1 : Z;
  rx_iq_comp_5g_path_0 : Z; rx_iq_comp_5g_path_1 : Z;
  default_path : Z }.

(** driver/fdrv/src/cfgfile.rs:34-38 [find_tag], the line at the front *)
Fixpoint line_of (rest : list Z) : list Z :=
  match rest with
  | [] => []
  | b :: rest => if bool_decide (b = newline) then [] else b :: line_of rest
  end.

(** driver/fdrv/src/cfgfile.rs:39-39 [find_tag], the comparison *)
Definition has_tag (tag line : list Z) : bool :=
  bool_decide (length tag ≤ length line)%nat && bool_decide (take (length tag) line = tag).

(** driver/fdrv/src/cfgfile.rs:33-44 [find_tag], the loop; [rest] is [file_data[line_start..]], one unit of
    [fuel] a line *)
Fixpoint find_tag_loop (fuel : nat) (rest tag : list Z) : res (option (list Z)) :=
  match fuel with
  | O => Panic
  | S fuel =>
      if bool_decide (rest = []) then Ok None
      else
        let line := line_of rest in
        if has_tag tag line then Ok (Some (drop (length tag) line))
        else find_tag_loop fuel (drop (S (length line)) rest) tag
  end.

(** driver/fdrv/src/cfgfile.rs:30-46 [find_tag] *)
Definition find_tag (file_data tag : list Z) : res (option (list Z)) :=
  find_tag_loop (S (length file_data)) file_data tag.

(** driver/fdrv/src/cfgfile.rs:70-77 [hex_nibble] *)
Definition hex_nibble (b : Z) : option Z :=
  if bool_decide (48 ≤ b ≤ 57) then Some (b - 48)
  else if bool_decide (97 ≤ b ≤ 102) then Some (b - 97 + 10)
  else if bool_decide (65 ≤ b ≤ 70) then Some (b - 65 + 10)
  else None.

(** driver/fdrv/src/cfgfile.rs:53-67 [parse_mac_addr], the loop: [n] bytes to come, [s] from [i] on *)
Fixpoint mac_loop (n : nat) (s out : list Z) : option (list Z) :=
  match n with
  | O => Some out
  | S n =>
      match s with
      | h :: l :: s =>
          hi ← hex_nibble h;
          lo ← hex_nibble l;
          let s := match s with
                   | c :: s' => if bool_decide (n ≠ 0%nat ∧ c = colon) then s' else s
                   | [] => s
                   end in
          mac_loop n s (out ++ [Z.lor (wrap 8 (Z.shiftl hi 4)) lo])
      | _ => None
      end
  end.

(** driver/fdrv/src/cfgfile.rs:49-68 [parse_mac_addr] *)
Definition parse_mac_addr (s : list Z) : option (list Z) := mac_loop 6 s [].

(** driver/fdrv/src/cfgfile.rs:85-87 [parse_hex8], the loop *)
Fixpoint hex_loop (n : nat) (s : list Z) (v : Z) : option Z :=
  match n with
  | O => Some v
  | S n =>
      match s with
      | b :: s => d ← hex_nibble b; hex_loop n s (Z.lor (wrap 32 (Z.shiftl v 4)) d)
      | [] => None
      end
  end.

(** driver/fdrv/src/cfgfile.rs:80-89 [parse_hex8] *)
Definition parse_hex8 (s : list Z) : option Z :=
  if bool_decide (length s < 8)%nat then None else hex_loop 8 s 0.

(** driver/fdrv/src/cfgfile.rs:93-93 [DEFAULT_MAC] *)
Definition DEFAULT_MAC : list Z := [0; 111; 111; 111; 111; 0].

(** driver/fdrv/src/cfgfile.rs:92-102 [parse_configfile] *)
Definition parse_configfile (file_data : list Z) (config : RwnxConfFile) : res RwnxConfFile :=
  value ← find_tag file_data (bytes_of "MAC_ADDR=");
  match value ≫= parse_mac_addr with
  | Some mac => Ok (mkConf mac)
  | None => Ok (mkConf DEFAULT_MAC)
  end.

(** driver/fdrv/src/cfgfile.rs:106-106 [DEFAULT_IQ] *)
Definition DEFAULT_IQ : Z := 0x01000000.

(** driver/fdrv/src/cfgfile.rs:107-115 [parse_tag] *)
Definition parse_tag (file_data : list Z) (tag : string) : res Z :=
  v ← find_tag file_data (bytes_of tag);
  Ok (default DEFAULT_IQ (v ≫= parse_hex8)).

(** driver/fdrv/src/cfgfile.rs:105-130 [parse_karst_configfile] *)
Definition parse_karst_configfile (file_data : list Z) (config : RwnxKarstConf) : res RwnxKarstConf :=
  tx24_0 ← parse_tag file_data "KARST_TX_IQ_COMP_2_4G_PATH_0=";
  tx24_1 ← parse_tag file_data "KARST_TX_IQ_COMP_2_4G_PATH_1=";
  rx24_0 ← parse_tag file_data "KARST_RX_IQ_COMP_2_4G_PATH_0=";
  rx24_1 ← parse_tag file_data "KARST_RX_IQ_COMP_2_4G_PATH_1=";
  tx5_0 ← parse_tag file_data "KARST_TX_IQ_COMP_5G_PATH_0=";
  tx5_1 ← parse_tag file_data "KARST_TX_IQ_COMP_5G_PATH_1=";
  rx5_0 ← parse_tag file_data "KARST_RX_IQ_COMP_5G_PATH_0=";
  rx5_1 ← parse_tag file_data "KARST_RX_IQ_COMP_5G_PATH_1=";
  v ← find_tag file_data (bytes_of "KARST_DEFAULT_PATH=");
  let path := match v with
              | Some (b :: _) => default 2 (hex_nibble b)
              | _ => config.(default_path)
              end in
  Ok (mkKarst tx24_0 tx24_1 rx24_0 rx24_1 tx5_0 tx5_1 rx5_0 rx5_1 path).

(** ** Lines *)

(** The lines of a file, the reference. *)
Fixpoint lines (data : list Z) : list (list Z) :=
  match data with
  | [] => [[]]
  | b :: data =>
      if bool_decide (b = newline) then [] :: lines data
      else match lines data with
           | line :: ls => (b :: line) :: ls
           | [] => [[b]]
           end
  end.

Definition first_with (tag : list Z) (ls : list (list Z)) : option (list Z) :=
  drop (length tag) <$> List.find (has_tag tag) ls.

Lemma lines_front data : ∃ ls, lines data = line_of data :: ls.
Proof.
  induction data as [|b data [ls IH]]; [by exists []|]. cbn [lines line_of].
  case_bool_decide; [by eexists|]. rewrite IH. by exists ls.
Qed.

Lemma line_of_length data : (length (line_of data) ≤ length data)%nat.
Proof. induction data as [|b data IH]; simpl; [lia|]. case_bool_decide; simpl; lia. Qed.

(** Behind the first line: the other lines, or nothing at the end of the file. *)
Lemma lines_next data :
  lines data = line_of data ::
    (if bool_decide (length (line_of data) = length data) then []
     else lines (drop (S (length (line_of data))) data)).
Proof.
  induction data as [|b data IH]; [done|]. cbn [lines line_of].
  destruct (bool_decide (b = newline)) eqn:E.
  - cbn [length]. by rewrite bool_decide_false.
  - rewrite IH. cbn [length drop]. f_equal.
    destruct (decide (length (line_of data) = length data)) as [->|Hne]; [by rewrite !bool_decide_true|].
    by rewrite !bool_decide_false by lia.
Qed.

Lemma has_tag_nil tag : tag ≠ [] → has_tag tag [] = false.
Proof. intros. unfold has_tag. destruct tag; [done|]. by rewrite (bool_decide_false (_ ≤ _)%nat) by (simpl; lia). Qed.

Lemma find_tag_loop_lines fuel rest tag :
  tag ≠ [] → (length rest < fuel)%nat → find_tag_loop fuel rest tag = Ok (first_with tag (lines rest)).
Proof.
  intros Ht. revert rest. induction fuel as [|fuel IH]; intros rest Hf; [lia|]. cbn [find_tag_loop].
  case_bool_decide as Hr.
  { subst rest. unfold first_with. simpl. by rewrite has_tag_nil. }
  rewrite lines_next. unfold first_with. cbn [List.find].
  destruct (has_tag tag (line_of rest)); [done|].
  pose proof (line_of_length rest). destruct rest as [|b rest]; [done|].
  rewrite IH by (rewrite length_drop; simpl in *; lia).
  case_bool_decide as Hl; [|done].
  rewrite drop_ge by lia. unfold first_with. simpl. by rewrite has_tag_nil.
Qed.

(** The index-based search for a tag agrees with its reference on the list
    of lines: it answers what follows the tag in the first line that begins with it, and [None] when no
    line does; it comes to its end on every file. *)
Lemma find_tag_lines (file_data tag : list Z) (Ht : tag ≠ []) :
  find_tag file_data tag = Ok (first_with tag (lines file_data)).
Proof. apply find_tag_loop_lines; [done|lia]. Qed.

Lemma find_tag_lines_witness :
  find_tag (bytes_of "A=1") (bytes_of "A=") = Ok (Some (bytes_of "1")) ∧
  find_tag (bytes_of "A=1") (bytes_of "A=") = Ok (first_with (bytes_of "A=") (lines (bytes_of "A=1"))).
Proof. split; [reflexivity|by apply find_tag_lines]. Defined.

(** ** Printing *)

Definition hexdigit (upper : bool) (d : Z) : Z :=
  if bool_decide (d < 10) then 48 + d else (if upper then 55 else 87) + d.

Definition print_byte (upper : bool) (b : Z) : list Z :=
  [hexdigit upper (b `div` 16); hexdigit upper (b `mod` 16)].

(** The bytes in hexadecimal, with colons between them or without. *)
Fixpoint print_mac (upper colons : bool) (mac : list Z) : list Z :=
  match mac with
  | [] => []
  | [b] => print_byte upper b
  | b :: mac => print_byte upper b ++ (if colons then [colon] else []) ++ print_mac upper colons mac
  end.

(** Eight digits, the highest first. *)
Fixpoint print_hex (upper : bool) (n : nat) (v : Z) : list Z :=
  match n with
  | O => []
  | S n => hexdigit upper ((v `div` 16 ^ Z.of_nat n) `mod` 16) :: print_hex upper n v
  end.

(** The lines of a file with newlines between them. *)
Fixpoint join_lines (ls : list (list Z)) : list Z :=
  match ls with
  | [] => []
  | [l] => l
  | l :: ls => l ++ newline :: join_lines ls
  end.

Lemma hex_nibble_digit upper d : 0 ≤ d < 16 → hex_nibble (hexdigit upper d) = Some d.
Proof.
  intros Hd. unfold hex_nibble, hexdigit. destruct (bool_decide (d < 10)) eqn:E.
  - apply bool_decide_eq_true in E. rewrite bool_decide_true by lia. f_equal. lia.
  - apply bool_decide_eq_false in E. rewrite bool_decide_false by (destruct upper; lia).
    destruct upper; [rewrite bool_decide_false, bool_decide_true by lia|rewrite bool_decide_true by lia];
      f_equal; lia.
Qed.

Lemma hexdigit_not_colon upper d : 0 ≤ d < 16 → hexdigit upper d ≠ colon.
Proof. intros Hd E. pose proof (hex_nibble_digit upper d Hd) as H. by rewrite E in H. Qed.

Lemma print_byte_digits b : byte_ok b → 0 ≤ b `div` 16 < 16 ∧ 0 ≤ b `mod` 16 < 16.
Proof. cbv beta. intros. Z.to_euclidean_division_equations; lia. Qed.

Lemma nibbles_join b : byte_ok b → Z.lor (wrap 8 (Z.shiftl (b `div` 16) 4)) (b `mod` 16) = b.
Proof.
  intros Hb. destruct (print_byte_digits b Hb). pose proof (Z.div_mod b 16).
  rewrite Z.shiftl_mul_pow2 by done. change (2 ^ 4) with 16.
  rewrite wrap_id by (unfold in_range; change (2 ^ 8) with 256; lia).
  change 16 with (2 ^ 4) at 2. rewrite <- Z.shiftl_mul_pow2, Z.lor_comm, lor_shiftl_add by (done || lia).
  change (2 ^ 4) with 16. lia.
Qed.

Lemma print_mac_cons upper colons b b' mac :
  print_mac upper colons (b :: b' :: mac) =
    print_byte upper b ++ (if colons then [colon] else []) ++ print_mac upper colons (b' :: mac).
Proof. done. Qed.

(** The address begins with a digit. *)
Lemma print_mac_head upper colons b mac :
  ∃ s, print_mac upper colons (b :: mac) = hexdigit upper (b `div` 16) :: s.
Proof. destruct mac; by eexists. Qed.

Lemma mac_loop_print upper colons mac rest out :
  bytes_ok mac → mac_loop (length mac) (print_mac upper colons mac ++ rest) out = Some (out ++ mac).
Proof.
  intros Hm. revert out. induction Hm as [|b mac Hb Hm IH]; intros out; [by rewrite app_nil_r|].
  destruct (print_byte_digits b Hb) as [Hh Hl].
  assert (∀ s, mac_loop (length (b :: mac)) (print_byte upper b ++ s) out =
    mac_loop (length mac) (match s with
      | c :: s' => if bool_decide (length mac ≠ 0%nat ∧ c = colon) then s' else s
      | [] => s end) (out ++ [b])) as Hstep.
  { intros s. cbn [length mac_loop print_byte app]. rewrite !hex_nibble_digit by done. cbn [mbind option_bind].
    by rewrite nibbles_join. }
  destruct mac as [|b' mac].
  - cbn [print_mac]. rewrite Hstep. by destruct rest.
  - rewrite print_mac_cons, <- !app_assoc, Hstep.
    replace (match _ ++ _ with [] => _ | c :: s' => _ end) with (print_mac upper colons (b' :: mac) ++ rest).
    { rewrite IH. by rewrite <- app_assoc. }
    destruct colons; cbn [app]; [by rewrite bool_decide_true|].
    destruct (print_mac_head upper false b' mac) as [s ->]. cbn [app]. rewrite bool_decide_false; [done|].
    intros [_ E]. apply Forall_cons in Hm as [Hb' _]. destruct (print_byte_digits b' Hb').
    by apply (hexdigit_not_colon upper (b' `div` 16)).
Qed.

Lemma lines_app a b : lines (a ++ newline :: b) = lines a ++ lines b.
Proof.
  induction a as [|x a IH]; [done|]. cbn [lines app]. rewrite IH. case_bool_decide; [done|].
  destruct (lines_front a) as [ls ->]. done.
Qed.

Lemma lines_one l : newline ∉ l → lines l = [l].
Proof.
  induction l as [|x l IH]; [done|]. intros [Hx Hl]%not_elem_of_cons. cbn [lines].
  rewrite bool_decide_false by done. by rewrite IH.
Qed.

Lemma lines_join ls : ls ≠ [] → Forall (λ l, newline ∉ l) ls → lines (join_lines ls) = ls.
Proof.
  intros Hne Hf. induction Hf as [|l ls Hl Hf IH]; [done|]. destruct ls as [|l' ls]; [by apply lines_one|].
  change (join_lines (l :: l' :: ls)) with (l ++ newline :: join_lines (l' :: ls)).
  rewrite lines_app, IH by done. by rewrite lines_one.
Qed.

Lemma first_with_found tag before value after :
  Forall (λ l, has_tag tag l = false) before →
  first_with tag (before ++ (tag ++ value) :: after) = Some value.
Proof.
  intros Hb. unfold first_with. induction Hb as [|l before Hl _ IH]; simpl; [|by rewrite Hl].
  assert (has_tag tag (tag ++ value) = true) as ->.
  { unfold has_tag. rewrite take_app_length. by rewrite !bool_decide_true by (rewrite ?length_app; lia || done). }
  simpl. by rewrite drop_app_length.
Qed.

(** A configuration file whose first [MAC_ADDR=] line is a printed address,
    in either case, with or without colons and whatever follows it in the line, gives that address back,
    whatever the other lines are; a file without such a line gives the default address; and the parser
    always answers. *)
Lemma configfile_mac upper colons mac junk before after config data :
  length mac = 6%nat → bytes_ok mac →
  Forall (λ l, newline ∉ l) (before ++ (bytes_of "MAC_ADDR=" ++ print_mac upper colons mac ++ junk) :: after) →
  Forall (λ l, has_tag (bytes_of "MAC_ADDR=") l = false) before →
  Forall (λ l, has_tag (bytes_of "MAC_ADDR=") l = false) (lines data) →
  parse_configfile
    (join_lines (before ++ (bytes_of "MAC_ADDR=" ++ print_mac upper colons mac ++ junk) :: after)) config =
    Ok (mkConf mac) ∧
  parse_configfile data config = Ok (mkConf DEFAULT_MAC).
Proof.
  intros Hl Hb Hn Hf Hd. unfold parse_configfile, find_tag.
  rewrite !find_tag_loop_lines by (done || lia). cbn [mbind res_bind]. split.
  - rewrite lines_join by (done || by destruct before). rewrite first_with_found by done.
    cbn [mbind option_bind]. unfold parse_mac_addr.
    pose proof (mac_loop_print upper colons mac junk [] Hb) as E. rewrite Hl in E. by rewrite E.
  - assert (first_with (bytes_of "MAC_ADDR=") (lines data) = None) as ->; [|done].
    unfold first_with. induction Hd as [|l ls Hx _ IH]; [done|]. simpl. by rewrite Hx.
Qed.

(** A file of three lines, the address in capitals. *)
Lemma configfile_mac_witness :
  parse_configfile (bytes_of "KEY=1" ++ newline :: bytes_of "MAC_ADDR=88:00:33:AB:cd:EF") (mkConf []) =
    Ok (mkConf [0x88; 0; 0x33; 0xAB; 0xCD; 0xEF]) ∧
  parse_configfile (join_lines ([bytes_of "KEY=1"] ++ (bytes_of "MAC_ADDR=" ++
      print_mac true true [0x88; 0; 0x33; 0xAB; 0xCD; 0xEF] ++ []) :: [])) (mkConf []) =
    Ok (mkConf [0x88; 0; 0x33; 0xAB; 0xCD; 0xEF]).
Proof.
  split; [vm_compute; reflexivity|].
  apply (configfile_mac true true [0x88; 0; 0x33; 0xAB; 0xCD; 0xEF] [] [bytes_of "KEY=1"] [] (mkConf []) []).
  - reflexivity.
  - repeat constructor; done.
  - apply (bool_decide_unpack _). vm_compute. exact I.
  - repeat constructor.
  - repeat constructor.
Defined.

(** A word of eight digits and what follows it. *)
Lemma hex_loop_print upper n v w rest :
  0 ≤ w → w * 16 ^ Z.of_nat n + v `mod` 16 ^ Z.of_nat n < 2 ^ 32 →
  hex_loop n (print_hex upper n v ++ rest) w = Some (w * 16 ^ Z.of_nat n + v `mod` 16 ^ Z.of_nat n).
Proof.
  revert w. induction n as [|n IH]; intros w Hw Hr; cbn [hex_loop print_hex app].
  { rewrite Z.mod_1_r. f_equal. lia. }
  rewrite hex_nibble_digit by (apply Z.mod_pos_bound; lia). cbn [mbind option_bind].
  rewrite Nat2Z.inj_succ, Z.pow_succ_r in * by lia. set (p := 16 ^ Z.of_nat n) in *.
  assert (0 < p) by (apply Z.pow_pos_nonneg; lia).
  assert (v `mod` (16 * p) = v `mod` p + p * ((v `div` p) `mod` 16)) as E
    by (rewrite (Z.mul_comm 16); apply Z.rem_mul_r; lia).
  pose proof (Z.mod_pos_bound (v `div` p) 16). pose proof (Z.mod_pos_bound v p).
  set (d := (v `div` p) `mod` 16) in *.
  assert (Z.lor (wrap 32 (Z.shiftl w 4)) d = w * 16 + d) as ->.
  { rewrite wrap_id by (rewrite Z.shiftl_mul_pow2 by done; unfold in_range; nia).
    rewrite Z.lor_comm, lor_shiftl_add by (done || unfold in_range; lia). lia. }
  rewrite IH by nia. f_equal. nia.
Qed.

Lemma parse_hex8_print upper v rest :
  in_range 32 v → parse_hex8 (print_hex upper 8 v ++ rest) = Some v.
Proof.
  intros Hv. unfold in_range in Hv. unfold parse_hex8. rewrite bool_decide_false by (simpl; lia).
  rewrite hex_loop_print by (change (16 ^ Z.of_nat 8) with (2 ^ 32); rewrite ?Z.mod_small by done; lia).
  change (16 ^ Z.of_nat 8) with (2 ^ 32). by rewrite Z.mod_small.
Qed.
