(* ===== verification/Netdev.v ===== *)
(** * The data plane's interfaces: [driver/fdrv/src/net_device.rs], [txrxif.rs], [tcp_ack.rs],
      [priv_cmd.rs], [manager.rs], [vendor.rs], [sdio_host.rs] and [src/src/lib.rs]

    The interface towards the network stack, the callback for received frames, the
    TCP acknowledgement table, private commands and the driver's context.  Strings
    are their UTF-8 bytes; [chars] is the decoding the standard library does. *)

From S2P Require Import Prelude CmdMgr Chip Ieee80211.

(** ** UTF-8 *)

Definition cont (b : Z) : bool := bool_decide (0x80 ≤ b ≤ 0xBF).
(** The first two bytes of a character of three, of four. *)
Definition lead3 (b0 b1 : Z) : bool :=
  bool_decide ((b0 = 0xE0 ∧ 0xA0 ≤ b1 ≤ 0xBF) ∨ (0xE1 ≤ b0 ≤ 0xEC ∧ 0x80 ≤ b1 ≤ 0xBF) ∨
               (b0 = 0xED ∧ 0x80 ≤ b1 ≤ 0x9F) ∨ (0xEE ≤ b0 ≤ 0xEF ∧ 0x80 ≤ b1 ≤ 0xBF)).
Definition lead4 (b0 b1 : Z) : bool :=
  bool_decide ((b0 = 0xF0 ∧ 0x90 ≤ b1 ≤ 0xBF) ∨ (0xF1 ≤ b0 ≤ 0xF3 ∧ 0x80 ≤ b1 ≤ 0xBF) ∨
               (b0 = 0xF4 ∧ 0x80 ≤ b1 ≤ 0x8F)).

(** [core::str::from_utf8]: the characters, each by its bytes. *)
Fixpoint chars (l : list Z) : option (list (list Z)) :=
  match l with
  | [] => Some []
  | b0 :: l1 =>
      if bool_decide (b0 < 0x80) then cons [b0] <$> chars l1
      else match l1 with
      | [] => None
      | b1 :: l2 =>
          if bool_decide (0xC2 ≤ b0 ≤ 0xDF) && cont b1 then cons [b0; b1] <$> chars l2
          else match l2 with
          | [] => None
          | b2 :: l3 =>
              if lead3 b0 b1 && cont b2 then cons [b0; b1; b2] <$> chars l3
              else match l3 with
              | [] => None
              | b3 :: l4 =>
                  if lead4 b0 b1 && cont b2 && cont b3 then cons [b0; b1; b2; b3] <$> chars l4 else None
              end
          end
      end
  end.

(** [core::str::from_utf8(s).unwrap_or(..)] of an empty string *)
Definition str_or_empty (s : list Z) : list Z := if chars s is Some _ then s else [].

(** [char::is_whitespace] *)
Definition is_white (c : list Z) : bool :=
  match c with
  | [b] => bool_decide (9 ≤ b ≤ 13 ∨ b = 32)
  | [0xC2; b] => bool_decide (b = 0x85 ∨ b = 0xA0)
  | [0xE1; 0x9A; 0x80] => true
  | [0xE2; 0x80; b] => bool_decide (0x80 ≤ b ≤ 0x8A ∨ b = 0xA8 ∨ b = 0xA9 ∨ b = 0xAF)
  | [0xE2; 0x81; 0x9F] => true
  | [0xE3; 0x80; 0x80] => true
  | _ => false
  end.

(** [str::split_whitespace]; [cur] is the word under way *)
Fixpoint split_white (cs : list (list Z)) (cur : list Z) : list (list Z) :=
  let word := if bool_decide (cur = []) then [] else [cur] in
  match cs with
  | [] => word
  | c :: cs => if is_white c then word ++ split_white cs [] else split_white cs (cur ++ c)
  end.

(** ** Network devices *)

(** driver/fdrv/src/net_device.rs:9-9 [ETH_ALEN] *)
Definition ETH_ALEN : nat := 6.

(** driver/fdrv/src/net_device.rs:13-22 [NetDeviceStats] *)
Record NetDeviceStats := mkStats {
  rx_packets : Z; tx_packets : Z; rx_bytes : Z; tx_bytes : Z;
  rx_errors : Z; tx_errors : Z; rx_dropped : Z; tx_dropped : Z }.

(** driver/fdrv/src/net_device.rs:27-38 [NetDevice] *)
Record NetDevice := mkNetDevice {
  nd_name : list Z; nd_mac : list Z; up : bool; carrier_ok : bool; stats : NetDeviceStats }.

(** driver/fdrv/src/net_device.rs:40-50 [NetDevice::default] *)
Definition net_device_default : NetDevice :=
  mkNetDevice (zeros 16) (zeros ETH_ALEN) false false (mkStats 0 0 0 0 0 0 0 0).

(** driver/fdrv/src/net_device.rs:53-59 [NetDevice::new] *)
Definition net_device_new (name : list Z) : res NetDevice :=
  let n := net_device_default in
  let len := Nat.min (length name) 15 in
  bytes ← slice_to 0 len name;
  nm ← write_at 0 bytes n.(nd_name);
  Ok (mkNetDevice nm n.(nd_mac) n.(up) n.(carrier_ok) n.(stats)).

(** driver/fdrv/src/net_device.rs:62-62 [NetDevice::name_str], the end of the name *)
Definition name_end (name : list Z) : nat :=
  default 16%nat (fst <$> list_find (λ b, b = 0) name).

(** driver/fdrv/src/net_device.rs:61-64 [NetDevice::name_str] *)
Definition name_str (d : NetDevice) : res (list Z) :=
  s ← slice_to 0 (name_end d.(nd_name)) d.(nd_name); Ok (str_or_empty s).

(** driver/fdrv/src/net_device.rs:66-68 [NetDevice::set_mac_addr] *)
Definition set_mac_addr (mac : list Z) (d : NetDevice) : NetDevice :=
  mkNetDevice d.(nd_name) mac d.(up) d.(carrier_ok) d.(stats).
(** driver/fdrv/src/net_device.rs:71-73 [NetDevice::carrier_on] *)
Definition carrier_on (d : NetDevice) : NetDevice :=
  mkNetDevice d.(nd_name) d.(nd_mac) d.(up) true d.(stats).
(** driver/fdrv/src/net_device.rs:76-78 [NetDevice::carrier_off] *)
Definition carrier_off (d : NetDevice) : NetDevice :=
  mkNetDevice d.(nd_name) d.(nd_mac) d.(up) false d.(stats).

(** driver/fdrv/src/net_device.rs:80-88 [NetDevice::tx_start_all_queues, NetDevice::tx_stop_all_queues]; there are no queues *)
Definition tx_all_queues (start : bool) (d : NetDevice) : NetDevice := d.

(** driver/fdrv/src/net_device.rs:91-95 [NetDeviceXmit], which nothing in the repository implements; [S] is what it works on *)
Class NetDeviceXmit (S : Type) := { start_xmit : list Z → st S () }.

(** ** Scan results and numbers for user space *)

(** driver/fdrv/src/wiphy.rs:20-25 [ScanResult] *)
Record ScanResult := mkScanResult { scan_ssid : list Z; scan_bssid : list Z; scan_freq : Z; scan_rssi : Z }.

(** driver/fdrv/src/wiphy.rs:29-40 [ScanResult::from_bss_info] *)
Definition from_bss_info (b : BssInfo) : ScanResult :=
  let n := Z.to_nat (Z.min b.(ssid_len) 32) in
  mkScanResult (str_or_empty (take n b.(ssid))) b.(bssid) b.(freq) b.(rssi).

(** driver/fdrv/src/manager.rs:13-31 [NetlinkMsgType] *)
Inductive NetlinkMsgType :=
  | NlDaemonOn | NlDaemonOff | NlDaemonAlive | NlDelSta | NlNewSta | NlIntfRpt | NlStaRpt | NlFrameRpt
  | NlTimeTick | NlPrivInfoCmd | NlBSteerCmd | NlBSteerBlockAdd | NlBSteerBlockDel | NlBSteerRoam
  | NlGeneralCmd | NlCustomer | NlConfigUpdate.

(** driver/fdrv/src/manager.rs:13-31 [NetlinkMsgType], the numbers *)
Definition netlink_code (x : NetlinkMsgType) : Z :=
  match x with
  | NlDaemonOn => 1 | NlDaemonOff => 2 | NlDaemonAlive => 3 | NlDelSta => 4 | NlNewSta => 5 | NlIntfRpt => 6
  | NlStaRpt => 7 | NlFrameRpt => 8 | NlTimeTick => 9 | NlPrivInfoCmd => 10 | NlBSteerCmd => 11
  | NlBSteerBlockAdd => 12 | NlBSteerBlockDel => 13 | NlBSteerRoam => 14 | NlGeneralCmd => 100
  | NlCustomer => 101 | NlConfigUpdate => 102
  end.

(** driver/fdrv/src/vendor.rs:12-21 [VendorSubcmd] *)
Inductive VendorSubcmd :=
  | VendorGetVersion | VendorSetMacAddr | VendorGetMacAddr | VendorScan | VendorConnect | VendorDisconnect
  | VendorGetRssi | VendorGetLinkSpeed.

(** driver/fdrv/src/vendor.rs:12-21 [VendorSubcmd], the numbers *)
Definition vendor_code (x : VendorSubcmd) : Z :=
  match x with
  | VendorGetVersion => 1 | VendorSetMacAddr => 2 | VendorGetMacAddr => 3 | VendorScan => 4
  | VendorConnect => 5 | VendorDisconnect => 6 | VendorGetRssi => 7 | VendorGetLinkSpeed => 8
  end.

Lemma netlink_code_injective x y : netlink_code x = netlink_code y → x = y.
Proof. by destruct x, y. Qed.
Lemma vendor_code_injective x y : vendor_code x = vendor_code y → x = y.
Proof. by destruct x, y. Qed.

(** An SSID of plain characters comes through whole, whatever follows it in the field. *)
Lemma from_bss_info_ssid name pad b f r :
  (length name ≤ 32)%nat → chars name ≠ None →
  (from_bss_info (mkBss b f r (name ++ pad) (Z.of_nat (length name)))).(scan_ssid) = name.
Proof.
  intros Hn Hc. unfold from_bss_info. simpl. rewrite Z.min_l, Nat2Z.id, take_app_length by lia.
  unfold str_or_empty. by destruct (chars name).
Qed.

(** ** Received frames *)

(** driver/fdrv/src/txrxif.rs:7-11 [SDIO_TYPE_DATA, SDIO_TYPE_CFG, SDIO_TYPE_CFG_CMD_RSP, SDIO_TYPE_CFG_DATA_CFM, SDIO_TYPE_CFG_PRINT] *)
Definition frame_types : list Z := [0x00; 0x10; 0x11; 0x12; 0x13].

(** driver/fdrv/src/txrxif.rs:13-20 [IPC_RXBUF_CNT, IPC_RXDESC_CNT, RX_HWHRD_LEN, CMD_BUF_MAX, MAX_RXQLEN] *)
Definition ipc_counts : list nat := [128; 128; 36; 256; 64]%nat.

(** driver/fdrv/src/txrxif.rs:22-27 [TxDataIf], which nothing in the repository implements; [S] is what it works on *)
Class TxDataIf (S : Type) := { txdata_if : list Z → st S () }.

Section rx_data.
(** What the callback works on. *)
Context {C : Type}.
Definition RxDataCb := option (list Z → C → C).

(** driver/fdrv/src/txrxif.rs:36-38 [set_rx_data_cb] *)
Definition set_rx_data_cb (cb : RxDataCb) (_ : RxDataCb) : RxDataCb := cb.
(** driver/fdrv/src/txrxif.rs:42-46 [fdrv_rx_data_invoke] *)
Definition fdrv_rx_data_invoke (cb : RxDataCb) (buf : list Z) (c : C) : C :=
  match cb with Some f => f buf c | None => c end.
End rx_data.

(** driver/fdrv/src/txrxif.rs:49-51 [tx_data] *)
Definition tx_data (buf : list Z) : res () := Err (-38).

(** driver/fdrv/src/sdio_host.rs:14-17 [SdioHostOps]; [S] is what the platform works on *)
Class SdioHostOps (S : Type) := {
  send_pkt : list Z → nat → st S nat;
  recv_pkt : nat → Z → Z → st S (nat * list Z) }.

(** driver/fdrv/src/sdio_host.rs:19-31 [SdioHost, SdioHost::new, SdioHost::chipid] *)
Record SdioHost := mkSdioHost { host_chipid : ProductId }.

Section sdio_host.
Context {S : Type} `{SdioHostOps S}.
(** driver/fdrv/src/sdio_host.rs:34-36 [SdioHost::send_cfg_cmd] *)
Definition send_cfg_cmd (buf : list Z) : st S nat := send_pkt buf (length buf).
(** driver/fdrv/src/sdio_host.rs:39-41 [SdioHost::recv_cfg_rsp]; a buffer of [cap] bytes *)
Definition recv_cfg_rsp (cap : nat) (msg_type : SdioType) : st S (nat * list Z) :=
  recv_pkt cap (wrap 32 (Z.of_nat cap)) (SdioType_u8 msg_type).
(** driver/fdrv/src/sdio_host.rs:44-46 [SdioHost::send_data] *)
Definition send_data (buf : list Z) : st S nat := send_pkt buf (length buf).
(** driver/fdrv/src/sdio_host.rs:49-51 [SdioHost::recv_data] *)
Definition recv_data (cap : nat) (len : Z) : st S (nat * list Z) := recv_pkt cap len (SdioType_u8 SData).
End sdio_host.

(** ** TCP acknowledgements *)

(** driver/fdrv/src/tcp_ack.rs:7-12 [TCP_ACK_NUM, TCP_ACK_DROP_CNT, ACK_OLD_TIME_MS, MAX_TCP_ACK, MIN_WIN_KB, SIZE_KB] *)
Definition TCP_ACK_NUM : nat := 32.
Definition TCP_ACK_DROP_CNT : Z := 10.
Definition ACK_OLD_TIME_MS : Z := 4000.
Definition MAX_TCP_ACK : nat := 200.
Definition MIN_WIN_KB : Z := 256.
Definition SIZE_KB : Z := 1024.

(** [x as i32] of a word, [a.wrapping_sub(b)] on [i32] *)
Definition as_i32 (x : Z) : Z := let w := x `mod` 2 ^ 32 in if bool_decide (w < 2 ^ 31) then w else w - 2 ^ 32.
Definition wrapping_sub_i32 (a b : Z) : Z := as_i32 (a - b).

(** driver/fdrv/src/tcp_ack.rs:16-18 [u32_before] *)
Definition u32_before (a b : Z) : bool := bool_decide (wrapping_sub_i32 (as_i32 a) (as_i32 b) ≤ 0).

(** driver/fdrv/src/tcp_ack.rs:23-30 [TcpAckMsg] *)
Record TcpAckMsg := mkAckMsg { source : Z; dest : Z; saddr : Z; daddr : Z; seq_no : Z; win : Z }.

(** driver/fdrv/src/tcp_ack.rs:34-46 [TcpAckInfo] *)
Record TcpAckInfo := mkAckInfo {
  ack_info_num : nat; busy : Z; drop_cnt : Z; psh_flag : Z; psh_seq : Z; win_scale : Z;
  last_time_ms : Z; timeout_ms : Z; msgbuf : option Z; in_send_msg : option Z; ack_msg : TcpAckMsg }.

(** driver/fdrv/src/tcp_ack.rs:50-59 [TcpAckManage] *)
Record TcpAckManage := mkAckManage {
  enable : bool; max_num : nat; free_index : Z; manage_last_time_ms : Z; manage_timeout_ms : Z;
  max_drop_cnt : Z; ack_info : list TcpAckInfo; ack_winsize_kb : Z }.

(** driver/fdrv/src/tcp_ack.rs:67-70 [TcpAckManage::new], the entries *)
Definition ack_info_new (i : nat) : TcpAckInfo :=
  mkAckInfo i 0 0 0 0 0 0 ACK_OLD_TIME_MS None None (mkAckMsg 0 0 0 0 0 0).

(** driver/fdrv/src/tcp_ack.rs:62-72 [TcpAckManage::new] *)
Definition tcp_ack_manage_new : TcpAckManage :=
  mkAckManage false 0 0 0 ACK_OLD_TIME_MS TCP_ACK_DROP_CNT (ack_info_new <$> seq 0 TCP_ACK_NUM) MIN_WIN_KB.

(** driver/fdrv/src/tcp_ack.rs:79-81 [filter_send_tcp_ack] *)
Definition filter_send_tcp_ack (buf : list Z) (plen : nat) : Z := 0.

(** ** Private commands *)

(** driver/fdrv/src/priv_cmd.rs:11-11 [PRIV_CMD_BUF_MAX] *)
Definition PRIV_CMD_BUF_MAX : nat := 4096.

(** driver/fdrv/src/priv_cmd.rs:15-19 [AndroidWifiPrivCmd] *)
Record AndroidWifiPrivCmd := mkPriv { priv_buf : list Z; used_len : nat; total_len : nat }.

(** driver/fdrv/src/priv_cmd.rs:21-29 [AndroidWifiPrivCmd::default] *)
Definition priv_default : AndroidWifiPrivCmd := mkPriv (zeros PRIV_CMD_BUF_MAX) 0 PRIV_CMD_BUF_MAX.
(** driver/fdrv/src/priv_cmd.rs:32-38 [AndroidWifiPrivCmd::new] *)
Definition priv_new (total : nat) : AndroidWifiPrivCmd := mkPriv (zeros total) 0 total.
(** driver/fdrv/src/priv_cmd.rs:40-45 [AndroidWifiPrivCmd::from_buf] *)
Definition priv_from_buf (buf : list Z) : res AndroidWifiPrivCmd :=
  let cmd := priv_new (length buf) in
  b ← write_at 0 buf cmd.(priv_buf);
  Ok (mkPriv b (length buf) cmd.(total_len)).

(** driver/fdrv/src/priv_cmd.rs:49-52 [AndroidWifiPrivCmd::parse_args] *)
Definition parse_args (c : AndroidWifiPrivCmd) : res (list (list Z)) :=
  s ← slice_to 0 c.(used_len) c.(priv_buf);
  Ok (split_white (default [] (chars s)) []).

(** ** The manager and the driver's context *)

(** driver/fdrv/src/manager.rs:33-35 [NL_AIC_PROTOCOL] *)
Definition NL_AIC_PROTOCOL : Z := 29.
(** driver/fdrv/src/manager.rs:37-39 [NL_MAX_MSG_SIZE] *)
Definition NL_MAX_MSG_SIZE : nat := 768.
(** driver/fdrv/src/manager.rs:44-51 [WifiState] *)
Inductive WifiState := WDown | WUp | WScanning | WConnecting | WConnected | WDisconnecting.
(** driver/fdrv/src/manager.rs:54-57 [WifiManager] *)
Record WifiManager := mkManager { wifi_state : WifiState; interface_name : list Z }.
(** driver/fdrv/src/manager.rs:60-65 [WifiManager::new] *)
Definition manager_new (interface : list Z) : WifiManager := mkManager WDown interface.
(** driver/fdrv/src/manager.rs:67-69 [WifiManager::state] *)
Definition manager_state (m : WifiManager) : WifiState := m.(wifi_state).
(** driver/fdrv/src/manager.rs:75-77 [WifiManager::interface_name] *)
Definition manager_interface_name (m : WifiManager) : list Z := m.(interface_name).
(** driver/fdrv/src/manager.rs:71-73 [WifiManager::set_state] *)
Definition set_state (s : WifiState) (m : WifiManager) : WifiManager := mkManager s m.(interface_name).
(** driver/fdrv/src/manager.rs:79-82 [WifiManager::up] *)
Definition manager_up : st WifiManager () := λ m, (Ok (), set_state WUp m).
(** driver/fdrv/src/manager.rs:84-87 [WifiManager::down] *)
Definition manager_down : st WifiManager () := λ m, (Ok (), set_state WDown m).

(** src/lib.rs:18-21 [WirelessDriver] *)
Record WirelessDriver (W : Type) := mkDriver { driver_cmd_mgr : Mgr.t; driver_wiphy : W }.
Arguments mkDriver {W}.
Arguments driver_cmd_mgr {W}.
Arguments driver_wiphy {W}.
(** src/lib.rs:24-29 [WirelessDriver::new] *)
Definition wireless_driver_new {W : Type} (wiphy : W) : WirelessDriver W := mkDriver Mgr.new wiphy.
(** src/lib.rs:31-37 [WirelessDriver::cmd_mgr_mut, WirelessDriver::wiphy_mut]: a change through the reference that is lent *)
Definition with_driver {W : Type} (f : Mgr.t → Mgr.t) (g : W → W) (d : WirelessDriver W) : WirelessDriver W :=
  mkDriver (f d.(driver_cmd_mgr)) (g d.(driver_wiphy)).
(** src/lib.rs:61-64 [wireless_driver_init_stub]; the stub has no state *)
Definition wireless_driver_init_stub : WirelessDriver () := wireless_driver_new ().

(** ** What the parsers do *)

Lemma chars_app a b x : chars a = Some x → chars (a ++ b) = app x <$> chars b.
Proof.
  revert x. induction a as [a IH] using (induction_ltof1 _ (@length Z)); unfold ltof in IH. intros x.
  assert (Hc : ∀ c a' y, (length a' < length a)%nat → cons c <$> chars a' = Some y →
    cons c <$> chars (a' ++ b) = app y <$> chars b).
  { intros c a' y Hlt Hy. destruct (chars a') as [x'|] eqn:E; [|done]. injection Hy as <-.
    rewrite (IH a' Hlt x' E). by destruct (chars b). }
  destruct a as [|b0 l1]; cbn [chars app].
  { intros [= <-]. by destruct (chars b). }
  destruct (bool_decide (b0 < 0x80)); [apply Hc; simpl; lia|].
  destruct l1 as [|b1 l2]; [done|]. cbn [app].
  destruct (bool_decide (0xC2 ≤ b0 ≤ 0xDF) && cont b1); [apply Hc; simpl; lia|].
  destruct l2 as [|b2 l3]; [done|]. cbn [app].
  destruct (lead3 b0 b1 && cont b2); [apply Hc; simpl; lia|].
  destruct l3 as [|b3 l4]; [done|]. cbn [app].
  destruct (lead4 b0 b1 && cont b2 && cont b3); [apply Hc; simpl; lia|done].
Qed.

Lemma chars_concat a x : chars a = Some x → concat x = a.
Proof.
  revert x. induction a as [a IH] using (induction_ltof1 _ (@length Z)); unfold ltof in IH. intros x.
  assert (Hc : ∀ c a' y, (length a' < length a)%nat → cons c <$> chars a' = Some y → concat y = c ++ a').
  { intros c a' y Hlt Hy. destruct (chars a') as [x'|] eqn:E; [|done]. injection Hy as <-.
    simpl. by rewrite (IH a' Hlt x' E). }
  destruct a as [|b0 l1]; cbn [chars]; [by intros [= <-]|].
  destruct (bool_decide (b0 < 0x80)); [apply (Hc [_]); simpl; lia|].
  destruct l1 as [|b1 l2]; [done|].
  destruct (bool_decide (0xC2 ≤ b0 ≤ 0xDF) && cont b1); [apply (Hc [_; _]); simpl; lia|].
  destruct l2 as [|b2 l3]; [done|].
  destruct (lead3 b0 b1 && cont b2); [apply (Hc [_; _; _]); simpl; lia|].
  destruct l3 as [|b3 l4]; [done|].
  destruct (lead4 b0 b1 && cont b2 && cont b3); [apply (Hc [_; _; _; _]); simpl; lia|done].
Qed.

(** A word: valid UTF-8 without white space, and not empty. *)
Definition is_word (w : list Z) : Prop :=
  w ≠ [] ∧ ∃ cs, chars w = Some cs ∧ Forall (λ c, is_white c = false) cs.

(** Words with one space between them. *)
Fixpoint join_words (ws : list (list Z)) : list Z :=
  match ws with [] => [] | [w] => w | w :: ws => w ++ 32 :: join_words ws end.

Lemma split_white_word cs rest cur :
  Forall (λ c, is_white c = false) cs → split_white (cs ++ rest) cur = split_white rest (cur ++ concat cs).
Proof.
  intros Hc. revert cur. induction Hc as [|c cs Hc _ IH]; intros cur; simpl; [by rewrite app_nil_r|].
  by rewrite Hc, IH, <- app_assoc.
Qed.

Lemma split_join ws : Forall is_word ws → ∃ cs, chars (join_words ws) = Some cs ∧ split_white cs [] = ws.
Proof.
  induction 1 as [|w ws (Hne & cw & Hw & Hf) _ IH]; [by exists []|].
  pose proof (chars_concat w cw Hw) as Ew. destruct ws as [|w' ws].
  - exists cw. split; [done|]. rewrite <- (app_nil_r cw), split_white_word by done.
    simpl. by rewrite Ew, bool_decide_false.
  - destruct IH as (cs & Hcs & Hsp). change (join_words (w :: w' :: ws)) with (w ++ [32] ++ join_words (w' :: ws)).
    exists (cw ++ [32] :: cs). rewrite (chars_app w _ cw Hw), (chars_app [32] _ [[32]] eq_refl), Hcs. split; [done|].
    rewrite split_white_word by done. cbn [app split_white]. rewrite Ew. simpl is_white. cbv iota.
    by rewrite bool_decide_false, Hsp.
Qed.

(** A private command made of words with spaces between them is parsed
    back into exactly those words, for words of any valid UTF-8 without white space; and a buffer that is
    not valid UTF-8 gives no argument at all. *)
Lemma priv_args_roundtrip ws bad :
  Forall is_word ws → chars bad = None →
  (c ← priv_from_buf (join_words ws); parse_args c) = Ok ws ∧
  (c ← priv_from_buf bad; parse_args c) = Ok [].
Proof.
  intros Hw Hb.
  assert (∀ s, (c ← priv_from_buf s; parse_args c) = Ok (split_white (default [] (chars s)) [])) as E.
  { intros s. unfold priv_from_buf, priv_new, parse_args. cbn [priv_buf].
    rewrite write_at_front by solve_len. cbn [mbind res_bind used_len priv_buf].
    rewrite drop_ge, app_nil_r by solve_len. rewrite slice_to_ok by lia. cbn [mbind res_bind].
    by rewrite Nat.sub_0_r, slice_full. }
  rewrite !E, Hb. destruct (split_join ws Hw) as (cs & -> & Hs). simpl. by rewrite Hs.
Qed.

(** [CONNECT], a name with an accent; and a lone continuation byte. *)
Lemma priv_args_roundtrip_witness :
  let ws := [[67; 79; 78; 78; 69; 67; 84]; [99; 97; 102; 0xC3; 0xA9]] in
  (c ← priv_from_buf (join_words ws); parse_args c) = Ok ws ∧ (c ← priv_from_buf [0x80]; parse_args c) = Ok [].
Proof.
  intros ws. apply priv_args_roundtrip; [|reflexivity].
  repeat constructor; try discriminate; eexists; (split; [reflexivity|repeat constructor]).
Defined.

(** The name of a device: the first fifteen bytes, or nothing where they end within a character. *)
Lemma name_str_new name :
  Forall (λ b, b ≠ 0) name →
  (d ← net_device_new name; name_str d) = Ok (str_or_empty (take 15 name)).
Proof.
  intros Hn. unfold net_device_new. rewrite slice_to_ok by lia. cbn [mbind res_bind].
  rewrite Nat.sub_0_r. set (k := Nat.min (length name) 15).
  assert (slice 0 k name = take 15 name) as ->.
  { unfold slice. rewrite drop_0. subst k. destruct (decide (length name ≤ 15)%nat).
    - rewrite Nat.min_l by done. by rewrite firstn_all, take_ge.
    - by rewrite Nat.min_r by lia. }
  assert (length (take 15 name) ≤ 15)%nat as Hl by (rewrite length_take; lia).
  assert (Forall (λ b, b ≠ 0) (take 15 name)) as Hf by by apply Forall_take.
  unfold net_device_default. cbn [nd_name]. rewrite write_at_front by solve_len. cbn [mbind res_bind].
  unfold name_str, name_end. cbn [nd_name]. generalize dependent (take 15 name). clear name Hn k. intros l Hl Hf.
  assert (list_find (λ b, b = 0) (l ++ drop (length l) (zeros 16)) = Some (length l, 0)) as ->.
  { rewrite list_find_app_r by by apply list_find_None. unfold zeros. rewrite drop_replicate.
    destruct (16 - length l)%nat eqn:E; [lia|]. done. }
  cbn. unfold slice_to. rewrite bool_decide_true by solve_len. cbn [mbind res_bind].
  unfold slice. rewrite Nat.sub_0_r, drop_0. by rewrite take_app_length.
Qed.

(** [u32_before] on sequence numbers: right while they are at most 2^31 apart. *)
Lemma u32_before_window a d :
  0 ≤ d < 2 ^ 32 → u32_before (wrap 32 a) (wrap 32 (a + d)) = bool_decide (d ≤ 2 ^ 31).
Proof.
  intros Hd. unfold u32_before, wrapping_sub_i32, as_i32, wrap. rewrite !Z.mod_mod by lia.
  apply bool_decide_ext. repeat case_bool_decide; Z.to_euclidean_division_equations; lia.
Qed.
