(* ===== verification/Handoff.v ===== *)
(** * Handing a command to the bustx thread: [driver/bsp/src/sdio/flow.rs], [irq.rs]

    [submit_cmd_tx_and_wait_tx_done] and [bustx_thread_fn] meet in two statics,
    [PENDING_CMD_TX] and [TX_RESULT], and two wait queues, whose [notify_one] wakes
    the thread that waits and is lost when there is none.  Here every access is a
    step of its own, so that the interleavings that Flow.v leaves to its scheduler
    are all there.  The numbers of the commands and
    the log are ghosts: they say which command a result belongs to and how each
    submission ended. *)

From Stdlib Require Import Sorted.
From S2P Require Import Prelude.

(** driver/bsp/src/sdio/flow.rs:376-377 [BUSTX_WAIT_MS, EAGAIN] *)
Definition BUSTX_WAIT_MS : Z := 60000.
Definition EAGAIN : Z := -11.

(** Where the caller is: before [TX_RESULT] is cleared, before [PENDING_CMD_TX] is stored, before
    [notify_bustx], in the loop of waits.  Commands are numbered as they are submitted. *)
Inductive caller := CIdle | CCleared (n : nat) | CStored (n : nat) | CWaiting (n : nat).

(** Where the thread is: at the head of its loop, on its wait queue, woken, sending, gone. *)
Inductive thread := TTop | TWaiting | TWoken | TSending (n : nat) | TExited.

#[export] Instance thread_eq_dec : EqDecision thread.
Proof. solve_decision. Defined.

(** driver/bsp/src/sdio/flow.rs:43-52 [PENDING_CMD_TX], [BUSTX_RUNNING], [TX_RESULT], with where the two
    parties are and the ghosts *)
Record Handoff := mkHandoff {
  main : caller;
  bus : thread;
  bustx_running : bool;
  pending : option nat;
  tx_result : option (nat * Z);
  submitted : nat;
  sent : list nat;
  log : list (nat * option (nat * Z)) }.

Definition start : Handoff := mkHandoff CIdle TTop true None None 0 [] [].

Inductive event :=
  | EClear | EStore | ENotify | ETake | EGiveUp
  | EWait | EExit | ETimeout | ELook | ESend (result : Z) | EStop.

(** driver/bsp/src/sdio/flow.rs:429-456 [submit_cmd_tx_and_wait_tx_done], step by step, also driver/bsp/src/sdio/irq.rs:117-119 [notify_bustx];
    giving up after 5000 ms is possible whenever there is no result *)
Definition caller_step (e : event) (s : Handoff) : option Handoff :=
  match e, s.(main) with
  | EClear, CIdle =>
      Some (mkHandoff (CCleared (S s.(submitted))) s.(bus) s.(bustx_running) s.(pending) None
              (S s.(submitted)) s.(sent) s.(log))
  | EStore, CCleared n =>
      Some (mkHandoff (CStored n) s.(bus) s.(bustx_running) (Some n) s.(tx_result) s.(submitted) s.(sent) s.(log))
  | ENotify, CStored n =>
      Some (mkHandoff (CWaiting n) (if bool_decide (s.(bus) = TWaiting) then TWoken else s.(bus))
              s.(bustx_running) s.(pending) s.(tx_result) s.(submitted) s.(sent) s.(log))
  | ETake, CWaiting n =>
      match s.(tx_result) with
      | Some r => Some (mkHandoff CIdle s.(bus) s.(bustx_running) s.(pending) None s.(submitted) s.(sent)
                          (s.(log) ++ [(n, Some r)]))
      | None => None
      end
  | EGiveUp, CWaiting n =>
      match s.(tx_result) with
      | Some _ => None
      | None => Some (mkHandoff CIdle s.(bus) s.(bustx_running) s.(pending) None s.(submitted) s.(sent)
                        (s.(log) ++ [(n, None)]))
      end
  | _, _ => None
  end.

Definition set_bus (t : thread) (s : Handoff) : Handoff :=
  mkHandoff s.(main) t s.(bustx_running) s.(pending) s.(tx_result) s.(submitted) s.(sent) s.(log).

(** driver/bsp/src/sdio/flow.rs:375-408 [bustx_thread_fn], step by step, also driver/bsp/src/sdio/irq.rs:122-124 [wait_bustx_or_timeout];
    a wait that times out looks at nothing, [EAGAIN] stays with the command *)
Definition thread_step (e : event) (s : Handoff) : option Handoff :=
  match e, s.(bus) with
  | EWait, TTop => if s.(bustx_running) then Some (set_bus TWaiting s) else None
  | EExit, TTop => if s.(bustx_running) then None else Some (set_bus TExited s)
  | ETimeout, TWaiting => Some (set_bus TTop s)
  | ELook, TWoken =>
      match s.(pending) with
      | Some n => Some (mkHandoff s.(main) (TSending n) s.(bustx_running) None s.(tx_result) s.(submitted)
                          s.(sent) s.(log))
      | None => Some (set_bus TTop s)
      end
  | ESend r, TSending n =>
      if bool_decide (r = EAGAIN) then Some s
      else Some (mkHandoff s.(main) TTop s.(bustx_running) s.(pending) (Some (n, r)) s.(submitted)
                   (s.(sent) ++ [n]) s.(log))
  | _, _ => None
  end.

(** driver/bsp/src/sdio/flow.rs:1360-1365 [aicbsp_sdio_exit], the flag and the notification *)
Definition stop_step (s : Handoff) : Handoff :=
  mkHandoff s.(main) (if bool_decide (s.(bus) = TWaiting) then TWoken else s.(bus)) false s.(pending) s.(tx_result) s.(submitted) s.(sent) s.(log).

Definition step (e : event) (s : Handoff) : option Handoff :=
  match e with
  | EClear | EStore | ENotify | ETake | EGiveUp => caller_step e s
  | EStop => Some (stop_step s)
  | _ => thread_step e s
  end.

Fixpoint run (es : list event) (s : Handoff) : option Handoff :=
  match es with
  | [] => Some s
  | e :: es => s ← step e s; run es s
  end.

Inductive reachable : Handoff → Prop :=
  | reachable_start : reachable start
  | reachable_step e s s' : reachable s → step e s = Some s' → reachable s'.

Lemma run_reachable es s s' : reachable s → run es s = Some s' → reachable s'.
Proof.
  revert s. induction es as [|e es IH]; intros s Hs; cbn [run]; [by intros [= <-]|].
  destruct (step e s) as [s1|] eqn:E; [|done]. apply IH. by econstructor.
Qed.

(** The steps there are, by what happens and where the caller or the thread is. *)
Ltac step_cases e s E :=
  destruct e; cbn [step] in E; unfold caller_step, thread_step, stop_step, set_bus in E;
  repeat (lazymatch type of E with
    | match main s with _ => _ end = _ => destruct (main s) as [|?|?|?] eqn:?Em
    | match bus s with _ => _ end = _ => destruct (bus s) as [| | |?|] eqn:?Eb
    | match ?x with _ => _ end = _ => destruct x eqn:?
    end; cbv beta iota in E; try discriminate E).

(** ** Every command is sent at most once, in order *)

Definition in_sending (t : thread) : list nat := match t with TSending n => [n] | _ => [] end.
(** The commands that were sent, the one that is being sent, the one that waits. *)
Definition line (s : Handoff) : list nat := s.(sent) ++ in_sending s.(bus) ++ option_list s.(pending).

Definition in_order (s : Handoff) : Prop :=
  StronglySorted lt (line s) ∧ Forall (λ n, n ≤ s.(submitted))%nat (line s) ∧
  match s.(main) with
  | CIdle => True
  | CCleared n => n = s.(submitted) ∧ Forall (λ k, k < n)%nat (line s)
  | CStored n | CWaiting n => n = s.(submitted)
  end.

Lemma sorted_app_inv {A} (R : A → A → Prop) l1 l2 : StronglySorted R (l1 ++ l2) → StronglySorted R l1.
Proof.
  induction l1 as [|x l1 IH]; simpl; [constructor|]. intros Hs. apply StronglySorted_inv in Hs as [Hs Hf].
  constructor; [by apply IH|]. by apply Forall_app in Hf as [Hf _].
Qed.

Lemma sorted_snoc (l : list nat) n :
  StronglySorted lt l → Forall (λ k, k < n)%nat l → StronglySorted lt (l ++ [n]).
Proof.
  induction 1 as [|x l Hs IH Hf]; intros Hn; simpl; [repeat constructor|].
  apply Forall_cons in Hn as [Hx Hn]. constructor; [by apply IH|]. apply Forall_app. by repeat constructor.
Qed.

Lemma sorted_sublist l l' : sublist l' l → StronglySorted lt l → StronglySorted lt l'.
Proof.
  induction 1 as [|x l1 l2 Hs IH|x l1 l2 Hs IH]; intros Hl; [done|..]; apply StronglySorted_inv in Hl as [Hl Hx].
  - constructor; [by apply IH|]. rewrite !Forall_forall in *. intros y Hy. by apply Hx; eapply elem_of_sublist.
  - by apply IH.
Qed.

Lemma sorted_NoDup l : StronglySorted lt l → NoDup l.
Proof.
  induction 1 as [|x l _ IH Hx]; constructor; [|done]. rewrite Forall_forall in Hx. intros ?%Hx. lia.
Qed.

(** Waking the thread changes nothing in the line. *)
Lemma in_sending_wake t : in_sending (if bool_decide (t = TWaiting) then TWoken else t) = in_sending t.
Proof. case_bool_decide as E; [by rewrite E|done]. Qed.

Lemma in_order_step e s s' : in_order s → step e s = Some s' → in_order s'.
Proof.
  unfold in_order, line. intros (Hs & Hf & Hm) E.
  step_cases e s E.
  all: injection E as <-; simpl in *; rewrite ?in_sending_wake, ?Em, ?Eb in *; simpl in *.
  all: try by (split; [|split]).
  - split; [done|]. split; [|split; [done|]]; eapply Forall_impl; try exact Hf; simpl; lia.
  - destruct Hm as [-> Hn]. rewrite app_assoc in *. apply Forall_app in Hn as [Hn _].
    apply Forall_app in Hf as [Hf _]. split; [by eapply sorted_snoc, Hn; eapply sorted_app_inv|].
    split; [|done]. apply Forall_app. by repeat constructor.
  - by rewrite <- app_assoc.
Qed.

Lemma reachable_in_order s : reachable s → in_order s.
Proof.
  induction 1 as [|e s s' _ IH E]; [|by eapply in_order_step].
  split; [constructor|]. split; [constructor|done].
Qed.

(** Whatever the interleaving of submissions, wake-ups, time-outs and
    sends, including [EAGAIN] and a stop of the thread: the commands that went out are a strictly
    increasing sequence of submitted ones, so that none is sent twice, and none overtakes another. *)
Lemma handoff_at_most_once s :
  reachable s → StronglySorted lt s.(sent) ∧ Forall (λ n, n ≤ s.(submitted))%nat s.(sent).
Proof.
  intros (Hs & Hf & _)%reachable_in_order. unfold line in *. split; [by eapply sorted_app_inv|].
  by apply Forall_app in Hf as [Hf _].
Qed.

(** ** A caller that does not give up gets its own result *)

Definition patient (s : Handoff) : Prop := Forall (λ '(_, o), o ≠ None) s.(log).

Definition own_entry : nat * option (nat * Z) → Prop := λ '(n, o), ∀ k r, o = Some (k, r) → k = n.

(** Nothing is under way; command [n] is, at exactly one place. *)
Definition quiet (s : Handoff) : Prop :=
  s.(pending) = None ∧ in_sending s.(bus) = [] ∧ s.(tx_result) = None.
Definition under_way (n : nat) (s : Handoff) : Prop :=
  (s.(pending) = Some n ∧ in_sending s.(bus) = [] ∧ s.(tx_result) = None) ∨
  (s.(pending) = None ∧ in_sending s.(bus) = [n] ∧ s.(tx_result) = None) ∨
  (s.(pending) = None ∧ in_sending s.(bus) = [] ∧ ∃ r, s.(tx_result) = Some (n, r)).

Definition one_place (s : Handoff) : Prop :=
  Forall own_entry s.(log) ∧
  match s.(main) with
  | CIdle | CCleared _ => quiet s
  | CStored n | CWaiting n => under_way n s
  end.

Lemma one_place_step e s s' :
  (patient s → one_place s) → step e s = Some s' → patient s' → one_place s'.
Proof.
  unfold one_place, quiet, under_way, patient. intros Hone E Hp.
  step_cases e s E.
  all: injection E as <-; simpl in *; rewrite ?in_sending_wake, ?Em, ?Eb in *; simpl in *.
  4: { apply Forall_app in Hp as [Hp _]. destruct (Hone Hp) as [Hown Hpl]. split; [|naive_solver].
       apply Forall_app. split; [done|]. apply Forall_singleton. intros k r [= ->]. naive_solver. }
  4: { apply Forall_app in Hp as [_ Hl]. by apply Forall_cons in Hl as [Hl _]. }
  all: destruct (Hone Hp) as [Hown Hpl]; split; [done|]; try destruct (main s); naive_solver.
Qed.

Lemma patient_back e s s' : step e s = Some s' → patient s' → patient s.
Proof.
  unfold patient. intros E Hp.
  step_cases e s E.
  all: injection E as <-; try done; simpl in Hp; by apply Forall_app in Hp as [Hp _].
Qed.

(** C19 (safety): in every run in which no caller has given up, every submission that
    ended has ended with the result of its own command; and at any time the command that was submitted
    last is at exactly one place: waiting, being sent, or answered. *)
Theorem handoff_own_result s : reachable s → patient s → one_place s.
Proof.
  induction 1 as [|e s s' _ IH E]; [by repeat split|]. intros Hp.
  eapply one_place_step; [exact IH|exact E|exact Hp].
Qed.

(** Two submissions, each answered by its own result. *)
Definition two_sent : list event :=
  [EWait; EClear; EStore; ENotify; ELook; ESend 0; ETake; EWait; EClear; EStore; ENotify; ELook; ESend (-11);
   ESend (-5); ETake].

Lemma handoff_at_most_once_witness :
  match run two_sent start with
  | Some s => s.(sent) = [1; 2]%nat ∧ StronglySorted lt s.(sent)
  | None => False
  end.
Proof.
  destruct (run two_sent start) as [s|] eqn:E; [|vm_compute in E; discriminate E].
  pose proof (run_reachable two_sent start s reachable_start E) as Hr.
  split; [vm_compute in E; injection E as <-; reflexivity|]. apply (handoff_at_most_once s Hr).
Defined.

Lemma handoff_own_result_witness :
  match run two_sent start with
  | Some s => s.(log) = [(1%nat, Some (1%nat, 0)); (2%nat, Some (2%nat, -5))] ∧ Forall own_entry s.(log)
  | None => False
  end.
Proof.
  destruct (run two_sent start) as [s|] eqn:E; [|vm_compute in E; discriminate E].
  pose proof (run_reachable two_sent start s reachable_start E) as Hr.
  assert (s.(log) = [(1%nat, Some (1%nat, 0)); (2%nat, Some (2%nat, -5))]) as El
    by (vm_compute in E; injection E as <-; reflexivity).
  split; [exact El|]. apply (handoff_own_result s Hr). unfold patient. rewrite El. by repeat constructor.
Defined.

(** ** What goes wrong otherwise *)

Definition thread_side (e : event) : bool :=
  match e with EWait | EExit | ETimeout | ELook | ESend _ => true | _ => false end.

(** A command waits, and the thread was not told. *)
Definition forgotten (s : Handoff) : Prop :=
  s.(pending) ≠ None ∧ (s.(bus) = TTop ∨ s.(bus) = TWaiting ∨ s.(bus) = TExited) ∧ s.(tx_result) = None.

Lemma forgotten_step e s s' : thread_side e = true → forgotten s → step e s = Some s' →
  forgotten s' ∧ s'.(sent) = s.(sent) ∧ s'.(main) = s.(main).
Proof.
  unfold forgotten. intros He (Hp & Hb & Hr) E.
  destruct e; try discriminate He; cbn [step] in E; unfold thread_step, set_bus in E;
    destruct Hb as [Hb|[Hb|Hb]]; rewrite Hb in E; try done;
    try (destruct (bustx_running s); try done); injection E as <-; simpl; naive_solver.
Qed.

(** C20 (counterexample): two runs the queues allow.  When the thread is between two waits as a
    command is submitted, the notification is lost, and no run of the thread, however often its waits
    time out, sends that command any more: the caller has to give up.  And when a caller gives up while
    its command is being sent, the next caller takes the old command's result: it is told that its own
    command, number 2, went out, while only number 1 did. *)
Theorem handoff_flaws :
  (∃ s, reachable s ∧ s.(main) = CWaiting 1 ∧ ∀ es s', Forall (λ e, thread_side e = true) es →
     run es s = Some s' → s'.(sent) = [] ∧ s'.(tx_result) = None ∧ s'.(main) = CWaiting 1) ∧
  (∃ s, reachable s ∧ s.(log) = [(1%nat, None); (2%nat, Some (1%nat, 0))] ∧ s.(sent) = [1%nat] ∧
     s.(pending) = Some 2%nat).
Proof.
  split.
  - set (es0 := [EClear; EStore; ENotify]). destruct (run es0 start) as [s|] eqn:E; [|vm_compute in E; discriminate E].
    exists s. split; [by eapply run_reachable; [apply reachable_start|]|].
    vm_compute in E. injection E as <-. split; [done|].
    match goal with |- context [run _ ?s = _] => set (s0 := s) end.
    assert (forgotten s0) as Hf by (split; [done|split; [by left|done]]).
    assert (sent s0 = [] ∧ main s0 = CWaiting 1) as Hs by done. clearbody s0. clear es0.
    intros es s' Hes. revert s0 Hf Hs. induction Hes as [|e es He _ IH]; intros s0 Hf [Hs Hm]; cbn [run].
    + intros [= <-]. by destruct Hf as (_ & _ & Hr).
    + destruct (step e s0) as [s1|] eqn:E; [|done].
      destruct (forgotten_step e s0 s1 He Hf E) as (Hf1 & Hs1 & Hm1). apply IH; [done|]. by rewrite Hs1, Hm1.
  - set (es0 := [EWait; EClear; EStore; ENotify; ELook; EGiveUp; EClear; EStore; ENotify; ESend 0; ETake]).
    destruct (run es0 start) as [s|] eqn:E; [|vm_compute in E; discriminate E]. exists s.
    split; [by eapply run_reachable; [apply reachable_start|]|]. vm_compute in E. by injection E as <-.
Qed.
