(* ===== verification/CardIrq.v ===== *)
(** * The card's interrupt and its thread: [driver/bsp/src/sdio/flow.rs], [irq.rs], [backend.rs]

    Four parties meet at the bit CARD_INT of the controller: the card, which raises
    it; [handle_sdhci_host_irq], which masks it and wakes [sdio_irq_work_thread_fn];
    the sending thread, the receiving thread and the caller that polls while it waits for
    a confirmation, which find it set as they begin a transfer
    under the lock of [SDIO_DEVICE], mask it, wake the thread, give the lock back and
    wait; and the thread, which under the lock reads the card's register 0x05 and
    enables the bit again.  Each access of theirs is a step of its own, so that every
    interleaving is there; the handler, which nothing interrupts, is one step.  The
    wait queues are those of Handoff.v: [notify_one] wakes a thread that waits, and is
    lost when none does. *)

From S2P Require Import Prelude SdHost.

(** Those that transfer: the two bus threads, and the thread of the caller, which polls while it waits for a
    confirmation ([sdio_poll_rx_once]). *)
Inductive party := Tx | Rx | Waiter.

(** Who holds the lock of [SDIO_DEVICE]. *)
Inductive holder := Worker | Mover (p : party).

(** Where a transferring thread is: outside, holding the lock, past the test in the transfer, or in one
    of the steps after a test that found the bit set, until it waits for the thread's run. *)
Inductive place :=
  | Outside | Inside | Moving | Seen | Masked | Signalled | Refused | Released | AwaitsRun.

(** Where the thread is: at the head of its loop, on its queue, woken, and in the steps of its run. *)
Inductive worker := WTop | WWaiting | WWoken | WLocked | WSwapped | WRead | WServed | WUnlocked | WExited.

#[export] Instance party_eq_dec : EqDecision party.
Proof. solve_decision. Defined.
#[export] Instance holder_eq_dec : EqDecision holder.
Proof. solve_decision. Defined.
#[export] Instance place_eq_dec : EqDecision place.
Proof. solve_decision. Defined.
#[export] Instance worker_eq_dec : EqDecision worker.
Proof. solve_decision. Defined.

(** The bit in the controller's status, the bit in its enable register, and
    driver/bsp/src/sdio/backend.rs:241-241 [SDIO_IRQ_PENDING]. *)
Record Line := mkLine { status : bool; enabled : bool; pending : bool }.

(** Ghosts: how often register 0x05 was read, how often the bit was enabled again, how often a transfer
    was refused, how many went through. *)
Record Tally := mkTally { reads : nat; acks : nat; refused : nat; moved : nat }.

(** driver/bsp/src/sdio/flow.rs:37-47 [SDIO_DEVICE] (whether there is a device, and who holds its lock),
    [BUSTX_RUNNING], with where the parties are *)
Record CardIrq := mkCardIrq {
  line : Line;
  device : bool;
  lock : option holder;
  work : worker;
  tx : place;
  rx : place;
  waiter : place;
  running : bool;
  tally : Tally }.

Definition set_line x s := mkCardIrq x s.(device) s.(lock) s.(work) s.(tx) s.(rx) s.(waiter) s.(running) s.(tally).
Definition set_device x s := mkCardIrq s.(line) x s.(lock) s.(work) s.(tx) s.(rx) s.(waiter) s.(running) s.(tally).
Definition set_lock x s := mkCardIrq s.(line) s.(device) x s.(work) s.(tx) s.(rx) s.(waiter) s.(running) s.(tally).
Definition set_work x s := mkCardIrq s.(line) s.(device) s.(lock) x s.(tx) s.(rx) s.(waiter) s.(running) s.(tally).
Definition set_running x s := mkCardIrq s.(line) s.(device) s.(lock) s.(work) s.(tx) s.(rx) s.(waiter) x s.(tally).
Definition set_tally x s := mkCardIrq s.(line) s.(device) s.(lock) s.(work) s.(tx) s.(rx) s.(waiter) s.(running) x.
Definition at_place (p : party) (s : CardIrq) : place := match p with Tx => s.(tx) | Rx => s.(rx) | Waiter => s.(waiter) end.
Definition set_place (p : party) (x : place) (s : CardIrq) : CardIrq :=
  match p with
  | Tx => mkCardIrq s.(line) s.(device) s.(lock) s.(work) x s.(rx) s.(waiter) s.(running) s.(tally)
  | Rx => mkCardIrq s.(line) s.(device) s.(lock) s.(work) s.(tx) x s.(waiter) s.(running) s.(tally)
  | Waiter => mkCardIrq s.(line) s.(device) s.(lock) s.(work) s.(tx) s.(rx) x s.(running) s.(tally)
  end.

(** The bit is enabled, or not, and nothing has happened yet. *)
Definition start (en : bool) : CardIrq :=
  mkCardIrq (mkLine false en false) true None WTop Outside Outside Outside true (mkTally 0 0 0 0).

Inductive event :=
  (* the card, the handler *)
  | ERaise | EDrop | EIrq
  (* a transferring thread *)
  | EEnter (p : party) | EGate (p : party) | EMoved (p : party) | EFailed (p : party) | ELeave (p : party)
  | EMask (p : party) | ESignal (p : party) | EQueue (p : party) | ERelease (p : party)
  | EAwait (p : party) | EGiveUp (p : party)
  (* the thread *)
  | EWait | ETimeout | ELock | ESwap | ERead | EAck | EUnlock | EDone (woken : option party) | EExit
  (* [aicbsp_sdio_exit] *)
  | EStop | ERemove.

(** The card drives the bit while it is enabled; masking it clears it (SD Host Controller specification,
    Normal Interrupt Status Enable), so that a read of the status finds it only while it is enabled. *)
Definition line_step (e : event) (l : Line) : option Line :=
  match e with
  | ERaise => if l.(enabled) then Some (mkLine true true l.(pending)) else None
  | EDrop => Some (mkLine false l.(enabled) l.(pending))
  | _ => None
  end.

(** driver/bsp/src/sdio/backend.rs:1367-1381 [enable_sdio_irq] *)
Definition enable_sdio_irq (enable : bool) (l : Line) : Line :=
  mkLine (l.(status) && enable) enable l.(pending).

(** driver/bsp/src/sdio/backend.rs:1410-1412 [sdio_signal_irq] *)
Definition sdio_signal_irq (l : Line) : Line := mkLine l.(status) l.(enabled) true.

(** driver/bsp/src/sdio/irq.rs:147-149 [notify_sdio_irq_work], also driver/bsp/src/sdio/irq.rs:142-142 [SDIO_IRQ_WORK_QUEUE] *)
Definition notify_sdio_irq_work (w : worker) : worker := if bool_decide (w = WWaiting) then WWoken else w.

(** driver/bsp/src/sdio/backend.rs:369-384 [handle_sdhci_host_irq], the card's interrupt *)
Definition irq_step (s : CardIrq) : CardIrq :=
  if s.(line).(status) && s.(line).(enabled) then
    set_work (notify_sdio_irq_work s.(work)) (set_line (sdio_signal_irq (enable_sdio_irq false s.(line))) s)
  else s.

Definition count_refused (t : Tally) : Tally := mkTally t.(reads) t.(acks) (S t.(refused)) t.(moved).
Definition count_moved (t : Tally) : Tally := mkTally t.(reads) t.(acks) t.(refused) (S t.(moved)).
Definition count_read (t : Tally) : Tally := mkTally (S t.(reads)) t.(acks) t.(refused) t.(moved).
Definition count_ack (t : Tally) : Tally := mkTally t.(reads) (S t.(acks)) t.(refused) t.(moved).

(** driver/bsp/src/sdio/backend.rs:1416-1425 [process_sdio_pending_irqs_if_set], step by step, also driver/bsp/src/sdio/flow.rs:265-270 [with_sdio], driver/bsp/src/sdio/irq.rs:162-164 [wait_sdio_irq_work_done_timeout];
    a transferring thread takes the lock (and gives it back at once when there is no device), passes the
    test at the head of each CMD53 and moves the data or fails to, or is refused with [EAGAIN], gives the lock back and
    waits for a run of the thread or for two seconds to pass *)
Definition mover_step (e : event) (s : CardIrq) : option CardIrq :=
  match e with
  | EEnter p =>
      if bool_decide (at_place p s = Outside ∧ s.(lock) = None) then
        Some (if s.(device) then set_place p Inside (set_lock (Some (Mover p)) s) else s)
      else None
  | EGate p =>
      if bool_decide (at_place p s = Inside) then
        Some (if s.(line).(status) then set_place p Seen (set_tally (count_refused s.(tally)) s)
              else set_place p Moving s)
      else None
  | EMoved p =>
      if bool_decide (at_place p s = Moving) then Some (set_place p Inside (set_tally (count_moved s.(tally)) s))
      else None
  | EFailed p => if bool_decide (at_place p s = Moving) then Some (set_place p Inside s) else None
  | ELeave p =>
      if bool_decide (at_place p s = Inside) then Some (set_place p Outside (set_lock None s)) else None
  | EMask p =>
      if bool_decide (at_place p s = Seen) then Some (set_place p Masked (set_line (enable_sdio_irq false s.(line)) s))
      else None
  | ESignal p =>
      if bool_decide (at_place p s = Masked) then Some (set_place p Signalled (set_line (sdio_signal_irq s.(line)) s))
      else None
  | EQueue p =>
      if bool_decide (at_place p s = Signalled) then
        Some (set_place p Refused (set_work (notify_sdio_irq_work s.(work)) s))
      else None
  | ERelease p =>
      if bool_decide (at_place p s = Refused) then Some (set_place p Released (set_lock None s)) else None
  | EAwait p => if bool_decide (at_place p s = Released) then Some (set_place p AwaitsRun s) else None
  | EGiveUp p => if bool_decide (at_place p s = AwaitsRun) then Some (set_place p Outside s) else None
  | _ => None
  end.

(** driver/bsp/src/sdio/irq.rs:157-159 [notify_sdio_irq_work_done], also driver/bsp/src/sdio/irq.rs:145-145 [SDIO_IRQ_WORK_DONE_QUEUE];
    one of the threads that wait is woken *)
Definition notify_sdio_irq_work_done (woken : option party) (s : CardIrq) : option CardIrq :=
  match woken with
  | Some p => if bool_decide (at_place p s = AwaitsRun) then Some (set_place p Outside s) else None
  | None => if bool_decide (s.(tx) = AwaitsRun ∨ s.(rx) = AwaitsRun ∨ s.(waiter) = AwaitsRun) then None else Some s
  end.

(** driver/bsp/src/sdio/backend.rs:1402-1407 [sdio_run_irqs], its last step, also driver/bsp/src/sdio/backend.rs:1397-1399 [ack_sdio_irq] *)
Definition ack_step (s : CardIrq) : CardIrq :=
  if s.(line).(pending) then s
  else set_line (enable_sdio_irq true s.(line)) (set_tally (count_ack s.(tally)) s).

(** driver/bsp/src/sdio/flow.rs:352-369 [sdio_irq_work_thread_fn], step by step, also driver/bsp/src/sdio/irq.rs:152-154 [wait_sdio_irq_work_or_timeout], driver/bsp/src/sdio/backend.rs:1384-1394 [process_sdio_pending_irqs];
    a wait that times out looks at nothing; whether the read of register 0x05 fails does not matter *)
Definition worker_step (e : event) (s : CardIrq) : option CardIrq :=
  match e, s.(work) with
  | EWait, WTop => if s.(running) then Some (set_work WWaiting s) else None
  | EExit, WTop => if s.(running) then None else Some (set_work WExited s)
  | ETimeout, WWaiting => Some (set_work WTop s)
  | ELock, WWoken =>
      if bool_decide (s.(lock) = None) then
        Some (set_work (if s.(device) then WLocked else WServed) (set_lock (Some Worker) s))
      else None
  | ESwap, WLocked =>
      Some (set_work WSwapped (set_line (mkLine s.(line).(status) s.(line).(enabled) false) s))
  | ERead, WSwapped => Some (set_work WRead (set_tally (count_read s.(tally)) s))
  | EAck, WRead => Some (set_work WServed (ack_step s))
  | EUnlock, WServed => Some (set_work WUnlocked (set_lock None s))
  | EDone woken, WUnlocked => s ← notify_sdio_irq_work_done woken s; Some (set_work WTop s)
  | _, _ => None
  end.

Definition step (e : event) (s : CardIrq) : option CardIrq :=
  match e with
  | ERaise | EDrop => l ← line_step e s.(line); Some (set_line l s)
  | EIrq => Some (irq_step s)
  | EEnter _ | EGate _ | EMoved _ | EFailed _ | ELeave _ | EMask _ | ESignal _ | EQueue _ | ERelease _ | EAwait _ | EGiveUp _ =>
      mover_step e s
  | EStop => Some (set_running false s)
  | ERemove => if bool_decide (s.(lock) = None) then Some (set_device false s) else None
  | _ => worker_step e s
  end.

Fixpoint run (es : list event) (s : CardIrq) : option CardIrq :=
  match es with
  | [] => Some s
  | e :: es => s ← step e s; run es s
  end.

Inductive reachable (en : bool) : CardIrq → Prop :=
  | reachable_start : reachable en (start en)
  | reachable_step e s s' : reachable en s → step e s = Some s' → reachable en s'.

Lemma card_run_reachable en es s s' : reachable en s → run es s = Some s' → reachable en s'.
Proof.
  revert s. induction es as [|e es IH]; intros s Hs; cbn [run]; [by intros [= <-]|].
  destruct (step e s) as [s1|] eqn:E; [|done]. apply IH. by econstructor.
Qed.

(** The steps there are, by what happens and where its party is. *)
Ltac step_cases E :=
  unfold step, line_step, irq_step, mover_step, worker_step, ack_step, notify_sdio_irq_work_done in E;
  unfold mbind, option_bind in E;
  repeat (match type of E with context [match ?x with _ => _ end] =>
    lazymatch x with context [match _ with _ => _ end] => fail | _ => destruct x eqn:? end
  end; cbv beta iota in E; try discriminate E);
  injection E as <-.

(** ** The same steps on the registers

    The bit on a bank with the status and the two enable registers, the status masked
    by its enables as the specification has it: the register-level functions of
    SdHost.v are the steps above. *)

Record Bank := mkBank { int_sts : Z; int_sts_en : Z; int_sig_en : Z }.

#[local] Instance bank_board : Board Bank := {|
  rd := λ r b,
    (if r =? NORM_AND_ERR_INT_STS then b.(int_sts)
     else if r =? NORM_AND_ERR_INT_STS_EN then b.(int_sts_en)
     else if r =? NORM_AND_ERR_INT_SIG_EN then b.(int_sig_en) else 0, b);
  wr := λ r v b,
    if r =? NORM_AND_ERR_INT_STS then mkBank (Z.ldiff b.(int_sts) v) b.(int_sts_en) b.(int_sig_en)
    else if r =? NORM_AND_ERR_INT_STS_EN then mkBank (Z.land b.(int_sts) v) v b.(int_sig_en)
    else if r =? NORM_AND_ERR_INT_SIG_EN then mkBank b.(int_sts) b.(int_sts_en) v else b;
  wr8 := λ _ _ b, b;
  wr16 := λ _ _ b, b;
  dma_phys := 0;
  dma_store := λ _ b, b;
  dma_load := λ _ _, [];
  on_spin := λ b, (0%nat, b);
  on_sleep := λ _ b, (0%nat, b);
  on_block := λ b, (0%nat, b) |}.

(** What the steps see of the registers and of the flag. *)
Definition bit_of (s : Sd Bank) : Line :=
  mkLine (has s.(machine).(int_sts) CARD_INT) (has s.(machine).(int_sts_en) CARD_INT) s.(sdio_irq_pending).

#[local] Arguments Z.testbit : simpl never.

Lemma has_card_int x : has x CARD_INT = Z.testbit x 8.
Proof.
  unfold has, CARD_INT. change 0x100 with (2 ^ 8). apply Bool.eq_iff_eq_true.
  rewrite negb_true_iff, bool_decide_eq_false. split.
  - intros Hx. destruct (Z.testbit x 8) eqn:E; [done|]. destruct Hx. apply Z.bits_inj'.
    intros i Hi. rewrite Z.land_spec, Z.bits_0, Z.pow2_bits_eqb by lia.
    destruct (Z.eqb_spec 8 i) as [<-|]; [by rewrite E|apply andb_false_r].
  - intros E H. assert (Z.testbit (Z.land x (2 ^ 8)) 8 = true) as Hb by (by rewrite Z.land_spec, E).
    by rewrite H in Hb.
Qed.

Lemma enable_registers b (s : Sd Bank) :
  ∃ s', SdHost.enable_sdio_irq b s = (Ok (), s') ∧ bit_of s' = enable_sdio_irq b (bit_of s) ∧
    s'.(irq_work) = s.(irq_work).
Proof.
  eexists. split; [reflexivity|]. split; [|done]. unfold bit_of, enable_sdio_irq. simpl.
  rewrite !has_card_int, Z.land_spec, Z.lor_spec, Z.ldiff_spec.
  destruct b; simpl; by rewrite ?andb_false_r, ?andb_true_r, ?orb_true_r.
Qed.


(** ** Who holds the lock, and what a masked interrupt is waiting for *)

Definition holds (x : place) : bool :=
  match x with Inside | Moving | Seen | Masked | Signalled | Refused => true | _ => false end.
Definition serves (w : worker) : bool :=
  match w with WLocked | WSwapped | WRead | WServed => true | _ => false end.

Definition held_by (h : holder) (o : option holder) : bool :=
  match h, o with
  | Worker, Some Worker | Mover Tx, Some (Mover Tx) | Mover Rx, Some (Mover Rx)
  | Mover Waiter, Some (Mover Waiter) => true
  | _, _ => false
  end.

Definition one_holder (s : CardIrq) : Prop :=
  holds s.(tx) = held_by (Mover Tx) s.(lock) ∧ holds s.(rx) = held_by (Mover Rx) s.(lock) ∧
  holds s.(waiter) = held_by (Mover Waiter) s.(lock) ∧ serves s.(work) = held_by Worker s.(lock) ∧
  (holds s.(tx) || holds s.(rx) || holds s.(waiter) = true → s.(device) = true).

(** The bit is only set while it is enabled. *)
Definition driven (s : CardIrq) : Prop := s.(line).(status) = true → s.(line).(enabled) = true.

(** When the bit is masked, the flag says so, or the thread has taken the flag and is about to enable the
    bit again, or a transfer has masked it and is about to set the flag. *)
Definition accounted (s : CardIrq) : Prop :=
  s.(line).(enabled) = true ∨ s.(line).(pending) = true ∨ s.(work) = WSwapped ∨ s.(work) = WRead ∨
  s.(tx) = Masked ∨ s.(rx) = Masked ∨ s.(waiter) = Masked.

Definition looks (x : place) : bool := match x with Seen => true | _ => false end.

(** Refusals are paid for by the thread's runs. *)
Definition paid (s : CardIrq) : Prop :=
  (s.(tally).(refused) ≤ s.(tally).(acks) +
     if s.(line).(enabled) && negb (looks s.(tx)) && negb (looks s.(rx)) && negb (looks s.(waiter)) then 0 else 1)%nat.

Lemma holds_looks x : holds x = false → looks x = false.
Proof. by destruct x. Qed.

Lemma serves_notify w : serves (notify_sdio_irq_work w) = serves w.
Proof. by destruct w. Qed.

(** After [step_cases]: the parties' places are known, the booleans are computed. *)
Ltac step_solve :=
  repeat match goal with
    | H : bool_decide _ = true |- _ => apply bool_decide_eq_true in H
    | H : bool_decide _ = false |- _ => apply bool_decide_eq_false in H
    | p : party |- _ => destruct p
    | H : _ ∧ _ |- _ => destruct H
    | H : _ && _ = true |- _ => apply andb_true_iff in H
    | H : _ && _ = false |- _ => apply andb_false_iff in H
    end;
  simpl in *; rewrite ?serves_notify in *; subst; simpl in *; rewrite ?bool_decide_eq_true_2 in * by done.

Ltac split_lock :=
  try match goal with o : option holder |- _ => destruct o as [[|[| |]]|] end; simpl in *;
  repeat match goal with |- context [holds ?x] => destruct (holds x) end; simpl in *.

Lemma one_holder_step e s s' : one_holder s → step e s = Some s' → one_holder s'.
Proof.
  unfold one_holder. destruct s as [[st en pe] dev lk w x y v r [c1 c2 c3 c4]]. intros (H1 & H2 & H3 & H4 & H5) E.
  destruct e; step_cases E; step_solve; split_lock; repeat split; intros; try congruence; auto.
Qed.

Lemma driven_step e s s' : driven s → step e s = Some s' → driven s'.
Proof.
  unfold driven. destruct s as [[st en pe] dev lk w x y v r [c1 c2 c3 c4]]. intros H E.
  destruct e; step_cases E; step_solve; rewrite ?andb_false_r; auto; done.
Qed.

Lemma accounted_step e s s' : one_holder s → driven s → accounted s → step e s = Some s' → accounted s'.
Proof.
  unfold one_holder, driven, accounted. destruct s as [[st en pe] dev lk w x y v r [c1 c2 c3 c4]].
  intros (H1 & H2 & H3 & H4 & _) Hd H E.
  destruct e; step_cases E; step_solve; try tauto; try (destruct_or?; simplify_eq; tauto).
Qed.

Lemma paid_step e s s' : one_holder s → driven s → paid s → step e s = Some s' → paid s'.
Proof.
  unfold one_holder, driven, paid. destruct s as [[st en pe] dev lk w x y v r [c1 c2 c3 c4]].
  intros (H1 & H2 & H3 & H4 & _) Hd H E.
  destruct e; step_cases E; step_solve;
    try (rewrite Hd in H by done); repeat case_match; repeat case_bool_decide; simpl in *; try lia.
  all: by repeat match goal with H : holds _ = false |- _ => apply holds_looks in H; rewrite H in * end.
Qed.

Definition healthy (s : CardIrq) : Prop := one_holder s ∧ driven s ∧ accounted s ∧ paid s.

Lemma reachable_healthy s : reachable true s → healthy s.
Proof.
  induction 1 as [|e s s' _ (H1 & H2 & H3 & H4) E].
  - repeat split; try done; [by left|]. by unfold paid; simpl.
  - repeat split; try apply (one_holder_step e s s' H1 E); eauto using driven_step, accounted_step, paid_step.
Qed.

(** C23 (invariant): from a controller on which the bit is enabled, whatever the
    interleaving of the card, the handler, the three transferring threads, the thread and the removal of the
    device: at most one of the four threads is past the lock of the device at a time, and the flag of the
    lock says which; a bit that is masked is always accounted for, by the pending flag or by the one
    thread that is about to set or has just taken it; and transfers are refused with [EAGAIN] at most once
    more than the thread has enabled the bit again, so that the loop that repeats a refused command cannot
    run on its own. *)
Theorem card_irq_invariant s :
  reachable true s →
  holds s.(tx) = bool_decide (s.(lock) = Some (Mover Tx)) ∧
  holds s.(rx) = bool_decide (s.(lock) = Some (Mover Rx)) ∧
  holds s.(waiter) = bool_decide (s.(lock) = Some (Mover Waiter)) ∧
  serves s.(work) = bool_decide (s.(lock) = Some Worker) ∧
  accounted s ∧ (s.(tally).(refused) ≤ s.(tally).(acks) + 1)%nat.
Proof.
  intros ((H1 & H2 & H3 & H4 & _) & _ & Ha & Hp)%reachable_healthy. rewrite H1, H2, H3, H4.
  split_and!; try done; [by destruct (lock s) as [[|[]]|]..|].
  unfold paid in Hp. case_match; lia.
Qed.

(** ** A refused transfer, and the run that answers it *)

(** The steps of a thread that found the bit set, those of the thread's run, and the next attempt. *)
Definition refusal (p : party) : list event := [EMask p; ESignal p; EQueue p; ERelease p; EAwait p].
Definition service (p : party) : list event := [ELock; ESwap; ERead; EAck; EUnlock; EDone (Some p)].

(** C24 (liveness): in every state that can be reached, when a transfer has found the bit
    set while the thread is on its queue, the steps that follow are all there: the transfer masks the bit,
    sets the flag, wakes the thread and gives the lock back, and the thread, which then can have the lock,
    takes the flag, reads register 0x05, enables the bit again and wakes the transfer, whose next attempt
    passes the test and moves its data.  Nothing else has changed: the bit is enabled, the flag is
    down, and one refusal has cost one run. *)
Theorem card_irq_serviced p s :
  reachable true s → at_place p s = Seen → s.(work) = WWaiting →
  ∃ s', run (refusal p ++ service p ++ [EEnter p; EGate p; EMoved p]) s = Some s' ∧
    s'.(line) = mkLine false true false ∧ s'.(work) = WTop ∧ at_place p s' = Inside ∧
    s'.(tally).(reads) = S s.(tally).(reads) ∧ s'.(tally).(acks) = S s.(tally).(acks) ∧
    s'.(tally).(refused) = s.(tally).(refused) ∧ s'.(tally).(moved) = S s.(tally).(moved).
Proof.
  intros ((H1 & H2 & H3 & H4 & H5) & _)%reachable_healthy Hp Hw.
  destruct s as [[st en pe] dev lk w x y v r [c1 c2 c3 c4]]. simpl in *. subst w.
  exists (set_place p Inside (mkCardIrq (mkLine false true false) true lk WTop x y v r (mkTally (S c1) (S c2) c3 (S c4)))).
  destruct p; simpl in *; subst; simpl in *; rewrite ?orb_true_r in *; rewrite (H5 eq_refl) in *;
    destruct lk as [[|[]]|]; try done; destruct st; (split; [vm_compute; reflexivity|done]).
Qed.

(** The thread waits, a transfer begins, the card raises the bit before the handler sees it. *)
Definition met : list event := [EWait; EEnter Tx; ERaise; EGate Tx].

Lemma card_irq_invariant_witness :
  match run (met ++ refusal Tx ++ [ELock; EEnter Rx]) (start true) with
  | Some _ => False
  | None => match run (met ++ refusal Tx ++ [ELock; ESwap]) (start true) with
    | Some s => s.(lock) = Some Worker ∧ s.(line) = mkLine false false false ∧ accounted s ∧
                s.(tally).(refused) = 1%nat ∧ s.(tally).(acks) = 0%nat
    | None => False
    end
  end.
Proof.
  change (run (met ++ refusal Tx ++ [ELock; EEnter Rx]) (start true)) with (@None CardIrq).
  destruct (run (met ++ refusal Tx ++ [ELock; ESwap]) (start true)) as [s|] eqn:E; [|vm_compute in E; discriminate E].
  pose proof (card_irq_invariant s (card_run_reachable true _ _ s (reachable_start true) E)) as (_ & _ & _ & _ & Ha & _).
  vm_compute in E. injection E as <-. repeat split; exact Ha.
Defined.

Lemma card_irq_serviced_witness :
  ∃ s s', run met (start true) = Some s ∧ s.(tally) = mkTally 0 0 1 0 ∧
    run (refusal Tx ++ service Tx ++ [EEnter Tx; EGate Tx; EMoved Tx]) s = Some s' ∧
    s'.(tally).(moved) = 1%nat.
Proof.
  destruct (run met (start true)) as [s|] eqn:E; [|vm_compute in E; discriminate E]. exists s.
  pose proof (card_run_reachable true _ _ s (reachable_start true) E) as Hr.
  vm_compute in E. injection E as <-.
  destruct (card_irq_serviced Tx _ Hr eq_refl eq_refl) as (s' & Hrun & _ & _ & _ & _ & _ & _ & Hm).
  exists s'. repeat split; [exact Hrun|exact Hm].
Defined.

(** ** What is never repaired *)

Definition would_wake (x : place) : bool := match x with Seen | Masked | Signalled => true | _ => false end.
Definition asleep (w : worker) : bool := match w with WTop | WWaiting | WExited => true | _ => false end.

(** The bit is masked, nothing is set, and nobody is left who would wake the thread. *)
Definition forgotten (s : CardIrq) : Prop :=
  s.(line).(status) = false ∧ s.(line).(enabled) = false ∧ asleep s.(work) = true ∧
  would_wake s.(tx) = false ∧ would_wake s.(rx) = false ∧ would_wake s.(waiter) = false.

Lemma masked_step e s s' : forgotten s → step e s = Some s' →
  forgotten s' ∧ s'.(tally).(reads) = s.(tally).(reads) ∧ s'.(tally).(refused) = s.(tally).(refused).
Proof.
  unfold forgotten. destruct s as [[st en pe] dev lk w x y v r [c1 c2 c3 c4]]. intros (H1 & H2 & H3 & H4 & H5 & H6) E.
  destruct e; step_cases E; step_solve; done.
Qed.

Lemma masked_run es s s' : forgotten s → run es s = Some s' →
  s'.(line).(enabled) = false ∧ s'.(tally).(reads) = s.(tally).(reads) ∧ s'.(tally).(refused) = s.(tally).(refused).
Proof.
  revert s. induction es as [|e es IH]; intros s Hs; cbn [run]; [intros [= <-]; by destruct Hs as (_ & ? & _)|].
  destruct (step e s) as [s1|] eqn:E; [|done]. destruct (masked_step e s s1 Hs E) as (Hs1 & Hr & Hf).
  intros E1. destruct (IH s1 Hs1 E1) as (? & ? & ?). split; [done|]. split; congruence.
Qed.

(** C25 (counterexample): what the controller is set up with does not hold the bit, and the
    only code that enables it is the thread, which runs when the bit was seen: from there no run of the
    system ever enables it, reads the card's register 0x05 or refuses a transfer.  And once it is enabled,
    an interrupt that is taken while the thread is between two waits masks the bit for good: no run ever
    enables it again, though the pending flag is up. *)
Theorem card_irq_flaws :
  (∀ es s, run es (start (has DEFAULT_IER CARD_INT)) = Some s →
     s.(line).(enabled) = false ∧ s.(tally).(reads) = 0%nat ∧ s.(tally).(refused) = 0%nat) ∧
  (∃ s, reachable true s ∧ s.(line).(pending) = true ∧ s.(work) = WTop ∧ ∀ es s', run es s = Some s' →
     s'.(line).(enabled) = false ∧ s'.(tally).(reads) = 0%nat ∧ s'.(tally).(refused) = 0%nat).
Proof.
  split.
  - change (has DEFAULT_IER CARD_INT) with false. intros es s E. by apply (masked_run es (start false)).
  - set (s := mkCardIrq (mkLine false false true) true None WTop Outside Outside Outside true (mkTally 0 0 0 0)).
    exists s. split; [by apply (card_run_reachable true [ERaise; EIrq] (start true)); [constructor|]|].
    split; [done|]. split; [done|]. intros es s' E. by apply (masked_run es s).
Qed.
