(* ===== verification/CmdPath.v ===== *)
(** * A command from its submission to its result: [driver/bsp/src/sdio/flow.rs]

    The steps of Handoff.v and of CardIrq.v together: the bustx thread of the one is
    the sending thread of the other.  While it sends a command it enters the device,
    is refused with [EAGAIN] when it meets the card's interrupt, waits for the run of
    the thread that serves it, and tries again; when a try ends otherwise its result
    goes to the caller.  What is known of the two parts carries over, and the loop
    that repeats the command is bounded. *)

From Stdlib Require Import Sorted.
From S2P Require Import Prelude Handoff CardIrq.

(** The two parts, and how often the command in hand and those before it were repeated. *)
Record Path := mkPath { hand : Handoff; card : CardIrq; repeats : nat }.

Definition path_start : Path := mkPath Handoff.start (CardIrq.start true) 0.

Definition sending (h : Handoff) : bool := match h.(bus) with TSending _ => true | _ => false end.

Inductive path_event :=
  | PHand (e : Handoff.event)      (* a step of the caller or of the thread, other than the end of a try *)
  | PCard (e : CardIrq.event)      (* a step at the device that does not end a try of the sending thread *)
  | PAgain                         (* the try has ended in [EAGAIN] *)
  | PSent (result : Z)             (* the try has ended in another result *)
  | PGone                          (* there is no device any more *)
  | PStop.                         (* the flag both threads look at is cleared *)

Definition alone (e : Handoff.event) : bool := match e with ESend _ | Handoff.EStop => false | _ => true end.
Definition leaves (e : CardIrq.event) : bool :=
  match e with ELeave Tx | ERelease Tx | CardIrq.EStop => true | _ => false end.
Definition enters (e : CardIrq.event) : bool := match e with EEnter Tx => true | _ => false end.

(** driver/bsp/src/sdio/flow.rs:385-404 [bustx_thread_fn], the loop that sends one command, also driver/bsp/src/sdio/flow.rs:264-270 [with_sdio], driver/bsp/src/sdio/flow.rs:1360-1363 [aicbsp_sdio_exit] *)
Definition path_step (e : path_event) (s : Path) : option Path :=
  match e with
  | PHand e =>
      if alone e then h ← Handoff.step e s.(hand); Some (mkPath h s.(card) s.(repeats)) else None
  | PCard e =>
      if leaves e || (enters e && negb (sending s.(hand))) then None
      else c ← CardIrq.step e s.(card); Some (mkPath s.(hand) c s.(repeats))
  | PAgain =>
      h ← Handoff.step (ESend EAGAIN) s.(hand); c ← CardIrq.step (ERelease Tx) s.(card);
      Some (mkPath h c (S s.(repeats)))
  | PSent r =>
      if bool_decide (r = EAGAIN) then None
      else h ← Handoff.step (ESend r) s.(hand); c ← CardIrq.step (ELeave Tx) s.(card);
           Some (mkPath h c s.(repeats))
  | PGone =>
      if negb s.(card).(device) && bool_decide (s.(card).(tx) = Outside ∧ s.(card).(lock) = None) then
        h ← Handoff.step (ESend (-5)) s.(hand); Some (mkPath h s.(card) s.(repeats))
      else None
  | PStop =>
      h ← Handoff.step Handoff.EStop s.(hand); c ← CardIrq.step CardIrq.EStop s.(card);
      Some (mkPath h c s.(repeats))
  end.

Fixpoint path_run (es : list path_event) (s : Path) : option Path :=
  match es with
  | [] => Some s
  | e :: es => s ← path_step e s; path_run es s
  end.

Inductive path_reachable : Path → Prop :=
  | path_reachable_start : path_reachable path_start
  | path_reachable_step e s s' : path_reachable s → path_step e s = Some s' → path_reachable s'.

Lemma path_run_reachable es s s' : path_reachable s → path_run es s = Some s' → path_reachable s'.
Proof.
  revert s. induction es as [|e es IH]; intros s Hs; cbn [path_run]; [by intros [= <-]|].
  destruct (path_step e s) as [s1|] eqn:E; [|done]. apply IH. by econstructor.
Qed.

(** ** The parts of a run are runs of the parts *)

(** What a step of the whole is in the parts. *)
Variant parts (s s' : Path) : Prop :=
  | part_hand e : alone e = true → Handoff.step e s.(hand) = Some s'.(hand) → s'.(card) = s.(card) →
      s'.(repeats) = s.(repeats) → parts s s'
  | part_card e : leaves e = false → (enters e = true → sending s.(hand) = true) →
      CardIrq.step e s.(card) = Some s'.(card) → s'.(hand) = s.(hand) → s'.(repeats) = s.(repeats) → parts s s'
  | part_again : Handoff.step (ESend EAGAIN) s.(hand) = Some s'.(hand) →
      CardIrq.step (ERelease Tx) s.(card) = Some s'.(card) → s'.(repeats) = S s.(repeats) → parts s s'
  | part_sent r : r ≠ EAGAIN → Handoff.step (ESend r) s.(hand) = Some s'.(hand) →
      CardIrq.step (ELeave Tx) s.(card) = Some s'.(card) → s'.(repeats) = s.(repeats) → parts s s'
  | part_gone : s.(card).(tx) = Outside → Handoff.step (ESend (-5)) s.(hand) = Some s'.(hand) →
      s'.(card) = s.(card) → s'.(repeats) = s.(repeats) → parts s s'
  | part_stop : Handoff.step Handoff.EStop s.(hand) = Some s'.(hand) →
      CardIrq.step CardIrq.EStop s.(card) = Some s'.(card) → s'.(repeats) = s.(repeats) → parts s s'.

Lemma step_parts e s s' : path_step e s = Some s' → parts s s'.
Proof.
  destruct s as [h c n]. unfold path_step, mbind, option_bind. cbn [hand card repeats]. destruct e; intros E;
    repeat (match type of E with (match ?x with _ => _ end) = _ => destruct x eqn:? end; try discriminate E);
    injection E as <-.
  - by eapply part_hand.
  - match goal with H : _ || _ = false |- _ => apply orb_false_iff in H as [? H] end.
    eapply part_card; simpl; try done. intros Hi. rewrite Hi in *. by destruct (sending h).
  - by eapply part_again.
  - eapply part_sent; [by eapply bool_decide_eq_false|done..].
  - match goal with H : _ && _ = true |- _ => apply andb_true_iff in H as [_ H%bool_decide_eq_true]; destruct H end.
    by eapply part_gone.
  - by eapply part_stop.
Qed.

Lemma path_parts s : path_reachable s → Handoff.reachable s.(hand) ∧ CardIrq.reachable true s.(card).
Proof.
  induction 1 as [|e s s' _ [Hh Hc] E]; [by split; constructor|].
  destruct (step_parts e s s' E) as [e1 _ E1 -> _|e1 _ _ E1 -> _|E1 E2 _|r _ E1 E2 _|_ E1 -> _|E1 E2 _];
    (split; [try done; by econstructor|try done; by econstructor]).
Qed.

(** ** The two parts fit *)

(** While the sending thread is at the device, a command is being sent. *)
Definition fits (s : Path) : Prop := s.(card).(tx) ≠ Outside → sending s.(hand) = true.

Lemma sending_kept e h h' : alone e = true ∨ e = Handoff.EStop ∨ e = ESend EAGAIN →
  Handoff.step e h = Some h' → sending h = true → sending h' = true.
Proof.
  unfold sending. intros Ha E Hs. destruct (bus h) as [| | |n|] eqn:Eb; try done.
  assert (bus h' = TSending n) as ->; [|done].
  destruct Ha as [Ha|[-> | ->]]; [destruct e; try done|..]; cbn [Handoff.step] in E;
    unfold Handoff.caller_step, Handoff.thread_step, stop_step in E; rewrite ?Eb in E; simpl in E;
    repeat (match type of E with (match ?y with _ => _ end) = _ => destruct y eqn:? end; try discriminate E).
  all: by simplify_eq.
Qed.

Lemma sends_while_sending r h h' : Handoff.step (ESend r) h = Some h' → sending h = true.
Proof. unfold sending. cbn. by destruct (bus h). Qed.

Lemma outside_kept e c c' : CardIrq.step e c = Some c' → c.(tx) = Outside → enters e = false → c'.(tx) = Outside.
Proof.
  destruct c as [[st en pe] dev lk w x y v r [c1 c2 c3 c4]]. simpl. intros E -> He.
  destruct e; CardIrq.step_cases E; CardIrq.step_solve; done.
Qed.

Lemma left c c' : CardIrq.step (ELeave Tx) c = Some c' → c'.(tx) = Outside.
Proof. cbn. case_bool_decide; [|done]. by intros [= <-]. Qed.

Lemma path_fits s : path_reachable s → fits s.
Proof.
  unfold fits. induction 1 as [|e s s' _ IH E]; [done|]. intros Ho.
  destruct (step_parts e s s' E) as [e1 Ha E1 Ec _|e1 Hl He E1 Eh _|E1 E2 _|r Hr E1 E2 _|Hc E1 Ec _|E1 E2 _].
  - rewrite Ec in Ho. eapply sending_kept; [by left|done|by apply IH].
  - rewrite Eh. destruct (decide (tx (card s) = Outside)) as [Hx|Hx]; [|by apply IH].
    destruct (enters e1) eqn:Hi; [by apply He|]. destruct Ho. by eapply outside_kept.
  - eapply sending_kept; [by right; right|done|by eapply sends_while_sending].
  - destruct Ho. by eapply left.
  - by rewrite Ec in Ho.
  - eapply sending_kept; [by right; left|done|]. apply IH. cbn in E2. injection E2 as E2. by rewrite <- E2 in Ho.
Qed.

(** ** What the caller is told, and how often a command is repeated *)

Definition refusing (x : place) : nat :=
  match x with Seen | Masked | Signalled | Refused => 1 | _ => 0 end%nat.

(** Every repetition was a refusal, which the tally of CardIrq counts as it begins. *)
Definition counted (s : Path) : Prop :=
  (s.(repeats) + refusing s.(card).(tx) ≤ s.(card).(tally).(refused))%nat.

Lemma refusing_step e c c' : CardIrq.step e c = Some c' → e ≠ ERelease Tx →
  (refusing c'.(tx) + c.(tally).(refused) ≤ refusing c.(tx) + c'.(tally).(refused))%nat.
Proof.
  destruct c as [[st en pe] dev lk w x y v r [c1 c2 c3 c4]]. intros E He.
  destruct e; CardIrq.step_cases E; CardIrq.step_solve; try done; lia.
Qed.

Lemma released c c' : CardIrq.step (ERelease Tx) c = Some c' →
  refusing c.(tx) = 1%nat ∧ refusing c'.(tx) = 0%nat ∧ c'.(tally) = c.(tally).
Proof. cbn. case_bool_decide as Hx; [|done]. intros [= <-]. by rewrite Hx. Qed.

Lemma path_counted s : path_reachable s → counted s.
Proof.
  unfold counted. induction 1 as [|e s s' _ IH E]; [done|].
  destruct (step_parts e s s' E) as [e1 _ _ -> ->|e1 Hl _ E1 _ ->|_ E2 ->|r _ _ E2 ->|_ _ -> ->|_ E2 ->]; try done.
  - assert (e1 ≠ ERelease Tx) as Hn by (intros ->; done). pose proof (refusing_step e1 _ _ E1 Hn). lia.
  - destruct (released _ _ E2) as (Hx & Hx' & ->). lia.
  - pose proof (refusing_step _ _ _ E2 ltac:(done)). lia.
  - pose proof (refusing_step _ _ _ E2 ltac:(done)). lia.
Qed.

Definition final (o : option (nat * Z)) : Prop := ∀ k r, o = Some (k, r) → r ≠ EAGAIN.

Lemma final_step e h h' : Handoff.step e h = Some h' →
  final h.(tx_result) ∧ Forall (λ '(_, o), final o) h.(log) →
  final h'.(tx_result) ∧ Forall (λ '(_, o), final o) h'.(log).
Proof.
  intros E [Hr Hl]. Handoff.step_cases e h E; injection E as <-; simpl; try done;
    try (split; [done|]; apply Forall_app; split; [done|]; apply Forall_singleton; done).
  split; [|done]. intros k r [= _ ->]. by case_bool_decide.
Qed.

Lemma reachable_final h : Handoff.reachable h →
  final h.(tx_result) ∧ Forall (λ '(_, o), final o) h.(log).
Proof. induction 1 as [|e h h' _ IH E]; [by split|by eapply final_step]. Qed.

Lemma sending_is_next h n : Handoff.reachable h → h.(bus) = TSending n → Forall (λ k, k < n)%nat h.(sent).
Proof.
  intros (Hs & _)%reachable_in_order E. unfold Handoff.line in Hs. rewrite E in Hs. simpl in Hs.
  induction (sent h) as [|k l IH]; [done|]. apply StronglySorted_inv in Hs as [Hs Hk].
  constructor; [|by apply IH]. rewrite Forall_forall in Hk. apply Hk, elem_of_app. right. by left.
Qed.

(** C22 (safety): in every run of the caller, the two bus threads, the card, the handler and
    the thread that serves the card's interrupt: while the sending thread is at the device it holds one
    command, submitted and later than every command that went out; no caller is ever told [EAGAIN]; and
    the tries that ended in [EAGAIN] are at most one more than the times that thread has enabled the
    interrupt again, so that a command is not repeated without end unless the card interrupts without
    end. *)
Theorem command_path s :
  path_reachable s →
  (s.(card).(tx) ≠ Outside → ∃ n, s.(hand).(bus) = TSending n ∧ (n ≤ s.(hand).(submitted))%nat ∧
     Forall (λ k, k < n)%nat s.(hand).(sent)) ∧
  Forall (λ '(_, o), final o) s.(hand).(log) ∧ final s.(hand).(tx_result) ∧
  (s.(repeats) ≤ s.(card).(tally).(acks) + 1)%nat.
Proof.
  intros Hs. destruct (path_parts s Hs) as [Hh Hc]. destruct (reachable_final _ Hh) as [Hr Hl].
  split; [|split_and!; try done].
  - intros Ho. pose proof (path_fits s Hs Ho) as Hf. unfold sending in Hf.
    destruct (bus (hand s)) as [| | |n|] eqn:Eb; try done. exists n. split; [done|].
    split; [|by apply sending_is_next]. destruct (reachable_in_order _ Hh) as (_ & Hn & _).
    unfold Handoff.line in Hn. rewrite Eb in Hn. rewrite Forall_forall in Hn. apply Hn. set_solver.
  - pose proof (path_counted s Hs) as Hn. unfold counted in Hn.
    destruct (reachable_healthy _ Hc) as (_ & _ & _ & Hp). unfold paid in Hp. case_match; lia.
Qed.

(** A command that meets the card's interrupt: submitted, refused, repeated after the thread's run, sent. *)
Definition met_and_sent : list path_event :=
  [PHand Handoff.EWait; PCard CardIrq.EWait; PHand EClear; PHand EStore; PHand ENotify; PHand ELook; PCard (EEnter Tx); PCard ERaise;
   PCard (EGate Tx); PCard (EMask Tx); PCard (ESignal Tx); PCard (EQueue Tx); PAgain; PCard (EAwait Tx);
   PCard ELock; PCard ESwap; PCard ERead; PCard EAck; PCard EUnlock; PCard (EDone (Some Tx));
   PCard (EEnter Tx); PCard (EGate Tx); PCard (EMoved Tx); PSent 0; PHand ETake].

Lemma command_path_witness :
  match path_run met_and_sent path_start with
  | Some s => s.(hand).(log) = [(1%nat, Some (1%nat, 0))] ∧ s.(repeats) = 1%nat ∧
              s.(card).(tally) = mkTally 1 1 1 1 ∧ Forall (λ '(_, o), final o) s.(hand).(log)
  | None => False
  end.
Proof.
  destruct (path_run met_and_sent path_start) as [s|] eqn:E; [|vm_compute in E; discriminate E].
  pose proof (command_path s (path_run_reachable _ _ s path_reachable_start E)) as (_ & Hl & _).
  assert (s.(hand).(log) = [(1%nat, Some (1%nat, 0))] ∧ s.(repeats) = 1%nat ∧ s.(card).(tally) = mkTally 1 1 1 1)
    as (E1 & E2 & E3) by (vm_compute in E; injection E as <-; repeat split).
  repeat split; [exact E1|exact E2|exact E3|exact Hl].
Defined.
