(* ===== verification/Exchange.v ===== *)
(** * A request and its confirmation: [driver/fdrv/src/wiphy_impl.rs] on [driver/bsp/src/sdio/flow.rs], [cmd.rs]

    [send_lmac_cmd_and_wait_cfm_with_buf] step by step over CmdPath.v: the caller takes
    a slot of the command manager, hands the command to the bustx thread, waits while
    it polls, and takes the confirmation out of its slot; the receiving thread and its
    own polls pass what the chip sent to [on_cfm].  The chip answers what it was sent
    in the order in which it got it, late or never, and may put indications between.
    An exchange that fails leaves its slot taken and its answer on the way: what the
    exchanges after it can and cannot be given is what is shown here. *)

From Stdlib Require Import Sorted.
From S2P Require Import Prelude CmdMgr Handoff CardIrq CmdPath.

Section Exchange.

(** The id of the confirmation that command [n] is answered with, the parameters of the answer, and the
    messages that confirm: indications are the others. *)
Context (cfm_of : nat → Z) (answer : nat → list Z) (confirms : Z → bool).

(** What the chip sends: the answer to a command, or an indication. *)
Inductive frame := Confirm (n : nat) | Indication (id : Z) (param : list Z).

Definition frame_id (f : frame) : Z := match f with Confirm n => cfm_of n | Indication id _ => id end.
Definition frame_param (f : frame) : list Z := match f with Confirm n => answer n | Indication _ p => p end.

(** Where the caller is: outside, with a slot for a confirmation with an id, in
    [submit_cmd_tx_and_wait_tx_done] with its command, in the wait, past the wait. *)
Inductive asker_place :=
  | XIdle | XPushed (tok : nat) (id : Z) | XSubmitted (tok n : nat) | XWaits (tok n : nat) | XSeen (tok n : nat).

(** driver/bsp/src/sdio/flow.rs:39-39 [CMD_MGR], with the path of a command, where the caller is, the commands the chip has and has not answered,
    the frames the host has not read, how many exchanges failed with their slot, and what those that
    succeeded were given: the command, the caller's buffer, the length and the buffer it was left with. *)
Record Exchange := mkExchange {
  path : Path;
  mgr : Mgr.t;
  asker : asker_place;
  chip : list nat;
  fifo : list frame;
  failed : nat;
  replies : list (nat * list Z * (nat * list Z)) }.

Definition exchange_start : Exchange := mkExchange path_start Mgr.new XIdle [] [] 0 [].

Inductive xevent :=
  (* the caller *)
  | XPush (id : Z) | XRefuse | XDone | XTake (out : list Z) | XTimeout
  (* the path: a step of it, a command that goes out and reaches the chip or not, frames that are read *)
  | XPath (e : path_event) | XSent (result : Z) (got : bool) | XRecv (p : party) (k : nat)
  (* the chip *)
  | XAnswer | XLose | XIndicate (id : Z) (param : list Z).

(** driver/fdrv/src/wiphy_impl.rs:116-124 [send_lmac_cmd_and_wait_cfm_with_buf], the submission and the wait as steps
    of the path: where the caller is after one, and whether that has cost its slot: the submission has
    begun, or ended in the thread's result or in the time-out.  Polls happen during the wait; what
    is read and what goes out are events of their own. *)
Definition asker_step (e : path_event) (s : Exchange) : option (asker_place * nat) :=
  match e, s.(asker) with
  | PHand EClear, XPushed tok id =>
      let n := S s.(path).(hand).(submitted) in
      if bool_decide (id = cfm_of n) then Some (XSubmitted tok n, 0%nat) else None
  | PHand EClear, _ => None
  | PHand ETake, XSubmitted tok n =>
      '(_, r) ← s.(path).(hand).(tx_result);
      Some (if bool_decide (r = 0) then (XWaits tok n, 0%nat) else (XIdle, 1%nat))
  | PHand ETake, _ => None
  | PHand Handoff.EGiveUp, _ => Some (XIdle, 1%nat)
  | PCard (EEnter Waiter), XWaits _ _ => Some (s.(asker), 0%nat)
  | PCard (EEnter Waiter), _ | PCard (EMoved Rx), _ | PCard (EMoved Waiter), _ | PSent _, _ => None
  | _, _ => Some (s.(asker), 0%nat)
  end.

(** driver/bsp/src/sdio/flow.rs:207-255 [poll_rx_one], the frames of one transfer passed to [on_cfm] *)
Fixpoint deliver (fs : list frame) (m : Mgr.t) : Mgr.t :=
  match fs with
  | [] => m
  | f :: fs => deliver fs (Mgr.on_cfm (frame_id f) (frame_param f) m).1
  end.

(** driver/fdrv/src/wiphy_impl.rs:92-128 [send_lmac_cmd_and_wait_cfm_with_buf], step by step, the caller's own:
    a slot is taken when there is one; a command that is too long is refused with the slot taken; the wait
    sees the confirmation between two polls, or times out; the confirmation is taken *)
Definition asker_own (e : xevent) (s : Exchange) : option Exchange :=
  match e, s.(asker) with
  | XPush id, XIdle =>
      if confirms id then
        let '(tok, m) := Mgr.push id s.(mgr) in
        let x := match tok with Some tok => XPushed tok id | None => XIdle end in
        Some (mkExchange s.(path) m x s.(chip) s.(fifo) s.(failed) s.(replies))
      else None
  | XRefuse, XPushed _ _ =>
      Some (mkExchange s.(path) s.(mgr) XIdle s.(chip) s.(fifo) (S s.(failed)) s.(replies))
  | XDone, XWaits tok n =>
      if bool_decide (s.(path).(card).(waiter) = Outside) && Mgr.is_done tok s.(mgr) then
        Some (mkExchange s.(path) s.(mgr) (XSeen tok n) s.(chip) s.(fifo) s.(failed) s.(replies))
      else None
  | XTimeout, XWaits _ _ =>
      if bool_decide (s.(path).(card).(waiter) = Outside) then
        Some (mkExchange s.(path) s.(mgr) XIdle s.(chip) s.(fifo) (S s.(failed)) s.(replies))
      else None
  | XTake out, XSeen tok n =>
      let '(r, m) := Mgr.take_cfm tok out s.(mgr) in
      let log := match r with Some r => [(n, out, r)] | None => [] end in
      Some (mkExchange s.(path) m XIdle s.(chip) s.(fifo) s.(failed) (s.(replies) ++ log))
  | _, _ => None
  end.

(** The chip answers the command it got first, or never will, or reports something. *)
Definition chip_step (e : xevent) (s : Exchange) : option Exchange :=
  let after chip fifo := mkExchange s.(path) s.(mgr) s.(asker) chip fifo s.(failed) s.(replies) in
  match e, s.(chip) with
  | XAnswer, n :: chip => Some (after chip (s.(fifo) ++ [Confirm n]))
  | XLose, _ :: chip => Some (after chip s.(fifo))
  | XIndicate id param, _ =>
      if confirms id then None else Some (after s.(chip) (s.(fifo) ++ [Indication id param]))
  | _, _ => None
  end.

(** driver/bsp/src/sdio/flow.rs:302-323 [run_poll_rx_one], the transfer that reads frames, also driver/bsp/src/sdio/flow.rs:293-295 [sdio_poll_rx_once];
    the frames are parsed under the two locks the transfer is made under *)
Definition recv_step (p : party) (k : nat) (s : Exchange) : option Exchange :=
  if bool_decide (p = Tx) then None
  else
    pa ← path_step (PCard (EMoved p)) s.(path);
    Some (mkExchange pa (deliver (take k s.(fifo)) s.(mgr)) s.(asker) s.(chip) (drop k s.(fifo))
            s.(failed) s.(replies)).

Definition exchange_step (e : xevent) (s : Exchange) : option Exchange :=
  match e with
  | XPath e =>
      '(x, lost) ← asker_step e s; pa ← path_step e s.(path);
      Some (mkExchange pa s.(mgr) x s.(chip) s.(fifo) (lost + s.(failed)) s.(replies))
  | XSent r got =>
      pa ← path_step (PSent r) s.(path);
      let sent := match s.(path).(hand).(bus) with TSending n => [n] | _ => [] end in
      Some (mkExchange pa s.(mgr) s.(asker) (s.(chip) ++ if (got : bool) then sent else []) s.(fifo)
              s.(failed) s.(replies))
  | XRecv p k => recv_step p k s
  | XAnswer | XLose | XIndicate _ _ => chip_step e s
  | _ => asker_own e s
  end.

Fixpoint exchange_run (es : list xevent) (s : Exchange) : option Exchange :=
  match es with
  | [] => Some s
  | e :: es => s ← exchange_step e s; exchange_run es s
  end.

Inductive exchange_reachable : Exchange → Prop :=
  | exchange_reachable_start : exchange_reachable exchange_start
  | exchange_reachable_step e s s' :
      exchange_reachable s → exchange_step e s = Some s' → exchange_reachable s'.

Lemma exchange_run_reachable es s s' :
  exchange_reachable s → exchange_run es s = Some s' → exchange_reachable s'.
Proof.
  revert s. induction es as [|e es IH]; intros s Hs; cbn [exchange_run]; [by intros [= <-]|].
  destruct (exchange_step e s) as [s1|] eqn:E; [|done]. apply IH. by econstructor.
Qed.

(** ** What is on the way, and who waits for it *)

(** The commands that are handed over and not sent yet. *)
Definition flight (h : Handoff) : list nat := in_sending h.(bus) ++ option_list h.(Handoff.pending).
Definition answers (fs : list frame) : list nat :=
  omap (λ f, match f with Confirm n => Some n | Indication _ _ => None end) fs.
(** The commands whose answer may still come, the oldest first. *)
Definition on_the_way (s : Exchange) : list nat :=
  answers s.(fifo) ++ s.(chip) ++ flight s.(path).(hand).

Definition cur (x : asker_place) : option nat :=
  match x with XSubmitted _ n | XWaits _ n | XSeen _ n => Some n | _ => None end.
Definition token (x : asker_place) : option nat :=
  match x with XIdle => None | XPushed tok _ | XSubmitted tok _ | XWaits tok _ | XSeen tok _ => Some tok end.
Definition slots_used (x : asker_place) (k : nat) : nat := match token x with Some _ => S k | None => k end.

(** A command of an exchange that is over, with a given id. *)
Definition stale (x : asker_place) (id : Z) (n : nat) : bool := bool_decide (cfm_of n = id ∧ Some n ≠ cur x).

Definition answered (n : nat) : option Mgr.PendingCmd :=
  Some (Mgr.completed (answer n) (Mgr.fresh_cmd (cfm_of n))).

(** The caller's slot waits, or, once the command may have been sent, has the answer to this very command,
    which then is not on its way any more. *)
Definition own_slot (early : bool) (m : Mgr.t) (x : asker_place) (l : list nat) : Prop :=
  match x with
  | XIdle => True
  | XPushed tok id => m.(Mgr.slots) !! tok = Some (Some (Mgr.fresh_cmd id))
  | XSubmitted tok n | XWaits tok n =>
      m.(Mgr.slots) !! tok = Some (Some (Mgr.fresh_cmd (cfm_of n))) ∨
      (early = false ∧ m.(Mgr.slots) !! tok = Some (answered n) ∧ n ∉ l)
  | XSeen tok n => m.(Mgr.slots) !! tok = Some (answered n) ∧ n ∉ l
  end.

(** The table of slots while [l] is on the way: the slots of the [k] failed exchanges come first, the
    caller's next, the others are free; and for every id, the failed exchanges that still wait for
    it are at least as many as the answers to them that may come. *)
Record Table (early : bool) (m : Mgr.t) (x : asker_place) (k : nat) (l : list nat) : Prop := mkTable {
  table_counted : Mgr.counted m;
  table_inited : m.(Mgr.state) = Mgr.Inited;
  table_used : (slots_used x k ≤ 8)%nat;
  table_stack i : (i < 8)%nat → m.(Mgr.slots) !! i = Some None ↔ (slots_used x k ≤ i)%nat;
  table_token tok : token x = Some tok → tok = k;
  table_confirms i c : m.(Mgr.slots) !! i = Some (Some c) → confirms c.(Mgr.reqid) = true;
  table_own : own_slot early m x l;
  table_stale id : (countb (stale x id) l ≤ countb (Mgr.awaits id) (take k m.(Mgr.slots)))%nat }.

Lemma own_slot_kept early m m' x l l' :
  own_slot early m x l → sublist l' l →
  (∀ tok, token x = Some tok → m'.(Mgr.slots) !! tok = m.(Mgr.slots) !! tok) → own_slot early m' x l'.
Proof.
  intros Ho Hs Hk. assert (∀ n, n ∉ l → n ∉ l') as Hn by (intros n Hn Hi; by apply Hn; eapply elem_of_sublist).
  destruct x as [|tok id|tok n|tok n|tok n]; simpl in *; rewrite ?(Hk tok) by done; naive_solver.
Qed.

Lemma table_sublist early m x k l l' : Table early m x k l → sublist l' l → Table early m x k l'.
Proof.
  intros [] Hs. split; try done; [by eapply own_slot_kept|]. intros id. etrans; [by apply countb_sublist|done].
Qed.

(** The caller goes on: its command is numbered, stored, sent. *)
Lemma table_begin early m tok n k l :
  Table early m (XPushed tok (cfm_of n)) k l → n ∉ l → Table true m (XSubmitted tok n) k l.
Proof.
  intros [] Hn. split; try done; [by left|]. intros id. etrans; [|apply table_stale0].
  apply countb_mono. intros j Hj. unfold stale. simpl. rewrite !bool_decide_eq_true. naive_solver.
Qed.

Lemma table_store m tok n k l l' :
  Table true m (XSubmitted tok n) k l → sublist l' l → Table false m (XSubmitted tok n) k (l' ++ [n]).
Proof.
  intros [] Hs. split; try done.
  - left. simpl in table_own0. naive_solver.
  - intros id. rewrite countb_app. simpl.
    replace (stale (XSubmitted tok n) id n) with false by (symmetry; apply bool_decide_eq_false; naive_solver).
    pose proof (countb_sublist (stale (XSubmitted tok n) id) _ _ Hs). specialize (table_stale0 id). lia.
Qed.

Lemma stale_one x n id l : cur x = Some n → NoDup l →
  (countb (stale XIdle id) l ≤ countb (stale x id) l + if bool_decide (n ∈ l ∧ cfm_of n = id) then 1 else 0)%nat.
Proof.
  intros Hc. induction 1 as [|j l Hj Hnd IH]; simpl; [lia|]. destruct (decide (j = n)) as [->|Hne].
  - rewrite (bool_decide_eq_false_2 (n ∈ l ∧ _)) in IH by naive_solver.
    unfold stale at 1 3. rewrite Hc. simpl.
    rewrite (bool_decide_eq_false_2 (cfm_of n = id ∧ Some n ≠ Some n)) by naive_solver.
    case_bool_decide as H1; [|lia]. rewrite bool_decide_eq_true_2 by (split; [by left|by destruct H1]). lia.
  - replace (stale XIdle id j) with (stale x id j) by (unfold stale; rewrite Hc; apply bool_decide_ext; naive_solver).
    rewrite (bool_decide_ext (n ∈ j :: l ∧ _) (n ∈ l ∧ cfm_of n = id)) by (rewrite elem_of_cons; naive_solver). lia.
Qed.

(** The caller gives its slot up: what it waited for is waited for by the slot that stays. *)
Lemma table_fail early m x k l e' tok :
  token x = Some tok → Table early m x k l → NoDup l → Table e' m XIdle (S k) l.
Proof.
  intros Hx [] Hnd. assert (tok = k) as -> by auto.
  assert (slots_used x k = S k) as Hu by (unfold slots_used; by rewrite Hx). rewrite Hu in *.
  split; try done; [].
  assert (∃ o, Mgr.slots m !! k = Some o) as [o Ho].
  { destruct table_counted0 as [(Hl & _) _]. apply lookup_lt_is_Some_2. lia. }
  intros id. rewrite (take_S_r _ _ o Ho), countb_app. simpl.
  specialize (table_stale0 id).
  destruct (cur x) as [n|] eqn:Hc.
  - pose proof (stale_one x n id l Hc Hnd) as Hs.
    enough (n ∈ l → cfm_of n = id → Mgr.awaits id o = true) as Hw
      by (case_bool_decide as Hb; [destruct Hb; rewrite Hw by done|]; lia).
    intros Hn Hid. destruct x as [| |tok n'|tok n'|tok n']; try discriminate Hc; injection Hx as ->; injection Hc as ->;
      simpl in table_own0; [| |naive_solver];
      (destruct table_own0 as [Hf|(_ & _ & Hf)]; [|done]); rewrite Hf in Ho; injection Ho as <-;
      simpl; by apply bool_decide_eq_true.
  - replace (countb (stale XIdle id) l) with (countb (stale x id) l); [lia|].
    unfold stale. by rewrite Hc.
Qed.

Lemma push_first id m i m' j : Mgr.push id m = (Some i, m') → (j < i)%nat → m.(Mgr.slots) !! j ≠ Some None.
Proof.
  unfold Mgr.push. do 2 (case_bool_decide; [done|]). destruct (list_find _ _) as [[i' o]|] eqn:E; [|done].
  intros [= <- <-] Hj Ho. apply list_find_Some in E as (_ & _ & Hb). by apply (Hb j None).
Qed.

Lemma table_push early m k l id m' r :
  confirms id = true → Table early m XIdle k l → Mgr.push id m = (r, m') →
  Table early m' (match r with Some tok => XPushed tok id | None => XIdle end) k l.
Proof.
  intros Hid HT E. assert (Mgr.counted m') as Hc.
  { eapply Mgr.step_counted; [apply HT| |by econstructor]. done. }
  pose proof (Mgr.push_inv _ _ _ _ E) as [[-> ->]|(i & -> & Hi & _ & Em)]; [done|].
  destruct HT as [[(Hl & _) _] Hin _ Hst _ Hcf _ Hs]. unfold slots_used in *. simpl in *.
  assert (i < 8)%nat as Hi8 by (rewrite <- Hl; by eapply lookup_lt_Some).
  assert (i = k) as ->.
  { pose proof (proj1 (Hst i Hi8) Hi). destruct (decide (k < i)%nat) as [Hk|]; [|lia].
    destruct (push_first _ _ _ _ k E Hk). apply Hst; lia. }
  subst m'. split; try done; simpl.
  - unfold slots_used. simpl. intros j Hj. destruct (decide (j = k)) as [->|Hne].
    + rewrite list_lookup_insert_eq by lia. split; [done|lia].
    + rewrite list_lookup_insert_ne by done. rewrite Hst by done. lia.
  - by intros tok [= <-].
  - intros j c. rewrite list_lookup_insert_Some. intros [(<- & [= <-] & _)|[_ Hj]]; [done|by eapply Hcf].
  - apply list_lookup_insert_eq. lia.
  - intros X. rewrite take_insert_ge by lia. apply Hs.
Qed.

Lemma table_seen early m tok n k l :
  Table early m (XWaits tok n) k l → Mgr.is_done tok m = true → Table early m (XSeen tok n) k l.
Proof.
  intros [Hc Hin Hu Hst Ht Hcf Ho Hs] Hd. split; try done. simpl in *.
  destruct Ho as [Ho|(_ & Ho & Hn)]; [|done].
  by rewrite (Mgr.is_done_lookup tok m _ (proj1 Hc) Ho) in Hd.
Qed.

(** The first bytes of what [on_cfm] has stored. *)
Lemma take_kept param k :
  (k ≤ Nat.min (length param) 256)%nat →
  take k (splice 0 (take (Nat.min (length param) 256) param) (zeros 256)) = take k param.
Proof.
  intros Hk. unfold splice. rewrite take_0, app_nil_l, take_app_le by (rewrite length_take; lia).
  by rewrite take_take, Nat.min_l by lia.
Qed.

(** What the caller takes is the answer to its own command. *)
Lemma table_take early m tok n k l out r m' :
  Table early m (XSeen tok n) k l → Mgr.take_cfm tok out m = (r, m') →
  (let len := Nat.min (Nat.min (length (answer n)) 256) (length out) in
   r = Some (len, splice 0 (take len (answer n)) out)) ∧ Table early m' XIdle k l.
Proof.
  intros [Hc Hin Hu Hst Ht Hcf [Ho Hn] Hs] E. assert (tok = k) as -> by (by apply Ht).
  assert (Mgr.counted m') as Hc'.
  { eapply Mgr.step_counted; [exact Hc| |by eapply Mgr.step_take]. simpl.
    by rewrite (Mgr.is_done_lookup k m _ (proj1 Hc) Ho). }
  split.
  - destruct (Mgr.take_holds _ k out m (conj (proj1 Hc) Ho) eq_refl) as (m2 & E2 & _).
    rewrite E in E2. injection E2 as -> ->. simpl. do 3 f_equal.
    unfold Lmac.RWNX_CMD_E2AMSG_LEN_MAX. by rewrite take_kept by lia.
  - destruct Hc as [(Hl & _) _]. unfold slots_used in *. simpl in *.
    apply Mgr.take_inv in E as [(_ & _ & Hd)|(s & Hi & _ & -> & _)].
    { unfold Mgr.is_done, Mgr.CMD_MGR_MAX_PENDING in Hd. rewrite bool_decide_false, Ho in Hd by lia. done. }
    split; try done; unfold slots_used; simpl; try lia.
    + intros i Hi8. destruct (decide (i = k)) as [->|Hne].
      * rewrite list_lookup_insert_eq by lia. split; [lia|done].
      * rewrite list_lookup_insert_ne by done. rewrite Hst by done. lia.
    + intros i c. rewrite list_lookup_insert_Some. intros [(_ & [=] & _)|[_ Hj]]. by eapply Hcf.
    + intros X. rewrite take_insert_ge by lia. etrans; [|apply Hs]. apply countb_mono. intros j Hj.
      unfold stale. simpl. rewrite !bool_decide_eq_true. intros [-> _]. split; [done|]. by intros [= ->].
Qed.

(** *** A frame arrives *)

Lemma awaits_completed id param c X :
  Mgr.slot_ok c → Mgr.awaits id (Some c) = true → Mgr.awaits X (Some (Mgr.completed param c)) = false.
Proof.
  intros Hk Ha. destruct (Mgr.completed_ok id param c Hk Ha) as [_ [(_ & [=] & _)|(Hf & _)]].
  simpl in *. rewrite Hf. apply bool_decide_eq_false. by intros [_ []].
Qed.

(** What [on_cfm] does to a table in which slot [i] is the first that waits for the frame. *)
Lemma table_completed early m x k l l' i c id param m' :
  Table early m x k l → sublist l' l → m.(Mgr.slots) !! i = Some (Some c) → Mgr.awaits id (Some c) = true →
  m'.(Mgr.slots) = <[i := Some (Mgr.completed param c)]> m.(Mgr.slots) →
  m'.(Mgr.state) = m.(Mgr.state) → Mgr.counted m' →
  own_slot early m' x l' →
  (∀ X, countb (stale x X) l' = 0 ∨
        countb (stale x X) l' + (if bool_decide (i < k ∧ X = id) then 1 else 0) ≤ countb (stale x X) l)%nat →
  Table early m' x k l'.
Proof.
  intros [Hc Hin Hu Hst Ht Hcf Ho Hs] Hl Hi Ha Em Es Hc' Ho' Hs'.
  destruct Hc as [(Hlen & _ & _ & Hok) _]. pose proof (lookup_lt_Some _ _ _ Hi) as Hi8.
  split; try done; [by rewrite Es|..].
  - intros j Hj. rewrite Em. destruct (decide (j = i)) as [->|Hne].
    + rewrite list_lookup_insert_eq by done. rewrite <- Hst by done. by rewrite Hi.
    + rewrite list_lookup_insert_ne by done. by apply Hst.
  - intros j c'. rewrite Em, list_lookup_insert_Some. intros [(<- & [= <-] & _)|[_ Hj]]; [|by eapply Hcf].
    by apply (Hcf i c).
  - intros X. specialize (Hs X). destruct (Hs' X) as [Hs0|Hs1]; [lia|]. clear Hs'. rename Hs1 into Hs'.
    rewrite Em, take_insert.
    destruct (decide (i < k)%nat) as [Hk|Hk]; [|rewrite bool_decide_false in Hs' by naive_solver; lia].
    assert (take k m.(Mgr.slots) !! i = Some (Some c)) as Hti by (by rewrite lookup_take_lt).
    pose proof (countb_insert (Mgr.awaits X) _ _ _ (Some (Mgr.completed param c)) Hti) as C.
    rewrite (awaits_completed id param c X (Hok i c Hi) Ha) in C.
    destruct (decide (X = id)) as [->|Hne].
    + rewrite Ha in C. rewrite bool_decide_true in Hs' by done. lia.
    + rewrite (Mgr.awaits_other X id c Ha (not_eq_sym Hne) c eq_refl) in C.
      rewrite bool_decide_false in Hs' by naive_solver. lia.
Qed.

Lemma stale_true x n : cur x ≠ Some n → stale x (cfm_of n) n = true.
Proof. intros Hn. apply bool_decide_eq_true. split; [done|]. congruence. Qed.

(** The caller's slot after the oldest answer on the way, which an earlier slot takes, or the caller's own. *)
Lemma own_completed early m m' x k n l i c :
  own_slot early m x (n :: l) → (∀ tok, token x = Some tok → tok = k) →
  m.(Mgr.slots) !! i = Some (Some c) → Mgr.slot_ok c → Mgr.awaits (cfm_of n) (Some c) = true →
  m'.(Mgr.slots) = <[i := Some (Mgr.completed (answer n) c)]> m.(Mgr.slots) →
  (i < k)%nat ∨ (cur x = Some n ∧ early = false ∧ n ∉ l) → own_slot early m' x l.
Proof.
  intros Ho Htok Hi Hok Ha Em Hwho. pose proof (lookup_lt_Some _ _ _ Hi) as Hlt.
  destruct (decide (i = k)) as [->|Hne].
  2: { eapply own_slot_kept; [exact Ho|by apply sublist_cons|].
       intros tok ->%Htok. by rewrite Em, list_lookup_insert_ne. }
  destruct Hwho as [?|(Hn & He & Hnl)]; [lia|].
  assert (Mgr.awaits (cfm_of n) (answered n) = false) as Hans
    by (apply (awaits_completed (cfm_of n)); [apply Mgr.fresh_ok|by apply bool_decide_eq_true]).
  assert (m.(Mgr.slots) !! k ≠ Some (answered n)) as Hno by (rewrite Hi; intros [= Hc]; rewrite Hc in Ha; unfold answered in Hans; congruence).
  assert (m.(Mgr.slots) !! k = Some (Some (Mgr.fresh_cmd (cfm_of n))) → m'.(Mgr.slots) !! k = Some (answered n)) as Hnew
    by (rewrite Em, Hi, list_lookup_insert_eq by done; by intros [= ->]).
  destruct x as [| |tok n'|tok n'|tok n']; try discriminate Hn; injection Hn as ->; simpl in *;
    rewrite (Htok tok eq_refl) in *; naive_solver.
Qed.

Lemma table_confirm early m x k n l :
  Table early m x k (n :: l) → StronglySorted lt (n :: l) →
  (∀ n', cur x = Some n' → Forall (λ j, j ≤ n')%nat (n :: l) ∧ (early = true → n' ∉ n :: l)) →
  Table early (Mgr.on_cfm (cfm_of n) (answer n) m).1 x k l.
Proof.
  intros HT Hsort Hcur. destruct (Mgr.on_cfm _ _ m) as [m' w] eqn:E. simpl.
  assert (Mgr.counted m') as Hc' by (eapply Mgr.step_counted; [apply HT| |by eapply Mgr.step_cfm]; done).
  assert (sublist l (n :: l)) as Hl by by apply sublist_cons.
  apply Mgr.on_cfm_inv in E as [(-> & _)|(i & c & Hi & Ha & Hfirst & _ & Em)]; [by eapply table_sublist| |apply HT].
  assert (cur x = Some n → l = [] ∧ early = false) as Hlast.
  { intros Hn. destruct (Hcur n Hn) as [Hle He]. split; [|destruct early; [destruct (He eq_refl); by left|done]].
    destruct l as [|j l]; [done|]. apply StronglySorted_inv in Hsort as [_ Hlt].
    inversion Hlt. inversion Hle as [|? ? ? Hle2]. inversion Hle2. lia. }
  assert (i < k ∨ cur x = Some n)%nat as Hwho.
  { destruct (decide (cur x = Some n)) as [|Hne]; [by right|left]. pose proof (table_stale _ _ _ _ _ HT (cfm_of n)) as Hs.
    simpl in Hs. rewrite stale_true in Hs by done.
    destruct (countb_pos (Mgr.awaits (cfm_of n)) (take k m.(Mgr.slots)) ltac:(lia)) as (j & o & Hj & Hw).
    apply lookup_take_Some in Hj as [Hj Hjk].
    destruct (decide (i < k)%nat); [done|]. by rewrite (Hfirst j o ltac:(lia) Hj) in Hw. }
  eapply (table_completed early m x k (n :: l) l i c (cfm_of n) (answer n)); try done; try by subst m'.
  - eapply own_completed; [apply HT|apply HT|exact Hi|by eapply (table_counted _ _ _ _ _ HT)|done|by subst m'|].
    destruct Hwho as [?|Hn]; [by left|right]. destruct (Hlast Hn) as [-> ?]. split_and!; [done|done|by intros ?%elem_of_nil].
  - intros X. simpl. destruct (decide (cur x = Some n)) as [Hn|Hn]; [left; by destruct (Hlast Hn) as [-> _]|right].
    case_bool_decide as Hb; [destruct Hb as [_ ->]; rewrite stale_true by done|]; lia.
Qed.

(** An indication concerns no slot. *)
Lemma table_indication early m x k l id param :
  Table early m x k l → confirms id = false → Table early (Mgr.on_cfm id param m).1 x k l.
Proof.
  intros HT Hid. destruct (Mgr.on_cfm id param m) as [m' w] eqn:E.
  apply Mgr.on_cfm_inv in E as [(-> & _)|(i & c & Hi & Ha & _)]; [done| |apply HT].
  simpl in Ha. apply bool_decide_eq_true in Ha as [<- _]. by rewrite (table_confirms _ _ _ _ _ HT i c Hi) in Hid.
Qed.

(** *** The whole *)

Definition early (h : Handoff) : bool := match h.(main) with CCleared _ => true | _ => false end.

(** The hand-off is where the caller is. *)
Definition placed (x : asker_place) (h : Handoff) : Prop :=
  match x with
  | XIdle | XPushed _ _ => h.(main) = CIdle
  | XSubmitted _ n =>
      n = h.(submitted) ∧ (h.(main) = CCleared n ∨ h.(main) = CStored n ∨ h.(main) = CWaiting n)
  | XWaits _ n | XSeen _ n => n = h.(submitted) ∧ h.(main) = CIdle
  end.

Definition reports (f : frame) : Prop :=
  match f with Confirm _ => True | Indication id _ => confirms id = false end.

(** An exchange that succeeded was given the answer to its own command, cut to 256 bytes and to its buffer. *)
Definition own_reply (r : nat * list Z * (nat * list Z)) : Prop :=
  let '(n, out, r) := r in
  let len := Nat.min (Nat.min (length (answer n)) 256) (length out) in
  r = (len, splice 0 (take len (answer n)) out).

Record sound (s : Exchange) : Prop := mkSound {
  sound_path : path_reachable s.(path);
  sound_sent : sublist (answers s.(fifo) ++ s.(chip)) s.(path).(hand).(sent);
  sound_frames : Forall reports s.(fifo);
  sound_place : placed s.(asker) s.(path).(hand);
  sound_table : Table (early s.(path).(hand)) s.(mgr) s.(asker) s.(failed) (on_the_way s);
  sound_replies : Forall own_reply s.(replies) }.

(** What is on the way is in the order of its numbers, up to the last one that was submitted; a command
    that is not stored yet is not on the way. *)
Lemma way_sorted s : sound s →
  StronglySorted lt (on_the_way s) ∧ Forall (λ n, n ≤ s.(path).(hand).(submitted))%nat (on_the_way s) ∧
  (early s.(path).(hand) = true → s.(path).(hand).(submitted) ∉ on_the_way s).
Proof.
  intros Hs. destruct (path_parts _ (sound_path s Hs)) as [Hh _].
  destruct (reachable_in_order _ Hh) as (Hsort & Hle & Hm).
  assert (sublist (on_the_way s) (Handoff.line s.(path).(hand))) as Hsub.
  { unfold on_the_way, Handoff.line. rewrite app_assoc. apply sublist_app; [apply Hs|done]. }
  split; [by eapply sorted_sublist|]. split.
  - rewrite !Forall_forall in *. intros n Hn. by apply Hle; eapply elem_of_sublist.
  - unfold early. destruct (main _) as [|n| |]; try done. destruct Hm as [-> Hlt]. intros _ Hin.
    rewrite Forall_forall in Hlt. assert (submitted (hand (path s)) < submitted (hand (path s)))%nat; [|lia].
    by apply Hlt; eapply elem_of_sublist.
Qed.

Lemma way_current s n : sound s → cur s.(asker) = Some n →
  Forall (λ j, j ≤ n)%nat (on_the_way s) ∧ (early s.(path).(hand) = true → n ∉ on_the_way s).
Proof.
  intros Hs Hn. destruct (way_sorted s Hs) as (_ & Hle & He).
  assert (n = s.(path).(hand).(submitted)) as ->; [|done].
  pose proof (sound_place s Hs) as Hp. destruct (asker s); simpl in *; naive_solver.
Qed.

(** The frames of one transfer, one after the other. *)
Lemma sound_frame s f fs : sound s → s.(fifo) = f :: fs →
  sound (mkExchange s.(path) (Mgr.on_cfm (frame_id f) (frame_param f) s.(mgr)).1 s.(asker) s.(chip) fs
           s.(failed) s.(replies)).
Proof.
  intros Hs Hf. destruct (way_sorted s Hs) as (Hsort & _). pose proof (λ n, way_current s n Hs) as Hcur.
  destruct Hs as [Hp Hsub Hrep Hpl HT Hown]. unfold on_the_way in *. rewrite Hf in *.
  apply Forall_cons in Hrep as [Hr Hrep]. destruct f as [n|id param]; simpl in *.
  - split; try done; simpl; [by apply sublist_cons_l in Hsub as (? & ? & -> & ?); eapply sublist_inserts_l, sublist_cons|].
    by apply table_confirm.
  - split; try done; simpl. by apply table_indication.
Qed.

Lemma sound_deliver fs s rest : sound s → s.(fifo) = fs ++ rest →
  sound (mkExchange s.(path) (deliver fs s.(mgr)) s.(asker) s.(chip) rest s.(failed) s.(replies)).
Proof.
  revert s. induction fs as [|f fs IH]; intros s Hs Hf; simpl.
  - simpl in Hf. subst rest. by destruct s.
  - pose proof (sound_frame s f (fs ++ rest) Hs Hf) as Hs1. by apply (IH _ Hs1).
Qed.

(** A step of the path that leaves the caller where it is and the hand-off as the exchange sees it. *)
Lemma sound_still s pa :
  sound s → path_reachable pa → let h := s.(path).(hand) in
  pa.(hand).(submitted) = h.(submitted) → pa.(hand).(sent) = h.(sent) → flight pa.(hand) = flight h →
  (pa.(hand).(main) = h.(main) ∨ ∃ n, h.(main) = CStored n ∧ pa.(hand).(main) = CWaiting n) →
  sound (mkExchange pa s.(mgr) s.(asker) s.(chip) s.(fifo) s.(failed) s.(replies)).
Proof.
  intros [Hp Hsub Hrep Hpl HT Hown] Hpa h Hsu Hse Hf Hm.
  assert (early pa.(hand) = early h) as He by (unfold early; destruct Hm as [->|(n & -> & ->)]; done).
  split; simpl; try done; [by rewrite Hse| |unfold on_the_way in *; simpl; by rewrite He, Hf].
  subst h. destruct s.(asker) as [|? ?|? n|? n|? n]; simpl in *; rewrite ?Hsu;
    destruct Hm as [->|(k & Hk & ->)]; try done; rewrite Hk in Hpl; naive_solver.
Qed.

(** The thread sends, and what it had in hand reaches the chip or not. *)
Lemma sound_send s pa r (got : bool) :
  sound s → path_reachable pa → r ≠ EAGAIN → Handoff.step (ESend r) s.(path).(hand) = Some pa.(hand) →
  sound (mkExchange pa s.(mgr) s.(asker)
           (s.(chip) ++ if got then in_sending s.(path).(hand).(bus) else []) s.(fifo) s.(failed) s.(replies)).
Proof.
  intros Hs Hpa Hr E. destruct Hs as [Hp Hsub Hrep Hpl HT Hown].
  cbn in E. destruct (bus (hand (path s))) as [| | |n|] eqn:Eb; try discriminate E.
  rewrite bool_decide_false in E by done. destruct pa as [h c q]. simpl in *. injection E as <-.
  assert (sublist (answers (fifo s) ++ (chip s ++ (if got then [n] else [])) ++ option_list (Handoff.pending (hand (path s))))
            (on_the_way s)) as Hway.
  { unfold on_the_way, flight. rewrite Eb. simpl. apply sublist_app; [done|]. rewrite <- app_assoc.
    apply sublist_app; [done|]. destruct got; simpl; [done|by apply sublist_cons]. }
  split; simpl; try done.
  - rewrite app_assoc. apply sublist_app; [done|]. destruct got; [done|apply sublist_nil_l].
  - unfold on_the_way, flight. simpl. by eapply table_sublist.
Qed.

(** The steps of the caller inside the submission. *)
Lemma sound_clear s tok n pa :
  sound s → path_reachable pa → s.(asker) = XPushed tok (cfm_of n) → n = S s.(path).(hand).(submitted) →
  Handoff.step EClear s.(path).(hand) = Some pa.(hand) →
  sound (mkExchange pa s.(mgr) (XSubmitted tok n) s.(chip) s.(fifo) s.(failed) s.(replies)).
Proof.
  intros Hs Hpa Hx -> E. destruct (way_sorted s Hs) as (_ & Hle & _). destruct Hs as [Hp Hsub Hrep Hpl HT Hown].
  rewrite Hx in *. simpl in Hpl. cbn in E. rewrite Hpl in E. destruct pa as [h c q]. simpl in *. injection E as <-.
  split; simpl; try done; [by split; [|left]|]. unfold on_the_way. simpl.
  apply (table_begin (early (hand (path s)))); [done|]. intros Hin. rewrite Forall_forall in Hle. apply Hle in Hin. lia.
Qed.

Lemma sound_store s pa :
  sound s → path_reachable pa → Handoff.step EStore s.(path).(hand) = Some pa.(hand) →
  sound (mkExchange pa s.(mgr) s.(asker) s.(chip) s.(fifo) s.(failed) s.(replies)).
Proof.
  intros [Hp Hsub Hrep Hpl HT Hown] Hpa E. cbn in E.
  destruct (main (hand (path s))) as [|n| |] eqn:Em; try discriminate E. destruct pa as [h c q]. simpl in *. injection E as <-.
  destruct s.(asker) as [|tok id|tok k|tok k|tok k] eqn:Ex; simpl in Hpl; rewrite Em in Hpl; try naive_solver.
  destruct Hpl as [-> [[= ->]|[[=]|[=]]]].
  split; simpl; try done; [naive_solver|]. unfold early in HT. rewrite Em in HT. unfold on_the_way, flight in *. simpl.
  rewrite !app_assoc. eapply table_store; [done|]. rewrite <- !app_assoc. apply sublist_app; [done|].
  apply sublist_app; [done|]. apply sublist_inserts_r. done.
Qed.

(** The submission ends: the caller goes on to the wait, or leaves its slot. *)
Lemma sound_over s pa x lost n :
  sound s → path_reachable pa → let h := s.(path).(hand) in h.(main) = CWaiting n →
  pa.(hand).(main) = CIdle → pa.(hand).(submitted) = h.(submitted) → pa.(hand).(sent) = h.(sent) →
  flight pa.(hand) = flight h →
  (x = XIdle ∧ lost = 1 ∨ ∃ tok n', s.(asker) = XSubmitted tok n' ∧ x = XWaits tok n' ∧ lost = 0)%nat →
  sound (mkExchange pa s.(mgr) x s.(chip) s.(fifo) (lost + s.(failed)) s.(replies)).
Proof.
  intros Hs Hpa h Hm Hm' Hsu Hse Hf Hx. destruct (way_sorted s Hs) as (Hsort & _).
  destruct Hs as [Hp Hsub Hrep Hpl HT Hown]. subst h. unfold early in HT. rewrite Hm in HT.
  assert (∃ tok k, s.(asker) = XSubmitted tok k ∧ k = s.(path).(hand).(submitted)) as (tok & k & Ha & ->)
    by (destruct s.(asker); simpl in Hpl; rewrite Hm in Hpl; naive_solver).
  rewrite Ha in *. unfold on_the_way in *. destruct Hx as [[-> ->]|(? & ? & [= <- <-] & -> & ->)];
    (split; simpl; [done|by rewrite Hse|done|by rewrite ?Hsu| |done]); unfold on_the_way, early; simpl; rewrite Hm', Hf.
  - by eapply table_fail; [|exact HT|apply sorted_NoDup].
  - by destruct HT.
Qed.

Lemma hand_still e h h' : Handoff.step e h = Some h' →
  match e with
  | EClear | EStore | ESend _ => True
  | Handoff.ETake | Handoff.EGiveUp =>
      (∃ n, h.(main) = CWaiting n) ∧ h'.(main) = CIdle ∧ h'.(submitted) = h.(submitted) ∧ h'.(sent) = h.(sent) ∧
      flight h' = flight h
  | _ =>
      h'.(submitted) = h.(submitted) ∧ h'.(sent) = h.(sent) ∧ flight h' = flight h ∧
      (h'.(main) = h.(main) ∨ ∃ n, h.(main) = CStored n ∧ h'.(main) = CWaiting n)
  end.
Proof.
  intros E. unfold flight. Handoff.step_cases e h E; injection E as <-; simpl; rewrite ?in_sending_wake, ?Eb, ?Em; try done;
    split_and?; try done; first [by left|right; by eexists|by eexists].
Qed.

Lemma asker_still e s x lost : asker_step e s = Some (x, lost) →
  match e with
  | PHand EClear | PHand Handoff.ETake | PHand Handoff.EGiveUp | PSent _ => True
  | _ => x = s.(asker) ∧ lost = 0%nat
  end.
Proof.
  unfold asker_step. intros Ha.
  destruct e as [[]|e| | | |]; try destruct e; try done; try match goal with p : party |- _ => destruct p end;
    destruct (asker s); try discriminate Ha; by injection Ha as <- <-.
Qed.

Lemma sound_hand s e x lost h c q :
  sound s → path_reachable (mkPath h c q) → asker_step (PHand e) s = Some (x, lost) →
  Handoff.step e s.(path).(hand) = Some h → alone e = true →
  sound (mkExchange (mkPath h c q) s.(mgr) x s.(chip) s.(fifo) (lost + s.(failed)) s.(replies)).
Proof.
  intros Hs Hpa Ha E Hal. pose proof (hand_still e _ _ E) as Hh. pose proof (asker_still _ _ _ _ Ha) as Hx.
  destruct e; try discriminate Hal; lazymatch type of Hx with True => clear Hx | _ => destruct Hx as [-> ->] end.
  - unfold asker_step in Ha. destruct (asker s) as [|tok id| | |] eqn:Ex; try discriminate Ha.
    case_bool_decide; [|done]. injection Ha as <- <-. subst id. by apply sound_clear.
  - by apply sound_store.
  - destruct Hh as (? & ? & ? & ?). by apply sound_still.
  - destruct Hh as ([n Hn] & ? & ? & ? & ?). eapply sound_over; try done. unfold asker_step in Ha.
    destruct (asker s) as [| |tok k| |] eqn:Ex; simpl in Ha.
    3: { destruct (tx_result _) as [[j r]|]; [|done]. simpl in Ha. case_bool_decide; injection Ha as <- <-; naive_solver. }
    all: pose proof (sound_place s Hs) as Hpl; rewrite Ex in Hpl; simpl in Hpl; rewrite Hn in Hpl; naive_solver.
  - destruct Hh as ([n Hn] & ? & ? & ? & ?). eapply sound_over; try done. left.
    unfold asker_step in Ha. destruct (asker s); injection Ha as <- <-; done.
  - destruct Hh as (? & ? & ? & ?). by apply sound_still.
  - destruct Hh as (? & ? & ? & ?). by apply sound_still.
  - destruct Hh as (? & ? & ? & ?). by apply sound_still.
  - destruct Hh as (? & ? & ? & ?). by apply sound_still.
Qed.

Lemma sound_path_step s e x lost pa :
  sound s → asker_step e s = Some (x, lost) → path_step e s.(path) = Some pa →
  sound (mkExchange pa s.(mgr) x s.(chip) s.(fifo) (lost + s.(failed)) s.(replies)).
Proof.
  intros Hs Ha E. assert (path_reachable pa) as Hpa by (by eapply path_reachable_step; [apply Hs|]).
  pose proof (asker_still _ _ _ _ Ha) as Hx. pose proof (step_parts _ _ _ E) as Hparts.
  destruct e as [e|e| |r| |]; cbn [path_step] in E; unfold mbind, option_bind in E.
  - destruct (alone e) eqn:Hal; [|done]. destruct (Handoff.step e _) as [h|] eqn:Eh; [|done]. injection E as <-.
    by eapply sound_hand.
  - destruct Hx as [-> ->]. destruct (_ || _); [done|]. destruct (CardIrq.step e _); [|done]. injection E as <-.
    apply sound_still; try done. by left.
  - destruct Hx as [-> ->]. destruct (Handoff.step _ _) as [h|] eqn:Eh; [|done].
    destruct (CardIrq.step _ _); [|done]. injection E as <-. cbn in Eh. destruct (bus _); try done. injection Eh as <-.
    apply sound_still; try done. by left.
  - by destruct (asker s).
  - destruct Hx as [-> ->]. destruct (_ && _); [|done].
    destruct (Handoff.step _ _) as [h|] eqn:Eh; [|done]. injection E as <-.
    pose proof (sound_send s _ (-5) false Hs Hpa ltac:(done) Eh) as H. by rewrite app_nil_r in H.
  - destruct Hx as [-> ->]. destruct (CardIrq.step _ _); [|by destruct (Handoff.step _ _)]. cbn in E. injection E as <-.
    apply sound_still; try done; simpl. unfold flight. simpl. by rewrite in_sending_wake. by left.
Qed.

Lemma sound_own e s s' : sound s → asker_own e s = Some s' → sound s'.
Proof.
  intros Hs E. destruct (way_sorted s Hs) as (Hsort & _ & _). unfold asker_own in E.
  destruct e as [id| | |out| |e|r got|p k| | |id param], (asker s) as [|tok id'|tok n|tok n|tok n] eqn:Ex; try discriminate E.
  - destruct (confirms id) eqn:Hc; [|done]. destruct (Mgr.push id (mgr s)) as [r m] eqn:Ep. injection E as <-.
    destruct Hs as [Hp Hsub Hrep Hpl HT Hown]. rewrite Ex in *.
    split; simpl; try done; [by destruct r|]. by eapply table_push.
  - injection E as <-. destruct Hs as [Hp Hsub Hrep Hpl HT Hown]. rewrite Ex in *.
    split; simpl; try done. by eapply table_fail; [|exact HT|apply sorted_NoDup].
  - destruct (_ && _) eqn:Hd; [|done]. apply andb_true_iff in Hd as [_ Hd]. injection E as <-.
    destruct Hs as [Hp Hsub Hrep Hpl HT Hown]. rewrite Ex in *. split; simpl; try done. by apply table_seen.
  - destruct (Mgr.take_cfm tok out (mgr s)) as [r m] eqn:Et. injection E as <-.
    destruct Hs as [Hp Hsub Hrep Hpl HT Hown]. rewrite Ex in *. destruct (table_take _ _ _ _ _ _ _ _ _ HT Et) as [-> HT'].
    split; simpl; try done; [by destruct Hpl|]. apply Forall_app. split; [done|]. by apply Forall_singleton.
  - destruct (bool_decide _); [|done]. injection E as <-. destruct Hs as [Hp Hsub Hrep Hpl HT Hown]. rewrite Ex in *.
    split; simpl; try done; [by destruct Hpl|]. by eapply table_fail; [|exact HT|apply sorted_NoDup].
Qed.

Lemma answers_snoc fs f : answers (fs ++ [f]) = answers fs ++ match f with Confirm n => [n] | _ => [] end.
Proof. unfold answers. rewrite omap_app. simpl. by destruct f. Qed.

Lemma sound_indication s id param : sound s → confirms id = false →
  sound (mkExchange s.(path) s.(mgr) s.(asker) s.(chip) (s.(fifo) ++ [Indication id param]) s.(failed) s.(replies)).
Proof.
  intros [Hp Hsub Hrep Hpl HT Hown] Hid. split; try done; simpl.
  - by rewrite answers_snoc, app_nil_r.
  - apply Forall_app. split; [done|]. by apply Forall_singleton.
  - unfold on_the_way in *. simpl. by rewrite answers_snoc, app_nil_r.
Qed.

Lemma sound_chip e s s' : sound s → chip_step e s = Some s' → sound s'.
Proof.
  intros Hs E. unfold chip_step in E.
  assert (∀ id param, e = XIndicate id param → sound s') as Hind.
  { intros id param ->. destruct (confirms id) eqn:Hid; [by destruct (chip s)|].
    destruct (chip s) eqn:Ec; injection E as <-; rewrite <- Ec; by apply sound_indication. }
  destruct e; try discriminate E; [| |by eapply Hind]; destruct (chip s) as [|n c] eqn:Ec; try discriminate E;
    injection E as <-; destruct Hs as [Hp Hsub Hrep Hpl HT Hown]; rewrite Ec in *; unfold on_the_way in *; rewrite Ec in *.
  - split; try done; simpl; try (rewrite answers_snoc, <- app_assoc; done).
    + apply Forall_app. split; [done|]. by apply Forall_singleton.
    + unfold on_the_way. simpl. by rewrite answers_snoc, <- app_assoc.
  - assert (sublist c (n :: c)) as Hc by by apply sublist_cons. split; try done; simpl.
    + etrans; [|done]. by apply sublist_app.
    + eapply table_sublist; [done|]. unfold on_the_way. simpl. apply sublist_app; [done|]. by apply sublist_cons.
Qed.

Lemma sent_step r p p' : path_step (PSent r) p = Some p' →
  r ≠ EAGAIN ∧ Handoff.step (ESend r) p.(hand) = Some p'.(hand).
Proof.
  unfold path_step, mbind, option_bind. case_bool_decide; [done|]. intros E. split; [done|].
  destruct (Handoff.step _ _) as [h|]; [|done]. destruct (CardIrq.step _ _); [|done]. by injection E as <-.
Qed.

Lemma sound_step e s s' : sound s → exchange_step e s = Some s' → sound s'.
Proof.
  intros Hs E. destruct e as [id| | |out| |e|r got|p k| | |id param]; cbn [exchange_step] in E;
    try (by eapply sound_own); try (by eapply sound_chip); unfold recv_step, mbind, option_bind in E.
  - destruct (asker_step e s) as [[x lost]|] eqn:Ha; [|done]. destruct (path_step e _) as [pa|] eqn:Ep; [|done].
    injection E as <-. by eapply sound_path_step.
  - destruct (path_step _ _) as [pa|] eqn:Ep; [|done]. injection E as <-.
    assert (path_reachable pa) as Hpa by (eapply path_reachable_step; [apply Hs|done]).
    destruct (sent_step _ _ _ Ep) as [Hr Eh]. pose proof (sound_send s pa r got Hs Hpa Hr Eh) as Hs'. unfold in_sending in Hs'. by destruct (bus (hand (path s))).
  - case_bool_decide; [done|]. destruct (path_step _ _) as [pa|] eqn:Ep; [|done]. injection E as <-.
    assert (path_reachable pa) as Hpa by (eapply path_reachable_step; [apply Hs|done]).
    pose proof (sound_deliver (take k s.(fifo)) s (drop k s.(fifo)) Hs ltac:(by rewrite take_drop)) as Hs'.
    unfold path_step, mbind, option_bind in Ep. destruct (_ || _); [done|]. destruct (CardIrq.step _ _); [|done].
    injection Ep as <-. apply (sound_still _ _ Hs'); try done. by left.
Qed.

Lemma exchange_sound s : exchange_reachable s → sound s.
Proof.
  induction 1 as [|e s s' _ IH E]; [|by eapply sound_step].
  split; try done; simpl; [constructor|]. split; try done; simpl; [apply Mgr.new_counted|unfold slots_used; simpl; lia|..].
  - unfold slots_used. simpl. intros i Hi. split; [lia|]. intros _. by apply (lookup_replicate_2 8).
  - intros i c Hc. by destruct (proj1 (lookup_replicate 8 None (Some c) i) Hc).
Qed.

Definition in_exchange (x : asker_place) : nat := match token x with Some _ => 1 | None => 0 end.

Lemma occupied_prefix early m x k l : Table early m x k l → Mgr.occupied m = slots_used x k.
Proof.
  intros [[(Hl & _) _] _ Hu Hst _ _ _ _]. unfold Mgr.occupied. set (u := slots_used x k) in *.
  rewrite <- (take_drop u (Mgr.slots m)), countb_app.
  rewrite (countb_all Mgr.taken (take u _)), (countb_zero Mgr.taken (drop u _)).
  - rewrite length_take. lia.
  - intros o [i Hi]%list_elem_of_lookup. rewrite lookup_drop in Hi. pose proof (lookup_lt_Some _ _ _ Hi).
    rewrite (proj2 (Hst (u + i)%nat ltac:(lia)) ltac:(lia)) in Hi. by injection Hi as <-.
  - intros o [i Hi]%list_elem_of_lookup. apply lookup_take_Some in Hi as [Hi Hlt]. destruct o; [done|].
    apply Hst in Hi; lia.
Qed.

(** [push] refuses exactly when eight exchanges have failed. *)
Lemma push_refused s id : sound s → s.(asker) = XIdle → (Mgr.push id s.(mgr)).1 = None ↔ s.(failed) = 8%nat.
Proof.
  intros Hs Hx. pose proof (sound_table s Hs) as HT. rewrite Hx in HT.
  rewrite Mgr.push_none_iff by apply HT. destruct HT as [[(Hl & _) _] Hin Hu Hst _ _ _ _].
  unfold slots_used in *. simpl in *. split.
  - intros [Hc|Hall]; [by rewrite Hc in Hin|]. destruct (decide (failed s = 8%nat)); [done|].
    assert (Mgr.slots (mgr s) !! failed s = Some None) as Hn by (apply Hst; lia).
    by destruct (Hall None (list_elem_of_lookup_2 _ _ _ Hn)).
  - intros H8. right. intros o [i Hi]%list_elem_of_lookup ->. pose proof (lookup_lt_Some _ _ _ Hi).
    apply Hst in Hi; lia.
Qed.

(** C8 (safety): in every run of the caller, the bus threads, the card's interrupt and the chip,
    whatever timed out, failed or was lost before, and although a message with the id of the confirmation
    may have been asked for by earlier exchanges whose answers still come: every exchange that
    succeeded was given the answer to its own command, cut to 256 bytes and to the caller's
    buffer.  The slots that are taken are one for each exchange that failed after its [push], and the
    caller's own; and [push] refuses exactly when eight have failed. *)
Theorem exchange_own_confirmation s :
  exchange_reachable s →
  Forall own_reply s.(replies) ∧ Mgr.occupied s.(mgr) = (s.(failed) + in_exchange s.(asker))%nat ∧
  (s.(asker) = XIdle → ∀ id, (Mgr.push id s.(mgr)).1 = None ↔ s.(failed) = 8%nat).
Proof.
  intros Hs%exchange_sound. pose proof (sound_table s Hs) as HT. pose proof (occupied_prefix _ _ _ _ _ HT) as Ho.
  split; [apply Hs|]. split; [rewrite Ho; unfold slots_used, in_exchange; destruct (token _); lia|].
  intros Hx id. by apply push_refused.
Qed.

(** ** An answer that is given away *)

(** Command [n] was submitted and no exchange is ever given its answer: the one that asked is over, or waits
    with nothing on the way. *)
Definition given_away (n : nat) (s : Exchange) : Prop :=
  sound s ∧ (n ≤ s.(path).(hand).(submitted))%nat ∧ Forall (λ r, r.1.1 ≠ n) s.(replies) ∧
  (cur s.(asker) = Some n → ∃ tok, s.(asker) = XWaits tok n ∧
     s.(mgr).(Mgr.slots) !! tok = Some (Some (Mgr.fresh_cmd (cfm_of n))) ∧ on_the_way s = []).

Lemma submitted_grows e p p' : path_step e p = Some p' → (p.(hand).(submitted) ≤ p'.(hand).(submitted))%nat.
Proof.
  intros E%step_parts. assert (∀ e h h', Handoff.step e h = Some h' → h.(submitted) ≤ h'.(submitted))%nat as Hs.
  { clear. intros e h h' E. Handoff.step_cases e h E; injection E as <-; simpl; lia. }
  destruct E as [e1 _ E1 _ _|? _ _ _ -> _|E1 _ _|? _ E1 _ _|_ E1 _ _|E1 _ _]; try done; by eapply Hs.
Qed.

(** A caller that waits with nothing on the way goes on waiting, or is told that the time is over. *)
Lemma waits_in_vain e s x lost pa tok n :
  sound s → s.(asker) = XWaits tok n → on_the_way s = [] → asker_step e s = Some (x, lost) →
  path_step e s.(path) = Some pa → x = s.(asker) ∧ flight pa.(hand) = flight s.(path).(hand).
Proof.
  intros Hs Hx Hw Ha E. pose proof (asker_still _ _ _ _ Ha) as Hst. pose proof (sound_place s Hs) as Hpl.
  rewrite Hx in Hpl. destruct Hpl as [_ Hm]. unfold on_the_way in Hw. apply app_nil in Hw as [_ Hw].
  apply app_nil in Hw as [_ Hw]. unfold flight in Hw at 1. apply app_nil in Hw as [Hb _].
  destruct e as [e|e| |r| |]; cbn [path_step] in E; unfold mbind, option_bind in E.
  - destruct (alone e); [|done]. destruct (Handoff.step e _) as [h|] eqn:Eh; [|done]. injection E as <-.
    pose proof (hand_still e _ _ Eh) as Hh. destruct e; lazymatch type of Hst with True => idtac | _ => destruct Hst as [-> _] end; try (split; [done|apply Hh]).
    all: try (destruct Hh as ([? Hh] & _); congruence).
    + unfold asker_step in Ha. by rewrite Hx in Ha.
    + cbn in Eh. by rewrite Hm in Eh.
    + cbn in Eh. by destruct (bus (hand (path s))).
  - destruct Hst as [-> _]. destruct (_ || _); [done|]. destruct (CardIrq.step _ _); [|done]. by injection E as <-.
  - destruct (Handoff.step _ _) as [h|] eqn:Eh; [|done]. cbn in Eh. by destruct (bus (hand (path s))).
  - discriminate Ha.
  - destruct (_ && _); [|done]. destruct (Handoff.step _ _) as [h|] eqn:Eh; [|done]. cbn in Eh.
    by destruct (bus (hand (path s))).
  - destruct Hst as [-> _]. cbn in E. injection E as <-. split; [done|]. unfold flight. simpl. by rewrite in_sending_wake.
Qed.

Lemma deliver_indications fs s rest : sound s → s.(fifo) = fs ++ rest → answers fs = [] → deliver fs s.(mgr) = s.(mgr).
Proof.
  revert s. induction fs as [|f fs IH]; intros s Hs Hf Ha; [done|]. destruct f as [n|id param]; [discriminate Ha|].
  simpl. pose proof (sound_frame s _ _ Hs Hf) as Hs1. simpl in Hs1.
  assert ((Mgr.on_cfm id param (mgr s)).1 = mgr s) as Hsame.
  { pose proof (sound_frames s Hs) as Hr. rewrite Hf in Hr. apply Forall_cons in Hr as [Hr _].
    destruct (Mgr.on_cfm id param _) as [m w] eqn:E.
    apply Mgr.on_cfm_inv in E as [(-> & _)|(i & c & Hi & Hw & _)]; [done| |apply (sound_table s Hs)].
    simpl in Hw, Hr. apply bool_decide_eq_true in Hw as [<- _].
    by rewrite (table_confirms _ _ _ _ _ (sound_table s Hs) i c Hi) in Hr. }
  rewrite Hsame in *. by apply (IH _ Hs1).
Qed.

Lemma asker_cur e s x lost : asker_step e s = Some (x, lost) →
  cur x = cur s.(asker) ∨ cur x = None ∨ cur x = Some (S s.(path).(hand).(submitted)).
Proof.
  intros Ha. pose proof (asker_still _ _ _ _ Ha) as Hst.
  destruct e as [e|e| |r| |]; [destruct e|..]; lazymatch type of Hst with True => clear Hst | _ => destruct Hst as [-> _]; by left end; unfold asker_step in Ha.
  - destruct (asker s); try discriminate Ha. case_bool_decide; [|done]. injection Ha as <- <-. by right; right.
  - destruct (asker s); try discriminate Ha. unfold mbind, option_bind in Ha.
    destruct (tx_result _) as [[]|]; [|done]. case_bool_decide; injection Ha as <- <-; [by left|by right; left].
  - injection Ha as <- <-. by right; left.
  - discriminate Ha.
Qed.

(** What is known of a state whose parts the exchange looks at are those of another. *)
Lemma given_away_same n s s' :
  given_away n s → sound s' → (n ≤ s'.(path).(hand).(submitted))%nat → s'.(asker) = s.(asker) →
  s'.(replies) = s.(replies) →
  (on_the_way s = [] → cur s.(asker) = Some n → s'.(mgr) = s.(mgr) ∧ on_the_way s' = []) → given_away n s'.
Proof.
  intros (Hs & Hle & Hr & Hw) Hs' Hle' Ha Hr' Hsame. split; [done|]. split; [done|]. rewrite Hr', Ha. split; [done|].
  intros Hn. destruct (Hw Hn) as (tok & Hx & Ht & Hway). exists tok. destruct (Hsame Hway Hn) as [-> ->]. done.
Qed.

Lemma given_away_own n e s s' : given_away n s → asker_own e s = Some s' → given_away n s'.
Proof.
  intros (Hs & Hle & Hr & Hw) E. pose proof (sound_own e s s' Hs E) as Hs'.
  assert (s'.(path) = s.(path) ∧ Forall (λ r, r.1.1 ≠ n) s'.(replies) ∧ cur s'.(asker) ≠ Some n) as (Hp & Hr' & Hc).
  { unfold asker_own in E.
    destruct e as [id| | |out| |e|r got|p k| | |id param], (asker s) as [|tok id'|tok j|tok j|tok j] eqn:Ex; try discriminate E.
    - destruct (confirms id); [|done]. destruct (Mgr.push id (mgr s)) as [[tok|] m]; by injection E as <-.
    - by injection E as <-.
    - destruct (_ && _) eqn:Hd; [|done]. apply andb_true_iff in Hd as [_ Hd]. injection E as <-. simpl in *.
      split_and!; [done|done|]. intros [= ->]. destruct (Hw eq_refl) as (tok' & [= <-] & Ht & _).
      by rewrite (Mgr.is_done_lookup tok _ _ (proj1 (table_counted _ _ _ _ _ (sound_table s Hs))) Ht) in Hd.
    - destruct (Mgr.take_cfm tok out (mgr s)) as [r m]. injection E as <-. simpl. split_and!; [done| |done].
      apply Forall_app. split; [done|]. destruct r; [|done]. apply Forall_singleton. simpl. intros ->.
      by destruct (Hw eq_refl) as (? & [=] & _).
    - destruct (bool_decide _); [|done]. by injection E as <-. }
  split; [done|]. rewrite Hp. split; [done|]. split; [done|]. by intros ?%Hc.
Qed.

Lemma given_away_step n e s s' : given_away n s → exchange_step e s = Some s' → given_away n s'.
Proof.
  intros Hg E. pose proof Hg as (Hs & Hle & Hr & Hw). pose proof (sound_step e s s' Hs E) as Hs'.
  destruct e as [id| | |out| |e|r got|p k| | |id param]; cbn [exchange_step] in E;
    try (by eapply given_away_own); unfold chip_step, recv_step, mbind, option_bind in E.
  - destruct (asker_step e s) as [[x lost]|] eqn:Ha; [|done]. destruct (path_step e _) as [pa|] eqn:Ep; [|done].
    injection E as <-. pose proof (submitted_grows _ _ _ Ep). split; [done|]. simpl. split; [lia|]. split; [done|].
    intros Hn. assert (cur s.(asker) = Some n) as Hc.
    { destruct (asker_cur _ _ _ _ Ha) as [Hc|[Hc|Hc]]; rewrite Hc in Hn; [done|done|injection Hn as <-; lia]. }
    destruct (Hw Hc) as (tok & Hx & Ht & Hway). destruct (waits_in_vain _ _ _ _ _ _ _ Hs Hx Hway Ha Ep) as [-> Hf].
    exists tok. split; [done|]. split; [done|]. unfold on_the_way in *. simpl. by rewrite Hf.
  - destruct (path_step _ _) as [pa|] eqn:Ep; [|done]. injection E as <-. pose proof (submitted_grows _ _ _ Ep).
    eapply given_away_same; try done; simpl; [lia|]. intros Hway _. exfalso.
    unfold on_the_way, flight in Hway. apply app_nil in Hway as [_ Hway]. apply app_nil in Hway as [_ Hway].
    apply app_nil in Hway as [Hb _]. apply sent_step in Ep as [_ Eh]. cbn in Eh. by destruct (bus (hand (path s))).
  - case_bool_decide; [done|]. destruct (path_step _ _) as [pa|] eqn:Ep; [|done]. injection E as <-.
    unfold path_step, mbind, option_bind in Ep. destruct (_ || _); [done|]. destruct (CardIrq.step _ _); [|done].
    injection Ep as <-. eapply given_away_same; try done; simpl. intros Hway _. unfold on_the_way in *. simpl.
    apply app_nil in Hway as [Hf ->]. rewrite <- (take_drop k (fifo s)) in Hf. unfold answers in Hf.
    rewrite omap_app in Hf. apply app_nil in Hf as [Hf1 Hf2]. split; [|unfold answers; by rewrite Hf2].
    apply (deliver_indications _ s (drop k (fifo s)) Hs); [by rewrite take_drop|done].
  - destruct (chip s) as [|j c] eqn:Ec; [done|]. injection E as <-. eapply given_away_same; try done.
    unfold on_the_way. rewrite Ec. intros Hway%app_nil. by destruct Hway.
  - destruct (chip s) as [|j c] eqn:Ec; [done|]. injection E as <-. eapply given_away_same; try done.
    unfold on_the_way. rewrite Ec. intros Hway%app_nil. by destruct Hway.
  - assert (s' = mkExchange s.(path) s.(mgr) s.(asker) s.(chip) (s.(fifo) ++ [Indication id param]) s.(failed) s.(replies))
      as -> by (destruct (confirms id), (chip s); try discriminate E; by injection E as <-).
    eapply given_away_same; try done. intros Hway _. split; [done|].
    unfold on_the_way in *. simpl. by rewrite answers_snoc, app_nil_r.
Qed.

Lemma given_away_run n es s s' : given_away n s → exchange_run es s = Some s' → given_away n s'.
Proof.
  revert s. induction es as [|e es IH]; intros s Hs; cbn [exchange_run]; [by intros [= <-]|].
  destruct (exchange_step e s) as [s1|] eqn:E; [|done]. apply IH. by eapply given_away_step.
Qed.

(** ** An exchange that nothing disturbs *)

(** The parties rest, and nothing is on the way. *)
Definition at_rest (s : Exchange) : Prop :=
  s.(asker) = XIdle ∧ s.(path).(hand).(bus) = TTop ∧ s.(path).(hand).(bustx_running) = true ∧
  s.(path).(card).(device) = true ∧ s.(path).(card).(CardIrq.lock) = None ∧
  s.(path).(card).(CardIrq.line).(status) = false ∧ s.(path).(card).(tx) = Outside ∧ s.(path).(card).(rx) = Outside ∧
  s.(path).(card).(waiter) = Outside ∧ on_the_way s = [] ∧ s.(fifo) = [].

(** The exchange, step by step: the command goes out, the chip answers, the receiving thread reads. *)
Definition whole (id : Z) (out : list Z) : list xevent :=
  XPush id :: map XPath [PHand Handoff.EWait; PHand EClear; PHand EStore; PHand ENotify; PHand ELook;
    PCard (EEnter Tx); PCard (EGate Tx); PCard (EMoved Tx)] ++
  [XSent 0 true; XPath (PHand ETake); XAnswer; XPath (PCard (EEnter Rx)); XPath (PCard (EGate Rx)); XRecv Rx 1;
   XPath (PCard (ELeave Rx)); XDone; XTake out].

Lemma run_step e es s s1 s' : exchange_step e s = Some s1 → exchange_run es s1 = Some s' →
  exchange_run (e :: es) s = Some s'.
Proof. intros E. cbn [exchange_run]. by rewrite E. Qed.

Lemma whole_runs s id out :
  sound s → at_rest s → (s.(failed) < 8)%nat →
  (∀ o, o ∈ s.(mgr).(Mgr.slots) → Mgr.awaits id o = false) →
  let n := S s.(path).(hand).(submitted) in cfm_of n = id → confirms id = true →
  ∃ s', exchange_run (whole id out) s = Some s' ∧ at_rest s' ∧ s'.(failed) = s.(failed) ∧
    s'.(path).(hand).(submitted) = n ∧
    let len := Nat.min (Nat.min (length (answer n)) 256) (length out) in
    s'.(replies) = s.(replies) ++ [(n, out, (len, splice 0 (take len (answer n)) out))].
Proof.
  intros Hr Hrest H8 Hno n Hid Hconf.
  pose proof (push_refused s id Hr (proj1 Hrest)) as Hpush.
  pose proof (sound_place s Hr) as Hpl. pose proof (proj1 (table_counted _ _ _ _ _ (sound_table s Hr))) as Hwf.
  destruct (Mgr.push id (mgr s)) as [[tok|] m1] eqn:Ep; [|exfalso; simpl in Hpush; destruct Hpush as [Hp _]; specialize (Hp eq_refl); lia].
  pose proof (Mgr.push_sole id (mgr s) tok m1 Hwf Hno Ep) as Hsole.
  destruct (Mgr.on_cfm id (answer n) m1) as [m2 w] eqn:Ec.
  destruct (Mgr.on_cfm_sole id tok (answer n) m1 m2 w Hsole Ec) as [_ [Hwf2 Hslot]].
  destruct (Mgr.take_holds _ tok out m2 (conj Hwf2 Hslot) eq_refl) as (m3 & Et & _).
  pose proof (Mgr.is_done_lookup tok m2 _ Hwf2 Hslot) as Hd.
  clear Hr Hpush Hsole Hno Hwf Hwf2 Hslot. remember (whole id out) as es eqn:Ees.
  destruct s as [[[mn bs rn pd txr sub snt lg] [[st en pe] dv lk wk tx rx wt cr [c1 c2 c3 c4]] rp] m x ch ff fl re].
  subst id n.
  destruct Hrest as (Hx & Hb & Hrn & Hdv & Hlk & Hst & Htx & Hrx & Hwt & Hway & Hff).
  unfold on_the_way, flight in Hway. simpl in *. subst x bs rn dv lk st tx rx wt ff. simpl in *.
  apply app_nil in Hway as [-> Hpd]. destruct pd; [done|]. subst mn. clear Hpd.
  eexists. split; [|split].
  - rewrite Ees. cbn [whole map app].
    eapply run_step; [cbn [exchange_step asker_own asker mgr]; rewrite Hconf, Ep; reflexivity|].
    eapply run_step; [reflexivity|].
    eapply run_step; [unfold exchange_step, asker_step; cbn [asker path hand submitted];
                      rewrite bool_decide_true by done; reflexivity|].
    do 11 (eapply run_step; [vm_compute; reflexivity|]).
    eapply run_step; [cbv -[Mgr.on_cfm]; rewrite Ec; reflexivity|].
    eapply run_step; [vm_compute; reflexivity|].
    eapply run_step; [cbv -[Mgr.is_done]; rewrite Hd; reflexivity|].
    eapply run_step; [cbv -[Mgr.take_cfm app take splice length Nat.min]; rewrite Et; reflexivity|]. reflexivity.
  - done.
  - split; [done|]. split; [done|]. cbn [replies]. do 3 f_equal. unfold Lmac.RWNX_CMD_E2AMSG_LEN_MAX.
    by rewrite take_kept by lia.
Qed.

(** C9 (liveness): in every state that can be reached, when the parties rest, nothing is on the way,
    fewer than eight exchanges have failed and none of them still waits for a message with this id, the
    exchange of the next command can run to its end: the caller gets the answer to its command, its slot is
    free again, and the parties rest as before. *)
Theorem exchange_completes s id out :
  exchange_reachable s → at_rest s → (s.(failed) < 8)%nat →
  (∀ o, o ∈ s.(mgr).(Mgr.slots) → Mgr.awaits id o = false) →
  let n := S s.(path).(hand).(submitted) in cfm_of n = id → confirms id = true →
  ∃ s', exchange_run (whole id out) s = Some s' ∧ at_rest s' ∧ s'.(failed) = s.(failed) ∧
    Mgr.occupied s'.(mgr) = s.(failed) ∧
    let len := Nat.min (Nat.min (length (answer n)) 256) (length out) in
    s'.(replies) = s.(replies) ++ [(n, out, (len, splice 0 (take len (answer n)) out))].
Proof.
  intros Hr Hrest H8 Hno n Hid Hconf. pose proof (exchange_sound s Hr) as Hs.
  destruct (whole_runs s id out Hs Hrest H8 Hno Hid Hconf) as (s' & E & Hrest' & Hf & _ & Hrep).
  exists s'. split_and!; try done.
  pose proof (exchange_sound s' (exchange_run_reachable _ _ _ Hr E)) as Hs'.
  rewrite (occupied_prefix _ _ _ _ _ (sound_table s' Hs')). unfold slots_used. by rewrite (proj1 Hrest').
Qed.
End Exchange.

(** ** Runs *)

(** Every command asks for the same message, the answers differ, and only that message confirms. *)
Definition one_id (n : nat) : Z := Lmac.MM_ADD_IF_CFM.
Definition numbered (n : nat) : list Z := [Z.of_nat n; 0].
Definition add_if_only (id : Z) : bool := id =? Lmac.MM_ADD_IF_CFM.

Definition run_one : list xevent → Exchange → option Exchange := exchange_run one_id numbered add_if_only.

(** A submission whose command goes out, and one whose caller gives up before the thread has looked. *)
Definition goes_out : list xevent :=
  XPush Lmac.MM_ADD_IF_CFM :: map XPath [PHand Handoff.EWait; PHand EClear; PHand EStore; PHand ENotify; PHand ELook;
    PCard (EEnter Tx); PCard (EGate Tx); PCard (EMoved Tx)] ++ [XSent 0 true; XPath (PHand Handoff.ETake)].
Definition not_noticed : list xevent :=
  XPush Lmac.MM_ADD_IF_CFM :: map XPath [PHand EClear; PHand EStore; PHand ENotify; PHand Handoff.EGiveUp].
(** The chip answers, the receiving thread reads the frame. *)
Definition comes_in : list xevent :=
  [XAnswer; XPath (PCard (EEnter Rx)); XPath (PCard (EGate Rx)); XRecv Rx 1; XPath (PCard (ELeave Rx))].

(** An exchange that times out, its late answer, and a second one in which an indication comes first. *)
Definition late_then_good : list xevent :=
  goes_out ++ [XTimeout] ++ comes_in ++ goes_out ++ [XIndicate 0x100 [7]; XAnswer; XPath (PCard (EEnter Waiter));
    XPath (PCard (EGate Waiter)); XRecv Waiter 2; XPath (PCard (ELeave Waiter)); XDone; XTake (zeros 4)].

(** The state a run ends in. *)
Definition end_of (es : list xevent) : Exchange := default exchange_start (run_one es exchange_start).

Lemma end_reachable es : run_one es exchange_start = Some (end_of es) →
  exchange_reachable one_id numbered add_if_only (end_of es).
Proof. apply exchange_run_reachable. constructor. Qed.

Lemma exchange_own_confirmation_witness :
  run_one late_then_good exchange_start = Some (end_of late_then_good) ∧
  (end_of late_then_good).(replies) = [(2%nat, zeros 4, (2%nat, [2; 0; 0; 0]))] ∧
  Forall (own_reply numbered) (end_of late_then_good).(replies) ∧
  Mgr.occupied (end_of late_then_good).(mgr) = ((end_of late_then_good).(failed) + 0)%nat.
Proof.
  assert (run_one late_then_good exchange_start = Some (end_of late_then_good)) as E by (vm_compute; reflexivity).
  pose proof (exchange_own_confirmation _ _ _ _ (end_reachable _ E)) as (Hr & Ho & _).
  split; [exact E|]. split; [vm_compute; reflexivity|]. split; [exact Hr|].
  assert ((end_of late_then_good).(asker) = XIdle) as Ha by (vm_compute; reflexivity).
  rewrite Ha in Ho. exact Ho.
Defined.

(** After an exchange whose late answer has come in, the next one completes. *)
Lemma exchange_completes_witness :
  let s := end_of (goes_out ++ [XTimeout] ++ comes_in) in
  s.(failed) = 1%nat ∧ ∃ s', run_one (whole Lmac.MM_ADD_IF_CFM (zeros 4)) s = Some s' ∧
    s'.(replies) = [(2%nat, zeros 4, (2%nat, [2; 0; 0; 0]))].
Proof.
  intros s. assert (exchange_reachable one_id numbered add_if_only s) as Hr by (apply end_reachable; vm_compute; reflexivity).
  destruct (exchange_completes one_id numbered add_if_only s Lmac.MM_ADD_IF_CFM (zeros 4) Hr) as (s' & E & _ & _ & _ & Hs').
  - split_and!; vm_compute; reflexivity.
  - vm_compute. repeat constructor.
  - assert (forallb (λ o, negb (Mgr.awaits Lmac.MM_ADD_IF_CFM o)) s.(mgr).(Mgr.slots) = true) as Hf by (vm_compute; reflexivity).
    intros o Ho%list_elem_of_In. apply negb_true_iff, (proj1 (forallb_forall _ _) Hf o Ho).
  - vm_compute. reflexivity.
  - vm_compute. reflexivity.
  - split; [vm_compute; reflexivity|]. exists s'. split; [exact E|]. vm_compute in Hs'. exact Hs'.
Defined.

(** C21 (counterexample): the bustx thread misses the notification of a command, and its caller gives
    up with the slot waiting; the next command that asks for the same message goes out, is answered, and
    its answer is read while its caller waits.  The answer has gone to the first slot: no run of the system
    from there gives it to its caller, which is left to time out. *)
Theorem exchange_starved :
  ∃ s, run_one (not_noticed ++ goes_out ++ comes_in) exchange_start = Some s ∧
    s.(asker) = XWaits 1 2 ∧ s.(path).(hand).(sent) = [2%nat] ∧ Mgr.is_done 0 s.(mgr) = true ∧
    ∀ es s', run_one es s = Some s' → Forall (λ r, r.1.1 ≠ 2%nat) s'.(replies).
Proof.
  set (es0 := not_noticed ++ goes_out ++ comes_in). exists (end_of es0).
  assert (run_one es0 exchange_start = Some (end_of es0)) as E by (vm_compute; reflexivity).
  split; [done|]. do 3 (split; [vm_compute; reflexivity|]). intros es s' E'.
  apply (given_away_run one_id numbered add_if_only 2 es (end_of es0) s'); [|done].
  split; [by apply exchange_sound, end_reachable|]. split; [by vm_compute; repeat constructor|].
  split; [vm_compute; constructor|]. intros _. exists 1%nat. split_and!; vm_compute; reflexivity.
Qed.
