(* ===== verification/Sync.v ===== *)
(** * Waiting: [driver/bsp/src/sync.rs] and [driver/bsp/src/sdio/irq.rs]

    Busy waits by counted loops, the probe signal, and the functions of
    irq.rs over the kernel's wait queues, which are a parameter; Handoff.v and CardIrq.v
    say what is used of them. *)

From S2P Require Import Prelude.

(** [u32::saturating_mul] *)
Definition saturating_mul (a b : Z) : Z := Z.min (a * b) (2 ^ 32 - 1).

(** driver/bsp/src/sync.rs:29-29 [LOOPS_PER_MS] *)
Definition LOOPS_PER_MS : Z := 1000.

(** driver/bsp/src/sync.rs:34-39 [delay_spin_ms]: the passes of the loop *)
Definition delay_spin_ms (ms : Z) : Z := saturating_mul ms LOOPS_PER_MS.

(** driver/bsp/src/sync.rs:43-48 [delay_spin_us]: the passes of the loop *)
Definition delay_spin_us (us : Z) : Z := Z.max (saturating_mul us LOOPS_PER_MS `quot` 1000) 1.

(** driver/bsp/src/sync.rs:54-60 [probe_wait_timeout_ms], the loop; [sees i] is what the flag holds as it is
    read for the [i]th time *)
Fixpoint probe_loop (limit : nat) (i : nat) (sees : nat → bool) : res () :=
  match limit with
  | O => Err 0
  | S limit => if sees i then Ok () else probe_loop limit (S i) sees
  end.

(** driver/bsp/src/sync.rs:52-61 [probe_wait_timeout_ms]; its [Err(())] as [Err 0] *)
Definition probe_wait_timeout_ms (timeout_ms : Z) (sees : nat → bool) : res () :=
  probe_loop (Z.to_nat (saturating_mul timeout_ms LOOPS_PER_MS)) 0 sees.

(** ** The wait queues of [irq.rs] *)

(** driver/bsp/src/sdio/irq.rs:32-44 [SDIO_WAIT_QUEUE, CMD_DONE_WAIT_QUEUE, BUSTX_WAIT_QUEUE, TX_DONE_WAIT_QUEUE], also driver/bsp/src/sdio/irq.rs:142-145 [SDIO_IRQ_WORK_QUEUE, SDIO_IRQ_WORK_DONE_QUEUE] *)
Inductive wait_queue := SdioWait | CmdDone | Bustx | TxDone | SdioIrqWork | SdioIrqWorkDone.

(** What the kernel gives: waking one waiter of a queue, waiting on a queue ([true] when the time has
    passed), registering the interrupt.  Handoff.v and CardIrq.v say what the driver relies on of the
    first two. *)
Class Kernel (K : Type) := {
  notify_one : wait_queue → K → K;
  wait_timeout : wait_queue → Z → K → bool * K;
  irq_register : Z → K → bool * K }.

(** driver/bsp/src/sdio/irq.rs:29-35 [USE_SOFT_IRQ_WAKE, SDIO_IRQ_REGISTER_ONCE] *)
Record Irq (K : Type) := mkIrq { kernel : K; use_soft_irq_wake : bool; register_once : bool }.
Arguments mkIrq {K} _ _ _.
Arguments kernel {K} _.
Arguments use_soft_irq_wake {K} _.
Arguments register_once {K} _.

(** driver/bsp/src/sdio/irq.rs:17-17 [SD1_PLIC_IRQ] *)
Definition SD1_PLIC_IRQ : Z := 38.
(** driver/bsp/src/sdio/irq.rs:20-20 [SDIO_TIMER_POLL_INTERVAL_MS] *)
Definition SDIO_TIMER_POLL_INTERVAL_MS : Z := 1.
(** driver/bsp/src/sdio/irq.rs:24-26 [sdmmc_irq] *)
Definition sdmmc_irq : Z := SD1_PLIC_IRQ.
(** driver/bsp/src/sdio/irq.rs:83-85 [use_sdio_irq]; the flag of the soft interrupt *)
Definition use_sdio_irq (soft_irq_wake : bool) : bool := negb (bool_decide (sdmmc_irq = 0)) || soft_irq_wake.

Section irq.
Context {K : Type} `{Kernel K}.

Definition on_kernel (f : K → K) (s : Irq K) : Irq K := mkIrq (f s.(kernel)) s.(use_soft_irq_wake) s.(register_once).
Definition wait_on (q : wait_queue) (ms : Z) (s : Irq K) : bool * Irq K :=
  let '(timed_out, k) := wait_timeout q ms s.(kernel) in
  (timed_out, mkIrq k s.(use_soft_irq_wake) s.(register_once)).

(** driver/bsp/src/sdio/irq.rs:47-50 [sdio_irq_handler]; the controller's part is [handle_sdhci_host_irq] of SdHost.v *)
Definition sdio_irq_handler (handle : K → K) : Irq K → Irq K := on_kernel (λ k, notify_one SdioWait (handle k)).
(** driver/bsp/src/sdio/irq.rs:54-56 [sdio_tick] *)
Definition sdio_tick : Irq K → Irq K := on_kernel (notify_one SdioWait).
(** driver/bsp/src/sdio/irq.rs:60-62 [set_use_soft_irq_wake] *)
Definition set_use_soft_irq_wake (enabled : bool) (s : Irq K) : Irq K := mkIrq s.(kernel) enabled s.(register_once).
(** driver/bsp/src/sdio/irq.rs:65-79 [ensure_sdio_irq_registered] *)
Definition ensure_sdio_irq_registered (s : Irq K) : Irq K :=
  if bool_decide (sdmmc_irq = 0) then s
  else if s.(register_once) then s
  else mkIrq (irq_register SD1_PLIC_IRQ s.(kernel)).2 s.(use_soft_irq_wake) true.
(** driver/bsp/src/sdio/irq.rs:88-93 [wait_sdio_or_timeout] *)
Definition wait_sdio_or_timeout (ms : Z) (s : Irq K) : Irq K :=
  if negb (use_sdio_irq s.(use_soft_irq_wake)) then s else (wait_on SdioWait ms s).2.
(** driver/bsp/src/sdio/irq.rs:97-99 [notify_wait_done] *)
Definition notify_wait_done : Irq K → Irq K := on_kernel (notify_one SdioWait).
(** driver/bsp/src/sdio/irq.rs:103-105 [notify_cmd_done] *)
Definition notify_cmd_done : Irq K → Irq K := on_kernel (notify_one CmdDone).
(** driver/bsp/src/sdio/irq.rs:117-119 [notify_bustx] *)
Definition notify_bustx : Irq K → Irq K := on_kernel (notify_one Bustx).
(** driver/bsp/src/sdio/irq.rs:128-130 [notify_tx_done] *)
Definition notify_tx_done : Irq K → Irq K := on_kernel (notify_one TxDone).
(** driver/bsp/src/sdio/irq.rs:147-149 [notify_sdio_irq_work] *)
Definition notify_sdio_irq_work : Irq K → Irq K := on_kernel (notify_one SdioIrqWork).
(** driver/bsp/src/sdio/irq.rs:158-160 [notify_sdio_irq_work_done] *)
Definition notify_sdio_irq_work_done : Irq K → Irq K := on_kernel (notify_one SdioIrqWorkDone).
(** driver/bsp/src/sdio/irq.rs:109-111 [wait_cmd_done_timeout] *)
Definition wait_cmd_done_timeout (ms : Z) : Irq K → bool * Irq K := wait_on CmdDone ms.
(** driver/bsp/src/sdio/irq.rs:122-124 [wait_bustx_or_timeout] *)
Definition wait_bustx_or_timeout (ms : Z) : Irq K → bool * Irq K := wait_on Bustx ms.
(** driver/bsp/src/sdio/irq.rs:133-135 [wait_tx_done_timeout] *)
Definition wait_tx_done_timeout (ms : Z) : Irq K → bool * Irq K := wait_on TxDone ms.
(** driver/bsp/src/sdio/irq.rs:152-154 [wait_sdio_irq_work_or_timeout] *)
Definition wait_sdio_irq_work_or_timeout (ms : Z) : Irq K → bool * Irq K := wait_on SdioIrqWork ms.
(** driver/bsp/src/sdio/irq.rs:163-165 [wait_sdio_irq_work_done_timeout] *)
Definition wait_sdio_irq_work_done_timeout (ms : Z) : Irq K → bool * Irq K := wait_on SdioIrqWorkDone ms.

(** The interrupt is registered once: later calls change nothing, whatever the kernel answered. *)
Lemma registered_once s : ensure_sdio_irq_registered (ensure_sdio_irq_registered s) = ensure_sdio_irq_registered s.
Proof. unfold ensure_sdio_irq_registered. simpl. by destruct (register_once s) eqn:E; simpl; rewrite ?E. Qed.

(** The receiving thread always waits on its queue: the soft interrupt's flag changes nothing. *)
Lemma wait_sdio_blocks ms s enabled :
  (wait_sdio_or_timeout ms (set_use_soft_irq_wake enabled s)).(kernel) = (wait_timeout SdioWait ms s.(kernel)).2.
Proof. unfold wait_sdio_or_timeout, wait_on. simpl. by destruct (wait_timeout SdioWait ms (kernel s)). Qed.
End irq.

(** The board has the hardware interrupt, so the flag decides nothing. *)
Lemma use_sdio_irq_always flag : use_sdio_irq flag = true.
Proof. done. Qed.

(** A delay in microseconds is that many passes, up to 4294967 of them. *)
Lemma delay_spin_us_passes us : 0 ≤ us → delay_spin_us us = Z.max (Z.min us 4294967) 1.
Proof.
  intros Hu. unfold delay_spin_us, saturating_mul, LOOPS_PER_MS. change (2 ^ 32 - 1) with 4294967295.
  destruct (Z.min_spec (us * 1000) 4294967295) as [[? ->]|[? ->]].
  - rewrite Z.quot_mul by done. lia.
  - change (4294967295 `quot` 1000) with 4294967. lia.
Qed.

Lemma probe_loop_spec limit i sees :
  probe_loop limit i sees = if existsb sees (seq i limit) then Ok () else Err 0.
Proof.
  revert i. induction limit as [|n IH]; intros i; simpl; [done|]. by destruct (sees i); simpl.
Qed.

(** The wait succeeds when the flag is seen set within its thousand reads per millisecond. *)
Lemma probe_wait_spec timeout_ms sees :
  0 ≤ timeout_ms →
  probe_wait_timeout_ms timeout_ms sees =
    if existsb sees (seq 0 (Z.to_nat (Z.min (timeout_ms * 1000) 4294967295))) then Ok () else Err 0.
Proof. intros _. apply probe_loop_spec. Qed.
